(* ===== verification/_CoqProject ===== *)
-Q . S2P
Prelude.v
RingBuf.v
Chan.v
Tally.v
Hub.v
HubInv.v
HubTrace.v
HubProps.v
Float64.v
RateLimit.v
Utf8.v
Ws.v
Duration.v
Runes.v
Calendar.v
Json.v
JsonThms.v
Wire.v
WireThms.v
Manager.v
ChatSys.v
ChatInv.v
ChatSafe.v
ChatProps.v
ChatThms.v
WireSys.v
Encoding.v
Errors.v
StreamKey.v
Store.v
Auth.v
StoreInv.v
AuthThms.v
Stream.v
StreamThms.v
StreamRows.v
StreamProps.v
StreamBoot.v
Shutdown.v
Pipe.v
Media.v
MediaInv.v
MediaThms.v
MediaProps.v
Rotation.v
AccountSpec.v
Transactions.v
TransactionThms.v
RowTypes.v
Http.v
Web.v
WebLib.v
Site.v
WebThms.v
WebJourney.v
WebPages.v
Broadcast.v
Config.v
Paths.v
Ffmpeg.v
Hls.v
Main.v
MainThms.v
