(* ===== verification/Prelude.v ===== *)
(** * chtiwt: a verification development

    chtiwt is a small live-streaming site in Go: a publisher sends RTMP with a
    stream key, ffmpeg turns it into HLS files, visitors watch them and chat
    over WebSockets; accounts, channels and sessions live in PostgreSQL.  This
    library models its Go code ([src/cmd], [src/internal]) and proves what each
    part guarantees, alone and together with the others.

    ** Parts, files, code

    Common ground
    - [Prelude]: results that may be errors or panics ([res]), programs over a
      state ([prog]), Go slices, [lastn], automation.  [Errors]: sentinels,
      wrapping, [errors.Is] and [errors.As].  [Utf8]: bytes, runes,
      [strings.TrimSpace].  [Encoding]: SHA-256 and raw-URL base64.  [Float64]:
      rounding to float64 on rationals.  [Duration]: [strconv.Itoa],
      [strconv.ParseBool], [time.ParseDuration].  [Paths]: [filepath.Clean] and
      [filepath.Join].  [Http]: cookies, the response writer, [ServeMux].
    [Runes]: writing runes, strings made valid.  [Calendar]: dates, RFC 3339.
    [Json]: [encoding/json]'s strings and grammar; [JsonThms]: what is printed
    is parsed, what is quoted is unquoted.

    Chat ([internal/chat])
    - [Chan]: buffered channels, whose misuse panics.  [Hub]: one room's actor
      (hub.go): [on_join], [on_leave], [on_send], [on_stop] are the cases of its
      [select], [dispatch] and [removeClient] its closures; clients are objects
      in a heap, since reader, writer and room share them.  [RateLimit]: the
      token buckets (ratelimit.go).  [Ws]: one frame (ws.go, [readLoop]).
      [Manager]: the rooms map and the reap timers (manager.go, service.go).
      [ChatSys]: [sstep], all goroutines of the package interleaved.  [Wire]:
      messages as JSON text (dto.go, [writeJSON], what [readLoop] decodes).
    - Theorems: [Tally], [HubInv], [HubTrace], [HubProps] (one room: no panic
      when clients behave, who is told what, nothing is missed, and when it does
      panic), [ChatInv], [ChatSafe], [ChatProps], [ChatThms] (the whole package:
      no panic, one room per channel, stop channels closed once, shutdown is
      final, only admissible messages), [RateLimit.user_quota], [WireThms] (a
      message written is the message read; what the room sends fits a frame and
      is clean text; a typed line reaches the room), [WireSys] (the package with
      the real codec: every socket gets clean text on every run).

    Accounts ([internal/auth], [internal/store/queries])
    - [Store]: the schema's tables as finite maps, each query as one statement,
      with constraints, serial numbers, text checks and connection faults.
      [StreamKey] (streamkey.go), [Auth] (service.go, validate.go, password.go,
      session.go): service methods as programs over the store, the signup with
      its transaction.  [Transactions]: any number of signups in flight, cut at
      their round trips and index insertions.
    - Theorems: [StoreInv] (what each statement keeps), [AuthThms] (signup is
      all or nothing, sessions, every account has its channel), [AccountSpec]
      (the service refines an abstract map of accounts), [RowTypes] (all rows
      stay well formed), [Rotation] (stream keys are replaced at once),
      [TransactionThms] (concurrent signups have the outcome of some order of
      whole signups, keep the accounts well formed and never wait in a circle;
      one signup alone is [Auth]'s [Signup]).

    Streams ([internal/stream])
    - [RingBuf]: ringbuf.go and the drain of stderr.  [Ffmpeg]: the command line
      and the start of a process (ffmpeg.go).  [Stream]: registry.go,
      session.go, ingest.go, service.go: [publish_step] is [OnPublish] cut at
      its accesses to the database, the file system, the processes and the
      registry, [tear_step] the body of [tearDown] cut likewise, and [lstep]
      interleaves all of them with exits, kills, watchdogs and the environment.
    [Pipe]: one [io.Pipe] with the encoder that writes to it, the bridge
    goroutine of ingest.go that copies it to ffmpeg's standard input, and their
    three ends ([copier_step] is [io.Copy] with its 32 KiB buffer).  [Media]:
    [Stream] with a pipe per process: the callbacks [OnSetDataFrame], [OnAudio],
    [OnVideo] ([callback]), [NewEncoder] in the middle of [OnPublish]
    ([publish]), the closing of the pipe by [tearDown] and by an [OnPublish]
    that gives up ([pipes_after], [close_torn]).
    - Theorems: [StreamThms] (the registry is exactly the live pipelines),
      [StreamRows] and [StreamProps] (who owns each open row; a shutdown that
      runs alone closes everything), [Shutdown] (the loop of [ShutdownLive]
      interleaved with traffic: it returns, and what it found is torn down),
      [StreamBoot] (boot, one publish from start to end, how a
      second publisher disturbs the first); [MediaInv] (whose each pipe is),
      [MediaThms] (what every interleaving keeps), [MediaProps] (ffmpeg is given
      its own publisher's bytes, in order and nothing else; callbacks and
      [OnPublish] return; a disconnect delivers all that was sent; a run of
      [Media] is a run of [Stream], [media_refines_stream]).

    The site ([internal/web], handlers and middleware of [internal/auth])
    - [Web]: every handler, the middleware, the routes; the interfaces
      [liveDirectory] and [chatGateway] that web declares are type classes here
      too, and the theorems about pages are proved against them ([WebPages]'s
      [directoryLaws]); [Stream] and, in [Site], [ChatSys] are the instances.
    - Theorems: [WebLib] (what a handler may do to the database), [WebThms] (no
      panic; only its owner changes a channel), [WebJourney] (a browser with a
      cookie jar signs up, logs in, logs out), [WebPages] (front page, watch
      page, chat entry, HLS files), [Broadcast] (accounts, streams and pages
      together: the key shown after a signup takes its channel on the air, on
      every visitor's pages, and off again).

    The process ([cmd/chtiwt], [internal/config], [internal/store])
    - [Config]: the environment variables.  [Main]: [boot], [run], exit status.
    - Theorems: [Config] (loading terminates, what is written is what is read),
      [Hls] (URLs, file server and ffmpeg agree on the files; channels keep to
      their own directories), [MainThms] (boot order, what each exit leaves
      behind, a restart heals).

    ** How the pieces meet

    The chat has its own state ([chat]); the stream pipeline has the database in
    its state ([live], field [st]); a request runs on a [site]: database, chat
    and response.  A handler sees the live directory as it is when the request
    is served.  [process] in [Main] puts pipeline and chat side by side: they
    share no memory, so their steps are two sequences.  [Stream] keeps of a
    process's input only whether it was closed ([p_stdin]); [Media] runs the
    bytes beside it.  While requests run, the
    pipeline's database changes under it: its environment step [LEnv] sets the
    clock and the channels to anything.

    ** Atomicity

    A step is what runs between two accesses to shared state.  The room's actor
    owns its maps, so one case of its [select] is one step, apart from the
    clients' queues, which the heap shares.  [reap] and [shutdownAll] run under
    the manager's lock up to their unlock; what they close afterwards are steps
    of their own.  Methods of the registry are atomic, [OnPublish] and
    [tearDown] are not.  One SQL statement is atomic, a signup is a transaction:
    [Transactions] interleaves signups at the isolation level READ COMMITTED,
    with the waits of unique indexes; elsewhere a signup runs in one go, which
    [signups_linearize] and [alone_is_Signup] justify.  A connection publishes once, as OBS does.  In [Pipe] a [Write] and
    a [Read] look whether an end is closed, then wait; each hand-over of bytes,
    each write to ffmpeg's input and each closing is a step of its own.

    ** Numbers, clocks, fuel

    Lengths are naturals, counters and bytes integers; where width matters it is
    written out: int32 for the published viewer count, int64 saturation of
    [Time.Sub], uint64 wrap-around in [time.ParseDuration], 32-bit words in
    SHA-256.  The token bucket is float64 arithmetic, rounded after each
    operation and without fused multiply-add.  Go times are nanoseconds,
    PostgreSQL timestamps microseconds, rounded down.  Recursion over bytes that
    is not structural (runes, the terms of a duration) runs on fuel, the number
    of bytes; [runes_fuel_enough], [valid_fuel_enough] and
    [Config.load_terminates] say that this is enough.  The JSON parser has twice
    the number of bytes, and two more ([parse_fuel_enough]); its nesting limit
    is the scanner's 10000.

    ** What is outside, and how it enters

    Parameters: [json.Unmarshal] for a chat frame (any function in [Ws] and
    [ChatSys], [Wire]'s in [WireThms] and [WireSys]), bcrypt (any
    functions; for logins, that a hash accepts exactly the passwords with the
    same [bcrypt_key], the first 72 bytes of the password and a zero byte,
    repeated), [mail.ParseAddress] (any predicate), the random source (its bytes
    are arguments; distinct randomness is the only assumption), PostgreSQL (the
    semantics of [Store]: a statement fails or happens, and its reply may be
    lost), golang-migrate, pgxpool, go-rtmp, go-flv, os/exec and the file system
    (what each call answers is an argument of the step).  go-flv's
    encoder is the sequence of its [Write] calls for the header and for a tag,
    and the error it returns by itself; [publish_returns] asks that the header
    is one [Write] of at most 32 KiB (ingest.go speaks of the 9-byte
    header), and [two_writes_hang] shows why.  flvtag's decoders are what a [message]
    carries: a tag, or the error of decoding.

    [net/http] is written out as far as the handlers use it: paths are lists of
    decoded segments, requests have clean paths (others are redirected before
    any handler runs), only the first [WriteHeader] counts, HEAD falls back to
    GET.  Paths are Unix paths without symbolic links.

    ** Not modelled

    html/template and the page texts beyond the data they get; request logging
    (no effect); the zone of a time a client writes; [DB.WithTx] and the
    other plumbing sqlc generates; the callbacks of the RTMP handler that hold
    no code; what ffmpeg does with its input; timeouts as such: a deadline that expires is a failed step.  In
    [Main] the final [ShutdownLive] runs alone ([ShutdownLive_schedule]: that is
    one schedule of [Shutdown]'s loop); [shutdown_amid_traffic] and
    [late_publisher_outlives_shutdown] say what traffic during it changes.

    ** What the modelling found

    A join whose backlog does not fit its queue, or a leave received before its
    join, panics the room ([room_panics_exactly], [late_joiner_kills_room],
    [leave_before_join_kills_room]); a reap can disconnect viewers who came back
    ([reap_disconnects_viewers]); a client registered in a stopped room hangs
    ([late_registration_hangs]); an eviction leaves the count stale
    ([evicted_viewer_stays_counted]).  [OnPublish] leaks its row on three error
    paths ([failed_publish_leaks_row]), starts ffmpeg before it knows that the
    channel is free ([publish_alone]), and an old tear down can delete the
    directory of a new stream ([old_pipeline_deletes_new_directory]); if ffmpeg
    dies while [NewEncoder] still has to write, nothing ever closes the pipe
    ([unwatched_encoder_hangs]).  A title
    cut inside a character is refused by the database ([update_title]).  A
    failed session lookup signs the browser out ([failed_lookup_signs_out]); a
    signup can lose the key it must show once ([signup_can_lose_the_key]);
    passwords of 72 bytes can be extended ([key_of_longer]).  A frame whose body
    is fine is refused for a field the server ignores ([other_fields_refuse]).  A failed HTTP
    shutdown skips the pipelines and the chat ([exit_decides_cleanup]). *)

From Stdlib Require Export Lia.
From stdpp Require Export base tactics numbers gmap strings fin_maps.
From stdpp Require Export list.

Declare Scope go_scope.
Delimit Scope go_scope with go.

(** ** Results

    A Go call that can fail (an [error] value, or a run-time panic) returns
    [res E A]. *)
Inductive res (E A : Type) : Type :=
| Ok (a : A)
| Err (e : E).
Arguments Ok {E A} a.
Arguments Err {E A} e.

#[export] Instance res_ret {E} : MRet (res E) := fun A a => Ok a.
#[export] Instance res_bind {E} : MBind (res E) := fun A B f m =>
  match m with Ok a => f a | Err e => Err e end.
#[export] Instance res_fmap {E} : FMap (res E) := fun A B f m =>
  match m with Ok a => Ok (f a) | Err e => Err e end.

Definition is_ok {E A} (r : res E A) : bool :=
  match r with Ok _ => true | Err _ => false end.

Definition is_some {A} (o : option A) : bool := match o with Some _ => true | None => false end.

Lemma res_bind_ok {E A B} (f : A -> res E B) a : (Ok a ≫= f) = f a.
Proof. reflexivity. Qed.

Lemma res_bind_err {E A B} (f : A -> res E B) e : (Err e ≫= f) = Err e.
Proof. reflexivity. Qed.

Lemma res_bind_inv {E A B} (m : res E A) (f : A -> res E B) b :
  (m ≫= f) = Ok b -> exists a, m = Ok a /\ f a = Ok b.
Proof. destruct m; [eauto | discriminate]. Qed.

(** A [for range] loop whose body may fail. *)
Fixpoint mfoldl {E A S : Type} (f : S -> A -> res E S) (s : S) (l : list A) : res E S :=
  match l with
  | [] => Ok s
  | a :: l => s' ← f s a; mfoldl f s' l
  end.

Lemma mfoldl_app {E A S} (f : S -> A -> res E S) s l1 l2 :
  mfoldl f s (l1 ++ l2) = (s' ← mfoldl f s l1; mfoldl f s' l2).
Proof.
  revert s; induction l1 as [|a l1 IH]; intros s; [reflexivity|].
  simpl. destruct (f s a); simpl; [apply IH | reflexivity].
Qed.

Lemma mfoldl_snoc {E A S} (f : S -> A -> res E S) s l a :
  mfoldl f s (l ++ [a]) = (s' ← mfoldl f s l; f s' a).
Proof.
  rewrite mfoldl_app. destruct (mfoldl f s l) as [s'|e]; [|reflexivity].
  simpl. unfold mbind. simpl. by destruct (f s' a).
Qed.

(** An invariant of the body is an invariant of the loop, and the loop
    cannot fail when the body cannot. *)
Lemma mfoldl_inv {E A S} (I : S -> Prop) (f : S -> A -> res E S) l s :
  I s ->
  (forall s a, a ∈ l -> I s -> exists s', f s a = Ok s' /\ I s') ->
  exists s', mfoldl f s l = Ok s' /\ I s'.
Proof.
  revert s; induction l as [|a l IH]; intros s Hs Hstep; [by eauto|].
  destruct (Hstep s a) as (s1 & H1 & HI); [set_solver | done |].
  simpl. rewrite H1. simpl. apply IH; [done|].
  intros; apply Hstep; [set_solver | done].
Qed.

(** What each iteration preserves, a loop that returns preserves. *)
Lemma mfoldl_preserves {E A S} (P : S -> Prop) (f : S -> A -> res E S) l s s' :
  (forall s a s', f s a = Ok s' -> P s -> P s') -> mfoldl f s l = Ok s' -> P s -> P s'.
Proof.
  intros Hf. revert s. induction l as [|a l IH]; intros s; cbn [mfoldl].
  - by intros [= <-].
  - intros (s1 & H1 & H2)%res_bind_inv Hs. eapply IH; [done | by eapply Hf].
Qed.

(** ** Stateful programs

    A Go method that mutates shared state and returns an error keeps the
    state it reached when it returns the error. *)
Definition prog (S E A : Type) : Type := S -> S * res E A.

#[export] Instance prog_ret {S E} : MRet (prog S E) := fun A a s => (s, Ok a).
#[export] Instance prog_bind {S E} : MBind (prog S E) := fun A B f m s =>
  match m s with
  | (s', Ok a) => f a s'
  | (s', Err e) => (s', Err e)
  end.

Definition throw {S E A} (e : E) : prog S E A := fun s => (s, Err e).
Definition gets {S E A} (f : S -> A) : prog S E A := fun s => (s, Ok (f s)).
Definition modify {S E} (f : S -> S) : prog S E unit := fun s => (f s, Ok tt).
Definition lift_res {S E A} (r : res E A) : prog S E A := fun s => (s, r).

(** [catch m h] is the [if err != nil { ... }] block after [m]. *)
Definition catch {S E1 E2 A} (m : prog S E1 A) (h : E1 -> prog S E2 A) : prog S E2 A :=
  fun s => match m s with
           | (s', Ok a) => (s', Ok a)
           | (s', Err e) => h e s'
           end.

Lemma prog_bind_eq {S E A B} (m : prog S E A) (f : A -> prog S E B) s :
  (m ≫= f) s = match m s with (s', Ok a) => f a s' | (s', Err e) => (s', Err e) end.
Proof. reflexivity. Qed.

(** ** Go slices

    Slicing out of range panics; [copy] moves the shorter length. *)
Inductive panic : Type :=
| SliceOutOfRange
| CloseOfClosedChannel
| SendOnClosedChannel
| NilDereference
| MustFailed.

#[export] Instance panic_eq_dec : EqDecision panic.
Proof. solve_decision. Defined.

Definition len {A} (l : list A) : Z := Z.of_nat (length l).

Definition slice_from {A} (l : list A) (i : Z) : res panic (list A) :=
  if decide (0 <= i <= len l)%Z then Ok (drop (Z.to_nat i) l) else Err SliceOutOfRange.

Definition slice_to {A} (l : list A) (i : Z) : res panic (list A) :=
  if decide (0 <= i <= len l)%Z then Ok (take (Z.to_nat i) l) else Err SliceOutOfRange.

Definition copy {A} (dst src : list A) : list A :=
  take (length dst) src ++ drop (length src) dst.

(** [copy(dst[i:], src)], which mutates [dst]. *)
Definition copy_from {A} (dst : list A) (i : Z) (src : list A) : res panic (list A) :=
  if decide (0 <= i <= len dst)%Z
  then Ok (take (Z.to_nat i) dst ++ copy (drop (Z.to_nat i) dst) src)
  else Err SliceOutOfRange.

Lemma slice_from_ok {A} (l : list A) i :
  (0 <= i <= len l)%Z -> slice_from l i = Ok (drop (Z.to_nat i) l).
Proof. intros. unfold slice_from. by rewrite decide_True. Qed.

Lemma slice_to_ok {A} (l : list A) i :
  (0 <= i <= len l)%Z -> slice_to l i = Ok (take (Z.to_nat i) l).
Proof. intros. unfold slice_to. by rewrite decide_True. Qed.

Lemma copy_from_ok {A} (dst : list A) i src :
  (0 <= i <= len dst)%Z ->
  copy_from dst i src = Ok (take (Z.to_nat i) dst ++ copy (drop (Z.to_nat i) dst) src).
Proof. intros. unfold copy_from. by rewrite decide_True. Qed.

Lemma length_copy {A} (dst src : list A) : length (copy dst src) = length dst.
Proof. unfold copy. rewrite length_app, length_take, length_drop. lia. Qed.

Lemma copy_short {A} (dst src : list A) :
  length src <= length dst -> copy dst src = src ++ drop (length src) dst.
Proof. intros. unfold copy. by rewrite take_ge. Qed.

Lemma copy_full {A} (dst src : list A) : length src = length dst -> copy dst src = src.
Proof. intros H. rewrite copy_short by lia. rewrite drop_ge by lia. apply app_nil_r. Qed.

(** ** The last [n] elements of a list *)
Definition lastn {A} (n : nat) (l : list A) : list A := drop (length l - n) l.

Lemma length_lastn {A} n (l : list A) : length (lastn n l) = min n (length l).
Proof. unfold lastn. rewrite length_drop. lia. Qed.

Lemma lastn_all {A} n (l : list A) : length l <= n -> lastn n l = l.
Proof. intros. unfold lastn. by replace (length l - n) with 0 by lia. Qed.

Lemma lastn_nil {A} n : lastn n (@nil A) = [].
Proof. by apply lastn_all, Nat.le_0_l. Qed.

Lemma lastn_app_r {A} n (l1 l2 : list A) : n <= length l2 -> lastn n (l1 ++ l2) = lastn n l2.
Proof.
  intros. unfold lastn. rewrite length_app, drop_app_ge by lia. f_equal. lia.
Qed.

Lemma lastn_app_l {A} n (l1 l2 : list A) :
  length l2 <= n -> lastn n (l1 ++ l2) = lastn (n - length l2) l1 ++ l2.
Proof.
  intros. unfold lastn. rewrite length_app, drop_app_le by lia. do 2 f_equal. lia.
Qed.

(** Forgetting early and forgetting late agree. *)
Lemma lastn_lastn_app {A} n (l1 l2 : list A) : lastn n (lastn n l1 ++ l2) = lastn n (l1 ++ l2).
Proof.
  destruct (decide (n <= length l2)).
  - by rewrite !lastn_app_r.
  - rewrite !lastn_app_l by lia. f_equal.
    unfold lastn. rewrite length_drop, drop_drop. f_equal. lia.
Qed.

(** ** Machine integers *)
Definition int32_of (z : Z) : Z := ((z + 2 ^ 31) mod 2 ^ 32 - 2 ^ 31)%Z.

Lemma int32_of_small z : (- 2 ^ 31 <= z < 2 ^ 31)%Z -> int32_of z = z.
Proof. intros. unfold int32_of. rewrite Z.mod_small; lia. Qed.

(** ** Automation *)
Ltac split_decide :=
  repeat match goal with
         | |- context [decide ?P] => destruct (decide P)
         | H : context [decide ?P] |- _ => destruct (decide P)
         end.

(** Case analysis on the scrutinee of a [match] in a hypothesis that says the
    match returned a given value. *)
Ltac inv_match H :=
  repeat match type of H with
         | context [match ?x with _ => _ end] => destruct x eqn:?; simplify_eq/=
         end.

Create HintDb chtiwt discriminated.
Create Rewrite HintDb go.
#[export] Hint Rewrite @length_copy @length_lastn @length_app @length_take @length_drop : go.
#[export] Hint Rewrite @res_bind_ok @res_bind_err : go.
(** Arithmetic on lengths, looking through local definitions. *)
Ltac len_tac :=
  repeat match goal with x := _ |- _ => subst x end;
  unfold len in *; autorewrite with go in *; lia.
