(* ===== verification/RingBuf.v ===== *)
(** * The ffmpeg stderr tail: [src/internal/stream/ringbuf.go] and the drain
    goroutine of [src/internal/stream/ffmpeg.go]

    The detailed operations work on the backing array with the head index and
    the [full] flag, slice by slice, and may panic where Go would.  [contents]
    abstracts the buffer to the byte string it holds; the refinement theorems
    say that writing is appending and forgetting all but the last [size]
    bytes, and that no slice expression of the code is ever out of range. *)

From Stdlib Require Import Strings.Byte.
From S2P Require Import Prelude.
Local Open Scope Z_scope.

#[export] Instance byte_eq_dec : EqDecision byte := Byte.byte_eq_dec.

Record ringBuffer := {
  rb_buf : list byte;
  rb_size : Z;
  rb_full : bool;
  rb_head : Z  (* next write position *)
}.

(** [make([]byte, capacity)] is a zero-filled slice. *)
Definition newRingBuffer (capacity : nat) : ringBuffer :=
  {| rb_buf := replicate capacity x00; rb_size := Z.of_nat capacity;
     rb_full := false; rb_head := 0 |}.

Definition Write (r : ringBuffer) (p : list byte) : res panic (ringBuffer * Z) :=
  let n := len p in
  if decide (n >= rb_size r) then
    tail ← slice_from p (n - rb_size r);
    Ok ({| rb_buf := copy (rb_buf r) tail; rb_size := rb_size r;
           rb_full := true; rb_head := 0 |}, n)
  else
    bf ← (if decide (rb_head r + n <= rb_size r) then
            b ← copy_from (rb_buf r) (rb_head r) p;
            Ok (b, rb_full r)
          else
            let k := rb_size r - rb_head r in
            p1 ← slice_to p k;
            b1 ← copy_from (rb_buf r) (rb_head r) p1;
            p2 ← slice_from p k;
            Ok (copy b1 p2, true));
    let head := rb_head r + n in
    let (head', full') := if decide (head >= rb_size r) then (head - rb_size r, true)
                          else (head, bf.2) in
    Ok ({| rb_buf := bf.1; rb_size := rb_size r; rb_full := full'; rb_head := head' |}, n).

Definition Snapshot (r : ringBuffer) : res panic (list byte) :=
  if negb (rb_full r) then
    src ← slice_to (rb_buf r) (rb_head r);
    Ok (copy (replicate (Z.to_nat (rb_head r)) x00) src)
  else
    let out := replicate (Z.to_nat (rb_size r)) x00 in
    old ← slice_from (rb_buf r) (rb_head r);
    let out := copy out old in
    new ← slice_to (rb_buf r) (rb_head r);
    copy_from out (rb_size r - rb_head r) new.

(** ** Invariant and abstraction *)
Definition rb_ok (r : ringBuffer) : Prop :=
  len (rb_buf r) = rb_size r /\ 0 <= rb_head r /\
  (rb_head r < rb_size r \/ rb_size r = 0 /\ rb_head r = 0).

(** The bytes the buffer holds, oldest first. *)
Definition contents (r : ringBuffer) : list byte :=
  let h := Z.to_nat (rb_head r) in
  if rb_full r then drop h (rb_buf r) ++ take h (rb_buf r) else take h (rb_buf r).

Lemma newRingBuffer_ok cap : rb_ok (newRingBuffer cap) /\ contents (newRingBuffer cap) = [].
Proof.
  unfold rb_ok, contents, newRingBuffer, len; simpl. rewrite length_replicate.
  split; [lia | by rewrite take_0].
Qed.

Lemma length_contents r : rb_ok r ->
  len (contents r) = if rb_full r then rb_size r else rb_head r.
Proof.
  intros (Hl & H0 & Hh). unfold contents, len in *.
  destruct (rb_full r); autorewrite with go; lia.
Qed.

(** Reading is total and returns exactly the abstract contents. *)
Lemma Snapshot_contents r : rb_ok r -> Snapshot r = Ok (contents r).
Proof.
  intros (Hl & H0 & Hh). unfold Snapshot, contents.
  destruct (rb_full r); simpl.
  - rewrite slice_from_ok, slice_to_ok by lia. simpl.
    set (old := drop _ _). set (new := take _ _).
    assert (Hold : len old = rb_size r - rb_head r) by (subst old; len_tac).
    assert (Hnew : len new = rb_head r) by (subst new; len_tac).
    rewrite copy_short by (rewrite length_replicate; len_tac).
    rewrite copy_from_ok by (unfold len; rewrite length_app, length_drop, length_replicate; len_tac).
    f_equal. replace (Z.to_nat (rb_size r - rb_head r)) with (length old) by len_tac.
    rewrite take_app_length, drop_app_length. f_equal.
    apply copy_full. rewrite length_drop, length_replicate. len_tac.
  - rewrite slice_to_ok by lia. simpl. f_equal. apply copy_full.
    rewrite length_replicate. len_tac.
Qed.

(** ** Write refines "append, keep the last [size] bytes"

    One lemma per branch of the code. *)
Lemma Write_big r p : rb_ok r -> len p >= rb_size r ->
  exists r', Write r p = Ok (r', len p) /\ rb_ok r' /\ rb_size r' = rb_size r /\
             contents r' = lastn (Z.to_nat (rb_size r)) p.
Proof.
  intros (Hl & H0 & Hh) Hbig. unfold Write. rewrite decide_True by done.
  rewrite slice_from_ok by lia. simpl. eexists; split; [reflexivity|].
  assert (Hc : copy (rb_buf r) (drop (Z.to_nat (len p - rb_size r)) p) =
               lastn (Z.to_nat (rb_size r)) p).
  { rewrite copy_full by len_tac. unfold lastn. f_equal. len_tac. }
  unfold rb_ok, contents; simpl. rewrite Hc, take_0, app_nil_r.
  split_and!; [len_tac | lia | lia | done | done].
Qed.

Lemma Write_straight r p : rb_ok r -> rb_head r + len p < rb_size r ->
  exists r', Write r p = Ok (r', len p) /\ rb_ok r' /\ rb_size r' = rb_size r /\
             contents r' = lastn (Z.to_nat (rb_size r)) (contents r ++ p).
Proof.
  intros (Hl & H0 & Hh) Hs. unfold Write. rewrite decide_False by lia.
  rewrite decide_True by lia. rewrite copy_from_ok by lia. simpl.
  rewrite decide_False by lia. eexists; split; [reflexivity|].
  set (h := Z.to_nat (rb_head r)). set (n := length p).
  rewrite copy_short by len_tac. rewrite drop_drop.
  unfold rb_ok, contents; simpl.
  split_and!; [len_tac | len_tac | len_tac | done |].
  replace (Z.to_nat (rb_head r + len p)) with (h + n)%nat by len_tac.
  fold h n. assert (Htk : take (h + n) (take h (rb_buf r) ++ p ++ drop (h + n) (rb_buf r)) =
                take h (rb_buf r) ++ p).
  { rewrite app_assoc, take_app_le by len_tac. apply take_ge. len_tac. }
  rewrite Htk. fold h. destruct (rb_full r).
  - rewrite (app_assoc (take h _)), drop_app_ge by len_tac.
    replace (h + n - _)%nat with 0%nat by len_tac. rewrite drop_0.
    rewrite !lastn_app_l by len_tac. rewrite <- !app_assoc. f_equal.
    unfold lastn. rewrite drop_drop. f_equal. len_tac.
  - rewrite lastn_all; [done | len_tac].
Qed.

Lemma Write_wrap r p : rb_ok r -> len p < rb_size r -> rb_size r <= rb_head r + len p ->
  exists r', Write r p = Ok (r', len p) /\ rb_ok r' /\ rb_size r' = rb_size r /\
             contents r' = lastn (Z.to_nat (rb_size r)) (contents r ++ p).
Proof.
  intros (Hl & H0 & Hh) Hs Hw. unfold Write. rewrite decide_False by lia.
  set (k := Z.to_nat (rb_size r - rb_head r)). set (h := Z.to_nat (rb_head r)).
  set (b := take k p). set (w := drop k p).
  assert (Hb : length b = k) by (subst b k; len_tac).
  assert (Hww : len w + rb_size r = rb_head r + len p) by (subst w k; len_tac).
  assert (Hout : contents r ++ p =
     (if rb_full r then drop h (rb_buf r) else []) ++ take h (rb_buf r) ++ b ++ w).
  { unfold contents. fold h. subst b w. rewrite take_drop.
    destruct (rb_full r); [by rewrite <- app_assoc | done]. }
  assert (Hlast : lastn (Z.to_nat (rb_size r)) (contents r ++ p) =
                  drop (length w) (take h (rb_buf r)) ++ b ++ w).
  { rewrite Hout, lastn_app_r by len_tac. unfold lastn.
    rewrite drop_app_le by len_tac. f_equal. f_equal. len_tac. }
  exists {| rb_buf := w ++ drop (length w) (take h (rb_buf r) ++ b); rb_size := rb_size r;
            rb_full := true; rb_head := Z.of_nat (length w) |}.
  split_and!.
  - destruct (decide (rb_head r + len p <= rb_size r)) as [Heq|Hgt].
    + assert (w = []) as Hw0 by (apply nil_length_inv; len_tac).
      rewrite copy_from_ok by lia. simpl.
      rewrite decide_True by lia. simpl. fold h.
      assert (Hp : p = b) by (subst b w; rewrite <- (take_drop k p) at 1; by rewrite Hw0, app_nil_r).
      rewrite copy_full by len_tac. rewrite Hw0; simpl. rewrite Hp at 1. do 3 f_equal. len_tac.
    + rewrite slice_to_ok by lia. simpl.
      rewrite copy_from_ok by lia. simpl. rewrite slice_from_ok by lia. simpl.
      rewrite decide_True by lia. simpl. fold k h b w.
      rewrite (copy_full (drop h _)) by len_tac. rewrite copy_short by len_tac.
      do 3 f_equal. len_tac.
  - unfold rb_ok; simpl. split_and!; len_tac.
  - done.
  - rewrite Hlast. unfold contents; simpl. rewrite Nat2Z.id.
    rewrite drop_app_length, take_app_length.
    rewrite drop_app_le by len_tac. by rewrite <- app_assoc.
Qed.

Lemma Write_refines r p : rb_ok r ->
  exists r', Write r p = Ok (r', len p) /\ rb_ok r' /\ rb_size r' = rb_size r /\
             contents r' = lastn (Z.to_nat (rb_size r)) (contents r ++ p).
Proof.
  intros Hr. destruct (decide (len p >= rb_size r)) as [Hb|Hb].
  - destruct (Write_big r p Hr Hb) as (r' & ? & ? & ? & Hc). exists r'.
    split_and!; [done..|]. rewrite Hc, lastn_app_r; [done | len_tac].
  - destruct (decide (rb_head r + len p < rb_size r)).
    + by apply Write_straight.
    + apply Write_wrap; [done | lia | lia].
Qed.

(** ** Runs of writes *)
Definition write_step (r : ringBuffer) (p : list byte) : res panic ringBuffer :=
  '(r', _) ← Write r p; Ok r'.

Lemma write_step_eq r p : write_step r p = fst <$> Write r p.
Proof. unfold write_step. by destruct (Write r p) as [[]|]. Qed.

Lemma writes_refine ps r : rb_ok r ->
  exists r', mfoldl write_step r ps = Ok r' /\ rb_ok r' /\ rb_size r' = rb_size r /\
             lastn (Z.to_nat (rb_size r)) (contents r') =
             lastn (Z.to_nat (rb_size r)) (contents r ++ concat ps).
Proof.
  revert r. induction ps as [|p ps IH]; intros r Hr; simpl.
  - exists r. by rewrite app_nil_r.
  - destruct (Write_refines r p Hr) as (r1 & HW & H1 & Hs & Hc).
    rewrite write_step_eq, HW. simpl.
    destruct (IH r1 H1) as (r2 & Hf & H2 & Hs2 & Hc2).
    exists r2. split_and!; [done | done | congruence |].
    rewrite Hs in Hc2. by rewrite Hc2, Hc, lastn_lastn_app, <- app_assoc.
Qed.

Lemma lastn_contents r : rb_ok r -> lastn (Z.to_nat (rb_size r)) (contents r) = contents r.
Proof.
  intros Hr. apply lastn_all. pose proof (length_contents r Hr) as Hl.
  destruct Hr as (? & ? & ?). destruct (rb_full r); len_tac.
Qed.

Lemma ringbuf_tail_aux (capacity : nat) (ps : list (list byte)) :
  exists r, mfoldl write_step (newRingBuffer capacity) ps = Ok r /\
            Snapshot r = Ok (lastn capacity (concat ps)).
Proof.
  destruct (newRingBuffer_ok capacity) as [Hok Hc].
  destruct (writes_refine ps _ Hok) as (r & Hf & Hr & Hs & Hl).
  exists r. split; [done|]. rewrite Snapshot_contents by done.
  simpl in Hs. rewrite <- (lastn_contents r Hr), Hs. simpl in Hl.
  by rewrite Hl, Nat2Z.id.
Qed.

(** ** The drain goroutine

    [bufio.Scanner] with [ScanLines]: tokens are the lines without their
    newline and without one trailing carriage return; a line that does not fit
    the buffer ends the scan. *)
Definition stderrTailSize : nat := Z.to_nat (8 * 1024).
Definition maxTokenSize : Z := 1024 * 1024.

Definition dropCR (l : list byte) : list byte :=
  match last l with
  | Some x0d => take (length l - 1) l
  | _ => l
  end.

Fixpoint scan_lines (acc data : list byte) : list (list byte) :=
  match data with
  | [] => if decide (acc = []) then []
          else if decide (len acc >= maxTokenSize) then [] else [dropCR acc]
  | c :: data =>
      if decide (c = x0a)
      then if decide (len acc >= maxTokenSize) then []
           else dropCR acc :: scan_lines [] data
      else scan_lines (acc ++ [c]) data
  end.

Definition drain_step (ring : ringBuffer) (line : list byte) : res panic ringBuffer :=
  '(ring, _) ← Write ring line;
  '(ring, _) ← Write ring [x0a];
  Ok ring.

(** The whole goroutine on everything ffmpeg wrote to stderr before it closed it. *)
Definition drain (stderr : list byte) : res panic ringBuffer :=
  mfoldl drain_step (newRingBuffer stderrTailSize) (scan_lines [] stderr).

Definition stderrTail (ring : ringBuffer) : res panic (list byte) := Snapshot ring.

Lemma drain_steps lines r :
  mfoldl drain_step r lines = mfoldl write_step r (concat (map (fun l => [l; [x0a]]) lines)).
Proof.
  revert r. induction lines as [|l lines IH]; intros r; [done|].
  cbn [map concat app mfoldl]. rewrite write_step_eq.
  change (drain_step r l) with ('(r1, _) ← Write r l; '(r2, _) ← Write r1 [x0a]; (Ok r2 : res panic _)).
  destruct (Write r l) as [[r1 ?]|]; simpl; [|done].
  rewrite write_step_eq. destruct (Write r1 [x0a]) as [[r2 ?]|]; simpl; [|done].
  apply IH.
Qed.

Lemma concat_line_pairs (lines : list (list byte)) :
  concat (concat (map (fun l => [l; [x0a]]) lines)) = concat (map (fun l => l ++ [x0a]) lines).
Proof.
  induction lines as [|l lines IH]; simpl; [done|]. by rewrite IH, <- app_assoc.
Qed.

Lemma drain_tail stderr : exists r, drain stderr = Ok r /\
  stderrTail r = Ok (lastn stderrTailSize
                       (concat (map (fun l => l ++ [x0a]) (scan_lines [] stderr)))).
Proof.
  unfold drain. rewrite drain_steps.
  destruct (ringbuf_tail_aux stderrTailSize
              (concat (map (fun l => [l; [x0a]]) (scan_lines [] stderr)))) as (r & Hf & Hs).
  exists r. split; [done|]. unfold stderrTail. by rewrite Hs, concat_line_pairs.
Qed.

(** A line the scanner passes on unchanged. *)
Definition plain_line (l : list byte) : Prop :=
  (x0a ∉ l) /\ (last l <> Some x0d) /\ (len l < maxTokenSize).

Lemma dropCR_plain l : last l <> Some x0d -> dropCR l = l.
Proof. unfold dropCR. intros. destruct (last l) as [[]|]; congruence. Qed.

Lemma scan_lines_line l acc rest :
  x0a ∉ l -> len (acc ++ l) < maxTokenSize ->
  scan_lines acc (l ++ x0a :: rest) = dropCR (acc ++ l) :: scan_lines [] rest.
Proof.
  revert acc. induction l as [|c l IH]; intros acc Hn Hlen; simpl.
  - rewrite app_nil_r in *. rewrite decide_False by lia. done.
  - rewrite decide_False by set_solver.
    rewrite IH; rewrite <- ?app_assoc; [done | set_solver | done].
Qed.

Lemma scan_lines_plain lines : Forall plain_line lines ->
  scan_lines [] (concat (map (fun l => l ++ [x0a]) lines)) = lines.
Proof.
  induction 1 as [|l lines (Hn & Hcr & Hlen) _ IH]; [done|].
  cbn [map concat]. rewrite <- app_assoc. cbn [app].
  rewrite scan_lines_line, IH by done. by rewrite dropCR_plain.
Qed.

(** ** Properties *)

(** C20: The ring buffer is a faithful tail of its input: whatever its
    capacity and whatever byte slices are written, in any sizes and however
    they wrap, no operation panics and [Snapshot] then returns exactly the last
    [capacity] bytes written, in chronological order. *)
Theorem ringbuf_snapshot_is_tail (capacity : nat) (ps : list (list byte)) :
  exists r, mfoldl write_step (newRingBuffer capacity) ps = Ok r /\
            Snapshot r = Ok (lastn capacity (concat ps)).
Proof. apply ringbuf_tail_aux. Qed.

(** The crash diagnostics [tearDown] logs are the true end of ffmpeg's
    stderr: if the output is a sequence of newline-terminated lines, none with
    a carriage return before its newline and each shorter than the scanner's
    1 MiB token limit, then the tail is exactly its last 8 KiB. *)
Theorem stderr_tail_exact (lines : list (list byte)) (H : Forall plain_line lines) :
  let stderr := concat (map (fun l => l ++ [x0a]) lines) in
  exists ring, drain stderr = Ok ring /\ stderrTail ring = Ok (lastn stderrTailSize stderr).
Proof.
  intros stderr. destruct (drain_tail stderr) as (r & Hd & Ht).
  exists r. split; [done|]. rewrite Ht. subst stderr. by rewrite scan_lines_plain.
Qed.

Lemma stderr_tail_exact_witness :
  Forall plain_line [[x61; x62]; []; [x63]] /\
  exists ring, drain [x61; x62; x0a; x0a; x63; x0a] = Ok ring /\
               stderrTail ring = Ok [x61; x62; x0a; x0a; x63; x0a].
Proof.
  assert (H : Forall plain_line [[x61; x62]; []; [x63]])
    by (repeat constructor; unfold plain_line; simpl; first [set_solver | discriminate | done]).
  split; [exact H | exact (stderr_tail_exact [[x61; x62]; []; [x63]] H)].
Defined.

(** Wrap-around on a concrete buffer of four bytes. *)
Example ringbuf_wraps :
  (r ← mfoldl write_step (newRingBuffer 4) [[x61; x62; x63]; [x64; x65]; [x66]]; Snapshot r)
  = Ok [x63; x64; x65; x66].
Proof. reflexivity. Qed.
