(* ===== verification/Chan.v ===== *)
(** * Buffered Go channels

    The parts of the language's channels that the chat package relies on: a
    bounded FIFO queue, the non-blocking send of a [select] with a [default]
    branch, [close], and the receive of a [range] loop.  Sending on a closed
    channel and closing a closed channel panic, in a [select] too. *)

From S2P Require Import Prelude.

Record chan (A : Type) := { ch_cap : nat; ch_buf : list A; ch_closed : bool }.
Arguments ch_cap {A} c.
Arguments ch_buf {A} c.
Arguments ch_closed {A} c.
Arguments Build_chan {A} ch_cap ch_buf ch_closed.

Definition make_chan {A} (n : nat) : chan A := Build_chan n [] false.

Definition full {A} (c : chan A) : bool := bool_decide (ch_cap c <= length (ch_buf c)).

Definition push {A} (a : A) (c : chan A) : chan A :=
  Build_chan (ch_cap c) (ch_buf c ++ [a]) (ch_closed c).

(** [select { case c <- a: (Some) default: (None) }] *)
Definition try_send {A} (c : chan A) (a : A) : res panic (option (chan A)) :=
  if ch_closed c then Err SendOnClosedChannel
  else if full c then Ok None else Ok (Some (push a c)).

Definition set_closed {A} (c : chan A) : chan A := Build_chan (ch_cap c) (ch_buf c) true.

Definition close {A} (c : chan A) : res panic (chan A) :=
  if ch_closed c then Err CloseOfClosedChannel else Ok (set_closed c).

(** Receiving: a buffered value comes out even after [close]; an empty closed
    channel ends a [range] loop; an empty open one blocks. *)
Inductive received (A : Type) : Type :=
| Received (a : A) (c : chan A)
| Closed
| Blocked.
Arguments Received {A} a c.
Arguments Closed {A}.
Arguments Blocked {A}.

Definition recv {A} (c : chan A) : received A :=
  match ch_buf c with
  | a :: buf => Received a (Build_chan (ch_cap c) buf (ch_closed c))
  | [] => if ch_closed c then Closed else Blocked
  end.

Definition chan_ok {A} (c : chan A) : Prop := length (ch_buf c) <= ch_cap c.

Lemma full_false {A} (c : chan A) : full c = false <-> length (ch_buf c) < ch_cap c.
Proof. unfold full. rewrite bool_decide_eq_false. lia. Qed.

Lemma full_true {A} (c : chan A) : full c = true <-> ch_cap c <= length (ch_buf c).
Proof. unfold full. by rewrite bool_decide_eq_true. Qed.

Lemma try_send_open {A} (c : chan A) a : ch_closed c = false ->
  try_send c a = Ok (if full c then None else Some (push a c)).
Proof. intros H. unfold try_send. rewrite H. by destruct (full c). Qed.

Lemma try_send_closed {A} (c : chan A) a : ch_closed c = true ->
  try_send c a = Err SendOnClosedChannel.
Proof. intros H. unfold try_send. by rewrite H. Qed.

Lemma close_open {A} (c : chan A) : ch_closed c = false -> close c = Ok (set_closed c).
Proof. intros H. unfold close. by rewrite H. Qed.

Lemma close_closed {A} (c : chan A) : ch_closed c = true -> close c = Err CloseOfClosedChannel.
Proof. intros H. unfold close. by rewrite H. Qed.

Lemma push_ok {A} (a : A) c : full c = false -> chan_ok (push a c).
Proof. rewrite full_false. unfold chan_ok, push; simpl. rewrite length_app; simpl. lia. Qed.

Lemma chan_ok_set_closed {A} (c : chan A) : chan_ok (set_closed c) <-> chan_ok c.
Proof. done. Qed.

#[export] Hint Resolve push_ok : chtiwt.
