(* ===== verification/Tally.v ===== *)
(** * Reference counts in Go maps

    The room counts connections per user name and per viewer key in two
    [map[string]int]s, with [m[k]++] and [m[k]--; if m[k] <= 0 { delete }].
    [tally] is what such a map should hold for a set of connections; adding and
    removing one connection keeps the map equal to the tally, and the tests the
    code makes ("first", "last") are the set-theoretic ones. *)

From S2P Require Import Prelude.
Local Open Scope Z_scope.

(** Go map reads of an absent key give 0: [m[k]++] and [m[k]--; if m[k] <= 0 { delete }]. *)
Definition count_of (m : gmap string Z) (k : string) : Z := default 0 (m !! k).

Definition incr (m : gmap string Z) (k : string) : gmap string Z :=
  <[k := count_of m k + 1]> m.

Definition decr (m : gmap string Z) (k : string) : gmap string Z * bool :=
  if decide (count_of m k - 1 <= 0) then (delete k m, true)
  else (<[k := count_of m k - 1]> m, false).


Section tally.
(** The key each connection counts under; the empty key is not counted. *)
Context (f : nat -> string).
Implicit Types (cs : gset nat) (k : string) (m : gmap string Z).

Definition holders cs k : gset nat := filter (fun i => f i = k) cs.

Definition tally cs k : option Z :=
  if decide (k = "") then None
  else if decide (holders cs k = ∅) then None
  else Some (Z.of_nat (size (holders cs k))).

Definition tallies m cs : Prop := forall k, m !! k = tally cs k.

Lemma elem_of_holders i cs k : i ∈ holders cs k <-> f i = k /\ i ∈ cs.
Proof. unfold holders. by rewrite elem_of_filter. Qed.

Lemma tallies_empty : tallies ∅ ∅.
Proof.
  intros k. rewrite lookup_empty. unfold tally.
  assert (holders ∅ k = ∅) as -> by (apply set_eq; intros; rewrite elem_of_holders; set_solver).
  by repeat case_decide.
Qed.

Lemma holders_add_eq i cs : holders ({[i]} ∪ cs) (f i) = {[i]} ∪ holders cs (f i).
Proof. apply set_eq. intros j. rewrite elem_of_union, !elem_of_holders. set_solver. Qed.

Lemma holders_add_ne i cs k : f i <> k -> holders ({[i]} ∪ cs) k = holders cs k.
Proof. intros. apply set_eq. intros j. rewrite !elem_of_holders. set_solver. Qed.

Lemma holders_del_eq i cs : holders (cs ∖ {[i]}) (f i) = holders cs (f i) ∖ {[i]}.
Proof. apply set_eq. intros j. rewrite elem_of_difference, !elem_of_holders. set_solver. Qed.

Lemma holders_del_ne i cs k : f i <> k -> holders (cs ∖ {[i]}) k = holders cs k.
Proof. intros. apply set_eq. intros j. rewrite !elem_of_holders. set_solver. Qed.

Lemma tallies_count m cs k : tallies m cs -> k <> "" ->
  count_of m k = Z.of_nat (size (holders cs k)).
Proof.
  intros Hm Hk. unfold count_of. rewrite Hm. unfold tally. rewrite decide_False by done.
  case_decide as He; [by rewrite He | done].
Qed.

Lemma tally_nonempty cs k i : k <> "" -> i ∈ holders cs k ->
  tally cs k = Some (Z.of_nat (size (holders cs k))).
Proof.
  intros Hk Hi. unfold tally. rewrite decide_False by done.
  rewrite decide_False by set_solver. done.
Qed.

Lemma tallies_incr m cs i : tallies m cs -> i ∉ cs -> f i <> "" ->
  tallies (incr m (f i)) ({[i]} ∪ cs).
Proof.
  intros Hm Hi Hf k. unfold incr. destruct (decide (f i = k)) as [<-|Hne].
  - rewrite lookup_insert_eq, (tallies_count _ cs), (tally_nonempty _ _ i);
      [| done | apply elem_of_holders; set_solver | done | done].
    f_equal. rewrite holders_add_eq, size_union, size_singleton; [lia |].
    pose proof (elem_of_holders i cs (f i)). set_solver.
  - rewrite lookup_insert_ne by done. rewrite Hm. unfold tally.
    by rewrite holders_add_ne.
Qed.

(** The code's test for the first connection of a key. *)
Lemma incr_first m cs i : tallies m cs -> f i <> "" ->
  count_of (incr m (f i)) (f i) = 1 <-> holders cs (f i) = ∅.
Proof.
  intros Hm Hf. unfold incr at 1. unfold count_of at 1. rewrite lookup_insert_eq. simpl.
  rewrite (tallies_count _ cs) by done.
  rewrite <- (leibniz_equiv_iff (holders cs (f i))), <- size_empty_iff. lia.
Qed.

Lemma tallies_add_uncounted m cs i : tallies m cs -> f i = "" -> tallies m ({[i]} ∪ cs).
Proof.
  intros Hm Hf k. rewrite Hm. unfold tally. case_decide; [done|].
  rewrite holders_add_ne; [done | congruence].
Qed.

Lemma tallies_del_uncounted m cs i : tallies m cs -> f i = "" -> tallies m (cs ∖ {[i]}).
Proof.
  intros Hm Hf k. rewrite Hm. unfold tally. case_decide; [done|].
  rewrite holders_del_ne; [done | congruence].
Qed.

(** Removing one connection of a key: the map stays the tally, and the test
    for the last connection is exact. *)
Lemma tallies_decr m cs i : tallies m cs -> i ∈ cs -> f i <> "" ->
  tallies (decr m (f i)).1 (cs ∖ {[i]}) /\
  (decr m (f i)).2 = bool_decide (holders (cs ∖ {[i]}) (f i) = ∅).
Proof.
  intros Hm Hi Hf. unfold decr. rewrite (tallies_count _ cs) by done.
  assert (Hin : i ∈ holders cs (f i)) by (by apply elem_of_holders).
  assert (Hsz : size (holders (cs ∖ {[i]}) (f i)) = (size (holders cs (f i)) - 1)%nat).
  { rewrite holders_del_eq, size_difference, size_singleton; [done | set_solver]. }
  assert (size (holders cs (f i)) <> 0%nat) by (rewrite size_empty_iff; set_solver).
  assert (He : holders (cs ∖ {[i]}) (f i) = ∅ <-> size (holders (cs ∖ {[i]}) (f i)) = 0%nat)
    by (by rewrite size_empty_iff, leibniz_equiv_iff).
  case_decide as Hle; simpl; split.
  - intros k. unfold tally. destruct (decide (f i = k)) as [<-|Hne].
    + rewrite lookup_delete_eq, decide_False by done. rewrite decide_True; [done|].
      apply He. lia.
    + rewrite lookup_delete_ne, Hm by done. unfold tally. by rewrite holders_del_ne.
  - symmetry. apply bool_decide_eq_true, He. lia.
  - intros k. unfold tally. destruct (decide (f i = k)) as [<-|Hne].
    + rewrite lookup_insert_eq, decide_False by done. rewrite decide_False; [f_equal; lia|].
      rewrite He. lia.
    + rewrite lookup_insert_ne, Hm by done. unfold tally. by rewrite holders_del_ne.
  - symmetry. apply bool_decide_eq_false. rewrite He. lia.
Qed.

(** The number of entries is the number of distinct keys in use. *)
Lemma tallies_dom m cs : tallies m cs -> dom m = set_map f cs ∖ {[""]}.
Proof.
  intros Hm. apply set_eq. intros k.
  rewrite elem_of_dom, Hm, elem_of_difference, elem_of_singleton, elem_of_map.
  unfold tally. case_decide as H1; [split; [by intros [? ?] | set_solver]|].
  case_decide as H2; split.
  - by intros [? ?].
  - intros [(i & -> & Hi) _]. assert (i ∈ holders cs (f i)) by (by apply elem_of_holders).
    set_solver.
  - intros _. split; [|done]. apply set_choose_L in H2 as [i Hi%elem_of_holders]. naive_solver.
  - by eauto.
Qed.

Lemma tallies_size m cs : tallies m cs ->
  size m = size (set_map (D:=gset string) f cs ∖ {[""]}).
Proof. intros Hm. by rewrite <- (tallies_dom m cs Hm), size_dom. Qed.
End tally.

(** Only the keys of the counted connections matter. *)
Lemma tallies_ext f g m cs : (forall i, i ∈ cs -> f i = g i) -> tallies f m cs -> tallies g m cs.
Proof.
  intros Hfg Hm k. rewrite Hm. unfold tally.
  assert (holders f cs k = holders g cs k) as ->; [|done].
  apply set_eq. intros i. rewrite !elem_of_holders. naive_solver.
Qed.
