(* ===== verification/Hub.v ===== *)
(** * The chat room actor: [src/internal/chat/hub.go], [dto.go] and the client
    record of [ws.go]

    [hub] is the state of one room: the local variables of [run], the shared
    [client] objects (a heap indexed by client address, since the room, the
    reader and the writer goroutines all hold the pointer), and the atomic
    viewer counter.  [hub_step] is one iteration of the [select] loop. *)

From S2P Require Import Prelude Chan Tally.
Local Open Scope string_scope.
Local Open Scope Z_scope.

Definition KindMessage : string := "message".
Definition KindSystem : string := "system".
Definition KindError : string := "error".
Definition KindViewers : string := "viewers".

(** Times are nanoseconds from 1970; the zero value is [zeroTime]. *)
Record Message := {
  msg_ID : string;
  msg_Type : string;
  msg_User : string;
  msg_Body : string;
  msg_At : Z;
  msg_Count : Z
}.

#[export] Instance Message_eq_dec : EqDecision Message.
Proof. solve_decision. Defined.

(** [time.Time{}], the first instant of year 1, in nanoseconds from 1970. *)
Definition zeroTime : Z := -62135596800000000000.

Definition historySize : nat := 50.
Definition clientSendBuffer : nat := 32.

Record inbound := { in_user : string; in_body : string }.

Record client := {
  username : string;  (* empty for guests *)
  userID : Z;         (* 0 for guests *)
  anonKey : string;
  out : chan Message;
  closed : bool
}.

Definition viewerKey (c : client) : string :=
  if negb (String.eqb (username c) "") then "u:" +:+ username c
  else if negb (String.eqb (anonKey c) "") then "g:" +:+ anonKey c
  else "".

(** The client [ServeWS] allocates. *)
Definition new_client (username : string) (userID : Z) (anonKey : string) : client :=
  {| username := username; userID := userID; anonKey := anonKey;
     out := make_chan clientSendBuffer; closed := false |}.

Definition with_out (c : client) (o : chan Message) : client :=
  {| username := username c; userID := userID c; anonKey := anonKey c;
     out := o; closed := closed c |}.

Definition with_closed (c : client) : client :=
  {| username := username c; userID := userID c; anonKey := anonKey c;
     out := out c; closed := true |}.

Record hub := {
  heap : gmap nat client;
  clients : gset nat;
  history : list Message;
  userPresence : gmap string Z;
  viewerCounts : gmap string Z;
  viewerCount : Z;  (* atomic.Int32 *)
  running : bool
}.

Definition newRoom : hub :=
  {| heap := ∅; clients := ∅; history := []; userPresence := ∅; viewerCounts := ∅;
     viewerCount := 0; running := true |}.

Definition set_heap (h : gmap nat client) (st : hub) : hub :=
  {| heap := h; clients := clients st; history := history st;
     userPresence := userPresence st; viewerCounts := viewerCounts st;
     viewerCount := viewerCount st; running := running st |}.

Definition set_clients (cs : gset nat) (st : hub) : hub :=
  {| heap := heap st; clients := cs; history := history st;
     userPresence := userPresence st; viewerCounts := viewerCounts st;
     viewerCount := viewerCount st; running := running st |}.

Definition set_history (l : list Message) (st : hub) : hub :=
  {| heap := heap st; clients := clients st; history := l;
     userPresence := userPresence st; viewerCounts := viewerCounts st;
     viewerCount := viewerCount st; running := running st |}.

Definition set_counts (up vc : gmap string Z) (st : hub) : hub :=
  {| heap := heap st; clients := clients st; history := history st;
     userPresence := up; viewerCounts := vc;
     viewerCount := viewerCount st; running := running st |}.

(** [*c] for a client pointer. *)
Definition deref (st : hub) (i : nat) : res panic client :=
  match heap st !! i with Some c => Ok c | None => Err NilDereference end.

Definition store (i : nat) (c : client) (st : hub) : hub := set_heap (<[i:=c]> (heap st)) st.

Definition systemMessage (body : string) (now : Z) : Message :=
  {| msg_ID := ""; msg_Type := KindSystem; msg_User := ""; msg_Body := body;
     msg_At := now; msg_Count := 0 |}.

Definition viewerMessage (st : hub) : Message :=
  {| msg_ID := ""; msg_Type := KindViewers; msg_User := ""; msg_Body := "";
     msg_At := zeroTime; msg_Count := Z.of_nat (size (viewerCounts st)) |}.

Definition publishCount (st : hub) : hub :=
  {| heap := heap st; clients := clients st; history := history st;
     userPresence := userPresence st; viewerCounts := viewerCounts st;
     viewerCount := int32_of (Z.of_nat (size (viewerCounts st))); running := running st |}.

Definition appendHistory (m : Message) (st : hub) : hub :=
  let h := if decide (length (history st) = historySize) then drop 1 (history st)
           else history st in
  set_history (h ++ [m]) st.

Definition removeClient (st : hub) (i : nat) : res panic (hub * bool * bool) :=
  c ← deref st i;
  if closed c then Ok (st, false, false) else
  o ← close (out c);
  let st := store i (with_out (with_closed c) o) st in
  let st := set_clients (clients st ∖ {[i]}) st in
  let '(vc, viewerChanged) :=
    if negb (String.eqb (viewerKey c) "") then decr (viewerCounts st) (viewerKey c)
    else (viewerCounts st, false) in
  let '(up, wasLastPresence) :=
    if negb (String.eqb (username c) "") then decr (userPresence st) (username c)
    else (userPresence st, false) in
  Ok (set_counts up vc st, wasLastPresence, viewerChanged).

(** One iteration of [dispatch]'s loop: send, or evict the slow consumer. *)
Definition dispatch_one (m : Message) (st : hub) (i : nat) : res panic hub :=
  c ← deref st i;
  sent ← try_send (out c) m;
  match sent with
  | Some o => Ok (store i (with_out c o) st)
  | None => r ← removeClient st i; Ok r.1.1
  end.

(** [for c := range clients]: Go fixes no order; [dispatch_any_order] below shows
    that none is needed. *)
Definition dispatch (m : Message) (st : hub) : res panic hub :=
  mfoldl (dispatch_one m) st (elements (clients st)).

(** The backlog loop of the join case: the flag says it overflowed. *)
Fixpoint deliver (o : chan Message) (backlog : list Message) : res panic (chan Message * bool) :=
  match backlog with
  | [] => Ok (o, false)
  | m :: backlog =>
      sent ← try_send o m;
      match sent with
      | Some o => deliver o backlog
      | None => Ok (o, true)
      end
  end.

(** *** The cases of the [select] *)

Definition on_join (st : hub) (i : nat) (now : Z) : res panic hub :=
  c ← deref st i;
  '(o, overflow) ← deliver (out c) (history st);
  if (overflow : bool) then
    o ← close o;
    Ok (store i (with_out c o) st)
  else
    let st := store i (with_out c o) st in
    let st := set_clients ({[i]} ∪ clients st) st in
    let vk := viewerKey c in
    let '(vc, viewerChanged) :=
      if negb (String.eqb vk "") then
        let vc := incr (viewerCounts st) vk in (vc, bool_decide (count_of vc vk = 1))
      else (viewerCounts st, false) in
    let st := set_counts (userPresence st) vc st in
    st ← (if negb (String.eqb (username c) "") then
            let up := incr (userPresence st) (username c) in
            let st := set_counts up (viewerCounts st) st in
            if decide (count_of up (username c) = 1)
            then dispatch (systemMessage (username c +:+ " joined") now) st
            else Ok st
          else Ok st);
    if viewerChanged then
      let st := publishCount st in dispatch (viewerMessage st) st
    else
      c ← deref st i;
      sent ← try_send (out c) (viewerMessage st);
      match sent with
      | Some o => Ok (store i (with_out c o) st)
      | None => Ok st
      end.

(** The flag says that [onEmpty] was called. *)
Definition on_leave (st : hub) (i : nat) (now : Z) : res panic (hub * bool) :=
  '(st, wasLastPresence, viewerChanged) ← removeClient st i;
  st ← (if wasLastPresence : bool then
          c ← deref st i;
          dispatch (systemMessage (username c +:+ " left") now) st
        else Ok st);
  st ← (if viewerChanged : bool then
          let st := publishCount st in dispatch (viewerMessage st) st
        else Ok st);
  Ok (st, bool_decide (size (clients st) = 0%nat)).

(** [uuid] is what [uuid.NewV7] returned; [uuid.Must] panics on an error. *)
Definition stamp (msg : inbound) (uuid : option string) (now : Z) : res panic Message :=
  match uuid with
  | Some id => Ok {| msg_ID := id; msg_Type := KindMessage; msg_User := in_user msg;
                     msg_Body := in_body msg; msg_At := now; msg_Count := 0 |}
  | None => Err MustFailed
  end.

Definition on_send (st : hub) (msg : inbound) (uuid : option string) (now : Z) : res panic hub :=
  m ← stamp msg uuid now;
  dispatch m (appendHistory m st).

Definition on_stop (st : hub) : res panic hub :=
  st ← mfoldl (fun st i => r ← removeClient st i; Ok r.1.1) st (elements (clients st));
  Ok {| heap := heap st; clients := clients st; history := history st;
        userPresence := userPresence st; viewerCounts := viewerCounts st;
        viewerCount := viewerCount st; running := false |}.

Inductive event :=
| EJoin (i : nat) (now : Z)
| ELeave (i : nat) (now : Z)
| ESend (msg : inbound) (uuid : option string) (now : Z)
| EStop.

(** One iteration of [run]; the flag says that [onEmpty] was called.  After
    [stop] the loop has returned and nothing is received any more. *)
Definition hub_step (st : hub) (e : event) : res panic (hub * bool) :=
  if negb (running st) then Ok (st, false) else
  match e with
  | EJoin i now => st ← on_join st i now; Ok (st, false)
  | ELeave i now => on_leave st i now
  | ESend msg uuid now => st ← on_send st msg uuid now; Ok (st, false)
  | EStop => st ← on_stop st; Ok (st, false)
  end.

(** The writer loop's receive from [c.out]: the message it writes to the socket,
    [None] when the loop ends or waits. *)
Definition writer_recv (st : hub) (i : nat) : hub * option Message :=
  match heap st !! i with
  | Some c => match recv (out c) with
              | Received m o => (store i (with_out c o) st, Some m)
              | _ => (st, None)
              end
  | None => (st, None)
  end.
