(* ===== verification/HubInv.v ===== *)
(** * The room's invariant and the specification of its operations

    [hub_ok] says that registered clients are open, that removed ones are
    flagged and their channel closed, and that the two count maps are the
    tallies of the registered clients.  Each operation of the room is
    characterised on every branch and preserves the invariant. *)

From S2P Require Import Prelude Chan Tally Hub.
Local Open Scope string_scope.

Definition name_of (h : gmap nat client) (i : nat) : string :=
  match h !! i with Some c => username c | None => "" end.

Definition key_of (h : gmap nat client) (i : nat) : string :=
  match h !! i with Some c => viewerKey c | None => "" end.

Record hub_ok (st : hub) : Prop := {
  ok_live : forall i, i ∈ clients st ->
    exists c, heap st !! i = Some c /\ closed c = false /\ ch_closed (out c) = false;
  ok_gone : forall i c, heap st !! i = Some c -> closed c = true -> ch_closed (out c) = true;
  ok_chan : forall i c, heap st !! i = Some c ->
    chan_ok (out c) /\ ch_cap (out c) = clientSendBuffer;
  ok_hist : length (history st) <= historySize;
  ok_pres : tallies (name_of (heap st)) (userPresence st) (clients st);
  ok_view : tallies (key_of (heap st)) (viewerCounts st) (clients st)
}.

(** The fields no removal or dispatch touches. *)
Definition frame (st st' : hub) : Prop :=
  history st' = history st /\ viewerCount st' = viewerCount st /\ running st' = running st.

Lemma frame_refl st : frame st st.
Proof. done. Qed.

Lemma frame_trans st1 st2 st3 : frame st1 st2 -> frame st2 st3 -> frame st1 st3.
Proof. unfold frame. intuition congruence. Qed.

#[export] Hint Resolve frame_refl frame_trans : chtiwt.

Definition gone (c : client) : client := with_out (with_closed c) (set_closed (out c)).
Definition sent (m : Message) (c : client) : client := with_out c (push m (out c)).

(** What a dispatch does to one registered client. *)
Definition dispatched (m : Message) (c : client) : client :=
  if full (out c) then gone c else sent m c.

Lemma deref_eq st i c : heap st !! i = Some c -> deref st i = Ok c.
Proof. unfold deref. by intros ->. Qed.

(** Two clients with the same identity. *)
Definition same_id (c c' : client) : Prop :=
  username c' = username c /\ userID c' = userID c /\ anonKey c' = anonKey c.

Lemma same_id_key c c' : same_id c c' -> viewerKey c' = viewerKey c.
Proof. unfold viewerKey. by intros (-> & _ & ->). Qed.

Lemma name_of_insert h i c c' j : h !! i = Some c -> same_id c c' ->
  name_of (<[i:=c']> h) j = name_of h j.
Proof.
  intros Hc (Hu & _). unfold name_of. destruct (decide (i = j)) as [<-|].
  - by rewrite lookup_insert_eq, Hc.
  - by rewrite lookup_insert_ne.
Qed.

Lemma key_of_insert h i c c' j : h !! i = Some c -> same_id c c' ->
  key_of (<[i:=c']> h) j = key_of h j.
Proof.
  intros Hc Hs. unfold key_of. destruct (decide (i = j)) as [<-|].
  - rewrite lookup_insert_eq, Hc. by apply same_id_key.
  - by rewrite lookup_insert_ne.
Qed.

Lemma name_of_eq h i c : h !! i = Some c -> name_of h i = username c.
Proof. unfold name_of. by intros ->. Qed.

Lemma key_of_eq h i c : h !! i = Some c -> key_of h i = viewerKey c.
Proof. unfold key_of. by intros ->. Qed.

Lemma string_neqb (s : string) : negb (String.eqb s "") = bool_decide (s <> "").
Proof.
  destruct (String.eqb_spec s ""); simpl; symmetry;
    [apply bool_decide_eq_false | apply bool_decide_eq_true]; naive_solver.
Qed.

(** A logged-in user is counted under a key of its own, and never shares one
    with a guest. *)
Lemma viewerKey_user c : username c <> "" -> viewerKey c = "u:" +:+ username c.
Proof. intros. unfold viewerKey. rewrite string_neqb, bool_decide_true by done. done. Qed.

Lemma viewerKey_guest c : username c = "" ->
  viewerKey c = if decide (anonKey c = "") then "" else "g:" +:+ anonKey c.
Proof.
  intros H. unfold viewerKey. rewrite H. simpl.
  rewrite string_neqb. by repeat case_decide || case_bool_decide.
Qed.

Lemma viewerKey_same_user c c' : username c <> "" ->
  viewerKey c = viewerKey c' <-> username c = username c'.
Proof.
  intros Hc. rewrite (viewerKey_user c Hc). split.
  - destruct (decide (username c' = "")) as [He|Hn].
    + rewrite viewerKey_guest by done. case_decide; simpl; discriminate.
    + rewrite viewerKey_user by done. intros [= ?]. done.
  - intros He. rewrite viewerKey_user; congruence.
Qed.

(** ** Writing a client object back *)
Lemma hub_ok_store st i c c' :
  hub_ok st -> heap st !! i = Some c -> same_id c c' ->
  (i ∈ clients st -> closed c' = false /\ ch_closed (out c') = false) ->
  (closed c' = true -> ch_closed (out c') = true) ->
  chan_ok (out c') -> ch_cap (out c') = clientSendBuffer ->
  hub_ok (store i c' st).
Proof.
  intros [Hl Hg Hc Hh Hp Hv] Hi Hid Hm Hgc Hk Hcap. split; simpl; try done.
  - intros j Hj. destruct (decide (i = j)) as [<-|].
    + rewrite lookup_insert_eq. naive_solver.
    + rewrite lookup_insert_ne by done. by apply Hl.
  - intros j d. destruct (decide (i = j)) as [<-|].
    + rewrite lookup_insert_eq. naive_solver.
    + rewrite lookup_insert_ne by done. by apply Hg.
  - intros j d. destruct (decide (i = j)) as [<-|].
    + rewrite lookup_insert_eq. naive_solver.
    + rewrite lookup_insert_ne by done. by apply Hc.
  - eapply tallies_ext; [|exact Hp]. intros. symmetry. by eapply name_of_insert.
  - eapply tallies_ext; [|exact Hv]. intros. symmetry. by eapply key_of_insert.
Qed.

(** ** removeClient *)
Definition last_presence (st : hub) (i : nat) (c : client) : bool :=
  bool_decide (username c <> "" /\
               holders (name_of (heap st)) (clients st ∖ {[i]}) (username c) = ∅).

Definition last_viewer (st : hub) (i : nat) (c : client) : bool :=
  bool_decide (viewerKey c <> "" /\
               holders (key_of (heap st)) (clients st ∖ {[i]}) (viewerKey c) = ∅).

Lemma removeClient_closed st i c : heap st !! i = Some c -> closed c = true ->
  removeClient st i = Ok (st, false, false).
Proof. intros Hi Hc. unfold removeClient. rewrite (deref_eq _ _ _ Hi). simpl. by rewrite Hc. Qed.

(** Dropping one connection from a count map. *)
Definition drop_count (m : gmap string Z) (k : string) : gmap string Z * bool :=
  if negb (String.eqb k "") then decr m k else (m, false).

Lemma drop_count_spec f m cs i : tallies f m cs -> i ∈ cs ->
  tallies f (drop_count m (f i)).1 (cs ∖ {[i]}) /\
  (drop_count m (f i)).2 = bool_decide (f i <> "" /\ holders f (cs ∖ {[i]}) (f i) = ∅).
Proof.
  intros Hm Hi. unfold drop_count. rewrite string_neqb. case_bool_decide as Hf; simpl.
  - destruct (tallies_decr f m cs i) as [? ->]; [done..|]. split; [done|].
    apply bool_decide_ext. tauto.
  - split; [apply tallies_del_uncounted; [done | destruct (decide (f i = "")); naive_solver]|].
    rewrite bool_decide_false; [done | tauto].
Qed.

Lemma removeClient_open st i c : heap st !! i = Some c -> closed c = false ->
  ch_closed (out c) = false ->
  removeClient st i =
    let vc := drop_count (viewerCounts st) (viewerKey c) in
    let up := drop_count (userPresence st) (username c) in
    Ok (set_counts up.1 vc.1 (set_clients (clients st ∖ {[i]}) (store i (gone c) st)),
        up.2, vc.2).
Proof.
  intros Hi Hc Ho. unfold removeClient, drop_count. rewrite (deref_eq _ _ _ Hi). simpl.
  rewrite Hc, close_open by done. simpl.
  destruct (negb (viewerKey c =? "")); [destruct (decr (viewerCounts st) (viewerKey c))|];
  (destruct (negb (username c =? "")); [destruct (decr (userPresence st) (username c))|]; done).
Qed.

Lemma hub_ok_remove st i c up vc : hub_ok st -> i ∈ clients st -> heap st !! i = Some c ->
  tallies (name_of (heap st)) up (clients st ∖ {[i]}) ->
  tallies (key_of (heap st)) vc (clients st ∖ {[i]}) ->
  hub_ok (set_counts up vc (set_clients (clients st ∖ {[i]}) (store i (gone c) st))).
Proof.
  intros [Hl Hg Hch Hh Hp Hv] Hi Hc Hup Hvc.
  assert (Hid : same_id c (gone c)) by done.
  split; simpl; try done.
  - intros j [Hj Hne]%elem_of_difference. rewrite lookup_insert_ne by set_solver. by apply Hl.
  - intros j d. destruct (decide (i = j)) as [<-|].
    + rewrite lookup_insert_eq. intros [= <-]. done.
    + rewrite lookup_insert_ne by done. by apply Hg.
  - intros j d. destruct (decide (i = j)) as [<-|].
    + rewrite lookup_insert_eq. intros [= <-]. simpl. by apply Hch in Hc.
    + rewrite lookup_insert_ne by done. by apply Hch.
  - eapply tallies_ext; [|exact Hup]. intros. symmetry. by eapply name_of_insert.
  - eapply tallies_ext; [|exact Hvc]. intros. symmetry. by eapply key_of_insert.
Qed.

Lemma removeClient_member st i c : hub_ok st -> i ∈ clients st -> heap st !! i = Some c ->
  exists st', removeClient st i = Ok (st', last_presence st i c, last_viewer st i c) /\
    hub_ok st' /\ frame st st' /\
    heap st' = <[i := gone c]> (heap st) /\ clients st' = clients st ∖ {[i]}.
Proof.
  intros Hok Hi Hc.
  destruct (ok_live st Hok i Hi) as (c' & Hc' & Hcl & Hopen). simplify_eq.
  pose proof (drop_count_spec _ _ _ i (ok_pres st Hok) Hi) as [Hup Hb1].
  pose proof (drop_count_spec _ _ _ i (ok_view st Hok) Hi) as [Hvc Hb2].
  rewrite (name_of_eq _ _ _ Hc) in Hup, Hb1. rewrite (key_of_eq _ _ _ Hc) in Hvc, Hb2.
  rewrite (removeClient_open st i c) by done. cbv zeta.
  eexists. split; [by rewrite Hb1, Hb2|].
  split; [by apply hub_ok_remove | done].
Qed.

(** ** dispatch *)
Lemma dispatch_one_member m st i c : hub_ok st -> i ∈ clients st -> heap st !! i = Some c ->
  exists st', dispatch_one m st i = Ok st' /\ hub_ok st' /\ frame st st' /\
    heap st' = <[i := dispatched m c]> (heap st) /\
    clients st' = if full (out c) then clients st ∖ {[i]} else clients st.
Proof.
  intros Hok Hi Hc. unfold dispatch_one. rewrite (deref_eq _ _ _ Hc). simpl.
  destruct (ok_live st Hok i Hi) as (c' & Hc' & Hcl & Hopen). simplify_eq.
  rewrite try_send_open by done. unfold dispatched. simpl.
  destruct (full (out c)) eqn:Hf.
  - destruct (removeClient_member st i c) as (st' & -> & ? & ? & ? & ?); [done..|].
    simpl. by exists st'.
  - eexists. split; [done|]. split; [|done].
    destruct (ok_chan st Hok i c Hc) as [? ?].
    apply hub_ok_store with c; simpl; try done; [congruence | by apply push_ok].
Qed.

Lemma dispatch_loop m l st : hub_ok st -> NoDup l -> (forall i, i ∈ l -> i ∈ clients st) ->
  exists st', mfoldl (dispatch_one m) st l = Ok st' /\ hub_ok st' /\ frame st st' /\
    (forall i, heap st' !! i = (if decide (i ∈ l) then dispatched m else id) <$> heap st !! i) /\
    (forall i, i ∈ clients st' <->
       i ∈ clients st /\ ~ (i ∈ l /\ exists c, heap st !! i = Some c /\ full (out c) = true)).
Proof.
  revert st. induction l as [|i l IH]; intros st Hok Hnd Hl; cbn [mfoldl].
  - exists st. split_and!; [done.. | |].
    + intros i. rewrite decide_False by set_solver. by destruct (heap st !! i).
    + set_solver.
  - apply NoDup_cons in Hnd as [Hni Hnd].
    destruct (ok_live st Hok i) as (c & Hc & Hcl & Ho); [apply Hl; set_solver|].
    destruct (dispatch_one_member m st i c) as (st1 & -> & Hok1 & Hf1 & Hh1 & Hc1);
      [done | apply Hl; set_solver | done |]. simpl.
    assert (Hmem : forall j, j <> i -> j ∈ clients st1 <-> j ∈ clients st).
    { intros j Hj. rewrite Hc1. destruct (full (out c)); set_solver. }
    assert (Hlk : forall j, j <> i -> heap st1 !! j = heap st !! j).
    { intros j Hj. rewrite Hh1. by rewrite lookup_insert_ne. }
    destruct (IH st1) as (st' & Hrun & Hok' & Hf' & Hh' & Hc'); [done | done | |].
    { intros j Hj. apply Hmem; [set_solver|]. apply Hl. set_solver. }
    exists st'. split_and!; [done | done | by eapply frame_trans | |].
    + intros j. rewrite Hh'. destruct (decide (j = i)) as [->|Hne].
      * rewrite decide_False by done. rewrite decide_True by set_solver.
        rewrite Hh1, lookup_insert_eq, Hc. done.
      * rewrite Hlk by done. do 2 case_decide; try done; set_solver.
    + intros j. rewrite Hc'. destruct (decide (j = i)) as [->|Hne].
      * assert (i ∈ clients st) by (apply Hl; set_solver).
        rewrite Hc1. destruct (full (out c)) eqn:Hfull; split.
        -- set_solver.
        -- intros [_ []]. split; [set_solver | by eauto].
        -- intros _. split; [done|]. intros [_ (c' & ? & ?)]. congruence.
        -- intros _. split; [done|]. by intros [? _].
      * rewrite Hmem, Hlk, elem_of_cons by done. intuition congruence.
Qed.

(** A run of dispatches: every client that is still registered has received
    exactly [ms], in order; the others were evicted (flagged and closed). *)
Definition appended (ms : list Message) (c : client) : client :=
  with_out c (Build_chan (ch_cap (out c)) (ch_buf (out c) ++ ms) (ch_closed (out c))).

Record delivers (ms : list Message) (st st' : hub) : Prop := {
  dl_ok : hub_ok st';
  dl_hist : history st' = history st;
  dl_run : running st' = running st;
  dl_sub : clients st' ⊆ clients st;
  dl_kept : forall i c, i ∈ clients st' -> heap st !! i = Some c ->
    heap st' !! i = Some (appended ms c);
  dl_evicted : forall i, i ∈ clients st -> i ∉ clients st' ->
    exists c, heap st' !! i = Some c /\ closed c = true;
  dl_other : forall i, i ∉ clients st -> heap st' !! i = heap st !! i;
  dl_id : forall i c, heap st !! i = Some c ->
    exists c', heap st' !! i = Some c' /\ same_id c c'
}.

Lemma appended_nil c : appended [] c = c.
Proof. destruct c as [? ? ? [? ? ?] ?]. unfold appended, with_out. simpl. by rewrite app_nil_r. Qed.

Lemma appended_app ms1 ms2 c : appended ms2 (appended ms1 c) = appended (ms1 ++ ms2) c.
Proof. unfold appended, with_out. simpl. by rewrite app_assoc. Qed.

Lemma delivers_refl st : hub_ok st -> delivers [] st st.
Proof.
  intros. split; try done; [intros; by rewrite appended_nil | intros i c ?; by exists c].
Qed.

Lemma delivers_trans ms1 ms2 st1 st2 st3 :
  delivers ms1 st1 st2 -> delivers ms2 st2 st3 -> delivers (ms1 ++ ms2) st1 st3.
Proof.
  intros H1 H2. split.
  - apply H2.
  - rewrite (dl_hist _ _ _ H2). apply H1.
  - rewrite (dl_run _ _ _ H2). apply H1.
  - etrans; [apply H2 | apply H1].
  - intros i c Hi Hc. assert (Hi2 : i ∈ clients st2) by (by apply (dl_sub _ _ _ H2)).
    rewrite <- appended_app. apply (dl_kept _ _ _ H2); [done|]. by apply (dl_kept _ _ _ H1).
  - intros i Hi Hni. destruct (decide (i ∈ clients st2)) as [Hi2|Hi2].
    + by apply (dl_evicted _ _ _ H2).
    + destruct (dl_evicted _ _ _ H1 i) as (c & Hc & Hcl); [done..|].
      exists c. by rewrite (dl_other _ _ _ H2).
  - intros i Hi. rewrite (dl_other _ _ _ H2), (dl_other _ _ _ H1); [done..|].
    intros ?%(dl_sub _ _ _ H1). done.
  - intros i c Hc. destruct (dl_id _ _ _ H1 i c Hc) as (c2 & Hc2 & ? & ? & ?).
    destruct (dl_id _ _ _ H2 i c2 Hc2) as (c3 & Hc3 & ? & ? & ?).
    exists c3. split; [done|]. unfold same_id. intuition congruence.
Qed.

Lemma delivers_publish ms st st' : delivers ms st st' -> delivers ms st (publishCount st').
Proof. intros []. split; try done. by destruct dl_ok0. Qed.

Lemma dispatch_spec m st : hub_ok st ->
  exists st', dispatch m st = Ok st' /\ delivers [m] st st' /\ viewerCount st' = viewerCount st /\
    (forall i c, heap st !! i = Some c -> i ∈ clients st ->
       (i ∈ clients st' <-> full (out c) = false)).
Proof.
  intros Hok. unfold dispatch.
  destruct (dispatch_loop m (elements (clients st)) st) as (st' & Hrun & Hok' & Hf & Hh & Hc);
    [done | apply NoDup_elements | by intros i ?%elem_of_elements |].
  destruct Hf as (Hhist & Hvc & Hr).
  assert (Hmem : forall i, i ∈ clients st' <->
     i ∈ clients st /\ ~ exists c, heap st !! i = Some c /\ full (out c) = true).
  { intros i. rewrite Hc, elem_of_elements. tauto. }
  exists st'. split_and!; [done | | done |].
  - split; try done.
    + by intros i [? _]%Hmem.
    + intros i c Hi Hci. rewrite Hh, Hci. apply Hmem in Hi as [Hi Hnf].
      rewrite decide_True by set_solver. simpl. f_equal. unfold dispatched.
      destruct (full (out c)) eqn:?; [exfalso; by eauto | done].
    + intros i Hi Hni. destruct (ok_live st Hok i Hi) as (c & Hci & _).
      exists (dispatched m c). rewrite Hh, Hci, decide_True by set_solver. split; [done|].
      unfold dispatched. destruct (full (out c)) eqn:?; [done|].
      exfalso. apply Hni, Hmem. split; [done|]. intros (? & ? & ?). congruence.
    + intros i Hi. rewrite Hh, decide_False by set_solver. by destruct (heap st !! i).
    + intros i c Hci. rewrite Hh, Hci. case_decide; simpl; eexists; (split; [done|]); [|done].
      unfold dispatched. by destruct (full _).
  - intros i c Hci Hi. rewrite Hmem. destruct (full (out c)) eqn:?; split.
    + intros [_ []]. by eauto.
    + done.
    + done.
    + intros _. split; [done|]. intros (? & ? & ?). congruence.
Qed.

(** ** The join case *)
Lemma deliver_fits o ms : ch_closed o = false -> length (ch_buf o) + length ms <= ch_cap o ->
  deliver o ms = Ok (Build_chan (ch_cap o) (ch_buf o ++ ms) (ch_closed o), false).
Proof.
  revert o. induction ms as [|m ms IH]; intros o Ho Hlen; simpl in *.
  - rewrite app_nil_r. by destruct o.
  - rewrite try_send_open by done. assert (full o = false) as -> by (apply full_false; lia).
    simpl. rewrite IH; simpl; [by rewrite <- app_assoc | done | rewrite length_app; simpl; lia].
Qed.

Lemma deliver_overflows o ms : ch_closed o = false -> chan_ok o ->
  ch_cap o < length (ch_buf o) + length ms ->
  deliver o ms = Ok (Build_chan (ch_cap o)
                       (ch_buf o ++ take (ch_cap o - length (ch_buf o)) ms) (ch_closed o), true).
Proof.
  revert o. induction ms as [|m ms IH]; intros o Ho Hk Hlen; unfold chan_ok in *; simpl in *; [lia|].
  rewrite try_send_open by done. destruct (full o) eqn:Hf; simpl.
  - apply full_true in Hf. replace (ch_cap o - length (ch_buf o)) with 0 by lia.
    simpl. rewrite app_nil_r. by destruct o.
  - apply full_false in Hf. rewrite IH; simpl; try done; rewrite ?length_app; simpl; try lia.
    rewrite <- app_assoc. destruct (ch_cap o - length (ch_buf o)) as [|k] eqn:?; [lia|]. simpl.
    by replace (ch_cap o - (length (ch_buf o) + 1)) with k by lia.
Qed.

Lemma deliver_closed o m ms : ch_closed o = true -> deliver o (m :: ms) = Err SendOnClosedChannel.
Proof. intros. simpl. by rewrite try_send_closed. Qed.

(** A client [ServeWS] has allocated and the room has not yet seen. *)
Definition fresh (st : hub) (i : nat) (c : client) : Prop :=
  heap st !! i = Some c /\ closed c = false /\ ch_closed (out c) = false /\ i ∉ clients st.

(** The backlog fits the client's queue (the other join branch refuses it). *)
Definition backlog_fits (st : hub) (c : client) : Prop :=
  length (ch_buf (out c)) + length (history st) <= ch_cap (out c).
#[export] Instance backlog_fits_dec st c : Decision (backlog_fits st c).
Proof. unfold backlog_fits. apply _. Defined.

Definition first_presence (st : hub) (c : client) : bool :=
  bool_decide (username c <> "" /\ holders (name_of (heap st)) (clients st) (username c) = ∅).

Definition first_viewer (st : hub) (c : client) : bool :=
  bool_decide (viewerKey c <> "" /\ holders (key_of (heap st)) (clients st) (viewerKey c) = ∅).

Definition add_count (m : gmap string Z) (k : string) : gmap string Z :=
  if decide (k = "") then m else incr m k.

(** The state right after the client has been entered in the room's maps. *)
Definition registered (st : hub) (i : nat) (c : client) : hub :=
  set_counts (add_count (userPresence st) (username c)) (add_count (viewerCounts st) (viewerKey c))
    (set_clients ({[i]} ∪ clients st) (store i (appended (history st) c) st)).

Lemma tallies_add f m cs i : tallies f m cs -> i ∉ cs ->
  tallies f (add_count m (f i)) ({[i]} ∪ cs).
Proof.
  intros Hm Hi. unfold add_count. case_decide.
  - by apply tallies_add_uncounted.
  - by apply tallies_incr.
Qed.

Lemma registered_ok st i c : hub_ok st -> fresh st i c -> backlog_fits st c ->
  hub_ok (registered st i c).
Proof.
  intros Hok (Hi & Hcl & Ho & Hni) Hfit.
  destruct (ok_chan st Hok i c Hi) as [_ Hcap].
  assert (Hst : hub_ok (store i (appended (history st) c) st)).
  { apply hub_ok_store with c; simpl; try done; [congruence|].
    unfold chan_ok. simpl. rewrite length_app. apply Hfit. }
  destruct Hst as [Hl Hg Hch Hh Hp Hv]. split; simpl in *; try done.
  - intros j [->%elem_of_singleton|Hj]%elem_of_union.
    + rewrite lookup_insert_eq. by eauto.
    + by apply Hl.
  - pose proof (tallies_add _ _ _ i Hp Hni) as Ht.
    unfold name_of in Ht at 2. by rewrite lookup_insert_eq in Ht.
  - pose proof (tallies_add _ _ _ i Hv Hni) as Ht.
    unfold key_of in Ht at 2. by rewrite lookup_insert_eq in Ht.
Qed.

(** User name and viewer key become "first" together for a logged-in user. *)
Lemma first_together st i c : hub_ok st -> heap st !! i = Some c -> username c <> "" ->
  first_presence st c = first_viewer st c.
Proof.
  intros Hok Hi Hu. unfold first_presence, first_viewer. apply bool_decide_ext.
  assert (viewerKey c <> "") by (rewrite viewerKey_user by done; discriminate).
  assert (Hset : holders (name_of (heap st)) (clients st) (username c) =
                 holders (key_of (heap st)) (clients st) (viewerKey c)).
  { apply set_eq. intros j. rewrite !elem_of_holders.
    assert (Hj : j ∈ clients st -> name_of (heap st) j = username c <->
                                   key_of (heap st) j = viewerKey c); [|tauto].
    intros (d & Hd & _)%(ok_live st Hok). rewrite (name_of_eq _ _ _ Hd), (key_of_eq _ _ _ Hd).
    rewrite (eq_comm (username d)), (eq_comm (viewerKey d)). symmetry.
    by apply viewerKey_same_user. }
  rewrite Hset. tauto.
Qed.

(** The count sent to the new tab alone, when its queue has room. *)
Definition tell_count (st : hub) (i : nat) (c : client) : hub :=
  if full (out c) then st else store i (sent (viewerMessage st) c) st.

Definition joined_message (c : client) (now : Z) : Message :=
  systemMessage (username c +:+ " joined") now.
Definition left_message (c : client) (now : Z) : Message :=
  systemMessage (username c +:+ " left") now.

Lemma incr_first_viewer st i c : hub_ok st -> heap st !! i = Some c -> viewerKey c <> "" ->
  bool_decide (count_of (incr (viewerCounts st) (viewerKey c)) (viewerKey c) = 1%Z) = first_viewer st c.
Proof.
  intros Hok Hi Hk. unfold first_viewer. apply bool_decide_ext.
  pose proof (incr_first _ _ _ i (ok_view st Hok)) as Hf.
  rewrite (key_of_eq _ _ _ Hi) in Hf. rewrite Hf by done. tauto.
Qed.

Lemma incr_first_presence st i c : hub_ok st -> heap st !! i = Some c -> username c <> "" ->
  bool_decide (count_of (incr (userPresence st) (username c)) (username c) = 1%Z) = first_presence st c.
Proof.
  intros Hok Hi Hk. unfold first_presence. apply bool_decide_ext.
  pose proof (incr_first _ _ _ i (ok_pres st Hok)) as Hf.
  rewrite (name_of_eq _ _ _ Hi) in Hf. rewrite Hf by done. tauto.
Qed.

Lemma on_join_eq st i c now : hub_ok st -> fresh st i c -> backlog_fits st c ->
  on_join st i now =
    let st1 := registered st i c in
    if first_viewer st c then
      st2 ← (if first_presence st c then dispatch (joined_message c now) st1 else Ok st1);
      dispatch (viewerMessage (publishCount st2)) (publishCount st2)
    else Ok (tell_count st1 i (appended (history st) c)).
Proof.
  intros Hok Hfr Hfit. pose proof Hfr as (Hi & Hcl & Ho & Hni).
  unfold on_join. rewrite (deref_eq _ _ _ Hi). simpl. rewrite deliver_fits by done. simpl.
  rewrite !string_neqb.
  assert (Hnone : forall st1 : hub, heap st1 !! i = Some (appended (history st) c) ->
    (c0 ← deref st1 i; s ← try_send (out c0) (viewerMessage st1);
     match s with Some o => Ok (store i (with_out c0 o) st1) | None => Ok st1 end) =
    Ok (tell_count st1 i (appended (history st) c))).
  { intros st1 H1. rewrite (deref_eq _ _ _ H1). simpl.
    rewrite try_send_open by done. unfold tell_count. simpl. by destruct (full _). }
  unfold registered, add_count.
  destruct (decide (viewerKey c = "")) as [Hk|Hk].
  - rewrite (bool_decide_false (viewerKey c <> "")) by tauto. simpl.
    assert (Hu : username c = "").
    { destruct (decide (username c = "")); [done|]. by rewrite viewerKey_user in Hk. }
    rewrite (decide_True _ _ Hu), bool_decide_false by tauto. simpl.
    unfold first_viewer. rewrite bool_decide_false by tauto.
    apply Hnone. simpl. by rewrite lookup_insert_eq.
  - rewrite (bool_decide_true (viewerKey c <> "")) by done. simpl.
    rewrite (incr_first_viewer st i c) by done.
    destruct (decide (username c = "")) as [Hu|Hu].
    + rewrite bool_decide_false by tauto. simpl.
      unfold first_presence. rewrite (bool_decide_false (username c <> "" /\ _)) by tauto.
      destruct (first_viewer st c); [done|]. apply Hnone. simpl. by rewrite lookup_insert_eq.
    + rewrite (bool_decide_true (username c <> "")) by done. simpl.
      pose proof (incr_first_presence st i c Hok Hi Hu) as Hp.
      rewrite (first_together st i c) in * by done.
      destruct (first_viewer st c).
      * apply bool_decide_eq_true in Hp. by rewrite (decide_True _ _ Hp).
      * apply bool_decide_eq_false in Hp. rewrite (decide_False _ _ Hp). simpl.
        apply Hnone. simpl. by rewrite lookup_insert_eq.
Qed.

Lemma tell_count_ok st i c : hub_ok st -> heap st !! i = Some c -> i ∈ clients st ->
  hub_ok (tell_count st i c) /\ clients (tell_count st i c) = clients st.
Proof.
  intros Hok Hi Hm. unfold tell_count. destruct (full (out c)) eqn:Hf; [done|].
  split; [|done]. destruct (ok_live st Hok i Hm) as (c' & Hc' & Hcl & Ho). simplify_eq.
  destruct (ok_chan st Hok i c Hi) as [_ ?].
  apply hub_ok_store with c; simpl; try done; [congruence | by apply push_ok].
Qed.

(** The system and count messages of one event: no chat message among them. *)
Definition is_chat (m : Message) : Prop := msg_Type m = KindMessage.
#[export] Instance is_chat_dec m : Decision (is_chat m).
Proof. unfold is_chat. apply _. Defined.

Definition chat_only (l : list Message) : list Message := filter is_chat l.

Definition viewers_message (n : nat) : Message :=
  {| msg_ID := ""; msg_Type := KindViewers; msg_User := ""; msg_Body := "";
     msg_At := zeroTime; msg_Count := Z.of_nat n |}.

(** Joining, backlog accepted, first connection of this viewer: the room
    announces the user (when logged in) and then the new count, to everyone. *)
Lemma on_join_first st i c now : hub_ok st -> fresh st i c -> backlog_fits st c ->
  first_viewer st c = true ->
  exists st' st2, on_join st i now = Ok st' /\
    delivers (if first_presence st c then [joined_message c now] else []) (registered st i c) st2 /\
    delivers [viewers_message (size (viewerCounts st2))] st2 st' /\
    viewerCount st' = int32_of (Z.of_nat (size (viewerCounts st2))).
Proof.
  intros Hok Hfr Hfit Hfv. rewrite (on_join_eq st i c now) by done. cbv zeta. rewrite Hfv.
  pose proof (registered_ok st i c Hok Hfr Hfit) as Hreg.
  assert (H2 : exists st2,
    (if first_presence st c then dispatch (joined_message c now) (registered st i c)
     else Ok (registered st i c)) = Ok st2 /\
    delivers (if first_presence st c then [joined_message c now] else []) (registered st i c) st2).
  { destruct (first_presence st c).
    - destruct (dispatch_spec (joined_message c now) _ Hreg) as (st2 & ? & ? & _). by exists st2.
    - exists (registered st i c). split; [done | by apply delivers_refl]. }
  destruct H2 as (st2 & -> & Hd2). simpl.
  assert (Hp : delivers [] st2 (publishCount st2))
    by (apply delivers_publish, delivers_refl; apply Hd2).
  destruct (dispatch_spec (viewerMessage (publishCount st2)) (publishCount st2))
    as (st' & -> & Hd & Hvc & _); [apply Hp|].
  exists st', st2. split_and!; [done | done | | by rewrite Hvc].
  exact (delivers_trans _ _ _ _ _ Hp Hd).
Qed.

(** Joining as a viewer the room already counts: nothing is broadcast. *)
Lemma on_join_again st i c now : hub_ok st -> fresh st i c -> backlog_fits st c ->
  first_viewer st c = false ->
  on_join st i now = Ok (tell_count (registered st i c) i (appended (history st) c)).
Proof.
  intros Hok Hfr Hfit Hfv. rewrite (on_join_eq st i c now) by done. cbv zeta. by rewrite Hfv.
Qed.

(** Joining with a backlog that does not fit the queue: the channel is closed
    but the [closed] flag is not set and the client is not registered. *)
Definition refused (st : hub) (c : client) : client :=
  with_out c (Build_chan (ch_cap (out c))
    (ch_buf (out c) ++ take (ch_cap (out c) - length (ch_buf (out c))) (history st)) true).

Lemma on_join_overflow st i c now : hub_ok st -> fresh st i c -> ~ backlog_fits st c ->
  on_join st i now = Ok (store i (refused st c) st).
Proof.
  intros Hok (Hi & Hcl & Ho & Hni) Hov. unfold backlog_fits in Hov.
  unfold on_join. rewrite (deref_eq _ _ _ Hi). simpl.
  rewrite deliver_overflows; [|done | by apply (ok_chan st Hok i c Hi) | lia]. simpl.
  rewrite close_open by done. simpl. done.
Qed.

Lemma refused_ok st i c : hub_ok st -> fresh st i c -> ~ backlog_fits st c ->
  hub_ok (store i (refused st c) st).
Proof.
  intros Hok (Hi & Hcl & Ho & Hni) Hov. unfold backlog_fits in Hov.
  destruct (ok_chan st Hok i c Hi) as [Hk Hcap]. unfold chan_ok in Hk.
  apply hub_ok_store with c; simpl; try done.
  unfold chan_ok; simpl. rewrite length_app, length_take. lia.
Qed.

Lemma on_join_ok st i c now : hub_ok st -> fresh st i c ->
  exists st', on_join st i now = Ok st' /\ hub_ok st'.
Proof.
  intros Hok Hfr. destruct (decide (backlog_fits st c)) as [Hfit|Hov].
  - destruct (first_viewer st c) eqn:Hfv.
    + destruct (on_join_first st i c now) as (st' & st2 & ? & ? & Hd & _); [done..|].
      exists st'. split; [done | apply Hd].
    + rewrite (on_join_again st i c now) by done. eexists; split; [done|].
      apply tell_count_ok; [by apply registered_ok | simpl; by rewrite lookup_insert_eq |].
      simpl. set_solver.
  - rewrite (on_join_overflow st i c now) by done. eexists; split; [done | by apply refused_ok].
Qed.

(** ** The leave case *)
Definition without (st : hub) (i : nat) (c : client) : hub :=
  set_counts (drop_count (userPresence st) (username c)).1 (drop_count (viewerCounts st) (viewerKey c)).1
    (set_clients (clients st ∖ {[i]}) (store i (gone c) st)).

Lemma removeClient_without st i c : hub_ok st -> i ∈ clients st -> heap st !! i = Some c ->
  removeClient st i = Ok (without st i c, last_presence st i c, last_viewer st i c) /\
  hub_ok (without st i c).
Proof.
  intros Hok Hi Hc. destruct (ok_live st Hok i Hi) as (c' & Hc' & Hcl & Ho). simplify_eq.
  destruct (removeClient_member st i c) as (st' & Hr & Hok' & _); [done..|].
  assert (st' = without st i c) as ->.
  { rewrite (removeClient_open st i c) in Hr by done. unfold without. by injection Hr as <-. }
  done.
Qed.

Lemma on_leave_member st i c now : hub_ok st -> i ∈ clients st -> heap st !! i = Some c ->
  exists st' st2, on_leave st i now = Ok (st', bool_decide (size (clients st') = 0)) /\
    delivers (if last_presence st i c then [left_message c now] else []) (without st i c) st2 /\
    if last_viewer st i c
    then delivers [viewers_message (size (viewerCounts st2))] st2 st' /\
         viewerCount st' = int32_of (Z.of_nat (size (viewerCounts st2)))
    else st' = st2 /\ viewerCount st' = viewerCount st.
Proof.
  intros Hok Hi Hc. destruct (removeClient_without st i c Hok Hi Hc) as [Hr Hw].
  unfold on_leave. rewrite Hr. simpl.
  assert (Hd : deref (without st i c) i = Ok (gone c))
    by (apply deref_eq; simpl; by rewrite lookup_insert_eq).
  assert (H2 : exists st2,
    (if last_presence st i c
     then c0 ← deref (without st i c) i;
          dispatch (systemMessage (username c0 +:+ " left") now) (without st i c)
     else Ok (without st i c)) = Ok st2 /\
    delivers (if last_presence st i c then [left_message c now] else []) (without st i c) st2 /\
    viewerCount st2 = viewerCount st).
  { destruct (last_presence st i c).
    - rewrite Hd. destruct (dispatch_spec (left_message c now) _ Hw) as (st2 & ? & ? & ? & _).
      by exists st2.
    - exists (without st i c). split_and!; [done | by apply delivers_refl | done]. }
  destruct H2 as (st2 & -> & Hd2 & Hv2). simpl. destruct (last_viewer st i c).
  - assert (Hp : delivers [] st2 (publishCount st2))
      by (apply delivers_publish, delivers_refl; apply Hd2).
    destruct (dispatch_spec (viewerMessage (publishCount st2)) (publishCount st2))
      as (st' & -> & Hd' & Hvc & _); [apply Hp|].
    exists st', st2. split_and!; [done | done | | by rewrite Hvc].
    exact (delivers_trans _ _ _ _ _ Hp Hd').
  - by exists st2, st2.
Qed.

(** A second leave, or the leave of an evicted client, changes nothing. *)
Lemma on_leave_gone st i c now : heap st !! i = Some c -> closed c = true ->
  on_leave st i now = Ok (st, bool_decide (size (clients st) = 0)).
Proof. intros. unfold on_leave. by rewrite (removeClient_closed st i c). Qed.
