(* ===== verification/HubTrace.v ===== *)
(** * Runs of the chat room

    A run interleaves the connections [ServeWS] opens, the events the room's
    [select] receives and the writes of the clients' writer loops.  [world]
    adds to the room what went out on each socket and, as ghost state, the chat
    messages accepted so far and how many there were when each client joined. *)

From S2P Require Import Prelude Chan Tally Hub HubInv.

(** ** The send and stop cases *)
Lemma appendHistory_history m st : length (history st) <= historySize ->
  history (appendHistory m st) = lastn historySize (history st ++ [m]).
Proof.
  intros H. unfold appendHistory. simpl. case_decide as He.
  - unfold lastn. rewrite length_app, He. simpl.
    destruct (history st); simpl in *; [done|]. by rewrite drop_0.
  - rewrite lastn_all; [done|]. rewrite length_app. simpl. lia.
Qed.

Lemma appendHistory_ok m st : hub_ok st -> hub_ok (appendHistory m st).
Proof.
  intros Hok. pose proof (appendHistory_history m st (ok_hist st Hok)) as Hh.
  destruct Hok. split; try done. rewrite Hh, length_lastn. lia.
Qed.

Definition stamped (id : string) (msg : inbound) (now : Z) : Message :=
  {| msg_ID := id; msg_Type := KindMessage; msg_User := in_user msg;
     msg_Body := in_body msg; msg_At := now; msg_Count := 0 |}.

Lemma on_send_spec st msg id now : hub_ok st ->
  exists st', on_send st msg (Some id) now = Ok st' /\
    delivers [stamped id msg now] (appendHistory (stamped id msg now) st) st' /\
    viewerCount st' = viewerCount st.
Proof.
  intros Hok.
  change (on_send st msg (Some id) now)
    with (dispatch (stamped id msg now) (appendHistory (stamped id msg now) st)).
  destruct (dispatch_spec (stamped id msg now) _ (appendHistory_ok (stamped id msg now) st Hok))
    as (st' & -> & ? & ? & _). by exists st'.
Qed.

Definition remove_step (st : hub) (i : nat) : res panic hub := r ← removeClient st i; Ok r.1.1.

Lemma remove_step_eq st i st' b1 b2 : removeClient st i = Ok (st', b1, b2) ->
  remove_step st i = Ok st'.
Proof. unfold remove_step. by intros ->. Qed.

Lemma remove_loop l st : hub_ok st -> NoDup l -> (forall i, i ∈ l -> i ∈ clients st) ->
  exists st', mfoldl remove_step st l = Ok st' /\ hub_ok st' /\ frame st st' /\
    clients st' = clients st ∖ list_to_set l /\
    (forall i, heap st' !! i = (if decide (i ∈ l) then gone else id) <$> heap st !! i).
Proof.
  revert st. induction l as [|i l IH]; intros st Hok Hnd Hl; cbn [mfoldl].
  - exists st. split_and!; [done.. | set_solver |].
    intros i. rewrite decide_False by set_solver. by destruct (heap st !! i).
  - apply NoDup_cons in Hnd as [Hni Hnd].
    assert (Hi : i ∈ clients st) by (apply Hl; set_solver).
    destruct (ok_live st Hok i Hi) as (c & Hc & Hcl & Ho).
    destruct (removeClient_without st i c Hok Hi Hc) as [Hr Hw].
    rewrite (remove_step_eq _ _ _ _ _ Hr). simpl.
    destruct (IH (without st i c)) as (st' & Hrun & Hok' & Hf & Hcs & Hh); [done..| |].
    { intros j Hj. simpl. assert (j ∈ clients st) by (apply Hl; set_solver). set_solver. }
    exists st'. split_and!; [done | done | done | rewrite Hcs; simpl; set_solver |].
    intros j. rewrite Hh. simpl. destruct (decide (i = j)) as [<-|Hne].
    + rewrite decide_False by done. rewrite decide_True by set_solver.
      by rewrite lookup_insert_eq, Hc.
    + rewrite lookup_insert_ne by done. do 2 case_decide; try done; set_solver.
Qed.

Lemma on_stop_spec st : hub_ok st ->
  exists st', on_stop st = Ok st' /\ hub_ok st' /\ running st' = false /\ clients st' = ∅ /\
    history st' = history st /\
    (forall i, heap st' !! i = (if decide (i ∈ clients st) then gone else id) <$> heap st !! i).
Proof.
  intros Hok. unfold on_stop. fold remove_step.
  destruct (remove_loop (elements (clients st)) st) as (st' & Hrun & Hok' & Hf & Hcs & Hh);
    [done | apply NoDup_elements | set_solver |].
  rewrite list_to_set_elements_L in Hcs.
  rewrite Hrun. simpl. eexists; split; [done|].
  destruct Hok', Hf as (? & ? & ?). split_and!; try done; simpl; [set_solver|].
  intros i. rewrite Hh. do 2 case_decide; set_solver.
Qed.

(** ** The world of one room *)
Record world := {
  w_hub : hub;
  w_wire : gmap nat (list Message);   (* written to each socket *)
  w_sent : list Message;              (* ghost: chat messages accepted *)
  w_base : gmap nat nat               (* ghost: how many when the client joined *)
}.

Definition newWorld : world :=
  {| w_hub := newRoom; w_wire := ∅; w_sent := []; w_base := ∅ |}.

Inductive act :=
| AConnect (i : nat) (username : string) (userID : Z) (anonKey : string)
| AEvent (e : event)
| AWrite (i : nat).

Definition wire_of (ws : gmap nat (list Message)) (i : nat) : list Message := default [] (ws !! i).
Abbreviation wire w := (wire_of (w_wire w)).

Definition with_hub (w : world) (st : hub) : world :=
  {| w_hub := st; w_wire := w_wire w; w_sent := w_sent w; w_base := w_base w |}.

(** The ghost record of an event the room has just handled. *)
Definition record_event (w : world) (e : event) (st' : hub) : world :=
  if negb (running (w_hub w)) then with_hub w st' else
  match e with
  | ESend msg (Some id) now =>
      {| w_hub := st'; w_wire := w_wire w; w_sent := w_sent w ++ [stamped id msg now];
         w_base := w_base w |}
  | EJoin i _ =>
      {| w_hub := st'; w_wire := w_wire w; w_sent := w_sent w;
         w_base := <[i := length (w_sent w)]> (w_base w) |}
  | _ => with_hub w st'
  end.

Definition wstep (w : world) (a : act) : res panic world :=
  match a with
  | AConnect i u id k =>
      match heap (w_hub w) !! i with
      | Some _ => Ok w
      | None => Ok (with_hub w (store i (new_client u id k) (w_hub w)))
      end
  | AEvent e => r ← hub_step (w_hub w) e; Ok (record_event w e r.1)
  | AWrite i =>
      match writer_recv (w_hub w) i with
      | (st', Some m) =>
          Ok {| w_hub := st'; w_wire := <[i := wire w i ++ [m]]> (w_wire w);
                w_sent := w_sent w; w_base := w_base w |}
      | (_, None) => Ok w
      end
  end.

Definition run (acts : list act) : res panic world := mfoldl wstep newWorld acts.

(** What the room relies on: a client joins once, leaves only after it joined,
    [uuid.NewV7] succeeds, and the backlog at a join fits a client's queue. *)
Definition behaves (w : world) (a : act) : Prop :=
  match a with
  | AConnect i _ _ _ => heap (w_hub w) !! i = None
  | AEvent (EJoin i _) =>
      exists c, fresh (w_hub w) i c /\ length (history (w_hub w)) <= clientSendBuffer
  | AEvent (ELeave i _) =>
      i ∈ clients (w_hub w) \/ exists c, heap (w_hub w) !! i = Some c /\ closed c = true
  | AEvent (ESend _ uuid _) => is_Some uuid
  | AEvent EStop => True
  | AWrite _ => True
  end.

Fixpoint behaved (w : world) (acts : list act) : Prop :=
  match acts with
  | [] => True
  | a :: acts => behaves w a /\ match wstep w a with Ok w' => behaved w' acts | Err _ => True end
  end.

(** The same conditions as a computable test. *)
Definition freshb (st : hub) (i : nat) : bool :=
  match heap st !! i with
  | Some c => negb (closed c) && negb (ch_closed (out c)) && bool_decide (i ∉ clients st)
  | None => false
  end.

Definition behavesb (w : world) (a : act) : bool :=
  match a with
  | AConnect i _ _ _ => bool_decide (heap (w_hub w) !! i = None)
  | AEvent (EJoin i _) =>
      freshb (w_hub w) i && bool_decide (length (history (w_hub w)) <= clientSendBuffer)
  | AEvent (ELeave i _) =>
      bool_decide (i ∈ clients (w_hub w)) ||
      match heap (w_hub w) !! i with Some c => closed c | None => false end
  | AEvent (ESend _ uuid _) => match uuid with Some _ => true | None => false end
  | AEvent EStop => true
  | AWrite _ => true
  end.

Fixpoint behavedb (w : world) (acts : list act) : bool :=
  match acts with
  | [] => true
  | a :: acts => behavesb w a && match wstep w a with Ok w' => behavedb w' acts | Err _ => true end
  end.

Lemma freshb_ok st i : freshb st i = true -> exists c, fresh st i c.
Proof.
  unfold freshb, fresh. destruct (heap st !! i) as [c|]; [|done].
  rewrite !andb_true_iff, !negb_true_iff, bool_decide_eq_true. naive_solver.
Qed.

Lemma behavesb_ok w a : behavesb w a = true -> behaves w a.
Proof.
  destruct a as [i ? ? ?|[i ?|i ?|? [] ?|]|?]; simpl; rewrite ?bool_decide_eq_true; try done.
  - rewrite andb_true_iff, bool_decide_eq_true. intros [(c & ?)%freshb_ok ?]. eauto.
  - rewrite orb_true_iff, bool_decide_eq_true. intros [?|Hc]; [by left|]. right.
    destruct (heap (w_hub w) !! i); [eauto|done].
Qed.

Lemma behavedb_ok acts w : behavedb w acts = true -> behaved w acts.
Proof.
  revert w. induction acts as [|a acts IH]; intros w; simpl; [done|].
  rewrite andb_true_iff. intros [Ha Hr]. split; [by apply behavesb_ok|].
  destruct (wstep w a); [by apply IH | done].
Qed.

(** ** Delivery: what a registered client has been sent

    [W i] is what went out on socket [i], [B] the ghost join positions and [S]
    the chat messages accepted so far. *)
Definition fifo_in (W : nat -> list Message) (B : gmap nat nat) (S : list Message) (st : hub) : Prop :=
  forall i c, i ∈ clients st -> heap st !! i = Some c ->
    exists n, B !! i = Some n /\ n <= length S /\
      chat_only (W i ++ ch_buf (out c)) = lastn historySize (take n S) ++ drop n S.

(** A client the room has not registered yet has been sent nothing. *)
Definition fresh_in (W : nat -> list Message) (st : hub) : Prop :=
  (forall i, heap st !! i = None -> W i = []) /\
  (forall i c, heap st !! i = Some c -> i ∉ clients st -> ch_closed (out c) = false ->
     ch_buf (out c) = [] /\ W i = []).

Lemma chat_only_app l1 l2 : chat_only (l1 ++ l2) = chat_only l1 ++ chat_only l2.
Proof. apply filter_app. Qed.

Lemma chat_only_all l : Forall is_chat l -> chat_only l = l.
Proof.
  unfold chat_only. induction 1 as [|m l Hm _ IH]; [done|].
  rewrite filter_cons_True by done. by rewrite IH.
Qed.

Lemma fresh_delivers W ms st st' : delivers ms st st' -> fresh_in W st -> fresh_in W st'.
Proof.
  intros Hd [Hn Hf]. split.
  - intros i Hi. apply Hn. destruct (heap st !! i) as [c|] eqn:Hc; [|done].
    destruct (dl_id _ _ _ Hd i c Hc) as (? & ? & _). congruence.
  - intros i c Hc Hni Ho. destruct (decide (i ∈ clients st)) as [Hi|Hi].
    + destruct (dl_evicted _ _ _ Hd i Hi Hni) as (c' & Hc' & Hcl). simplify_eq.
      rewrite (ok_gone _ (dl_ok _ _ _ Hd) i c Hc Hcl) in Ho. done.
    + apply Hf; [|done..]. by rewrite <- (dl_other _ _ _ Hd).
Qed.

(** Dispatching [ms] extends the stream of every client that stays by the chat
    messages of [ms]. *)
Lemma stream_delivers W ms st st' i c' : delivers ms st st' -> hub_ok st ->
  i ∈ clients st' -> heap st' !! i = Some c' ->
  exists c, i ∈ clients st /\ heap st !! i = Some c /\
    chat_only (W i ++ ch_buf (out c')) = chat_only (W i ++ ch_buf (out c)) ++ chat_only ms.
Proof.
  intros Hd Hok Hi Hc'. pose proof (dl_sub _ _ _ Hd i Hi) as Hi0.
  destruct (ok_live st Hok i Hi0) as (c & Hc & _).
  pose proof (dl_kept _ _ _ Hd i c Hi Hc) as Hk. simplify_eq. exists c.
  split_and!; [done..|]. simpl. by rewrite !chat_only_app, app_assoc.
Qed.

Lemma fifo_quiet W B S ms st st' : delivers ms st st' -> hub_ok st -> chat_only ms = [] ->
  fifo_in W B S st -> fifo_in W B S st'.
Proof.
  intros Hd Hok Hms Hf i c' Hi Hc'.
  destruct (stream_delivers W ms st st' i c') as (c & Hi0 & Hc & ->); [done..|].
  destruct (Hf i c Hi0 Hc) as (n & ? & ? & Hs). exists n. by rewrite Hms, app_nil_r.
Qed.

Lemma fifo_send W B S m st st' : delivers [m] st st' -> hub_ok st -> is_chat m ->
  fifo_in W B S st -> fifo_in W B (S ++ [m]) st'.
Proof.
  intros Hd Hok Hm Hf i c' Hi Hc'.
  destruct (stream_delivers W [m] st st' i c') as (c & Hi0 & Hc & ->); [done..|].
  destruct (Hf i c Hi0 Hc) as (n & Hn & Hle & Hs). exists n.
  rewrite (chat_only_all [m]) by (constructor; [done | constructor]).
  rewrite Hs, take_app_le, drop_app_le, app_assoc by done.
  split_and!; [done | rewrite length_app; lia | done].
Qed.

Lemma fifo_registered W B S st i c : fresh st i c -> fresh_in W st ->
  history st = lastn historySize S -> Forall is_chat S -> fifo_in W B S st ->
  fifo_in W (<[i := length S]> B) S (registered st i c).
Proof.
  intros (Hi & _ & Ho & Hni) [_ Hfr] Hh HS Hf j d Hj Hd. simpl in *.
  destruct (decide (i = j)) as [<-|Hne].
  - rewrite lookup_insert_eq in Hd. simplify_eq. exists (length S).
    rewrite lookup_insert_eq. split_and!; [done..|].
    destruct (Hfr i c Hi Hni Ho) as [Hb Hw]. simpl. rewrite Hw, Hb. simpl.
    rewrite take_ge, drop_ge, app_nil_r, Hh by done. apply chat_only_all.
    unfold lastn. by apply Forall_drop.
  - rewrite lookup_insert_ne in Hd by done. rewrite lookup_insert_ne by done. apply Hf; [set_solver | done].
Qed.

Lemma fresh_registered W st i c : fresh st i c -> fresh_in W st -> fresh_in W (registered st i c).
Proof.
  intros (Hi & _) [Hn Hfr]. split; simpl.
  - intros j. destruct (decide (i = j)) as [<-|]; [by rewrite lookup_insert_eq|].
    rewrite lookup_insert_ne by done. apply Hn.
  - intros j d. destruct (decide (i = j)) as [<-|]; [set_solver|].
    rewrite lookup_insert_ne by done. intros. apply Hfr; [done | set_solver | done].
Qed.

Lemma fifo_without W B S st i c : fifo_in W B S st -> fifo_in W B S (without st i c).
Proof.
  intros Hf j d Hj Hd. simpl in *. apply elem_of_difference in Hj as [Hj Hne].
  rewrite lookup_insert_ne in Hd by set_solver. by apply Hf.
Qed.

Lemma fresh_without W st i c : fresh_in W st -> heap st !! i = Some c -> fresh_in W (without st i c).
Proof.
  intros [Hn Hfr] Hi. split; simpl.
  - intros j. destruct (decide (i = j)) as [<-|]; [by rewrite lookup_insert_eq|].
    rewrite lookup_insert_ne by done. apply Hn.
  - intros j d. destruct (decide (i = j)) as [<-|].
    + rewrite lookup_insert_eq. intros [= <-]. done.
    + rewrite lookup_insert_ne by done. intros. apply Hfr; [done | set_solver | done].
Qed.

(** The personal count message is not a chat message either. *)
Lemma fifo_tell W B S st i c : heap st !! i = Some c ->
  fifo_in W B S st -> fifo_in W B S (tell_count st i c).
Proof.
  intros Hi Hf j d Hj Hd. unfold tell_count in *. destruct (full (out c)); [by apply Hf|].
  simpl in *. destruct (decide (i = j)) as [<-|Hne].
  - rewrite lookup_insert_eq in Hd. simplify_eq. destruct (Hf i c Hj Hi) as (n & ? & ? & Hs).
    exists n. split_and!; [done..|]. simpl.
    by rewrite app_assoc, chat_only_app, Hs, app_nil_r.
  - rewrite lookup_insert_ne in Hd by done. by apply Hf.
Qed.

Lemma fresh_tell W st i c : heap st !! i = Some c -> i ∈ clients st ->
  fresh_in W st -> fresh_in W (tell_count st i c).
Proof.
  intros Hi Hm [Hn Hfr]. unfold tell_count. destruct (full (out c)); [done|].
  split; simpl.
  - intros j. destruct (decide (i = j)) as [<-|]; [by rewrite lookup_insert_eq|].
    rewrite lookup_insert_ne by done. apply Hn.
  - intros j d. destruct (decide (i = j)) as [<-|]; [done|].
    rewrite lookup_insert_ne by done. by apply Hfr.
Qed.

Record world_ok (w : world) : Prop := {
  wo_hub : hub_ok (w_hub w);
  wo_hist : history (w_hub w) = lastn historySize (w_sent w);
  wo_chat : Forall is_chat (w_sent w);
  wo_fresh : fresh_in (wire w) (w_hub w);
  wo_fifo : fifo_in (wire w) (w_base w) (w_sent w) (w_hub w)
}.

Lemma newWorld_ok : world_ok newWorld.
Proof.
  assert (Hl : forall i : nat, (∅ : gmap nat client) !! i = None) by (intros; apply lookup_empty).
  split; simpl; try done.
  split; simpl; try done; try (intros i c; by rewrite Hl).
  - unfold historySize. lia.
  - apply tallies_empty.
  - apply tallies_empty.
Qed.

Lemma fits_of_fresh w i c : world_ok w -> fresh (w_hub w) i c ->
  length (history (w_hub w)) <= clientSendBuffer -> backlog_fits (w_hub w) c.
Proof.
  intros Hw (Hi & _ & Ho & Hni) Hlen. unfold backlog_fits.
  destruct (wo_fresh w Hw) as [_ Hfr]. destruct (Hfr i c Hi Hni Ho) as [-> _].
  destruct (ok_chan _ (wo_hub w Hw) i c Hi) as [_ ->]. simpl. lia.
Qed.

(** One join of a well-behaved client. *)
Lemma join_world_ok w i c now : world_ok w -> fresh (w_hub w) i c ->
  length (history (w_hub w)) <= clientSendBuffer ->
  exists st', on_join (w_hub w) i now = Ok st' /\
    hub_ok st' /\ history st' = history (w_hub w) /\ fresh_in (wire w) st' /\
    fifo_in (wire w) (<[i := length (w_sent w)]> (w_base w)) (w_sent w) st'.
Proof.
  intros Hw Hfr Hlen. pose proof (fits_of_fresh w i c Hw Hfr Hlen) as Hfit.
  pose proof (wo_hub w Hw) as Hok.
  pose proof (registered_ok _ i c Hok Hfr Hfit) as Hreg.
  pose proof (fresh_registered (wire w) _ i c Hfr (wo_fresh w Hw)) as Hf1.
  pose proof (fifo_registered _ _ _ _ i c Hfr (wo_fresh w Hw) (wo_hist w Hw) (wo_chat w Hw)
                (wo_fifo w Hw)) as Hq1.
  destruct (first_viewer (w_hub w) c) eqn:Hfv.
  - destruct (on_join_first (w_hub w) i c now) as (st' & st2 & Hj & Hd1 & Hd2 & _); [done..|].
    exists st'. split_and!; [done | apply Hd2 | | |].
    + by rewrite (dl_hist _ _ _ Hd2), (dl_hist _ _ _ Hd1).
    + eapply fresh_delivers; [done|]. by eapply fresh_delivers.
    + eapply fifo_quiet; [exact Hd2 | apply Hd1 | done |].
      eapply fifo_quiet; [exact Hd1 | done | | done]. by destruct (first_presence _ _).
  - rewrite (on_join_again (w_hub w) i c now) by done. eexists; split; [done|].
    set (c' := appended (history (w_hub w)) c).
    assert (Hi' : heap (registered (w_hub w) i c) !! i = Some c') by (simpl; by rewrite lookup_insert_eq).
    assert (Hm' : i ∈ clients (registered (w_hub w) i c)) by set_solver.
    destruct (tell_count_ok _ i c' Hreg Hi' Hm') as [Hok' Hcs].
    split_and!; [done | | by apply fresh_tell | by apply fifo_tell].
    unfold tell_count. by destruct (full (out c')).
Qed.

(** One leave of a registered client. *)
Lemma leave_world_ok w i c now : world_ok w -> i ∈ clients (w_hub w) ->
  heap (w_hub w) !! i = Some c ->
  exists st' b, on_leave (w_hub w) i now = Ok (st', b) /\
    hub_ok st' /\ history st' = history (w_hub w) /\ fresh_in (wire w) st' /\
    fifo_in (wire w) (w_base w) (w_sent w) st'.
Proof.
  intros Hw Hi Hc. pose proof (wo_hub w Hw) as Hok.
  destruct (removeClient_without _ i c Hok Hi Hc) as [_ Hwo].
  pose proof (fresh_without (wire w) _ i c (wo_fresh w Hw) Hc) as Hf1.
  pose proof (fifo_without (wire w) (w_base w) (w_sent w) _ i c (wo_fifo w Hw)) as Hq1.
  destruct (on_leave_member (w_hub w) i c now) as (st' & st2 & Hl & Hd1 & Hd2); [done..|].
  assert (Hf2 : fresh_in (wire w) st2) by (by eapply fresh_delivers).
  assert (Hq2 : fifo_in (wire w) (w_base w) (w_sent w) st2).
  { eapply fifo_quiet; [exact Hd1 | done | | done]. by destruct (last_presence _ _ _). }
  exists st', (bool_decide (size (clients st') = 0)). split; [done|].
  destruct (last_viewer (w_hub w) i c).
  - destruct Hd2 as [Hd2 _]. split_and!.
    + apply Hd2.
    + by rewrite (dl_hist _ _ _ Hd2), (dl_hist _ _ _ Hd1).
    + by eapply fresh_delivers.
    + by eapply fifo_quiet; [exact Hd2 | apply Hd1 | |].
  - destruct Hd2 as [-> _]. split_and!; [apply Hd1 | apply Hd1 | done | done].
Qed.

Lemma send_world_ok w msg id now : world_ok w ->
  exists st', on_send (w_hub w) msg (Some id) now = Ok st' /\
    hub_ok st' /\ history st' = lastn historySize (w_sent w ++ [stamped id msg now]) /\
    fresh_in (wire w) st' /\
    fifo_in (wire w) (w_base w) (w_sent w ++ [stamped id msg now]) st'.
Proof.
  intros Hw. pose proof (wo_hub w Hw) as Hok. set (m := stamped id msg now).
  destruct (on_send_spec (w_hub w) msg id now Hok) as (st' & Hs & Hd & _).
  exists st'. split_and!; [done | apply Hd | | |].
  - rewrite (dl_hist _ _ _ Hd), appendHistory_history by apply Hok.
    by rewrite (wo_hist w Hw), lastn_lastn_app.
  - eapply fresh_delivers; [done|]. apply Hw.
  - eapply fifo_send; [exact Hd | by apply appendHistory_ok | done |]. apply Hw.
Qed.

Lemma stop_world_ok w : world_ok w ->
  exists st', on_stop (w_hub w) = Ok st' /\ world_ok (with_hub w st').
Proof.
  intros Hw. destruct (on_stop_spec (w_hub w) (wo_hub w Hw)) as (st' & Hs & Hok & _ & Hcs & Hh & Hp).
  exists st'. split; [done|]. destruct (wo_fresh w Hw) as [Hn Hfr].
  split; simpl; [done | by rewrite Hh; apply Hw | apply Hw | | by intros ? ?; rewrite Hcs].
  split.
  - intros i Hi. apply Hn. rewrite Hp in Hi. by destruct (heap (w_hub w) !! i).
  - intros i c Hc _ Ho. rewrite Hp in Hc. apply fmap_Some in Hc as (d & Hd & ->).
    case_decide; [done|]. by apply Hfr.
Qed.

Lemma connect_world_ok w i u id k : world_ok w -> heap (w_hub w) !! i = None ->
  world_ok (with_hub w (store i (new_client u id k) (w_hub w))).
Proof.
  intros Hw Hi. pose proof (wo_hub w Hw) as Hok.
  assert (Hni : i ∉ clients (w_hub w)).
  { intros Hm. destruct (ok_live _ Hok i Hm) as (? & ? & _). congruence. }
  assert (Hmem : forall j, j ∈ clients (w_hub w) -> i <> j) by (intros j ? ->; done).
  destruct (wo_fresh w Hw) as [Hn Hfr]. split; simpl; try apply Hw.
  - destruct Hok as [Hl Hg Hch Hh Hp Hv]. split; simpl; try done.
    + intros j Hj. rewrite lookup_insert_ne by auto. by apply Hl.
    + intros j c. destruct (decide (i = j)) as [<-|].
      * rewrite lookup_insert_eq. intros [= <-]. done.
      * rewrite lookup_insert_ne by done. by apply Hg.
    + intros j c. destruct (decide (i = j)) as [<-|].
      * rewrite lookup_insert_eq. intros [= <-]. split; [|done]. unfold chan_ok. simpl. lia.
      * rewrite lookup_insert_ne by done. by apply Hch.
    + eapply tallies_ext; [|exact Hp]. intros j Hj. unfold name_of.
      by rewrite lookup_insert_ne by auto.
    + eapply tallies_ext; [|exact Hv]. intros j Hj. unfold key_of.
      by rewrite lookup_insert_ne by auto.
  - split; simpl.
    + intros j. destruct (decide (i = j)) as [<-|]; [by rewrite lookup_insert_eq|].
      rewrite lookup_insert_ne by done. apply Hn.
    + intros j c. destruct (decide (i = j)) as [<-|].
      * rewrite lookup_insert_eq. intros [= <-] _ _. split; [done|]. by apply Hn.
      * rewrite lookup_insert_ne by done. by apply Hfr.
  - intros j c Hj. simpl. rewrite lookup_insert_ne by auto. by apply (wo_fifo w Hw).
Qed.

Lemma wire_of_insert ws i l j :
  wire_of (<[i:=l]> ws) j = if decide (i = j) then l else wire_of ws j.
Proof. unfold wire_of. rewrite lookup_insert. by case_decide. Qed.

(** The writer moves the head of the queue to the socket: the stream is unchanged. *)
Lemma write_world_ok w i m st' : world_ok w -> writer_recv (w_hub w) i = (st', Some m) ->
  world_ok {| w_hub := st'; w_wire := <[i := wire w i ++ [m]]> (w_wire w);
              w_sent := w_sent w; w_base := w_base w |}.
Proof.
  intros Hw. unfold writer_recv. destruct (heap (w_hub w) !! i) as [c|] eqn:Hc; [|done].
  unfold recv. destruct (ch_buf (out c)) as [|m' buf] eqn:Hb; [by destruct (ch_closed (out c))|].
  intros [= <- <-]. pose proof (wo_hub w Hw) as Hok. destruct (wo_fresh w Hw) as [Hn Hfr].
  destruct (ok_chan _ Hok i c Hc) as [Hk Hcap].
  split; simpl; try apply Hw.
  - apply hub_ok_store with c; simpl; try done.
    + intros Hm. destruct (ok_live _ Hok i Hm) as (c' & ? & ? & ?). naive_solver.
    + intros Hcl. by apply (ok_gone _ Hok i c).
    + unfold chan_ok in *. simpl. rewrite Hb in Hk. simpl in Hk. lia.
  - split; simpl; intros j; rewrite wire_of_insert; (destruct (decide (i = j)) as [<-|Hne];
      [rewrite lookup_insert_eq | rewrite lookup_insert_ne by done]).
    + done.
    + apply Hn.
    + intros d Hd Hni Ho. simplify_eq/=. destruct (Hfr i c Hc Hni Ho) as [? _]. congruence.
    + intros d Hd Hni Ho. by apply Hfr.
  - intros j d Hj Hd. simpl in *. rewrite wire_of_insert. destruct (decide (i = j)) as [<-|Hne].
    + rewrite lookup_insert_eq in Hd. simplify_eq/=.
      rewrite <- app_assoc. simpl. rewrite <- Hb. by apply (wo_fifo w Hw).
    + rewrite lookup_insert_ne in Hd by done. by apply (wo_fifo w Hw).
Qed.

(** Every well-behaved action succeeds and keeps the invariant. *)
Lemma wstep_ok w a : world_ok w -> behaves w a -> exists w', wstep w a = Ok w' /\ world_ok w'.
Proof.
  intros Hw Hb. destruct a as [i u id k|e|i]; simpl in *.
  - rewrite Hb. eexists; split; [done | by apply connect_world_ok].
  - unfold hub_step, record_event. destruct (running (w_hub w)) eqn:Hr; simpl;
      [|eexists; split; [done | by destruct w, Hw]].
    destruct e as [i now|i now|msg uuid now|].
    + destruct Hb as (c & Hfr & Hlen).
      destruct (join_world_ok w i c now Hw Hfr Hlen) as (st' & -> & ? & ? & ? & ?).
      simpl. eexists; split; [done|]. split; simpl; try done; [by rewrite (wo_hist w Hw) in *|apply Hw].
    + destruct (decide (i ∈ clients (w_hub w))) as [Hi|Hni].
      * destruct (ok_live _ (wo_hub w Hw) i Hi) as (c & Hc & _).
        destruct (leave_world_ok w i c now Hw Hi Hc) as (st' & b & -> & ? & Hh & ? & ?).
        simpl. eexists; split; [done|]. split; simpl; try done; [|apply Hw].
        by rewrite Hh, (wo_hist w Hw).
      * destruct Hb as [?|(c & Hc & Hcl)]; [done|].
        rewrite (on_leave_gone _ i c) by done. simpl.
        eexists; split; [done | by destruct w, Hw].
    + destruct Hb as [id ->].
      destruct (send_world_ok w msg id now Hw) as (st' & -> & ? & ? & ? & ?).
      simpl. eexists; split; [done|]. split; simpl; try done.
      apply Forall_app; split; [apply Hw | by constructor; [|constructor]].
    + destruct (stop_world_ok w Hw) as (st' & -> & ?). simpl. by eexists.
  - destruct (writer_recv (w_hub w) i) as [st' [m|]] eqn:Hwr.
    + eexists; split; [done | by apply write_world_ok].
    + by eexists.
Qed.

Lemma run_ok acts w : world_ok w -> behaved w acts ->
  exists w', mfoldl wstep w acts = Ok w' /\ world_ok w'.
Proof.
  revert w. induction acts as [|a acts IH]; intros w Hw Hb; simpl in *; [by eauto|].
  destruct Hb as [Ha Hb]. destruct (wstep_ok w a Hw Ha) as (w1 & Hs & Hw1).
  rewrite Hs in Hb. rewrite Hs. simpl. by apply IH.
Qed.
