(* ===== verification/HubProps.v ===== *)
(** * Properties of the chat room

    What the room promises to well-behaved connections, and the two orders of
    events in which the code of the room panics. *)

From S2P Require Import Prelude Chan Tally Hub HubInv HubTrace.

(** The number of distinct viewers connected: the keys of [viewerKey], the empty
    one excepted. *)
Definition distinct_viewers (st : hub) : nat :=
  size (set_map (D:=gset string) (key_of (heap st)) (clients st) ∖ {[""%string]}).

Lemma viewerCounts_size st : hub_ok st -> size (viewerCounts st) = distinct_viewers st.
Proof. intros Hok. apply tallies_size, Hok. Qed.

(** A dispatch that evicts nobody keeps the set of viewers. *)
Lemma distinct_delivers ms st st' : delivers ms st st' -> hub_ok st -> clients st = clients st' ->
  distinct_viewers st = distinct_viewers st'.
Proof.
  intros Hd Hok Hcs. unfold distinct_viewers. rewrite Hcs. do 2 f_equal.
  assert (Hk : forall j, j ∈ clients st' -> key_of (heap st) j = key_of (heap st') j).
  { intros j Hm. rewrite <- Hcs in Hm. destruct (ok_live _ Hok j Hm) as (d & Hj & _).
    destruct (dl_id _ _ _ Hd j d Hj) as (d' & Hj' & Hid).
    rewrite (key_of_eq _ _ _ Hj), (key_of_eq _ _ _ Hj'). symmetry. by apply same_id_key. }
  apply set_eq. intros k. rewrite !elem_of_map.
  split; intros (j & -> & Hm); exists j; (split; [|done]); by rewrite Hk.
Qed.

(** ** Order of iteration *)

(** [dispatch] with the clients enumerated in the order [order]. *)
Definition dispatch_in (order : list nat) (m : Message) (st : hub) : res panic hub :=
  mfoldl (dispatch_one m) st order.

Lemma hub_eq st1 st2 : hub_ok st1 -> hub_ok st2 -> frame st1 st2 ->
  heap st1 = heap st2 -> clients st1 = clients st2 -> st1 = st2.
Proof.
  intros H1 H2 (Hh & Hv & Hr) Hhp Hcs.
  pose proof (ok_pres _ H1) as P1. pose proof (ok_pres _ H2) as P2.
  pose proof (ok_view _ H1) as V1. pose proof (ok_view _ H2) as V2.
  rewrite Hhp, Hcs in P1, V1.
  assert (userPresence st1 = userPresence st2) by (apply map_eq; intros k; by rewrite P1, P2).
  assert (viewerCounts st1 = viewerCounts st2) by (apply map_eq; intros k; by rewrite V1, V2).
  destruct st1, st2; simpl in *; congruence.
Qed.

(** ** Rooms whose registered clients are all open, whatever the counts hold *)
Definition hub_live (st : hub) : Prop := forall i, i ∈ clients st ->
  exists c, heap st !! i = Some c /\ closed c = false /\ ch_closed (out c) = false.

(** What a step on the clients [cs] may change. *)
Definition confined (cs : gset nat) (st st' : hub) : Prop :=
  clients st' ⊆ clients st /\ running st' = running st /\
  forall j, j ∉ cs -> heap st' !! j = heap st !! j /\ (j ∈ clients st' <-> j ∈ clients st).

Lemma dispatch_one_live m st i : hub_live st -> i ∈ clients st ->
  exists st', dispatch_one m st i = Ok st' /\ hub_live st' /\ confined ({[i]}) st st'.
Proof.
  intros Hl Hi. destruct (Hl i Hi) as (c & Hc & Hcl & Ho).
  unfold dispatch_one. rewrite (deref_eq _ _ _ Hc). simpl. rewrite try_send_open by done. simpl.
  destruct (full (out c)).
  - rewrite (removeClient_open st i c) by done. cbv zeta. simpl. eexists; split; [done|].
    split; [|split_and!; simpl; [set_solver | done | intros j Hj]].
    + intros j. simpl. intros [Hj Hne]%elem_of_difference.
      rewrite lookup_insert_ne by set_solver. by apply Hl.
    + split; [rewrite lookup_insert_ne by set_solver; done | set_solver].
  - eexists; split; [done|]. split; [|split_and!; simpl; [set_solver | done | intros j Hj]].
    + intros j Hj. simpl. destruct (decide (i = j)) as [<-|].
      * rewrite lookup_insert_eq. by eauto.
      * rewrite lookup_insert_ne by done. by apply Hl.
    + by rewrite lookup_insert_ne by set_solver.
Qed.

Lemma dispatch_live_loop m l st : hub_live st -> NoDup l -> (forall i, i ∈ l -> i ∈ clients st) ->
  exists st', mfoldl (dispatch_one m) st l = Ok st' /\ hub_live st' /\ confined (list_to_set l) st st'.
Proof.
  revert st. induction l as [|i l IH]; intros st Hl Hnd Hin; cbn [mfoldl].
  - by exists st.
  - apply NoDup_cons in Hnd as [Hni Hnd].
    destruct (dispatch_one_live m st i Hl) as (st1 & -> & Hl1 & Hs1 & Hh1 & Hc1); [set_solver|].
    simpl. destruct (IH st1 Hl1 Hnd) as (st' & Hrun & Hl' & Hs' & Hh' & Hc').
    { intros j Hj. apply Hc1; [set_solver|]. apply Hin. set_solver. }
    exists st'. split_and!; [done | done |].
    split_and!; [set_solver | congruence |]. intros j Hj.
    destruct (Hc' j) as [-> ->]; [set_solver|]. apply Hc1. set_solver.
Qed.

Lemma dispatch_live m st : hub_live st ->
  exists st', dispatch m st = Ok st' /\ hub_live st' /\ confined (clients st) st st'.
Proof.
  intros Hl. destruct (dispatch_live_loop m (elements (clients st)) st) as (st' & ? & ? & Hc);
    [done | apply NoDup_elements | set_solver |].
  rewrite list_to_set_elements_L in Hc. by exists st'.
Qed.

Lemma dispatch_one_closed m st i c : heap st !! i = Some c -> ch_closed (out c) = true ->
  dispatch_one m st i = Err SendOnClosedChannel.
Proof.
  intros Hc Ho. unfold dispatch_one. rewrite (deref_eq _ _ _ Hc). simpl. by rewrite try_send_closed.
Qed.

(** One registered client with a closed channel makes any dispatch panic. *)
Lemma dispatch_closed_loop m l st i c : NoDup l -> i ∈ l ->
  (forall j, j ∈ l -> j ∈ clients st) ->
  (forall j, j ∈ clients st -> j <> i ->
     exists d, heap st !! j = Some d /\ closed d = false /\ ch_closed (out d) = false) ->
  heap st !! i = Some c -> ch_closed (out c) = true ->
  mfoldl (dispatch_one m) st l = Err SendOnClosedChannel.
Proof.
  revert st. induction l as [|j l IH]; intros st Hnd Hi Hin Hl Hc Ho; [set_solver|].
  cbn [mfoldl]. apply NoDup_cons in Hnd as [Hnj Hnd].
  destruct (decide (j = i)) as [->|Hne].
  - by rewrite (dispatch_one_closed m st i c).
  - destruct (Hl j) as (d & Hd & Hdc & Hdo); [apply Hin; set_solver | done |].
    assert (Hst : exists st1, dispatch_one m st j = Ok st1 /\ heap st1 !! i = heap st !! i /\
              (forall k, k <> j -> heap st1 !! k = heap st !! k /\ (k ∈ clients st1 <-> k ∈ clients st)) /\
              (forall k, k ∈ clients st1 -> k = j -> exists d1, heap st1 !! k = Some d1 /\
                 closed d1 = false /\ ch_closed (out d1) = false)).
    { unfold dispatch_one. rewrite (deref_eq _ _ _ Hd). simpl. rewrite try_send_open by done.
      simpl. destruct (full (out d)).
      - rewrite (removeClient_open st j d) by done. cbv zeta. simpl. eexists; split; [done|].
        simpl. split_and!; [by rewrite lookup_insert_ne | | set_solver].
        intros k Hk. split; [by rewrite lookup_insert_ne | set_solver].
      - eexists; split; [done|]. simpl. split_and!; [by rewrite lookup_insert_ne | |].
        + intros k Hk. by rewrite lookup_insert_ne.
        + intros k _ ->. rewrite lookup_insert_eq. by eauto. }
    destruct Hst as (st1 & -> & Hi1 & Hk1 & Hj1). simpl.
    apply IH; [done | set_solver | | | by rewrite Hi1 | done].
    + intros k Hk. apply Hk1; [set_solver|]. apply Hin. set_solver.
    + intros k Hk Hki. destruct (decide (k = j)) as [->|Hkj]; [by apply Hj1|].
      destruct (Hk1 k Hkj) as [-> Hkc]. apply Hl; [by apply Hkc | done].
Qed.

(** ** A leave that overtakes its join *)
Lemma hub_ok_live st : hub_ok st -> hub_live st.
Proof. intros Hok i. apply (ok_live st Hok). Qed.

Lemma on_leave_unregistered st i c now : hub_ok st -> fresh st i c ->
  exists st' b, on_leave st i now = Ok (st', b) /\ hub_live st' /\ (i ∉ clients st') /\
    heap st' !! i = Some (gone c) /\ running st' = running st.
Proof.
  intros Hok (Hc & Hcl & Ho & Hni). unfold on_leave.
  rewrite (removeClient_open st i c) by done. cbv zeta. simpl.
  set (st1 := set_counts _ _ _).
  assert (Hl1 : hub_live st1).
  { intros j. simpl. intros [Hj Hne]%elem_of_difference.
    rewrite lookup_insert_ne by set_solver. by apply (ok_live st Hok). }
  assert (Hi1 : heap st1 !! i = Some (gone c)) by (simpl; by rewrite lookup_insert_eq).
  assert (Hn1 : i ∉ clients st1) by (simpl; set_solver).
  assert (Hstep : forall (b : bool) (m : hub -> Message) (f : hub -> hub) (s : hub),
    (forall s, heap (f s) = heap s /\ clients (f s) = clients s /\ running (f s) = running s) ->
    hub_live s -> heap s !! i = Some (gone c) -> i ∉ clients s ->
    exists s', (if b then dispatch (m (f s)) (f s) else Ok s) = Ok s' /\
      hub_live s' /\ heap s' !! i = Some (gone c) /\ (i ∉ clients s') /\ running s' = running s).
  { intros [] m f s Hf Hl Hi Hn; [|by exists s]. destruct (Hf s) as (Hfh & Hfc & Hfr).
    destruct (dispatch_live (m (f s)) (f s)) as (s' & -> & Hl' & Hsub & Hr & Hconf).
    { intros j. rewrite Hfh, Hfc. apply Hl. }
    exists s'. split; [done|]. rewrite Hfc in *. destruct (Hconf i Hn) as [-> ?].
    rewrite Hfh. split_and!; [done | done | set_solver | congruence]. }
  rewrite (deref_eq _ _ _ Hi1).
  destruct (Hstep (drop_count (userPresence st) (username c)).2
              (fun _ => systemMessage (username (gone c) +:+ " left") now) id st1)
    as (st2 & Hd2 & Hl2 & Hi2 & Hn2 & Hr2); [done..|].
  simpl in Hd2 |- *. rewrite Hd2. simpl.
  destruct (Hstep (drop_count (viewerCounts st) (viewerKey c)).2 viewerMessage publishCount st2)
    as (st3 & Hd3 & Hl3 & Hi3 & Hn3 & Hr3); [done..|].
  rewrite Hd3. simpl. eexists _, _. split_and!; try done. by rewrite Hr3, Hr2.
Qed.

Lemma set_counts_twice up vc up' vc' st :
  set_counts up vc (set_counts up' vc' st) = set_counts up vc st.
Proof. done. Qed.

Lemma on_join_closed st i c now : hub_live st -> heap st !! i = Some c -> i ∉ clients st ->
  ch_closed (out c) = true -> on_join st i now = Err SendOnClosedChannel.
Proof.
  intros Hl Hc Hni Ho. unfold on_join. rewrite (deref_eq _ _ _ Hc). simpl.
  destruct (history st) as [|m ms] eqn:Hh; [|by rewrite deliver_closed].
  simpl. set (st1 := set_clients _ _). set (c1 := with_out c (out c)).
  assert (Hd : forall m up vc f, (forall s, heap (f s) = heap s /\ clients (f s) = clients s) ->
     dispatch m (f (set_counts up vc st1)) = Err SendOnClosedChannel).
  { intros m up vc f Hf. destruct (Hf (set_counts up vc st1)) as [Hfh Hfc].
    unfold dispatch. apply dispatch_closed_loop with i c1; rewrite ?Hfh, ?Hfc; simpl.
    - apply NoDup_elements.
    - set_solver.
    - set_solver.
    - intros j Hj Hne. rewrite lookup_insert_ne by done. apply Hl. set_solver.
    - by rewrite lookup_insert_eq.
    - done. }
  assert (Hsend : forall up vc m,
     (c0 ← deref (set_counts up vc st1) i; s ← try_send (out c0) (m (set_counts up vc st1));
      (match s with Some o => Ok (store i (with_out c0 o) (set_counts up vc st1))
                 | None => Ok (set_counts up vc st1) end)) = (Err SendOnClosedChannel : res panic hub)).
  { intros up vc m. rewrite (deref_eq _ _ c1) by (simpl; by rewrite lookup_insert_eq).
    simpl. by rewrite try_send_closed. }
  rewrite !string_neqb.
  case_bool_decide; case_bool_decide; simpl; repeat (case_decide || case_bool_decide); simpl;
    rewrite ?set_counts_twice;
    first [ apply Hsend | apply (Hd _ _ _ publishCount); done
          | by rewrite (Hd _ _ _ (fun s => s)) ].
Qed.

(** ** Properties *)

(** C18: Room safety. Whatever connections, joins, leaves, messages, slow
    consumers, evictions and socket writes are interleaved, as long as each
    client joins once, leaves after its join and joins while the backlog fits its
    queue, the room never panics (no send on or close of a closed channel) and
    its invariant holds: registered clients are open, removed ones closed, the
    history is bounded, and both count maps are exactly the tallies of the
    registered connections. *)
Theorem room_never_panics (acts : list act) (H : behaved newWorld acts) :
  exists w, run acts = Ok w /\ hub_ok (w_hub w).
Proof.
  destruct (run_ok acts newWorld newWorld_ok H) as (w & Hr & Hw).
  exists w. split; [exact Hr | apply Hw].
Qed.


(** The result of a dispatch, evictions and both count maps included, does
    not depend on the order in which Go enumerates the clients map. *)
Theorem dispatch_any_order (m : Message) (st : hub) (order : list nat)
  (Hok : hub_ok st) (Hp : order ≡ₚ elements (clients st)) :
  dispatch_in order m st = dispatch m st.
Proof.
  assert (Hin : forall i, i ∈ order <-> i ∈ clients st).
  { intros i. by rewrite Hp, elem_of_elements. }
  assert (Hnd : NoDup order) by (rewrite Hp; apply NoDup_elements).
  destruct (dispatch_loop m order st) as (s1 & R1 & O1 & F1 & H1 & C1); [done..| by intros i ?%Hin |].
  destruct (dispatch_loop m (elements (clients st)) st) as (s2 & R2 & O2 & F2 & H2 & C2);
    [done | apply NoDup_elements | by intros i ?%elem_of_elements |].
  unfold dispatch_in, dispatch. rewrite R1, R2. f_equal. apply hub_eq; [done..| | |].
  - destruct F1 as (? & ? & ?), F2 as (? & ? & ?). unfold frame. intuition congruence.
  - apply map_eq. intros i. rewrite H1, H2.
    destruct (decide (i ∈ order)) as [Hi|Hi]; rewrite ?(Hin i) in Hi;
      [rewrite decide_True by set_solver | rewrite decide_False by set_solver]; done.
  - apply set_eq. intros i. rewrite C1, C2, Hin, elem_of_elements. done.
Qed.

(** Presence on join. A join tells every other client that stays: for the
    first connection of a logged-in user "<name> joined" and then the new viewer
    count, for the first connection of a guest's browser the count alone, and
    for a further tab of someone already present nothing; if nobody was evicted
    the count is the number of distinct viewers now in the room. *)
Theorem join_announces_first_tab_only (st st' : hub) (i : nat) (c : client) (now : Z)
  (Hok : hub_ok st) (Hf : fresh st i c) (Hfit : backlog_fits st c)
  (Hj : on_join st i now = Ok st') :
  exists n,
    (forall j d, j ∈ clients st' -> j <> i -> heap st !! j = Some d ->
       heap st' !! j = Some (appended
         (if first_viewer st c then
            (if decide (username c = "") then [] else [joined_message c now]) ++ [viewers_message n]
          else []) d)) /\
    (clients st' = {[i]} ∪ clients st -> n = distinct_viewers st').
Proof.
  pose proof Hf as (Hi & _ & _ & Hni).
  assert (Hlk : forall j, j <> i -> heap (registered st i c) !! j = heap st !! j).
  { intros j Hne. simpl. by rewrite lookup_insert_ne. }
  assert (Hfp : first_presence st c = true -> username c <> "").
  { unfold first_presence. rewrite bool_decide_eq_true. tauto. }
  destruct (first_viewer st c) eqn:Hfv.
  - destruct (on_join_first st i c now) as (s & s2 & Hs & Hd1 & Hd2 & _); [done..|].
    rewrite Hs in Hj. simplify_eq. exists (size (viewerCounts s2)). split.
    + intros j d Hm Hne Hd. pose proof (delivers_trans _ _ _ _ _ Hd1 Hd2) as Hdd.
      rewrite (dl_kept _ _ _ Hdd j d) by (rewrite ?Hlk; done). do 2 f_equal.
      case_decide as Hu; [destruct (first_presence st c); [by destruct Hfp|done]|].
      by rewrite (first_together st i c), Hfv.
    + intros Hcs. rewrite (viewerCounts_size s2) by apply Hd1.
      apply (distinct_delivers _ _ _ Hd2); [apply Hd1|].
      apply set_eq. intros j. split; [|apply (dl_sub _ _ _ Hd2)].
      intros ?%(dl_sub _ _ _ Hd1). by rewrite Hcs.
  - rewrite (on_join_again st i c now) in Hj by done. simplify_eq.
    exists (distinct_viewers (tell_count (registered st i c) i (appended (history st) c))).
    split; [|done]. intros j d Hm Hne Hd. rewrite appended_nil. unfold tell_count.
    destruct (full _); simpl; rewrite ?lookup_insert_ne by done; done.
Qed.

Lemma same_clients_of_delivers ms1 ms2 s1 s2 s3 : delivers ms1 s1 s2 -> delivers ms2 s2 s3 ->
  clients s3 = clients s1 -> clients s2 = clients s3.
Proof.
  intros Hd1 Hd2 Hcs. apply set_eq. intros j. split; [|apply (dl_sub _ _ _ Hd2)].
  intros ?%(dl_sub _ _ _ Hd1). by rewrite Hcs.
Qed.

(** Presence on leave. A leave tells every client that stays "<name> left"
    exactly when it closed the user's last connection and the new viewer count
    exactly when it closed the viewer's last connection; a second leave of the
    same client, or the leave of an evicted one, changes nothing. *)
Theorem leave_announces_last_tab_only (st : hub) (i : nat) (c : client) (now : Z)
  (Hok : hub_ok st) (Hc : heap st !! i = Some c) :
  (i ∈ clients st -> exists st' b n, on_leave st i now = Ok (st', b) /\
     (i ∉ clients st') /\
     (forall j d, j ∈ clients st' -> heap st !! j = Some d ->
        heap st' !! j = Some (appended
          ((if last_presence st i c then [left_message c now] else []) ++
           (if last_viewer st i c then [viewers_message n] else [])) d)) /\
     (clients st' = clients st ∖ {[i]} -> last_viewer st i c = true -> n = distinct_viewers st')) /\
  (closed c = true -> on_leave st i now = Ok (st, bool_decide (size (clients st) = 0))).
Proof.
  split; [intros Hi | intros; by apply on_leave_gone with c].
  assert (Hlk : forall j, j ≠ i -> heap (without st i c) !! j = heap st !! j).
  { intros j Hne. simpl. by rewrite lookup_insert_ne. }
  assert (Hsub : forall s, clients s ⊆ clients st ∖ {[i]} -> i ∉ clients s) by set_solver.
  destruct (on_leave_member st i c now) as (st' & s2 & Hl & Hd1 & Hd2); [done..|].
  pose proof (Hsub s2 (dl_sub _ _ _ Hd1)) as Hn2.
  destruct (last_viewer st i c).
  - destruct Hd2 as [Hd2 _]. pose proof (delivers_trans _ _ _ _ _ Hd1 Hd2) as Hdd.
    exists st', (bool_decide (size (clients st') = 0)), (size (viewerCounts s2)).
    split; [done|]. split; [by apply Hsub, (dl_sub _ _ _ Hdd)|]. split.
    + intros j d Hm Hd. apply (dl_kept _ _ _ Hdd); [done|]. rewrite Hlk; [done|].
      intros ->. by apply (dl_sub _ _ _ Hdd), elem_of_difference in Hm as [_ []%not_elem_of_singleton].
    + intros Hcs _. rewrite (viewerCounts_size s2) by apply Hd1.
      apply (distinct_delivers _ _ _ Hd2); [apply Hd1|].
      by apply (same_clients_of_delivers _ _ _ _ _ Hd1 Hd2).
  - destruct Hd2 as [-> _]. exists s2, (bool_decide (size (clients s2) = 0)), 0.
    split_and!; [done | done | | done]. intros j d Hm Hd. rewrite app_nil_r.
    apply (dl_kept _ _ _ Hd1); [done|]. rewrite Hlk; [done|]. by intros ->.
Qed.

(** The events after which nobody was evicted. *)
Definition nobody_evicted (st : hub) (e : event) (st' : hub) : Prop :=
  match e with
  | EJoin i _ => clients st' = {[i]} ∪ clients st
  | ELeave i _ => clients st' = clients st ∖ {[i]}
  | ESend _ _ _ => clients st' = clients st
  | EStop => False
  end.

(** The directory page's count is that of the room's maps. *)
Definition count_published (st : hub) : Prop :=
  viewerCount st = int32_of (Z.of_nat (distinct_viewers st)).

Lemma first_viewer_false_distinct st i c : hub_ok st -> fresh st i c -> backlog_fits st c ->
  first_viewer st c = false ->
  size (viewerCounts (registered st i c)) = size (viewerCounts st).
Proof.
  intros Hok (Hi & _) Hfit Hfv. unfold registered; simpl. unfold add_count.
  case_decide as Hk; [done|]. unfold incr. apply map_size_insert_Some.
  unfold first_viewer in Hfv. apply bool_decide_eq_false in Hfv.
  rewrite (ok_view st Hok). unfold tally. rewrite decide_False by done.
  rewrite decide_False by naive_solver. by eauto.
Qed.

Lemma last_viewer_false_size st i c : hub_ok st -> i ∈ clients st -> heap st !! i = Some c ->
  last_viewer st i c = false -> size (viewerCounts (without st i c)) = size (viewerCounts st).
Proof.
  intros Hok Hi Hc Hlv. unfold without; simpl.
  destruct (drop_count_spec _ _ _ i (ok_view st Hok) Hi) as [Ht Hb].
  rewrite (key_of_eq _ _ _ Hc) in Ht, Hb.
  assert (Hb' : (drop_count (viewerCounts st) (viewerKey c)).2 = false) by (by rewrite Hb).
  unfold drop_count in *. rewrite string_neqb in *. case_bool_decide; [|done].
  unfold decr in *. case_decide; [done|]. simpl. apply map_size_insert_Some.
  destruct (viewerCounts st !! viewerKey c) eqn:Hl; [by eauto|].
  unfold count_of in *. rewrite Hl in *. simpl in *. lia.
Qed.

(** The published viewer count. If the directory page's atomic counter
    agrees with the room before an event and the event evicts nobody, it agrees
    after it: it is the (32-bit) number of distinct viewers registered. *)
Theorem published_count_exact (st st' : hub) (e : event) (b : bool)
  (Hok : hub_ok st) (Hrun : running st = true) (Hp : count_published st)
  (He : match e with
        | EJoin i _ => exists c, fresh st i c /\ backlog_fits st c
        | ELeave i _ => i ∈ clients st
        | _ => True end)
  (Hs : hub_step st e = Ok (st', b)) (Hne : nobody_evicted st e st') :
  count_published st'.
Proof.
  unfold count_published in *. rewrite <- viewerCounts_size in Hp by done.
  unfold hub_step in Hs. rewrite Hrun in Hs. simpl in Hs.
  destruct e as [i now|i now|msg uuid now|]; [| | |done]; simpl in Hne.
  - destruct He as (c & Hf & Hfit). pose proof (registered_ok st i c Hok Hf Hfit) as Hreg.
    destruct (first_viewer st c) eqn:Hfv.
    + destruct (on_join_first st i c now) as (s & s2 & Hj & Hd1 & Hd2 & Hv); [done..|].
      rewrite Hj in Hs. simplify_eq/=. rewrite Hv, (viewerCounts_size s2) by apply Hd1.
      do 2 f_equal. apply (distinct_delivers _ _ _ Hd2); [apply Hd1|].
      by apply (same_clients_of_delivers _ _ _ _ _ Hd1 Hd2).
    + rewrite (on_join_again st i c now) in Hs by done. simplify_eq/=.
      set (c' := appended (history st) c) in *.
      destruct (tell_count_ok (registered st i c) i c') as [Hok' _];
        [done | simpl; by rewrite lookup_insert_eq | simpl; set_solver |].
      rewrite <- viewerCounts_size by done.
      assert (Ht : viewerCounts (tell_count (registered st i c) i c') = viewerCounts (registered st i c)
                 /\ viewerCount (tell_count (registered st i c) i c') = viewerCount st).
      { unfold tell_count. by destruct (full _). }
      destruct Ht as [-> ->]. by rewrite (first_viewer_false_distinct st i c).
  - destruct (ok_live st Hok i He) as (c & Hc & _).
    destruct (removeClient_without st i c Hok He Hc) as [_ Hw].
    destruct (on_leave_member st i c now) as (s & s2 & Hl & Hd1 & Hd2); [done..|].
    rewrite Hl in Hs. simplify_eq/=. destruct (last_viewer st i c) eqn:Hlv.
    + destruct Hd2 as [Hd2 ->]. rewrite (viewerCounts_size s2) by apply Hd1.
      do 2 f_equal. apply (distinct_delivers _ _ _ Hd2); [apply Hd1|].
      by apply (same_clients_of_delivers _ _ _ _ _ Hd1 Hd2).
    + destruct Hd2 as [-> ->]. rewrite <- (distinct_delivers _ _ _ Hd1) by done.
      by rewrite <- viewerCounts_size, (last_viewer_false_size st i c) by done.
  - destruct uuid as [id|]; [|done].
    destruct (on_send_spec st msg id now Hok) as (s & Hsd & Hd & Hv).
    rewrite Hsd in Hs. simplify_eq/=. rewrite Hv, Hp.
    rewrite <- (distinct_delivers _ _ _ Hd); [| by apply appendHistory_ok | done].
    by rewrite <- viewerCounts_size by apply appendHistory_ok, Hok.
Qed.

Lemma on_leave_refused st i c now : heap st !! i = Some c -> closed c = false ->
  ch_closed (out c) = true -> on_leave st i now = Err CloseOfClosedChannel.
Proof.
  intros Hc Hcl Ho. unfold on_leave, removeClient. rewrite (deref_eq _ _ _ Hc). simpl.
  rewrite Hcl. by rewrite close_closed.
Qed.

(** Exactly when the actor panics. In a well-formed room a leave panics if
    and only if the client's channel was closed without its [closed] flag being set
    (a refused join), and the join of a client that is not registered panics if
    and only if its channel is already closed (a leave overtook it). *)
Theorem room_panics_exactly (st : hub) (i : nat) (c : client) (now : Z)
  (Hok : hub_ok st) (Hc : heap st !! i = Some c) :
  ((exists p, on_leave st i now = Err p) <-> (closed c = false /\ ch_closed (out c) = true)) /\
  ((i ∉ clients st) -> (exists p, on_join st i now = Err p) <-> ch_closed (out c) = true).
Proof.
  split.
  - split; [|intros [? ?]; exists CloseOfClosedChannel; by apply on_leave_refused with c].
    intros [p Hp]. destruct (decide (i ∈ clients st)) as [Hi|Hni].
    { destruct (on_leave_member st i c now) as (? & ? & Hl & _); [done..|]. congruence. }
    destruct (closed c) eqn:Hcl; [by rewrite (on_leave_gone st i c) in Hp|].
    destruct (ch_closed (out c)) eqn:Ho; [done|].
    destruct (on_leave_unregistered st i c now) as (? & ? & Hl & _); [done..|]. congruence.
  - intros Hni. split.
    + intros [p Hp]. destruct (ch_closed (out c)) eqn:Ho; [done|].
      destruct (closed c) eqn:Hcl; [by rewrite (ok_gone _ Hok i c Hc Hcl) in Ho|].
      destruct (on_join_ok st i c now) as (? & Hj & _); [done..|]. congruence.
    + intros Ho. exists SendOnClosedChannel. apply on_join_closed with c; [|done..].
      by apply hub_ok_live.
Qed.

Lemma run_world_ok acts w : behaved newWorld acts -> run acts = Ok w -> world_ok w.
Proof.
  intros Hb Hr. destruct (run_ok acts newWorld newWorld_ok Hb) as (w' & Hr' & Hw).
  assert (w' = w) as -> by (unfold run in Hr; congruence). done.
Qed.

Lemma run_app acts1 acts2 : run (acts1 ++ acts2) = (w ← run acts1; mfoldl wstep w acts2).
Proof. apply mfoldl_app. Qed.

Lemma wstep_join w i t : running (w_hub w) = true ->
  wstep w (AEvent (EJoin i t)) =
    (st ← on_join (w_hub w) i t; Ok (record_event w (EJoin i t) st)).
Proof.
  intros Hr. simpl. unfold hub_step. rewrite Hr. simpl. by destruct (on_join _ _ _).
Qed.

Lemma wstep_leave w i t : running (w_hub w) = true ->
  wstep w (AEvent (ELeave i t)) =
    (r ← on_leave (w_hub w) i t; Ok (record_event w (ELeave i t) r.1)).
Proof. intros Hr. simpl. unfold hub_step. rewrite Hr. done. Qed.

Lemma w_hub_record w e st : w_hub (record_event w e st) = st.
Proof.
  unfold record_event. destruct (running (w_hub w)); [|done].
  by destruct e as [| |? []|].
Qed.

Lemma wstep_connect w i u id k : heap (w_hub w) !! i = None ->
  wstep w (AConnect i u id k) = Ok (with_hub w (store i (new_client u id k) (w_hub w))).
Proof. intros H. simpl. by rewrite H. Qed.

(** The history is longer than a client's queue. After any well-behaved run
    in which more than 32 chat messages were accepted, a new client whose writer
    has drained nothing while the backlog is pushed is refused, and the leave
    that [ServeWS] then sends for it makes the actor close the closed channel:
    the process dies. *)
Theorem late_joiner_kills_room (acts : list act) (w : world) (i : nat) (u k : string)
  (id t1 t2 : Z) (Hb : behaved newWorld acts) (Hacts : run acts = Ok w)
  (Hrun : running (w_hub w) = true) (Hlong : clientSendBuffer < length (w_sent w))
  (Hnew : heap (w_hub w) !! i = None) :
  run (acts ++ [AConnect i u id k; AEvent (EJoin i t1); AEvent (ELeave i t2)])
  = Err CloseOfClosedChannel.
Proof.
  pose proof (run_world_ok acts w Hb Hacts) as Hw.
  assert (Hh : clientSendBuffer < length (history (w_hub w))).
  { rewrite (wo_hist w Hw), length_lastn. unfold clientSendBuffer, historySize in *. lia. }
  rewrite run_app, Hacts, res_bind_ok.
  cbn [mfoldl]. rewrite wstep_connect, res_bind_ok by done.
  set (c := new_client u id k). set (st := store i c (w_hub w)).
  assert (Hc : heap st !! i = Some c) by (simpl; by rewrite lookup_insert_eq).
  assert (Hj : on_join st i t1 = Ok (store i (refused st c) st)).
  { unfold on_join. rewrite (deref_eq _ _ _ Hc). simpl.
    rewrite deliver_overflows; simpl; [done | done | unfold chan_ok; simpl; lia | exact Hh]. }
  rewrite wstep_join by done. simpl w_hub. rewrite Hj, !res_bind_ok.
  rewrite wstep_leave; rewrite w_hub_record; [|done].
  rewrite (on_leave_refused _ i (refused st c)); [done | | done | done].
  simpl. by rewrite lookup_insert_eq.
Qed.

(** Joins and leaves travel in different channels, and [select] may take the leave
    first. After any well-behaved run, a client whose leave is received before
    its join makes the actor send on the closed channel. *)
Theorem leave_before_join_kills_room (acts : list act) (w : world) (i : nat) (u k : string)
  (id t1 t2 : Z) (Hb : behaved newWorld acts) (Hacts : run acts = Ok w)
  (Hrun : running (w_hub w) = true) (Hnew : heap (w_hub w) !! i = None) :
  run (acts ++ [AConnect i u id k; AEvent (ELeave i t1); AEvent (EJoin i t2)])
  = Err SendOnClosedChannel.
Proof.
  pose proof (run_world_ok acts w Hb Hacts) as Hok.
  rewrite run_app, Hacts, res_bind_ok.
  pose proof (connect_world_ok w i u id k Hok Hnew) as Hw1.
  cbn [mfoldl]. rewrite wstep_connect, res_bind_ok by done.
  set (c := new_client u id k) in *. set (st := store i c (w_hub w)) in *.
  assert (Hc : heap st !! i = Some c) by (simpl; by rewrite lookup_insert_eq).
  assert (Hni : i ∉ clients st).
  { intros Hm. destruct (ok_live _ (wo_hub w Hok) i Hm) as (? & ? & _). congruence. }
  destruct (on_leave_unregistered st i c t1) as (st' & b & Hl & Hlive & Hni' & Hc' & Hr');
    [apply Hw1 | done |].
  rewrite wstep_leave by done. simpl w_hub. rewrite Hl, !res_bind_ok. simpl fst.
  rewrite wstep_join; rewrite w_hub_record; [| by rewrite Hr'].
  by rewrite (on_join_closed st' i (gone c)).
Qed.

(** An eviction is invisible to everyone. When a message finds the queue of
    a viewer's only connection full, that viewer is dropped, the other clients
    are sent the message and nothing else, and the published count still
    includes the dropped viewer, and still does after the leave that follows. *)
Theorem evicted_viewer_stays_counted (st : hub) (i : nat) (c : client) (msg : inbound)
  (id : string) (now later : Z)
  (Hok : hub_ok st) (Hrun : running st = true) (Hi : i ∈ clients st)
  (Hc : heap st !! i = Some c) (Hfull : full (out c) = true) (Hk : viewerKey c <> ""%string)
  (Honly : holders (key_of (heap st)) (clients st) (viewerKey c) = {[i]}) :
  exists st', hub_step st (ESend msg (Some id) now) = Ok (st', false) /\
    (i ∉ clients st') /\ distinct_viewers st' < distinct_viewers st /\
    viewerCount st' = viewerCount st /\
    (forall j d, j ∈ clients st' -> heap st !! j = Some d ->
       heap st' !! j = Some (sent (stamped id msg now) d)) /\
    hub_step st' (ELeave i later) = Ok (st', bool_decide (size (clients st') = 0)).
Proof.
  set (m := stamped id msg now). set (st1 := appendHistory m st).
  assert (Hok1 : hub_ok st1) by (by apply appendHistory_ok).
  destruct (dispatch_spec m st1 Hok1) as (st' & Hd & Hdl & Hv & Hm).
  assert (Hn : i ∉ clients st').
  { intros Hi'. apply (Hm i c) in Hi'; [congruence | done..]. }
  exists st'. split_and!.
  - unfold hub_step. rewrite Hrun. simpl. change (on_send st msg (Some id) now) with (dispatch m st1).
    by rewrite Hd.
  - done.
  - rewrite <- (viewerCounts_size st') by apply Hdl. rewrite <- (viewerCounts_size st) by done.
    rewrite <- !size_dom. apply subset_size. split.
    + intros k. rewrite !(tallies_dom _ _ _ (ok_view _ (dl_ok _ _ _ Hdl))),
        (tallies_dom _ _ _ (ok_view _ Hok)), !elem_of_difference, !elem_of_map.
      intros [(j & -> & Hj) Hne]. split; [|done]. pose proof (dl_sub _ _ _ Hdl j Hj) as Hj1.
      destruct (ok_live st Hok j Hj1) as (d & Hjd & _). exists j. split; [|done].
      rewrite (key_of_eq _ _ _ (dl_kept _ _ _ Hdl j d Hj Hjd)), (key_of_eq _ _ _ Hjd).
      by apply same_id_key.
    + intros Hsub. assert (Hin : viewerKey c ∈ dom (viewerCounts st)).
      { rewrite (tallies_dom _ _ _ (ok_view _ Hok)), elem_of_difference, elem_of_map.
        split; [|set_solver]. exists i. by rewrite (key_of_eq _ _ _ Hc). }
      apply Hsub in Hin. rewrite (tallies_dom _ _ _ (ok_view _ (dl_ok _ _ _ Hdl))) in Hin.
      apply elem_of_difference in Hin as [(j & Hkj & Hj)%elem_of_map _].
      assert (Hji : j ∈ holders (key_of (heap st)) (clients st) (viewerKey c)).
      { apply elem_of_holders. pose proof (dl_sub _ _ _ Hdl j Hj) as Hj1. split; [|done].
        destruct (ok_live st Hok j Hj1) as (d & Hjd & _). rewrite Hkj.
        rewrite (key_of_eq _ _ _ (dl_kept _ _ _ Hdl j d Hj Hjd)), (key_of_eq _ _ _ Hjd).
        symmetry. by apply same_id_key. }
      rewrite Honly in Hji. set_solver.
  - by rewrite Hv.
  - intros j d Hj Hjd. by apply (dl_kept _ _ _ Hdl).
  - destruct (dl_evicted _ _ _ Hdl i) as (c' & Hc' & Hcl); [done..|].
    unfold hub_step. rewrite (dl_run _ _ _ Hdl). simpl. rewrite Hrun. simpl.
    by rewrite (on_leave_gone st' i c').
Qed.

(** ** The properties at concrete inputs *)

Definition say (n : nat) : act :=
  AEvent (ESend {| in_user := "alice"%string; in_body := "hi"%string |} (Some "id"%string) (Z.of_nat n)).

(** Alice in one tab, one guest, a message, and the writers at work. *)
Definition demo_acts : list act :=
  [AConnect 0 "alice"%string 7 ""%string; AEvent (EJoin 0 10); AConnect 1 ""%string 0 "k"%string;
   AEvent (EJoin 1 20); say 30; AWrite 0; AWrite 1; AWrite 1].

(** Alice sends 33 messages and reads them all back. *)
Definition long_acts : list act :=
  [AConnect 0 "alice"%string 7 ""%string; AEvent (EJoin 0 10)] ++
  concat (map (fun n => [say n; AWrite 0]) (seq 0 33)).

(** A guest whose writer is stuck while 31 messages arrive. *)
Definition stuck_acts : list act :=
  [AConnect 0 "alice"%string 7 ""%string; AEvent (EJoin 0 10);
   AConnect 1 ""%string 0 "k"%string; AEvent (EJoin 1 20)] ++
  concat (map (fun n => [say n; AWrite 0]) (seq 0 31)).

Definition final (acts : list act) : hub :=
  match run acts with Ok w => w_hub w | Err _ => newRoom end.

Lemma final_ok acts : behavedb newWorld acts = true -> hub_ok (final acts).
Proof.
  intros Hb%behavedb_ok. destruct (run_ok acts newWorld newWorld_ok Hb) as (w & Hr & Hw).
  unfold final, run. rewrite Hr. apply Hw.
Qed.

Definition client_at (st : hub) (i : nat) : client :=
  default (new_client ""%string 0 ""%string) (heap st !! i).

Lemma room_never_panics_witness :
  behaved newWorld demo_acts /\ exists w, run demo_acts = Ok w /\ hub_ok (w_hub w).
Proof.
  assert (H : behaved newWorld demo_acts) by (apply behavedb_ok; vm_compute; reflexivity).
  split; [exact H | exact (room_never_panics demo_acts H)].
Defined.


Lemma dispatch_any_order_witness :
  dispatch_in [0; 1] (viewers_message 9) (final demo_acts) =
  dispatch (viewers_message 9) (final demo_acts).
Proof.
  apply dispatch_any_order.
  - apply final_ok. vm_compute. reflexivity.
  - replace (elements (clients (final demo_acts))) with [1; 0] by (vm_compute; reflexivity).
    apply perm_swap.
Defined.

(** The state in which bob has connected but not joined. *)
Definition bob_acts : list act := demo_acts ++ [AConnect 2 "bob"%string 8 ""%string].

Lemma bob_fresh : fresh (final bob_acts) 2 (client_at (final bob_acts) 2).
Proof.
  split_and!; try (vm_compute; reflexivity).
  apply (bool_decide_unpack (2 ∉ clients (final bob_acts))). vm_compute. exact I.
Qed.

Lemma join_announces_first_tab_only_witness :
  exists st' n, on_join (final bob_acts) 2 40 = Ok st' /\
    (forall j d, j ∈ clients st' -> j <> 2 -> heap (final bob_acts) !! j = Some d ->
       heap st' !! j = Some (appended
         [joined_message (client_at (final bob_acts) 2) 40; viewers_message n] d)) /\
    (clients st' = {[2]} ∪ clients (final bob_acts) -> n = distinct_viewers st').
Proof.
  assert (Hok : hub_ok (final bob_acts)) by (apply final_ok; vm_compute; reflexivity).
  destruct (on_join (final bob_acts) 2 40) as [st'|p] eqn:Hj; [|vm_compute in Hj; discriminate].
  destruct (join_announces_first_tab_only (final bob_acts) st' 2 (client_at (final bob_acts) 2) 40
              Hok bob_fresh) as (n & H1 & H2).
  - apply (bool_decide_unpack (backlog_fits _ _)). vm_compute. exact I.
  - exact Hj.
  - exists st', n. split; [reflexivity|]. split; [|exact H2].
    replace (first_viewer (final bob_acts) (client_at (final bob_acts) 2)) with true in H1
      by (vm_compute; reflexivity). exact H1.
Defined.

Lemma leave_announces_last_tab_only_witness :
  exists st' b n, on_leave (final demo_acts) 0 40 = Ok (st', b) /\ (0 ∉ clients st') /\
    (forall j d, j ∈ clients st' -> heap (final demo_acts) !! j = Some d ->
       heap st' !! j = Some (appended
         [left_message (client_at (final demo_acts) 0) 40; viewers_message n] d)) /\
    (clients st' = clients (final demo_acts) ∖ {[0]} -> n = distinct_viewers st').
Proof.
  assert (Hok : hub_ok (final demo_acts)) by (apply final_ok; vm_compute; reflexivity).
  destruct (leave_announces_last_tab_only (final demo_acts) 0 (client_at (final demo_acts) 0) 40 Hok)
    as [H _]; [vm_compute; reflexivity|].
  destruct H as (st' & b & n & Hl & Hn & Hm & Hd).
  { apply (bool_decide_unpack (0 ∈ clients (final demo_acts))). vm_compute. exact I. }
  exists st', b, n. split; [exact Hl|]. split; [exact Hn|].
  replace (last_presence (final demo_acts) 0 (client_at (final demo_acts) 0)) with true in Hm
    by (vm_compute; reflexivity).
  replace (last_viewer (final demo_acts) 0 (client_at (final demo_acts) 0)) with true in Hm, Hd
    by (vm_compute; reflexivity).
  split; [exact Hm|]. intros Hcs. apply Hd; [exact Hcs | reflexivity].
Defined.

Lemma published_count_exact_witness :
  exists st', hub_step (final demo_acts) (ELeave 0 40) = Ok (st', false) /\ count_published st'.
Proof.
  destruct (hub_step (final demo_acts) (ELeave 0 40)) as [[st' b]|p] eqn:Hs;
    [|vm_compute in Hs; discriminate].
  exists st'. split; [vm_compute in Hs |- *; injection Hs as <- <-; reflexivity|].
  apply (published_count_exact (final demo_acts) st' (ELeave 0 40) b).
  - apply final_ok. vm_compute. reflexivity.
  - vm_compute. reflexivity.
  - vm_compute. reflexivity.
  - apply (bool_decide_unpack (0 ∈ clients (final demo_acts))). vm_compute. exact I.
  - exact Hs.
  - apply (bool_decide_unpack (clients st' = clients (final demo_acts) ∖ {[0]})).
    vm_compute in Hs. injection Hs as <- _. vm_compute. exact I.
Defined.

(** A client refused for its backlog is exactly one whose leave panics. *)
Definition refused_acts : list act :=
  long_acts ++ [AConnect 1 ""%string 0 "k"%string].

Lemma room_panics_exactly_witness :
  exists st, on_join (final refused_acts) 1 99 = Ok st /\
    exists p, on_leave st 1 100 = Err p.
Proof.
  assert (Hok : hub_ok (final refused_acts)) by (apply final_ok; vm_compute; reflexivity).
  destruct (on_join (final refused_acts) 1 99) as [st|p] eqn:Hj; [|vm_compute in Hj; discriminate].
  exists st. split; [reflexivity|].
  assert (Hfr : fresh (final refused_acts) 1 (client_at (final refused_acts) 1)).
  { split_and!; try (vm_compute; reflexivity).
    apply (bool_decide_unpack (1 ∉ clients (final refused_acts))). vm_compute. exact I. }
  apply (room_panics_exactly st 1 (client_at st 1) 100).
  - destruct (on_join_ok (final refused_acts) 1 _ 99 Hok Hfr) as (st' & Hj' & Hok').
    rewrite Hj in Hj'. injection Hj' as ->. exact Hok'.
  - vm_compute in Hj. injection Hj as <-. vm_compute. reflexivity.
  - vm_compute in Hj. injection Hj as <-. vm_compute. split; reflexivity.
Defined.

Lemma late_joiner_kills_room_witness :
  run (long_acts ++ [AConnect 1 ""%string 0 "k"%string; AEvent (EJoin 1 99); AEvent (ELeave 1 100)])
  = Err CloseOfClosedChannel.
Proof.
  destruct (run long_acts) as [w|p] eqn:Hr; [|vm_compute in Hr; discriminate].
  apply (late_joiner_kills_room long_acts w).
  - apply behavedb_ok. vm_compute. reflexivity.
  - exact Hr.
  - vm_compute in Hr. injection Hr as <-. reflexivity.
  - vm_compute in Hr. injection Hr as <-. apply (bool_decide_unpack (_ < _)). vm_compute. exact I.
  - vm_compute in Hr. injection Hr as <-. vm_compute. reflexivity.
Defined.

Lemma leave_before_join_kills_room_witness :
  run (demo_acts ++ [AConnect 2 "bob"%string 8 ""%string; AEvent (ELeave 2 40); AEvent (EJoin 2 50)])
  = Err SendOnClosedChannel.
Proof.
  destruct (run demo_acts) as [w|p] eqn:Hr; [|vm_compute in Hr; discriminate].
  apply (leave_before_join_kills_room demo_acts w).
  - apply behavedb_ok. vm_compute. reflexivity.
  - exact Hr.
  - vm_compute in Hr. injection Hr as <-. reflexivity.
  - vm_compute in Hr. injection Hr as <-. vm_compute. reflexivity.
Defined.

Lemma evicted_viewer_stays_counted_witness :
  exists st', hub_step (final stuck_acts)
      (ESend {| in_user := "alice"%string; in_body := "hi"%string |} (Some "id"%string) 50)
      = Ok (st', false) /\
    (1 ∉ clients st') /\ distinct_viewers st' < distinct_viewers (final stuck_acts) /\
    viewerCount st' = 2%Z.
Proof.
  destruct (evicted_viewer_stays_counted (final stuck_acts) 1 (client_at (final stuck_acts) 1)
    {| in_user := "alice"%string; in_body := "hi"%string |} "id"%string 50 60)
    as (st' & H1 & H2 & H3 & H4 & _).
  - apply final_ok. vm_compute. reflexivity.
  - vm_compute. reflexivity.
  - apply (bool_decide_unpack (1 ∈ clients (final stuck_acts))). vm_compute. exact I.
  - vm_compute. reflexivity.
  - vm_compute. reflexivity.
  - vm_compute. discriminate.
  - vm_compute. reflexivity.
  - exists st'. split; [exact H1|]. split; [exact H2|]. split; [exact H3|].
    rewrite H4. vm_compute. reflexivity.
Defined.
