(* ===== verification/Float64.v ===== *)
(** * float64 arithmetic on rationals

    A finite [float64] is represented by its value, a rational; an operation is
    the exact one followed by [rnd], IEEE 754 round-to-nearest-even to a 53-bit
    significand.  Infinities, NaNs and subnormals are outside the model: the
    rate limiter's values are non-negative, far from both ends of the range.
    The lemmas are the facts about rounding the limiter's bounds rest on:
    monotonicity, idempotence, exactness on small integers and the relative
    error bound. *)

From Stdlib Require Import QArith Qround Qpower Qminmax Lqa Lia.
Local Open Scope Q_scope.

Definition pow2 (e : Z) : Q := 2 ^ e.

(** The exponent of [q > 0]: [2^mag q <= q < 2^(mag q + 1)]. *)
Definition mag (q : Q) : Z :=
  let k := (Z.log2 (Qnum q) - Z.log2 (Zpos (Qden q)))%Z in
  if Qle_bool (pow2 k) q then k else (k - 1)%Z.

(** Nearest integer, ties to even. *)
Definition rne (q : Q) : Z :=
  let f := Qfloor q in
  match Qcompare (q - inject_Z f) (1 # 2) with
  | Lt => f
  | Gt => (f + 1)%Z
  | Eq => if Z.even f then f else (f + 1)%Z
  end.

Definition rnd_pos (q : Q) : Q := inject_Z (rne (q * pow2 (52 - mag q))) * pow2 (mag q - 52).

Definition rnd (q : Q) : Q :=
  Qred (match Qcompare q 0 with
        | Eq => 0
        | Gt => rnd_pos q
        | Lt => - rnd_pos (- q)
        end).

Definition fadd (a b : Q) : Q := rnd (a + b).
Definition fsub (a b : Q) : Q := rnd (a - b).
Definition fmul (a b : Q) : Q := rnd (a * b).
Definition fdiv (a b : Q) : Q := rnd (a / b).
Definition of_int (z : Z) : Q := rnd (inject_Z z).
Definition fltb (a b : Q) : bool := negb (Qle_bool b a).
#[global] Arguments rnd : simpl never.
#[global] Arguments fadd : simpl never.
#[global] Arguments fsub : simpl never.
#[global] Arguments fmul : simpl never.
#[global] Arguments fdiv : simpl never.
#[global] Arguments of_int : simpl never.
#[global] Arguments fltb : simpl never.

(** ** Powers of two *)
Lemma pow2_pos e : 0 < pow2 e.
Proof. apply Qpower_0_lt. reflexivity. Qed.

Lemma pow2_add a b : pow2 (a + b) == pow2 a * pow2 b.
Proof. apply Qpower_plus. discriminate. Qed.

Lemma pow2_opp a : pow2 a * pow2 (- a) == 1.
Proof. rewrite <- pow2_add, Z.add_opp_diag_r. reflexivity. Qed.

Lemma pow2_le a b : (a <= b)%Z -> pow2 a <= pow2 b.
Proof. intros. apply Qpower_le_compat_l; [assumption | discriminate]. Qed.

Lemma pow2_lt_inv a b : pow2 a < pow2 b -> (a < b)%Z.
Proof. intros H. apply (Qpower_lt_compat_l_inv 2); [exact H | reflexivity]. Qed.

Lemma pow2_Z n : (0 <= n)%Z -> pow2 n == inject_Z (2 ^ n).
Proof. intros. unfold pow2. symmetry. rewrite Zpower_Qpower by assumption. reflexivity. Qed.

Lemma pow2_succ e : pow2 (e + 1) == 2 * pow2 e.
Proof. rewrite pow2_add. change (pow2 1) with 2. ring. Qed.

(** ** The exponent *)
Lemma num_den_bounds n d : (0 < n)%Z ->
  let k := (Z.log2 n - Z.log2 (Zpos d))%Z in pow2 (k - 1) < n # d /\ n # d < pow2 (k + 1).
Proof.
  intros Hn k. destruct (Z.log2_spec n Hn) as [Ln Un].
  destruct (Z.log2_spec (Zpos d) (Pos2Z.is_pos d)) as [Ld Ud].
  pose proof (Z.log2_nonneg n). pose proof (Z.log2_nonneg (Zpos d)).
  rewrite (Qmake_Qdiv n d).
  assert (Hd : 0 < inject_Z (Zpos d)) by reflexivity.
  assert (E1 : pow2 (k - 1) * inject_Z (Zpos d) < inject_Z n).
  { apply Qlt_le_trans with (pow2 (k - 1) * pow2 (Z.log2 (Zpos d) + 1)).
    - apply Qmult_lt_l; [apply pow2_pos|]. rewrite pow2_Z by lia. rewrite <- Zlt_Qlt. lia.
    - rewrite <- pow2_add. replace (k - 1 + (Z.log2 (Z.pos d) + 1))%Z with (Z.log2 n) by (subst k; lia).
      rewrite pow2_Z by lia. rewrite <- Zle_Qle. lia. }
  assert (E2 : inject_Z n < pow2 (k + 1) * inject_Z (Zpos d)).
  { apply Qlt_le_trans with (pow2 (Z.log2 n + 1)).
    - rewrite pow2_Z by lia. rewrite <- Zlt_Qlt. lia.
    - replace (Z.log2 n + 1)%Z with (k + 1 + Z.log2 (Zpos d))%Z by (subst k; lia).
      rewrite pow2_add. apply Qmult_le_l; [apply pow2_pos|].
      rewrite pow2_Z by lia. rewrite <- Zle_Qle. lia. }
  split; [apply Qlt_shift_div_l; assumption | apply Qlt_shift_div_r; assumption].
Qed.

Lemma mag_spec q : 0 < q -> pow2 (mag q) <= q /\ q < pow2 (mag q + 1).
Proof.
  intros Hq. destruct q as [n d]. assert (Hn : (0 < n)%Z) by (unfold Qlt in Hq; simpl in Hq; lia).
  destruct (num_den_bounds n d Hn) as [L U]. unfold mag. simpl Qnum. simpl Qden.
  set (k := (Z.log2 n - Z.log2 (Zpos d))%Z) in *.
  destruct (Qle_bool (pow2 k) (n # d)) eqn:H.
  - apply Qle_bool_iff in H. split; assumption.
  - split; [apply Qlt_le_weak; exact L|].
    replace (k - 1 + 1)%Z with k by lia. apply Qnot_le_lt. intros H'.
    apply Qle_bool_iff in H'. congruence.
Qed.

Lemma mag_unique q e : pow2 e <= q -> q < pow2 (e + 1) -> mag q = e.
Proof.
  intros L U. assert (Hq : 0 < q) by (pose proof (pow2_pos e); lra).
  destruct (mag_spec q Hq) as [L' U'].
  assert (pow2 e < pow2 (mag q + 1)) as H1%pow2_lt_inv by lra.
  assert (pow2 (mag q) < pow2 (e + 1)) as H2%pow2_lt_inv by lra. lia.
Qed.

Lemma mag_le p q : 0 < p -> p <= q -> (mag p <= mag q)%Z.
Proof.
  intros Hp Hpq. destruct (mag_spec p Hp) as [L _].
  destruct (mag_spec q ltac:(lra)) as [_ U].
  assert (pow2 (mag p) < pow2 (mag q + 1)) as H%pow2_lt_inv by lra. lia.
Qed.

(** ** Nearest integer *)
Lemma rne_bounds q : inject_Z (rne q) - (1 # 2) <= q /\ q <= inject_Z (rne q) + (1 # 2).
Proof.
  unfold rne. pose proof (Qfloor_le q) as L. pose proof (Qlt_floor q) as U.
  rewrite inject_Z_plus in U. change (inject_Z 1) with 1 in U.
  destruct (Qcompare_spec (q - inject_Z (Qfloor q)) (1 # 2)) as [E|E|E].
  - destruct (Z.even (Qfloor q)); rewrite ?inject_Z_plus; change (inject_Z 1) with 1; lra.
  - lra.
  - rewrite inject_Z_plus. change (inject_Z 1) with 1. lra.
Qed.

Lemma rne_Z z q : q == inject_Z z -> rne q = z.
Proof.
  intros H. unfold rne. assert (Qfloor q = z) as -> by (rewrite H; apply Qfloor_Z).
  destruct (Qcompare_spec (q - inject_Z z) (1 # 2)) as [E|E|E]; [exfalso; lra | reflexivity | exfalso; lra].
Qed.

Lemma rne_le p q : p <= q -> (rne p <= rne q)%Z.
Proof.
  intros H. pose proof (Qfloor_resp_le p q H) as Hf. unfold rne.
  destruct (Z.eq_dec (Qfloor p) (Qfloor q)) as [E|E].
  - rewrite E.
    destruct (Qcompare_spec (p - inject_Z (Qfloor q)) (1 # 2)) as [Ep|Ep|Ep];
    destruct (Qcompare_spec (q - inject_Z (Qfloor q)) (1 # 2)) as [Eq|Eq|Eq];
    destruct (Z.even (Qfloor q)); try lia; exfalso; lra.
  - destruct (Qcompare_spec (p - inject_Z (Qfloor p)) (1 # 2));
    destruct (Qcompare_spec (q - inject_Z (Qfloor q)) (1 # 2));
    destruct (Z.even (Qfloor p)); destruct (Z.even (Qfloor q)); lia.
Qed.

(** ** Rounding a positive value *)
Lemma scaled q : 0 < q ->
  pow2 52 <= q * pow2 (52 - mag q) /\ q * pow2 (52 - mag q) < pow2 53.
Proof.
  intros Hq. destruct (mag_spec q Hq) as [L U]. pose proof (pow2_pos (52 - mag q)) as Hp.
  assert (E1 : pow2 52 == pow2 (mag q) * pow2 (52 - mag q))
    by (rewrite <- pow2_add; replace (mag q + (52 - mag q))%Z with 52%Z by lia; reflexivity).
  assert (E2 : pow2 53 == pow2 (mag q + 1) * pow2 (52 - mag q))
    by (rewrite <- pow2_add; replace (mag q + 1 + (52 - mag q))%Z with 53%Z by lia; reflexivity).
  rewrite E1, E2. split; [apply Qmult_le_r; assumption | apply Qmult_lt_r; assumption].
Qed.

Lemma unscale q e : q * pow2 e * pow2 (- e) == q.
Proof. rewrite <- Qmult_assoc, pow2_opp. ring. Qed.

Lemma rnd_pos_err q : 0 < q ->
  q - pow2 (mag q - 53) <= rnd_pos q /\ rnd_pos q <= q + pow2 (mag q - 53).
Proof.
  intros Hq. unfold rnd_pos. set (s := q * pow2 (52 - mag q)).
  destruct (rne_bounds s) as [L U]. pose proof (pow2_pos (mag q - 52)) as Hp.
  assert (Es : s * pow2 (mag q - 52) == q).
  { unfold s. replace (mag q - 52)%Z with (- (52 - mag q))%Z by lia. apply unscale. }
  assert (Eh : (1 # 2) * pow2 (mag q - 52) == pow2 (mag q - 53)).
  { replace (mag q - 52)%Z with (mag q - 53 + 1)%Z by lia. rewrite pow2_succ. ring. }
  assert (L' : (inject_Z (rne s) - (1 # 2)) * pow2 (mag q - 52) <= s * pow2 (mag q - 52))
    by (apply Qmult_le_r; assumption).
  assert (U' : s * pow2 (mag q - 52) <= (inject_Z (rne s) + (1 # 2)) * pow2 (mag q - 52))
    by (apply Qmult_le_r; assumption).
  rewrite Es in L', U'. rewrite <- Eh. split; lra.
Qed.

Lemma rnd_pos_bounds q : 0 < q -> pow2 (mag q) <= rnd_pos q /\ rnd_pos q <= pow2 (mag q + 1).
Proof.
  intros Hq. destruct (scaled q Hq) as [L U]. unfold rnd_pos.
  set (s := q * pow2 (52 - mag q)) in *. pose proof (pow2_pos (mag q - 52)) as Hp.
  assert (Hl : (2 ^ 52 <= rne s)%Z).
  { rewrite <- (rne_Z (2 ^ 52) (pow2 52)) by reflexivity. apply rne_le. exact L. }
  assert (Hu : (rne s <= 2 ^ 53)%Z).
  { rewrite <- (rne_Z (2 ^ 53) (pow2 53)) by reflexivity. apply rne_le. apply Qlt_le_weak, U. }
  assert (E1 : pow2 (mag q) == inject_Z (2 ^ 52) * pow2 (mag q - 52)).
  { rewrite <- pow2_Z, <- pow2_add by lia. replace (52 + (mag q - 52))%Z with (mag q) by lia. reflexivity. }
  assert (E2 : pow2 (mag q + 1) == inject_Z (2 ^ 53) * pow2 (mag q - 52)).
  { rewrite <- pow2_Z, <- pow2_add by lia. replace (53 + (mag q - 52))%Z with (mag q + 1)%Z by lia. reflexivity. }
  rewrite E1, E2. split; (apply Qmult_le_r; [assumption|]; rewrite <- Zle_Qle; assumption).
Qed.

Lemma rnd_pos_le p q : 0 < p -> p <= q -> rnd_pos p <= rnd_pos q.
Proof.
  intros Hp Hpq. assert (Hq : 0 < q) by lra. pose proof (mag_le p q Hp Hpq) as Hm.
  destruct (Z.eq_dec (mag p) (mag q)) as [E|E].
  - unfold rnd_pos. rewrite E. apply Qmult_le_r; [apply pow2_pos|]. rewrite <- Zle_Qle.
    apply rne_le. apply Qmult_le_r; [apply pow2_pos | assumption].
  - destruct (rnd_pos_bounds p Hp) as [_ U]. destruct (rnd_pos_bounds q Hq) as [L _].
    assert (pow2 (mag p + 1) <= pow2 (mag q)) by (apply pow2_le; lia). lra.
Qed.

(** A value with an integral 53-bit significand is exact. *)
Lemma rnd_pos_exact q m e : (0 < m < 2 ^ 53)%Z -> q == inject_Z m * pow2 e -> rnd_pos q == q.
Proof.
  intros Hm Hqe. pose proof (pow2_pos e) as He.
  assert (Hm1 : 1 <= inject_Z m) by (change 1 with (inject_Z 1); rewrite <- Zle_Qle; lia).
  assert (Hm2 : inject_Z m < pow2 53) by (rewrite pow2_Z by lia; rewrite <- Zlt_Qlt; lia).
  assert (Hq : 0 < q).
  { rewrite Hqe. rewrite <- (Qmult_0_l (pow2 e)). apply Qmult_lt_r; [assumption|]. lra. }
  destruct (mag_spec q Hq) as [L _].
  assert (Hmag : (mag q < e + 53)%Z).
  { apply pow2_lt_inv. apply Qle_lt_trans with q; [exact L|]. rewrite Hqe, (Z.add_comm e), pow2_add.
    apply Qmult_lt_r; assumption. }
  unfold rnd_pos. rewrite (rne_Z (m * 2 ^ (e + 52 - mag q))).
  - rewrite inject_Z_mult, <- pow2_Z by lia. rewrite Hqe at 3.
    rewrite <- Qmult_assoc, <- pow2_add. replace (e + 52 - mag q + (mag q - 52))%Z with e by lia. reflexivity.
  - rewrite inject_Z_mult, <- pow2_Z by lia. rewrite Hqe at 1.
    rewrite <- Qmult_assoc, <- pow2_add. replace (e + (52 - mag q))%Z with (e + 52 - mag q)%Z by lia. reflexivity.
Qed.

Lemma rnd_pos_shape q : 0 < q -> exists m e, (0 < m < 2 ^ 53)%Z /\ rnd_pos q == inject_Z m * pow2 e.
Proof.
  intros Hq. destruct (scaled q Hq) as [L U]. unfold rnd_pos.
  set (s := q * pow2 (52 - mag q)) in *.
  assert (Hl : (2 ^ 52 <= rne s)%Z).
  { rewrite <- (rne_Z (2 ^ 52) (pow2 52)) by reflexivity. apply rne_le. exact L. }
  assert (Hu : (rne s <= 2 ^ 53)%Z).
  { rewrite <- (rne_Z (2 ^ 53) (pow2 53)) by reflexivity. apply rne_le. apply Qlt_le_weak, U. }
  destruct (Z.eq_dec (rne s) (2 ^ 53)) as [E|E].
  - exists 1%Z, (mag q - 52 + 53)%Z. split; [lia|].
    rewrite E, pow2_add, (pow2_Z 53) by lia. change (inject_Z 1) with 1. ring.
  - exists (rne s), (mag q - 52)%Z. split; [lia | reflexivity].
Qed.

(** ** The rounding function on non-negative values *)
Definition u : Q := pow2 (- 53).

Lemma rnd_pos_eq q : 0 < q -> rnd q == rnd_pos q.
Proof.
  intros H. unfold rnd. rewrite Qred_correct.
  destruct (Qcompare_spec q 0); [exfalso; lra | exfalso; lra | reflexivity].
Qed.

Lemma rnd_0 q : q == 0 -> rnd q == 0.
Proof.
  intros H. unfold rnd. rewrite Qred_correct.
  destruct (Qcompare_spec q 0); [reflexivity | exfalso; lra | exfalso; lra].
Qed.

Lemma rnd_pos_gt q : 0 < q -> 0 < rnd q.
Proof.
  intros H. rewrite rnd_pos_eq by exact H. destruct (rnd_pos_bounds q H) as [L _].
  pose proof (pow2_pos (mag q)). lra.
Qed.

Lemma rnd_le p q : 0 <= p -> p <= q -> rnd p <= rnd q.
Proof.
  intros Hp Hpq. destruct (Qlt_le_dec 0 p) as [H|H].
  - rewrite !rnd_pos_eq by lra. apply rnd_pos_le; assumption.
  - rewrite (rnd_0 p) by lra. destruct (Qlt_le_dec 0 q) as [Hq|Hq].
    + apply Qlt_le_weak, rnd_pos_gt. exact Hq.
    + rewrite (rnd_0 q) by lra. lra.
Qed.

Lemma rnd_ext p q : 0 <= p -> p == q -> rnd p == rnd q.
Proof. intros Hp H. apply Qle_antisym; apply rnd_le; lra. Qed.

Lemma rnd_nonneg q : 0 <= q -> 0 <= rnd q.
Proof. intros H. rewrite <- (rnd_0 0) by reflexivity. apply rnd_le; lra. Qed.

(** Relative error at most [2^-53]. *)
Lemma rnd_err q : 0 <= q -> q - q * u <= rnd q /\ rnd q <= q + q * u.
Proof.
  intros H. destruct (Qlt_le_dec 0 q) as [Hq|Hq].
  - rewrite rnd_pos_eq by exact Hq. destruct (rnd_pos_err q Hq) as [L U].
    destruct (mag_spec q Hq) as [M _].
    assert (pow2 (mag q - 53) <= q * u).
    { unfold u. change (mag q - 53)%Z with (mag q + - 53)%Z. rewrite pow2_add.
      apply Qmult_le_r; [apply pow2_pos | exact M]. }
    lra.
  - assert (E : q == 0) by lra. rewrite (rnd_0 q E). rewrite E. lra.
Qed.

(** Representable values. *)
Definition float (q : Q) : Prop := 0 <= q /\ rnd q == q.

Lemma float_shape q m e : (0 <= m < 2 ^ 53)%Z -> q == inject_Z m * pow2 e -> float q.
Proof.
  intros Hm Hq. pose proof (pow2_pos e) as He. destruct (Z.eq_dec m 0) as [->|Hne].
  - assert (E : q == 0) by (rewrite Hq; change (inject_Z 0) with 0; ring).
    split; [rewrite E; lra | rewrite (rnd_0 q E), E; reflexivity].
  - assert (H1 : 1 <= inject_Z m) by (change 1 with (inject_Z 1); rewrite <- Zle_Qle; lia).
    assert (0 < q).
    { rewrite Hq. rewrite <- (Qmult_0_l (pow2 e)). apply Qmult_lt_r; [assumption|]. lra. }
    split; [lra|]. rewrite rnd_pos_eq by assumption. apply rnd_pos_exact with m e; [lia | exact Hq].
Qed.

Lemma shape_of_float q : float q -> 0 < q -> exists m e, (0 < m < 2 ^ 53)%Z /\ q == inject_Z m * pow2 e.
Proof.
  intros [_ H] Hq. rewrite rnd_pos_eq in H by exact Hq.
  destruct (rnd_pos_shape q Hq) as (m & e & Hm & E). exists m, e. split; [exact Hm|].
  rewrite <- E. symmetry. exact H.
Qed.

Lemma float_rnd q : 0 <= q -> float (rnd q).
Proof.
  intros H. destruct (Qlt_le_dec 0 q) as [Hq|Hq].
  - destruct (rnd_pos_shape q Hq) as (m & e & Hm & E).
    apply float_shape with m e; [lia|]. rewrite rnd_pos_eq by exact Hq. exact E.
  - apply float_shape with 0%Z 0%Z; [lia|]. rewrite (rnd_0 q) by lra. reflexivity.
Qed.

Lemma float_int z : (0 <= z <= 2 ^ 53)%Z -> float (inject_Z z).
Proof.
  intros H. destruct (Z.eq_dec z (2 ^ 53)) as [->|Hne].
  - apply float_shape with 1%Z 53%Z; [lia | reflexivity].
  - apply float_shape with z 0%Z; [lia|]. change (pow2 0) with 1. ring.
Qed.

Lemma of_int_exact z : (0 <= z <= 2 ^ 53)%Z -> of_int z == inject_Z z.
Proof. intros H. apply (float_int z H). Qed.

Lemma rnd_ge_float p q : float p -> p <= q -> p <= rnd q.
Proof. intros [H0 H] Hq. rewrite <- H. apply rnd_le; assumption. Qed.

Lemma rnd_le_float p q : float q -> 0 <= p -> p <= q -> rnd p <= q.
Proof. intros [_ H] H0 Hp. rewrite <- H. apply rnd_le; assumption. Qed.

Lemma float_ext p q : p == q -> float p -> float q.
Proof.
  intros E [H0 H]. split; [lra|]. rewrite <- (rnd_ext p q) by assumption. lra.
Qed.

(** Taking 1 from a representable value in [1, 2^53] is exact. *)
Lemma fsub1_exact t : float t -> 1 <= t -> t <= inject_Z (2 ^ 53) -> fsub t 1 == t - 1 /\ float (fsub t 1).
Proof.
  intros Ht H1 H53. assert (Hf : float (t - 1)).
  { destruct (shape_of_float t Ht ltac:(lra)) as (m & e & Hm & E).
    destruct (Z.le_gt_cases 0 e) as [He|He].
    - assert (Ez : t == inject_Z (m * 2 ^ e)) by (rewrite inject_Z_mult, <- pow2_Z by lia; exact E).
      assert (Hz : (1 <= m * 2 ^ e <= 2 ^ 53)%Z).
      { rewrite Ez in H1, H53. change 1 with (inject_Z 1) in H1.
        rewrite <- Zle_Qle in H1, H53. lia. }
      apply float_ext with (inject_Z (m * 2 ^ e - 1)); [|apply float_int; lia].
      rewrite Ez. unfold Z.sub. rewrite inject_Z_plus. reflexivity.
    - assert (E1 : 1 == inject_Z (2 ^ (- e)) * pow2 e).
      { rewrite <- pow2_Z, <- pow2_add by lia. rewrite Z.add_opp_diag_l. reflexivity. }
      assert (Hle : (2 ^ (- e) <= m)%Z).
      { pose proof (pow2_pos e) as Hp. rewrite Zle_Qle. apply (Qmult_le_r _ _ (pow2 e) Hp).
        rewrite <- E1, <- E. exact H1. }
      apply float_shape with (m - 2 ^ (- e))%Z e; [lia|].
      rewrite E. rewrite E1 at 1. unfold Z.sub. rewrite inject_Z_plus, inject_Z_opp. ring. }
  split; [apply Hf|]. apply float_ext with (t - 1); [symmetry; apply Hf | exact Hf].
Qed.

Lemma fltb_true a b : fltb a b = true <-> a < b.
Proof.
  unfold fltb. rewrite Bool.negb_true_iff. split.
  - intros H. apply Qnot_le_lt. intros H'. apply Qle_bool_iff in H'. congruence.
  - intros H. destruct (Qle_bool b a) eqn:E; [|reflexivity]. apply Qle_bool_iff in E. lra.
Qed.

Lemma fltb_false a b : fltb a b = false <-> b <= a.
Proof. unfold fltb. rewrite Bool.negb_false_iff. apply Qle_bool_iff. Qed.
