(* ===== verification/RateLimit.v ===== *)
(** * The chat rate limiter: [src/internal/chat/ratelimit.go]

    Times are nanoseconds (what [time.Time] carries), durations saturate at
    int64 like [time.Time.Sub], and token arithmetic is float64 ([Float64]). *)

From Stdlib Require Import QArith Qround Lqa.
From S2P Require Import Prelude Float64.
Local Open Scope Q_scope.

Definition maxDuration : Z := (2 ^ 63 - 1)%Z.
Definition minDuration : Z := (- 2 ^ 63)%Z.

(** [t.Sub(s)] *)
Definition time_sub (t s : Z) : Z := Z.max minDuration (Z.min maxDuration (t - s)%Z).

(** [d.Seconds()]: [float64(d/Second) + float64(d%Second)/1e9] *)
Definition Seconds (d : Z) : Q :=
  fadd (of_int (Z.quot d 1000000000)) (fdiv (of_int (Z.rem d 1000000000)) (inject_Z 1000000000)).

Record limiter := {
  tokens : Q;
  maxTokens : Q;
  refillRate : Q;  (* tokens per second *)
  lastRefill : Z
}.

Definition newLimiter (burst : Z) (perSecond : Q) (now : Z) : limiter :=
  {| tokens := of_int burst; maxTokens := of_int burst;
     refillRate := perSecond; lastRefill := now |}.

Definition minFloat (a b : Q) : Q := if fltb a b then a else b.

Definition refill (l : limiter) (now : Z) : limiter :=
  let elapsed := Seconds (time_sub now (lastRefill l)) in
  if fltb 0 elapsed then
    {| tokens := minFloat (maxTokens l) (fadd (tokens l) (fmul elapsed (refillRate l)));
       maxTokens := maxTokens l; refillRate := refillRate l; lastRefill := now |}
  else l.

(** [limiter.allow] *)
Definition allow (l : limiter) (now : Z) : limiter * bool :=
  let l := refill l now in
  if fltb (tokens l) 1 then (l, false)
  else ({| tokens := fsub (tokens l) 1; maxTokens := maxTokens l;
           refillRate := refillRate l; lastRefill := lastRefill l |}, true).

Record limiterMap := {
  byUser : gmap Z limiter;
  burst : Z;
  perSecond : Q
}.

Definition newLimiterMap (burst : Z) (perSecond : Q) : limiterMap :=
  {| byUser := ∅; burst := burst; perSecond := perSecond |}.

(** [limiterMap.allow]: the bucket is created full on the user's first message. *)
Definition allowUser (m : limiterMap) (userID : Z) (now : Z) : limiterMap * bool :=
  let l := default (newLimiter (burst m) (perSecond m) now) (byUser m !! userID) in
  let '(l', ok) := allow l now in
  ({| byUser := <[userID := l']> (byUser m); burst := burst m; perSecond := perSecond m |}, ok).

(** ** Invariant *)
Record lim_ok (l : limiter) : Prop := {
  lo_tokens : float (tokens l);
  lo_le : tokens l <= maxTokens l;
  lo_max : float (maxTokens l);
  lo_one : 1 <= maxTokens l;
  lo_53 : maxTokens l <= inject_Z (2 ^ 53);
  lo_rate : 0 <= refillRate l
}.

Lemma minFloat_le a b : minFloat a b <= a /\ minFloat a b <= b.
Proof.
  unfold minFloat. destruct (fltb a b) eqn:H.
  - apply fltb_true in H. lra.
  - apply fltb_false in H. lra.
Qed.

Lemma minFloat_cases a b : minFloat a b = a \/ minFloat a b = b.
Proof. unfold minFloat. destruct (fltb a b); auto. Qed.

(** Durations and their float seconds. *)
Lemma Seconds_shape d : (0 < d <= maxDuration)%Z ->
  let s := Z.quot d 1000000000 in let n := Z.rem d 1000000000 in
  (0 <= s <= 2 ^ 53)%Z /\ (0 <= n < 1000000000)%Z /\
  Seconds d == rnd (inject_Z s + rnd (inject_Z n / inject_Z 1000000000)) /\
  inject_Z s + inject_Z n / inject_Z 1000000000 == inject_Z d / inject_Z 1000000000.
Proof.
  intros Hd s n. pose proof (Z.quot_rem' d 1000000000) as E. fold s n in E.
  pose proof (Z.rem_bound_pos d 1000000000 ltac:(lia) ltac:(lia)) as Hn. fold n in Hn.
  assert (Hs0 : (0 <= s)%Z) by (subst s; apply Z.quot_pos; lia).
  assert (Hs : (s <= 2 ^ 53)%Z) by (unfold maxDuration in Hd; lia).
  assert (Hdiv : 0 <= inject_Z n / inject_Z 1000000000).
  { apply Qle_shift_div_l; [reflexivity|]. rewrite Qmult_0_l.
    change 0 with (inject_Z 0). rewrite <- Zle_Qle. lia. }
  assert (Hs' : 0 <= inject_Z s) by (change 0 with (inject_Z 0); rewrite <- Zle_Qle; lia).
  split; [lia|]. split; [lia|]. split.
  - unfold Seconds, fadd, fdiv. fold s n. apply rnd_ext.
    + pose proof (of_int_exact s ltac:(lia)). pose proof (of_int_exact n ltac:(lia)) as En.
      assert (0 <= rnd (of_int n / inject_Z 1000000000)); [|lra].
      apply rnd_nonneg. rewrite En. exact Hdiv.
    + rewrite (of_int_exact s) by lia. apply Qplus_inj_l. symmetry. apply rnd_ext; [exact Hdiv|].
      rewrite (of_int_exact n) by lia. reflexivity.
  - rewrite E. rewrite inject_Z_plus, inject_Z_mult. field.
Qed.

(** The exact value of a duration in seconds. *)
Definition secs (d : Z) : Q := inject_Z d / inject_Z 1000000000.

Lemma secs_pos d : (0 < d)%Z -> 0 < secs d.
Proof.
  intros H. unfold secs. apply Qlt_shift_div_l; [reflexivity|]. rewrite Qmult_0_l.
  change 0 with (inject_Z 0). rewrite <- Zlt_Qlt. exact H.
Qed.

Lemma secs_le d e : (d <= e)%Z -> secs d <= secs e.
Proof.
  intros H. unfold secs, Qdiv. apply Qmult_le_r; [reflexivity|]. rewrite <- Zle_Qle. exact H.
Qed.

Lemma secs_add d e : secs (d + e) == secs d + secs e.
Proof. unfold secs. rewrite inject_Z_plus. field. Qed.

Lemma u_small : 0 < u /\ u <= 1 # 1000.
Proof. split; [apply pow2_pos | unfold u, pow2; vm_compute; discriminate]. Qed.

(** Relative error of [Seconds]: two roundings. *)
Lemma Seconds_bounds d : (0 < d <= maxDuration)%Z ->
  0 < Seconds d /\ Seconds d <= secs d * (1 + u) * (1 + u).
Proof.
  intros Hd. destruct (Seconds_shape d Hd) as (Hs & Hn & E & Ex).
  set (s := Z.quot d 1000000000) in *. set (n := Z.rem d 1000000000) in *.
  set (f := inject_Z n / inject_Z 1000000000) in *.
  assert (Hf : 0 <= f).
  { unfold f. apply Qle_shift_div_l; [reflexivity|]. rewrite Qmult_0_l.
    change 0 with (inject_Z 0). rewrite <- Zle_Qle. lia. }
  assert (Hs' : 0 <= inject_Z s) by (change 0 with (inject_Z 0); rewrite <- Zle_Qle; lia).
  pose proof (secs_pos d ltac:(lia)) as Hp. change (inject_Z d / inject_Z 1000000000) with (secs d) in Ex.
  destruct (rnd_err f Hf) as [Lf Uf]. pose proof (rnd_nonneg f Hf) as Nf. pose proof u_small as [U0 U1].
  assert (Hpos : 0 < inject_Z s + rnd f).
  { destruct (Qlt_le_dec 0 f) as [H|H]; [pose proof (rnd_pos_gt f H); lra|].
    assert (f == 0) by lra. lra. }
  destruct (rnd_err (inject_Z s + rnd f) ltac:(lra)) as [_ U].
  assert (Hsu : 0 <= inject_Z s * u) by (apply Qmult_le_0_compat; lra).
  assert (Hin : inject_Z s + rnd f <= secs d * (1 + u)) by (rewrite <- Ex; lra).
  split; [rewrite E; apply rnd_pos_gt; exact Hpos|]. rewrite E.
  apply Qle_trans with ((inject_Z s + rnd f) * (1 + u)); [lra|]. apply Qmult_le_r; lra.
Qed.

Lemma Seconds_nonpos d : (minDuration <= d <= 0)%Z -> Seconds d <= 0.
Proof.
  intros Hd. set (s := Z.quot d 1000000000). set (n := Z.rem d 1000000000).
  pose proof (Z.quot_rem' d 1000000000) as E. fold s n in E.
  assert (Hn : (- 1000000000 < n <= 0)%Z).
  { destruct (Z.eq_dec d 0%Z) as [->|]; [subst n; vm_compute; split; [reflexivity|discriminate]|].
    pose proof (Z.rem_opp_l d 1000000000 ltac:(lia)) as Ho. fold n in Ho.
    pose proof (Z.rem_bound_pos (- d) 1000000000 ltac:(lia) ltac:(lia)). lia. }
  assert (Hs : (s <= 0)%Z) by lia.
  assert (Hneg : forall q, q <= 0 -> rnd q <= 0).
  { intros q Hq. unfold rnd. rewrite Qred_correct.
    destruct (Qcompare_spec q 0) as [H|H|H]; [lra | | exfalso; lra].
    destruct (rnd_pos_bounds (- q) ltac:(lra)) as [L _]. pose proof (pow2_pos (mag (- q))). lra. }
  assert (Hz : forall z, (z <= 0)%Z -> of_int z <= 0).
  { intros z Hz. apply Hneg. change 0 with (inject_Z 0). rewrite <- Zle_Qle. exact Hz. }
  unfold Seconds, fadd, fdiv. fold s n. apply Hneg.
  assert (rnd (of_int n / inject_Z 1000000000) <= 0).
  { apply Hneg. apply Qle_shift_div_r; [reflexivity|]. rewrite Qmult_0_l. apply Hz. lia. }
  pose proof (Hz s Hs). lra.
Qed.

Lemma time_sub_range t s : (minDuration <= time_sub t s <= maxDuration)%Z.
Proof. unfold time_sub, minDuration, maxDuration. lia. Qed.

(** The refill happens exactly when time advanced. *)
Lemma elapsed_pos t s : fltb 0 (Seconds (time_sub t s)) = true <-> (s < t)%Z.
Proof.
  pose proof (time_sub_range t s) as Hr. split.
  - intros H%fltb_true. destruct (Z.le_gt_cases t s); [|lia].
    assert (Seconds (time_sub t s) <= 0); [|lra].
    apply Seconds_nonpos. unfold time_sub, minDuration, maxDuration in *. lia.
  - intros H. apply fltb_true. apply Seconds_bounds. unfold time_sub, minDuration, maxDuration in *. lia.
Qed.

Lemma Seconds_ge_1 d : (1000000000 <= d <= maxDuration)%Z -> 1 <= Seconds d.
Proof.
  intros Hd. destruct (Seconds_shape d ltac:(lia)) as (Hs & Hn & E & _). rewrite E.
  apply rnd_ge_float; [apply (float_int 1); lia|].
  assert (Hq : 1 <= inject_Z (Z.quot d 1000000000)).
  { change 1 with (inject_Z 1). rewrite <- Zle_Qle. apply Z.quot_le_lower_bound; lia. }
  assert (0 <= rnd (inject_Z (Z.rem d 1000000000) / inject_Z 1000000000)); [|lra].
  apply rnd_nonneg, Qle_shift_div_l; [reflexivity|]. rewrite Qmult_0_l.
  change 0 with (inject_Z 0). rewrite <- Zle_Qle. lia.
Qed.

(** ** [refill] *)
Lemma refill_still l now : (now <= lastRefill l)%Z -> refill l now = l.
Proof.
  intros H. unfold refill. destruct (fltb _ _) eqn:E; [|reflexivity].
  apply elapsed_pos in E. lia.
Qed.

Lemma refill_sum l now : lim_ok l -> (lastRefill l < now)%Z ->
  let e := Seconds (time_sub now (lastRefill l)) in
  0 < e /\ 0 <= fmul e (refillRate l) /\ float (fadd (tokens l) (fmul e (refillRate l))).
Proof.
  intros Hl Hn e. destruct (lo_tokens l Hl) as [Ht _]. pose proof (lo_rate l Hl) as Hr.
  assert (He : 0 < e) by (apply fltb_true, elapsed_pos; exact Hn).
  assert (Hm : 0 <= fmul e (refillRate l)) by (apply rnd_nonneg, Qmult_le_0_compat; lra).
  split; [exact He|]. split; [exact Hm|]. apply float_rnd. lra.
Qed.

Lemma refill_ok l now : lim_ok l -> lim_ok (refill l now).
Proof.
  intros Hl. destruct (Z.le_gt_cases now (lastRefill l)) as [H|H]; [by rewrite refill_still|].
  destruct (refill_sum l now Hl H) as (He & Hm & Hf). destruct Hl as [H1 H2 H3 H4 H5 H6].
  unfold refill. rewrite (proj2 (elapsed_pos _ _) H).
  set (s := fadd _ _) in *. split; simpl; try assumption.
  - destruct (minFloat_cases (maxTokens l) s) as [->| ->]; assumption.
  - apply minFloat_le.
Qed.

Lemma allow_ok l now : lim_ok l -> lim_ok (fst (allow l now)).
Proof.
  intros Hl. unfold allow. pose proof (refill_ok l now Hl) as H. set (l' := refill l now) in *.
  destruct (fltb (tokens l') 1) eqn:E; [exact H|]. apply fltb_false in E.
  destruct H as [H1 H2 H3 H4 H5 H6].
  destruct (fsub1_exact (tokens l') H1 E (Qle_trans _ _ _ H2 H5)) as [Hs Hf].
  split; cbn [fst tokens maxTokens refillRate]; [exact Hf | lra | exact H3 | exact H4 | exact H5 | exact H6].
Qed.

Lemma newLimiter_ok burst perSecond now :
  (1 <= burst <= 2 ^ 53)%Z -> 0 <= perSecond -> lim_ok (newLimiter burst perSecond now).
Proof.
  intros Hb Hr. pose proof (of_int_exact burst ltac:(lia)) as E.
  assert (Hf : float (of_int burst)) by (apply float_ext with (inject_Z burst); [lra | apply float_int; lia]).
  split; simpl; try assumption; try lra; rewrite E.
  - change 1 with (inject_Z 1). rewrite <- Zle_Qle. lia.
  - rewrite <- Zle_Qle. lia.
Qed.

(** The exact amount the bucket may gain. *)
Lemma u_fourth : (1 + u) * (1 + u) * (1 + u) * (1 + u) <= 1 + 5 * u.
Proof. unfold u, pow2. vm_compute. discriminate. Qed.

Lemma refill_gain l now : lim_ok l -> (lastRefill l < now)%Z ->
  tokens (refill l now)
    <= tokens l + refillRate l * secs (now - lastRefill l) + 10 * u * maxTokens l.
Proof.
  intros Hl Hn. destruct (refill_sum l now Hl Hn) as (He & Hm & Hf).
  destruct (lo_tokens l Hl) as [Ht _]. pose proof (lo_rate l Hl) as Hr.
  pose proof (lo_one l Hl) as Hmax. pose proof u_small as [U0 U1]. pose proof u_fourth as U4.
  unfold refill. rewrite (proj2 (elapsed_pos _ _) Hn). cbn [tokens].
  set (d := time_sub now (lastRefill l)) in *.
  destruct (Seconds_bounds d) as [_ Hub].
  { unfold d, time_sub, minDuration, maxDuration. lia. }
  assert (Hd : secs d <= secs (now - lastRefill l)).
  { apply secs_le. unfold d, time_sub, minDuration, maxDuration. lia. }
  pose proof (secs_pos (now - lastRefill l) ltac:(lia)) as Hx.
  set (x := secs (now - lastRefill l)) in *. set (r := refillRate l) in *. set (t := tokens l) in *.
  set (M := maxTokens l) in *. set (e := Seconds d) in *.
  destruct (minFloat_le M (fadd t (fmul e r))) as [B1 B2].
  assert (Hxr : 0 <= r * x) by (apply Qmult_le_0_compat; lra).
  destruct (Qlt_le_dec (2 * M) (t + r * x)) as [Hbig|Hsmall].
  { assert (0 <= 10 * u * M) by (apply Qmult_le_0_compat; lra). lra. }
  set (v := 1 + u) in *. assert (Hv : 1 <= v) by (unfold v; lra).
  assert (He2 : e <= x * v * v).
  { apply Qle_trans with (secs d * v * v); [exact Hub|].
    apply Qmult_le_compat_r; [|lra]. apply Qmult_le_compat_r; lra. }
  assert (Hm1 : fmul e r <= r * x * v * v * v).
  { destruct (rnd_err (e * r)) as [_ Hu]; [apply Qmult_le_0_compat; lra|].
    apply Qle_trans with (e * r * v); [unfold fmul, v in *; lra|].
    apply Qle_trans with (x * v * v * r * v); [|lra].
    apply Qmult_le_compat_r; [|lra]. apply Qmult_le_compat_r; lra. }
  destruct (rnd_err (t + fmul e r) ltac:(lra)) as [_ Hu].
  assert (Hv2 : 1 <= v * v * v).
  { assert (1 * 1 <= v * v) by (apply Qmult_le_compat_nonneg; lra).
    assert (1 * 1 <= (v * v) * v) by (apply Qmult_le_compat_nonneg; lra). lra. }
  assert (Ht1 : t + fmul e r <= (t + r * x) * (v * v * v)).
  { assert (t * 1 <= t * (v * v * v)) by (apply Qmult_le_compat_nonneg; lra). lra. }
  assert (Ht2 : fadd t (fmul e r) <= (t + r * x) * (v * v * v * v)).
  { apply Qle_trans with ((t + fmul e r) * v); [unfold fadd, v in *; lra|].
    apply Qle_trans with ((t + r * x) * (v * v * v) * v); [apply Qmult_le_compat_r; lra | lra]. }
  assert (Ht3 : (t + r * x) * (v * v * v * v) <= (t + r * x) * (1 + 5 * u)).
  { apply Qmult_le_compat_nonneg; split; try lra.
    assert (1 * 1 <= (v * v * v) * v) by (apply Qmult_le_compat_nonneg; lra). lra. }
  assert (Ht4 : (t + r * x) * (5 * u) <= 2 * M * (5 * u)) by (apply Qmult_le_compat_r; lra).
  lra.
Qed.

#[global] Arguments allow : simpl never.
#[global] Arguments refill : simpl never.
#[global] Arguments Seconds : simpl never.

(** ** Sequences of calls *)
Fixpoint calls (l : limiter) (ts : list Z) : limiter * list bool :=
  match ts with
  | [] => (l, [])
  | t :: ts => let '(l, ok) := allow l t in
               let '(l, oks) := calls l ts in (l, ok :: oks)
  end.

Fixpoint serve (m : limiterMap) (evs : list (Z * Z)) : limiterMap * list bool :=
  match evs with
  | [] => (m, [])
  | (user, t) :: evs => let '(m, ok) := allowUser m user t in
                        let '(m, oks) := serve m evs in (m, ok :: oks)
  end.

Definition admitted (oks : list bool) : Z := len (filter (fun b : bool => b = true) oks).

(** The call times of one user, and the verdicts on them. *)
Definition timesOf (user : Z) (evs : list (Z * Z)) : list Z :=
  map snd (filter (fun ev : Z * Z => ev.1 = user) evs).
Definition verdictsOf (user : Z) (evs : list (Z * Z)) (oks : list bool) : list bool :=
  map snd (filter (fun p : (Z * Z) * bool => p.1.1 = user) (zip evs oks)).

Lemma admitted_cons b oks : admitted (b :: oks) = ((if b then 1 else 0) + admitted oks)%Z.
Proof.
  unfold admitted, len. destruct b.
  - rewrite filter_cons_True by done. simpl. lia.
  - rewrite filter_cons_False by done. lia.
Qed.

Lemma calls_ok l ts : lim_ok l -> lim_ok (fst (calls l ts)).
Proof.
  revert l. induction ts as [|t ts IH]; intros l Hl; [exact Hl|]. cbn [calls].
  pose proof (allow_ok l t Hl) as H. destruct (allow l t) as [l1 ok].
  specialize (IH l1 H). destruct (calls l1 ts). exact IH.
Qed.

Lemma allow_fixed l t :
  maxTokens (fst (allow l t)) = maxTokens l /\ refillRate (fst (allow l t)) = refillRate l /\
  lastRefill (fst (allow l t)) = Z.max (lastRefill l) t.
Proof.
  assert (H : maxTokens (refill l t) = maxTokens l /\ refillRate (refill l t) = refillRate l /\
              lastRefill (refill l t) = Z.max (lastRefill l) t).
  { unfold refill. destruct (fltb 0 _) eqn:E.
    - apply elapsed_pos in E. cbn [maxTokens refillRate lastRefill]. repeat split. lia.
    - assert (~ (lastRefill l < t)%Z) by (rewrite <- elapsed_pos; congruence). repeat split. lia. }
  unfold allow. destruct (fltb (tokens _) _); exact H.
Qed.

(** One call: the tokens held plus the verdict never exceed what was held
    plus what the elapsed time earned. *)
Lemma allow_gain l t : lim_ok l ->
  tokens (fst (allow l t)) + (if snd (allow l t) then 1 else 0)
    <= tokens l + refillRate l * secs (Z.max (lastRefill l) t - lastRefill l) + 10 * u * maxTokens l.
Proof.
  intros Hl. assert (Hg : tokens (refill l t) <= tokens l
    + refillRate l * secs (Z.max (lastRefill l) t - lastRefill l) + 10 * u * maxTokens l).
  { destruct (Z.le_gt_cases t (lastRefill l)) as [H|H].
    - rewrite refill_still by exact H. rewrite Z.max_l by exact H. rewrite Z.sub_diag.
      assert (E : secs 0 == 0) by reflexivity. rewrite E.
      pose proof u_small as [U0 U1]. pose proof (lo_one l Hl).
      assert (0 <= 10 * u * maxTokens l) by (apply Qmult_le_0_compat; lra). lra.
    - rewrite Z.max_r by lia. apply refill_gain; [exact Hl | lia]. }
  pose proof (refill_ok l t Hl) as Hr. unfold allow. set (l' := refill l t) in *.
  destruct (fltb (tokens l') 1) eqn:E; cbn [fst snd tokens]; [lra|]. apply fltb_false in E.
  destruct (fsub1_exact (tokens l') (lo_tokens l' Hr) E (Qle_trans _ _ _ (lo_le l' Hr) (lo_53 l' Hr)))
    as [Es _]. lra.
Qed.

Lemma calls_gain ts l t1 : lim_ok l -> (lastRefill l <= t1)%Z -> Forall (fun t => t <= t1)%Z ts ->
  inject_Z (admitted (snd (calls l ts)))
    <= tokens l + refillRate l * secs (t1 - lastRefill l) + inject_Z (len ts) * (10 * u * maxTokens l).
Proof.
  revert l. induction ts as [|t ts IH]; intros l Hl Hlast Hts.
  - destruct (lo_tokens l Hl) as [Ht _]. pose proof (lo_rate l Hl) as Hr.
    change (inject_Z (admitted (snd (calls l [])))) with 0. change (inject_Z (len [])) with 0.
    assert (0 <= secs (t1 - lastRefill l)).
    { assert (E : secs 0 == 0) by reflexivity. rewrite <- E. apply secs_le. lia. }
    assert (0 <= refillRate l * secs (t1 - lastRefill l)) by (apply Qmult_le_0_compat; lra). lra.
  - apply Forall_cons in Hts as [Ht Hts].
    pose proof (allow_ok l t Hl) as Hok. pose proof (allow_gain l t Hl) as Hg.
    destruct (allow_fixed l t) as (Em & Er & El). cbn [calls].
    destruct (allow l t) as [l1 ok] eqn:Ea. cbn [fst snd] in *.
    specialize (IH l1 Hok ltac:(lia) Hts). rewrite Em, Er, El in IH.
    destruct (calls l1 ts) as [l2 oks]. cbn [fst snd] in *. rewrite admitted_cons.
    assert (Es : secs (t1 - lastRefill l) ==
      secs (Z.max (lastRefill l) t - lastRefill l) + secs (t1 - Z.max (lastRefill l) t)).
    { rewrite <- secs_add. replace (_ + _)%Z with (t1 - lastRefill l)%Z by lia. reflexivity. }
    assert (En : inject_Z (len (t :: ts)) == 1 + inject_Z (len ts)).
    { change 1 with (inject_Z 1). rewrite <- inject_Z_plus. unfold len. simpl length.
      replace (Z.of_nat (S (length ts))) with (1 + Z.of_nat (length ts))%Z by lia. reflexivity. }
    rewrite Es, En, inject_Z_plus.
    assert (Ei : inject_Z (if ok then 1 else 0) == (if ok then 1 else 0)) by (destruct ok; reflexivity).
    rewrite Ei. set (r := refillRate l) in *. set (g := 10 * u * maxTokens l) in *. lra.
Qed.

(** ** One user's bucket does not see the others *)
Lemma allowUser_params m user t :
  burst (fst (allowUser m user t)) = burst m /\ perSecond (fst (allowUser m user t)) = perSecond m.
Proof. unfold allowUser. destruct (allow _ _). split; reflexivity. Qed.

Lemma serve_cons m user t evs :
  snd (serve m ((user, t) :: evs))
  = snd (allowUser m user t) :: snd (serve (fst (allowUser m user t)) evs).
Proof. cbn [serve]. destruct (allowUser m user t) as [m1 ok]. cbn [fst snd]. by destruct (serve m1 evs). Qed.

Lemma calls_cons l t ts :
  snd (calls l (t :: ts)) = snd (allow l t) :: snd (calls (fst (allow l t)) ts).
Proof. cbn [calls]. destruct (allow l t) as [l1 ok]. cbn [fst snd]. by destruct (calls l1 ts). Qed.

Lemma verdictsOf_cons user u' t evs ok oks :
  verdictsOf user ((u', t) :: evs) (ok :: oks)
  = if decide (u' = user) then ok :: verdictsOf user evs oks else verdictsOf user evs oks.
Proof. unfold verdictsOf. cbn [zip zip_with]. rewrite filter_cons. simpl. by destruct (decide (u' = user)). Qed.

Lemma timesOf_cons user u' t evs :
  timesOf user ((u', t) :: evs)
  = if decide (u' = user) then t :: timesOf user evs else timesOf user evs.
Proof. unfold timesOf. rewrite filter_cons. simpl. by destruct (decide (u' = user)). Qed.

Lemma allowUser_eq m user t :
  let l := default (newLimiter (burst m) (perSecond m) t) (byUser m !! user) in
  snd (allowUser m user t) = snd (allow l t) /\
  byUser (fst (allowUser m user t)) = <[user := fst (allow l t)]> (byUser m).
Proof. intros l. unfold allowUser. fold l. by destruct (allow l t). Qed.

Lemma serve_known user m l evs : byUser m !! user = Some l ->
  verdictsOf user evs (snd (serve m evs)) = snd (calls l (timesOf user evs)).
Proof.
  revert m l. induction evs as [|[u' t] evs IH]; intros m l Hl; [reflexivity|].
  rewrite serve_cons, verdictsOf_cons, timesOf_cons. destruct (allowUser_eq m u' t) as [Ev Em].
  destruct (decide (u' = user)) as [->|Hne].
  - rewrite Hl in Ev, Em. rewrite calls_cons, Ev. f_equal.
    apply IH. rewrite Em. by rewrite lookup_insert_eq.
  - apply IH. rewrite Em. by rewrite lookup_insert_ne.
Qed.

Lemma serve_fresh user m evs : byUser m !! user = None ->
  verdictsOf user evs (snd (serve m evs))
  = match timesOf user evs with
    | [] => []
    | t0 :: ts => snd (calls (newLimiter (burst m) (perSecond m) t0) (t0 :: ts))
    end.
Proof.
  revert m. induction evs as [|[u' t] evs IH]; intros m Hl; [reflexivity|].
  rewrite serve_cons, verdictsOf_cons, timesOf_cons. destruct (allowUser_eq m u' t) as [Ev Em].
  destruct (decide (u' = user)) as [->|Hne].
  - rewrite Hl in Ev, Em. rewrite calls_cons, Ev. f_equal.
    apply serve_known. rewrite Em. by rewrite lookup_insert_eq.
  - rewrite IH; [|rewrite Em; by rewrite lookup_insert_ne].
    destruct (allowUser_params m u' t) as [-> ->]. reflexivity.
Qed.

(** ** A full bucket *)
Lemma calls_at_instant k n l t :
  lim_ok l -> (lastRefill l = t)%Z -> tokens l == inject_Z (Z.of_nat k) ->
  snd (calls l (replicate n t)) = replicate (min k n) true ++ replicate (n - k) false.
Proof.
  revert k l. induction n as [|n IH]; intros k l Hl Ht Hk; [by rewrite Nat.min_0_r|].
  cbn [replicate]. rewrite calls_cons. unfold allow. rewrite refill_still by lia.
  destruct (fltb (tokens l) 1) eqn:E.
  - apply fltb_true in E. assert (k = 0%nat) as ->.
    { destruct k; [reflexivity|exfalso]. assert (1 <= inject_Z (Z.of_nat (S k))); [|lra].
      change 1 with (inject_Z 1). rewrite <- Zle_Qle. lia. }
    cbn [fst snd]. rewrite (IH 0%nat l Hl Ht Hk). cbn [Nat.min Nat.sub replicate app].
    by rewrite Nat.sub_0_r.
  - apply fltb_false in E. destruct k as [|k]; [exfalso; change (inject_Z (Z.of_nat 0)) with 0 in Hk; lra|].
    pose proof (allow_ok l t Hl) as Hl'. unfold allow in Hl'. rewrite refill_still in Hl' by lia.
    rewrite (proj2 (fltb_false _ _) E) in Hl'. cbn [fst snd Nat.min replicate Nat.sub app] in *.
    f_equal. apply IH; [exact Hl' | exact Ht|]. cbn [tokens].
    destruct (fsub1_exact (tokens l) (lo_tokens l Hl) E (Qle_trans _ _ _ (lo_le l Hl) (lo_53 l Hl))) as [Es _].
    rewrite Es, Hk. replace (Z.of_nat (S k)) with (Z.of_nat k + 1)%Z by lia. rewrite inject_Z_plus.
    change (inject_Z 1) with 1. ring.
Qed.

Lemma refill_idle l t : lim_ok l -> 1 <= refillRate l ->
  (1000000000 <= t - lastRefill l)%Z -> 1 <= tokens (refill l t).
Proof.
  intros Hl Hr Hd. destruct (refill_sum l t Hl ltac:(lia)) as (He & Hm & Hf).
  destruct (lo_tokens l Hl) as [Ht _].
  unfold refill. rewrite (proj2 (elapsed_pos _ _)) by lia. cbn [tokens].
  assert (H1 : 1 <= Seconds (time_sub t (lastRefill l))).
  { apply Seconds_ge_1. unfold time_sub, minDuration, maxDuration. lia. }
  set (e := Seconds _) in *.
  assert (Hp : 1 <= fmul e (refillRate l)).
  { apply rnd_ge_float; [apply (float_int 1); lia|].
    assert (1 * 1 <= e * refillRate l) by (apply Qmult_le_compat_nonneg; lra). lra. }
  assert (Hs : 1 <= fadd (tokens l) (fmul e (refillRate l))).
  { apply rnd_ge_float; [apply (float_int 1); lia | lra]. }
  destruct (minFloat_cases (maxTokens l) (fadd (tokens l) (fmul e (refillRate l)))) as [->| ->];
    [exact (lo_one l Hl) | exact Hs].
Qed.

Lemma serve_lim_ok m evs :
  (1 <= burst m <= 2 ^ 53)%Z -> 0 <= perSecond m ->
  (forall user l, byUser m !! user = Some l -> lim_ok l /\ refillRate l = perSecond m) ->
  forall user l, byUser (fst (serve m evs)) !! user = Some l ->
    lim_ok l /\ refillRate l = perSecond m.
Proof.
  revert m. induction evs as [|[u' t] evs IH]; intros m Hb Hr Hm; [exact Hm|].
  intros user l Hl. destruct (allowUser_eq m u' t) as [_ Em]. destruct (allowUser_params m u' t) as [Eb Ep].
  cbn [serve] in Hl. destruct (allowUser m u' t) as [m1 ok]. cbn [fst] in *.
  rewrite <- Ep. apply (IH m1) with user; [rewrite Eb; exact Hb | rewrite Ep; exact Hr | |].
  - intros v lv Hv. rewrite Em in Hv. rewrite Ep. destruct (decide (v = u')) as [->|Hne].
    + rewrite lookup_insert_eq in Hv. apply (inj Some) in Hv as <-.
      assert (Hd : lim_ok (default (newLimiter (burst m) (perSecond m) t) (byUser m !! u')) /\
        refillRate (default (newLimiter (burst m) (perSecond m) t) (byUser m !! u')) = perSecond m).
      { destruct (byUser m !! u') eqn:E; [by apply (Hm u')|].
        split; [by apply newLimiter_ok | reflexivity]. }
      destruct Hd as [Hok Hrate]. destruct (allow_fixed (default (newLimiter (burst m) (perSecond m) t)
        (byUser m !! u')) t) as (_ & -> & _). split; [by apply allow_ok | exact Hrate].
    + rewrite lookup_insert_ne in Hv by congruence. by apply (Hm v).
  - destruct (serve m1 evs). exact Hl.
Qed.

(** C21: the message quota. Whatever the interleaving of all users' messages,
    the number of one user's messages admitted between the first of them
    ([t0]) and [t1] is at most the burst plus what the rate earns in the
    exact elapsed time, up to a float64 rounding slack of ten ulps of the
    burst per call. *)
Theorem user_quota user burst perSecond evs t0 ts t1 :
  (1 <= burst <= 2 ^ 53)%Z -> 0 <= perSecond ->
  timesOf user evs = t0 :: ts -> (t0 <= t1)%Z -> Forall (fun t => t <= t1)%Z ts ->
  inject_Z (admitted (verdictsOf user evs (snd (serve (newLimiterMap burst perSecond) evs))))
    <= inject_Z burst + perSecond * secs (t1 - t0)
       + inject_Z (len (t0 :: ts)) * (10 * u * inject_Z burst).
Proof.
  intros Hb Hr Hts H0 H1. rewrite serve_fresh by apply lookup_empty. rewrite Hts.
  pose proof (newLimiter_ok burst perSecond t0 Hb Hr) as Hl.
  assert (Hall : Forall (fun t => t <= t1)%Z (t0 :: ts)) by (constructor; assumption).
  pose proof (calls_gain (t0 :: ts) (newLimiter burst perSecond t0) t1 Hl H0 Hall) as H.
  cbn [tokens maxTokens refillRate lastRefill newLimiter RateLimit.burst RateLimit.perSecond newLimiterMap] in *.
  rewrite (of_int_exact burst) in H by lia. exact H.
Qed.

(** Seven messages of user 1 and one of user 2 in the first half second. *)
Lemma user_quota_witness :
  let evs := [(1, 0); (1, 1); (2, 1); (1, 2); (1, 3); (1, 4); (1, 5); (1, 500000000)]%Z in
  verdictsOf 1 evs (snd (serve (newLimiterMap 5 1) evs)) = [true; true; true; true; true; false; false] /\
  inject_Z (admitted (verdictsOf 1 evs (snd (serve (newLimiterMap 5 1) evs))))
    <= inject_Z 5 + 1 * secs (500000000 - 0)
       + inject_Z (len [0; 1; 2; 3; 4; 5; 500000000]%Z) * (10 * u * inject_Z 5).
Proof.
  intros evs. split; [vm_compute; reflexivity|].
  apply (user_quota 1 5 1 evs 0%Z [1; 2; 3; 4; 5; 500000000]%Z 500000000%Z).
  - lia.
  - discriminate.
  - reflexivity.
  - lia.
  - repeat constructor; discriminate.
Defined.

(** A user's first messages, sent at one instant and interleaved with
    anyone else's: exactly [burst] of them pass, the rest are refused. *)
Theorem burst_then_refused user burst perSecond evs t n :
  (1 <= burst <= 2 ^ 53)%Z -> 0 <= perSecond -> timesOf user evs = replicate n t ->
  verdictsOf user evs (snd (serve (newLimiterMap burst perSecond) evs))
  = replicate (min (Z.to_nat burst) n) true ++ replicate (n - Z.to_nat burst) false.
Proof.
  intros Hb Hr Hts. rewrite serve_fresh by apply lookup_empty. rewrite Hts.
  destruct n as [|n]; [by rewrite Nat.min_0_r|].
  transitivity (snd (calls (newLimiter burst perSecond t) (replicate (S n) t))); [reflexivity|].
  apply calls_at_instant; [by apply newLimiter_ok | reflexivity|].
  cbn [tokens newLimiter]. rewrite Z2Nat.id by lia. apply of_int_exact. lia.
Qed.

Lemma burst_then_refused_witness :
  verdictsOf 7 [(7, 9); (8, 9); (7, 9); (7, 9)]%Z
    (snd (serve (newLimiterMap 2 (1 # 3)) [(7, 9); (8, 9); (7, 9); (7, 9)]%Z)) = [true; true; false].
Proof.
  apply (burst_then_refused 7 2 (1 # 3) [(7, 9); (8, 9); (7, 9); (7, 9)]%Z 9%Z 3).
  - lia.
  - discriminate.
  - reflexivity.
Defined.

(** Whatever happened before, at a rate of one token a second or more a
    user who was last charged a second or more ago, or never wrote, is
    admitted: no sequence of refusals starves a user. *)
Theorem idle_user_admitted user burst perSecond evs t :
  (1 <= burst <= 2 ^ 53)%Z -> 1 <= perSecond ->
  let m := fst (serve (newLimiterMap burst perSecond) evs) in
  (forall l, byUser m !! user = Some l -> 1000000000 <= t - lastRefill l)%Z ->
  snd (allowUser m user t) = true.
Proof.
  intros Hb Hr m Hidle. destruct (allowUser_eq m user t) as [-> _].
  assert (Hm : forall l, byUser m !! user = Some l -> lim_ok l /\ refillRate l = perSecond).
  { intros l. apply (serve_lim_ok (newLimiterMap burst perSecond) evs Hb); [cbn; lra|].
    intros v l' Hv. cbn in Hv. by rewrite lookup_empty in Hv. }
  assert (Hp : RateLimit.burst m = burst /\ RateLimit.perSecond m = perSecond).
  { unfold m. clear Hidle Hm m. assert (forall m, RateLimit.burst (fst (serve m evs)) = RateLimit.burst m /\
      RateLimit.perSecond (fst (serve m evs)) = RateLimit.perSecond m) as H; [|apply H].
    induction evs as [|[v s] evs IH]; intros m; [done|]. cbn [serve].
    destruct (allowUser_params m v s) as [E1 E2]. destruct (allowUser m v s) as [m1 ok].
    specialize (IH m1). destruct (serve m1 evs). cbn [fst] in *. destruct IH as [-> ->]. done. }
  destruct Hp as [Eb Ep]. assert (H1 : 1 <= tokens (refill
    (default (newLimiter (RateLimit.burst m) (RateLimit.perSecond m) t) (byUser m !! user)) t)).
  { destruct (byUser m !! user) as [l|] eqn:E; cbn [default from_option].
    - destruct (Hm l eq_refl) as [Hl Er]. apply refill_idle; [exact Hl | unfold id; rewrite Er; exact Hr|].
      by apply Hidle.
    - rewrite refill_still by (cbn; lia). rewrite Eb, Ep.
      apply (Qle_trans _ (maxTokens (newLimiter burst perSecond t))); [|apply Qle_refl].
      exact (lo_one _ (newLimiter_ok burst perSecond t Hb ltac:(lra))). }
  unfold allow. by rewrite (proj2 (fltb_false _ _) H1).
Qed.

Lemma idle_user_admitted_witness :
  let m := fst (serve (newLimiterMap 1 1) [(3, 0); (3, 1)]%Z) in
  snd (allowUser m 3 2)%Z = false /\ snd (allowUser m 3 1000000001)%Z = true.
Proof.
  intros m. split; [vm_compute; reflexivity|].
  apply (idle_user_admitted 3 1 1 [(3, 0); (3, 1)]%Z 1000000001%Z); [lia | discriminate|].
  intros l Hl. vm_compute in Hl. injection Hl as <-. vm_compute. discriminate.
Defined.
