(* ===== verification/Utf8.v ===== *)
(** * Go strings as UTF-8: runes, validity, [strings.TrimSpace]

    What the program uses of the packages [unicode/utf8], [unicode] and
    [strings].  A string is its bytes, 0 to 255; [decode_rune] is
    [utf8.DecodeRuneInString], [decode_last_rune] its backward twin. *)

From S2P Require Import Prelude.
Local Open Scope Z_scope.

Definition bytes_of (s : string) : list Z :=
  map (fun c => Z.of_N (Ascii.N_of_ascii c)) (String.list_ascii_of_string s).
Definition string_of (bs : list Z) : string :=
  String.string_of_list_ascii (map (fun b => Ascii.ascii_of_N (Z.to_N b)) bs).

Definition between (lo hi b : Z) : bool := (lo <=? b) && (b <=? hi).
Definition cont (b : Z) : bool := between 128 191 b.

Definition RuneError : Z := 65533.

(** The rune at the head and its width; [None] when the bytes are not one. *)
Definition decode (bs : list Z) : option (Z * nat) :=
  match bs with
  | b0 :: bs =>
      if between 0 127 b0 then Some (b0, 1%nat) else
      match bs with
      | b1 :: bs =>
          if between 194 223 b0 && cont b1
          then Some (Z.lor (Z.shiftl (Z.land b0 31) 6) (Z.land b1 63), 2%nat) else
          match bs with
          | b2 :: bs =>
              if between 224 239 b0
                 && between (if b0 =? 224 then 160 else 128) (if b0 =? 237 then 159 else 191) b1
                 && cont b2
              then Some (Z.lor (Z.lor (Z.shiftl (Z.land b0 15) 12) (Z.shiftl (Z.land b1 63) 6))
                           (Z.land b2 63), 3%nat) else
              match bs with
              | b3 :: _ =>
                  if between 240 244 b0
                     && between (if b0 =? 240 then 144 else 128) (if b0 =? 244 then 143 else 191) b1
                     && cont b2 && cont b3
                  then Some (Z.lor (Z.lor (Z.shiftl (Z.land b0 7) 18) (Z.shiftl (Z.land b1 63) 12))
                               (Z.lor (Z.shiftl (Z.land b2 63) 6) (Z.land b3 63)), 4%nat)
                  else None
              | [] => None
              end
          | [] => None
          end
      | [] => None
      end
  | [] => None
  end.

Definition decode_rune (bs : list Z) : Z * nat :=
  match bs with
  | [] => (RuneError, 0%nat)
  | _ => default (RuneError, 1%nat) (decode bs)
  end.

(** [[]rune(s)]; the fuel is the number of bytes. *)
Fixpoint runes_fuel (fuel : nat) (bs : list Z) : list Z :=
  match fuel, bs with
  | S fuel, _ :: _ => let '(r, w) := decode_rune bs in r :: runes_fuel fuel (drop w bs)
  | _, _ => []
  end.
Definition runes (bs : list Z) : list Z := runes_fuel (length bs) bs.

(** [utf8.Valid] *)
Fixpoint valid_fuel (fuel : nat) (bs : list Z) : bool :=
  match fuel, bs with
  | S fuel, _ :: _ =>
      match decode bs with Some (_, w) => valid_fuel fuel (drop w bs) | None => false end
  | O, _ :: _ => false
  | _, [] => true
  end.
Definition valid_utf8 (bs : list Z) : bool := valid_fuel (length bs) bs.

Definition rune_start (b : Z) : bool := negb (cont b).

(** The start of the last rune: back over at most three continuation bytes. *)
Fixpoint back_to_start (n : nat) (bs : list Z) (start : nat) : nat :=
  match n with
  | O => start
  | S n => match bs !! start with
           | Some b => if rune_start b then start else
                       match start with O => O | S start => back_to_start n bs start end
           | None => start
           end
  end.

Definition decode_last_rune (bs : list Z) : Z * nat :=
  match last bs with
  | None => (RuneError, 0%nat)
  | Some b =>
      if between 0 127 b then (b, 1%nat) else
      let e := length bs in
      let start := match (e - 1)%nat with O => O | S k => back_to_start 3 bs k end in
      let '(r, size) := decode_rune (drop start bs) in
      if Nat.eqb (start + size) e then (r, size) else (RuneError, 1%nat)
  end.

(** [unicode.IsSpace] *)
Definition is_space (r : Z) : bool :=
  between 9 13 r || (r =? 32) || (r =? 133) || (r =? 160) || (r =? 5760) || between 8192 8202 r
  || (r =? 8232) || (r =? 8233) || (r =? 8239) || (r =? 8287) || (r =? 12288).

Fixpoint trim_left_fuel (fuel : nat) (bs : list Z) : list Z :=
  match fuel, bs with
  | S fuel, _ :: _ => let '(r, w) := decode_rune bs in
                      if is_space r then trim_left_fuel fuel (drop w bs) else bs
  | _, _ => bs
  end.
Fixpoint trim_right_fuel (fuel : nat) (bs : list Z) : list Z :=
  match fuel, bs with
  | S fuel, _ :: _ => let '(r, w) := decode_last_rune bs in
                      if is_space r then trim_right_fuel fuel (take (length bs - w) bs) else bs
  | _, _ => bs
  end.
Definition trim_left (bs : list Z) : list Z := trim_left_fuel (length bs) bs.
Definition trim_right (bs : list Z) : list Z := trim_right_fuel (length bs) bs.

(** [strings.TrimSpace] *)
Definition TrimSpace (s : string) : string := string_of (trim_right (trim_left (bytes_of s))).
Definition rune_count (s : string) : Z := len (runes (bytes_of s)).

(** ** Bytes *)
Definition is_byte (b : Z) : Prop := 0 <= b <= 255.

Lemma bytes_of_bytes s : Forall is_byte (bytes_of s).
Proof.
  unfold bytes_of. induction (String.list_ascii_of_string s) as [|c l IH]; constructor; [|exact IH].
  pose proof (Ascii.N_ascii_bounded c). unfold is_byte. lia.
Qed.

Lemma bytes_of_string_of bs : Forall is_byte bs -> bytes_of (string_of bs) = bs.
Proof.
  intros H. unfold bytes_of, string_of. rewrite String.list_ascii_of_string_of_list_ascii.
  induction H as [|b bs Hb H IH]; [reflexivity|]. simpl. rewrite IH. f_equal.
  rewrite Ascii.N_ascii_embedding; unfold is_byte in Hb; lia.
Qed.

Lemma string_of_bytes_of s : string_of (bytes_of s) = s.
Proof.
  unfold bytes_of, string_of. rewrite <- (String.string_of_list_ascii_of_string s) at 2. f_equal.
  induction (String.list_ascii_of_string s) as [|c l IH]; [reflexivity|].
  simpl. rewrite IH. f_equal. rewrite N2Z.id. apply Ascii.ascii_N_embedding.
Qed.

Lemma bytes_of_app s t : bytes_of (s +:+ t) = (bytes_of s ++ bytes_of t)%list.
Proof. unfold bytes_of. rewrite <- map_app. f_equal.
  induction s as [|a s IH]; [done|]. change (String a s +:+ t) with (String a (s +:+ t)). simpl. by rewrite IH.
Qed.

Lemma length_bytes_of s : length (bytes_of s) = String.length s.
Proof. unfold bytes_of. rewrite length_map. induction s; simpl; by f_equal. Qed.

(** ** Decoding *)
Lemma decode_width bs r w : decode bs = Some (r, w) -> (1 <= w <= 4)%nat /\ (w <= length bs)%nat.
Proof.
  unfold decode. destruct bs as [|b0 [|b1 [|b2 [|b3 bs]]]]; intros H; inv_match H; try discriminate; simpl; lia.
Qed.

Lemma decode_rune_width b bs : let '(r, w) := decode_rune (b :: bs) in
  (1 <= w <= 4)%nat /\ (w <= length (b :: bs))%nat.
Proof.
  unfold decode_rune. destruct (decode (b :: bs)) as [[r w]|] eqn:E; simpl default.
  - by apply decode_width in E.
  - simpl. lia.
Qed.

Lemma runes_fuel_enough n m bs : (length bs <= n)%nat -> (length bs <= m)%nat ->
  runes_fuel n bs = runes_fuel m bs.
Proof.
  revert m bs. induction n as [|n IH]; intros m bs Hn Hm.
  { destruct bs; [by destruct m | simpl in Hn; lia]. }
  destruct bs as [|b bs]; [by destruct m|]. destruct m as [|m]; [simpl in Hm; lia|].
  cbn [runes_fuel]. pose proof (decode_rune_width b bs) as Hw.
  destruct (decode_rune (b :: bs)) as [r w]. f_equal. apply IH; rewrite length_drop; lia.
Qed.

(** The runes of a string, one decode at a time. *)
Lemma runes_cons b bs :
  runes (b :: bs) = (decode_rune (b :: bs)).1 :: runes (drop (decode_rune (b :: bs)).2 (b :: bs)).
Proof.
  unfold runes at 1. simpl length. cbn [runes_fuel]. pose proof (decode_rune_width b bs) as Hw.
  destruct (decode_rune (b :: bs)) as [r w]. cbn [fst snd] in *. f_equal.
  apply runes_fuel_enough; rewrite length_drop; simpl length in *; lia.
Qed.

(** A rune takes one to four bytes. *)
Lemma runes_length bs : (length (runes bs) <= length bs <= 4 * length (runes bs))%nat.
Proof.
  induction bs as [bs IH] using (induction_ltof1 _ (@length Z)); unfold ltof in IH.
  destruct bs as [|b bs]; [simpl; lia|]. rewrite runes_cons. pose proof (decode_rune_width b bs) as Hw.
  destruct (decode_rune (b :: bs)) as [r w]. cbn [fst snd].
  specialize (IH (drop w (b :: bs))). rewrite length_drop in IH. simpl length in *. lia.
Qed.

Lemma valid_fuel_enough n m bs : (length bs <= n)%nat -> (length bs <= m)%nat ->
  valid_fuel n bs = valid_fuel m bs.
Proof.
  revert m bs. induction n as [|n IH]; intros m bs Hn Hm.
  { destruct bs; [by destruct m | simpl in Hn; lia]. }
  destruct bs as [|b bs]; [by destruct m|]. destruct m as [|m]; [simpl in Hm; lia|].
  cbn [valid_fuel]. destruct (decode (b :: bs)) as [[r w]|] eqn:E; [|done].
  apply decode_width in E. apply IH; rewrite length_drop; lia.
Qed.

Lemma valid_cons b bs r w : decode (b :: bs) = Some (r, w) ->
  valid_utf8 (b :: bs) = valid_utf8 (drop w (b :: bs)).
Proof.
  intros E. unfold valid_utf8 at 1. simpl length. cbn [valid_fuel]. rewrite E.
  apply decode_width in E. apply valid_fuel_enough; rewrite length_drop; simpl length in *; lia.
Qed.

Lemma valid_ascii bs : Forall (fun b => 0 <= b <= 127) bs -> valid_utf8 bs = true.
Proof.
  induction 1 as [|b bs Hb _ IH]; [reflexivity|].
  rewrite (valid_cons b bs b 1); [exact IH|]. unfold decode.
  replace (between 0 127 b) with true; [done|]. unfold between. lia.
Qed.

(** ** Trimming *)
Lemma last_snoc_inv {A} (l : list A) a : last l = Some a -> exists k, l = k ++ [a].
Proof. apply last_Some. Qed.

Lemma decode_last_rune_width b bs :
  (1 <= (decode_last_rune (b :: bs)).2 <= length (b :: bs))%nat.
Proof.
  unfold decode_last_rune. destruct (last (b :: bs)) as [c|] eqn:El.
  - destruct (between 0 127 c); [simpl; lia|].
    set (start := match _ with O => _ | S _ => _ end). destruct (decode_rune _) as [r size] eqn:E.
    destruct (Nat.eqb_spec (start + size) (length (b :: bs))) as [He|]; [|simpl; lia].
    cbn [snd]. destruct (drop start (b :: bs)) as [|x xs] eqn:Ed.
    + exfalso. simpl in E. injection E as <- <-. simpl in He.
      assert (Hs : (start <= length bs)%nat).
      { unfold start. clear. simpl length. destruct (S (length bs) - 1)%nat eqn:E; [lia|].
        assert (forall n k, (back_to_start n (b :: bs) k <= k)%nat) as Hb.
        { clear. induction n as [|n IH]; intros k; simpl; [lia|]. destruct (_ !! k); [|lia].
          destruct (rune_start z); [lia|]. destruct k; [lia|]. specialize (IH k). lia. }
        specialize (Hb 3%nat n). lia. }
      lia.
    + pose proof (decode_rune_width x xs) as Hw. rewrite E in Hw. lia.
  - apply last_None in El. discriminate.
Qed.

Lemma trim_left_spec n bs : (length bs <= n)%nat ->
  (trim_left_fuel n bs) `suffix_of` bs /\
  forall b r, trim_left_fuel n bs = b :: r -> is_space (decode_rune (b :: r)).1 = false.
Proof.
  revert bs. induction n as [|n IH]; intros bs Hn.
  { destruct bs; [|simpl in Hn; lia]. split; [done | discriminate]. }
  destruct bs as [|b bs]; [split; [done | discriminate]|]. cbn [trim_left_fuel].
  pose proof (decode_rune_width b bs) as Hw. destruct (decode_rune (b :: bs)) as [r w] eqn:E.
  destruct (is_space r) eqn:Es.
  - destruct (IH (drop w (b :: bs))) as [H1 H2]; [rewrite length_drop; simpl length in *; lia|].
    split; [|exact H2]. etransitivity; [exact H1|]. exists (take w (b :: bs)). by rewrite take_drop.
  - split; [done|]. intros b' r' [= <- <-]. by rewrite E.
Qed.

Lemma trim_right_spec n bs : (length bs <= n)%nat ->
  (trim_right_fuel n bs) `prefix_of` bs /\
  (trim_right_fuel n bs <> [] -> is_space (decode_last_rune (trim_right_fuel n bs)).1 = false).
Proof.
  revert bs. induction n as [|n IH]; intros bs Hn.
  { destruct bs; [|simpl in Hn; lia]. split; done. }
  destruct bs as [|b bs]; [split; done|]. cbn [trim_right_fuel].
  pose proof (decode_last_rune_width b bs) as Hw. destruct (decode_last_rune (b :: bs)) as [r w] eqn:E.
  cbn [snd] in Hw. destruct (is_space r) eqn:Es.
  - destruct (IH (take (length (b :: bs) - w) (b :: bs))) as [H1 H2];
      [rewrite length_take; simpl length in *; lia|].
    split; [|exact H2]. etransitivity; [exact H1|].
    exists (drop (length (b :: bs) - w) (b :: bs)). by rewrite take_drop.
  - split; [done|]. by rewrite E.
Qed.

Lemma Forall_prefix {A} (P : A -> Prop) l k : l `prefix_of` k -> Forall P k -> Forall P l.
Proof. intros [x ->] H. by apply Forall_app in H as [? _]. Qed.
Lemma Forall_suffix {A} (P : A -> Prop) l k : l `suffix_of` k -> Forall P k -> Forall P l.
Proof. intros [x ->] H. by apply Forall_app in H as [_ ?]. Qed.

(** What is left is a contiguous part, and ends in no white space. *)
Lemma TrimSpace_spec s : exists pre post,
  bytes_of s = (pre ++ bytes_of (TrimSpace s) ++ post)%list /\
  (TrimSpace s <> ""%string -> is_space (decode_last_rune (bytes_of (TrimSpace s))).1 = false).
Proof.
  unfold TrimSpace. set (bs := bytes_of s).
  destruct (trim_left_spec (length bs) bs ltac:(lia)) as [[pre Hpre] _]. fold (trim_left bs) in Hpre.
  destruct (trim_right_spec (length (trim_left bs)) (trim_left bs) ltac:(lia)) as [[post Hpost] Hl].
  fold (trim_right (trim_left bs)) in Hpost, Hl.
  assert (Hb : Forall is_byte (trim_right (trim_left bs))).
  { pose proof (bytes_of_bytes s) as H. fold bs in H. rewrite Hpre, Hpost in H.
    apply Forall_app in H as [_ H]. by apply Forall_app in H as [H _]. }
  exists pre, post. rewrite bytes_of_string_of by exact Hb. split; [by rewrite <- Hpost|].
  intros Hne. apply Hl. intros E. apply Hne. by rewrite E.
Qed.
