(* ===== verification/Ws.v ===== *)
(** * One WebSocket frame: [readLoop] in [src/internal/chat/ws.go]

    What the reader does with one frame a client sent.  [unmarshal] stands for
    [encoding/json]: the [Message] a frame decodes to, if it does; [Wire]
    has the one that reads the field tags of dto.go. *)

From S2P Require Import Prelude Utf8 Chan Hub RateLimit.
Local Open Scope Z_scope.

Definition maxMessageChars : Z := 500.

Definition ErrLoginRequired : string := "must be logged in to chat".
Definition ErrRateLimited : string := "rate limited".
Definition ErrMessageTooLong : string := "message too long".
Definition ErrEmptyMessage : string := "empty message".
Definition ErrBadJson : string := "bad json".

(** [sendErr]'s message, written straight to the socket. *)
Definition errorMessage (e : string) (now : Z) : Message :=
  {| msg_ID := ""; msg_Type := KindError; msg_User := ""; msg_Body := e;
     msg_At := now; msg_Count := 0 |}.

Inductive verdict :=
| Refused (e : string)
| Forwarded (msg : inbound).

Section Reader.
Context (unmarshal : string -> option Message).

(** The guards of the loop body in order, then the rate limiter. *)
Definition handle_frame (limits : limiterMap) (c : client) (data : string) (now : Z)
  : limiterMap * verdict :=
  if userID c =? 0 then (limits, Refused ErrLoginRequired) else
  match unmarshal data with
  | None => (limits, Refused ErrBadJson)
  | Some m =>
      let body := TrimSpace (msg_Body m) in
      if String.eqb body "" then (limits, Refused ErrEmptyMessage) else
      if maxMessageChars <? rune_count body then (limits, Refused ErrMessageTooLong) else
      let '(limits, ok) := allowUser limits (userID c) now in
      if ok then (limits, Forwarded {| in_user := username c; in_body := body |})
      else (limits, Refused ErrRateLimited)
  end.

(** What every forwarded message satisfies. *)
Definition admissible (msg : inbound) : Prop :=
  in_body msg <> ""%string /\ rune_count (in_body msg) <= maxMessageChars /\
  len (bytes_of (in_body msg)) <= 4 * maxMessageChars /\
  is_space (decode_last_rune (bytes_of (in_body msg))).1 = false.

Lemma handle_frame_admissible limits c data now limits' msg :
  handle_frame limits c data now = (limits', Forwarded msg) -> admissible msg.
Proof.
  unfold handle_frame. destruct (userID c =? 0); [done|]. destruct (unmarshal data) as [m|]; [|done].
  destruct (String.eqb_spec (TrimSpace (msg_Body m)) "") as [|Hne]; [done|].
  destruct (maxMessageChars <? _) eqn:Hl; [done|]. destruct (allowUser _ _ _) as [l' [|]]; [|done].
  intros [= <- <-]. unfold admissible. simpl. apply Z.ltb_ge in Hl.
  destruct (TrimSpace_spec (msg_Body m)) as (pre & post & _ & Hlast).
  split_and!; [done | done | | by apply Hlast].
  unfold rune_count in Hl. pose proof (runes_length (bytes_of (TrimSpace (msg_Body m)))). unfold len in *. lia.
Qed.

End Reader.
