(* ===== verification/Duration.v ===== *)
(** * Numbers in text: [strconv.Itoa], [strconv.ParseBool],
    [time.ParseDuration]

    The parts of Go's standard library that read the configuration, over the
    bytes of a string.  [uint64] sums and products wrap around ([u64]); a
    fraction of a unit is computed in float64 as the library does.  The loop
    over the terms of a duration runs on fuel, [OutOfFuel] being an outcome of
    its own; [ParseDuration_terminates] shows that the length of the string is
    enough. *)

From Stdlib Require Import QArith Qround.
From S2P Require Import Prelude Utf8 Float64.
Local Open Scope Z_scope.

Definition u64 (z : Z) : Z := z mod 2 ^ 64.
(** The conversion of a [uint64] to [int64]. *)
Definition int64_of (z : Z) : Z := (z + 2 ^ 63) mod 2 ^ 64 - 2 ^ 63.

Definition digit (c : Z) : bool := between 48 57 c.

(** ** [strconv.Itoa] *)
Fixpoint decimal (fuel : nat) (n : Z) : list Z :=
  match fuel with
  | O => []
  | S fuel => if n <? 10 then [48 + n] else decimal fuel (n / 10) ++ [48 + n mod 10]
  end.
Definition Itoa (n : Z) : list Z :=
  if n <? 0 then 45 :: decimal (S (Z.to_nat (Z.log2 (- n)))) (- n) else decimal (S (Z.to_nat (Z.log2 n))) n.

(** ** [strconv.ParseBool] *)
Definition ParseBool (s : string) : option bool :=
  if existsb (String.eqb s) ["1"; "t"; "T"; "true"; "TRUE"; "True"] then Some true
  else if existsb (String.eqb s) ["0"; "f"; "F"; "false"; "FALSE"; "False"] then Some false
  else None.

(** ** [time.ParseDuration] *)

(** [[0-9]*], [None] on overflow *)
Fixpoint leadingInt (x : Z) (s : list Z) : option (Z * list Z) :=
  match s with
  | c :: s' =>
      if digit c then
        if 2 ^ 63 / 10 <? x then None else
        let x := u64 (u64 (x * 10) + c - 48) in
        if 2 ^ 63 <? x then None else leadingInt x s'
      else Some (x, s)
  | [] => Some (x, [])
  end.

(** [[0-9]*] after the point: on overflow it only stops being more precise. *)
Fixpoint leadingFraction (x : Z) (scale : Q) (overflow : bool) (s : list Z) : Z * Q * list Z :=
  match s with
  | c :: s' =>
      if digit c then
        if overflow then leadingFraction x scale true s' else
        if (2 ^ 63 - 1) / 10 <? x then leadingFraction x scale true s' else
        let y := u64 (u64 (x * 10) + c - 48) in
        if 2 ^ 63 <? y then leadingFraction x scale true s'
        else leadingFraction y (fmul scale (inject_Z 10)) false s'
      else (x, scale, s)
  | [] => (x, scale, [])
  end.

Definition unitMap : list (list Z * Z) :=
  [ (bytes_of "ns", 1); (bytes_of "us", 1000);
    ([194; 181; 115], 1000);   (* the micro sign *)
    ([206; 188; 115], 1000);   (* the Greek letter mu *)
    (bytes_of "ms", 1000000); (bytes_of "s", 1000000000);
    (bytes_of "m", 60000000000); (bytes_of "h", 3600000000000) ].
Definition find_unit (u : list Z) : option Z := snd <$> List.find (fun p : list Z * Z => bool_decide (p.1 = u)) unitMap.

Definition starts_number (s : list Z) : bool := match s with c :: _ => (c =? 46) || digit c | [] => false end.
(** The unit: everything up to the next digit or point. *)
Fixpoint leadingUnit (s : list Z) : list Z * list Z :=
  match s with
  | c :: s' => if (c =? 46) || digit c then ([], s) else (c :: (leadingUnit s').1, (leadingUnit s').2)
  | [] => ([], [])
  end.

(** A number and its unit, in nanoseconds, and the rest of the string. *)
Definition term (s : list Z) : option (Z * list Z) :=
  if negb (starts_number s) then None else
  '(v, s1) ← leadingInt 0 s;
  let pre := negb (Nat.eqb (length s1) (length s)) in
  let '(f, scale, s2, post) :=
    match s1 with
    | c :: s' =>
        if c =? 46 then
          let '(f, scale, s2) := leadingFraction 0 1%Q false s' in
          (f, scale, s2, negb (Nat.eqb (length s2) (length s')))
        else (0, 1%Q, s1, false)
    | [] => (0, 1%Q, [], false)
    end in
  if negb pre && negb post then None else
  let '(u, s3) := leadingUnit s2 in
  match u with [] => None | _ =>
  unit ← find_unit u;
  if 2 ^ 63 / unit <? v then None else
  let v := u64 (v * unit) in
  if 0 <? f then
    let v := u64 (v + Qfloor (fmul (of_int f) (fdiv (of_int unit) scale))) in
    if 2 ^ 63 <? v then None else Some (v, s3)
  else Some (v, s3)
  end.

Inductive parsed := Parsed (d : Z) | Malformed | OutOfFuel.

Fixpoint terms (fuel : nat) (d : Z) (s : list Z) : parsed :=
  match s with
  | [] => Parsed d
  | _ =>
      match fuel with
      | O => OutOfFuel
      | S fuel =>
          match term s with
          | None => Malformed
          | Some (v, s) =>
              let d := u64 (d + v) in
              if 2 ^ 63 <? d then Malformed else terms fuel d s
          end
      end
  end.

Definition ParseDuration (fuel : nat) (str : string) : parsed :=
  let s := bytes_of str in
  let '(neg, s) :=
    match s with
    | c :: s' => if c =? 45 then (true, s') else if c =? 43 then (false, s') else (false, s)
    | [] => (false, [])
    end in
  if bool_decide (s = [48]) then Parsed 0 else
  match s with
  | [] => Malformed
  | _ =>
      match terms fuel 0 s with
      | Parsed d =>
          if (neg : bool) then Parsed (int64_of (- int64_of d))
          else if 2 ^ 63 - 1 <? d then Malformed else Parsed d
      | r => r
      end
  end.

Definition pd (s : string) : parsed := ParseDuration (String.length s) s.
Definition ns_hour : Z := 3600000000000.

Lemma duration_vectors :
  pd "720h" = Parsed (720 * ns_hour) /\ pd "1.5h" = Parsed 5400000000000 /\ pd "-1m30s" = Parsed (- 90000000000) /\
  pd "0" = Parsed 0 /\ pd "30d" = Malformed /\ pd "3600" = Malformed /\ pd "" = Malformed /\ pd "h" = Malformed /\
  pd ".s" = Malformed /\ pd "1e3s" = Malformed /\ pd "0.000000001s" = Parsed 1 /\ pd "2562048h" = Malformed /\
  pd "9223372036854775808ns9223372036854775808ns" = Parsed 0 /\
  pd "-9223372036854775808ns" = Parsed (- 2 ^ 63).
Proof. repeat split; vm_compute; reflexivity. Qed.

(** ** The loop ends *)
Lemma leadingInt_length x s v r : leadingInt x s = Some (v, r) -> (length r <= length s)%nat.
Proof.
  revert x; induction s as [|c s IH]; intros x; cbn [leadingInt]; [by intros [= <- <-]|].
  destruct (digit c); [|by intros [= <- <-]].
  case_match; [done|]. case_match; [done|]. intros Hs%IH. simpl. lia.
Qed.

Lemma leadingFraction_length x sc o s : (length (leadingFraction x sc o s).2 <= length s)%nat.
Proof.
  revert x sc o; induction s as [|c s IH]; intros x sc o; cbn [leadingFraction]; [done|].
  destruct (digit c); [|done]. simpl length.
  repeat case_match; (etrans; [apply IH | lia]).
Qed.

Lemma leadingUnit_length s : (length (leadingUnit s).1 + length (leadingUnit s).2 = length s)%nat.
Proof. induction s as [|c s IH]; simpl; [done|]. case_match; simpl; lia. Qed.

Lemma term_shrinks s v r : term s = Some (v, r) -> (length r < length s)%nat.
Proof.
  unfold term. destruct (negb (starts_number s)); [done|].
  destruct (leadingInt 0 s) as [[n s1]|] eqn:E1; [|done]. apply leadingInt_length in E1.
  cbn [mbind option_bind]. set (x := match s1 with [] => _ | _ => _ end).
  assert (Hx : (length x.1.2 <= length s1)%nat).
  { subst x. destruct s1 as [|c s1]; [done|]. destruct (c =? 46); [|done].
    pose proof (leadingFraction_length 0 1 false s1) as Hf.
    destruct (leadingFraction 0 1 false s1) as [[f sc] s2]. simpl in *. lia. }
  destruct x as [[[f sc] s2] post]. simpl in Hx. case_match; [done|].
  pose proof (leadingUnit_length s2) as Hu. destruct (leadingUnit s2) as [u s3]. destruct u as [|b u]; [done|].
  destruct (find_unit (b :: u)) as [unit|]; [|done]. cbn [mbind option_bind]. simpl in *.
  case_match; [done|]. case_match; [case_match; [done|]|]; intros [= <- <-]; lia.
Qed.

Lemma terms_end fuel d s : (length s <= fuel)%nat -> terms fuel d s <> OutOfFuel.
Proof.
  revert d s; induction fuel as [|fuel IH]; intros d [|c s] Hl; simpl in Hl; try lia; try done.
  cbn [terms]. destruct (term (c :: s)) as [[v r]|] eqn:E; [|done].
  apply term_shrinks in E. simpl in E. case_match; [done|]. apply IH. lia.
Qed.

(** Once enough, the fuel does not matter. *)
Lemma terms_fuel fuel fuel' d s : terms fuel d s <> OutOfFuel -> (fuel <= fuel')%nat -> terms fuel' d s = terms fuel d s.
Proof.
  revert fuel' d s; induction fuel as [|fuel IH]; intros fuel' d [|c s] Hf Hle; [by destruct fuel' | done | by destruct fuel' |].
  destruct fuel' as [|fuel']; [lia|]. cbn [terms] in *. destruct (term (c :: s)) as [[v r]|]; [|done].
  destruct (2 ^ 63 <? u64 (d + v)); [done|]. apply IH; [done | lia].
Qed.

Lemma ParseDuration_terminates s fuel : (String.length s <= fuel)%nat ->
  ParseDuration fuel s <> OutOfFuel /\ ParseDuration fuel s = pd s.
Proof.
  intros Hl. unfold pd, ParseDuration.
  assert (Hb : length (bytes_of s) = String.length s) by (pose proof (length_bytes_of s) as Hb; unfold len in Hb; lia).
  set (x := match bytes_of s with [] => _ | _ => _ end).
  assert (Hx : (length x.2 <= String.length s)%nat).
  { subst x. destruct (bytes_of s) as [|c l]; [simpl; lia|]. simpl in Hb. repeat case_match; simpl; lia. }
  destruct x as [neg l]. simpl in Hx. case_match; [done|]. destruct l as [|c l]; [done|].
  pose proof (terms_end (String.length s) 0 (c :: l) Hx) as He.
  rewrite (terms_fuel (String.length s) fuel) by done.
  destruct (terms (String.length s) 0 (c :: l)); [|done..]. repeat case_match; done.
Qed.

(** ** Ranges *)
Lemma u64_range z : 0 <= u64 z < 2 ^ 64.
Proof. apply Z.mod_pos_bound. lia. Qed.

Lemma u64_small z : 0 <= z < 2 ^ 64 -> u64 z = z.
Proof. apply Z.mod_small. Qed.

Lemma int64_range z : - 2 ^ 63 <= int64_of z < 2 ^ 63.
Proof. unfold int64_of. pose proof (Z.mod_pos_bound (z + 2 ^ 63) (2 ^ 64)). lia. Qed.

Lemma terms_range fuel d s d' : 0 <= d -> d <= 2 ^ 63 -> terms fuel d s = Parsed d' -> 0 <= d' <= 2 ^ 63.
Proof.
  revert d s; induction fuel as [|fuel IH]; intros d [|c s] H0 H1; cbn [terms]; try done; try (intros [= <-]; lia).
  destruct (term (c :: s)) as [[v r]|]; [|done]. destruct (Z.ltb_spec (2 ^ 63) (u64 (d + v))); [done|].
  apply IH; [apply u64_range | lia].
Qed.

Lemma ParseDuration_range fuel s d : ParseDuration fuel s = Parsed d -> - 2 ^ 63 <= d < 2 ^ 63.
Proof.
  unfold ParseDuration. set (x := match bytes_of s with [] => _ | _ => _ end). destruct x as [neg l].
  case_match; [intros [= <-]; lia|]. destruct l as [|c l]; [done|].
  destruct (terms fuel 0 (c :: l)) as [d'| |] eqn:E; [|done..]. apply terms_range in E; [|lia..].
  destruct neg; [intros [= <-]; apply int64_range|].
  destruct (Z.ltb_spec (2 ^ 63 - 1) d'); [done|]. intros [= <-]. lia.
Qed.

(** ** What [strconv.Itoa] writes, [time.ParseDuration] reads *)
Definition no_digit (s : list Z) : Prop := match s with c :: _ => digit c = false | [] => True end.

Lemma leadingInt_stop x s : no_digit s -> leadingInt x s = Some (x, s).
Proof. destruct s as [|c s]; [done|]. simpl. by intros ->. Qed.

Lemma digit_of n : 0 <= n < 10 -> digit (48 + n) = true.
Proof. intros. unfold digit, between. rewrite andb_true_iff, !Z.leb_le. lia. Qed.

Lemma leadingInt_digit x n s : 0 <= x -> 0 <= n < 10 -> x * 10 + n <= 2 ^ 63 ->
  leadingInt x ((48 + n) :: s) = leadingInt (x * 10 + n) s.
Proof.
  intros Hx Hn Hle. cbn [leadingInt]. rewrite digit_of by done.
  destruct (Z.ltb_spec (2 ^ 63 / 10) x) as [H|_].
  { exfalso. pose proof (Z.div_le_lower_bound (2 ^ 63) 10 x). lia. }
  rewrite !u64_small by (rewrite ?u64_small; lia). replace (x * 10 + (48 + n) - 48) with (x * 10 + n) by lia.
  destruct (Z.ltb_spec (2 ^ 63) (x * 10 + n)); [lia | done].
Qed.

Lemma leadingInt_decimal fuel n s : 0 <= n <= 2 ^ 63 -> n < 2 ^ Z.of_nat fuel ->
  leadingInt 0 (decimal fuel n ++ s) = leadingInt n s.
Proof.
  revert n s; induction fuel as [|fuel IH]; intros n s Hn Hf.
  - change (2 ^ Z.of_nat 0) with 1 in Hf. by replace n with 0 by lia.
  - cbn [decimal]. destruct (Z.ltb_spec n 10).
    + cbn [app]. rewrite leadingInt_digit by lia. f_equal; lia.
    + pose proof (Z.div_mod n 10 ltac:(lia)) as Hd. pose proof (Z.mod_pos_bound n 10 ltac:(lia)).
      rewrite <- app_assoc, IH; cycle 1; [lia| |].
      * rewrite Nat2Z.inj_succ, Z.pow_succ_r in Hf by lia. lia.
      * cbn [app]. rewrite leadingInt_digit by lia. f_equal; lia.
Qed.

Lemma leadingInt_Itoa n s : 0 <= n <= 2 ^ 63 -> no_digit s -> leadingInt 0 (Itoa n ++ s) = Some (n, s).
Proof.
  intros Hn Hs. unfold Itoa. destruct (Z.ltb_spec n 0); [lia|].
  rewrite leadingInt_decimal; [by apply leadingInt_stop | done |].
  rewrite Nat2Z.inj_succ, Z2Nat.id by apply Z.log2_nonneg.
  destruct (decide (n = 0)) as [->|]; [done|]. apply Z.log2_spec. lia.
Qed.

Lemma decimal_head fuel n : (0 < fuel)%nat -> 0 <= n -> exists c l, decimal fuel n = (48 + c) :: l /\ 0 <= c < 10.
Proof.
  revert n; induction fuel as [|fuel IH]; intros n Hf Hn; [lia|]. cbn [decimal].
  destruct (Z.ltb_spec n 10); [by exists n, []; split|].
  destruct fuel as [|fuel].
  - cbn [decimal app]. exists (n mod 10), []. split; [done|]. apply Z.mod_pos_bound. lia.
  - destruct (IH (n / 10)) as (c & l & -> & Hc); [lia | by apply Z.div_pos; lia |].
    by exists c, (l ++ [48 + n mod 10]).
Qed.

Lemma Itoa_head n : 0 <= n -> exists c l, Itoa n = (48 + c) :: l /\ 0 <= c < 10.
Proof. intros. unfold Itoa. destruct (Z.ltb_spec n 0); [lia|]. apply decimal_head; lia. Qed.

(** A duration as it is written: numbers with their units. *)
Definition spell (l : list (Z * list Z)) : list Z := concat (map (fun p : Z * list Z => Itoa p.1 ++ p.2) l).
Definition nanoseconds (l : list (Z * list Z)) : Z :=
  foldr (fun (p : Z * list Z) t => p.1 * default 0 (find_unit p.2) + t) 0 l.
Definition quantity (p : Z * list Z) : Prop := 0 <= p.1 /\ exists unit, find_unit p.2 = Some unit.

Definition letter (c : Z) : Prop := (c =? 46) || digit c = false.

Lemma find_unit_spec u unit : find_unit u = Some unit -> 0 < unit /\ u <> [] /\ Forall letter u.
Proof.
  unfold find_unit. destruct (List.find _ unitMap) as [p|] eqn:E; [|done]. intros [= <-].
  apply List.find_some in E as [Hin Hp]. apply bool_decide_eq_true in Hp as <-.
  assert (Hall : Forall (fun p => 0 < p.2 /\ p.1 <> [] /\ Forall letter p.1) unitMap).
  { repeat constructor; discriminate. }
  rewrite List.Forall_forall in Hall. by apply Hall.
Qed.

Lemma leadingUnit_app u s : Forall letter u -> s = [] \/ starts_number s = true -> leadingUnit (u ++ s) = (u, s).
Proof.
  intros Hu Hs. induction Hu as [|c u Hc Hu IH]; cbn [app leadingUnit].
  - destruct Hs as [->|Hs]; [done|]. destruct s as [|c s]; [done|]. simpl in *. by rewrite Hs.
  - unfold letter in Hc. by rewrite Hc, IH.
Qed.

Lemma letters_stop u s : u <> [] -> Forall letter u -> no_digit (u ++ s).
Proof. intros Hne Hu. destruct Hu as [|c u Hc Hu]; [done|]. by apply orb_false_iff in Hc as [_ Hc]. Qed.

Lemma term_plain n u unit s : 0 <= n -> find_unit u = Some unit -> n * unit <= 2 ^ 63 ->
  s = [] \/ starts_number s = true -> term (Itoa n ++ u ++ s) = Some (n * unit, s).
Proof.
  intros Hn Hunit Hle Hs. destruct (find_unit_spec _ _ Hunit) as (Hpos & Hne & Hu).
  destruct (Itoa_head n Hn) as (c & l & El & Hc). unfold term.
  assert (Hst : starts_number (Itoa n ++ u ++ s) = true).
  { rewrite El. cbn [app starts_number]. rewrite digit_of by done. apply orb_true_r. }
  rewrite Hst, leadingInt_Itoa by (try apply letters_stop; try done; nia). cbn [negb mbind option_bind].
  assert (Hlen : Nat.eqb (length (u ++ s)) (length (Itoa n ++ u ++ s)) = false).
  { apply Nat.eqb_neq. rewrite El. rewrite !length_app. simpl. lia. }
  rewrite Hlen. destruct u as [|b u]; [done|].
  assert (Hb : (b =? 46) = false) by (apply Forall_inv in Hu; by apply orb_false_iff in Hu as [? _]).
  pose proof (leadingUnit_app (b :: u) s Hu Hs) as Hl. cbn [app] in *. rewrite Hb. cbn [negb andb]. rewrite Hl, Hunit.
  cbn [mbind option_bind]. destruct (Z.ltb_spec (2 ^ 63 / unit) n) as [Hlt|_].
  { exfalso. pose proof (Z.div_le_lower_bound (2 ^ 63) unit n). lia. }
  change (0 <? 0) with false. cbv iota. rewrite u64_small; [done | nia].
Qed.

Lemma spell_head l : Forall quantity l -> spell l = [] \/ starts_number (spell l) = true.
Proof.
  intros [|p l' [Hn _] _]; [by left|]. right. destruct (Itoa_head _ Hn) as (c & r & E & Hc).
  unfold spell. cbn [map concat]. rewrite E. cbn [app starts_number]. rewrite digit_of by done. apply orb_true_r.
Qed.

Lemma nanoseconds_nonneg l : Forall quantity l -> 0 <= nanoseconds l.
Proof.
  induction 1 as [|p l [Hn [unit Hu]] _ IH]; [done|]. cbn [nanoseconds foldr] in *.
  apply find_unit_spec in Hu as Hp. rewrite Hu. cbn [default]. fold (nanoseconds l) in *. simpl. nia.
Qed.

Lemma terms_spell l d fuel : Forall quantity l -> (length (spell l) <= fuel)%nat -> 0 <= d ->
  d + nanoseconds l <= 2 ^ 63 -> terms fuel d (spell l) = Parsed (d + nanoseconds l).
Proof.
  intros Hl. revert d fuel; induction Hl as [|[n u] l [Hn [unit Hu]] Hl IH]; intros d fuel Hf Hd Hle.
  - simpl in *. rewrite Z.add_0_r. by destruct fuel.
  - assert (E : spell ((n, u) :: l) = Itoa n ++ u ++ spell l) by (unfold spell; simpl; by rewrite <- app_assoc).
    pose proof (nanoseconds_nonneg l Hl). destruct (find_unit_spec _ _ Hu) as (Hpos & _).
    assert (En : nanoseconds ((n, u) :: l) = n * unit + nanoseconds l) 
      by (change (nanoseconds ((n, u) :: l)) with (n * default 0 (find_unit u) + nanoseconds l); simpl in Hu; by rewrite Hu).
    rewrite E in *. rewrite En in *. simpl in Hn, Hu.
    assert (Ht : term (Itoa n ++ u ++ spell l) = Some (n * unit, spell l)).
    { apply term_plain; [done..| nia | by apply spell_head]. }
    pose proof (term_shrinks _ _ _ Ht) as Hsh. destruct (Itoa n ++ u ++ spell l) as [|c s]; [simpl in Hsh; lia|].
    destruct fuel as [|fuel]; [simpl in Hf; lia|]. cbn [terms]. rewrite Ht. rewrite u64_small by nia.
    destruct (Z.ltb_spec (2 ^ 63) (d + n * unit)); [nia|]. rewrite IH; [f_equal; lia | | nia..].
    simpl in *. lia.
Qed.

Lemma ParseDuration_spell l v fuel : Forall quantity l -> l <> [] -> nanoseconds l < 2 ^ 63 ->
  bytes_of v = spell l -> (String.length v <= fuel)%nat -> ParseDuration fuel v = Parsed (nanoseconds l).
Proof.
  intros Hl Hne Hlt Hv Hf. pose proof (terms_spell l 0 fuel Hl) as Ht. pose proof (length_bytes_of v) as Hb.
  unfold len in Hb. rewrite Hv in Hb. unfold ParseDuration. rewrite Hv.
  destruct Hl as [|[n u] l [Hn [unit Hu]] Hl]; [done|]. simpl in Hn, Hu.
  destruct (Itoa_head n Hn) as (c & s & E & Hc). destruct (find_unit_spec _ _ Hu) as (_ & Hune & _).
  assert (Es : spell ((n, u) :: l) = (48 + c) :: (s ++ u ++ spell l)).
  { unfold spell. cbn [map concat fst snd]. rewrite E, <- app_assoc. done. }
  rewrite Es in *. destruct (Z.eqb_spec (48 + c) 45); [lia|]. destruct (Z.eqb_spec (48 + c) 43); [lia|].
  rewrite bool_decide_eq_false_2 by (intros [= ? Hnil]; destruct s, u; done).
  rewrite Ht by (simpl in *; lia). rewrite Z.add_0_l.
  destruct (Z.ltb_spec (2 ^ 63 - 1) (nanoseconds ((n, u) :: l))); [lia | done].
Qed.
