(* ===== verification/Runes.v ===== *)
(** * Writing runes, and strings made valid

    [utf8.AppendRune], and what the standard library does with bytes that are
    not UTF-8 when it copies a string through JSON: each of them becomes
    U+FFFD.  [encode_decode] and [decode_encode] say that writing and reading
    a rune are inverse to each other. *)

From S2P Require Import Prelude Utf8.
Local Open Scope Z_scope.

Definition surrogate (r : Z) : bool := between 55296 57343 r.
Definition replacement : list Z := [239; 191; 189].

(** [utf8.AppendRune] *)
Definition encode_rune (r : Z) : list Z :=
  if between 0 127 r then [r]
  else if between 128 2047 r then [192 + r / 64; 128 + r mod 64]
  else if surrogate r || negb (between 2048 1114111 r) then replacement
  else if r <=? 65535 then [224 + r / 4096; 128 + r / 64 mod 64; 128 + r mod 64]
  else [240 + r / 262144; 128 + r / 4096 mod 64; 128 + r / 64 mod 64; 128 + r mod 64].

Definition scalar (r : Z) : Prop := 0 <= r <= 1114111 /\ surrogate r = false.

(** ** Bits as arithmetic *)
Lemma land_low n b : 0 <= n -> Z.land b (2 ^ n - 1) = b mod 2 ^ n.
Proof. intros. replace (2 ^ n - 1) with (Z.ones n) by (rewrite Z.ones_equiv; lia). by apply Z.land_ones. Qed.

Lemma lor_shift a c n : 0 <= n -> 0 <= c < 2 ^ n -> Z.lor (Z.shiftl a n) c = a * 2 ^ n + c.
Proof.
  intros Hn Hc. rewrite Z.shiftl_mul_pow2 by done.
  assert (E : Z.land (a * 2 ^ n) c = 0).
  { apply Z.bits_inj'. intros i Hi. rewrite Z.land_spec, Z.bits_0. destruct (Z.ltb_spec i n).
    - by rewrite Z.mul_pow2_bits_low.
    - rewrite <- (Z.mod_small c (2 ^ n)) by done. rewrite Z.mod_pow2_bits_high by lia. apply andb_false_r. }
  rewrite <- Z.lxor_lor by done. symmetry. by apply Z.add_nocarry_lxor.
Qed.

Lemma between_spec lo hi b : between lo hi b = true <-> lo <= b <= hi.
Proof. unfold between. rewrite andb_true_iff, !Z.leb_le. done. Qed.
Lemma between_false lo hi b : between lo hi b = false <-> b < lo \/ hi < b.
Proof. unfold between. rewrite andb_false_iff, !Z.leb_gt. lia. Qed.

(** The rune of two, three and four bytes. *)
Lemma rune2 b0 b1 : Z.lor (Z.shiftl (Z.land b0 31) 6) (Z.land b1 63) = b0 mod 32 * 64 + b1 mod 64.
Proof.
  change 31 with (2 ^ 5 - 1). change 63 with (2 ^ 6 - 1). rewrite !land_low by lia. rewrite lor_shift; [done|lia|apply Z.mod_pos_bound; lia].
Qed.
Lemma rune3 b0 b1 b2 : Z.lor (Z.lor (Z.shiftl (Z.land b0 15) 12) (Z.shiftl (Z.land b1 63) 6)) (Z.land b2 63)
  = b0 mod 16 * 4096 + b1 mod 64 * 64 + b2 mod 64.
Proof.
  change 15 with (2 ^ 4 - 1). change 63 with (2 ^ 6 - 1). rewrite !land_low by lia. rewrite <- Z.lor_assoc.
  pose proof (Z.mod_pos_bound b1 (2 ^ 6) ltac:(lia)). pose proof (Z.mod_pos_bound b2 (2 ^ 6) ltac:(lia)).
  change (2 ^ 6) with 64 in *. change (2 ^ 4) with 16.
  rewrite (lor_shift (b1 mod _) _ 6) by lia. rewrite lor_shift by (change (2 ^ 6) with 64; lia). lia.
Qed.
Lemma rune4 b0 b1 b2 b3 : Z.lor (Z.lor (Z.shiftl (Z.land b0 7) 18) (Z.shiftl (Z.land b1 63) 12))
    (Z.lor (Z.shiftl (Z.land b2 63) 6) (Z.land b3 63))
  = b0 mod 8 * 262144 + b1 mod 64 * 4096 + b2 mod 64 * 64 + b3 mod 64.
Proof.
  change 7 with (2 ^ 3 - 1). change 63 with (2 ^ 6 - 1). rewrite !land_low by lia. rewrite <- Z.lor_assoc.
  pose proof (Z.mod_pos_bound b1 (2 ^ 6) ltac:(lia)). pose proof (Z.mod_pos_bound b2 (2 ^ 6) ltac:(lia)).
  pose proof (Z.mod_pos_bound b3 (2 ^ 6) ltac:(lia)).
  change (2 ^ 6) with 64 in *. change (2 ^ 3) with 8.
  rewrite (lor_shift (b2 mod _) _ 6) by lia. rewrite (lor_shift (b1 mod _)) by (change (2 ^ 6) with 64; lia).
  rewrite lor_shift by (change (2 ^ 6) with 64; change (2 ^ 12) with 4096; lia). lia.
Qed.

(** ** Reading what was written *)
Lemma decode_encode r s : scalar r -> decode (encode_rune r ++ s) = Some (r, length (encode_rune r)).
Proof.
  intros [Hr Hs]. apply between_false in Hs. unfold encode_rune.
  destruct (between 0 127 r) eqn:E1; [simpl; by rewrite E1|]. apply between_false in E1.
  destruct (between 128 2047 r) eqn:E2.
  { apply between_spec in E2. cbn [app decode length]. rewrite (proj2 (between_false _ _ _)), (proj2 (between_spec _ _ _)) by (Z.div_mod_to_equations; lia).
    unfold cont. rewrite (proj2 (between_spec _ _ _)) by (Z.div_mod_to_equations; lia). cbn [andb]. rewrite rune2. do 2 f_equal. Z.div_mod_to_equations; lia. }
  apply between_false in E2. assert (Hsur : surrogate r = false) by (apply between_false; lia).
  rewrite Hsur, (proj2 (between_spec 2048 1114111 r)) by lia. cbn [orb negb].
  assert (H64 : forall x, cont (128 + x mod 64) = true) by (intros x; apply between_spec; pose proof (Z.mod_pos_bound x 64); lia).
  destruct (Z.leb_spec r 65535) as [Hlt|Hge].
  - cbn [app decode length]. rewrite !H64. rewrite (proj2 (between_false 0 127 _)), (proj2 (between_false 194 223 _)), (proj2 (between_spec 224 239 _)) by (Z.div_mod_to_equations; lia).
    rewrite rune3. cbn [andb].
    replace (between _ _ (128 + r / 64 mod 64)) with true; [cbn [andb]; do 2 f_equal; Z.div_mod_to_equations; lia|].
    symmetry. apply between_spec. destruct (Z.eqb_spec (224 + r / 4096) 224), (Z.eqb_spec (224 + r / 4096) 237); Z.div_mod_to_equations; lia.
  - cbn [app decode length]. rewrite !H64. rewrite (proj2 (between_false 0 127 _)), (proj2 (between_false 194 223 _)), (proj2 (between_false 224 239 _)), (proj2 (between_spec 240 244 _)) by (Z.div_mod_to_equations; lia).
    rewrite rune4. cbn [andb].
    replace (between _ _ (128 + r / 4096 mod 64)) with true; [cbn [andb]; do 2 f_equal; Z.div_mod_to_equations; lia|].
    symmetry. apply between_spec. destruct (Z.eqb_spec (240 + r / 262144) 240), (Z.eqb_spec (240 + r / 262144) 244); Z.div_mod_to_equations; lia.
Qed.

(** A rune that was read, written again. *)
Lemma encode_decode bs r w : decode bs = Some (r, w) -> encode_rune r = take w bs /\ scalar r.
Proof.
  unfold decode. destruct bs as [|b0 bs]; [done|]. destruct (between 0 127 b0) eqn:E0.
  { intros [= <- <-]. unfold encode_rune. rewrite E0. apply between_spec in E0. split; [done|]. split; [lia | apply between_false; lia]. }
  apply between_false in E0. destruct bs as [|b1 bs]; [done|]. destruct (between 194 223 b0 && cont b1) eqn:E1.
  { apply andb_true_iff in E1 as [H0%between_spec H1%between_spec]. intros [= <- <-]. rewrite rune2.
    set (r := _ + _). assert (Hr : r = (b0 - 192) * 64 + (b1 - 128)) by (unfold r; Z.div_mod_to_equations; lia). clearbody r.
    unfold encode_rune. rewrite (proj2 (between_false 0 127 r)), (proj2 (between_spec 128 2047 r)) by lia.
    split; [cbn [take]; repeat f_equal; Z.div_mod_to_equations; lia|]. split; [lia | apply between_false; lia]. }
  destruct bs as [|b2 bs]; [done|]. destruct (between 224 239 b0 && _ && cont b2) eqn:E2.
  { apply andb_true_iff in E2 as [[H0%between_spec H1%between_spec]%andb_true_iff H2%between_spec]. intros [= <- <-]. rewrite rune3.
    set (r := _ + _). assert (Hr : r = (b0 - 224) * 4096 + (b1 - 128) * 64 + (b2 - 128)).
    { unfold r. destruct (b0 =? 224), (b0 =? 237); Z.div_mod_to_equations; lia. }
    clearbody r. assert (Hsc : surrogate r = false /\ 2048 <= r <= 65535).
    { split; [apply between_false|]; destruct (Z.eqb_spec b0 224), (Z.eqb_spec b0 237); lia. }
    destruct Hsc as [Hsur Hb]. unfold encode_rune. rewrite Hsur, (proj2 (between_false 0 127 r)), (proj2 (between_false 128 2047 r)), (proj2 (between_spec 2048 1114111 r)) by lia.
    cbn [orb negb]. rewrite (proj2 (Z.leb_le r 65535)) by lia.
    assert (128 <= b1 <= 191) by (destruct (b0 =? 224), (b0 =? 237); lia).
    split; [cbn [take]; repeat f_equal; Z.div_mod_to_equations; lia|]. split; [lia | done]. }
  destruct bs as [|b3 bs]; [done|]. destruct (between 240 244 b0 && _ && cont b2 && cont b3) eqn:E3; [|done].
  apply andb_true_iff in E3 as [[[H0%between_spec H1%between_spec]%andb_true_iff H2%between_spec]%andb_true_iff H3%between_spec].
  intros [= <- <-]. rewrite rune4. set (r := _ + _).
  assert (128 <= b1 <= 191) by (destruct (b0 =? 240), (b0 =? 244); lia).
  assert (Hr : r = (b0 - 240) * 262144 + (b1 - 128) * 4096 + (b2 - 128) * 64 + (b3 - 128)) by (unfold r; Z.div_mod_to_equations; lia).
  clearbody r. assert (Hb : 65536 <= r <= 1114111) by (destruct (Z.eqb_spec b0 240), (Z.eqb_spec b0 244); lia).
  assert (Hsur : surrogate r = false) by (apply between_false; lia).
  unfold encode_rune. rewrite Hsur, (proj2 (between_false 0 127 r)), (proj2 (between_false 128 2047 r)), (proj2 (between_spec 2048 1114111 r)) by lia.
  cbn [orb negb]. rewrite (proj2 (Z.leb_gt r 65535)) by lia.
  split; [cbn [take]; repeat f_equal; Z.div_mod_to_equations; lia|]. split; [lia | done].
Qed.

(** What follows a rune does not change how it is read. *)
Lemma decode_app bs s r w : decode bs = Some (r, w) -> decode (bs ++ s) = Some (r, w).
Proof.
  intros H. destruct (encode_decode _ _ _ H) as [E Hr]. apply decode_width in H.
  rewrite <- (take_drop w bs), <- app_assoc, <- E, decode_encode by done. do 2 f_equal. rewrite E, length_take. lia.
Qed.
Lemma decode_rune_here bs s r w : decode bs = Some (r, w) -> decode (take w bs ++ s) = Some (r, w).
Proof.
  intros H. destruct (encode_decode _ _ _ H) as [E Hr]. apply decode_width in H. rewrite <- E, decode_encode by done.
  do 2 f_equal. rewrite E, length_take. lia.
Qed.

(** ** Strings made valid *)
Fixpoint to_valid_fuel (fuel : nat) (bs : list Z) : list Z :=
  match fuel, bs with
  | S fuel, _ :: r =>
      match decode bs with
      | Some (_, w) => take w bs ++ to_valid_fuel fuel (drop w bs)
      | None => replacement ++ to_valid_fuel fuel r
      end
  | _, _ => []
  end.
Definition to_valid (bs : list Z) : list Z := to_valid_fuel (length bs) bs.

Lemma to_valid_fuel_enough n m bs : (length bs <= n)%nat -> (length bs <= m)%nat -> to_valid_fuel n bs = to_valid_fuel m bs.
Proof.
  revert m bs. induction n as [|n IH]; intros m bs Hn Hm; [destruct bs; [by destruct m | simpl in Hn; lia]|].
  destruct bs as [|b bs]; [by destruct m|]. destruct m as [|m]; [simpl in Hm; lia|]. cbn [to_valid_fuel].
  cbn [length] in *. destruct (decode (b :: bs)) as [[r w]|] eqn:E; f_equal; [|apply IH; lia].
  apply decode_width in E. apply IH; rewrite length_drop; cbn [length] in *; lia.
Qed.

(** Along a string, one rune or one bad byte at a time. *)
Lemma rune_ind (P : list Z -> Prop) : P [] ->
  (forall bs r w, decode bs = Some (r, w) -> P (drop w bs) -> P bs) ->
  (forall b bs, decode (b :: bs) = None -> P bs -> P (b :: bs)) -> forall bs, P bs.
Proof.
  intros H0 H1 H2 bs. induction bs as [bs IH] using (induction_ltof1 _ (@length Z)); unfold ltof in IH.
  destruct bs as [|b bs]; [done|]. destruct (decode (b :: bs)) as [[r w]|] eqn:E.
  - apply (H1 _ r w E), IH. apply decode_width in E. rewrite length_drop. simpl in *. lia.
  - apply H2; [done|]. apply IH. simpl. lia.
Qed.

Lemma to_valid_rune bs r w : decode bs = Some (r, w) -> to_valid bs = take w bs ++ to_valid (drop w bs).
Proof.
  intros E. destruct bs as [|b bs]; [done|]. unfold to_valid at 1. cbn [length to_valid_fuel]. rewrite E. f_equal.
  apply decode_width in E. apply to_valid_fuel_enough; rewrite length_drop; simpl in *; lia.
Qed.
Lemma to_valid_bad b bs : decode (b :: bs) = None -> to_valid (b :: bs) = replacement ++ to_valid bs.
Proof. intros E. unfold to_valid at 1. cbn [length to_valid_fuel]. by rewrite E. Qed.

Lemma valid_rune bs r w : decode bs = Some (r, w) -> valid_utf8 bs = valid_utf8 (drop w bs).
Proof. destruct bs as [|b bs]; [done|]. apply valid_cons. Qed.
Lemma valid_bad b bs : decode (b :: bs) = None -> valid_utf8 (b :: bs) = false.
Proof. intros E. unfold valid_utf8. cbn [length valid_fuel]. by rewrite E. Qed.

Lemma valid_encode r s : scalar r -> valid_utf8 (encode_rune r ++ s) = valid_utf8 s.
Proof. intros H. rewrite (valid_rune _ _ _ (decode_encode r s H)). by rewrite drop_app_length. Qed.
Lemma replacement_rune : replacement = encode_rune RuneError /\ scalar RuneError.
Proof. split; [done|]. split; [unfold RuneError; lia | done]. Qed.
Lemma valid_replacement s : valid_utf8 (replacement ++ s) = valid_utf8 s.
Proof. destruct replacement_rune as [-> H]. by apply valid_encode. Qed.

Lemma to_valid_valid bs : valid_utf8 (to_valid bs) = true.
Proof.
  induction bs as [|bs r w E IH|b bs E IH] using rune_ind; [done| |by rewrite to_valid_bad, valid_replacement].
  rewrite (to_valid_rune _ _ _ E). destruct (encode_decode _ _ _ E) as [<- Hr]. by rewrite valid_encode.
Qed.
Lemma to_valid_id bs : valid_utf8 bs = true -> to_valid bs = bs.
Proof.
  induction bs as [|bs r w E IH|b bs E IH] using rune_ind; [done| |by rewrite valid_bad].
  rewrite (valid_rune _ _ _ E). intros H. rewrite (to_valid_rune _ _ _ E), IH by done. apply take_drop.
Qed.
Lemma valid_app a b : valid_utf8 a = true -> valid_utf8 b = true -> valid_utf8 (a ++ b) = true.
Proof.
  induction a as [|a r w E IH|x a E IH] using rune_ind; [done| |by rewrite valid_bad].
  rewrite (valid_rune _ _ _ E). intros Ha Hb. rewrite (valid_rune _ _ _ (decode_app _ b _ _ E)).
  apply decode_width in E. rewrite drop_app_le by lia. by apply IH.
Qed.

(** ** Trimming keeps a string valid *)
Lemma decode_head bs r w : decode bs = Some (r, w) -> head bs <> None /\ forall b, head bs = Some b -> rune_start b = true.
Proof.
  intros H. destruct bs as [|b bs]; [done|]. split; [done|]. intros x [= <-]. unfold rune_start, cont.
  destruct (encode_decode _ _ _ H) as [E Hr]. pose proof (decode_width _ _ _ H) as Hw. destruct w as [|w]; [lia|]. cbn [take] in E.
  apply negb_true_iff, between_false. unfold encode_rune in E. destruct Hr as [Hr _].
  destruct (between 0 127 r) eqn:E0; [apply between_spec in E0; injection E as -> _; lia|]. apply between_false in E0.
  destruct (between 128 2047 r) eqn:E1; [apply between_spec in E1; injection E as <- _; Z.div_mod_to_equations; lia|]. apply between_false in E1.
  destruct (surrogate r || _); [injection E as <- _; lia|].
  destruct (r <=? 65535); injection E as <- _; Z.div_mod_to_equations; lia.
Qed.
(** Inside a rune there are only continuation bytes. *)
Lemma decode_inside bs r w k : decode bs = Some (r, w) -> (0 < k < w)%nat -> decode (drop k bs) = None.
Proof.
  intros H Hk. destruct (decode (drop k bs)) as [[r' w']|] eqn:E; [|done]. exfalso.
  destruct (decode_head _ _ _ E) as [_ Hs]. destruct (encode_decode _ _ _ H) as [Ee Hr].
  assert (Hb : exists b, head (drop k bs) = Some b /\ cont b = true).
  { assert (Hl : length (encode_rune r) = w) by (rewrite Ee, length_take; apply decode_width in H; lia).
    assert (Hd : head (drop k bs) = encode_rune r !! k).
    { rewrite Ee, lookup_take_lt by lia. rewrite head_lookup, lookup_drop. by rewrite Nat.add_0_r. }
    rewrite Hd. destruct Hr as [Hr Hsur]. unfold encode_rune in *. rewrite Hsur in *. unfold cont.
    destruct (between 0 127 r); [simpl in Hl; lia|]. destruct (between 128 2047 r).
    { simpl in Hl. replace k with 1%nat by lia. eexists. split; [done|]. apply between_spec. Z.div_mod_to_equations. lia. }
    destruct (false || _); [simpl in Hl|destruct (r <=? 65535); simpl in Hl].
    all: destruct k as [|[|[|[|k]]]]; try lia; eexists; (split; [reflexivity|]); apply between_spec; Z.div_mod_to_equations; lia. }
  destruct Hb as (b & Hb & Hc). specialize (Hs b Hb). unfold rune_start in Hs. by rewrite Hc in Hs.
Qed.

Lemma valid_split bs k r w : valid_utf8 bs = true -> decode (drop k bs) = Some (r, w) -> valid_utf8 (take k bs) = true.
Proof.
  revert k. induction bs as [|bs r0 w0 E IH|b bs E IH] using rune_ind; intros k; [by destruct k| |by rewrite valid_bad].
  rewrite (valid_rune _ _ _ E). intros Hv Hd. destruct (decide (k = 0%nat)) as [->|Hk]; [done|].
  destruct (decide (k < w0)%nat) as [Hlt|Hge]; [by rewrite (decode_inside _ _ _ k E) in Hd by lia|].
  pose proof (decode_width _ _ _ E) as Hw. specialize (IH (k - w0)%nat Hv).
  rewrite drop_drop in IH. replace (w0 + (k - w0))%nat with k in IH by lia. specialize (IH Hd).
  assert (Et : take k bs = take w0 bs ++ take (k - w0) (drop w0 bs)).
  { rewrite <- (take_drop w0 bs) at 1. rewrite take_app, take_take, length_take. f_equal; f_equal; lia. }
  rewrite Et. destruct (encode_decode _ _ _ E) as [<- Hr]. by rewrite valid_encode.
Qed.

Lemma valid_trim_left n bs : valid_utf8 bs = true -> valid_utf8 (trim_left_fuel n bs) = true.
Proof.
  revert bs. induction n as [|n IH]; intros bs Hv; [done|]. destruct bs as [|b bs]; [done|]. cbn [trim_left_fuel]. unfold decode_rune.
  destruct (decode (b :: bs)) as [[r w]|] eqn:E; cbn [default from_option].
  - change (valid_utf8 (if is_space r then trim_left_fuel n (drop w (b :: bs)) else b :: bs) = true).
    destruct (is_space r); [|done]. apply IH. by rewrite <- (valid_rune _ _ _ E).
  - exact Hv.
Qed.
Lemma valid_trim_right n bs : valid_utf8 bs = true -> valid_utf8 (trim_right_fuel n bs) = true.
Proof.
  revert bs. induction n as [|n IH]; intros bs Hv; [done|]. destruct bs as [|b bs0] eqn:Eb; [done|]. rewrite <- Eb in *. assert (Hne : bs <> []) by (by subst).
  cbn [trim_right_fuel]. rewrite Eb. rewrite <- Eb. clear Eb. destruct (decode_last_rune bs) as [r w] eqn:E. destruct (is_space r) eqn:Es; [|done].
  apply IH. unfold decode_last_rune in E. destruct (last bs) as [x|] eqn:El; [|by apply last_None in El].
  destruct (between 0 127 x) eqn:Ex.
  - injection E as <- <-. apply (valid_split _ _ x 1%nat Hv). apply last_snoc_inv in El as [k ->]. rewrite length_app. simpl.
    replace (length k + 1 - 1)%nat with (length k) by lia. rewrite drop_app_length. unfold decode. by rewrite Ex.
  - set (start := match (length bs - 1)%nat with O => O | S k => back_to_start 3 bs k end) in *.
    destruct (decode_rune (drop start bs)) as [r' size] eqn:Ed.
    destruct (Nat.eqb_spec (start + size) (length bs)) as [Hsz|]; [|injection E as <- <-; done]. injection E as -> ->.
    replace (length bs - w)%nat with start by lia.
    unfold decode_rune in Ed. destruct (drop start bs) as [|y l] eqn:Eq; [by injection Ed as <- <-|].
    destruct (decode (y :: l)) as [[r2 w2]|] eqn:E2; simpl in Ed; injection Ed as <- <-; [|done]. rewrite <- Eq in E2. by eapply valid_split.
Qed.
Lemma valid_TrimSpace s : valid_utf8 (bytes_of s) = true -> valid_utf8 (bytes_of (TrimSpace s)) = true.
Proof.
  intros H. destruct (TrimSpace_spec s) as (pre & post & E & _). unfold TrimSpace in *.
  assert (Hb : Forall is_byte (trim_right (trim_left (bytes_of s)))).
  { destruct (trim_left_spec (length (bytes_of s)) (bytes_of s) ltac:(lia)) as [H1 _].
    destruct (trim_right_spec (length (trim_left (bytes_of s))) (trim_left (bytes_of s)) ltac:(lia)) as [H2 _].
    eapply Forall_prefix; [exact H2|]. eapply Forall_suffix; [exact H1|]. apply bytes_of_bytes. }
  rewrite bytes_of_string_of by done. by apply valid_trim_right, valid_trim_left.
Qed.
