(* ===== verification/Calendar.v ===== *)
(** * Dates and RFC 3339: what [encoding/json] makes of a [time.Time]

    [time.Time.MarshalJSON] and [UnmarshalJSON] for instants in UTC, which is
    all the program has ([time.Now().UTC()]).  An instant is its nanoseconds
    from 1970; a date is a year, a month and a day of the Gregorian calendar.
    [date_of_days] is the calculation of [time.Time.Date] by cycles of 400,
    100, 4 and 1 years.  [time_Parse] is [time.Parse] for the layout
    [time.RFC3339], whose accepted strings include those of the faster
    [parseRFC3339] and to which the strict parser falls back. *)

From S2P Require Import Prelude Utf8 Duration.
Local Open Scope Z_scope.

(** ** The calendar *)
Definition isLeap (y : Z) : bool := (y mod 4 =? 0) && (negb (y mod 100 =? 0) || (y mod 400 =? 0)).
Definition months (y : Z) : list Z := [31; if isLeap y then 29 else 28; 31; 30; 31; 30; 31; 31; 30; 31; 30; 31].
Definition daysIn (m y : Z) : Z := nth (Z.to_nat (m - 1)) (months y) 0.
Definition days_in_year (y : Z) : Z := if isLeap y then 366 else 365.

(** Days from 1 January of year 1 to 1 January of year [y]. *)
Definition days_to_year (y : Z) : Z := let p := y - 1 in 365 * p + p / 4 - p / 100 + p / 400.
Definition epoch_days : Z := 719162.   (* 1 January 1970 *)

Fixpoint days_before (ms : list Z) (m : Z) : Z :=
  match ms with l :: ms => if m <=? 1 then 0 else l + days_before ms (m - 1) | [] => 0 end.
Definition days_of_date (y m d : Z) : Z := days_to_year y + days_before (months y) m + (d - 1) - epoch_days.

(** The month and day of a day of the year, counted from 0. *)
Fixpoint month_day (ms : list Z) (m yday : Z) : Z * Z :=
  match ms with
  | l :: ms => if yday <? l then (m, yday + 1) else month_day ms (m + 1) (yday - l)
  | [] => (m, yday + 1)
  end.

(** The year of a day counted from 1 January of year 1, and the day in it. *)
Definition year_day (n : Z) : Z * Z :=
  let r := n mod 146097 in
  let c := Z.min 3 (r / 36524) in
  let r1 := r - 36524 * c in
  let q := r1 / 1461 in
  let r2 := r1 mod 1461 in
  let a := Z.min 3 (r2 / 365) in
  (400 * (n / 146097) + 100 * c + 4 * q + a + 1, r2 - 365 * a).

Definition date_of_days (z : Z) : Z * Z * Z :=
  let '(y, yday) := year_day (z + epoch_days) in
  let '(m, d) := month_day (months y) 1 yday in (y, m, d).

Definition date_ok (y m d : Z) : Prop := 1 <= m <= 12 /\ 1 <= d <= daysIn m y.

Lemma isLeap_spec y : isLeap y = true <-> y mod 4 = 0 /\ (y mod 100 <> 0 \/ y mod 400 = 0).
Proof. unfold isLeap. rewrite andb_true_iff, orb_true_iff, negb_true_iff, Z.eqb_neq, !Z.eqb_eq. done. Qed.

Lemma next_year y : days_to_year (y + 1) = days_to_year y + days_in_year y.
Proof.
  unfold days_in_year. destruct (isLeap y) eqn:E.
  - apply isLeap_spec in E. unfold days_to_year. Z.div_mod_to_equations. lia.
  - assert (H : ~ (y mod 4 = 0 /\ (y mod 100 <> 0 \/ y mod 400 = 0))) by (intros H%isLeap_spec; congruence).
    unfold days_to_year. Z.div_mod_to_equations. lia.
Qed.

(** The cycles: [p] years are [k] cycles of 400, [c] of 100, [q] of 4, [a]. *)
Lemma days_to_year_cycles k c q a : 0 <= c <= 3 -> 0 <= q <= 24 -> 0 <= a <= 3 ->
  days_to_year (400 * k + 100 * c + 4 * q + a + 1) = 146097 * k + 36524 * c + 1461 * q + 365 * a.
Proof. intros. unfold days_to_year. Z.div_mod_to_equations. lia. Qed.

Lemma leap_cycles k c q a : 0 <= c <= 3 -> 0 <= q <= 24 -> 0 <= a <= 3 -> a = 3 -> (q = 24 -> c = 3) ->
  isLeap (400 * k + 100 * c + 4 * q + a + 1) = true.
Proof.
  intros Hc Hq Ha -> Hl. apply isLeap_spec. split; [Z.div_mod_to_equations; lia|].
  destruct (decide (q = 24)) as [->|]; [right; rewrite Hl by done | left].
  - replace (400 * k + 100 * 3 + 4 * 24 + 3 + 1) with ((k + 1) * 400) by lia. by apply Z.mod_mul.
  - replace (400 * k + 100 * c + 4 * q + 3 + 1) with (4 * (q + 1) + (4 * k + c) * 100) by lia.
    rewrite Z.mod_add by done. rewrite Z.mod_small; lia.
Qed.

Lemma year_day_spec n : let '(y, yday) := year_day n in
  days_to_year y + yday = n /\ 0 <= yday < days_in_year y.
Proof.
  unfold year_day. set (k := n / 146097). set (r := n mod 146097). cbv zeta.
  assert (Hr : n = 146097 * k + r /\ 0 <= r < 146097).
  { unfold k, r. split; [apply Z.div_mod; lia | apply Z.mod_pos_bound; lia]. }
  clearbody k r. destruct Hr as [-> Hr]. set (c := Z.min 3 (r / 36524)).
  assert (Hc : 0 <= c <= 3 /\ 0 <= r - 36524 * c < 36524 + (if c =? 3 then 1 else 0)).
  { unfold c. destruct (Z.eqb_spec (Z.min 3 (r / 36524)) 3); Z.div_mod_to_equations; lia. }
  clearbody c. set (r1 := r - 36524 * c) in *. set (q := r1 / 1461). set (r2 := r1 mod 1461).
  assert (Hq : r1 = 1461 * q + r2 /\ 0 <= r2 < 1461) by (unfold q, r2; split; [apply Z.div_mod; lia | apply Z.mod_pos_bound; lia]).
  assert (Hr1 : r1 + 36524 * c = r) by (unfold r1; lia). clearbody q r2 r1. set (a := Z.min 3 (r2 / 365)).
  assert (Ha : 0 <= a <= 3 /\ 0 <= r2 - 365 * a < 365 + (if a =? 3 then 1 else 0)).
  { unfold a. destruct (Z.eqb_spec (Z.min 3 (r2 / 365)) 3); Z.div_mod_to_equations; lia. }
  clearbody a. destruct Hc as [Hc Hc1], Hq as [Hq Hr2], Ha as [Ha Ha1].
  assert (Hq24 : 0 <= q <= 24) by (destruct (c =? 3); lia).
  rewrite days_to_year_cycles by done. split; [lia|]. unfold days_in_year.
  destruct (Z.eqb_spec a 3) as [Ea|]; [|destruct (isLeap _); lia].
  destruct (decide (q = 24 /\ c <> 3)) as [[Eq Ec]|Hn].
  - apply Z.eqb_neq in Ec. rewrite Ec in Hc1. destruct (isLeap _); lia.
  - rewrite leap_cycles by (done || lia). lia.
Qed.

(** The year is the only one whose days these are. *)
Lemma days_to_year_mono y y' : y <= y' -> days_to_year y <= days_to_year y'.
Proof. intros H. unfold days_to_year. Z.div_mod_to_equations. lia. Qed.

Lemma year_day_unique y yday : 0 <= yday < days_in_year y -> year_day (days_to_year y + yday) = (y, yday).
Proof.
  intros H. pose proof (year_day_spec (days_to_year y + yday)) as Hs. destruct (year_day _) as [y' d']. destruct Hs as [E Hd].
  pose proof (next_year y). pose proof (next_year y').
  destruct (Z.lt_trichotomy y y') as [Hlt|[<-|Hlt]].
  - pose proof (days_to_year_mono (y + 1) y'). lia.
  - f_equal; lia.
  - pose proof (days_to_year_mono (y' + 1) y). lia.
Qed.

Lemma month_day_spec ms m0 yday : Forall (fun l => 0 < l) ms -> 0 <= yday < foldr Z.add 0 ms ->
  let '(m, d) := month_day ms m0 yday in
  m0 <= m < m0 + len ms /\ 1 <= d <= nth (Z.to_nat (m - m0)) ms 0 /\ days_before ms (m - m0 + 1) + (d - 1) = yday.
Proof.
  intros Hp. revert m0 yday. induction Hp as [|l ms Hl Hp IH]; intros m0 yday Hy; simpl in Hy; [lia|].
  unfold len in *. cbn [month_day length days_before]. destruct (Z.ltb_spec yday l) as [Hlt|Hge].
  - rewrite Z.sub_diag. simpl. lia.
  - specialize (IH (m0 + 1) (yday - l) ltac:(lia)). destruct (month_day ms (m0 + 1) (yday - l)) as [m d].
    destruct IH as (H1 & H2 & H3). split; [lia|]. destruct (Z.leb_spec (m - m0 + 1) 1); [lia|].
    replace (Z.to_nat (m - m0)) with (S (Z.to_nat (m - (m0 + 1)))) by lia.
    replace (m - m0 + 1 - 1) with (m - (m0 + 1) + 1) by lia. split; [exact H2 | lia].
Qed.

Lemma months_pos y : Forall (fun l => 0 < l) (months y).
Proof. unfold months. destruct (isLeap y); repeat constructor. Qed.
Lemma months_sum y : foldr Z.add 0 (months y) = days_in_year y.
Proof. unfold months, days_in_year. by destruct (isLeap y). Qed.

(** Every day has its date, and the date is that day. *)
Lemma date_of_days_spec z : let '(y, m, d) := date_of_days z in date_ok y m d /\ days_of_date y m d = z.
Proof.
  unfold date_of_days. pose proof (year_day_spec (z + epoch_days)) as Hy. destruct (year_day _) as [y yday]. destruct Hy as [E Hy].
  pose proof (month_day_spec (months y) 1 yday (months_pos y)) as Hm. rewrite months_sum in Hm. specialize (Hm Hy).
  destruct (month_day _ _ _) as [m d]. destruct Hm as (H1 & H2 & H3). change (len (months y)) with 12 in H1.
  replace (m - 1 + 1) with m in H3 by lia. split; [split; [lia | exact H2]|]. unfold days_of_date. lia.
Qed.

(** ** RFC 3339 *)
Fixpoint digits (k : nat) (n : Z) : list Z :=
  match k with O => [] | S k => digits k (n / 10) ++ [48 + n mod 10] end.
(** The digits of a fraction, without the zeros at its end. *)
Fixpoint frac_digits (k : nat) (n : Z) : list Z :=
  match k with
  | O => []
  | S k => if n =? 0 then [] else (48 + n / 10 ^ Z.of_nat k) :: frac_digits k (n mod 10 ^ Z.of_nat k)
  end.
Definition second : Z := 1000000000.

(** [t.AppendFormat] with [time.RFC3339Nano], in UTC. *)
Definition format_RFC3339Nano (t : Z) : list Z :=
  let s := t / second in let ns := t mod second in
  let '(y, m, d) := date_of_days (s / 86400) in
  let sod := s mod 86400 in
  digits 4 y ++ 45 :: digits 2 m ++ 45 :: digits 2 d ++ 84 ::
  digits 2 (sod / 3600) ++ 58 :: digits 2 (sod / 60 mod 60) ++ 58 :: digits 2 (sod mod 60) ++
  (if ns =? 0 then [] else 46 :: frac_digits 9 ns) ++ [90].

Definition year_of (t : Z) : Z := (date_of_days (t / second / 86400)).1.1.

(** [Time.MarshalJSON]: the bytes between the quotes. *)
Definition time_MarshalJSON (t : Z) : option (list Z) :=
  if between 0 9999 (year_of t) then Some (format_RFC3339Nano t) else None.

(** One or two digits; exactly two when [fixed]. *)
Definition getnum (fixed : bool) (s : list Z) : option (Z * list Z) :=
  match s with
  | a :: s1 =>
      if negb (digit a) then None else
      match s1 with
      | b :: s2 => if digit b then Some (10 * (a - 48) + (b - 48), s2) else if fixed then None else Some (a - 48, s1)
      | [] => if fixed then None else Some (a - 48, s1)
      end
  | [] => None
  end.
Definition skip_byte (c : Z) (s : list Z) : option (list Z) :=
  match s with x :: s => if x =? c then Some s else None | [] => None end.
Definition in_range (lo hi n : Z) : option unit := if between lo hi n then Some tt else None.
Fixpoint span_digits (s : list Z) : list Z * list Z :=
  match s with
  | c :: r => if digit c then let '(ds, r) := span_digits r in (c :: ds, r) else ([], s)
  | [] => ([], [])
  end.
Definition parseNanoseconds (ds : list Z) : Z :=
  let ds := take 9 ds in foldl (fun x c => x * 10 + (c - 48)) 0 ds * 10 ^ (9 - len ds).

Definition parse_year (s : list Z) : option (Z * list Z) :=
  match s with
  | a :: b :: c :: d :: s =>
      if forallb digit [a; b; c; d] then Some (foldl (fun x c => x * 10 + (c - 48)) 0 [a; b; c; d], s) else None
  | _ => None
  end.
(** A fraction is accepted although the layout has none. *)
Definition parse_fraction (s : list Z) : Z * list Z :=
  match s with
  | c :: s1 => if (c =? 46) || (c =? 44) then
                 match span_digits s1 with ([], _) => (0, s) | (ds, r) => (parseNanoseconds ds, r) end
               else (0, s)
  | [] => (0, s)
  end.
(** [Z07:00]: the offset in seconds. *)
Definition parse_zone (s : list Z) : option (Z * list Z) :=
  match s with
  | 90 :: s => Some (0, s)
  | sg :: a :: b :: 58 :: c :: d :: s =>
      hr ← getnum true [a; b];
      mm ← getnum true [c; d];
      if (24 <? hr.1) || (60 <? mm.1) then None else
      let off := (hr.1 * 60 + mm.1) * 60 in
      if sg =? 43 then Some (off, s) else if sg =? 45 then Some (- off, s) else None
  | _ => None
  end.

Definition time_Parse (s : list Z) : option Z :=
  '(y, s) ← parse_year s; s ← skip_byte 45 s;
  '(m, s) ← getnum true s; _ ← in_range 1 12 m; s ← skip_byte 45 s;
  '(d, s) ← getnum true s; s ← skip_byte 84 s;
  '(hh, s) ← getnum false s; _ ← in_range 0 23 hh; s ← skip_byte 58 s;
  '(mi, s) ← getnum true s; _ ← in_range 0 59 mi; s ← skip_byte 58 s;
  '(ss, s) ← getnum true s; _ ← in_range 0 59 ss;
  let '(ns, s) := parse_fraction s in
  '(off, s) ← parse_zone s;
  _ ← in_range 1 (daysIn m y) d;
  match s with
  | [] => Some ((days_of_date y m d * 86400 + hh * 3600 + mi * 60 + ss - off) * second + ns)
  | _ => None
  end.

(** [Time.UnmarshalJSON] of the bytes between the quotes. *)
Definition time_UnmarshalJSON : list Z -> option Z := time_Parse.

Example format_epoch : string_of (format_RFC3339Nano 1700000000123456000) = "2023-11-14T22:13:20.123456Z"%string.
Proof. vm_compute. reflexivity. Qed.
Example parse_offset : time_Parse (bytes_of "2023-11-15T0:13:20,5+02:00") = Some 1700000000500000000.
Proof. vm_compute. reflexivity. Qed.

(** ** What is written is what is read *)
Lemma is_digit n : 0 <= n < 10 -> digit (48 + n) = true.
Proof. apply digit_of. Qed.

Lemma getnum_digits fixed n s : 0 <= n < 100 -> getnum fixed (digits 2 n ++ s) = Some (n, s).
Proof.
  intros Hn. cbn [digits app getnum]. rewrite !is_digit by (Z.div_mod_to_equations; lia). cbn [negb].
  do 2 f_equal. Z.div_mod_to_equations. lia.
Qed.

Lemma parse_year_digits y s : 0 <= y <= 9999 -> parse_year (digits 4 y ++ s) = Some (y, s).
Proof.
  intros Hy. cbn [digits app parse_year forallb]. rewrite !is_digit by (Z.div_mod_to_equations; lia). cbn [andb foldl].
  do 2 f_equal. Z.div_mod_to_equations. lia.
Qed.

Lemma frac_digits_ok k n : 0 <= n < 10 ^ Z.of_nat k -> Forall (fun c => digit c = true) (frac_digits k n) /\
  (length (frac_digits k n) <= k)%nat /\
  forall x, foldl (fun x c => x * 10 + (c - 48)) x (frac_digits k n) * 10 ^ (Z.of_nat k - len (frac_digits k n)) = x * 10 ^ Z.of_nat k + n.
Proof.
  revert n. induction k as [|k IH]; intros n Hn; cbn [frac_digits].
  { unfold len. simpl in *. split; [constructor|]. split; [lia|]. intros x. lia. }
  destruct (Z.eqb_spec n 0) as [->|Hne].
  { unfold len. simpl. split; [constructor|]. split; [lia|]. intros x. rewrite Z.sub_0_r. lia. }
  rewrite Nat2Z.inj_succ, Z.pow_succ_r in * by lia. set (p := 10 ^ Z.of_nat k) in *. assert (Hp : 0 < p) by (apply Z.pow_pos_nonneg; lia).
  destruct (IH (n mod p)) as (H1 & H2 & H3); [by apply Z.mod_pos_bound|].
  assert (Hq : 0 <= n / p < 10) by (split; [apply Z.div_pos; lia | apply Z.div_lt_upper_bound; lia]).
  split; [constructor; [by apply is_digit | done]|]. split; [simpl; lia|]. intros x. unfold len in *. cbn [length foldl].
  replace (Z.succ (Z.of_nat k) - Z.of_nat (S (length (frac_digits k (n mod p))))) with (Z.of_nat k - Z.of_nat (length (frac_digits k (n mod p)))) by lia.
  rewrite H3. pose proof (Z.div_mod n p). nia.
Qed.

Lemma span_digits_app ds s : Forall (fun c => digit c = true) ds -> no_digit s -> span_digits (ds ++ s) = (ds, s).
Proof.
  intros Hd Hs. induction Hd as [|c ds Hc _ IH]; [|simpl; by rewrite Hc, IH].
  destruct s as [|c s]; [done|]. simpl in *. by rewrite Hs.
Qed.

Lemma parse_fraction_written ns s : 0 <= ns < second -> no_digit s -> head s <> Some 46 -> head s <> Some 44 ->
  parse_fraction ((if ns =? 0 then [] else 46 :: frac_digits 9 ns) ++ s) = (ns, s).
Proof.
  intros Hn Hs H1 H2. destruct (Z.eqb_spec ns 0) as [->|Hne].
  - destruct s as [|c s]; [done|]. cbn [app parse_fraction]. simpl in H1, H2.
    rewrite (proj2 (Z.eqb_neq c 46)), (proj2 (Z.eqb_neq c 44)) by congruence. done.
  - destruct (frac_digits_ok 9 ns Hn) as (Hd & Hl & Hv). cbn [app parse_fraction]. change (46 =? 46) with true. cbn [orb].
    rewrite span_digits_app by done. destruct (frac_digits 9 ns) as [|c ds] eqn:E.
    { specialize (Hv 0). unfold len in Hv. simpl in Hv. lia. }
    rewrite <- E in *. unfold parseNanoseconds. rewrite take_ge by lia. by rewrite Hv.
Qed.

Lemma second_of t : t = second * (t / second) + t mod second /\ 0 <= t mod second < second.
Proof. split; [apply Z.div_mod; done | apply Z.mod_pos_bound; done]. Qed.

Lemma skip_byte_same c s : skip_byte c (c :: s) = Some s.
Proof. simpl. by rewrite Z.eqb_refl. Qed.
Lemma in_range_ok lo hi n : lo <= n <= hi -> in_range lo hi n = Some tt.
Proof. intros H. unfold in_range, between. rewrite (proj2 (Z.leb_le lo n)), (proj2 (Z.leb_le n hi)) by lia. done. Qed.
Lemma bind_Some_eq {A B} (a : A) (f : A -> option B) : Some a ≫= f = f a.
Proof. done. Qed.

Lemma daysIn_bound m y : daysIn m y <= 31.
Proof.
  unfold daysIn. assert (H : Forall (fun l => l <= 31) (months y)) by (unfold months; destruct (isLeap y); repeat constructor; lia).
  destruct (nth_in_or_default (Z.to_nat (m - 1)) (months y) 0) as [Hin| ->]; [|lia].
  rewrite List.Forall_forall in H. by apply H.
Qed.

(** On with the next part of a parser. *)
Ltac parsed := repeat first [ rewrite bind_Some_eq; cbn beta iota | rewrite skip_byte_same | rewrite in_range_ok by lia ].

(** An instant of the years 0 to 9999 is read back exactly. *)
Lemma time_Parse_format t : 0 <= year_of t <= 9999 -> time_Parse (format_RFC3339Nano t) = Some t.
Proof.
  unfold year_of, format_RFC3339Nano, time_Parse. destruct (second_of t) as [Et Hns].
  set (s := t / second) in *. set (ns := t mod second) in *. clearbody s ns. subst t.
  pose proof (date_of_days_spec (s / 86400)) as Hdate. destruct (date_of_days (s / 86400)) as [[y m] d]. cbn [fst]. intros Hy.
  destruct Hdate as [[Hm Hd] Hdays]. pose proof (daysIn_bound m y).
  set (sod := s mod 86400). assert (Hsod : 0 <= sod < 86400) by (apply Z.mod_pos_bound; lia).
  assert (Hs : s = 86400 * (s / 86400) + sod) by (apply Z.div_mod; lia). clearbody sod.
  assert (Hh : 0 <= sod / 3600 <= 23) by (Z.div_mod_to_equations; lia).
  assert (Hmi : 0 <= sod / 60 mod 60 <= 59) by (pose proof (Z.mod_pos_bound (sod / 60) 60); lia).
  assert (Hss : 0 <= sod mod 60 <= 59) by (pose proof (Z.mod_pos_bound sod 60); lia).
  assert (Hsum : sod / 3600 * 3600 + sod / 60 mod 60 * 60 + sod mod 60 = sod) by (Z.div_mod_to_equations; lia).
  set (hh := sod / 3600) in *. set (mi := sod / 60 mod 60) in *. set (ss := sod mod 60) in *. clearbody hh mi ss.
  cbn beta iota zeta. rewrite parse_year_digits by lia. parsed.
  rewrite getnum_digits by lia. parsed. rewrite getnum_digits by lia. parsed. rewrite getnum_digits by lia. parsed.
  rewrite getnum_digits by lia. parsed. rewrite getnum_digits by lia. parsed.
  rewrite parse_fraction_written by done. cbn beta iota zeta. cbn [parse_zone]. parsed.
  f_equal. nia.
Qed.
