(* ===== verification/Json.v ===== *)
(** * JSON as [encoding/json] reads and writes it

    The envelope of chat messages is JSON in both directions (dto.go).  This is
    the part of the standard library it goes through: [quote_body] writes a
    string (with HTML escaping, as [json.Marshal] does), [unquote] reads one,
    [value] is the grammar with the nesting limit of the scanner, on bytes.
    A [jvalue] keeps strings and numbers as they are spelt, since that is what
    the decoder of a field looks at.  The fuel of the parser bounds its
    recursion; [parse_fuel_enough] says that twice the length suffices. *)

From S2P Require Import Prelude Utf8 Runes Duration Calendar.
Local Open Scope Z_scope.

(** ** Strings *)
Definition hexdigit (n : Z) : Z := if n <? 10 then 48 + n else 87 + n.
(** \b, \f, \n, \r, \t *)
Definition short_escape (b : Z) : option Z :=
  if b =? 8 then Some 98 else if b =? 12 then Some 102 else if b =? 10 then Some 110
  else if b =? 13 then Some 114 else if b =? 9 then Some 116 else None.
Definition html_safe (b : Z) : bool :=
  between 32 127 b && negb (existsb (Z.eqb b) [34; 38; 60; 62; 92]).

Definition u_escape (r : Z) : list Z :=
  [92; 117; hexdigit (r / 4096 mod 16); hexdigit (r / 256 mod 16); hexdigit (r / 16 mod 16); hexdigit (r mod 16)].
Definition escape_byte (b : Z) : list Z :=
  if html_safe b then [b]
  else if (b =? 34) || (b =? 92) then [92; b]
  else match short_escape b with Some e => [92; e] | None => u_escape b end.

(** [appendString] between the quotes. *)
Fixpoint quote_fuel (fuel : nat) (bs : list Z) : list Z :=
  match fuel, bs with
  | S fuel, b :: r =>
      if between 0 127 b then escape_byte b ++ quote_fuel fuel r else
      match decode bs with
      | Some (c, w) => (if (c =? 8232) || (c =? 8233) then u_escape c else take w bs) ++ quote_fuel fuel (drop w bs)
      | None => u_escape RuneError ++ quote_fuel fuel r
      end
  | _, _ => []
  end.
Definition quote_body (bs : list Z) : list Z := quote_fuel (length bs) bs.

Definition hexval (c : Z) : option Z :=
  if between 48 57 c then Some (c - 48) else if between 97 102 c then Some (c - 87)
  else if between 65 70 c then Some (c - 55) else None.
(** [getu4]: a \u escape at the head. *)
Definition getu4 (bs : list Z) : option Z :=
  match bs with
  | a :: b :: c3 :: c2 :: c1 :: c0 :: _ =>
      if (a =? 92) && (b =? 117) then
        d3 ← hexval c3; d2 ← hexval c2; d1 ← hexval c1; d0 ← hexval c0;
        Some (((d3 * 16 + d2) * 16 + d1) * 16 + d0)
      else None
  | _ => None
  end.
(** The rune a surrogate at the head stands for, and the bytes it takes. *)
Definition surrogate_pair (r : Z) (rest : list Z) : Z * nat :=
  match getu4 rest with
  | Some r2 => if between 55296 56319 r && between 56320 57343 r2
               then ((r - 55296) * 1024 + (r2 - 56320) + 65536, 12%nat) else (RuneError, 6%nat)
  | None => (RuneError, 6%nat)
  end.

(** [unquoteBytes] between the quotes, on what the scanner lets through. *)
Fixpoint unquote_fuel (fuel : nat) (bs : list Z) : list Z :=
  match fuel, bs with
  | S fuel, b :: r =>
      if b =? 92 then
        match r with
        | e :: r2 =>
            if e =? 117 then
              match getu4 bs with
              | Some u => let '(c, w) := if surrogate u then surrogate_pair u (drop 6 bs) else (u, 6%nat) in
                          encode_rune c ++ unquote_fuel fuel (drop w bs)
              | None => []
              end
            else (if e =? 98 then 8 else if e =? 102 then 12 else if e =? 110 then 10
                  else if e =? 114 then 13 else if e =? 116 then 9 else e) :: unquote_fuel fuel r2
        | [] => []
        end
      else match decode bs with
           | Some (_, w) => take w bs ++ unquote_fuel fuel (drop w bs)
           | None => replacement ++ unquote_fuel fuel r
           end
  | _, _ => []
  end.
Definition unquote (bs : list Z) : list Z := unquote_fuel (length bs) bs.

(** ** Values *)
Inductive jvalue :=
| JNull
| JBool (b : bool)
| JNum (raw : list Z)
| JStr (raw : list Z)
| JArr (l : list jvalue)
| JObj (l : list (list Z * jvalue)).

Definition is_ws (c : Z) : bool := existsb (Z.eqb c) [32; 9; 13; 10].
Fixpoint skip (bs : list Z) : list Z := match bs with c :: r => if is_ws c then skip r else bs | [] => [] end.

Definition is_hex (c : Z) : bool := match hexval c with Some _ => true | None => false end.

(** A string after its opening quote: the bytes up to the closing one. *)
Fixpoint string_lit (bs : list Z) : option (list Z * list Z) :=
  match bs with
  | [] => None
  | c :: r =>
      if c =? 34 then Some ([], r)
      else if c =? 92 then
        match r with
        | e :: r2 =>
            if e =? 117 then
              match r2 with
              | h3 :: h2 :: h1 :: h0 :: r3 =>
                  if forallb is_hex [h3; h2; h1; h0]
                  then '(raw, rest) ← string_lit r3; Some (92 :: e :: h3 :: h2 :: h1 :: h0 :: raw, rest) else None
              | _ => None
              end
            else if existsb (Z.eqb e) [34; 92; 47; 98; 102; 110; 114; 116]
            then '(raw, rest) ← string_lit r2; Some (92 :: e :: raw, rest) else None
        | [] => None
        end
      else if c <? 32 then None
      else '(raw, rest) ← string_lit r; Some (c :: raw, rest)
  end.

Definition digits1 (s : list Z) : option (list Z * list Z) :=
  match span_digits s with ([], _) => None | (ds, r) => Some (ds, r) end.

(** The parts of a number: sign, integer, fraction, exponent. *)
Definition num_sign (s : list Z) : list Z * list Z :=
  match s with c :: r => if c =? 45 then ([45], r) else ([], s) | [] => ([], []) end.
Definition num_int (s : list Z) : option (list Z * list Z) :=
  match s with c :: r => if c =? 48 then Some ([48], r) else digits1 s | [] => None end.
Definition num_frac (s : list Z) : option (list Z * list Z) :=
  match s with c :: r => if c =? 46 then '(ds, r) ← digits1 r; Some (46 :: ds, r) else Some ([], s) | [] => Some ([], []) end.
Definition exp_sign (s : list Z) : list Z * list Z :=
  match s with c :: r => if (c =? 43) || (c =? 45) then ([c], r) else ([], s) | [] => ([], []) end.
Definition num_exp (s : list Z) : option (list Z * list Z) :=
  match s with
  | c :: r => if (c =? 101) || (c =? 69) then
                let '(sg, r) := exp_sign r in
                '(ds, r) ← digits1 r; Some (c :: sg ++ ds, r)
              else Some ([], s)
  | [] => Some ([], [])
  end.
Definition number_lit (s : list Z) : option (list Z * list Z) :=
  let '(sg, s) := num_sign s in
  '(i, s) ← num_int s; '(f, s) ← num_frac s; '(e, s) ← num_exp s;
  Some (sg ++ i ++ f ++ e, s).

Definition maxNestingDepth : Z := 10000.

(** A bare word at the head. *)
Definition word (w bs : list Z) : option (list Z) :=
  if decide (take (length w) bs = w) then Some (drop (length w) bs) else None.
Definition byte_is (c : Z) (bs : list Z) : option (list Z) :=
  match bs with x :: r => if x =? c then Some r else None | [] => None end.

Fixpoint value (fuel : nat) (depth : Z) (bs : list Z) : option (jvalue * list Z) :=
  match fuel with
  | O => None
  | S fuel =>
      match skip bs with
      | [] => None
      | c :: r =>
          if c =? 34 then '(raw, r) ← string_lit r; Some (JStr raw, r)
          else if c =? 123 then
            if maxNestingDepth <=? depth then None else
            match byte_is 125 (skip r) with
            | Some r => Some (JObj [], r)
            | None => '(ms, r) ← members fuel (depth + 1) r; Some (JObj ms, r)
            end
          else if c =? 91 then
            if maxNestingDepth <=? depth then None else
            match byte_is 93 (skip r) with
            | Some r => Some (JArr [], r)
            | None => '(l, r) ← elements fuel (depth + 1) r; Some (JArr l, r)
            end
          else if c =? 116 then r ← word [114; 117; 101] r; Some (JBool true, r)
          else if c =? 102 then r ← word [97; 108; 115; 101] r; Some (JBool false, r)
          else if c =? 110 then r ← word [117; 108; 108] r; Some (JNull, r)
          else '(raw, r) ← number_lit (c :: r); Some (JNum raw, r)
      end
  end
with members (fuel : nat) (depth : Z) (bs : list Z) : option (list (list Z * jvalue) * list Z) :=
  match fuel with
  | O => None
  | S fuel =>
      r ← byte_is 34 (skip bs);
      '(k, r) ← string_lit r;
      r ← byte_is 58 (skip r);
      '(v, r) ← value fuel depth r;
      match skip r with
      | c :: r => if c =? 44 then '(ms, r) ← members fuel depth r; Some ((k, v) :: ms, r)
                  else if c =? 125 then Some ([(k, v)], r) else None
      | [] => None
      end
  end
with elements (fuel : nat) (depth : Z) (bs : list Z) : option (list jvalue * list Z) :=
  match fuel with
  | O => None
  | S fuel =>
      '(v, r) ← value fuel depth bs;
      match skip r with
      | c :: r => if c =? 44 then '(l, r) ← elements fuel depth r; Some (v :: l, r)
                  else if c =? 93 then Some ([v], r) else None
      | [] => None
      end
  end.

Definition parse_fuel (fuel : nat) (bs : list Z) : option jvalue :=
  '(v, r) ← value fuel 0 bs; match skip r with [] => Some v | _ => None end.
(** A whole text. *)
Definition parse (bs : list Z) : option jvalue := parse_fuel (2 * length bs + 2) bs.

(** ** Printing, without white space *)
Fixpoint sep (l : list (list Z)) : list Z :=
  match l with [] => [] | [x] => x | x :: l => x ++ 44 :: sep l end.
Fixpoint print (v : jvalue) : list Z :=
  match v with
  | JNull => [110; 117; 108; 108]
  | JBool b => if b then [116; 114; 117; 101] else [102; 97; 108; 115; 101]
  | JNum raw => raw
  | JStr raw => 34 :: raw ++ [34]
  | JArr l => 91 :: sep (map print l) ++ [93]
  | JObj l => 123 :: sep (map (fun '(k, v) => 34 :: k ++ 34 :: 58 :: print v) l) ++ [125]
  end.

(** ** Every step of the parser consumes something *)
Lemma skip_length bs : (length (skip bs) <= length bs)%nat.
Proof. induction bs as [|c bs IH]; [done|]. simpl. destruct (is_ws c); simpl; lia. Qed.
Lemma byte_is_length c bs r : byte_is c bs = Some r -> length bs = S (length r).
Proof. destruct bs as [|x bs]; [done|]. simpl. destruct (x =? c); [|done]. by intros [= ->]. Qed.
Lemma word_length w bs r : word w bs = Some r -> (length r <= length bs)%nat.
Proof. unfold word. case_decide; [|done]. intros [= <-]. rewrite length_drop. lia. Qed.

Lemma string_lit_spec bs raw r : string_lit bs = Some (raw, r) -> bs = raw ++ 34 :: r.
Proof.
  revert raw r. induction bs as [bs IH] using (induction_ltof1 _ (@length Z)); unfold ltof in IH. intros raw r.
  destruct bs as [|c bs]; [done|]. cbn [string_lit]. destruct (Z.eqb_spec c 34) as [->|]; [by intros [= <- <-]|].
  destruct (Z.eqb_spec c 92) as [->|]; [|destruct (c <? 32); [done|]].
  - destruct bs as [|e bs]; [done|]. destruct (Z.eqb_spec e 117) as [->|].
    + destruct bs as [|h3 [|h2 [|h1 [|h0 bs]]]]; try done. destruct (forallb is_hex _); [|done].
      intros ([raw' r'] & H & [= <- <-])%bind_Some. apply IH in H as ->; [done | simpl; lia].
    + destruct (existsb _ _); [|done]. intros ([raw' r'] & H & [= <- <-])%bind_Some. apply IH in H as ->; [done | simpl; lia].
  - intros ([raw' r'] & H & [= <- <-])%bind_Some. apply IH in H as ->; [done | simpl; lia].
Qed.
Lemma string_lit_length bs raw r : string_lit bs = Some (raw, r) -> (length r < length bs)%nat.
Proof. intros ->%string_lit_spec. rewrite length_app. simpl. lia. Qed.

Lemma span_digits_spec s ds r : span_digits s = (ds, r) -> s = ds ++ r /\ Forall (fun c => digit c = true) ds /\ no_digit r.
Proof.
  revert ds r. induction s as [|c s IH]; intros ds r; simpl; [by intros [= <- <-]|].
  destruct (digit c) eqn:E; [|by intros [= <- <-]]. destruct (span_digits s) as [ds' r']. intros [= <- <-].
  destruct (IH ds' r' eq_refl) as (-> & H & Hr). split; [done|]. split; [by constructor | done].
Qed.
Lemma digits1_spec s ds r : digits1 s = Some (ds, r) -> s = ds ++ r /\ Forall (fun c => digit c = true) ds /\ ds <> [] /\ no_digit r.
Proof.
  unfold digits1. destruct (span_digits s) as [[|d ds'] r'] eqn:E; [done|]. intros [= <- <-].
  by destruct (span_digits_spec _ _ _ E) as (? & ? & ?).
Qed.

Lemma num_sign_spec s x r : num_sign s = (x, r) -> s = x ++ r.
Proof. destruct s as [|c s]; simpl; [by intros [= <- <-]|]. destruct (Z.eqb_spec c 45) as [->|]; by intros [= <- <-]. Qed.
Lemma num_int_spec s x r : num_int s = Some (x, r) -> s = x ++ r /\ x <> [].
Proof.
  destruct s as [|c s]; [done|]. cbn [num_int]. destruct (Z.eqb_spec c 48) as [->|]; [by intros [= <- <-]|].
  by intros (? & _ & ? & _)%digits1_spec.
Qed.
Lemma num_frac_spec s x r : num_frac s = Some (x, r) -> s = x ++ r.
Proof.
  destruct s as [|c s]; cbn [num_frac]; [by intros [= <- <-]|]. destruct (Z.eqb_spec c 46) as [->|]; [|by intros [= <- <-]].
  intros ([ds r'] & (-> & _)%digits1_spec & [= <- <-])%bind_Some. done.
Qed.
Lemma exp_sign_spec s x r : exp_sign s = (x, r) -> s = x ++ r.
Proof. destruct s as [|c s]; simpl; [by intros [= <- <-]|]. destruct (_ || _); by intros [= <- <-]. Qed.
Lemma num_exp_spec s x r : num_exp s = Some (x, r) -> s = x ++ r.
Proof.
  destruct s as [|c s]; cbn [num_exp]; [by intros [= <- <-]|]. destruct (_ || _); [|by intros [= <- <-]].
  destruct (exp_sign s) as [sg r'] eqn:E. apply exp_sign_spec in E as ->.
  intros ([ds r''] & (-> & _)%digits1_spec & [= <- <-])%bind_Some. simpl. by rewrite <- app_assoc.
Qed.
Lemma number_lit_spec s x r : number_lit s = Some (x, r) -> s = x ++ r /\ x <> [].
Proof.
  unfold number_lit. destruct (num_sign s) as [sg s1] eqn:E. apply num_sign_spec in E as ->.
  intros ([i s2] & [-> Hi]%num_int_spec & ([f s3] & ->%num_frac_spec & ([e s4] & ->%num_exp_spec & [= <- <-])%bind_Some)%bind_Some)%bind_Some.
  rewrite <- !app_assoc. split; [done|]. destruct sg, i; done.
Qed.

Lemma parser_shrinks n :
  (forall d bs v r, value n d bs = Some (v, r) -> (length r < length bs)%nat) /\
  (forall d bs v r, members n d bs = Some (v, r) -> (length r < length bs)%nat) /\
  (forall d bs v r, elements n d bs = Some (v, r) -> (length r < length bs)%nat).
Proof.
  induction n as [|n (IHv & IHm & IHe)]; [done|]. split; [|split]; intros d bs v r; cbn [value members elements].
  - pose proof (skip_length bs) as Hs. destruct (skip bs) as [|c bs1]; [done|]. cbn [length] in Hs.
    destruct (c =? 34). { intros ([raw r'] & H%string_lit_length & [= <- <-])%bind_Some. lia. }
    destruct (c =? 123). { destruct (_ <=? _); [done|]. pose proof (skip_length bs1). destruct (byte_is _ _) as [r'|] eqn:E.
      - intros [= <- <-]. apply byte_is_length in E. lia.
      - intros ([ms r'] & H'%IHm & [= <- <-])%bind_Some. lia. }
    destruct (c =? 91). { destruct (_ <=? _); [done|]. pose proof (skip_length bs1). destruct (byte_is _ _) as [r'|] eqn:E.
      - intros [= <- <-]. apply byte_is_length in E. lia.
      - intros ([ms r'] & H'%IHe & [= <- <-])%bind_Some. lia. }
    destruct (c =? 116). { intros (r' & H'%word_length & [= <- <-])%bind_Some. lia. }
    destruct (c =? 102). { intros (r' & H'%word_length & [= <- <-])%bind_Some. lia. }
    destruct (c =? 110). { intros (r' & H'%word_length & [= <- <-])%bind_Some. lia. }
    intros ([raw r'] & [H' Hne]%number_lit_spec & [= <- <-])%bind_Some. apply (f_equal length) in H'. rewrite length_app in H'.
    destruct raw; [done|]. simpl in H'. lia.
  - intros (r1 & H1%byte_is_length & ([k r2] & H2%string_lit_length & (r3 & H3%byte_is_length & ([v' r4] & H4%IHv & H)%bind_Some)%bind_Some)%bind_Some)%bind_Some.
    pose proof (skip_length bs). pose proof (skip_length r2). pose proof (skip_length r4). destruct (skip r4) as [|c r5]; [done|]. cbn [length] in *.
    destruct (c =? 44); [|destruct (c =? 125); [|done]; injection H as <- <-; lia].
    apply bind_Some in H as ([ms r6] & H%IHm & [= <- <-]). lia.
  - intros ([v' r4] & H4%IHv & H)%bind_Some. pose proof (skip_length r4). destruct (skip r4) as [|c r5]; [done|]. cbn [length] in *.
    destruct (c =? 44); [|destruct (c =? 93); [|done]; injection H as <- <-; lia].
    apply bind_Some in H as ([ms r6] & H%IHe & [= <- <-]). lia.
Qed.

Lemma bind_ext {A B} (m : option A) (f g : A -> option B) : (forall a, m = Some a -> f a = g a) -> m ≫= f = m ≫= g.
Proof. intros H. destruct m; [by apply H | done]. Qed.

(** With twice the length and a little more, the fuel does not matter. *)
Lemma parser_fuel n : forall m,
  (forall d bs, (2 * length bs + 1 <= n)%nat -> (2 * length bs + 1 <= m)%nat -> value n d bs = value m d bs) /\
  (forall d bs, (2 * length bs + 2 <= n)%nat -> (2 * length bs + 2 <= m)%nat -> members n d bs = members m d bs) /\
  (forall d bs, (2 * length bs + 2 <= n)%nat -> (2 * length bs + 2 <= m)%nat -> elements n d bs = elements m d bs).
Proof.
  induction n as [|n IH]; intros m; [split; [|split]; intros; lia|].
  destruct m as [|m]; [split; [|split]; intros; lia|]. destruct (IH m) as (IHv & IHm & IHe). clear IH.
  destruct (parser_shrinks n) as (Sv & _ & _). split; [|split]; intros d bs Hn Hm; cbn [value members elements].
  - pose proof (skip_length bs) as Hs. destruct (skip bs) as [|c bs1]; [done|]. cbn [length] in Hs.
    destruct (c =? 34), (c =? 123), (c =? 91), (c =? 116), (c =? 102), (c =? 110); try done;
      try (destruct (_ <=? _); [done|]; destruct (byte_is _ _); [done|]); rewrite ?IHm, ?IHe by lia; done.
  - apply bind_ext. intros r1 H1%byte_is_length. apply bind_ext. intros [k r2] H2%string_lit_length.
    apply bind_ext. intros r3 H3%byte_is_length. pose proof (skip_length bs). pose proof (skip_length r2). rewrite IHv by lia.
    apply bind_ext. intros [v r4] H4. rewrite <- IHv in H4 by lia. apply Sv in H4. pose proof (skip_length r4).
    destruct (skip r4) as [|c r5]; [done|]. cbn [length] in *. destruct (c =? 44); [|done]. by rewrite IHm by lia.
  - rewrite IHv by lia. apply bind_ext. intros [v r4] H4. rewrite <- IHv in H4 by lia. apply Sv in H4. pose proof (skip_length r4).
    destruct (skip r4) as [|c r5]; [done|]. cbn [length] in *. destruct (c =? 44); [|done]. by rewrite IHe by lia.
Qed.

Lemma parse_fuel_enough fuel bs : (2 * length bs + 2 <= fuel)%nat -> parse_fuel fuel bs = parse bs.
Proof. intros H. unfold parse, parse_fuel. by rewrite (proj1 (parser_fuel fuel (2 * length bs + 2)) 0 bs) by lia. Qed.
