(* ===== verification/JsonThms.v ===== *)
(** * JSON: what is printed is parsed, and what is quoted is unquoted *)

From S2P Require Import Prelude Utf8 Runes Duration Calendar Json.
Local Open Scope Z_scope.

(** ** Well-formed values *)
Section jvalue_ind'.
Context (P : jvalue -> Prop).
Context (HNull : P JNull) (HBool : forall b, P (JBool b)) (HNum : forall raw, P (JNum raw)) (HStr : forall raw, P (JStr raw)).
Context (HArr : forall l, Forall P l -> P (JArr l)) (HObj : forall l, Forall (fun kv => P kv.2) l -> P (JObj l)).
Fixpoint jvalue_ind' (v : jvalue) : P v :=
  match v with
  | JNull => HNull
  | JBool b => HBool b
  | JNum raw => HNum raw
  | JStr raw => HStr raw
  | JArr l => HArr l ((fix go l := match l return Forall P l with [] => Forall_nil_2 _ | v :: l => Forall_cons_2 _ _ _ (jvalue_ind' v) (go l) end) l)
  | JObj l => HObj l ((fix go l := match l return Forall (fun kv => P kv.2) l with [] => Forall_nil_2 _ | kv :: l => Forall_cons_2 _ _ _ (jvalue_ind' kv.2) (go l) end) l)
  end.
End jvalue_ind'.

(** A string, a number as they may be spelt. *)
Definition raw_ok (raw : list Z) : Prop := string_lit (raw ++ [34]) = Some (raw, []).
Definition num_ok (raw : list Z) : Prop := number_lit raw = Some (raw, []).
Fixpoint wf (v : jvalue) : Prop :=
  match v with
  | JNull | JBool _ => True
  | JNum raw => num_ok raw
  | JStr raw => raw_ok raw
  | JArr l => foldr (fun v Q => wf v /\ Q) True l
  | JObj l => foldr (fun '(k, v) Q => (raw_ok k /\ wf v) /\ Q) True l
  end.
Fixpoint nest (v : jvalue) : Z :=
  match v with
  | JArr l => 1 + foldr (fun v n => Z.max (nest v) n) 0 l
  | JObj l => 1 + foldr (fun '(_, v) n => Z.max (nest v) n) 0 l
  | _ => 0
  end.

(** ** What follows a token *)
Lemma string_lit_app bs x r s : string_lit bs = Some (x, r) -> string_lit (bs ++ s) = Some (x, r ++ s).
Proof.
  revert x r. induction bs as [bs IH] using (induction_ltof1 _ (@length Z)); unfold ltof in IH. intros x r.
  assert (Hlater : forall bs' f, (length bs' < length bs)%nat ->
    ('(raw, rest) ← string_lit bs'; Some (f raw, rest)) = Some (x, r) ->
    ('(raw, rest) ← string_lit (bs' ++ s); Some (f raw, rest)) = Some (x, r ++ s)).
  { intros bs' f Hlt ([raw rest] & H & [= <- <-])%bind_Some. by rewrite (IH _ Hlt _ _ H). }
  destruct bs as [|c bs]; [done|]. cbn [string_lit app].
  destruct (c =? 34); [by intros [= <- <-]|]. destruct (c =? 92); [|destruct (c <? 32); [done|]; apply (Hlater bs (cons c)); simpl; lia].
  destruct bs as [|e bs]; [done|]. cbn [app]. destruct (e =? 117).
  - destruct bs as [|h3 [|h2 [|h1 [|h0 bs]]]]; try done. cbn [app]. destruct (forallb is_hex _); [|done].
    apply (Hlater bs (fun raw => 92 :: e :: h3 :: h2 :: h1 :: h0 :: raw)). simpl. lia.
  - destruct (existsb _ _); [|done]. apply (Hlater bs (fun raw => 92 :: e :: raw)). simpl. lia.
Qed.
Lemma raw_ok_app raw s : raw_ok raw -> string_lit (raw ++ 34 :: s) = Some (raw, s).
Proof. intros H. apply (string_lit_app _ _ _ s) in H. by rewrite <- app_assoc in H. Qed.

(** A byte that cannot go on a number. *)
Definition stop (s : list Z) : Prop :=
  match s with c :: _ => digit c = false /\ c <> 46 /\ c <> 101 /\ c <> 69 | [] => True end.

Lemma stop_no_digit s : stop s -> no_digit s.
Proof. destruct s as [|c s]; [done|]. by intros [? _]. Qed.
Lemma digits1_app s ds r t : digits1 s = Some (ds, r) -> (r = [] -> no_digit t) -> digits1 (s ++ t) = Some (ds, r ++ t).
Proof.
  intros (-> & Hd & Hne & Hr)%digits1_spec Ht. unfold digits1. rewrite <- app_assoc, span_digits_app; [|done|].
  - by destruct ds.
  - destruct r as [|c r]; [by apply Ht | done].
Qed.
Lemma num_sign_app s x r t : num_sign s = (x, r) -> s <> [] -> num_sign (s ++ t) = (x, r ++ t).
Proof. destruct s as [|c s]; [done|]. simpl. destruct (c =? 45); by intros [= <- <-]. Qed.
Lemma exp_sign_app s x r t : exp_sign s = (x, r) -> s <> [] -> exp_sign (s ++ t) = (x, r ++ t).
Proof. destruct s as [|c s]; [done|]. simpl. destruct (_ || _); by intros [= <- <-]. Qed.
Lemma num_int_app s x r t : num_int s = Some (x, r) -> (r = [] -> stop t) -> num_int (s ++ t) = Some (x, r ++ t).
Proof.
  intros H Ht. destruct s as [|c s]; [done|]. cbn [num_int app] in *. destruct (c =? 48); [by injection H as <- <-|].
  apply (digits1_app (c :: s)); [done|]. intros E. by apply stop_no_digit, Ht.
Qed.
Lemma num_frac_app s x r t : num_frac s = Some (x, r) -> (r = [] -> stop t) -> num_frac (s ++ t) = Some (x, r ++ t).
Proof.
  intros H Ht. destruct s as [|c s].
  - injection H as <- <-. specialize (Ht eq_refl). destruct t as [|c t]; [done|]. destruct Ht as (_ & H & _). simpl. by rewrite (proj2 (Z.eqb_neq c 46)).
  - cbn [num_frac app] in *. destruct (c =? 46); [|by injection H as <- <-]. apply bind_Some in H as ([ds r'] & H & [= <- <-]).
    rewrite (digits1_app _ _ _ t H); [done|]. intros E. by apply stop_no_digit, Ht.
Qed.
Lemma num_exp_app s x r t : num_exp s = Some (x, r) -> (r = [] -> stop t) -> num_exp (s ++ t) = Some (x, r ++ t).
Proof.
  intros H Ht. destruct s as [|c s].
  - injection H as <- <-. specialize (Ht eq_refl). destruct t as [|c t]; [done|]. destruct Ht as (_ & _ & H1 & H2). simpl.
    by rewrite (proj2 (Z.eqb_neq c 101)), (proj2 (Z.eqb_neq c 69)).
  - cbn [num_exp app] in *. destruct (_ || _); [|by injection H as <- <-]. destruct (exp_sign s) as [sg r1] eqn:E.
    apply bind_Some in H as ([ds r'] & H & [= <- <-]).
    assert (Hs : s <> []) by (intros ->; injection E as <- <-; done). rewrite (exp_sign_app _ _ _ t E Hs).
    rewrite (digits1_app _ _ _ t H); [done|]. intros E'. by apply stop_no_digit, Ht.
Qed.
Lemma number_lit_app raw t : num_ok raw -> stop t -> number_lit (raw ++ t) = Some (raw, t).
Proof.
  unfold num_ok, number_lit. intros H Ht. destruct (num_sign raw) as [sg s1] eqn:E1.
  apply bind_Some in H as ([i s2] & H2 & ([f s3] & H3 & ([e s4] & H4 & [= Hraw ->])%bind_Some)%bind_Some).
  assert (Hne : raw <> []) by (intros ->; injection E1 as <- <-; done).
  rewrite (num_sign_app _ _ _ t E1 Hne), (num_int_app _ _ _ t H2). 2: { intros ->. done. }
  cbn [mbind option_bind]. rewrite (num_frac_app _ _ _ t H3) by done. cbn [mbind option_bind].
  rewrite (num_exp_app _ _ _ t H4) by done. cbn [mbind option_bind]. by rewrite Hraw.
Qed.

(** ** What is printed is parsed *)
Lemma byte_is_same c r : byte_is c (c :: r) = Some r.
Proof. simpl. by rewrite Z.eqb_refl. Qed.
Lemma digit_spec c : digit c = true <-> 48 <= c <= 57.
Proof. apply between_spec. Qed.

Lemma num_head raw : num_ok raw -> exists c r, raw = c :: r /\ (c = 45 \/ 48 <= c <= 57).
Proof.
  unfold num_ok, number_lit. destruct raw as [|c raw]; [done|]. intros H. exists c, raw. split; [done|].
  cbn [num_sign] in H. destruct (Z.eqb_spec c 45) as [|Hc]; [by left|]. right.
  apply bind_Some in H as ([i s] & H & _). cbn [num_int] in H. destruct (Z.eqb_spec c 48) as [|]; [lia|].
  apply digits1_spec in H as (E & Hd & Hne & _). destruct i as [|x i]; [done|]. injection E as <- _.
  apply Forall_inv in Hd. by apply digit_spec.
Qed.

Lemma is_ws_spec c : is_ws c = false <-> c <> 32 /\ c <> 9 /\ c <> 13 /\ c <> 10.
Proof. unfold is_ws. cbn [existsb]. rewrite !orb_false_iff, !Z.eqb_neq. by split; [intros (? & ? & ? & ? & _)|intros (? & ? & ? & ?)]. Qed.
Lemma skip_head c r : is_ws c = false -> skip (c :: r) = c :: r.
Proof. intros H. simpl. by rewrite H. Qed.

Lemma print_head v : wf v -> exists c r, print v = c :: r /\ is_ws c = false /\ c <> 93 /\ c <> 125.
Proof.
  destruct v as [|b|raw|raw|l|l]; intros Hwf; simpl print; try (by eexists _, _).
  - destruct b; by eexists _, _.
  - destruct (num_head raw Hwf) as (c & r & -> & Hc). exists c, r. split; [done|]. rewrite is_ws_spec. lia.
Qed.

Definition printed (v : jvalue) : Prop := wf v -> forall fuel d rest,
  (2 * length (print v) + 1 <= fuel)%nat -> d + nest v <= maxNestingDepth -> stop rest ->
  value fuel d (print v ++ rest) = Some (v, rest).

(** The nesting inside a list. *)
Definition nest_list (l : list jvalue) : Z := foldr (fun v n => Z.max (nest v) n) 0 l.
Definition nest_members (l : list (list Z * jvalue)) : Z := foldr (fun '(_, v) n => Z.max (nest v) n) 0 l.
Definition print_member (kv : list Z * jvalue) : list Z := 34 :: kv.1 ++ 34 :: 58 :: print kv.2.
Lemma print_obj l : print (JObj l) = 123 :: sep (map print_member l) ++ [125].
Proof. simpl. do 3 f_equal. apply map_ext. by intros []. Qed.

Lemma sep_map {A} (f : A -> list Z) x y l : sep (map f (x :: y :: l)) = f x ++ 44 :: sep (map f (y :: l)).
Proof. done. Qed.

Lemma printed_elements l : Forall printed l -> l <> [] -> foldr (fun v Q => wf v /\ Q) True l -> forall fuel d rest,
  (2 * length (sep (map print l)) + 2 <= fuel)%nat -> d + nest_list l <= maxNestingDepth ->
  elements fuel d (sep (map print l) ++ 93 :: rest) = Some (l, rest).
Proof.
  induction 1 as [|v l Hv _ IH]; intros Hne Hwf fuel d rest Hf Hd; [done|]. destruct Hwf as [Hwv Hwl].
  cbn [nest_list foldr] in Hd. fold (nest_list l) in Hd. destruct fuel as [|fuel]; [lia|]. cbn [elements].
  destruct l as [|v' l].
  - cbn [sep map] in *. rewrite (Hv Hwv) by (done || lia). done.
  - rewrite sep_map in Hf |- *. rewrite length_app in Hf. cbn [length] in Hf.
    rewrite <- app_assoc. rewrite (Hv Hwv) by (done || lia). cbn [mbind option_bind skip app]. change (is_ws 44) with false. cbn iota.
    change (44 =? 44) with true. cbn iota. rewrite IH by (done || lia). done.
Qed.

Lemma printed_members l : Forall (fun kv => printed kv.2) l -> l <> [] -> foldr (fun '(k, v) Q => (raw_ok k /\ wf v) /\ Q) True l -> forall fuel d rest,
  (2 * length (sep (map print_member l)) + 2 <= fuel)%nat -> d + nest_members l <= maxNestingDepth ->
  members fuel d (sep (map print_member l) ++ 125 :: rest) = Some (l, rest).
Proof.
  induction 1 as [|[k v] l Hv _ IH]; intros Hne Hwf fuel d rest Hf Hd; [done|]. destruct Hwf as [[Hk Hwv] Hwl]. cbn [snd] in Hv.
  cbn [nest_members foldr] in Hd. fold (nest_members l) in Hd. destruct fuel as [|fuel]; [lia|]. cbn [members].
  assert (Hstep : forall t, (2 * length (print v) + 1 <= fuel)%nat -> stop t ->
    (r ← byte_is 34 (skip (print_member (k, v) ++ t)); '(k, r) ← string_lit r; r ← byte_is 58 (skip r); '(v, r) ← value fuel d r; Some (k, v, r)) = Some (k, v, t)).
  { intros t Hf' Ht. unfold print_member. cbn [fst snd app skip]. change (is_ws 34) with false. cbn iota. rewrite byte_is_same.
    cbn [mbind option_bind]. rewrite <- app_assoc. cbn [app]. rewrite raw_ok_app by done. cbn [mbind option_bind skip]. change (is_ws 58) with false. cbn iota.
    rewrite byte_is_same. cbn [mbind option_bind]. rewrite (Hv Hwv) by (done || lia). done. }
  assert (Hlen : length (print_member (k, v)) = (length k + length (print v) + 3)%nat) by (unfold print_member; simpl; rewrite length_app; simpl; lia).
  assert (Hgo : forall t, (2 * length (print v) + 1 <= fuel)%nat -> stop t -> forall g : list Z -> jvalue -> list Z -> option (list (list Z * jvalue) * list Z),
    (r ← byte_is 34 (skip (print_member (k, v) ++ t)); '(k, r) ← string_lit r; r ← byte_is 58 (skip r); '(v, r) ← value fuel d r; g k v r) = g k v t).
  { intros t Hf' Ht g. specialize (Hstep t Hf' Ht). destruct (byte_is 34 _) as [r1|]; [|done]. cbn [mbind option_bind] in *.
    destruct (string_lit r1) as [[k' r2]|]; [|done]. cbn [mbind option_bind] in *. destruct (byte_is 58 _) as [r3|]; [|done]. cbn [mbind option_bind] in *.
    destruct (value fuel d r3) as [[v' r4]|]; [|done]. by injection Hstep as -> -> ->. }
  destruct l as [|kv' l].
  - cbn [sep map] in *. rewrite Hgo by (done || lia). done.
  - rewrite sep_map in Hf |- *. rewrite length_app in Hf. cbn [length] in Hf. rewrite <- app_assoc. rewrite Hgo by (done || lia).
    cbn [app skip]. change (is_ws 44) with false. cbn iota. change (44 =? 44) with true. cbn iota.
    rewrite IH by (done || lia). done.
Qed.

Lemma print_value v : printed v.
Proof.
  induction v as [|b|raw|raw|l IH|l IH] using jvalue_ind'; intros Hwf fuel d rest Hf Hd Hs; destruct fuel as [|fuel]; try lia.
  - done.
  - by destruct b.
  - destruct (num_head raw Hwf) as (c & r & E & Hc). cbn [print value].
    assert (Hw : is_ws c = false) by (rewrite is_ws_spec; lia). assert (Eapp : raw ++ rest = c :: (r ++ rest)) by (by rewrite E).
    rewrite Eapp, (skip_head c) by done. rewrite (proj2 (Z.eqb_neq c 34)), (proj2 (Z.eqb_neq c 123)), (proj2 (Z.eqb_neq c 91)), (proj2 (Z.eqb_neq c 116)),
      (proj2 (Z.eqb_neq c 102)), (proj2 (Z.eqb_neq c 110)) by lia. rewrite <- Eapp, number_lit_app by done. done.
  - cbn [print value app skip]. change (is_ws 34) with false. cbn iota. change (34 =? 34) with true. cbn iota.
    rewrite <- app_assoc. cbn [app]. by rewrite raw_ok_app.
  - cbn [nest] in Hd. fold (nest_list l) in Hd. cbn [print value app skip]. change (is_ws 91) with false. cbn iota.
    change (91 =? 34) with false. change (91 =? 123) with false. change (91 =? 91) with true. cbn iota.
    assert (H0 : 0 <= nest_list l) by (clear; induction l as [|v l IH]; simpl; [lia|]; fold (nest_list l); lia).
    rewrite (proj2 (Z.leb_gt maxNestingDepth d)) by lia. destruct l as [|v l]; [done|].
    assert (Hnot : byte_is 93 (skip ((sep (map print (v :: l)) ++ [93]) ++ rest)) = None).
    { destruct Hwf as [Hv _]. destruct (print_head v Hv) as (c & r & E & Hw & Hc & _). destruct l as [|v' l]; cbn [map sep]; rewrite E; cbn [app skip]; rewrite Hw;
        unfold byte_is; by rewrite (proj2 (Z.eqb_neq c 93)). }
    rewrite Hnot. rewrite <- app_assoc. cbn [app].
    rewrite printed_elements; [done|done|done|done| |lia]. cbn [print length] in Hf. rewrite length_app in Hf. simpl in Hf |- *. lia.
  - cbn [nest] in Hd. fold (nest_members l) in Hd. rewrite print_obj in *. cbn [value app skip]. change (is_ws 123) with false. cbn iota.
    change (123 =? 34) with false. change (123 =? 123) with true. cbn iota.
    assert (H0 : 0 <= nest_members l) by (clear; induction l as [|[k v] l IH]; simpl; [lia|]; fold (nest_members l); lia).
    rewrite (proj2 (Z.leb_gt maxNestingDepth d)) by lia. destruct l as [|kv l]; [done|].
    assert (Hnot : byte_is 125 (skip ((sep (map print_member (kv :: l)) ++ [125]) ++ rest)) = None) by (by destruct l).
    rewrite Hnot. rewrite <- app_assoc. cbn [app].
    rewrite printed_members; [done|done|done|done| |lia]. cbn [length] in Hf. rewrite length_app in Hf. simpl in Hf |- *. lia.
Qed.

(** Any value within the nesting limit, printed, is parsed back. *)
Theorem parse_print v : wf v -> nest v <= maxNestingDepth -> parse (print v) = Some v.
Proof.
  intros Hwf Hn. unfold parse, parse_fuel. rewrite <- (app_nil_r (print v)) at 2. rewrite print_value by (done || lia). done.
Qed.

(** ** Quoting *)

(** What is written for one rune. *)
Definition quote_rune (c : Z) : list Z :=
  if between 0 127 c then escape_byte c
  else if (c =? 8232) || (c =? 8233) then u_escape c else encode_rune c.

Lemma quote_fuel_enough n m bs : (length bs <= n)%nat -> (length bs <= m)%nat -> quote_fuel n bs = quote_fuel m bs.
Proof.
  revert m bs. induction n as [|n IH]; intros m bs Hn Hm; [destruct bs; [by destruct m | simpl in Hn; lia]|].
  destruct bs as [|b bs]; [by destruct m|]. destruct m as [|m]; [simpl in Hm; lia|]. cbn [quote_fuel length] in *.
  destruct (between 0 127 b); [f_equal; apply IH; lia|]. destruct (decode (b :: bs)) as [[r w]|] eqn:E; f_equal; [|apply IH; lia].
  apply decode_width in E. apply IH; rewrite length_drop; cbn [length] in *; lia.
Qed.

Lemma quote_body_rune bs c w : decode bs = Some (c, w) -> quote_body bs = quote_rune c ++ quote_body (drop w bs).
Proof.
  intros E. destruct bs as [|b bs]; [done|]. unfold quote_body at 1, quote_rune. cbn [length quote_fuel].
  pose proof (decode_width _ _ _ E) as Hw. destruct (encode_decode _ _ _ E) as [Ee _].
  destruct (between 0 127 b) eqn:Eb.
  - unfold decode in E. rewrite Eb in E. injection E as <- <-. by rewrite Eb.
  - assert (Hc : between 0 127 c = false).
    { destruct (between 0 127 c) eqn:Hc; [|done]. unfold encode_rune in Ee. rewrite Hc in Ee. destruct w; [lia|]. injection Ee as -> _. congruence. }
    rewrite E, Hc. f_equal; [by destruct (_ || _)|]. apply quote_fuel_enough; rewrite length_drop; cbn [length] in *; lia.
Qed.
Lemma quote_body_bad b bs : decode (b :: bs) = None -> quote_body (b :: bs) = u_escape RuneError ++ quote_body bs.
Proof.
  intros E. unfold quote_body at 1. cbn [length quote_fuel]. rewrite E. destruct (between 0 127 b) eqn:Eb; [|done].
  unfold decode in E. by rewrite Eb in E.
Qed.

Lemma hex_of n : 0 <= n < 16 -> hexval (hexdigit n) = Some n.
Proof.
  intros H. unfold hexval, hexdigit. destruct (Z.ltb_spec n 10).
  - rewrite (proj2 (between_spec 48 57 _)) by lia. f_equal. lia.
  - rewrite (proj2 (between_false 48 57 _)), (proj2 (between_spec 97 102 _)) by lia. f_equal. lia.
Qed.
Lemma is_hex_of n : is_hex (hexdigit (n mod 16)) = true.
Proof. unfold is_hex. rewrite hex_of; [done | apply Z.mod_pos_bound; lia]. Qed.

(** Bytes that a string literal takes in as they are. *)
Definition token (t : list Z) : Prop :=
  forall s, string_lit (t ++ s) = '(raw, rest) ← string_lit s; Some (t ++ raw, rest).

Lemma token_nil : token [].
Proof. intros s. simpl. by destruct (string_lit s) as [[]|]. Qed.
Lemma token_app t u : token t -> token u -> token (t ++ u).
Proof.
  intros Ht Hu s. rewrite <- app_assoc, Ht, Hu. destruct (string_lit s) as [[raw rest]|]; [|done]. simpl. by rewrite app_assoc.
Qed.
Lemma token_plain b : 32 <= b -> b <> 34 -> b <> 92 -> token [b].
Proof.
  intros H1 H2 H3 s. cbn [app string_lit]. rewrite (proj2 (Z.eqb_neq b 34)), (proj2 (Z.eqb_neq b 92)), (proj2 (Z.ltb_ge b 32)) by lia. done.
Qed.
Lemma token_high t : Forall (fun b => 128 <= b) t -> token t.
Proof.
  induction 1 as [|b t Hb _ IH]; [apply token_nil|]. apply (token_app [b]); [apply token_plain; lia | done].
Qed.
Lemma token_escape e : existsb (Z.eqb e) [34; 92; 47; 98; 102; 110; 114; 116] = true -> token [92; e].
Proof.
  intros H s. cbn [app string_lit]. change (92 =? 34) with false. change (92 =? 92) with true. cbn iota. rewrite H.
  destruct (Z.eqb_spec e 117) as [->|]; [done|]. done.
Qed.
Lemma token_u_escape r : token (u_escape r).
Proof.
  intros s. unfold u_escape. cbn [app string_lit forallb]. change (92 =? 34) with false. change (92 =? 92) with true. change (117 =? 117) with true. cbn iota.
  by rewrite !is_hex_of.
Qed.

Lemma html_safe_spec b : html_safe b = true -> 32 <= b <= 127 /\ b <> 34 /\ b <> 38 /\ b <> 60 /\ b <> 62 /\ b <> 92.
Proof.
  unfold html_safe. rewrite andb_true_iff, negb_true_iff, between_spec. cbn [existsb]. rewrite !orb_false_iff, !Z.eqb_neq.
  intros (H & ? & ? & ? & ? & ? & _). done.
Qed.

Lemma short_escape_spec b e : short_escape b = Some e ->
  (b = 8 /\ e = 98) \/ (b = 12 /\ e = 102) \/ (b = 10 /\ e = 110) \/ (b = 13 /\ e = 114) \/ (b = 9 /\ e = 116).
Proof.
  unfold short_escape. destruct (Z.eqb_spec b 8), (Z.eqb_spec b 12), (Z.eqb_spec b 10), (Z.eqb_spec b 13), (Z.eqb_spec b 9); intros [= <-]; auto 10.
Qed.

Lemma encode_high c : scalar c -> between 0 127 c = false -> Forall (fun b => 128 <= b) (encode_rune c).
Proof.
  intros [Hc Hs] H0. unfold encode_rune. rewrite H0, Hs. apply between_false in H0.
  destruct (between 128 2047 c) eqn:E; [apply between_spec in E | apply between_false in E].
  - repeat constructor; Z.div_mod_to_equations; lia.
  - rewrite (proj2 (between_spec 2048 1114111 c)) by lia. cbn [orb negb].
    destruct (Z.leb_spec c 65535); repeat constructor; Z.div_mod_to_equations; lia.
Qed.

Lemma token_escape_byte b : token (escape_byte b).
Proof.
  unfold escape_byte. destruct (html_safe b) eqn:E; [apply html_safe_spec in E; apply token_plain; lia|].
  destruct ((b =? 34) || (b =? 92)) eqn:E1.
  - apply token_escape. cbn [existsb]. apply orb_true_iff in E1 as [-> | ->]; [done | by rewrite !orb_true_r].
  - destruct (short_escape b) as [e|] eqn:E2; [|apply token_u_escape]. apply token_escape.
    by apply short_escape_spec in E2 as [[_ ->]|[[_ ->]|[[_ ->]|[[_ ->]|[_ ->]]]]].
Qed.
Lemma token_rune c : scalar c -> token (quote_rune c).
Proof.
  intros Hc. unfold quote_rune. destruct (between 0 127 c) eqn:E; [apply token_escape_byte|].
  destruct (_ || _); [apply token_u_escape | by apply token_high, encode_high].
Qed.
Lemma token_quote bs : token (quote_body bs).
Proof.
  induction bs as [|bs r w E IH|b bs E IH] using rune_ind; [apply token_nil| |].
  - rewrite (quote_body_rune _ _ _ E). apply token_app; [apply token_rune; by apply encode_decode in E as [_ ?] | done].
  - rewrite quote_body_bad by done. apply token_app; [apply token_u_escape | done].
Qed.

(** What is quoted is a string literal. *)
Lemma quote_raw_ok bs : raw_ok (quote_body bs).
Proof. unfold raw_ok. rewrite token_quote. simpl. by rewrite app_nil_r. Qed.

(** ** Unquoting *)
Lemma surrogate_pair_width r rest : let '(_, w) := surrogate_pair r rest in (6 <= w)%nat.
Proof. unfold surrogate_pair. destruct (getu4 rest); [|lia]. destruct (_ && _); lia. Qed.

Lemma unquote_fuel_enough n m bs : (length bs <= n)%nat -> (length bs <= m)%nat -> unquote_fuel n bs = unquote_fuel m bs.
Proof.
  revert m bs. induction n as [|n IH]; intros m bs Hn Hm; [destruct bs; [by destruct m | simpl in Hn; lia]|].
  destruct bs as [|b bs]; [by destruct m|]. destruct m as [|m]; [simpl in Hm; lia|]. cbn [unquote_fuel].
  assert (Hdrop : forall w, (1 <= w)%nat -> unquote_fuel n (drop w (b :: bs)) = unquote_fuel m (drop w (b :: bs))).
  { intros w Hw. apply IH; rewrite length_drop; simpl in *; lia. }
  destruct (b =? 92).
  - destruct bs as [|e bs]; [done|]. destruct (e =? 117).
    + destruct (getu4 (b :: e :: bs)) as [u|]; [|done]. pose proof (surrogate_pair_width u (drop 6 (b :: e :: bs))) as Hw.
      destruct (surrogate u); [destruct (surrogate_pair _ _) as [c w]|]; f_equal; apply Hdrop; lia.
    + f_equal. apply IH; simpl in *; lia.
  - destruct (decode (b :: bs)) as [[r w]|] eqn:E; f_equal; [apply Hdrop; by apply decode_width in E as [[? _] _] | apply IH; simpl in *; lia].
Qed.

Lemma unquote_step n bs : (length bs <= n)%nat -> unquote_fuel n bs = unquote bs.
Proof. intros H. by apply unquote_fuel_enough. Qed.

(** A piece that is read as [u], whatever follows. *)
Definition means (t u : list Z) : Prop := forall s, unquote (t ++ s) = u ++ unquote s.

Lemma means_nil : means [] [].
Proof. done. Qed.
Lemma means_app t t' u u' : means t u -> means t' u' -> means (t ++ t') (u ++ u').
Proof. intros H H' s. by rewrite <- !app_assoc, H, H'. Qed.
Lemma means_rune c : scalar c -> c <> 92 -> means (encode_rune c) (encode_rune c).
Proof.
  intros Hc H92 s. pose proof (decode_encode c s Hc) as E. destruct (encode_rune c ++ s) as [|b bs] eqn:Eb; [done|].
  unfold unquote at 1. cbn [length unquote_fuel]. rewrite E. rewrite (proj2 (Z.eqb_neq b 92)).
  - rewrite <- Eb, take_app_length, drop_app_length. f_equal. apply unquote_step.
    apply (f_equal length) in Eb. rewrite length_app in Eb. cbn [length] in Eb. apply decode_width in E. lia.
  - intros ->. unfold decode in E. change (between 0 127 92) with true in E. by injection E as <- _.
Qed.
Lemma means_escape e : e <> 117 ->
  means [92; e] [if e =? 98 then 8 else if e =? 102 then 12 else if e =? 110 then 10 else if e =? 114 then 13 else if e =? 116 then 9 else e].
Proof.
  intros H s. unfold unquote at 1. cbn [app length]. remember (S (length s)) as n eqn:En. cbn [unquote_fuel].
  change (92 =? 92) with true. cbn iota. rewrite (proj2 (Z.eqb_neq e 117)) by done. rewrite unquote_step by lia. done.
Qed.
Lemma getu4_u_escape r s : 0 <= r < 65536 -> getu4 (u_escape r ++ s) = Some r.
Proof.
  intros H. unfold u_escape. cbn [app getu4]. change ((92 =? 92) && (117 =? 117)) with true. cbn iota.
  rewrite !hex_of by (apply Z.mod_pos_bound; lia). cbn [mbind option_bind]. f_equal. Z.div_mod_to_equations. lia.
Qed.
Lemma means_u_escape r : scalar r -> r < 65536 -> means (u_escape r) (encode_rune r).
Proof.
  intros [Hr Hs] Hlt s. unfold unquote at 1. pose proof (getu4_u_escape r s ltac:(lia)) as E. unfold u_escape in *. cbn [app length] in *.
  remember (S (S (S (S (S (length s)))))) as n eqn:En. cbn [unquote_fuel].
  change (92 =? 92) with true. change (117 =? 117) with true. cbn iota. rewrite E, Hs. rewrite unquote_step by (rewrite length_drop; simpl; lia). done.
Qed.

Lemma scalar_ascii b : 0 <= b <= 127 -> scalar b.
Proof. intros H. split; [lia|]. apply between_false. lia. Qed.

Lemma means_quote_rune c : scalar c -> means (quote_rune c) (encode_rune c).
Proof.
  intros Hc. unfold quote_rune. destruct (between 0 127 c) eqn:E.
  - assert (Ee : encode_rune c = [c]) by (unfold encode_rune; by rewrite E). unfold escape_byte.
    destruct (html_safe c) eqn:Es.
    { apply html_safe_spec in Es. pose proof (means_rune c Hc ltac:(lia)) as H. by rewrite Ee in *. }
    destruct ((c =? 34) || (c =? 92)) eqn:E1.
    { apply orb_true_iff in E1. rewrite !Z.eqb_eq in E1. rewrite Ee. destruct E1 as [-> | ->]; by apply means_escape. }
    destruct (short_escape c) as [e|] eqn:E2.
    { rewrite Ee. by apply short_escape_spec in E2 as [[-> ->]|[[-> ->]|[[-> ->]|[[-> ->]|[-> ->]]]]]; apply means_escape. }
    apply means_u_escape; [done|]. apply between_spec in E. lia.
  - destruct ((c =? 8232) || (c =? 8233)) eqn:E1.
    + apply orb_true_iff in E1. rewrite !Z.eqb_eq in E1. apply means_u_escape; [done | lia].
    + apply between_false in E. apply means_rune; [done | lia].
Qed.

(** What is quoted is read back, bad bytes as U+FFFD. *)
Theorem unquote_quote bs : unquote (quote_body bs) = to_valid bs.
Proof.
  rewrite <- (app_nil_r (quote_body bs)). rewrite <- (app_nil_r (to_valid bs)). change [] with (unquote []) at 2.
  apply (fun H : means (quote_body bs) (to_valid bs) => H []).
  induction bs as [|bs r w E IH|b bs E IH] using rune_ind; [apply means_nil| |].
  - rewrite (quote_body_rune _ _ _ E), (to_valid_rune _ _ _ E). destruct (encode_decode _ _ _ E) as [<- Hr].
    apply means_app; [by apply means_quote_rune | done].
  - rewrite quote_body_bad, to_valid_bad by done. apply means_app; [|done]. destruct replacement_rune as [-> Hr]. by apply means_u_escape.
Qed.

(** What is read is valid UTF-8, whatever was in the text. *)
Lemma surrogate_pair_scalar r rest : let '(c, _) := surrogate_pair r rest in scalar c.
Proof.
  unfold surrogate_pair. assert (HE : scalar RuneError) by (by apply replacement_rune). destruct (getu4 rest) as [r2|]; [|done].
  destruct (_ && _) eqn:E; [|done]. apply andb_true_iff in E as [H1%between_spec H2%between_spec].
  split; [lia|]. apply between_false. lia.
Qed.
Lemma hexval_range c d : hexval c = Some d -> 0 <= d < 16.
Proof.
  unfold hexval. destruct (between 48 57 c) eqn:E1; [apply between_spec in E1; intros [= <-]; lia|].
  destruct (between 97 102 c) eqn:E2; [apply between_spec in E2; intros [= <-]; lia|].
  destruct (between 65 70 c) eqn:E3; [apply between_spec in E3; intros [= <-]; lia | done].
Qed.
Lemma getu4_range bs u : getu4 bs = Some u -> 0 <= u < 65536.
Proof.
  unfold getu4. destruct bs as [|a [|b [|c3 [|c2 [|c1 [|c0 bs]]]]]]; try done. destruct (_ && _); [|done].
  intros (d3 & H3%hexval_range & (d2 & H2%hexval_range & (d1 & H1%hexval_range & (d0 & H0%hexval_range & [= <-])%bind_Some)%bind_Some)%bind_Some)%bind_Some.
  lia.
Qed.

Lemma raw_ok_nil : raw_ok [].
Proof. done. Qed.
Lemma raw_ok_plain b r : b <> 92 -> raw_ok (b :: r) -> raw_ok r.
Proof.
  unfold raw_ok. intros Hb. cbn [app string_lit]. destruct (Z.eqb_spec b 34) as [->|]; [by intros [= ]|].
  rewrite (proj2 (Z.eqb_neq b 92)) by done. destruct (b <? 32); [done|]. by intros ([raw rest] & H & [= -> ->])%bind_Some.
Qed.
Lemma raw_ok_high t r : Forall (fun b => 128 <= b) t -> raw_ok (t ++ r) -> raw_ok r.
Proof. induction 1 as [|b t Hb _ IH]; [done|]. intros H%raw_ok_plain; [by apply IH | lia]. Qed.
Lemma raw_ok_escape e r : e <> 117 -> raw_ok (92 :: e :: r) -> raw_ok r /\ existsb (Z.eqb e) [34; 92; 47; 98; 102; 110; 114; 116] = true.
Proof.
  unfold raw_ok. intros He. cbn [app string_lit]. change (92 =? 34) with false. change (92 =? 92) with true. cbn iota.
  rewrite (proj2 (Z.eqb_neq e 117)) by done. destruct (existsb _ _); [|done]. by intros ([raw rest] & H & [= -> ->])%bind_Some.
Qed.
Lemma raw_ok_u r : raw_ok (92 :: 117 :: r) -> is_Some (getu4 (92 :: 117 :: r)) /\ raw_ok (drop 4 r).
Proof.
  unfold raw_ok. cbn [app string_lit]. change (92 =? 34) with false. change (92 =? 92) with true. change (117 =? 117) with true. cbn iota.
  destruct r as [|h3 [|h2 [|h1 [|h0 r]]]]; try done; cbn [app].
  { by destruct (forallb is_hex _) eqn:E. }
  destruct (forallb is_hex _) eqn:E; [|done]. intros ([raw rest] & H & [= -> ->])%bind_Some. split; [|done].
  cbn [forallb] in E. unfold is_hex in E. cbn [getu4]. change ((92 =? 92) && (117 =? 117)) with true. cbn iota.
  destruct (hexval h3), (hexval h2), (hexval h1), (hexval h0); done.
Qed.
Lemma getu4_head bs u : getu4 bs = Some u -> exists r, bs = 92 :: 117 :: r /\ (4 <= length r)%nat.
Proof.
  unfold getu4. destruct bs as [|a [|b [|c3 [|c2 [|c1 [|c0 bs]]]]]]; try done.
  destruct ((a =? 92) && (b =? 117)) eqn:E; [|done]. apply andb_true_iff in E as [->%Z.eqb_eq ->%Z.eqb_eq]. intros _. eexists. split; [done|]. simpl. lia.
Qed.

Theorem unquote_valid raw : raw_ok raw -> valid_utf8 (unquote raw) = true.
Proof.
  induction raw as [raw IH] using (induction_ltof1 _ (@length Z)); unfold ltof in IH. intros Hraw. destruct raw as [|b r]; [done|].
  unfold unquote. cbn [length]. remember (length r) as n eqn:En. cbn [unquote_fuel]. destruct (Z.eqb_spec b 92) as [->|Hb].
  - destruct r as [|e r2]; [done|]. cbn [length] in En. destruct (Z.eqb_spec e 117) as [->|He].
    + destruct (raw_ok_u _ Hraw) as [[u Hu] Hrest]. rewrite Hu. destruct (getu4_head _ _ Hu) as (r' & [= <-] & Hlen).
      pose proof (getu4_range _ _ Hu) as Hr. pose proof (surrogate_pair_scalar u (drop 6 (92 :: 117 :: r2))) as Hs.
      assert (Hc : exists c w, (if surrogate u then surrogate_pair u (drop 6 (92 :: 117 :: r2)) else (u, 6%nat)) = (c, w) /\ scalar c /\
        (6 <= w)%nat /\ raw_ok (drop w (92 :: 117 :: r2))).
      { destruct (surrogate u) eqn:Esur; [|exists u, 6%nat; split; [done|]; split; [split; [lia | done]|]; split; [lia | done]].
        unfold surrogate_pair in *. cbn [drop] in *. destruct (getu4 (drop 4 r2)) as [u2|] eqn:E2; [|by exists RuneError, 6%nat].
        destruct (_ && _); [|by exists RuneError, 6%nat]. eexists _, 12%nat. split; [done|]. split; [done|]. split; [lia|].
        destruct (getu4_head _ _ E2) as (r3 & E3 & _). rewrite E3 in Hrest. apply raw_ok_u in Hrest as [_ Hrest]. cbn [drop].
        replace (drop 10 r2) with (drop 6 (drop 4 r2)) by (by rewrite drop_drop). by rewrite E3. }
      destruct Hc as (c & w & -> & Hcs & Hw & Hok). rewrite valid_encode by done. rewrite unquote_step by (rewrite length_drop; simpl; lia).
      apply IH; [rewrite length_drop; simpl in *; lia | done].
    + destruct (raw_ok_escape _ _ He Hraw) as [Hok Hin]. rewrite unquote_step by lia. set (x := if e =? 98 then _ else _).
      assert (Hx : scalar x /\ encode_rune x = [x]).
      { cbn [existsb] in Hin. unfold x. repeat (apply orb_true_iff in Hin as [Hin%Z.eqb_eq|Hin]; [subst e; by repeat split|]). done. }
      destruct Hx as [Hx Ex]. change (x :: unquote r2) with ([x] ++ unquote r2). rewrite <- Ex, valid_encode by done.
      apply IH; [simpl; lia | done].
  - destruct (decode (b :: r)) as [[c w]|] eqn:E.
    + destruct (encode_decode _ _ _ E) as [Ee Hc]. rewrite <- Ee, valid_encode by done. pose proof (decode_width _ _ _ E) as Hw.
      rewrite unquote_step by (rewrite length_drop; simpl; lia). apply IH; [rewrite length_drop; simpl; lia|].
      destruct (between 0 127 c) eqn:E0.
      * assert (w = 1%nat) as ->; [|by apply (raw_ok_plain b)]. unfold encode_rune in Ee. rewrite E0 in Ee.
        apply (f_equal length) in Ee. rewrite length_take in Ee. simpl in Ee, Hw. lia.
      * apply (raw_ok_high (encode_rune c)); [by apply encode_high|]. by rewrite Ee, take_drop.
    + rewrite valid_replacement, unquote_step by lia. apply IH; [simpl; lia|]. by apply (raw_ok_plain b).
Qed.

(** ** What is parsed is well-formed *)
Lemma string_lit_raw_ok bs raw r : string_lit bs = Some (raw, r) -> raw_ok raw.
Proof.
  revert raw r. induction bs as [bs IH] using (induction_ltof1 _ (@length Z)); unfold ltof in IH. intros raw r.
  destruct bs as [|c bs]; [done|]. cbn [string_lit]. destruct (c =? 34) eqn:E34; [by intros [= <- <-]|].
  destruct (c =? 92) eqn:E92; [apply Z.eqb_eq in E92 as ->|destruct (c <? 32) eqn:E32; [done|]].
  - destruct bs as [|e bs]; [done|]. destruct (e =? 117) eqn:Ee; [apply Z.eqb_eq in Ee as ->|].
    + destruct bs as [|h3 [|h2 [|h1 [|h0 bs]]]]; try done. destruct (forallb is_hex _) eqn:Ex; [|done].
      intros ([raw' r'] & H & [= <- <-])%bind_Some. apply IH in H; [|simpl; lia]. unfold raw_ok in *. cbn [app string_lit].
      change (92 =? 34) with false. change (92 =? 92) with true. change (117 =? 117) with true. cbn iota. by rewrite Ex, H.
    + destruct (existsb _ _) eqn:Ex; [|done]. intros ([raw' r'] & H & [= <- <-])%bind_Some. apply IH in H; [|simpl; lia].
      unfold raw_ok in *. cbn [app string_lit]. change (92 =? 34) with false. change (92 =? 92) with true. cbn iota. by rewrite Ee, Ex, H.
  - intros ([raw' r'] & H & [= <- <-])%bind_Some. apply IH in H; [|simpl; lia]. unfold raw_ok in *. cbn [app string_lit].
    by rewrite E34, E92, E32, H.
Qed.

Definition starts (P : Z -> Prop) (s : list Z) : Prop := match s with c :: _ => P c | [] => True end.
Lemma digits1_again s ds r t : digits1 s = Some (ds, r) -> no_digit t -> digits1 (ds ++ t) = Some (ds, t).
Proof.
  intros (_ & Hd & Hne & _)%digits1_spec Ht. unfold digits1. rewrite span_digits_app by done. by destruct ds.
Qed.
Lemma num_exp_again s e r : num_exp s = Some (e, r) -> num_exp e = Some (e, []) /\ starts (fun c => c = 101 \/ c = 69) e.
Proof.
  destruct s as [|c s]; cbn [num_exp]; [by intros [= <- <-]|]. destruct ((c =? 101) || (c =? 69)) eqn:E; [|by intros [= <- <-]].
  destruct (exp_sign s) as [sg s'] eqn:Es. intros ([ds r'] & Hd & [= <- <-])%bind_Some. cbn [num_exp]. rewrite E.
  assert (exp_sign (sg ++ ds) = (sg, ds)) as ->.
  { destruct s as [|a s]; simpl in Es; [by injection Es as <- <-|]. destruct ((a =? 43) || (a =? 45)) eqn:Ea; injection Es as <- <-.
    - cbn [app exp_sign]. by rewrite Ea.
    - apply digits1_spec in Hd as (_ & Hd & Hne & _). destruct ds as [|x ds]; [done|]. apply Forall_inv, digit_spec in Hd.
      cbn [app exp_sign]. by rewrite !(proj2 (Z.eqb_neq x _)) by lia. }
  pose proof (digits1_again _ _ _ [] Hd I) as Hd'. rewrite app_nil_r in Hd'. rewrite Hd'. split; [done|].
  apply orb_true_iff in E. rewrite !Z.eqb_eq in E. exact E.
Qed.
Lemma num_frac_again s f r t : num_frac s = Some (f, r) -> starts (fun c => c = 101 \/ c = 69) t ->
  num_frac (f ++ t) = Some (f, t) /\ starts (fun c => digit c = false) (f ++ t).
Proof.
  intros H Ht. assert (Hnd : no_digit t) by (destruct t as [|c t]; [done|]; simpl in *; apply between_false; lia).
  destruct s as [|c s]; cbn [num_frac] in H; [injection H as <- <-|].
  2: destruct (Z.eqb_spec c 46) as [->|Hc]; [|injection H as <- <-].
  1, 3: split; [|done]; destruct t as [|x t]; [done|]; cbn [app num_frac]; simpl in Ht; by rewrite (proj2 (Z.eqb_neq x 46)) by lia.
  apply bind_Some in H as ([ds r'] & Hd & [= <- <-]). split; [|done]. cbn [app num_frac]. change (46 =? 46) with true. cbn iota.
  by rewrite (digits1_again _ _ _ _ Hd Hnd).
Qed.
Lemma num_int_again s i r t : num_int s = Some (i, r) -> starts (fun c => digit c = false) t ->
  num_int (i ++ t) = Some (i, t) /\ exists c l, i = c :: l /\ 48 <= c <= 57.
Proof.
  intros H Ht. destruct s as [|c s]; [done|]. cbn [num_int] in H. destruct (Z.eqb_spec c 48) as [->|Hc].
  { injection H as <- <-. split; [done|]. by exists 48, []. }
  pose proof (digits1_again _ _ _ t H Ht) as Hd. apply digits1_spec in H as (E & Hds & Hne & _). destruct i as [|x i]; [done|].
  injection E as <- _. apply Forall_inv, digit_spec in Hds. split; [|by exists c, i]. cbn [app num_int].
  by rewrite (proj2 (Z.eqb_neq c 48)) by lia.
Qed.
Lemma number_lit_num_ok s x r : number_lit s = Some (x, r) -> num_ok x.
Proof.
  unfold number_lit. destruct (num_sign s) as [sg s1] eqn:Es.
  intros ([i s2] & Hi & ([f s3] & Hf & ([e s4] & He & [= <- <-])%bind_Some)%bind_Some)%bind_Some.
  destruct (num_exp_again _ _ _ He) as [He' Hse]. destruct (num_frac_again _ _ _ e Hf Hse) as [Hf' Hsf].
  destruct (num_int_again _ _ _ _ Hi Hsf) as (Hi' & c & l & -> & Hc). unfold num_ok, number_lit.
  assert (num_sign (sg ++ (c :: l) ++ f ++ e) = (sg, (c :: l) ++ f ++ e)) as ->.
  { destruct s as [|a s]; simpl in Es; [by injection Es as <- <-|]. destruct (a =? 45); injection Es as <- <-; [done|].
    cbn [app num_sign]. by rewrite (proj2 (Z.eqb_neq c 45)) by lia. }
  by rewrite Hi', bind_Some_eq, Hf', bind_Some_eq, He', bind_Some_eq.
Qed.

Lemma parser_wf n :
  (forall d bs v r, value n d bs = Some (v, r) -> wf v /\ (d <= maxNestingDepth -> d + nest v <= maxNestingDepth)) /\
  (forall d bs l r, members n d bs = Some (l, r) -> wf (JObj l) /\ (d <= maxNestingDepth -> d + nest_members l <= maxNestingDepth)) /\
  (forall d bs l r, elements n d bs = Some (l, r) -> wf (JArr l) /\ (d <= maxNestingDepth -> d + nest_list l <= maxNestingDepth)).
Proof.
  induction n as [|n (IHv & IHm & IHe)]; [done|]. split; [|split]; intros d bs v r; cbn [value members elements].
  - destruct (skip bs) as [|c bs1]; [done|].
    destruct (c =? 34). { intros ([raw r'] & H%string_lit_raw_ok & [= <- <-])%bind_Some. split; [done|]. simpl. lia. }
    destruct (c =? 123). { destruct (Z.leb_spec maxNestingDepth d); [done|]. destruct (byte_is _ _) as [r'|].
      - intros [= <- <-]. split; [done|]. simpl. lia.
      - intros ([ms r'] & [Hw Hn]%IHm & [= <- <-])%bind_Some. split; [done|]. cbn [nest]. unfold nest_members in Hn. lia. }
    destruct (c =? 91). { destruct (Z.leb_spec maxNestingDepth d); [done|]. destruct (byte_is _ _) as [r'|].
      - intros [= <- <-]. split; [done|]. simpl. lia.
      - intros ([ms r'] & [Hw Hn]%IHe & [= <- <-])%bind_Some. split; [done|]. cbn [nest]. unfold nest_list in Hn. lia. }
    destruct (c =? 116). { intros (r' & _ & [= <- <-])%bind_Some. split; [done|]. simpl. lia. }
    destruct (c =? 102). { intros (r' & _ & [= <- <-])%bind_Some. split; [done|]. simpl. lia. }
    destruct (c =? 110). { intros (r' & _ & [= <- <-])%bind_Some. split; [done|]. simpl. lia. }
    intros ([raw r'] & H%number_lit_num_ok & [= <- <-])%bind_Some. split; [done|]. simpl. lia.
  - intros (r1 & _ & ([k r2] & Hk%string_lit_raw_ok & (r3 & _ & ([v' r4] & [Hw Hn]%IHv & H)%bind_Some)%bind_Some)%bind_Some)%bind_Some.
    destruct (skip r4) as [|c r5]; [done|]. destruct (c =? 44); [|destruct (c =? 125); [|done]; injection H as <- <-].
    + apply bind_Some in H as ([ms r6] & [Hw' Hn']%IHm & [= <- <-]). cbn [wf foldr]. split; [done|]. unfold nest_members in *. cbn [foldr]. lia.
    + split; [done|]. unfold nest_members. cbn [foldr]. lia.
  - intros ([v' r4] & [Hw Hn]%IHv & H)%bind_Some.
    destruct (skip r4) as [|c r5]; [done|]. destruct (c =? 44); [|destruct (c =? 93); [|done]; injection H as <- <-].
    + apply bind_Some in H as ([ms r6] & [Hw' Hn']%IHe & [= <- <-]). cbn [wf foldr]. split; [done|]. unfold nest_list in *. cbn [foldr]. lia.
    + split; [done|]. unfold nest_list. cbn [foldr]. lia.
Qed.

(** A text that parses gives a value that prints and parses to itself. *)
Lemma parse_wf bs v : parse bs = Some v -> wf v /\ nest v <= maxNestingDepth.
Proof.
  intros ([v' r] & H & Hr)%bind_Some. destruct (skip r); [|done]. injection Hr as <-.
  apply (proj1 (parser_wf _)) in H as [Hw Hn]. split; [done|]. apply Hn. unfold maxNestingDepth. lia.
Qed.
