(* ===== verification/Wire.v ===== *)
(** * Chat messages on the wire: [src/internal/chat/dto.go] and [writeJSON]

    [Marshal] is [json.Marshal] of a [Message] under its field tags, [Unmarshal]
    is [json.Unmarshal] into a zero [Message]: keys match without regard to
    case, the last of two equal keys counts, [null] leaves a field as it is, a
    value of another type is an error.  A time is its instant; its zone is not
    kept (the server writes UTC, and reads only the body). *)

From S2P Require Import Prelude Utf8 Runes Duration Calendar Json JsonThms Chan Hub.
Local Open Scope string_scope.
Local Open Scope Z_scope.

(** The largest frame read; a larger one ends the connection. *)
Definition maxMessageBytes : Z := 4 * 1024.

Definition zero_message : Message :=
  {| msg_ID := ""; msg_Type := ""; msg_User := ""; msg_Body := ""; msg_At := zeroTime; msg_Count := 0 |}.

(** ** Writing *)
Definition key (s : string) : list Z := bytes_of s.
Definition text (s : string) : jvalue := JStr (quote_body (bytes_of s)).

(** [omitempty], [omitzero] *)
Definition omitempty (k s : string) : list (list Z * jvalue) :=
  if String.eqb s "" then [] else [(key k, text s)].
Definition omitempty_int (k : string) (n : Z) : list (list Z * jvalue) :=
  if n =? 0 then [] else [(key k, JNum (Itoa n))].
Definition omitzero (k : string) (t : Z) : option (list (list Z * jvalue)) :=
  if t =? zeroTime then Some [] else s ← time_MarshalJSON t; Some [(key k, JStr s)].

Definition message_fields (m : Message) : option (list (list Z * jvalue)) :=
  at_ ← omitzero "at" (msg_At m);
  Some (omitempty "id" (msg_ID m) ++ omitempty "type" (msg_Type m) ++ omitempty "user" (msg_User m) ++
        [(key "body", text (msg_Body m))] ++ at_ ++ omitempty_int "count" (msg_Count m))%list.

Definition Marshal (m : Message) : option string :=
  l ← message_fields m; Some (string_of (print (JObj l))).

(** ** Reading *)
Inductive field := FID | FType | FUser | FBody | FAt | FCount.
Definition field_names : list (string * field) :=
  [("ID", FID); ("TYPE", FType); ("USER", FUser); ("BODY", FBody); ("AT", FAt); ("COUNT", FCount)].

(** The least rune equal to it but for case, where that is a letter A to Z:
    U+017F folds to S and U+212A to K. *)
Definition foldRune (r : Z) : Z :=
  if between 97 122 r then r - 32 else if r =? 383 then 83 else if r =? 8490 then 75 else r.
Definition foldName (bs : list Z) : list Z := map foldRune (runes bs).
Definition field_of (raw : list Z) : option field :=
  snd <$> List.find (fun p : string * field => bool_decide (bytes_of p.1 = foldName (unquote raw))) field_names.

(** [strconv.ParseInt(s, 10, 64)] of a JSON number. *)
Definition ParseInt (raw : list Z) : option Z :=
  let '(sg, ds) := num_sign raw in
  match span_digits ds with
  | ((_ :: _) as ds, []) =>
      let n := foldl (fun x c => x * 10 + (c - 48)) 0 ds in
      let n := if bool_decide (sg = []) then n else - n in
      if between (- 2 ^ 63) (2 ^ 63 - 1) n then Some n else None
  | _ => None
  end.

Definition set_ID (s : string) (m : Message) : Message :=
  {| msg_ID := s; msg_Type := msg_Type m; msg_User := msg_User m; msg_Body := msg_Body m; msg_At := msg_At m; msg_Count := msg_Count m |}.
Definition set_Type (s : string) (m : Message) : Message :=
  {| msg_ID := msg_ID m; msg_Type := s; msg_User := msg_User m; msg_Body := msg_Body m; msg_At := msg_At m; msg_Count := msg_Count m |}.
Definition set_User (s : string) (m : Message) : Message :=
  {| msg_ID := msg_ID m; msg_Type := msg_Type m; msg_User := s; msg_Body := msg_Body m; msg_At := msg_At m; msg_Count := msg_Count m |}.
Definition set_Body (s : string) (m : Message) : Message :=
  {| msg_ID := msg_ID m; msg_Type := msg_Type m; msg_User := msg_User m; msg_Body := s; msg_At := msg_At m; msg_Count := msg_Count m |}.
Definition set_At (t : Z) (m : Message) : Message :=
  {| msg_ID := msg_ID m; msg_Type := msg_Type m; msg_User := msg_User m; msg_Body := msg_Body m; msg_At := t; msg_Count := msg_Count m |}.
Definition set_Count (n : Z) (m : Message) : Message :=
  {| msg_ID := msg_ID m; msg_Type := msg_Type m; msg_User := msg_User m; msg_Body := msg_Body m; msg_At := msg_At m; msg_Count := n |}.

(** A value into the field its key names. *)
Definition store_field (f : field) (v : jvalue) (m : Message) : option Message :=
  match f, v with
  | _, JNull => Some m
  | FAt, JStr raw => t ← time_UnmarshalJSON raw; Some (set_At t m)
  | FCount, JNum raw => n ← ParseInt raw; Some (set_Count n m)
  | FID, JStr raw => Some (set_ID (string_of (unquote raw)) m)
  | FType, JStr raw => Some (set_Type (string_of (unquote raw)) m)
  | FUser, JStr raw => Some (set_User (string_of (unquote raw)) m)
  | FBody, JStr raw => Some (set_Body (string_of (unquote raw)) m)
  | _, _ => None
  end.

Fixpoint store_members (l : list (list Z * jvalue)) (m : Message) : option Message :=
  match l with
  | [] => Some m
  | (k, v) :: l => m ← match field_of k with Some f => store_field f v m | None => Some m end; store_members l m
  end.

Definition Unmarshal (data : string) : option Message :=
  v ← parse (bytes_of data);
  match v with JNull => Some zero_message | JObj l => store_members l zero_message | _ => None end.

Definition q (s : string) : string := string_of (map (fun b => if b =? 39 then 34 else b) (bytes_of s)).
Example wire_vectors :
  let m := {| msg_ID := "1"; msg_Type := KindMessage; msg_User := "ann"; msg_Body := "a<b"; msg_At := 1700000000500000000; msg_Count := 0 |} in
  Marshal m = Some (q "{'id':'1','type':'message','user':'ann','body':'a\u003cb','at':'2023-11-14T22:13:20.5Z'}") /\
  (Marshal m ≫= Unmarshal) = Some m /\
  Marshal (set_Count 3 zero_message) = Some (q "{'body':'','count':3}") /\
  Unmarshal (q "{ 'BODY' : null, 'Body':'x\ud83d\ude00', 'extra':[1.5e3,{}], 'body':'y\/' }") = Some (set_Body "y/" zero_message) /\
  Unmarshal (q "{'body':'a','count':1e2}") = None /\ Unmarshal (q "{'body':7}") = None /\
  Unmarshal "null" = Some zero_message /\ Unmarshal "[]" = None /\ Unmarshal (q "{'body':'a'} x") = None.
Proof. vm_compute. repeat split. Qed.
