(* ===== verification/WireThms.v ===== *)
(** * Chat messages on the wire: what is written is clean, and is what is read *)

From S2P Require Import Prelude Utf8 Runes Duration Calendar Json JsonThms Chan Hub Float64 RateLimit Ws Wire.
Local Open Scope string_scope.
Local Open Scope Z_scope.
Local Open Scope list_scope.

(** ** Clean text: bytes, no control characters, no markup, valid UTF-8 *)
Definition inert (b : Z) : Prop := 32 <= b <= 255 /\ b <> 38 /\ b <> 60 /\ b <> 62.
Definition clean (l : list Z) : Prop := Forall inert l /\ valid_utf8 l = true.
Definition plain (l : list Z) : Prop := Forall (fun b => html_safe b = true) l.

Lemma clean_app a b : clean a -> clean b -> clean (a ++ b).
Proof. intros [H1 H2] [H3 H4]. split; [by apply Forall_app | by apply valid_app]. Qed.
Lemma clean_bytes l : clean l -> Forall is_byte l.
Proof. intros [H _]. eapply Forall_impl; [exact H|]. intros b Hb. unfold inert, is_byte in *. lia. Qed.
Lemma clean_ascii l : Forall (fun b => inert b /\ b <= 127) l -> clean l.
Proof.
  intros H. split; [eapply Forall_impl; [exact H|]; by intros b []|]. apply valid_ascii.
  eapply Forall_impl; [exact H|]. intros b [Hb ?]. unfold inert in Hb. lia.
Qed.
Lemma plain_clean l : plain l -> clean l.
Proof.
  intros H. apply clean_ascii. eapply Forall_impl; [exact H|]. intros b Hb%html_safe_spec. unfold inert. lia.
Qed.
Lemma plain_token l : plain l -> token l.
Proof.
  induction 1 as [|b l Hb _ IH]; [apply token_nil|]. apply html_safe_spec in Hb. apply (token_app [b]); [apply token_plain; lia | done].
Qed.
Lemma token_raw_ok l : token l -> raw_ok l.
Proof. intros H. unfold raw_ok. rewrite H. simpl. by rewrite app_nil_r. Qed.
Lemma plain_digits l : Forall (fun c => digit c = true) l -> plain l.
Proof.
  intros H. eapply Forall_impl; [exact H|]. intros c Hc%between_spec. unfold html_safe.
  rewrite (proj2 (between_spec 32 127 c)) by lia. cbn [existsb]. rewrite !(proj2 (Z.eqb_neq c _)) by lia. done.
Qed.

Lemma hexdigit_range n : 0 <= n < 16 -> 48 <= hexdigit n <= 102.
Proof. intros H. unfold hexdigit. destruct (Z.ltb_spec n 10); lia. Qed.
Lemma hexdigit_inert n : let h := hexdigit (n mod 16) in inert h /\ h <= 127.
Proof.
  cbv zeta. pose proof (Z.mod_pos_bound n 16 ltac:(lia)) as H. unfold inert, hexdigit. destruct (Z.ltb_spec (n mod 16) 10); lia.
Qed.
Lemma u_escape_clean r : clean (u_escape r).
Proof. apply clean_ascii. unfold u_escape. repeat constructor; try (unfold inert; lia); by apply hexdigit_inert. Qed.

Lemma encode_bytes c : scalar c -> Forall is_byte (encode_rune c).
Proof.
  intros [Hc Hs]. unfold encode_rune. rewrite Hs. destruct (between 0 127 c) eqn:E0; [apply between_spec in E0; repeat constructor; unfold is_byte; lia|].
  apply between_false in E0. destruct (between 128 2047 c) eqn:E; [apply between_spec in E | apply between_false in E].
  - repeat constructor; unfold is_byte; Z.div_mod_to_equations; lia.
  - rewrite (proj2 (between_spec 2048 1114111 c)) by lia. cbn [orb negb].
    destruct (Z.leb_spec c 65535); repeat constructor; unfold is_byte; Z.div_mod_to_equations; lia.
Qed.

Lemma escape_byte_clean b : 0 <= b <= 127 -> clean (escape_byte b).
Proof.
  intros Hb. unfold escape_byte. destruct (html_safe b) eqn:E; [apply plain_clean; by repeat constructor|].
  destruct ((b =? 34) || (b =? 92)) eqn:E1.
  { apply orb_true_iff in E1 as [->%Z.eqb_eq | ->%Z.eqb_eq]; apply clean_ascii; repeat constructor; unfold inert; lia. }
  destruct (short_escape b) as [e|] eqn:E2; [|apply u_escape_clean]. apply clean_ascii.
  apply short_escape_spec in E2 as [[_ ->]|[[_ ->]|[[_ ->]|[[_ ->]|[_ ->]]]]]; repeat constructor; unfold inert; lia.
Qed.
Lemma quote_rune_clean c : scalar c -> clean (quote_rune c).
Proof.
  intros Hc. unfold quote_rune. destruct (between 0 127 c) eqn:E; [apply escape_byte_clean; by apply between_spec|].
  destruct (_ || _); [apply u_escape_clean|]. split.
  - apply Forall_forall. intros b Hb. pose proof (proj1 (Forall_forall _ _) (encode_high c Hc E) b Hb) as H1.
    pose proof (proj1 (Forall_forall _ _) (encode_bytes c Hc) b Hb) as H2. simpl in H1. unfold is_byte in H2. unfold inert. lia.
  - rewrite <- (app_nil_r (encode_rune c)). by rewrite valid_encode.
Qed.
Lemma quote_body_clean bs : clean (quote_body bs).
Proof.
  induction bs as [|bs r w E IH|b bs E IH] using rune_ind; [done| |].
  - rewrite (quote_body_rune _ _ _ E). apply clean_app; [|done]. apply quote_rune_clean. by apply encode_decode in E as [_ ?].
  - rewrite quote_body_bad by done. apply clean_app; [apply u_escape_clean | done].
Qed.

(** The strings and numbers of a value, as they are spelt. *)
Fixpoint raws (v : jvalue) : list (list Z) :=
  match v with
  | JNull | JBool _ => []
  | JNum raw | JStr raw => [raw]
  | JArr l => concat (map raws l)
  | JObj l => concat (map (fun '(k, v) => k :: raws v) l)
  end.

Lemma clean_one b : inert b /\ b <= 127 -> clean [b].
Proof. intros H. apply clean_ascii. by constructor. Qed.
Lemma clean_cons b l : inert b /\ b <= 127 -> clean l -> clean (b :: l).
Proof. intros Hb Hl. apply (clean_app [b]); [by apply clean_one | done]. Qed.
Lemma sep_clean l : Forall clean l -> clean (sep l).
Proof.
  induction 1 as [|x l Hx Hl IH]; [done|]. destruct l as [|y l]; [done|]. change (sep (x :: y :: l)) with (x ++ 44 :: sep (y :: l)).
  apply clean_app; [done|]. apply clean_cons; [unfold inert; lia | done].
Qed.

Ltac ascii_ok := unfold inert; lia.

Lemma Forall_concat_map {A} (P : list Z -> Prop) (f : A -> list (list Z)) l :
  Forall P (concat (map f l)) -> Forall (fun a => Forall P (f a)) l.
Proof. induction l as [|a l IH]; [done|]. simpl. intros [H1 H2]%Forall_app. constructor; [done | by apply IH]. Qed.

Lemma print_clean v : Forall clean (raws v) -> clean (print v).
Proof.
  induction v as [|b|raw|raw|l IH|l IH] using jvalue_ind'; intros H; cbn [print raws] in *.
  - apply clean_ascii. repeat constructor; ascii_ok.
  - destruct b; apply clean_ascii; repeat constructor; ascii_ok.
  - by apply Forall_inv in H.
  - apply clean_cons; [ascii_ok|]. apply clean_app; [by apply Forall_inv in H | apply clean_one; ascii_ok].
  - apply clean_cons; [ascii_ok|]. apply clean_app; [|apply clean_one; ascii_ok]. apply sep_clean, Forall_map.
    apply Forall_concat_map in H. rewrite Forall_forall in *. eauto.
  - apply clean_cons; [ascii_ok|]. apply clean_app; [|apply clean_one; ascii_ok]. apply sep_clean, Forall_map.
    apply Forall_concat_map in H. rewrite Forall_forall in *. intros [k v] Hin. specialize (IH _ Hin). specialize (H _ Hin). simpl in *.
    apply Forall_cons in H as [Hk Hv]. apply clean_cons; [ascii_ok|]. apply clean_app; [done|].
    apply clean_cons; [ascii_ok|]. apply clean_cons; [ascii_ok|]. by apply IH.
Qed.

(** ** Numbers *)
Lemma decimal_digits fuel n : 0 <= n -> Forall (fun c => digit c = true) (decimal fuel n).
Proof.
  revert n. induction fuel as [|fuel IH]; intros n Hn; [constructor|]. cbn [decimal].
  destruct (Z.ltb_spec n 10); [repeat constructor; by apply is_digit|]. apply Forall_app. split; [apply IH, Z.div_pos; lia|].
  repeat constructor. apply is_digit, Z.mod_pos_bound. lia.
Qed.
Lemma decimal_value fuel n : 0 <= n < 2 ^ Z.of_nat fuel -> foldl (fun x c => x * 10 + (c - 48)) 0 (decimal fuel n) = n.
Proof.
  revert n. induction fuel as [|fuel IH]; intros n Hn; [change (2 ^ Z.of_nat 0) with 1 in Hn; simpl; lia|]. cbn [decimal].
  destruct (Z.ltb_spec n 10); [simpl; lia|]. rewrite Nat2Z.inj_succ, Z.pow_succ_r in Hn by lia.
  rewrite foldl_app, IH by (Z.div_mod_to_equations; lia). cbn [foldl]. Z.div_mod_to_equations. lia.
Qed.
Lemma decimal_lead fuel n : 0 < n < 2 ^ Z.of_nat fuel -> exists c l, decimal fuel n = c :: l /\ 49 <= c <= 57.
Proof.
  revert n. induction fuel as [|fuel IH]; intros n Hn; [change (2 ^ Z.of_nat 0) with 1 in Hn; lia|]. cbn [decimal].
  destruct (Z.ltb_spec n 10); [exists (48 + n), []; split; [done | lia]|]. rewrite Nat2Z.inj_succ, Z.pow_succ_r in Hn by lia.
  destruct (IH (n / 10)) as (c & l & -> & Hc); [Z.div_mod_to_equations; lia|]. by eexists _, _.
Qed.

Definition numeral (n : Z) : list Z := decimal (S (Z.to_nat (Z.log2 n))) n.
Lemma numeral_fuel n : 0 <= n -> n < 2 ^ Z.of_nat (S (Z.to_nat (Z.log2 n))).
Proof.
  intros Hn. rewrite Nat2Z.inj_succ, Z2Nat.id by apply Z.log2_nonneg.
  destruct (decide (n = 0)) as [->|]; [done|]. apply Z.log2_spec. lia.
Qed.
Lemma Itoa_numeral n : Itoa n = if n <? 0 then 45 :: numeral (- n) else numeral n.
Proof. done. Qed.

Lemma span_all ds : Forall (fun c => digit c = true) ds -> span_digits ds = (ds, []).
Proof. intros H. rewrite <- (app_nil_r ds) at 1. by apply span_digits_app. Qed.
Lemma digits1_all ds : Forall (fun c => digit c = true) ds -> ds <> [] -> digits1 ds = Some (ds, []).
Proof. intros H Hne. unfold digits1. rewrite span_all by done. by destruct ds. Qed.

Lemma numeral_int n : 0 <= n -> num_int (numeral n) = Some (numeral n, []) /\ num_sign (numeral n) = ([], numeral n) /\ numeral n <> [].
Proof.
  intros Hn. destruct (decide (n = 0)) as [->|Hne]; [done|].
  destruct (decimal_lead (S (Z.to_nat (Z.log2 n))) n) as (c & l & E & Hc); [split; [lia | by apply numeral_fuel]|].
  pose proof (decimal_digits (S (Z.to_nat (Z.log2 n))) n Hn) as Hd. fold (numeral n) in *. rewrite E in *. split; [|split; [|done]].
  - unfold num_int. rewrite (proj2 (Z.eqb_neq c 48)) by lia. by apply digits1_all.
  - unfold num_sign. by rewrite (proj2 (Z.eqb_neq c 45)) by lia.
Qed.

Lemma Itoa_num_ok n : num_ok (Itoa n).
Proof.
  unfold num_ok, number_lit. rewrite Itoa_numeral. destruct (Z.ltb_spec n 0).
  - destruct (numeral_int (- n)) as (E & _ & _); [lia|]. cbn [num_sign]. change (45 =? 45) with true. cbn iota.
    rewrite E. simpl. by rewrite app_nil_r.
  - destruct (numeral_int n) as (E & Es & _); [lia|]. rewrite Es, E. simpl. by rewrite app_nil_r.
Qed.
Lemma ParseInt_Itoa n : - 2 ^ 63 <= n < 2 ^ 63 -> ParseInt (Itoa n) = Some n.
Proof.
  intros Hn. unfold ParseInt. rewrite Itoa_numeral.
  assert (Hspan : forall m, 0 <= m -> exists c l, span_digits (numeral m) = (c :: l, []) /\ foldl (fun x c => x * 10 + (c - 48)) 0 (c :: l) = m).
  { intros m Hm. rewrite span_all by by apply decimal_digits. destruct (numeral_int m Hm) as (_ & _ & Hne).
    pose proof (decimal_value _ m (conj Hm (numeral_fuel m Hm))) as Hv. fold (numeral m) in Hv. destruct (numeral m) as [|c l]; [done|]. by exists c, l. }
  destruct (Z.ltb_spec n 0).
  - cbn [num_sign]. change (45 =? 45) with true. cbn iota. destruct (Hspan (- n)) as (c & l & -> & ->); [lia|].
    cbn iota zeta. rewrite bool_decide_false by done. rewrite Z.opp_involutive, (proj2 (between_spec _ _ n)) by lia. done.
  - destruct (numeral_int n) as (_ & -> & _); [lia|]. destruct (Hspan n) as (c & l & -> & ->); [lia|].
    cbn iota zeta. rewrite bool_decide_true by done. rewrite (proj2 (between_spec _ _ n)) by lia. done.
Qed.

Lemma plain_app a b : plain a -> plain b -> plain (a ++ b).
Proof. intros Ha Hb. by apply Forall_app. Qed.
Lemma numeral_plain n : 0 <= n -> plain (numeral n).
Proof. intros H. by apply plain_digits, decimal_digits. Qed.
Lemma Itoa_plain n : plain (Itoa n).
Proof.
  rewrite Itoa_numeral. destruct (Z.ltb_spec n 0); [constructor; [done|]|]; apply numeral_plain; lia.
Qed.

(** ** Times *)
Lemma digits_plain k n : plain (digits k n).
Proof.
  apply plain_digits. revert n. induction k as [|k IH]; intros n; [constructor|]. cbn [digits]. apply Forall_app. split; [done|].
  repeat constructor. apply is_digit, Z.mod_pos_bound. lia.
Qed.
Lemma format_plain t : plain (format_RFC3339Nano t).
Proof.
  unfold format_RFC3339Nano. cbv zeta. destruct (date_of_days _) as [[y m] d]. repeat (apply plain_app; [apply digits_plain|]; constructor; [done|]).
  repeat (apply plain_app; [apply digits_plain|]). destruct (second_of t) as [_ Hns].
  apply plain_app; [|by repeat constructor]. destruct (_ =? 0); [constructor|]. constructor; [done|].
  apply plain_digits. by apply (frac_digits_ok 9).
Qed.

(** ** A message written *)
Definition year_ok (t : Z) : bool := (t =? zeroTime) || between 0 9999 (year_of t).
Definition cleaned (s : string) : string := string_of (to_valid (bytes_of s)).
(** What is left of a message on the wire. *)
Definition on_wire (m : Message) : Message :=
  {| msg_ID := cleaned (msg_ID m); msg_Type := cleaned (msg_Type m); msg_User := cleaned (msg_User m);
     msg_Body := cleaned (msg_Body m); msg_At := msg_At m; msg_Count := msg_Count m |}.

Lemma cleaned_id s : valid_utf8 (bytes_of s) = true -> cleaned s = s.
Proof. intros H. unfold cleaned. by rewrite to_valid_id, string_of_bytes_of. Qed.

(** A list of members that is clean, well-formed and flat. *)
Definition flat (l : list (list Z * jvalue)) : Prop :=
  Forall (fun kv => clean kv.1 /\ raw_ok kv.1 /\ Forall clean (raws kv.2) /\ wf kv.2 /\ nest kv.2 = 0) l.

Lemma flat_app a b : flat a -> flat b -> flat (a ++ b).
Proof. intros Ha Hb. by apply Forall_app. Qed.
Lemma flat_one k v : plain k -> Forall clean (raws v) -> wf v -> nest v = 0 -> flat [(k, v)].
Proof. intros Hk Hc Hw Hn. repeat constructor; try done; [by apply plain_clean | by apply plain_clean | by apply token_raw_ok, plain_token]. Qed.
Lemma flat_text k s : plain (key k) -> flat [(key k, text s)].
Proof. intros Hk. apply flat_one; [done | repeat constructor; apply quote_body_clean | apply quote_raw_ok | done]. Qed.
Lemma flat_omitempty k s : plain (key k) -> flat (omitempty k s).
Proof. intros Hk. unfold omitempty. destruct (String.eqb s ""); [constructor | by apply flat_text]. Qed.
Lemma flat_omitempty_int k n : plain (key k) -> flat (omitempty_int k n).
Proof.
  intros Hk. unfold omitempty_int. destruct (n =? 0); [constructor|].
  apply flat_one; [done | constructor; [apply plain_clean, Itoa_plain | constructor] | apply Itoa_num_ok | done].
Qed.
Lemma flat_omitzero k t l : plain (key k) -> omitzero k t = Some l -> flat l.
Proof.
  intros Hk. unfold omitzero. destruct (t =? zeroTime); [intros [= <-]; constructor|]. unfold time_MarshalJSON.
  destruct (between _ _ _); [|done]. intros [= <-].
  apply flat_one; [done | constructor; [apply plain_clean, format_plain | constructor] | apply token_raw_ok, plain_token, format_plain | done].
Qed.

Lemma plain_key k : forallb html_safe (key k) = true -> plain (key k).
Proof. intros H. apply Forall_forall. intros b Hb. rewrite forallb_forall in H. apply H. by apply list_elem_of_In. Qed.
Ltac key_ok := apply plain_key; vm_compute; reflexivity.

Lemma message_fields_flat m l : message_fields m = Some l -> flat l.
Proof.
  intros (at_ & Hat & [= <-])%bind_Some. apply flat_omitzero in Hat; [|key_ok].
  do 3 (apply flat_app; [apply flat_omitempty; key_ok|]). apply (flat_app [_]); [apply flat_text; key_ok|].
  apply flat_app; [done|]. apply flat_omitempty_int. key_ok.
Qed.
Lemma flat_obj l : flat l -> clean (print (JObj l)) /\ wf (JObj l) /\ nest (JObj l) <= 1.
Proof.
  intros H. split; [|split].
  - apply print_clean. cbn [raws]. induction H as [|[k v] l (Hk & _ & Hc & _) _ IH]; [constructor|]. simpl in *. constructor; [done|]. by apply Forall_app.
  - cbn [wf]. induction H as [|[k v] l (_ & Hk & _ & Hw & _) _ IH]; [done|]. simpl in *. done.
  - cbn [nest]. induction H as [|[k v] l (_ & _ & _ & _ & Hn) _ IH]; [simpl; lia|]. simpl in *. lia.
Qed.

Lemma omitzero_year k t : is_Some (omitzero k t) <-> year_ok t = true.
Proof.
  unfold omitzero, year_ok. destruct (t =? zeroTime); [split; eauto|]. unfold time_MarshalJSON. destruct (between _ _ _); simpl; [split; eauto|].
  split; [by intros [] | done].
Qed.
Lemma message_fields_year m : is_Some (message_fields m) <-> year_ok (msg_At m) = true.
Proof.
  rewrite <- (omitzero_year "at"). unfold message_fields. destruct (omitzero "at" (msg_At m)); simpl; [split; eauto|]. split; by intros [].
Qed.

(** ** A message read back *)
Lemma store_app a b m : store_members (a ++ b) m = store_members a m ≫= store_members b.
Proof.
  revert m. induction a as [|[k v] a IH]; intros m; [done|]. cbn [app store_members].
  destruct (match field_of k with Some f => store_field f v m | None => Some m end); [apply IH | done].
Qed.

Lemma unquote_string s : string_of (unquote (quote_body (bytes_of s))) = cleaned s.
Proof. by rewrite unquote_quote. Qed.

Lemma store_string f k (set : string -> Message -> Message) get s m : field_of (key k) = Some f ->
  (forall raw, store_field f (JStr raw) m = Some (set (string_of (unquote raw)) m)) -> get m = ""%string -> set (get m) m = m ->
  store_members (omitempty k s) m = Some (set (cleaned s) m).
Proof.
  intros Hf Hstore H0 Hset. unfold omitempty. destruct (String.eqb_spec s "") as [->|].
  - cbn [store_members]. f_equal. rewrite H0 in Hset. change (cleaned "") with ""%string. by rewrite Hset.
  - cbn [store_members]. rewrite Hf. unfold text. by rewrite Hstore, unquote_string.
Qed.
Lemma store_time t l m : omitzero "at" t = Some l -> msg_At m = zeroTime -> store_members l m = Some (set_At t m).
Proof.
  unfold omitzero. destruct (Z.eqb_spec t zeroTime) as [->|Hne].
  - intros [= <-] H0. cbn [store_members]. destruct m; simpl in *. by subst.
  - intros (s & Hs & [= <-])%bind_Some _. unfold time_MarshalJSON in Hs. destruct (between 0 9999 (year_of t)) eqn:E; [|done]. injection Hs as <-.
    apply between_spec in E. pose proof (time_Parse_format t E) as Hp. cbn [store_members].
    change (field_of (key "at")) with (Some FAt). unfold store_field, time_UnmarshalJSON. by rewrite Hp.
Qed.
Lemma store_count n m : - 2 ^ 63 <= n < 2 ^ 63 -> msg_Count m = 0 -> store_members (omitempty_int "count" n) m = Some (set_Count n m).
Proof.
  intros Hn H0. unfold omitempty_int. destruct (Z.eqb_spec n 0) as [->|].
  - cbn [store_members]. destruct m; simpl in *. by subst.
  - cbn [store_members]. change (field_of (key "count")) with (Some FCount). unfold store_field. by rewrite ParseInt_Itoa.
Qed.

Lemma store_fields m l : message_fields m = Some l -> - 2 ^ 63 <= msg_Count m < 2 ^ 63 -> store_members l zero_message = Some (on_wire m).
Proof.
  intros (at_ & Hat & [= <-])%bind_Some Hn.
  rewrite store_app, (store_string FID "id" set_ID msg_ID), bind_Some_eq by done.
  rewrite store_app, (store_string FType "type" set_Type msg_Type), bind_Some_eq by done.
  rewrite store_app, (store_string FUser "user" set_User msg_User), bind_Some_eq by done.
  cbn [app store_members]. change (field_of (key "body")) with (Some FBody). unfold store_field, text. rewrite unquote_string, bind_Some_eq.
  rewrite store_app, (store_time _ _ _ Hat) by done. by rewrite bind_Some_eq, store_count.
Qed.

Lemma Unmarshal_print l : flat l -> Unmarshal (string_of (print (JObj l))) = store_members l zero_message.
Proof.
  intros H. destruct (flat_obj l H) as (Hc & Hw & Hn). unfold Unmarshal. rewrite bytes_of_string_of by by apply clean_bytes.
  rewrite parse_print; [done | done | unfold maxNestingDepth; lia].
Qed.
Lemma Marshal_inv m s : Marshal m = Some s -> exists l, message_fields m = Some l /\ s = string_of (print (JObj l)).
Proof. unfold Marshal. destruct (message_fields m) as [l|]; [|done]. exists l. split; [done|]. by apply (inj Some). Qed.
Lemma Marshal_read m s : Marshal m = Some s -> - 2 ^ 63 <= msg_Count m < 2 ^ 63 -> Unmarshal s = Some (on_wire m).
Proof.
  intros (l & Hl & ->)%Marshal_inv Hn. rewrite Unmarshal_print by by eapply message_fields_flat. by apply store_fields.
Qed.
Lemma Marshal_total m : year_ok (msg_At m) = true -> exists s, Marshal m = Some s.
Proof. intros [l Hl]%message_fields_year. eexists. unfold Marshal. by rewrite Hl. Qed.
Lemma Marshal_clean m s : Marshal m = Some s -> clean (bytes_of s).
Proof.
  intros (l & Hl & ->)%Marshal_inv. apply message_fields_flat in Hl. destruct (flat_obj l Hl) as (Hc & _).
  by rewrite bytes_of_string_of by by apply clean_bytes.
Qed.

(** ** What was read *)
Definition readable (m : Message) : Prop :=
  valid_utf8 (bytes_of (msg_ID m)) = true /\ valid_utf8 (bytes_of (msg_Type m)) = true /\ valid_utf8 (bytes_of (msg_User m)) = true /\
  valid_utf8 (bytes_of (msg_Body m)) = true /\ - 2 ^ 63 <= msg_Count m < 2 ^ 63.

Lemma on_wire_id m : readable m -> on_wire m = m.
Proof. intros (H1 & H2 & H3 & H4 & _). unfold on_wire. rewrite !cleaned_id by done. by destruct m. Qed.

Lemma valid_bytes l : valid_utf8 l = true -> Forall is_byte l.
Proof.
  induction l as [|l r w E IH|b l E IH] using rune_ind; [done| |by rewrite valid_bad].
  rewrite (valid_rune _ _ _ E). intros H. rewrite <- (take_drop w l). destruct (encode_decode _ _ _ E) as [<- Hr].
  apply Forall_app. split; [by apply encode_bytes | by apply IH].
Qed.
Lemma unquote_string_valid raw : raw_ok raw -> valid_utf8 (bytes_of (string_of (unquote raw))) = true.
Proof. intros H%unquote_valid. by rewrite bytes_of_string_of by by apply valid_bytes. Qed.
Lemma ParseInt_range raw n : ParseInt raw = Some n -> - 2 ^ 63 <= n < 2 ^ 63.
Proof.
  unfold ParseInt. destruct (num_sign raw) as [sg ds]. destruct (span_digits ds) as [[|d l] [|x r]]; try done. cbv zeta.
  generalize (if bool_decide (sg = []) then foldl (fun x c => x * 10 + (c - 48)) 0 (d :: l) else - foldl (fun x c => x * 10 + (c - 48)) 0 (d :: l)).
  intros k. destruct (between _ _ k) eqn:E; [|done]. intros [= <-]. apply between_spec in E. lia.
Qed.

Lemma store_field_readable f v m m' : wf v -> store_field f v m = Some m' -> readable m -> readable m'.
Proof.
  intros Hw Hs (H1 & H2 & H3 & H4 & H5). destruct f, v; try done; cbn [store_field] in Hs; try (injection Hs as <-).
  all: try (apply unquote_string_valid in Hw).
  all: try by (split; [|split; [|split; [|split]]]).
  - apply bind_Some in Hs as (t & _ & [= <-]). by split; [|split; [|split; [|split]]].
  - apply bind_Some in Hs as (n & Hn%ParseInt_range & [= <-]). by split; [|split; [|split; [|split]]].
Qed.
Lemma store_members_readable l m m' : wf (JObj l) -> store_members l m = Some m' -> readable m -> readable m'.
Proof.
  revert m. induction l as [|[k v] l IH]; intros m Hw Hs Hm; [by injection Hs as <-|]. cbn [wf foldr] in Hw. destruct Hw as [[_ Hv] Hl].
  cbn [store_members] in Hs. apply bind_Some in Hs as (m1 & H1 & H2). apply (IH m1); [done | done|].
  destruct (field_of k) as [f|]; [by eapply store_field_readable | by injection H1 as <-].
Qed.
Lemma Unmarshal_readable data m : Unmarshal data = Some m -> readable m.
Proof.
  assert (Hz : readable zero_message) by done.
  intros (v & [Hw _]%parse_wf & H)%bind_Some. destruct v; try done; [by injection H as <-|]. by eapply store_members_readable.
Qed.

(** ** From one browser to the others *)

(** Any spelling of the body, as [JSON.stringify] or another client writes it. *)
Definition sent (raw : list Z) : string := string_of (print (JObj [(key "body", JStr raw)])).
Lemma sent_read raw : raw_ok raw -> Forall is_byte raw -> Unmarshal (sent raw) = Some (set_Body (string_of (unquote raw)) zero_message).
Proof.
  intros Hr Hb. unfold Unmarshal, sent. rewrite bytes_of_string_of.
  - rewrite parse_print; [done | | by vm_compute]. cbn [wf foldr]. split; [|done]. split; [by vm_compute | done].
  - change (print (JObj [(key "body", JStr raw)])) with ([123; 34; 98; 111; 100; 121; 34; 58; 34] ++ (raw ++ [34]) ++ [125])%list.
    rewrite !Forall_app. split; [|split; [split; [done|]|]]; repeat constructor; unfold is_byte; lia.
Qed.

(** [sendErr]: what the client gets when a frame of its is refused. *)
Definition sendErr (e : string) (now : Z) : option string := Marshal (errorMessage e now).

Lemma refusal_readable limits c data now l e : handle_frame Unmarshal limits c data now = (l, Refused e) -> readable (errorMessage e now).
Proof.
  unfold handle_frame. destruct (userID c =? 0); [by intros [= _ <-]|]. destruct (Unmarshal data) as [m|]; [|by intros [= _ <-]].
  destruct (String.eqb _ _); [by intros [= _ <-]|]. destruct (_ <? _); [by intros [= _ <-]|].
  destruct (allowUser _ _ _) as [l' [|]]; [done | by intros [= _ <-]].
Qed.
Lemma forwarded_body limits c data now l msg : handle_frame Unmarshal limits c data now = (l, Forwarded msg) ->
  exists typed, Unmarshal data = Some typed /\ in_body msg = TrimSpace (msg_Body typed) /\ in_user msg = username c.
Proof.
  unfold handle_frame. destruct (userID c =? 0); [done|]. destruct (Unmarshal data) as [m|]; [|done].
  destruct (String.eqb _ _); [done|]. destruct (_ <? _); [done|]. destruct (allowUser _ _ _) as [l' [|]]; [|done].
  intros [= _ <-]. by exists m.
Qed.
Lemma written m : readable m -> year_ok (msg_At m) = true ->
  exists s, Marshal m = Some s /\ Unmarshal s = Some m /\ clean (bytes_of s).
Proof.
  intros Hr Hy. destruct (Marshal_total m Hy) as [s Hs]. exists s. split; [done|]. split; [|by eapply Marshal_clean].
  rewrite (Marshal_read m s Hs) by apply Hr. by rewrite on_wire_id.
Qed.

(** C12: the wire format loses nothing. A message is written exactly when its
    time is the zero time or in the years 0 to 9999; the text is valid UTF-8 on
    one line with no control character and no [<], [>] or [&] in it, so it can
    stand in a page; and reading it gives the message back, up to bytes of its
    strings that were not UTF-8, which come back as U+FFFD. *)
Theorem message_roundtrip m : - 2 ^ 63 <= msg_Count m < 2 ^ 63 ->
  match Marshal m with
  | Some s => year_ok (msg_At m) = true /\ Unmarshal s = Some (on_wire m) /\ (readable m -> on_wire m = m) /\
              valid_utf8 (bytes_of s) = true /\ Forall inert (bytes_of s)
  | None => year_ok (msg_At m) = false
  end.
Proof.
  intros Hn. destruct (Marshal m) as [s|] eqn:E.
  - destruct (Marshal_clean _ _ E) as [Hi Hv]. split; [|split; [by apply Marshal_read | split; [apply on_wire_id | done]]].
    apply message_fields_year. apply Marshal_inv in E as (l & -> & _). by eexists.
  - destruct (year_ok (msg_At m)) eqn:Ey; [|done]. apply Marshal_total in Ey as [s Es]. by rewrite Es in E.
Qed.

Definition hello : Message :=
  {| msg_ID := "018c"; msg_Type := KindMessage; msg_User := "ann"; msg_Body := string_of [60; 98; 62; 10; 255];
     msg_At := 1700000000000000000; msg_Count := 0 |}.
Lemma message_roundtrip_witness : on_wire hello = set_Body (string_of [60; 98; 62; 10; 239; 191; 189]) hello /\
  match Marshal hello with
  | Some s => year_ok (msg_At hello) = true /\ Unmarshal s = Some (on_wire hello) /\ (readable hello -> on_wire hello = hello) /\
              valid_utf8 (bytes_of s) = true /\ Forall inert (bytes_of s)
  | None => year_ok (msg_At hello) = false
  end.
Proof. split; [by vm_compute | apply (message_roundtrip hello); simpl; lia]. Defined.

(** C32: a frame, from the sender's socket to every reader's. Whatever bytes a
    client sends, a frame the reader forwards becomes, stamped by the room, a
    message that can be written and that reads back as it is: under the
    sender's own name, its body the trimmed body of the frame. A refused frame
    is answered by a readable error. Neither answer can fail to be written. *)
Theorem frames_cross_the_wire limits c data now : valid_utf8 (bytes_of (username c)) = true -> year_ok now = true ->
  match (handle_frame Unmarshal limits c data now).2 with
  | Refused e => exists s, sendErr e now = Some s /\ Unmarshal s = Some (errorMessage e now) /\ clean (bytes_of s)
  | Forwarded msg => forall id t m, valid_utf8 (bytes_of id) = true -> year_ok t = true -> stamp msg (Some id) t = Ok m ->
      exists typed s, Unmarshal data = Some typed /\ msg_User m = username c /\ msg_Body m = TrimSpace (msg_Body typed) /\
        Marshal m = Some s /\ Unmarshal s = Some m /\ clean (bytes_of s)
  end.
Proof.
  intros Hu Hnow. destruct (handle_frame Unmarshal limits c data now) as [l [e|msg]] eqn:E; cbn [snd].
  - apply written; [by eapply refusal_readable | done].
  - intros id t m Hid Ht [= <-]. destruct (forwarded_body _ _ _ _ _ _ E) as (typed & Hd & Hb & Hn). exists typed.
    destruct (Unmarshal_readable _ _ Hd) as (_ & _ & _ & Hvb & _).
    match goal with |- exists s, _ /\ _ /\ _ /\ Marshal ?m = _ /\ _ => destruct (written m) as (s & Hs & Hr & Hc) end;
      [|done|by exists s]. rewrite Hb, Hn. split; [done|]. split; [done|]. split; [done|]. split; [by apply valid_TrimSpace | done].
Qed.

Definition full_buckets : limiterMap := newLimiterMap 5 (QArith_base.inject_Z 1).
Definition ann : client := new_client "ann" 7 "".
Definition ann_frame : string := q "{'body':' hi \ud83d\ude00 ','user':'bob','at':null}".
Lemma frames_cross_the_wire_witness :
  exists msg, (handle_frame Unmarshal full_buckets ann ann_frame 0).2 = Forwarded msg /\
  exists typed s, Unmarshal ann_frame = Some typed /\ username ann = "ann"%string /\ in_body msg = TrimSpace (msg_Body typed) /\
    Marshal {| msg_ID := "1"; msg_Type := KindMessage; msg_User := "ann"; msg_Body := in_body msg; msg_At := 5; msg_Count := 0 |} = Some s.
Proof.
  pose proof (frames_cross_the_wire full_buckets ann ann_frame 0 eq_refl ltac:(by vm_compute)) as H.
  assert (E : (handle_frame Unmarshal full_buckets ann ann_frame 0).2 = Forwarded {| in_user := "ann"; in_body := string_of [104; 105; 32; 240; 159; 152; 128] |})
    by (vm_compute; reflexivity).
  rewrite E in H. eexists. split; [exact E|]. destruct (H "1"%string 5 _ eq_refl ltac:(by vm_compute) eq_refl) as (typed & s & H1 & _ & H3 & H4 & _).
  exists typed, s. split; [exact H1|]. split; [reflexivity|]. split; [exact H3 | exact H4].
Defined.

(** However a body is spelt in the JSON text of a frame, it is forwarded. *)
Lemma line_forwarded limits limits' c raw now (body := TrimSpace (string_of (unquote raw))) :
  raw_ok raw -> Forall is_byte raw -> userID c <> 0 -> body <> ""%string -> rune_count body <= 500 ->
  allowUser limits (userID c) now = (limits', true) ->
  handle_frame Unmarshal limits c (sent raw) now = (limits', Forwarded {| in_user := username c; in_body := body |}).
Proof.
  intros Hr Hb Hu Hne Hlen Ha. unfold handle_frame. rewrite (proj2 (Z.eqb_neq (userID c) 0)) by done. rewrite sent_read by done.
  change (msg_Body (set_Body (string_of (unquote raw)) zero_message)) with (string_of (unquote raw)). fold body.
  destruct (String.eqb_spec body ""); [done|]. unfold maxMessageChars. rewrite (proj2 (Z.ltb_ge 500 _)) by done. by rewrite Ha.
Qed.

(** A rune takes at most six bytes in a JSON text. *)
Lemma quote_rune_length c : (length (quote_rune c) <= 6)%nat.
Proof.
  unfold quote_rune. destruct (between 0 127 c).
  - unfold escape_byte. destruct (html_safe c); [simpl; lia|]. destruct (_ || _); [simpl; lia|]. destruct (short_escape c); simpl; lia.
  - destruct (_ || _); [simpl; lia|]. unfold encode_rune. destruct (between 0 127 c); [simpl; lia|]. destruct (between 128 2047 c); [simpl; lia|].
    destruct (_ || _); [simpl; lia|]. destruct (c <=? 65535); simpl; lia.
Qed.
Lemma runes_rune bs r w : decode bs = Some (r, w) -> runes bs = r :: runes (drop w bs).
Proof. intros E. destruct bs as [|b bs]; [done|]. rewrite runes_cons. unfold decode_rune. by rewrite E. Qed.
Lemma runes_bad b bs : decode (b :: bs) = None -> runes (b :: bs) = RuneError :: runes bs.
Proof. intros E. rewrite runes_cons. unfold decode_rune. by rewrite E. Qed.
Lemma quote_body_length bs : (length (quote_body bs) <= 6 * length (runes bs))%nat.
Proof.
  induction bs as [|bs r w E IH|b bs E IH] using rune_ind; [simpl; lia| |].
  - rewrite (quote_body_rune _ _ _ E), (runes_rune _ _ _ E), length_app. pose proof (quote_rune_length r). cbn [length]. lia.
  - rewrite (quote_body_bad _ _ E), (runes_bad _ _ E), length_app. change (length (u_escape RuneError)) with 6%nat. cbn [length]. lia.
Qed.
Lemma sent_bytes raw : Forall is_byte raw -> bytes_of (sent raw) = bytes_of "{" ++ 34 :: bytes_of "body" ++ 34 :: 58 :: 34 :: raw ++ [34; 125].
Proof.
  intros Hb. unfold sent. change (print (JObj [(key "body", JStr raw)])) with ([123; 34; 98; 111; 100; 121; 34; 58; 34] ++ (raw ++ [34]) ++ [125]).
  rewrite bytes_of_string_of; [by rewrite <- !app_assoc|]. rewrite !Forall_app. split; [|split; [split; [done|]|]]; repeat constructor; unfold is_byte; lia.
Qed.


Definition typed : string := string_of [99; 97; 102; 195; 169; 32; 60; 51].

(** Only the body of a frame is used, but another field of the wrong type
    refuses the frame. *)
Example other_fields_refuse : Unmarshal (q "{'body':'hi','at':'soon'}") = None /\ Unmarshal (q "{'body':'hi','count':'3'}") = None /\
  Unmarshal (q "{'body':'hi','room':'3'}") = Some (set_Body "hi" zero_message).
Proof. vm_compute. repeat split. Qed.
