(* ===== verification/Manager.v ===== *)
(** * The room manager: [src/internal/chat/manager.go] and [service.go]

    [rooms] maps channel names to entries; a [Room] object is what the entry
    points to, with its four channels; a [timer] is a [time.AfterFunc].  What
    is done under [m.mu] is one definition: the [close] after the unlock of
    [reap] and [shutdownAll] is a step of its own, and the rooms it is still
    due for are in [closing]. *)

From Stdlib Require Import QArith.
From S2P Require Import Prelude Chan Hub HubTrace RateLimit.
Local Open Scope Z_scope.

Record roomEntry := { room : nat; reapTimer : option nat }.

Record manager := {
  rooms : gmap string roomEntry;
  limits : limiterMap;
  stopped : bool
}.

Definition newManager (burst : Z) (perSecond : Q) : manager :=
  {| rooms := ∅; limits := newLimiterMap burst perSecond; stopped := false |}.

(** [NewService] replaces settings that are not positive. *)
Record Options := { RateBurst : Z; RatePerSecond : Q }.
Definition NewService (opts : Options) : manager :=
  let burst := if RateBurst opts <=? 0 then 5 else RateBurst opts in
  let perSec := if Qle_bool (RatePerSecond opts) 0 then 1%Q else RatePerSecond opts in
  newManager burst perSec.

(** A [Room] and, with [world], its actor's state and its clients' sockets.
    [r_empty] says that the actor is about to call [onEmpty]. *)
Record Room := {
  r_name : string;
  r_join : chan nat;
  r_leave : chan nat;
  r_send : chan inbound;
  r_stop : chan unit;
  r_world : world;
  r_empty : bool
}.

Definition newRoomObj (name : string) : Room :=
  {| r_name := name; r_join := make_chan 4; r_leave := make_chan 4; r_send := make_chan 64;
     r_stop := make_chan 0; r_world := newWorld; r_empty := false |}.

Inductive timerState := Pending | Fired | Stopped | Ran.
Record timer := { t_name : string; t_state : timerState }.

Inductive phase := Joining | Serving | Leaving | Gone.
Inductive rphase := NotStarted | Reading | Sending (msg : inbound) | Exited.

(** One [ServeWS] call: the connection's number is its client pointer. *)
Record conn := {
  c_room : nat;
  c_phase : phase;
  c_read : rphase;
  c_errs : list Message   (* [sendErr] messages written to the socket *)
}.

Record chat := {
  mgr : manager;
  objs : list Room;
  timers : list timer;
  closing : list nat;
  conns : list conn
}.

Definition newChat (opts : Options) : chat :=
  {| mgr := NewService opts; objs := []; timers := []; closing := []; conns := [] |}.

Definition set_mgr (m : manager) (s : chat) : chat :=
  {| mgr := m; objs := objs s; timers := timers s; closing := closing s; conns := conns s |}.
Definition set_rooms (rs : gmap string roomEntry) (s : chat) : chat :=
  set_mgr {| rooms := rs; limits := limits (mgr s); stopped := stopped (mgr s) |} s.
Definition set_limits (l : limiterMap) (s : chat) : chat :=
  set_mgr {| rooms := rooms (mgr s); limits := l; stopped := stopped (mgr s) |} s.
Definition set_objs (o : list Room) (s : chat) : chat :=
  {| mgr := mgr s; objs := o; timers := timers s; closing := closing s; conns := conns s |}.
Definition set_timers (t : list timer) (s : chat) : chat :=
  {| mgr := mgr s; objs := objs s; timers := t; closing := closing s; conns := conns s |}.
Definition set_closing (l : list nat) (s : chat) : chat :=
  {| mgr := mgr s; objs := objs s; timers := timers s; closing := l; conns := conns s |}.
Definition set_conns (l : list conn) (s : chat) : chat :=
  {| mgr := mgr s; objs := objs s; timers := timers s; closing := closing s; conns := l |}.
Definition set_room (r : nat) (R : Room) (s : chat) : chat := set_objs (<[r := R]> (objs s)) s.

(** [t.Stop()]: no effect once the timer has fired. *)
Definition timer_stop (t : timer) : timer :=
  match t_state t with
  | Pending => {| t_name := t_name t; t_state := Stopped |}
  | _ => t
  end.
Definition stop_timer (ot : option nat) (ts : list timer) : list timer :=
  match ot with Some t => alter timer_stop t ts | None => ts end.

Definition getOrCreate (channelName : string) (s : chat) : chat * option nat :=
  if stopped (mgr s) then (s, None) else
  match rooms (mgr s) !! channelName with
  | Some e =>
      (set_timers (stop_timer (reapTimer e) (timers s))
         (set_rooms (<[channelName := {| room := room e; reapTimer := None |}]> (rooms (mgr s))) s),
       Some (room e))
  | None =>
      let r := length (objs s) in
      (set_objs (objs s ++ [newRoomObj channelName])
         (set_rooms (<[channelName := {| room := r; reapTimer := None |}]> (rooms (mgr s))) s),
       Some r)
  end.

Definition scheduleReap (channelName : string) (s : chat) : chat :=
  match rooms (mgr s) !! channelName with
  | None => s
  | Some e =>
      let ts := stop_timer (reapTimer e) (timers s) in
      set_timers (ts ++ [{| t_name := channelName; t_state := Pending |}])
        (set_rooms (<[channelName := {| room := room e; reapTimer := Some (length ts) |}]>
           (rooms (mgr s))) s)
  end.

(** [reap] up to its unlock. *)
Definition reap (channelName : string) (s : chat) : chat :=
  match rooms (mgr s) !! channelName with
  | None => s
  | Some e => set_closing (closing s ++ [room e]) (set_rooms (delete channelName (rooms (mgr s))) s)
  end.

(** [close(e.room.stop)], once the lock is released. *)
Definition close_stop (r : nat) (s : chat) : res panic chat :=
  match objs s !! r with
  | None => Err NilDereference
  | Some R =>
      st ← close (r_stop R);
      Ok (set_closing (filter (.≠ r) (closing s))
            (set_room r {| r_name := r_name R; r_join := r_join R; r_leave := r_leave R;
                           r_send := r_send R; r_stop := st; r_world := r_world R;
                           r_empty := r_empty R |} s))
  end.

(** [shutdownAll] up to its unlock: the loop over the map's entries. *)
Definition shutdown_one (s : chat) (ne : string * roomEntry) : chat :=
  set_closing (closing s ++ [room ne.2])
    (set_timers (stop_timer (reapTimer ne.2) (timers s))
      (set_rooms (delete ne.1 (rooms (mgr s))) s)).
Definition shutdownAll (s : chat) : chat :=
  foldl shutdown_one
    (set_mgr {| rooms := rooms (mgr s); limits := limits (mgr s); stopped := true |} s)
    (map_to_list (rooms (mgr s))).

Definition viewer_count (channelName : string) (s : chat) : Z :=
  match rooms (mgr s) !! channelName with
  | None => 0
  | Some e => match objs s !! room e with
              | Some R => viewerCount (w_hub (r_world R))
              | None => 0
              end
  end.

(** [Service]'s two public methods besides [ServeWS]. *)
Definition Shutdown (s : chat) : chat := shutdownAll s.
Definition ViewerCount (channelName : string) (s : chat) : Z := viewer_count channelName s.
