(* ===== verification/ChatSys.v ===== *)
(** * The chat system: [ServeWS], the rooms' loops, the timers

    [sstep] interleaves the goroutines of the chat package: the HTTP handlers
    running [ServeWS] (accept, register, writer loop), their readers, the room
    actors, the reap timers and the shutdown.  An action that is not enabled
    leaves the state as it is; a panic in any goroutine is an error, since it
    ends the process. *)

From S2P Require Import Prelude Chan Tally Hub HubInv HubTrace RateLimit Ws Manager.

Definition set_conn (k : nat) (c : conn) (s : chat) : chat := set_conns (<[k := c]> (conns s)) s.
Definition with_phase (c : conn) (p : phase) : conn :=
  {| c_room := c_room c; c_phase := p; c_read := c_read c; c_errs := c_errs c |}.
Definition with_read (c : conn) (p : rphase) : conn :=
  {| c_room := c_room c; c_phase := c_phase c; c_read := p; c_errs := c_errs c |}.

Definition with_join (R : Room) (j : chan nat) : Room :=
  {| r_name := r_name R; r_join := j; r_leave := r_leave R; r_send := r_send R;
     r_stop := r_stop R; r_world := r_world R; r_empty := r_empty R |}.
Definition with_leave (R : Room) (l : chan nat) : Room :=
  {| r_name := r_name R; r_join := r_join R; r_leave := l; r_send := r_send R;
     r_stop := r_stop R; r_world := r_world R; r_empty := r_empty R |}.
Definition with_send (R : Room) (q : chan inbound) : Room :=
  {| r_name := r_name R; r_join := r_join R; r_leave := r_leave R; r_send := q;
     r_stop := r_stop R; r_world := r_world R; r_empty := r_empty R |}.
Definition with_world (R : Room) (w : world) : Room :=
  {| r_name := r_name R; r_join := r_join R; r_leave := r_leave R; r_send := r_send R;
     r_stop := r_stop R; r_world := w; r_empty := r_empty R |}.
Definition with_empty (R : Room) (b : bool) : Room :=
  {| r_name := r_name R; r_join := r_join R; r_leave := r_leave R; r_send := r_send R;
     r_stop := r_stop R; r_world := r_world R; r_empty := b |}.

(** The room's loop handles an event; the flag says that [onEmpty] is called. *)
Definition room_event (R : Room) (e : event) : res panic (Room * bool) :=
  r ← hub_step (w_hub (r_world R)) e;
  Ok (with_world R (record_event (r_world R) e r.1), r.2).

(** [select { case room.leave <- c: default: }] *)
Definition try_leave (r k : nat) (s : chat) : res panic chat :=
  match objs s !! r with
  | None => Err NilDereference
  | Some R => o ← try_send (r_leave R) k;
              match o with
              | Some l => Ok (set_room r (with_leave R l) s)
              | None => Ok s
              end
  end.

Section System.
Context (unmarshal : string -> option Message).

(** *** [ServeWS] *)

(** Upgrade, [getOrCreate], allocate the client. *)
Definition accept (channelName user : string) (uid : Z) (anon : string) (s : chat) : res panic chat :=
  match getOrCreate channelName s with
  | (s, None) => Ok s
  | (s, Some r) =>
      match objs s !! r with
      | None => Err NilDereference
      | Some R =>
          w ← wstep (r_world R) (AConnect (length (conns s)) user uid anon);
          Ok (set_conns (conns s ++ [{| c_room := r; c_phase := Joining; c_read := NotStarted; c_errs := [] |}])
                (set_room r (with_world R w) s))
      end
  end.

(** [room.join <- c], then the reader goroutine starts. *)
Definition register (k : nat) (s : chat) : res panic chat :=
  match conns s !! k with
  | Some c =>
      match c_phase c, objs s !! c_room c with
      | Joining, Some R =>
          o ← try_send (r_join R) k;
          match o with
          | Some j => Ok (set_conn k {| c_room := c_room c; c_phase := Serving; c_read := Reading; c_errs := c_errs c |}
                            (set_room (c_room c) (with_join R j) s))
          | None => Ok s
          end
      | _, _ => Ok s
      end
  | None => Ok s
  end.

(** The request context is done before the room took the client. *)
Definition cancel (k : nat) (s : chat) : chat :=
  match conns s !! k with
  | Some c => match c_phase c with Joining => set_conn k (with_phase c Gone) s | _ => s end
  | None => s
  end.

(** One message of the writer loop; [ok] says whether [writeJSON] succeeded. *)
Definition write (k : nat) (ok : bool) (s : chat) : res panic chat :=
  match conns s !! k with
  | Some c =>
      match c_phase c, objs s !! c_room c with
      | Serving, Some R =>
          match heap (w_hub (r_world R)) !! k with
          | None => Err NilDereference
          | Some cl =>
              match recv (out cl) with
              | Blocked => Ok s
              | Closed => Ok (set_conn k (with_phase c Leaving) s)
              | Received _ _ =>
                  w ← wstep (r_world R) (AWrite k);
                  Ok (set_conn k (if ok then c else with_phase c Leaving)
                        (set_room (c_room c) (with_world R w) s))
              end
          end
      | _, _ => Ok s
      end
  | None => Ok s
  end.

(** After the writer loop: the last leave, then the connection is closed. *)
Definition finish (k : nat) (s : chat) : res panic chat :=
  match conns s !! k with
  | Some c => match c_phase c with
              | Leaving => try_leave (c_room c) k (set_conn k (with_phase c Gone) s)
              | _ => Ok s
              end
  | None => Ok s
  end.

(** *** [readLoop]: [None] is a read error *)
Definition read (k : nat) (frame : option string) (now : Z) (s : chat) : res panic chat :=
  match conns s !! k with
  | Some c =>
      match c_read c, objs s !! c_room c with
      | Reading, Some R =>
          match frame with
          | None => try_leave (c_room c) k (set_conn k (with_read c Exited) s)
          | Some data =>
              match heap (w_hub (r_world R)) !! k with
              | None => Err NilDereference
              | Some cl =>
                  let '(l, v) := handle_frame unmarshal (limits (mgr s)) cl data now in
                  let c' := match v with
                            | Refused e => {| c_room := c_room c; c_phase := c_phase c; c_read := Reading;
                                              c_errs := c_errs c ++ [errorMessage e now] |}
                            | Forwarded msg => with_read c (Sending msg)
                            end in
                  Ok (set_conn k c' (set_limits l s))
              end
          end
      | _, _ => Ok s
      end
  | None => Ok s
  end.

(** [room.send <- inbound], when there is room for it. *)
Definition forward (k : nat) (s : chat) : res panic chat :=
  match conns s !! k with
  | Some c =>
      match c_read c, objs s !! c_room c with
      | Sending msg, Some R =>
          o ← try_send (r_send R) msg;
          match o with
          | Some q => Ok (set_conn k (with_read c Reading) (set_room (c_room c) (with_send R q) s))
          | None => Ok s
          end
      | _, _ => Ok s
      end
  | None => Ok s
  end.

(** The reader's context is done while it waits for the room. *)
Definition read_cancel (k : nat) (s : chat) : chat :=
  match conns s !! k with
  | Some c => match c_read c with Sending _ => set_conn k (with_read c Exited) s | _ => s end
  | None => s
  end.

(** *** The room's loop *)
Inductive source := FromJoin | FromLeave | FromSend (uuid : option string) | FromStop.

(** What the [select] receives from one of its channels, if it is ready. *)
Definition select_one (R : Room) (src : source) (now : Z) : option (event * Room) :=
  match src with
  | FromJoin => match recv (r_join R) with
                | Received i j => Some (EJoin i now, with_join R j) | _ => None end
  | FromLeave => match recv (r_leave R) with
                 | Received i l => Some (ELeave i now, with_leave R l) | _ => None end
  | FromSend uuid => match recv (r_send R) with
                     | Received m q => Some (ESend m uuid now, with_send R q) | _ => None end
  | FromStop => if ch_closed (r_stop R) then Some (EStop, R) else None
  end.

Definition room_loop (r : nat) (src : source) (now : Z) (s : chat) : res panic chat :=
  match objs s !! r with
  | None => Ok s
  | Some R =>
      if negb (running (w_hub (r_world R))) || r_empty R then Ok s else
      match select_one R src now with
      | None => Ok s
      | Some (e, R) => '(R, empty) ← room_event R e;
                       Ok (set_room r (with_empty R empty) s)
      end
  end.

(** The actor calls [onEmpty]. *)
Definition on_empty (r : nat) (s : chat) : chat :=
  match objs s !! r with
  | Some R => if r_empty R then scheduleReap (r_name R) (set_room r (with_empty R false) s) else s
  | None => s
  end.

(** *** Timers *)
Definition fire (t : nat) (s : chat) : chat :=
  match timers s !! t with
  | Some tm => match t_state tm with
               | Pending => set_timers (<[t := {| t_name := t_name tm; t_state := Fired |}]> (timers s)) s
               | _ => s
               end
  | None => s
  end.

(** The timer's goroutine runs [reap]. *)
Definition timer_reap (t : nat) (s : chat) : chat :=
  match timers s !! t with
  | Some tm => match t_state tm with
               | Fired => reap (t_name tm)
                            (set_timers (<[t := {| t_name := t_name tm; t_state := Ran |}]> (timers s)) s)
               | _ => s
               end
  | None => s
  end.

Inductive sact :=
| SAccept (channelName user : string) (uid : Z) (anon : string)
| SRegister (k : nat)
| SCancel (k : nat)
| SWrite (k : nat) (ok : bool)
| SFinish (k : nat)
| SRead (k : nat) (frame : option string) (now : Z)
| SForward (k : nat)
| SReadCancel (k : nat)
| SRoom (r : nat) (src : source) (now : Z)
| SOnEmpty (r : nat)
| SFire (t : nat)
| SReap (t : nat)
| SClose (r : nat)
| SShutdown.

Definition sstep (s : chat) (a : sact) : res panic chat :=
  match a with
  | SAccept n u i k => accept n u i k s
  | SRegister k => register k s
  | SCancel k => Ok (cancel k s)
  | SWrite k ok => write k ok s
  | SFinish k => finish k s
  | SRead k frame now => read k frame now s
  | SForward k => forward k s
  | SReadCancel k => Ok (read_cancel k s)
  | SRoom r src now => room_loop r src now s
  | SOnEmpty r => Ok (on_empty r s)
  | SFire t => Ok (fire t s)
  | SReap t => Ok (timer_reap t s)
  | SClose r => if decide (r ∈ closing s) then close_stop r s else Ok s
  | SShutdown => Ok (shutdownAll s)
  end.

Definition srun (opts : Options) (acts : list sact) : res panic chat :=
  mfoldl sstep (newChat opts) acts.
End System.
