(* ===== verification/ChatInv.v ===== *)
(** * The registry of rooms

    One entry per channel name, each for its own room; a room's [stop] is
    closed once, after the room has left the registry; a shut down manager
    hands out no room. *)

From S2P Require Import Prelude Chan Tally Hub HubInv HubTrace RateLimit Ws Manager ChatSys.

(** ** The room's loop ends only on [stop] *)
Lemma removeClient_running st i st' b1 b2 :
  removeClient st i = Ok (st', b1, b2) -> running st' = running st.
Proof. unfold removeClient, mbind, res_bind. intros H. by inv_match H. Qed.

Lemma dispatch_one_running m st i st' : dispatch_one m st i = Ok st' -> running st' = running st.
Proof.
  unfold dispatch_one. intros (c & _ & (o & _ & H)%res_bind_inv)%res_bind_inv.
  destruct o; [by simplify_eq|]. apply res_bind_inv in H as ([[st1 ?] ?] & Hr & [= <-]).
  by apply removeClient_running in Hr.
Qed.

Lemma dispatch_running m st st' : dispatch m st = Ok st' -> running st' = running st.
Proof.
  unfold dispatch. intros H.
  refine (mfoldl_preserves (fun s => running s = running st) (dispatch_one m) _ _ _ _ H eq_refl).
  intros s a s' Hd Hs. by rewrite (dispatch_one_running _ _ _ _ Hd).
Qed.

Lemma on_join_running st i now st' : on_join st i now = Ok st' -> running st' = running st.
Proof.
  unfold on_join. intros (c & _ & ([o ov] & _ & H)%res_bind_inv)%res_bind_inv. destruct ov.
  { apply res_bind_inv in H as (o' & _ & [= <-]). done. }
  destruct (if negb _ then _ else _) as [vc vch]. apply res_bind_inv in H as (st2 & H2 & H).
  assert (Hr : running st2 = running st).
  { destruct (negb _); [|by simplify_eq]. case_decide; [|by simplify_eq].
    by apply dispatch_running in H2. }
  destruct vch.
  - by apply dispatch_running in H as ->.
  - apply res_bind_inv in H as (c' & _ & (o' & _ & H)%res_bind_inv). destruct o'; by simplify_eq.
Qed.

Lemma on_leave_running st i now st' b : on_leave st i now = Ok (st', b) -> running st' = running st.
Proof.
  unfold on_leave. intros ([[st1 wl] vc] & H1 & (st2 & H2 & (st3 & H3 & [= <- <-])%res_bind_inv)%res_bind_inv)%res_bind_inv.
  apply removeClient_running in H1. rewrite <- H1.
  assert (running st2 = running st1) as <-.
  { destruct wl; [|by simplify_eq]. apply res_bind_inv in H2 as (c & _ & H2). by apply dispatch_running in H2. }
  destruct vc; [|by simplify_eq]. by apply dispatch_running in H3.
Qed.

Lemma hub_step_running st e st' b : hub_step st e = Ok (st', b) -> e <> EStop ->
  running st' = running st.
Proof.
  unfold hub_step. destruct (running st) eqn:Hr; simpl; [|by intros [= <- <-]].
  intros H He. destruct e as [i now|i now|msg uuid now|]; [..|done].
  - apply res_bind_inv in H as (st1 & H & [= <- <-]). by rewrite (on_join_running _ _ _ _ H).
  - by rewrite (on_leave_running _ _ _ _ _ H).
  - apply res_bind_inv in H as (st1 & H & [= <- <-]). apply res_bind_inv in H as (m & _ & H).
    by rewrite (dispatch_running _ _ _ H).
Qed.

Lemma record_event_hub w e st : w_hub (record_event w e st) = st.
Proof. unfold record_event. destruct (negb _); [done|]. by destruct e as [| |? []|]. Qed.

(** ** The invariant *)
Definition entry_of (s : chat) (r : nat) (R : Room) : Prop :=
  exists e, rooms (mgr s) !! r_name R = Some e /\ room e = r.

Record reg_ok (s : chat) : Prop := {
  rg_entry : forall n e, rooms (mgr s) !! n = Some e -> exists R,
    objs s !! room e = Some R /\ r_name R = n /\ ch_closed (r_stop R) = false /\ room e ∉ closing s;
  rg_nodup : NoDup (closing s);
  rg_due : forall r, r ∈ closing s -> exists R,
    objs s !! r = Some R /\ ch_closed (r_stop R) = false;
  rg_all : forall r R, objs s !! r = Some R ->
    entry_of s r R \/ r ∈ closing s \/ ch_closed (r_stop R) = true;
  rg_stopped : stopped (mgr s) = true -> rooms (mgr s) = ∅;
  rg_running : forall r R, objs s !! r = Some R -> running (w_hub (r_world R)) = false ->
    ch_closed (r_stop R) = true
}.

(** Steps that leave the registry alone. *)
Definition same_room (R R' : Room) : Prop :=
  r_name R' = r_name R /\ r_stop R' = r_stop R /\
  (running (w_hub (r_world R')) = false ->
     running (w_hub (r_world R)) = false \/ ch_closed (r_stop R) = true).

Record quiet (s s' : chat) : Prop := {
  qt_rooms : rooms (mgr s') = rooms (mgr s);
  qt_stopped : stopped (mgr s') = stopped (mgr s);
  qt_closing : closing s' = closing s;
  qt_objs : Forall2 same_room (objs s) (objs s')
}.

#[export] Instance same_room_preorder : PreOrder same_room.
Proof.
  split; [by intros R; split_and!; auto|].
  intros x y z (N1 & S1 & R1) (N2 & S2 & R2). split_and!; [congruence..|].
  intros H. destruct (R2 H) as [H'|H']; [by apply R1 | right; congruence].
Qed.

#[export] Instance quiet_preorder : PreOrder quiet.
Proof.
  split; [by intros s; split|].
  intros s1 s2 s3 [A1 A2 A3 A4] [B1 B2 B3 B4]. split; try congruence. by transitivity (objs s2).
Qed.

Lemma quiet_same s s' : rooms (mgr s') = rooms (mgr s) -> stopped (mgr s') = stopped (mgr s) ->
  closing s' = closing s -> objs s' = objs s -> quiet s s'.
Proof. intros. split; try done. by replace (objs s') with (objs s) by done. Qed.

Lemma quiet_room s s' r R R' : rooms (mgr s') = rooms (mgr s) -> stopped (mgr s') = stopped (mgr s) ->
  closing s' = closing s -> objs s !! r = Some R -> objs s' = <[r := R']> (objs s) -> same_room R R' ->
  quiet s s'.
Proof.
  intros H1 H2 H3 Hr Ho HR. split; try done. rewrite Ho.
  rewrite <- (list_insert_id (objs s) r R) at 1 by done.
  by apply Forall2_insert.
Qed.

Lemma quiet_ok s s' : quiet s s' -> reg_ok s -> reg_ok s'.
Proof.
  intros [Hr Hs Hc Ho] [H1 H2 H3 H4 H5 H6]. split.
  - intros n e He. rewrite Hr in He. destruct (H1 n e He) as (R & HR & Hn & Hst & Hni).
    destruct (Forall2_lookup_l _ _ _ _ _ Ho HR) as (R' & HR' & Hn' & Hst' & _).
    exists R'. rewrite Hc, Hn', Hst'. done.
  - by rewrite Hc.
  - intros r. rewrite Hc. intros Hin. destruct (H3 r Hin) as (R & HR & Hst).
    destruct (Forall2_lookup_l _ _ _ _ _ Ho HR) as (R' & HR' & Hn' & Hst' & _).
    exists R'. by rewrite Hst'.
  - intros r R' HR'. destruct (Forall2_lookup_r _ _ _ _ _ Ho HR') as (R & HR & Hn' & Hst' & _).
    unfold entry_of. rewrite Hr, Hc, Hn', Hst'. by apply H4.
  - rewrite Hr, Hs. exact H5.
  - intros r R' HR' Hrun. destruct (Forall2_lookup_r _ _ _ _ _ Ho HR') as (R & HR & Hn' & Hst' & Himp).
    rewrite Hst'. destruct (Himp Hrun) as [Hf|Hst]; [by eapply H6 | done].
Qed.

(** ** Each step *)
Ltac quiet_by r R :=
  eapply (quiet_room _ _ r R); [reflexivity | reflexivity | reflexivity | eassumption | reflexivity |];
  split_and!; auto.

Lemma try_leave_quiet r k s s' : try_leave r k s = Ok s' -> quiet s s'.
Proof.
  unfold try_leave. destruct (objs s !! r) as [R|] eqn:HR; [|done].
  intros (o & _ & H)%res_bind_inv. destruct o; simplify_eq; [|reflexivity].
  quiet_by r R.
Qed.

Lemma wstep_quiet R a w : wstep (r_world R) a = Ok w -> (forall e, a <> AEvent e) ->
  same_room R (with_world R w).
Proof.
  intros H Ha. split_and!; [done..|]. simpl. intros Hr. left. rewrite <- Hr.
  destruct a as [i u id k|e|i]; simpl in H; [|by destruct (Ha e)|].
  - destruct (heap _ !! i); by simplify_eq.
  - unfold writer_recv in H. destruct (heap _ !! i); [|by simplify_eq].
    destruct (recv _); by simplify_eq.
Qed.

Section Steps.
Context (unmarshal : string -> option Message).
Abbreviation sstep := (sstep unmarshal).

Lemma register_quiet k s s' : register k s = Ok s' -> quiet s s'.
Proof.
  unfold register. destruct (conns s !! k) as [c|]; [|intros [= <-]; reflexivity].
  destruct (c_phase c), (objs s !! c_room c) as [R|] eqn:HR; try (intros [= <-]; reflexivity).
  intros (o & _ & H)%res_bind_inv. destruct o; simplify_eq; [|reflexivity].
  quiet_by (c_room c) R.
Qed.

Lemma write_quiet k ok s s' : write k ok s = Ok s' -> quiet s s'.
Proof.
  unfold write. destruct (conns s !! k) as [c|]; [|intros [= <-]; reflexivity].
  destruct (c_phase c), (objs s !! c_room c) as [R|] eqn:HR; try (intros [= <-]; reflexivity).
  destruct (heap _ !! k) as [cl|]; [|done]. destruct (recv (out cl)).
  - intros (w & Hw & [= <-])%res_bind_inv. eapply (quiet_room _ _ (c_room c) R); try done.
    by eapply wstep_quiet.
  - intros [= <-]. by apply quiet_same.
  - intros [= <-]. reflexivity.
Qed.

Lemma read_quiet k frame now s s' : read unmarshal k frame now s = Ok s' -> quiet s s'.
Proof.
  unfold read. destruct (conns s !! k) as [c|]; [|intros [= <-]; reflexivity].
  destruct (c_read c), (objs s !! c_room c) as [R|] eqn:HR; try (intros [= <-]; reflexivity).
  destruct frame as [data|].
  - destruct (heap _ !! k) as [cl|]; [|done]. destruct (handle_frame _ _ _ _ _) as [l v].
    intros [= <-]. by apply quiet_same.
  - intros H. etransitivity; [|by eapply try_leave_quiet]. by apply quiet_same.
Qed.

Lemma forward_quiet k s s' : forward k s = Ok s' -> quiet s s'.
Proof.
  unfold forward. destruct (conns s !! k) as [c|]; [|intros [= <-]; reflexivity].
  destruct (c_read c), (objs s !! c_room c) as [R|] eqn:HR; try (intros [= <-]; reflexivity).
  intros (o & _ & H)%res_bind_inv. destruct o; simplify_eq; [|reflexivity].
  quiet_by (c_room c) R.
Qed.

Lemma finish_quiet k s s' : finish k s = Ok s' -> quiet s s'.
Proof.
  unfold finish. destruct (conns s !! k) as [c|]; [|intros [= <-]; reflexivity].
  destruct (c_phase c); try (intros [= <-]; reflexivity).
  intros H. etransitivity; [|by eapply try_leave_quiet]. by apply quiet_same.
Qed.

Lemma select_one_stop R src now e R' : select_one R src now = Some (e, R') ->
  r_name R' = r_name R /\ r_stop R' = r_stop R /\ r_world R' = r_world R /\
  (e = EStop -> ch_closed (r_stop R) = true).
Proof. destruct src; simpl; intros H; inv_match H; done. Qed.

Lemma room_loop_quiet r src now s s' : room_loop r src now s = Ok s' -> quiet s s'.
Proof.
  unfold room_loop. destruct (objs s !! r) as [R|] eqn:HR; [|intros [= <-]; reflexivity].
  destruct (_ || _); [intros [= <-]; reflexivity|].
  destruct (select_one R src now) as [[e R1]|] eqn:Hsel; [|intros [= <-]; reflexivity].
  destruct (select_one_stop _ _ _ _ _ Hsel) as (Hn & Hst & Hw & Hstop).
  intros ([R2 b] & H & [= <-])%res_bind_inv. unfold room_event in H.
  apply res_bind_inv in H as ([st' b'] & Hs & [= <- <-]).
  eapply (quiet_room _ _ r R); try done. split_and!; [done..|]. simpl.
  rewrite record_event_hub. intros Hf. rewrite Hw in Hs.
  destruct e as [i nw|i nw|msg uuid nw|]; [left|left|left|right; by apply Hstop].
  all: by rewrite <- (hub_step_running _ _ _ _ Hs).
Qed.
End Steps.

(** *** The manager's operations *)
Lemma set_timers_quiet ts s : quiet s (set_timers ts s).
Proof. by apply quiet_same. Qed.

(** Rewriting an entry for the same room. *)
Lemma reinsert_ok s n e e' : reg_ok s -> rooms (mgr s) !! n = Some e -> room e' = room e ->
  reg_ok (set_rooms (<[n := e']> (rooms (mgr s))) s).
Proof.
  intros [H1 H2 H3 H4 H5 H6] He Hr. split; simpl; try done.
  - intros m x. destruct (decide (n = m)) as [<-|Hne].
    + rewrite lookup_insert_eq. intros [= <-]. rewrite Hr. by apply H1.
    + rewrite lookup_insert_ne by done. apply H1.
  - intros r R HR. destruct (H4 r R HR) as [(x & Hx & Hxr)|[?|?]]; [left|auto..].
    unfold entry_of. simpl. destruct (decide (n = r_name R)) as [->|Hne].
    + rewrite lookup_insert_eq. exists e'. split; [done | congruence].
    + rewrite lookup_insert_ne by done. by exists x.
  - intros Hst. rewrite (H5 Hst) in He. by rewrite lookup_empty in He.
Qed.

Lemma getOrCreate_ok n s : reg_ok s -> reg_ok (fst (getOrCreate n s)).
Proof.
  intros Hok. unfold getOrCreate. destruct (stopped (mgr s)) eqn:Hst; [done|].
  destruct (rooms (mgr s) !! n) as [e|] eqn:He; simpl.
  - eapply quiet_ok; [apply set_timers_quiet|]. by eapply reinsert_ok.
  - destruct Hok as [H1 H2 H3 H4 H5 H6].
    assert (Hlen : forall r (R : Room), objs s !! r = Some R -> r < length (objs s)).
    { intros r R HR. by apply lookup_lt_Some in HR. }
    split; simpl.
    + intros m x. destruct (decide (n = m)) as [<-|Hne].
      * rewrite lookup_insert_eq. intros [= <-]. simpl. exists (newRoomObj n).
        rewrite lookup_app_r, Nat.sub_diag by done. split_and!; [done..|].
        intros Hin. destruct (H3 _ Hin) as (R & HR & _). apply Hlen in HR. lia.
      * rewrite lookup_insert_ne by done. intros Hx. destruct (H1 m x Hx) as (R & HR & ?).
        exists R. split; [|done]. by apply lookup_app_l_Some.
    + done.
    + intros r Hin. destruct (H3 r Hin) as (R & HR & ?). exists R. split; [by apply lookup_app_l_Some | done].
    + intros r R HR. apply lookup_app_Some in HR as [HR|[Hle HR]].
      * destruct (H4 r R HR) as [(x & Hx & Hxr)|?]; [left|by right].
        exists x. simpl. rewrite lookup_insert_ne; [done|]. intros ->. congruence.
      * left. destruct (r - length (objs s)) as [|j] eqn:Hj; [|done]. simpl in HR. simplify_eq.
        unfold entry_of. simpl. rewrite lookup_insert_eq. eexists; split; [done | simpl; lia].
    + congruence.
    + intros r R HR. apply lookup_app_Some in HR as [HR|[Hle HR]]; [by apply (H6 r)|].
      destruct (r - length (objs s)) as [|j]; [|done]. simpl in HR. by simplify_eq.
Qed.

Lemma getOrCreate_room n s s' r : reg_ok s -> getOrCreate n s = (s', Some r) ->
  exists R, objs s' !! r = Some R /\ r_name R = n.
Proof.
  intros Hok. unfold getOrCreate. destruct (stopped (mgr s)); [done|].
  destruct (rooms (mgr s) !! n) as [e|] eqn:He; intros [= <- <-]; simpl.
  - destruct (rg_entry s Hok n e He) as (R & ? & ? & _). by exists R.
  - exists (newRoomObj n). by rewrite lookup_app_r, Nat.sub_diag.
Qed.

Lemma scheduleReap_ok n s : reg_ok s -> reg_ok (scheduleReap n s).
Proof.
  intros Hok. unfold scheduleReap. destruct (rooms (mgr s) !! n) as [e|] eqn:He; [|done].
  eapply quiet_ok; [apply set_timers_quiet|]. by eapply reinsert_ok.
Qed.

(** An entry moves from the map to the rooms due for a close. *)
Lemma unregister_ok s n e : reg_ok s -> rooms (mgr s) !! n = Some e ->
  reg_ok (set_closing (closing s ++ [room e]) (set_rooms (delete n (rooms (mgr s))) s)).
Proof.
  intros [H1 H2 H3 H4 H5 H6] He. destruct (H1 n e He) as (R0 & HR0 & Hn0 & Hst0 & Hni).
  split; simpl; try done.
  - intros m x [Hne Hx]%lookup_delete_Some. destruct (H1 m x Hx) as (R & HR & Hm & Hst & Hnc).
    exists R. split_and!; [done..|]. rewrite elem_of_app, list_elem_of_singleton. intros [?|Heq]; [done|].
    rewrite Heq in HR. simplify_eq.
  - apply NoDup_app. split_and!; [done | | apply NoDup_singleton].
    intros x Hx. rewrite list_elem_of_singleton. by intros ->.
  - intros r. rewrite elem_of_app, list_elem_of_singleton. intros [Hr| ->]; [by apply H3 | by exists R0].
  - intros r R HR. rewrite elem_of_app, list_elem_of_singleton.
    destruct (H4 r R HR) as [(x & Hx & Hxr)|[?|?]]; [|auto..].
    destruct (decide (r_name R = n)) as [<-|Hne].
    + right; left; right. congruence.
    + left. exists x. simpl. by rewrite lookup_delete_ne.
  - intros Hst. rewrite (H5 Hst). apply delete_empty.
Qed.

Lemma reap_ok n s : reg_ok s -> reg_ok (reap n s).
Proof.
  intros Hok. unfold reap. destruct (rooms (mgr s) !! n) as [e|] eqn:He; [|done]. by apply unregister_ok.
Qed.

Lemma close_stop_ok r s : reg_ok s -> r ∈ closing s ->
  exists s', close_stop r s = Ok s' /\ reg_ok s'.
Proof.
  intros [H1 H2 H3 H4 H5 H6] Hr. destruct (H3 r Hr) as (R & HR & Hst).
  unfold close_stop. rewrite HR, close_open by done. simpl. eexists; split; [done|].
  assert (Hin : forall x, x ∈ filter (.≠ r) (closing s) <-> x <> r /\ x ∈ closing s)
    by (intros x; by rewrite list_elem_of_filter).
  pose proof (lookup_lt_Some _ _ _ HR) as Hlt.
  split; simpl.
  - intros n e He. destruct (H1 n e He) as (R' & HR' & Hn & Hst' & Hni).
    assert (Hne : r <> room e) by congruence. exists R'. rewrite list_lookup_insert_ne by done.
    split_and!; [done..|]. rewrite Hin. tauto.
  - by apply NoDup_filter.
  - intros x [Hne Hx]%Hin. rewrite list_lookup_insert_ne by done. by apply H3.
  - intros x Rx. destruct (decide (r = x)) as [<-|Hne].
    + rewrite list_lookup_insert_eq by done. intros [= <-]. by right; right.
    + rewrite list_lookup_insert_ne by done. intros Hx. rewrite Hin.
      destruct (H4 x Rx Hx) as [?|[?|?]]; auto.
  - done.
  - intros x Rx. destruct (decide (r = x)) as [<-|Hne].
    + rewrite list_lookup_insert_eq by done. by intros [= <-].
    + rewrite list_lookup_insert_ne by done. apply H6.
Qed.

(** *** Shutdown *)
Definition mark_stopped (s : chat) : chat :=
  set_mgr {| rooms := rooms (mgr s); limits := limits (mgr s); stopped := true |} s.

Lemma shutdown_loop_mark l s :
  foldl shutdown_one (mark_stopped s) l = mark_stopped (foldl shutdown_one s l).
Proof. revert s. induction l as [|ne l IH]; intros s; [done|]. simpl. by rewrite <- IH. Qed.

Lemma shutdown_loop l s : reg_ok s -> NoDup l.*1 ->
  (forall n e, (n, e) ∈ l -> rooms (mgr s) !! n = Some e) ->
  reg_ok (foldl shutdown_one s l) /\
  rooms (mgr (foldl shutdown_one s l)) = rooms (mgr s) ∖ list_to_map l.
Proof.
  revert s. induction l as [|[n e] l IH]; intros s Hok Hnd Hin; cbn [foldl].
  { split; [done|]. symmetry. apply (map_difference_empty (rooms (mgr s))). }
  apply NoDup_cons in Hnd as [Hn Hnd].
  destruct (IH (shutdown_one s (n, e))) as [Hok' Hr].
  - eapply (quiet_ok (set_closing (closing s ++ [room e]) (set_rooms (delete n (rooms (mgr s))) s)));
      [apply (set_timers_quiet (stop_timer (reapTimer e) (timers s)))|].
    apply unregister_ok; [done|]. apply Hin. by left.
  - done.
  - intros m x Hx. simpl. rewrite lookup_delete_ne; [apply Hin; by right|].
    intros ->. apply Hn. apply list_elem_of_fmap. by exists (m, x).
  - split; [done|]. rewrite Hr. simpl. apply map_eq. intros m.
    rewrite !lookup_difference. destruct (decide (n = m)) as [<-|Hne].
    + rewrite lookup_insert_eq, lookup_delete_eq. by destruct (_ !! n).
    + by rewrite lookup_insert_ne, lookup_delete_ne.
Qed.

Lemma shutdownAll_ok s : reg_ok s ->
  reg_ok (shutdownAll s) /\ rooms (mgr (shutdownAll s)) = ∅ /\ stopped (mgr (shutdownAll s)) = true.
Proof.
  intros Hok. unfold shutdownAll. fold (mark_stopped s). rewrite shutdown_loop_mark.
  destruct (shutdown_loop (map_to_list (rooms (mgr s))) s Hok) as [Hok' Hr].
  - apply NoDup_fst_map_to_list.
  - intros n e. apply elem_of_map_to_list.
  - rewrite list_to_map_to_list, map_difference_diag in Hr. split; [|done].
    destruct Hok' as [H1 H2 H3 H4 H5 H6]. by split.
Qed.

Section Runs.
Context (unmarshal : string -> option Message).
Abbreviation sstep := (sstep unmarshal).

Lemma accept_ok n u uid k s s' : reg_ok s -> accept n u uid k s = Ok s' -> reg_ok s'.
Proof.
  intros Hok. unfold accept. pose proof (getOrCreate_ok n s Hok) as Hok1.
  destruct (getOrCreate n s) as [s1 [r|]]; [|by intros [= <-]]. simpl in Hok1.
  destruct (objs s1 !! r) as [R|] eqn:HR; [|done].
  intros (w & Hw & [= <-])%res_bind_inv. eapply quiet_ok; [|exact Hok1].
  eapply (quiet_room _ _ r R); try done. by eapply wstep_quiet.
Qed.

(** Every action of every goroutine keeps the registry well-formed. *)
Lemma sstep_reg_ok s a s' : reg_ok s -> sstep s a = Ok s' -> reg_ok s'.
Proof.
  intros Hok H.
  assert (Hq : quiet s s' -> reg_ok s') by (intros Hq; by eapply quiet_ok).
  destruct a as [n u i k|k|k|k ok|k|k fr now|k|k|r src now|r|t|t|r|]; simpl in H.
  - by eapply accept_ok.
  - by eapply Hq, register_quiet.
  - apply Hq. simplify_eq. unfold cancel. destruct (conns s !! k) as [c|]; [|done].
    destruct (c_phase c); try done.
  - by eapply Hq, write_quiet.
  - by eapply Hq, finish_quiet.
  - by eapply Hq, read_quiet.
  - by eapply Hq, forward_quiet.
  - apply Hq. simplify_eq. unfold read_cancel. destruct (conns s !! k) as [c|]; [|done].
    destruct (c_read c); try done.
  - by eapply Hq, room_loop_quiet.
  - simplify_eq. unfold on_empty. destruct (objs s !! r) as [R|] eqn:HR; [|done].
    destruct (r_empty R); [|done]. apply scheduleReap_ok. eapply quiet_ok; [|exact Hok]. quiet_by r R.
  - apply Hq. simplify_eq. unfold fire. destruct (timers s !! t) as [tm|]; [|done].
    destruct (t_state tm); try done.
  - simplify_eq. unfold timer_reap. destruct (timers s !! t) as [tm|]; [|done].
    destruct (t_state tm); try done. apply reap_ok. eapply quiet_ok; [|exact Hok]. by apply quiet_same.
  - case_decide as Hin; [|by simplify_eq]. destruct (close_stop_ok r s Hok Hin) as (s1 & H1 & ?).
    congruence.
  - simplify_eq. by apply shutdownAll_ok.
Qed.

Lemma newChat_reg_ok opts : reg_ok (newChat opts).
Proof.
  split; simpl; try done.
  - constructor.
  - intros r Hr. by apply not_elem_of_nil in Hr.
Qed.

Lemma steps_reg_ok acts s s' : reg_ok s -> mfoldl sstep s acts = Ok s' -> reg_ok s'.
Proof.
  intros Hok H. refine (mfoldl_preserves reg_ok _ _ _ _ _ H Hok).
  intros x a y Hs Hx. by eapply sstep_reg_ok.
Qed.

Lemma srun_reg_ok opts acts s : srun unmarshal opts acts = Ok s -> reg_ok s.
Proof. apply steps_reg_ok, newChat_reg_ok. Qed.

(** *** Once stopped, stopped *)
Lemma foldl_shutdown_stopped l s :
  stopped (mgr (foldl shutdown_one s l)) = stopped (mgr s).
Proof. revert s. induction l as [|ne l IH]; intros s; [done|]. simpl. by rewrite IH. Qed.

Lemma scheduleReap_stopped n s : stopped (mgr (scheduleReap n s)) = stopped (mgr s).
Proof. unfold scheduleReap. by destruct (rooms (mgr s) !! n). Qed.

Lemma reap_stopped n s : stopped (mgr (reap n s)) = stopped (mgr s).
Proof. unfold reap. by destruct (rooms (mgr s) !! n). Qed.

Lemma sstep_stopped s a s' : sstep s a = Ok s' -> stopped (mgr s) = true -> stopped (mgr s') = true.
Proof.
  intros H Hst.
  assert (Hq : quiet s s' -> stopped (mgr s') = true) by (intros [_ -> _ _]; done).
  destruct a as [n u i k|k|k|k ok|k|k fr now|k|k|r src now|r|t|t|r|]; simpl in H.
  - unfold accept, getOrCreate in H. rewrite Hst in H. by simplify_eq.
  - by eapply Hq, register_quiet.
  - simplify_eq. unfold cancel. destruct (conns s !! k) as [c|]; [|done]. by destruct (c_phase c).
  - by eapply Hq, write_quiet.
  - by eapply Hq, finish_quiet.
  - by eapply Hq, read_quiet.
  - by eapply Hq, forward_quiet.
  - simplify_eq. unfold read_cancel. destruct (conns s !! k) as [c|]; [|done]. by destruct (c_read c).
  - by eapply Hq, room_loop_quiet.
  - simplify_eq. unfold on_empty. destruct (objs s !! r) as [R|]; [|done].
    destruct (r_empty R); [|done]. by rewrite scheduleReap_stopped.
  - simplify_eq. unfold fire. destruct (timers s !! t) as [tm|]; [|done]. by destruct (t_state tm).
  - simplify_eq. unfold timer_reap. destruct (timers s !! t) as [tm|]; [|done].
    destruct (t_state tm); try done. by rewrite reap_stopped.
  - case_decide; [|by simplify_eq]. unfold close_stop in H. destruct (objs s !! r); [|done].
    apply res_bind_inv in H as (st & _ & [= <-]). done.
  - simplify_eq. unfold shutdownAll. by rewrite foldl_shutdown_stopped.
Qed.
End Runs.
