(* ===== verification/ChatSafe.v ===== *)
(** * Runs of the chat system that cannot panic

    The invariant [sys_ok]: every room's world is well-formed, the clients in
    a join queue are fresh, and whoever has registered is either still queued,
    or known to the room, or gone.  It is kept by every action that avoids the
    two ways a room can be made to panic ([polite]). *)

From S2P Require Import Prelude Chan Tally Hub HubInv HubTrace RateLimit Ws Manager ChatSys ChatInv.

(** ** What an event does to the other clients *)
Definition settled (st : hub) (j : nat) : Prop :=
  exists c, heap st !! j = Some c /\ (j ∈ clients st \/ closed c = true).
Definition is_fresh (st : hub) (j : nat) : Prop := exists c, fresh st j c.

Record keeps (joins : nat -> Prop) (st st' : hub) : Prop := {
  kp_fresh : forall j, ~ joins j -> is_fresh st j -> is_fresh st' j;
  kp_settled : forall j, settled st j -> settled st' j;
  kp_dom : forall j, is_Some (heap st' !! j) -> is_Some (heap st !! j)
}.

Lemma keeps_refl P st : keeps P st st.
Proof. by split. Qed.

Lemma keeps_trans P st1 st2 st3 : keeps P st1 st2 -> keeps P st2 st3 -> keeps P st1 st3.
Proof. intros [A1 A2 A3] [B1 B2 B3]. split; eauto. Qed.

Lemma delivers_keeps P ms st st' : hub_ok st -> delivers ms st st' -> keeps P st st'.
Proof.
  intros Hok Hd. split.
  - intros j _ (c & Hc & Hcl & Ho & Hni). exists c.
    split_and!; [by rewrite (dl_other _ _ _ Hd) | done | done | by intros ?%(dl_sub _ _ _ Hd)].
  - intros j (c & Hc & Hin). destruct (decide (j ∈ clients st)) as [Hj|Hj].
    + destruct (decide (j ∈ clients st')) as [Hj'|Hj'].
      * exists (appended ms c). split; [by apply (dl_kept _ _ _ Hd) | by left].
      * destruct (dl_evicted _ _ _ Hd j Hj Hj') as (c' & ? & ?). exists c'. auto.
    + destruct Hin as [?|Hcl]; [done|]. exists c. split; [by rewrite (dl_other _ _ _ Hd) | by right].
  - intros j [c' Hc']. destruct (decide (j ∈ clients st)) as [Hj|Hj].
    + destruct (ok_live st Hok j Hj) as (c & Hc & _). by exists c.
    + rewrite <- (dl_other _ _ _ Hd) by done. by exists c'.
Qed.

Lemma registered_keeps st i c : fresh st i c ->
  keeps (.= i) st (registered st i c) /\ settled (registered st i c) i.
Proof.
  intros (Hi & _). split.
  - split; simpl.
    + intros j Hne (cj & Hc & Hcl & Ho & Hni). exists cj. unfold fresh. simpl.
      rewrite lookup_insert_ne by congruence. split_and!; [done..|]. set_solver.
    + intros j (cj & Hc & Hin). unfold settled. simpl. destruct (decide (i = j)) as [<-|Hne].
      * rewrite lookup_insert_eq. eexists; split; [done|]. left. set_solver.
      * rewrite lookup_insert_ne by done. exists cj. split; [done|].
        destruct Hin as [?|?]; [left; set_solver | by right].
    + intros j. destruct (decide (i = j)) as [<-|Hne]; [by rewrite Hi|]. by rewrite lookup_insert_ne.
  - unfold settled. simpl. rewrite lookup_insert_eq. eexists; split; [done|]. left. set_solver.
Qed.

(** Rewriting a registered client's queue. *)
Lemma store_keeps P st i c c' : heap st !! i = Some c -> i ∈ clients st -> keeps P st (store i c' st).
Proof.
  intros Hi Hm. split; simpl.
  - intros j _ (cj & Hc & Hcl & Ho & Hni). assert (i <> j) by (by intros ->).
    exists cj. unfold fresh. simpl. by rewrite lookup_insert_ne.
  - intros j (cj & Hc & Hin). unfold settled. simpl. destruct (decide (i = j)) as [<-|Hne].
    + rewrite lookup_insert_eq. eexists; split; [done | by left].
    + rewrite lookup_insert_ne by done. by exists cj.
  - intros j. destruct (decide (i = j)) as [<-|Hne]; [by rewrite Hi|]. by rewrite lookup_insert_ne.
Qed.

Lemma without_keeps P st i c : heap st !! i = Some c -> i ∈ clients st -> keeps P st (without st i c).
Proof.
  intros Hi Hm. split; simpl.
  - intros j _ (cj & Hc & Hcl & Ho & Hni). assert (i <> j) by (by intros ->).
    exists cj. unfold fresh. simpl. rewrite lookup_insert_ne by done. split_and!; [done..|]. set_solver.
  - intros j (cj & Hc & Hin). unfold settled. simpl. destruct (decide (i = j)) as [<-|Hne].
    + rewrite lookup_insert_eq. eexists; split; [done | by right].
    + rewrite lookup_insert_ne by done. exists cj. split; [done|].
      destruct Hin as [?|?]; [left; set_solver | by right].
  - intros j. destruct (decide (i = j)) as [<-|Hne]; [by rewrite Hi|]. by rewrite lookup_insert_ne.
Qed.

Lemma on_join_keeps st i c now st' : hub_ok st -> fresh st i c -> backlog_fits st c ->
  on_join st i now = Ok st' -> keeps (.= i) st st' /\ settled st' i.
Proof.
  intros Hok Hfr Hfit Hj. pose proof (registered_ok st i c Hok Hfr Hfit) as Hreg.
  destruct (registered_keeps st i c Hfr) as [Hk Hs].
  assert (Hall : forall st2, keeps (.= i) (registered st i c) st2 -> keeps (.= i) st st2 /\ settled st2 i).
  { intros st2 H2. split; [by eapply keeps_trans | by apply (kp_settled _ _ _ H2)]. }
  apply Hall. destruct (first_viewer st c) eqn:Hfv.
  - destruct (on_join_first st i c now) as (st1 & st2 & Hj' & Hd1 & Hd2 & _); [done..|].
    rewrite Hj in Hj'. simplify_eq.
    eapply keeps_trans; eapply delivers_keeps; [| exact Hd1 | | exact Hd2]; [done | apply Hd1].
  - rewrite (on_join_again st i c now) in Hj by done. simplify_eq. unfold tell_count.
    destruct (full _); [apply keeps_refl|]. eapply store_keeps; simpl; [by rewrite lookup_insert_eq | set_solver].
Qed.

Lemma on_leave_keeps P st i now st' b : hub_ok st -> settled st i ->
  on_leave st i now = Ok (st', b) -> keeps P st st'.
Proof.
  intros Hok (c & Hc & Hin) Hl. destruct (decide (i ∈ clients st)) as [Hi|Hi].
  - destruct (on_leave_member st i c now) as (st1 & st2 & Hl' & Hd1 & Hd2); [done..|].
    rewrite Hl' in Hl. simplify_eq. destruct (removeClient_without st i c Hok Hi Hc) as [_ Hw].
    eapply keeps_trans; [by eapply without_keeps|]. eapply keeps_trans; [by eapply delivers_keeps|].
    destruct (last_viewer st i c); destruct Hd2 as [Hd2 _]; [|subst; apply keeps_refl].
    eapply delivers_keeps; [apply Hd1 | done].
  - destruct Hin as [?|Hcl]; [done|]. rewrite (on_leave_gone st i c) in Hl by done.
    simplify_eq. apply keeps_refl.
Qed.

Lemma on_send_keeps P st msg id now st' : hub_ok st -> on_send st msg (Some id) now = Ok st' -> keeps P st st'.
Proof.
  intros Hok Hs. destruct (on_send_spec st msg id now Hok) as (st1 & Hs' & Hd & _).
  rewrite Hs in Hs'. simplify_eq.
  eapply keeps_trans; [|eapply delivers_keeps; [|exact Hd]]; [by split | by apply appendHistory_ok].
Qed.

Lemma on_stop_keeps P st st' : hub_ok st -> on_stop st = Ok st' -> keeps P st st'.
Proof.
  intros Hok Hs. destruct (on_stop_spec st Hok) as (st1 & Hs' & _ & _ & Hcs & _ & Hh).
  rewrite Hs in Hs'. simplify_eq.
  split.
  - intros j _ (c & Hc & Hcl & Ho & Hni). exists c. split_and!; [|done..|by rewrite Hcs].
    by rewrite Hh, decide_False, Hc.
  - intros j (c & Hc & Hin). unfold settled. rewrite Hh, Hc. simpl. eexists; split; [done|]. right.
    case_decide; [done|]. by destruct Hin.
  - intros j. rewrite Hh. intros [c Hc]. by apply fmap_Some in Hc as (d & -> & _).
Qed.

Definition joins_of (e : event) (j : nat) : Prop := match e with EJoin i _ => j = i | _ => False end.

Lemma event_keeps w e st' b : world_ok w -> running (w_hub w) = true -> behaves w (AEvent e) ->
  hub_step (w_hub w) e = Ok (st', b) ->
  keeps (joins_of e) (w_hub w) st' /\ (forall i, joins_of e i -> settled st' i).
Proof.
  intros Hw Hr Hb Hs. pose proof (wo_hub w Hw) as Hok. unfold hub_step in Hs. rewrite Hr in Hs. simpl in Hs.
  destruct e as [i now|i now|msg uuid now|]; simpl in Hb.
  - destruct Hb as (c & Hfr & Hlen). apply res_bind_inv in Hs as (st1 & Hs & [= <- <-]).
    destruct (on_join_keeps (w_hub w) i c now st1) as [Hk Hi]; [done..| |done|].
    { by eapply fits_of_fresh. }
    split; [done|]. by intros ? ->.
  - split; [|done]. eapply on_leave_keeps; [done | | done].
    destruct Hb as [Hi|(c & Hc & Hcl)]; [|exists c; auto].
    destruct (ok_live _ Hok i Hi) as (c & Hc & _). exists c; auto.
  - destruct Hb as [id ->]. apply res_bind_inv in Hs as (st1 & Hs & [= <- <-]).
    split; [|done]. by eapply on_send_keeps.
  - apply res_bind_inv in Hs as (st1 & Hs & [= <- <-]). split; [|done]. by eapply on_stop_keeps.
Qed.

Lemma classic_joins e j : joins_of e j \/ ~ joins_of e j.
Proof. destruct e as [i ?|? ?|? ? ?|]; simpl; [destruct (decide (j = i)); auto | auto..]. Qed.

(** A writer's receive: the queue shrinks, nothing else. *)
Lemma writer_keeps P w i w' : world_ok w -> settled (w_hub w) i -> wstep w (AWrite i) = Ok w' ->
  keeps P (w_hub w) (w_hub w').
Proof.
  intros Hw (c & Hc & Hin). simpl. unfold writer_recv. rewrite Hc. unfold recv.
  destruct (ch_buf (out c)) as [|m buf]; [destruct (ch_closed (out c)); intros [= <-]; apply keeps_refl|].
  intros [= <-]. simpl. split; simpl.
  - intros j _ (cj & Hcj & Hcl & Ho & Hni). assert (i <> j) by (intros ->; destruct Hin; congruence).
    exists cj. unfold fresh. simpl. by rewrite lookup_insert_ne.
  - intros j (cj & Hcj & Hj). unfold settled. simpl. destruct (decide (i = j)) as [<-|Hne].
    + rewrite lookup_insert_eq. eexists; split; [done|]. simpl. destruct Hin; auto.
    + rewrite lookup_insert_ne by done. by exists cj.
  - intros j. destruct (decide (i = j)) as [<-|Hne]; [by rewrite Hc|]. by rewrite lookup_insert_ne.
Qed.

(** ** The invariant *)
Definition joined (c : conn) : bool := match c_read c with NotStarted => false | _ => true end.

Record room_ok (cs : list conn) (r : nat) (R : Room) : Prop := {
  ro_world : world_ok (r_world R);
  ro_open : ch_closed (r_join R) = false /\ ch_closed (r_leave R) = false /\ ch_closed (r_send R) = false;
  ro_nodup : NoDup (ch_buf (r_join R));
  ro_queued : forall i, i ∈ ch_buf (r_join R) \/ i ∈ ch_buf (r_leave R) ->
    exists c, cs !! i = Some c /\ c_room c = r /\ joined c = true;
  ro_dom : forall i, is_Some (heap (w_hub (r_world R)) !! i) -> i < length cs;
  ro_conn : forall k c, cs !! k = Some c -> c_room c = r ->
    if joined c
    then (k ∈ ch_buf (r_join R) /\ is_fresh (w_hub (r_world R)) k) \/
         ((k ∉ ch_buf (r_join R)) /\ settled (w_hub (r_world R)) k)
    else is_fresh (w_hub (r_world R)) k
}.

Record sys_ok (s : chat) : Prop := {
  so_rooms : forall r R, objs s !! r = Some R -> room_ok (conns s) r R;
  so_conns : forall k c, conns s !! k = Some c ->
    (exists R, objs s !! c_room c = Some R) /\
    match c_phase c with
    | Joining => joined c = false
    | Serving | Leaving => joined c = true
    | Gone => True
    end
}.

(** The two things a run has to avoid: a backlog longer than a client's queue
    at a join, and a leave received while its client is still in the join
    queue; [uuid.NewV7] must not fail either. *)
Definition polite (s : chat) (a : sact) : Prop :=
  match a with
  | SRoom r FromJoin _ =>
      forall R, objs s !! r = Some R -> length (history (w_hub (r_world R))) <= clientSendBuffer
  | SRoom r FromLeave _ =>
      forall R i l, objs s !! r = Some R -> recv (r_leave R) = Received i l -> i ∉ ch_buf (r_join R)
  | SRoom _ (FromSend uuid) _ => is_Some uuid
  | _ => True
  end.

(** *** Changing connections, changing one room *)
Definition same_conn (c c' : conn) : Prop := c_room c' = c_room c /\ joined c' = joined c.

Lemma room_ok_conns cs cs' r R : Forall2 same_conn cs cs' -> room_ok cs r R -> room_ok cs' r R.
Proof.
  intros Hf [H1 H2 H3 H4 H5 H6]. split; try done.
  - intros i Hi. destruct (H4 i Hi) as (c & Hc & Hr & Hj).
    destruct (Forall2_lookup_l _ _ _ _ _ Hf Hc) as (c' & Hc' & Hr' & Hj'). exists c'. by rewrite Hr', Hj'.
  - intros i Hi. rewrite <- (Forall2_length _ _ _ Hf). by apply H5.
  - intros k c' Hc' Hr'. destruct (Forall2_lookup_r _ _ _ _ _ Hf Hc') as (c & Hc & Hr & Hj).
    rewrite Hj. apply H6; [done | congruence].
Qed.

Lemma same_conns_insert cs k c c' : cs !! k = Some c -> same_conn c c' -> Forall2 same_conn cs (<[k:=c']> cs).
Proof.
  intros Hc Hs. rewrite <- (list_insert_id cs k c) at 1 by done.
  apply Forall2_insert; [|done]. by apply Forall_Forall2_diag, Forall_true.
Qed.

Definition phase_ok (c : conn) : Prop :=
  match c_phase c with Joining => joined c = false | Serving | Leaving => joined c = true | Gone => True end.

Lemma set_conn_ok s k c c' : sys_ok s -> conns s !! k = Some c -> same_conn c c' -> phase_ok c' ->
  sys_ok (set_conn k c' s).
Proof.
  intros [H1 H2] Hc Hs Hp. split; simpl.
  - intros r R HR. eapply room_ok_conns; [by eapply same_conns_insert | by apply H1].
  - intros j x. destruct (decide (k = j)) as [<-|Hne].
    + rewrite list_lookup_insert_eq by (by eapply lookup_lt_Some). intros [= <-].
      destruct Hs as [Hr _]. rewrite Hr. split; [by apply (H2 k c) | done].
    + rewrite list_lookup_insert_ne by done. apply H2.
Qed.

Lemma set_room_ok s r R R' : sys_ok s -> objs s !! r = Some R -> room_ok (conns s) r R' ->
  sys_ok (set_room r R' s).
Proof.
  intros [H1 H2] HR Hok. pose proof (lookup_lt_Some _ _ _ HR) as Hlt. split; simpl.
  - intros q Q. destruct (decide (r = q)) as [<-|Hne].
    + rewrite list_lookup_insert_eq by done. by intros [= <-].
    + rewrite list_lookup_insert_ne by done. apply H1.
  - intros k c Hc. destruct (H2 k c Hc) as [[Q HQ] Hp]. split; [|done].
    destruct (decide (r = c_room c)) as [<-|Hne].
    + exists R'. by rewrite list_lookup_insert_eq.
    + exists Q. by rewrite list_lookup_insert_ne.
Qed.

(** Only the manager, the timers or the rooms due for a close changed. *)
Lemma sys_ok_same s s' : objs s' = objs s -> conns s' = conns s -> sys_ok s -> sys_ok s'.
Proof. intros Ho Hc [H1 H2]. split; rewrite Ho, Hc; done. Qed.

Lemma room_ok_world cs r R w : room_ok cs r R -> world_ok w ->
  keeps (fun _ => False) (w_hub (r_world R)) (w_hub w) -> room_ok cs r (with_world R w).
Proof.
  intros [H1 H2 H3 H4 H5 H6] Hw [K1 K2 K3]. split; simpl; try done.
  - intros i Hi. by apply H5, K3.
  - intros k c Hc Hr. specialize (H6 k c Hc Hr). destruct (joined c); [|by apply K1; auto].
    destruct H6 as [[Hin Hf]|[Hin Hset]]; [left; split; [done | by apply K1; auto] | right; split; [done | by apply K2]].
Qed.

Lemma try_send_open_cases {A} (ch : chan A) a : ch_closed ch = false ->
  exists o, try_send ch a = Ok o /\ (o = None \/ o = Some (push a ch)).
Proof. intros H. rewrite try_send_open by done. eexists; split; [done|]. destruct (full ch); auto. Qed.

Lemma try_leave_safe s r k c : sys_ok s -> conns s !! k = Some c -> c_room c = r -> joined c = true ->
  exists s', try_leave r k s = Ok s' /\ sys_ok s'.
Proof.
  intros Hok Hc Hr Hj. destruct (so_conns s Hok k c Hc) as [[R HR] _]. rewrite Hr in HR.
  pose proof (so_rooms s Hok r R HR) as HRok. destruct HRok as [H1 (Hjo & Hlo & Hso) H3 H4 H5 H6].
  unfold try_leave. rewrite HR. destruct (try_send_open_cases (r_leave R) k Hlo) as (o & -> & Ho). simpl.
  destruct Ho as [-> | ->]; [by exists s|]. eexists; split; [done|].
  apply (set_room_ok s r R); [done..|]. split; simpl; try done.
  intros i. rewrite elem_of_app, list_elem_of_singleton. intros [?|[?| ->]]; [apply H4; auto..|].
  by exists c.
Qed.

(** ** Every polite action succeeds and keeps the invariant *)
Section Safe.
Context (unmarshal : string -> option Message).
Abbreviation sstep := (sstep unmarshal).

Lemma newRoomObj_ok cs r n : (forall k c, cs !! k = Some c -> c_room c <> r) -> room_ok cs r (newRoomObj n).
Proof.
  intros Hcs. split; simpl; try done.
  - apply newWorld_ok.
  - constructor.
  - intros i [Hi|Hi]; by apply not_elem_of_nil in Hi.
  - intros i. rewrite lookup_empty. by intros [? ?].
  - intros k c Hc Hr. by destruct (Hcs k c Hc).
Qed.

Lemma getOrCreate_safe n s : sys_ok s ->
  sys_ok (getOrCreate n s).1 /\ conns (getOrCreate n s).1 = conns s.
Proof.
  intros Hok. unfold getOrCreate. destruct (stopped (mgr s)); [done|].
  destruct (rooms (mgr s) !! n) as [e|]; simpl; [split; [|done]; by eapply sys_ok_same; [..|exact Hok]|].
  split; [|done]. destruct Hok as [H1 H2].
  assert (Hrooms : forall k c, conns s !! k = Some c -> c_room c < length (objs s)).
  { intros k c Hc. destruct (H2 k c Hc) as [[R HR] _]. by eapply lookup_lt_Some. }
  split; simpl.
  - intros r R. rewrite lookup_app_Some. intros [HR|[Hle HR]]; [by apply H1|].
    destruct (r - length (objs s)) as [|j] eqn:Hj; [|done]. simpl in HR. simplify_eq.
    apply newRoomObj_ok. intros k c Hc. specialize (Hrooms k c Hc). lia.
  - intros k c Hc. destruct (H2 k c Hc) as [[R HR] Hp]. split; [|done]. exists R. by apply lookup_app_l_Some.
Qed.

(** A new connection, seen from the connections and rooms there were. *)
Lemma conn_appended (cs : list conn) c0 j c : (cs ++ [c0]) !! j = Some c -> cs !! j = Some c \/ (j = length cs /\ c = c0).
Proof.
  rewrite lookup_app_Some. intros [?|[Hle Hc]]; [by left|]. right.
  destruct (j - length cs) as [|x] eqn:E; [|done]. simpl in Hc. simplify_eq. split; [lia | done].
Qed.

Lemma room_ok_appended cs c0 q Q : room_ok cs q Q -> c_room c0 <> q -> room_ok (cs ++ [c0]) q Q.
Proof.
  intros [Q1 Q2 Q3 Q4 Q5 Q6] Hqr. split; try done.
  - intros i Hi. destruct (Q4 i Hi) as (c & Hc & ?). exists c. split; [by apply lookup_app_l_Some | done].
  - intros i Hi. rewrite length_app. specialize (Q5 i Hi). lia.
  - intros j c Hc Hr. destruct (conn_appended _ _ _ _ Hc) as [Hc'|(_ & ->)]; [by apply Q6 | congruence].
Qed.

Lemma accept_connect s r R u uid a : sys_ok s -> objs s !! r = Some R ->
  exists w, wstep (r_world R) (AConnect (length (conns s)) u uid a) = Ok w /\
    sys_ok (set_conns (conns s ++ [{| c_room := r; c_phase := Joining; c_read := NotStarted; c_errs := [] |}])
              (set_room r (with_world R w) s)).
Proof.
  intros Hok HR. pose proof (so_rooms s Hok r R HR) as [H1 H2 H3 H4 H5 H6]. set (k := length (conns s)).
  assert (Hnone : heap (w_hub (r_world R)) !! k = None).
  { destruct (heap _ !! k) eqn:E; [|done]. assert (k < length (conns s)) by (apply H5; eauto). lia. }
  cbn [wstep]. rewrite Hnone. eexists; split; [done|].
  set (hub' := store k (new_client u uid a) (w_hub (r_world R))).
  assert (Hni : k ∉ clients (w_hub (r_world R))).
  { intros Hm. destruct (ok_live _ (wo_hub _ H1) k Hm) as (? & ? & _). congruence. }
  assert (Hf : forall j, is_fresh (w_hub (r_world R)) j -> is_fresh hub' j).
  { intros j (c & Hc & Hrest). assert (k <> j) by congruence. exists c. unfold fresh, hub'. simpl.
    by rewrite lookup_insert_ne. }
  assert (Hs : forall j, settled (w_hub (r_world R)) j -> settled hub' j).
  { intros j (c & Hc & Hrest). assert (k <> j) by congruence. exists c. unfold hub'. simpl.
    by rewrite lookup_insert_ne. }
  destruct Hok as [HA HB]. split; simpl.
  - intros q Q HQ.
    destruct (decide (r = q)) as [<-|Hne].
    + rewrite list_lookup_insert_eq in HQ by (by eapply lookup_lt_Some). simplify_eq. split; simpl; try done.
      * by apply connect_world_ok.
      * intros i Hi. destruct (H4 i Hi) as (c & Hc & ?). exists c. split; [by apply lookup_app_l_Some | done].
      * intros i. rewrite length_app. simpl. fold k. destruct (decide (k = i)) as [<-|Hne]; [lia|].
        rewrite lookup_insert_ne by done. intros Hi. specialize (H5 i Hi). fold k in H5. lia.
      * intros j c Hc Hr. destruct (conn_appended _ _ _ _ Hc) as [Hc'|(-> & ->)].
        -- specialize (H6 j c Hc' Hr). destruct (joined c); [|by apply Hf].
           destruct H6 as [[? ?]|[? ?]]; [left; split; [done | by apply Hf] | right; split; [done | by apply Hs]].
        -- exists (new_client u uid a). split_and!; [simpl; by rewrite lookup_insert_eq | done..].
    + rewrite list_lookup_insert_ne in HQ by done. apply room_ok_appended; [by apply HA | done].
  - intros j c Hc. assert (Hex : forall x, (exists Q, objs s !! x = Some Q) -> exists Q, <[r:=with_world R {| w_hub := hub'; w_wire := w_wire (r_world R); w_sent := w_sent (r_world R); w_base := w_base (r_world R) |}]> (objs s) !! x = Some Q).
    { intros x [Q HQ]. destruct (decide (r = x)) as [<-|Hne].
      - rewrite list_lookup_insert_eq by (by eapply lookup_lt_Some). eauto.
      - rewrite list_lookup_insert_ne by done. eauto. }
    destruct (conn_appended _ _ _ _ Hc) as [Hc'|(-> & ->)].
    + destruct (HB j c Hc') as [Hq Hp]. split; [by apply Hex | done].
    + split; [apply Hex; eauto | done].
Qed.

(** The reader starts: the client is in the queue of its room. *)
Definition served (c : conn) : conn :=
  {| c_room := c_room c; c_phase := Serving; c_read := Reading; c_errs := c_errs c |}.

Lemma served_lookup (cs : list conn) k c j x : cs !! k = Some c -> <[k:=served c]> cs !! j = Some x ->
  (j = k /\ x = served c) \/ (j <> k /\ cs !! j = Some x).
Proof.
  intros Hc. destruct (decide (k = j)) as [<-|Hne].
  - rewrite list_lookup_insert_eq by (by eapply lookup_lt_Some). intros [= <-]. by left.
  - rewrite list_lookup_insert_ne by done. right. split; congruence.
Qed.

Lemma served_elsewhere cs k c q Q : cs !! k = Some c -> joined c = false -> q <> c_room c ->
  room_ok cs q Q -> room_ok (<[k:=served c]> cs) q Q.
Proof.
  intros Hc Hnj Hq [Q1 Q2 Q3 Q4 Q5 Q6]. split; try done.
  - intros i Hi. destruct (Q4 i Hi) as (x & Hx & Hr & Hj). exists x.
    rewrite list_lookup_insert_ne; [done|]. intros <-. congruence.
  - intros i. rewrite length_insert. apply Q5.
  - intros j x Hx Hr. destruct (served_lookup cs k c j x Hc Hx) as [[-> ->]|[_ Hx']]; [done | by apply Q6].
Qed.

Lemma served_room cs k c R : cs !! k = Some c -> joined c = false -> room_ok cs (c_room c) R ->
  room_ok (<[k:=served c]> cs) (c_room c) (with_join R (push k (r_join R))).
Proof.
  intros Hc Hnj [H1 (Hjo & Hlo & Hso) H3 H4 H5 H6]. pose proof (lookup_lt_Some _ _ _ Hc) as Hlt.
  assert (Hnin : k ∉ ch_buf (r_join R)) by (intros Hin; destruct (H4 k (or_introl Hin)) as (x & Hx & _ & Hj); congruence).
  split; simpl; try done.
  - apply NoDup_app. split_and!; [done | | apply NoDup_singleton]. intros x Hx. rewrite list_elem_of_singleton. by intros ->.
  - intros i. rewrite elem_of_app, list_elem_of_singleton. intros Hi. destruct (decide (i = k)) as [->|Hik].
    + exists (served c). by rewrite list_lookup_insert_eq.
    + rewrite list_lookup_insert_ne by done. apply H4. tauto.
  - intros i. rewrite length_insert. apply H5.
  - intros j x Hx Hr. destruct (served_lookup cs k c j x Hc Hx) as [[-> ->]|[Hjk Hx']]; simpl.
    + left. split; [set_solver|]. specialize (H6 k c Hc eq_refl). by rewrite Hnj in H6.
    + specialize (H6 j x Hx' Hr). destruct (joined x); [|done].
      destruct H6 as [[? ?]|[? ?]]; [left | right]; (split; [set_solver | done]).
Qed.

Lemma register_safe k s : sys_ok s -> exists s', register k s = Ok s' /\ sys_ok s'.
Proof.
  intros Hok. unfold register. destruct (conns s !! k) as [c|] eqn:Hc; [|by eexists].
  destruct (so_conns s Hok k c Hc) as [[R HR] Hp].
  destruct (c_phase c) eqn:Hph; rewrite ?HR; try (by eexists).
  pose proof (so_rooms s Hok _ R HR) as HRok. pose proof HRok as [_ (Hjo & _) _ _ _ _].
  destruct (try_send_open_cases (r_join R) k Hjo) as (o & -> & [-> | ->]); simpl; [by eexists|].
  eexists; split; [done|]. fold (served c). split; simpl.
  - intros q Q HQ. destruct (decide (c_room c = q)) as [<-|Hne].
    + rewrite list_lookup_insert_eq in HQ by (by eapply lookup_lt_Some). simplify_eq. by apply served_room.
    + rewrite list_lookup_insert_ne in HQ by done. apply served_elsewhere; [done..|by apply (so_rooms s Hok)].
  - intros j x Hx. destruct (served_lookup _ _ _ _ _ Hc Hx) as [[-> ->]|[_ Hx']].
    + split; [|done]. simpl. exists (with_join R (push k (r_join R))).
      by rewrite list_lookup_insert_eq by (by eapply lookup_lt_Some).
    + destruct (so_conns s Hok j x Hx') as [[Q HQ] Hpx]. split; [|done].
      destruct (decide (c_room c = c_room x)) as [<-|Hne].
      * eexists. by rewrite list_lookup_insert_eq by (by eapply lookup_lt_Some).
      * exists Q. by rewrite list_lookup_insert_ne.
Qed.

Lemma joined_heap s k c R : sys_ok s -> conns s !! k = Some c -> objs s !! c_room c = Some R ->
  exists cl, heap (w_hub (r_world R)) !! k = Some cl.
Proof.
  intros Hok Hc HR. pose proof (ro_conn _ _ _ (so_rooms s Hok _ R HR) k c Hc eq_refl) as H.
  destruct (joined c).
  - destruct H as [[_ (cl & Hcl & _)]|[_ (cl & Hcl & _)]]; by exists cl.
  - destruct H as (cl & Hcl & _). by exists cl.
Qed.

(** A client that has something to receive is known to its room. *)
Lemma receives_settled R cs k c cl m o : room_ok cs (c_room c) R -> cs !! k = Some c ->
  heap (w_hub (r_world R)) !! k = Some cl -> recv (out cl) = Received m o ->
  settled (w_hub (r_world R)) k.
Proof.
  intros Hok Hc Hcl Hrecv. pose proof (ro_conn _ _ _ Hok k c Hc eq_refl) as H.
  assert (Hno : ~ is_fresh (w_hub (r_world R)) k).
  { intros (cl' & Hcl' & _ & Ho & Hni). simplify_eq.
    destruct (wo_fresh _ (ro_world _ _ _ Hok)) as [_ Hf]. destruct (Hf k cl Hcl Hni Ho) as [Hb _].
    unfold recv in Hrecv. rewrite Hb in Hrecv. by destruct (ch_closed (out cl)). }
  destruct (joined c); [|done]. by destruct H as [[_ ?]|[_ ?]].
Qed.

Lemma with_phase_ok s k c p : sys_ok s -> conns s !! k = Some c -> phase_ok (with_phase c p) ->
  sys_ok (set_conn k (with_phase c p) s).
Proof. intros Hok Hc Hp. by eapply set_conn_ok. Qed.

Lemma write_safe k ok s : sys_ok s -> exists s', write k ok s = Ok s' /\ sys_ok s'.
Proof.
  intros Hok. unfold write. destruct (conns s !! k) as [c|] eqn:Hc; [|by eexists].
  destruct (so_conns s Hok k c Hc) as [[R HR] Hp]. rewrite HR.
  destruct (c_phase c) eqn:Hph; try (by eexists).
  destruct (joined_heap s k c R Hok Hc HR) as (cl & Hcl). rewrite Hcl.
  destruct (recv (out cl)) as [m o| |] eqn:Hrecv; [| |by eexists].
  - pose proof (so_rooms s Hok _ R HR) as HRok.
    destruct (wstep_ok (r_world R) (AWrite k)) as (w & Hw & Hwok); [apply HRok | done|].
    rewrite Hw. simpl. eexists; split; [done|].
    assert (Hs1 : sys_ok (set_room (c_room c) (with_world R w) s)).
    { apply (set_room_ok s (c_room c) R); [done..|]. apply room_ok_world; [done..|].
      eapply writer_keeps; [apply HRok | | done]. by eapply receives_settled. }
    destruct ok.
    + apply (set_conn_ok _ k c); [done..|]. unfold phase_ok. by rewrite Hph.
    + by apply with_phase_ok.
  - eexists; split; [done|]. by apply with_phase_ok.
Qed.

Lemma finish_safe k s : sys_ok s -> exists s', finish k s = Ok s' /\ sys_ok s'.
Proof.
  intros Hok. unfold finish. destruct (conns s !! k) as [c|] eqn:Hc; [|by eexists].
  destruct (so_conns s Hok k c Hc) as [_ Hp]. destruct (c_phase c) eqn:Hph; try (by eexists).
  apply try_leave_safe with (with_phase c Gone); [by apply with_phase_ok | | done | done].
  simpl. by rewrite list_lookup_insert_eq by (by eapply lookup_lt_Some).
Qed.

Lemma phase_ok_read s k c p : sys_ok s -> conns s !! k = Some c -> joined c = true ->
  joined (with_read c p) = true -> phase_ok (with_read c p).
Proof.
  intros Hok Hc Hj Hj'. destruct (so_conns s Hok k c Hc) as [_ Hp]. unfold phase_ok. simpl.
  rewrite Hj'. destruct (c_phase c); [congruence|done..].
Qed.

Lemma read_safe k frame now s : sys_ok s -> exists s', read unmarshal k frame now s = Ok s' /\ sys_ok s'.
Proof.
  intros Hok. unfold read. destruct (conns s !! k) as [c|] eqn:Hc; [|by eexists].
  destruct (so_conns s Hok k c Hc) as [[R HR] Hp]. rewrite HR.
  destruct (c_read c) eqn:Hrd; try (by eexists). assert (Hj : joined c = true) by (unfold joined; by rewrite Hrd).
  destruct frame as [data|].
  - destruct (joined_heap s k c R Hok Hc HR) as (cl & Hcl). rewrite Hcl.
    destruct (handle_frame _ _ _ _ _) as [l v]. eexists; split; [done|].
    apply (set_conn_ok _ k c); [by apply (sys_ok_same s) | done | by destruct v; split; [..|rewrite Hj] |].
    destruct v; [|by eapply phase_ok_read].
    exact (phase_ok_read s k c Reading Hok Hc Hj eq_refl).
  - apply try_leave_safe with (with_read c Exited); [|simpl | done | done].
    + apply (set_conn_ok _ k c); [done..|by split; [|rewrite Hj]|by eapply phase_ok_read].
    + by rewrite list_lookup_insert_eq by (by eapply lookup_lt_Some).
Qed.

Lemma forward_safe k s : sys_ok s -> exists s', forward k s = Ok s' /\ sys_ok s'.
Proof.
  intros Hok. unfold forward. destruct (conns s !! k) as [c|] eqn:Hc; [|by eexists].
  destruct (so_conns s Hok k c Hc) as [[R HR] Hp]. rewrite HR.
  destruct (c_read c) as [| |msg|] eqn:Hrd; try (by eexists).
  assert (Hj : joined c = true) by (unfold joined; by rewrite Hrd).
  pose proof (so_rooms s Hok _ R HR) as [H1 (Hjo & Hlo & Hso) H3 H4 H5 H6].
  destruct (try_send_open_cases (r_send R) msg Hso) as (o & -> & [-> | ->]); simpl; [by eexists|].
  eexists; split; [done|]. apply (set_conn_ok _ k c); [|done|by split; [|rewrite Hj]|by eapply phase_ok_read].
  apply (set_room_ok s _ R); [done..|]. by split.
Qed.

(** What the [select] took: the event is well-behaved, and the rest of the room
    is as before. *)
Lemma select_behaves s r R src now e R1 : sys_ok s -> polite s (SRoom r src now) ->
  objs s !! r = Some R -> select_one R src now = Some (e, R1) ->
  behaves (r_world R) (AEvent e) /\
  (forall i, joins_of e i -> i ∈ ch_buf (r_join R)) /\
  (forall i, i ∈ ch_buf (r_join R1) <-> i ∈ ch_buf (r_join R) /\ ~ joins_of e i) /\
  NoDup (ch_buf (r_join R1)) /\ (forall i, i ∈ ch_buf (r_leave R1) -> i ∈ ch_buf (r_leave R)) /\
  ch_closed (r_join R1) = ch_closed (r_join R) /\ ch_closed (r_leave R1) = ch_closed (r_leave R) /\
  ch_closed (r_send R1) = ch_closed (r_send R) /\ r_world R1 = r_world R.
Proof.
  intros Hok Hpol HR Hsel. pose proof (so_rooms s Hok r R HR) as [H1 _ H3 H4 _ H6].
  destruct src; simpl in Hsel, Hpol.
  - unfold recv in Hsel. destruct (ch_buf (r_join R)) as [|i buf] eqn:Hbuf; [by destruct (ch_closed _)|].
    simplify_eq. apply NoDup_cons in H3 as [Hni Hnd].
    destruct (H4 i ltac:(left; left)) as (c & Hc & Hr & Hj). specialize (H6 i c Hc Hr). rewrite Hj in H6.
    simpl. split_and!; try done.
    + destruct H6 as [[_ (cl & Hcl)]|[Hn _]]; [|by destruct Hn; left]. exists cl. split; [done | by apply Hpol].
    + intros j ->. by left.
    + intros j. rewrite elem_of_cons. split; [intros Hj'; split; [by right | by intros ->] | by intros [[->|?] ?]].
  - destruct (recv (r_leave R)) as [i l| |] eqn:Hrc; simplify_eq. pose proof (Hpol R i l HR Hrc) as Hni.
    unfold recv in Hrc. destruct (ch_buf (r_leave R)) as [|i' buf] eqn:Hbuf; [by destruct (ch_closed _)|].
    simplify_eq. simpl. split_and!; try done; [|naive_solver|intros; by right].
    destruct (H4 i ltac:(right; left)) as (c & Hc & Hr & Hj). specialize (H6 i c Hc Hr). rewrite Hj in H6.
    destruct H6 as [[? _]|[_ (cl & Hcl & [?|?])]]; [done | by left | right; eauto].
  - destruct (recv (r_send R)) as [m q| |] eqn:Hrc; simplify_eq. unfold recv in Hrc.
    destruct (ch_buf (r_send R)); [by destruct (ch_closed _)|]. simplify_eq. simpl. naive_solver.
  - destruct (ch_closed (r_stop R)); simplify_eq. simpl. naive_solver.
Qed.

Lemma room_loop_safe r src now s : sys_ok s -> polite s (SRoom r src now) ->
  exists s', room_loop r src now s = Ok s' /\ sys_ok s'.
Proof.
  intros Hok Hpol. unfold room_loop. destruct (objs s !! r) as [R|] eqn:HR; [|by eexists].
  destruct (running (w_hub (r_world R))) eqn:Hrun; [|by eexists]. simpl.
  destruct (r_empty R); [by eexists|].
  destruct (select_one R src now) as [[e R1]|] eqn:Hsel; [|by eexists].
  destruct (select_behaves s r R src now e R1)
    as (Hb & Hjoin & Hbuf & Hnd & Hlv & Hc1 & Hc2 & Hc3 & Hw1); [done..|].
  pose proof (so_rooms s Hok r R HR) as [H1 H2 H3 H4 H5 H6].
  destruct (wstep_ok (r_world R) (AEvent e)) as (w & Hw & Hwok); [done..|].
  unfold room_event. rewrite Hw1. cbn [wstep] in Hw.
  apply res_bind_inv in Hw as ([st' b] & Hs & Hw). rewrite Hs. simpl. eexists; split; [done|].
  injection Hw as Hw. simpl in Hw. rewrite Hw.
  destruct (event_keeps (r_world R) e st' b) as [[K1 K2 K3] Kj]; [done..|].
  assert (Hh : w_hub w = st') by (rewrite <- Hw; apply record_event_hub).
  apply (set_room_ok s r R); [done..|]. split; simpl.
  - done.
  - by rewrite Hc1, Hc2, Hc3.
  - done.
  - intros i [Hi|Hi]; apply H4; [left; by apply Hbuf | right; by apply Hlv].
  - intros i. rewrite Hh. intros Hi. by apply H5, K3.
  - intros k c Hc Hr. specialize (H6 k c Hc Hr). rewrite Hh.
    assert (Hnj : joined c = false -> ~ joins_of e k).
    { intros Hj Hin. destruct (H4 k (or_introl (Hjoin k Hin))) as (x & Hx & _ & ?). congruence. }
    destruct (joined c); [|apply K1; auto]. destruct H6 as [[Hin Hf]|[Hni Hset]].
    + destruct (classic_joins e k) as [Hj|Hj].
      * right. split; [by rewrite Hbuf; intros [_ ?] | by apply Kj].
      * left. split; [by apply Hbuf | by apply K1].
    + right. split; [by rewrite Hbuf; intros [? _] | by apply K2].
Qed.

Lemma scheduleReap_safe n s : sys_ok s -> sys_ok (scheduleReap n s).
Proof. intros Hok. unfold scheduleReap. destruct (rooms (mgr s) !! n); [by apply (sys_ok_same s) | done]. Qed.

Lemma shutdown_same l s : objs (foldl shutdown_one s l) = objs s /\ conns (foldl shutdown_one s l) = conns s.
Proof. revert s. induction l as [|ne l IH]; intros s; [done|]. simpl. destruct (IH (shutdown_one s ne)) as [-> ->]. done. Qed.

Lemma sstep_safe s a : reg_ok s -> sys_ok s -> polite s a ->
  exists s', sstep s a = Ok s' /\ sys_ok s'.
Proof.
  intros Hreg Hok Hpol. destruct a as [n u i k|k|k|k ok|k|k fr now|k|k|r src now|r|t|t|r|]; simpl.
  - unfold accept. destruct (getOrCreate_safe n s Hok) as [Hok1 Hc1].
    pose proof (getOrCreate_ok n s Hreg) as Hreg1.
    destruct (getOrCreate n s) as [s1 [r|]] eqn:E; [|by eexists]. simpl in Hok1, Hc1, Hreg1.
    destruct (getOrCreate_room n s s1 r Hreg E) as (R & HR & _). rewrite HR.
    destruct (accept_connect s1 r R u i k Hok1 HR) as (w & -> & ?). simpl. by eexists.
  - by apply register_safe.
  - eexists; split; [done|]. unfold cancel. destruct (conns s !! k) as [c|] eqn:Hc; [|done].
    destruct (c_phase c); try done. by apply with_phase_ok.
  - by apply write_safe.
  - by apply finish_safe.
  - by apply read_safe.
  - by apply forward_safe.
  - eexists; split; [done|]. unfold read_cancel. destruct (conns s !! k) as [c|] eqn:Hc; [|done].
    destruct (c_read c) eqn:Hrd; try done. assert (Hj : joined c = true) by (unfold joined; by rewrite Hrd).
    apply (set_conn_ok _ k c); [done..|by split; [|rewrite Hj]|by eapply phase_ok_read].
  - by apply room_loop_safe.
  - eexists; split; [done|]. unfold on_empty. destruct (objs s !! r) as [R|] eqn:HR; [|done].
    destruct (r_empty R); [|done]. apply scheduleReap_safe. apply (set_room_ok s r R); [done..|].
    destruct (so_rooms s Hok r R HR). by split.
  - eexists; split; [done|]. unfold fire. destruct (timers s !! t) as [tm|]; [|done].
    destruct (t_state tm); [by apply (sys_ok_same s)|done..].
  - eexists; split; [done|]. unfold timer_reap. destruct (timers s !! t) as [tm|]; [|done].
    destruct (t_state tm); try done. unfold reap. destruct (rooms _ !! _); by apply (sys_ok_same s).
  - case_decide as Hin; [|by eexists]. destruct (rg_due s Hreg r Hin) as (R & HR & Hst).
    unfold close_stop. rewrite HR, close_open by done. simpl. eexists; split; [done|].
    eapply (sys_ok_same (set_room r _ s)); [reflexivity | reflexivity|]. apply (set_room_ok s r R); [done..|].
    destruct (so_rooms s Hok r R HR). by split.
  - eexists; split; [done|]. unfold shutdownAll.
    destruct (shutdown_same (map_to_list (rooms (mgr s))) (mark_stopped s)) as [Ho Hc].
    by apply (sys_ok_same s).
Qed.

Fixpoint polite_run (s : chat) (acts : list sact) : Prop :=
  match acts with
  | [] => True
  | a :: acts => polite s a /\ match sstep s a with Ok s' => polite_run s' acts | Err _ => True end
  end.

Lemma newChat_sys_ok opts : sys_ok (newChat opts).
Proof. by split. Qed.

Lemma polite_run_safe acts s : reg_ok s -> sys_ok s -> polite_run s acts ->
  exists s', mfoldl sstep s acts = Ok s' /\ reg_ok s' /\ sys_ok s'.
Proof.
  revert s. induction acts as [|a acts IH]; intros s Hreg Hok Hpol; [by eexists|].
  destruct Hpol as [Ha Hpol]. destruct (sstep_safe s a Hreg Hok Ha) as (s1 & Hs & Hok1).
  cbn [mfoldl]. rewrite Hs in *. apply IH; [by eapply sstep_reg_ok | done | done].
Qed.
End Safe.
