(* ===== verification/ChatProps.v ===== *)
(** * What the chat system guarantees *)

From Stdlib Require Import QArith.
From S2P Require Import Prelude Utf8 Chan Tally Hub HubInv HubTrace RateLimit Ws Manager ChatSys ChatInv ChatSafe.
Local Open Scope nat_scope.

(** ** Only admissible messages reach a room *)
Definition sent_admissible (m : Message) : Prop :=
  admissible {| in_user := msg_User m; in_body := msg_Body m |}.

Record adm_room (R : Room) : Prop := {
  ad_queue : Forall admissible (ch_buf (r_send R));
  ad_sent : Forall sent_admissible (w_sent (r_world R))
}.

Record adm_ok (s : chat) : Prop := {
  ad_rooms : Forall adm_room (objs s);
  ad_readers : forall k c msg, conns s !! k = Some c -> c_read c = Sending msg -> admissible msg
}.

Lemma adm_same s s' : objs s' = objs s -> conns s' = conns s -> adm_ok s -> adm_ok s'.
Proof. intros Ho Hc [H1 H2]. split; rewrite ?Ho, ?Hc; done. Qed.

Lemma adm_set_room s r R : adm_ok s -> adm_room R -> adm_ok (set_room r R s).
Proof. intros [H1 H2] HR. split; simpl; [by apply Forall_insert | done]. Qed.

Lemma adm_set_conn s k c : adm_ok s -> (forall msg, c_read c = Sending msg -> admissible msg) ->
  adm_ok (set_conn k c s).
Proof.
  intros [H1 H2] Hc. split; simpl; [done|].
  intros j x msg [(_ & <- & _)|[_ Hx]]%list_lookup_insert_Some; [apply Hc | by eapply H2].
Qed.

Lemma adm_lookup s r R : adm_ok s -> objs s !! r = Some R -> adm_room R.
Proof. intros [H1 _] HR. by eapply Forall_lookup_1. Qed.

Lemma try_send_buf {A} (ch : chan A) a o : try_send ch a = Ok (Some o) -> ch_buf o = ch_buf ch ++ [a].
Proof. unfold try_send. destruct (ch_closed ch); [done|]. destruct (full ch); [done|]. by intros [= <-]. Qed.

Lemma try_leave_adm r k s s' : adm_ok s -> try_leave r k s = Ok s' -> adm_ok s'.
Proof.
  intros Hok. unfold try_leave. destruct (objs s !! r) as [R|] eqn:HR; [|done].
  intros (o & _ & H)%res_bind_inv. destruct o; simplify_eq; [|done].
  apply adm_set_room; [done|]. destruct (adm_lookup _ _ _ Hok HR). by split.
Qed.

Lemma wstep_sent w a w' : wstep w a = Ok w' -> (forall e, a <> AEvent e) -> w_sent w' = w_sent w.
Proof.
  intros H Ha. destruct a as [i u id k|e|i]; simpl in H; [|by destruct (Ha e)|].
  - destruct (heap _ !! i); by simplify_eq.
  - destruct (writer_recv _ _) as [st' [m|]]; by simplify_eq.
Qed.

Lemma with_world_adm R w : adm_room R -> w_sent w = w_sent (r_world R) -> adm_room (with_world R w).
Proof. intros [H1 H2] Hw. split; simpl; [done | by rewrite Hw]. Qed.

Lemma room_event_adm R R1 src now e R2 b : adm_room R -> select_one R src now = Some (e, R1) ->
  room_event R1 e = Ok (R2, b) -> adm_room R2.
Proof.
  intros [H1 H2] Hsel Hev. unfold room_event in Hev. apply res_bind_inv in Hev as ([st' b'] & _ & [= <- <-]).
  assert (Hw : r_world R1 = r_world R) by (destruct src; simpl in Hsel; by inv_match Hsel).
  split; simpl.
  - destruct src; simpl in Hsel; [inv_match Hsel; done..| |inv_match Hsel; done].
    unfold recv in Hsel. destruct (ch_buf (r_send R)) as [|m q] eqn:Hq; [by destruct (ch_closed _)|].
    simplify_eq/=. by apply Forall_cons in H1 as [_ ?].
  - rewrite Hw. unfold record_event. destruct (negb _); [done|]. destruct e as [| |msg [id|] nw|]; try done.
    simpl. apply Forall_app. split; [done|]. constructor; [|constructor].
    destruct src; simpl in Hsel; try by inv_match Hsel.
    unfold recv in Hsel. destruct (ch_buf (r_send R)) as [|m q] eqn:Hq; [by destruct (ch_closed _)|].
    simplify_eq/=. apply Forall_cons in H1 as [H1 _]. exact H1.
Qed.

Lemma shutdown_adm l s : adm_ok s -> adm_ok (foldl shutdown_one s l).
Proof. destruct (shutdown_same l s) as [Ho Hc]. by apply adm_same. Qed.

Section Runs.
Context (unmarshal : string -> option Message).
Abbreviation sstep := (sstep unmarshal).

Lemma newRoomObj_adm n : adm_room (newRoomObj n).
Proof. by split; constructor. Qed.

Lemma accept_adm n u uid k s s' : adm_ok s -> accept n u uid k s = Ok s' -> adm_ok s'.
Proof.
  intros Hok. unfold accept.
  assert (Hg : adm_ok (getOrCreate n s).1).
  { unfold getOrCreate. destruct (stopped (mgr s)); [done|]. destruct (rooms (mgr s) !! n); simpl.
    - by apply (adm_same s).
    - destruct Hok as [H1 H2]. split; simpl; [|done]. apply Forall_app. split; [done|].
      constructor; [apply newRoomObj_adm | constructor]. }
  destruct (getOrCreate n s) as [s1 [r|]]; [|by intros [= <-]]. simpl in Hg.
  destruct (objs s1 !! r) as [R|] eqn:HR; [|done]. intros (w & Hw & [= <-])%res_bind_inv.
  assert (HR' : adm_room (with_world R w)).
  { apply with_world_adm; [by eapply adm_lookup | by eapply wstep_sent]. }
  destruct (adm_set_room s1 r _ Hg HR') as [H1 H2]. split; simpl; [done|].
  intros j x msg. rewrite lookup_app_Some. intros [Hx|[Hle Hx]]; [by eapply H2|].
  destruct (j - _); [|done]. simpl in Hx. by simplify_eq.
Qed.

Lemma register_adm k s s' : adm_ok s -> register k s = Ok s' -> adm_ok s'.
Proof.
  intros Hok H.
  unfold register in H. destruct (conns s !! k) as [c|] eqn:Hc; [|by simplify_eq].
  destruct (c_phase c), (objs s !! c_room c) as [R|] eqn:HR; simplify_eq; try done.
  apply res_bind_inv in H as (o & _ & H). destruct o; simplify_eq; [|done].
  apply adm_set_conn; [|done]. apply adm_set_room; [done|]. destruct (adm_lookup _ _ _ Hok HR). by split.
Qed.

Lemma write_adm k ok s s' : adm_ok s -> write k ok s = Ok s' -> adm_ok s'.
Proof.
  intros Hok H.
  unfold write in H. destruct (conns s !! k) as [c|] eqn:Hc; [|by simplify_eq].
  destruct (c_phase c), (objs s !! c_room c) as [R|] eqn:HR; simplify_eq; try done.
  destruct (heap _ !! k) as [cl|]; [|done].
  assert (Hrd : forall msg, c_read c = Sending msg -> admissible msg) by (intros msg; by apply (ad_readers s Hok k c)).
  destruct (recv (out cl)); simplify_eq; [|by apply adm_set_conn|done].
  apply res_bind_inv in H as (w & Hw & [= <-]). apply adm_set_conn; [|by destruct ok].
  apply adm_set_room; [done|]. apply with_world_adm; [by eapply adm_lookup | by eapply wstep_sent].
Qed.

Lemma read_adm k fr now s s' : adm_ok s -> read unmarshal k fr now s = Ok s' -> adm_ok s'.
Proof.
  intros Hok H.
  unfold read in H. destruct (conns s !! k) as [c|] eqn:Hc; [|by simplify_eq].
  destruct (c_read c), (objs s !! c_room c) as [R|] eqn:HR; simplify_eq; try done. destruct fr as [data|].
  - destruct (heap _ !! k) as [cl|]; [|done]. destruct (handle_frame _ _ _ _ _) as [l v] eqn:Hv.
    simplify_eq. apply adm_set_conn; [by apply (adm_same s)|]. intros msg. destruct v; [done|].
    simpl. intros [= <-]. by eapply handle_frame_admissible.
  - eapply try_leave_adm; [|done]. by apply adm_set_conn.
Qed.

Lemma forward_adm k s s' : adm_ok s -> forward k s = Ok s' -> adm_ok s'.
Proof.
  intros Hok H.
  unfold forward in H. destruct (conns s !! k) as [c|] eqn:Hc; [|by simplify_eq].
  destruct (c_read c) as [| |msg|] eqn:Hrd, (objs s !! c_room c) as [R|] eqn:HR; simplify_eq; try done.
  apply res_bind_inv in H as (o & Ho & H). destruct o as [q|]; simplify_eq; [|done].
  apply adm_set_conn; [|done]. apply adm_set_room; [done|]. destruct (adm_lookup _ _ _ Hok HR).
  split; simpl; [|done]. rewrite (try_send_buf _ _ _ Ho). apply Forall_app; split; [done|].
  constructor; [by apply (ad_readers s Hok k c) | constructor].
Qed.

Lemma room_loop_adm r src now s s' : adm_ok s -> room_loop r src now s = Ok s' -> adm_ok s'.
Proof.
  intros Hok H.
  unfold room_loop in H. destruct (objs s !! r) as [R|] eqn:HR; [|by simplify_eq].
  destruct (_ || _); [by simplify_eq|]. destruct (select_one R src now) as [[e R1]|] eqn:Hsel; [|by simplify_eq].
  apply res_bind_inv in H as ([R2 b] & Hev & [= <-]). apply adm_set_room; [done|].
  destruct (room_event_adm _ _ _ _ _ _ _ (adm_lookup _ _ _ Hok HR) Hsel Hev). by split.
Qed.

Lemma close_stop_adm r s s' : adm_ok s -> close_stop r s = Ok s' -> adm_ok s'.
Proof.
  intros Hok H.
  unfold close_stop in H. destruct (objs s !! r) as [R|] eqn:HR; [|done].
  apply res_bind_inv in H as (st & _ & [= <-]).
  apply (adm_same (set_room r {| r_name := r_name R; r_join := r_join R; r_leave := r_leave R;
    r_send := r_send R; r_stop := st; r_world := r_world R; r_empty := r_empty R |} s)); [done..|].
  apply adm_set_room; [done|]. destruct (adm_lookup _ _ _ Hok HR). by split.
Qed.

Lemma sstep_adm s a s' : adm_ok s -> sstep s a = Ok s' -> adm_ok s'.
Proof.
  intros Hok H. destruct a as [n u i k|k|k|k ok|k|k fr now|k|k|r src now|r|t|t|r|]; simpl in H.
  - by eapply accept_adm.
  - by eapply register_adm.
  - simplify_eq. unfold cancel. destruct (conns s !! k) as [c|] eqn:Hc; [|done]. destruct (c_phase c); try done.
    apply adm_set_conn; [done|]. intros msg. by apply (ad_readers s Hok k c).
  - by eapply write_adm.
  - unfold finish in H. destruct (conns s !! k) as [c|] eqn:Hc; [|by simplify_eq].
    destruct (c_phase c); simplify_eq; try done. eapply try_leave_adm; [|done].
    apply adm_set_conn; [done|]. intros msg. by apply (ad_readers s Hok k c).
  - by eapply read_adm.
  - by eapply forward_adm.
  - simplify_eq. unfold read_cancel. destruct (conns s !! k) as [c|]; [|done].
    destruct (c_read c); try done. by apply adm_set_conn.
  - by eapply room_loop_adm.
  - simplify_eq. unfold on_empty. destruct (objs s !! r) as [R|] eqn:HR; [|done]. destruct (r_empty R); [|done].
    assert (Hs : adm_ok (set_room r (with_empty R false) s)).
    { apply adm_set_room; [done|]. destruct (adm_lookup _ _ _ Hok HR). by split. }
    unfold scheduleReap. destruct (rooms _ !! _); [|done]. by apply (adm_same (set_room r (with_empty R false) s)).
  - simplify_eq. unfold fire. destruct (timers s !! t) as [tm|]; [|done].
    destruct (t_state tm); [by apply (adm_same s)|done..].
  - simplify_eq. unfold timer_reap. destruct (timers s !! t) as [tm|]; [|done].
    destruct (t_state tm); try done. unfold reap. destruct (rooms _ !! _); by apply (adm_same s).
  - case_decide; [by eapply close_stop_adm | by simplify_eq].
  - simplify_eq. apply shutdown_adm. by apply (adm_same s).
Qed.
End Runs.

Lemma srun_adm unmarshal opts acts s : srun unmarshal opts acts = Ok s -> adm_ok s.
Proof.
  intros H. refine (mfoldl_preserves adm_ok _ _ _ _ _ H _).
  - intros x a y Hs Hx. by eapply sstep_adm.
  - split; [constructor | done].
Qed.

(** ** Entries survive everything but a reap or the shutdown *)
Definition takes_room (n : string) (s : chat) (a : sact) : bool :=
  match a with
  | SShutdown => true
  | SReap t => match timers s !! t with
               | Some tm => String.eqb (t_name tm) n &&
                            match t_state tm with Fired => true | _ => false end
               | None => false
               end
  | _ => false
  end.

Fixpoint untaken (unmarshal : string -> option Message) (n : string) (s : chat) (acts : list sact) : bool :=
  match acts with
  | [] => true
  | a :: acts => negb (takes_room n s a) &&
                 match sstep unmarshal s a with Ok s' => untaken unmarshal n s' acts | Err _ => true end
  end.

Definition leads_in (rs : gmap string roomEntry) (n : string) (r : nat) : Prop :=
  exists e, rs !! n = Some e /\ room e = r.
Definition leads_to (s : chat) : string -> nat -> Prop := leads_in (rooms (mgr s)).

Lemma leads_reinsert rs n r m e e' : leads_in rs n r -> rs !! m = Some e -> room e' = room e ->
  leads_in (<[m:=e']> rs) n r.
Proof.
  intros (x & Hx & Hr) He He'. unfold leads_in. destruct (decide (m = n)) as [->|Hne].
  - rewrite lookup_insert_eq. exists e'. split; [done | congruence].
  - rewrite lookup_insert_ne by done. by exists x.
Qed.

Lemma quiet_leads s s' n r : quiet s s' -> leads_to s n r -> leads_to s' n r.
Proof. intros [Hr _ _ _]. unfold leads_to. by rewrite Hr. Qed.

Lemma getOrCreate_leads m s n r : leads_to s n r -> leads_to (getOrCreate m s).1 n r.
Proof.
  intros Hl. unfold getOrCreate. destruct (stopped (mgr s)); [done|].
  destruct (rooms (mgr s) !! m) as [e|] eqn:He; simpl.
  - unfold leads_to. simpl. by eapply leads_reinsert.
  - destruct Hl as (x & Hx & Hr). exists x. simpl. rewrite lookup_insert_ne; [done | congruence].
Qed.

Section Leads.
Context (unmarshal : string -> option Message).
Abbreviation sstep := (sstep unmarshal).

Lemma accept_leads m u uid k s s' n r : accept m u uid k s = Ok s' -> leads_to s n r -> leads_to s' n r.
Proof.
  unfold accept. intros H Hl. pose proof (getOrCreate_leads m s n r Hl) as Hg.
  destruct (getOrCreate m s) as [s1 [q|]]; [|by simplify_eq]. destruct (objs s1 !! q) as [R|]; [|done].
  by apply res_bind_inv in H as (w & _ & [= <-]).
Qed.

Lemma sstep_leads s a s' n r : sstep s a = Ok s' -> takes_room n s a = false ->
  leads_to s n r -> leads_to s' n r.
Proof.
  intros H Ht Hl. assert (Hq : quiet s s' -> leads_to s' n r) by (intros; by eapply quiet_leads).
  destruct a as [m u i k|k|k|k ok|k|k fr now|k|k|q src now|q|t|t|q|]; simpl in H.
  - by eapply accept_leads.
  - by eapply Hq, register_quiet.
  - simplify_eq. unfold cancel. destruct (conns s !! k) as [c|]; [|done]. by destruct (c_phase c).
  - by eapply Hq, write_quiet.
  - by eapply Hq, finish_quiet.
  - by eapply Hq, read_quiet.
  - by eapply Hq, forward_quiet.
  - simplify_eq. unfold read_cancel. destruct (conns s !! k) as [c|]; [|done]. by destruct (c_read c).
  - by eapply Hq, room_loop_quiet.
  - simplify_eq. unfold on_empty. destruct (objs s !! q) as [R|]; [|done]. destruct (r_empty R); [|done].
    unfold scheduleReap. simpl. destruct (rooms (mgr s) !! r_name R) as [e|] eqn:He; [|done].
    unfold leads_to. simpl. by eapply leads_reinsert.
  - simplify_eq. unfold fire. destruct (timers s !! t) as [tm|]; [|done]. by destruct (t_state tm).
  - simplify_eq. unfold timer_reap. simpl in Ht. destruct (timers s !! t) as [tm|]; [|done].
    destruct (t_state tm); try done. rewrite andb_true_r in Ht. apply String.eqb_neq in Ht.
    unfold reap. simpl. destruct (rooms (mgr s) !! t_name tm) as [e|]; [|done].
    destruct Hl as (x & Hx & Hr). exists x. simpl. by rewrite lookup_delete_ne.
  - case_decide; [|by simplify_eq]. unfold close_stop in H. destruct (objs s !! q); [|done].
    by apply res_bind_inv in H as (st & _ & [= <-]).
  - done.
Qed.

Lemma steps_lead acts s s' n r : mfoldl sstep s acts = Ok s' -> untaken unmarshal n s acts = true ->
  leads_to s n r -> leads_to s' n r.
Proof.
  revert s. induction acts as [|a acts IH]; intros s; cbn [mfoldl untaken]; [by intros [= <-]|].
  intros (s1 & Ha & Hs)%res_bind_inv Hu Hl. rewrite Ha in Hu.
  apply andb_true_iff in Hu as [Ht%negb_true_iff Hu]. eapply IH; [done..|]. by eapply sstep_leads.
Qed.
End Leads.

(** ** A room that has stopped *)
Record hanging (s : chat) (k r : nat) (cl : client) : Prop := {
  hg_conn : exists c, conns s !! k = Some c /\ c_room c = r /\ c_phase c = Serving;
  hg_room : exists R, objs s !! r = Some R /\ running (w_hub (r_world R)) = false /\
              heap (w_hub (r_world R)) !! k = Some cl;
  hg_wait : recv (out cl) = Blocked
}.

Definition dead_for (R : Room) (k : nat) (cl : client) : Prop :=
  running (w_hub (r_world R)) = false /\ heap (w_hub (r_world R)) !! k = Some cl.

Lemma hanging_set_room s k r cl q R' : hanging s k r cl ->
  (forall R, q = r -> objs s !! r = Some R -> dead_for R k cl -> dead_for R' k cl) ->
  hanging (set_room q R' s) k r cl.
Proof.
  intros [H1 (R & HR & Hd) H3] Hq. split; simpl; [done| |done].
  destruct (decide (q = r)) as [->|Hne].
  - exists R'. rewrite list_lookup_insert_eq by (by eapply lookup_lt_Some). split; [done|]. by eapply Hq.
  - exists R. by rewrite list_lookup_insert_ne.
Qed.

Lemma hanging_set_conn s k r cl j c' c : hanging s k r cl -> conns s !! j = Some c ->
  c_room c' = c_room c -> (j = k -> c_phase c = Serving -> c_phase c' = Serving) ->
  hanging (set_conn j c' s) k r cl.
Proof.
  intros [(x & Hx & Hr & Hp) H2 H3] Hc Hroom Hph. split; simpl; [|done..].
  destruct (decide (j = k)) as [->|Hne].
  - simplify_eq. exists c'. rewrite list_lookup_insert_eq by (by eapply lookup_lt_Some). auto.
  - exists x. by rewrite list_lookup_insert_ne.
Qed.

Lemma hanging_same s s' k r cl : objs s' = objs s -> conns s' = conns s -> hanging s k r cl -> hanging s' k r cl.
Proof. intros Ho Hc [H1 H2 H3]. split; rewrite ?Ho, ?Hc; done. Qed.

Lemma try_leave_hanging q j s s' k r cl : try_leave q j s = Ok s' -> hanging s k r cl -> hanging s' k r cl.
Proof.
  unfold try_leave. destruct (objs s !! q) as [R|] eqn:HR; [|done].
  intros (o & _ & H)%res_bind_inv Hh. destruct o; simplify_eq; [|done].
  apply hanging_set_room; [done|]. intros R0 -> HR0. by simplify_eq.
Qed.

(** A write or a connection in a dead room leaves the waiting client alone. *)
Lemma wstep_dead w a w' k cl : wstep w a = Ok w' -> running (w_hub w) = false ->
  heap (w_hub w) !! k = Some cl -> recv (out cl) = Blocked ->
  running (w_hub w') = false /\ heap (w_hub w') !! k = Some cl.
Proof.
  intros H Hr Hk Hb. destruct a as [i u id an|e|i]; simpl in H.
  - destruct (heap _ !! i) eqn:Hi; simplify_eq; [done|]. simpl.
    rewrite lookup_insert_ne; [done | congruence].
  - unfold hub_step, record_event in H. rewrite Hr in H. simpl in H. by simplify_eq.
  - unfold writer_recv in H. destruct (heap _ !! i) as [c|] eqn:Hi; [|by simplify_eq].
    destruct (recv (out c)) eqn:Hrc; simplify_eq; try done. simpl. split; [done|].
    rewrite lookup_insert_ne; [done | congruence].
Qed.

Section Hanging.
Context (unmarshal : string -> option Message).
Abbreviation sstep := (sstep unmarshal).

Lemma accept_hanging m u uid a s s' k r cl : accept m u uid a s = Ok s' -> hanging s k r cl -> hanging s' k r cl.
Proof.
  unfold accept. intros H Hh. assert (Hg : hanging (getOrCreate m s).1 k r cl).
  { unfold getOrCreate. destruct (stopped (mgr s)); [done|]. destruct (rooms (mgr s) !! m); simpl.
    - by apply (hanging_same s).
    - destruct Hh as [H1 (R & HR & Hd) H3]. split; simpl; [done| |done]. exists R.
      split; [by apply lookup_app_l_Some | done]. }
  destruct (getOrCreate m s) as [s1 [q|]]; [|by simplify_eq]. simpl in Hg.
  destruct (objs s1 !! q) as [R|] eqn:HR; [|done]. apply res_bind_inv in H as (w & Hw & [= <-]).
  assert (Hr : hanging (set_room q (with_world R w) s1) k r cl).
  { apply hanging_set_room; [done|]. intros R0 -> HR0 [Hd1 Hd2]. simplify_eq.
    exact (wstep_dead _ _ _ k cl Hw Hd1 Hd2 (hg_wait _ _ _ _ Hg)). }
  destruct Hr as [(c & Hc & ?) H2 H3]. split; simpl; [|done..]. exists c. split; [by apply lookup_app_l_Some | done].
Qed.

Lemma register_hanging j s s' k r cl : register j s = Ok s' -> hanging s k r cl -> hanging s' k r cl.
Proof.
  intros H Hh.
  unfold register in H. destruct (conns s !! j) as [c|] eqn:Hc; [|by simplify_eq].
  destruct (c_phase c) eqn:Hp, (objs s !! c_room c) as [R|] eqn:HR; simplify_eq; try done.
  apply res_bind_inv in H as (o & _ & H). destruct o; simplify_eq; [|done].
  apply hanging_set_conn with c; [|done..]. apply hanging_set_room; [done|]. intros R0 Hq HR0.
  rewrite Hq in HR. by simplify_eq.
Qed.

Lemma write_hanging j ok s s' k r cl : write j ok s = Ok s' -> hanging s k r cl -> hanging s' k r cl.
Proof.
  intros H Hh.
  unfold write in H. destruct (conns s !! j) as [c|] eqn:Hc; [|by simplify_eq].
  destruct (c_phase c) eqn:Hp, (objs s !! c_room c) as [R|] eqn:HR; simplify_eq; try done.
  destruct (heap _ !! j) as [x|] eqn:Hx; [|done].
  assert (Hj : recv (out x) <> Blocked -> j <> k).
  { intros Hne ->. destruct Hh as [(c0 & Hc0 & Hr & _) (R0 & HR0 & _ & Hcl) Hw]. naive_solver. }
  destruct (recv (out x)); simplify_eq; [|apply hanging_set_conn with c; [done..|]; by intros ->; destruct Hj|done].
  apply res_bind_inv in H as (w & Hw & [= <-]).
  apply hanging_set_conn with c; [|done|by destruct ok|by intros ->; destruct Hj].
  apply hanging_set_room; [done|]. intros R0 Hq HR0 [Hd1 Hd2]. rewrite Hq in HR. simplify_eq.
  exact (wstep_dead _ _ _ k cl Hw Hd1 Hd2 (hg_wait _ _ _ _ Hh)).
Qed.

Lemma read_hanging j fr now s s' k r cl : read unmarshal j fr now s = Ok s' -> hanging s k r cl -> hanging s' k r cl.
Proof.
  intros H Hh.
  unfold read in H. destruct (conns s !! j) as [c|] eqn:Hc; [|by simplify_eq].
  destruct (c_read c), (objs s !! c_room c) as [R|] eqn:HR; simplify_eq; try done. destruct fr as [data|].
  - destruct (heap _ !! j); [|done]. destruct (handle_frame _ _ _ _ _) as [l v]. simplify_eq.
    apply hanging_set_conn with c; [by apply (hanging_same s)|done|by destruct v|by destruct v].
  - eapply try_leave_hanging; [done|]. by apply hanging_set_conn with c.
Qed.

Lemma forward_hanging j s s' k r cl : forward j s = Ok s' -> hanging s k r cl -> hanging s' k r cl.
Proof.
  intros H Hh.
  unfold forward in H. destruct (conns s !! j) as [c|] eqn:Hc; [|by simplify_eq].
  destruct (c_read c), (objs s !! c_room c) as [R|] eqn:HR; simplify_eq; try done.
  apply res_bind_inv in H as (o & _ & H). destruct o; simplify_eq; [|done].
  apply hanging_set_conn with c; [|done..]. apply hanging_set_room; [done|]. intros R0 Hq HR0.
  rewrite Hq in HR. by simplify_eq.
Qed.

Lemma room_loop_hanging q src now s s' k r cl : room_loop q src now s = Ok s' -> hanging s k r cl -> hanging s' k r cl.
Proof.
  intros H Hh.
  unfold room_loop in H. destruct (objs s !! q) as [R|] eqn:HR; [|by simplify_eq].
  destruct (running (w_hub (r_world R))) eqn:Hrun; simpl in H; [|by simplify_eq].
  destruct (r_empty R); [by simplify_eq|]. destruct (select_one R src now) as [[e R1]|]; [|by simplify_eq].
  apply res_bind_inv in H as ([R2 b] & _ & [= <-]). apply hanging_set_room; [done|].
  intros R0 -> HR0 [Hd _]. simplify_eq. congruence.
Qed.

Lemma close_stop_hanging q s s' k r cl : close_stop q s = Ok s' -> hanging s k r cl -> hanging s' k r cl.
Proof.
  intros H Hh.
  unfold close_stop in H. destruct (objs s !! q) as [R|] eqn:HR; [|done].
  apply res_bind_inv in H as (st & _ & [= <-]).
  apply (hanging_same (set_room q {| r_name := r_name R; r_join := r_join R; r_leave := r_leave R;
    r_send := r_send R; r_stop := st; r_world := r_world R; r_empty := r_empty R |} s)); [done..|].
  apply hanging_set_room; [done|]. intros R0 -> HR0. by simplify_eq.
Qed.

Lemma sstep_hanging s a s' k r cl : sstep s a = Ok s' -> hanging s k r cl -> hanging s' k r cl.
Proof.
  intros H Hh. destruct a as [m u i an|j|j|j ok|j|j fr now|j|j|q src now|q|t|t|q|]; simpl in H.
  - by eapply accept_hanging.
  - by eapply register_hanging.
  - simplify_eq. unfold cancel. destruct (conns s !! j) as [c|] eqn:Hc; [|done].
    destruct (c_phase c) eqn:Hp; try done. apply hanging_set_conn with c; [done..|]. congruence.
  - by eapply write_hanging.
  - unfold finish in H. destruct (conns s !! j) as [c|] eqn:Hc; [|by simplify_eq].
    destruct (c_phase c) eqn:Hp; simplify_eq; try done. eapply try_leave_hanging; [done|].
    apply hanging_set_conn with c; [done..|]. congruence.
  - by eapply read_hanging.
  - by eapply forward_hanging.
  - simplify_eq. unfold read_cancel. destruct (conns s !! j) as [c|] eqn:Hc; [|done].
    destruct (c_read c); try done. by apply hanging_set_conn with c.
  - by eapply room_loop_hanging.
  - simplify_eq. unfold on_empty. destruct (objs s !! q) as [R|] eqn:HR; [|done]. destruct (r_empty R); [|done].
    assert (Hs : hanging (set_room q (with_empty R false) s) k r cl).
    { apply hanging_set_room; [done|]. intros R0 -> HR0. by simplify_eq. }
    unfold scheduleReap. destruct (rooms _ !! _); [|done]. by apply (hanging_same (set_room q (with_empty R false) s)).
  - simplify_eq. unfold fire. destruct (timers s !! t) as [tm|]; [|done].
    destruct (t_state tm); [by apply (hanging_same s)|done..].
  - simplify_eq. unfold timer_reap. destruct (timers s !! t) as [tm|]; [|done].
    destruct (t_state tm); try done. unfold reap. destruct (rooms _ !! _); by apply (hanging_same s).
  - case_decide; [by eapply close_stop_hanging | by simplify_eq].
  - simplify_eq. unfold shutdownAll.
    destruct (shutdown_same (map_to_list (rooms (mgr s))) (mark_stopped s)) as [Ho Hc].
    by apply (hanging_same s).
Qed.
End Hanging.
