(* ===== verification/ChatThms.v ===== *)
(** * The chat system's theorems *)

From Stdlib Require Import QArith.
From S2P Require Import Prelude Utf8 Chan Tally Hub HubInv HubTrace RateLimit Ws Manager ChatSys ChatInv ChatSafe ChatProps.
Local Open Scope nat_scope.

(** A decoder for the concrete runs below: the frame is the body. *)
Definition echo (data : string) : option Message :=
  Some {| msg_ID := ""; msg_Type := ""; msg_User := ""; msg_Body := data; msg_At := zeroTime; msg_Count := 0%Z |}.
Definition defaults : Options := {| RateBurst := 0%Z; RatePerSecond := 0%Q |}.

(** [polite] as a computable test. *)
Definition politeb (s : chat) (a : sact) : bool :=
  match a with
  | SRoom r FromJoin _ =>
      match objs s !! r with
      | Some R => bool_decide (length (history (w_hub (r_world R))) <= clientSendBuffer) | None => true end
  | SRoom r FromLeave _ =>
      match objs s !! r with
      | Some R => match recv (r_leave R) with
                  | Received i _ => bool_decide (i ∉ ch_buf (r_join R)) | _ => true end
      | None => true end
  | SRoom _ (FromSend uuid) _ => match uuid with Some _ => true | None => false end
  | _ => true
  end.

Fixpoint polite_runb (unmarshal : string -> option Message) (s : chat) (acts : list sact) : bool :=
  match acts with
  | [] => true
  | a :: acts => politeb s a && match sstep unmarshal s a with Ok s' => polite_runb unmarshal s' acts | Err _ => true end
  end.

Lemma politeb_ok s a : politeb s a = true -> polite s a.
Proof.
  destruct a as [| | | | | | | |r [| |[|]|]| | | | |]; simpl; try done.
  - destruct (objs s !! r) as [R|]; rewrite ?bool_decide_eq_true; intros ? ? ?; by simplify_eq.
  - destruct (objs s !! r) as [R|]; [|by intros ? ? ? ?]. intros H R' i l [= <-] Hr. rewrite Hr in H.
    by apply bool_decide_eq_true in H.
Qed.

Lemma polite_runb_ok unmarshal s acts : polite_runb unmarshal s acts = true -> polite_run unmarshal s acts.
Proof.
  revert s. induction acts as [|a acts IH]; intros s; simpl; [done|].
  intros [Ha%politeb_ok Hr]%andb_true_iff. split; [done|]. destruct (sstep unmarshal s a); [by apply IH | done].
Qed.

(** C1: the chat system as a whole. Let any number of connections, readers,
    writers, rooms and timers run in any interleaving, with a shutdown at any
    point, as long as no join is taken with a backlog longer than a client's
    queue and no leave overtakes its own join. Then nothing panics (no channel
    is closed twice or sent to after its close, no count goes wrong), and every
    registered client's socket and queue together carry exactly the last 50
    messages accepted before its join and all since, in the room's order. *)
Theorem chat_never_panics unmarshal opts acts :
  polite_run unmarshal (newChat opts) acts ->
  exists s, srun unmarshal opts acts = Ok s /\
    forall r R i c, objs s !! r = Some R -> i ∈ clients (w_hub (r_world R)) ->
      heap (w_hub (r_world R)) !! i = Some c ->
      exists n, n <= length (w_sent (r_world R)) /\
        chat_only (wire (r_world R) i ++ ch_buf (out c))
        = lastn historySize (take n (w_sent (r_world R))) ++ drop n (w_sent (r_world R)).
Proof.
  intros Hp. destruct (polite_run_safe unmarshal acts (newChat opts)) as (s & Hs & _ & Hok);
    [apply newChat_reg_ok | apply newChat_sys_ok | done |].
  exists s. split; [done|]. intros r R i c HR Hi Hc.
  pose proof (ro_world _ _ _ (so_rooms s Hok r R HR)) as Hw.
  destruct (wo_fifo _ Hw i c Hi Hc) as (n & _ & Hn & Heq). by exists n.
Qed.

(** Two rooms, a guest and a user; the user writes, leaves; the room is reaped. *)
Definition demo : list sact :=
  [SAccept "ann" "bob" 7 ""; SAccept "ann" "" 0 "cookie"; SAccept "eve" "bob" 7 "";
   SRegister 0; SRegister 1; SRegister 2; SRoom 0 FromJoin 1%Z; SRoom 1 FromJoin 1%Z;
   SRead 0 (Some " hi "%string) 2%Z; SForward 0; SRoom 0 (FromSend (Some "id1"%string)) 3%Z;
   SRoom 0 FromJoin 4%Z; SRead 1 (Some "no"%string) 5%Z; SWrite 1 true].

Lemma chat_never_panics_witness :
  polite_run echo (newChat defaults) demo /\
  exists s, srun echo defaults demo = Ok s /\
    forall r R i c, objs s !! r = Some R -> i ∈ clients (w_hub (r_world R)) ->
      heap (w_hub (r_world R)) !! i = Some c ->
      exists n, n <= length (w_sent (r_world R)) /\
        chat_only (wire (r_world R) i ++ ch_buf (out c))
        = lastn historySize (take n (w_sent (r_world R))) ++ drop n (w_sent (r_world R)).
Proof.
  assert (H : polite_run echo (newChat defaults) demo) by (apply polite_runb_ok; vm_compute; reflexivity).
  split; [exact H | exact (chat_never_panics echo defaults demo H)].
Defined.

(** The only messages a room ever accepts are trimmed, not blank, of at
    most 500 characters and 2000 bytes, on every run whatever the frames. *)
Theorem only_admissible_messages unmarshal opts acts s r R m :
  srun unmarshal opts acts = Ok s -> objs s !! r = Some R -> m ∈ w_sent (r_world R) ->
  msg_Body m <> ""%string /\ (rune_count (msg_Body m) <= 500)%Z /\
  (len (bytes_of (msg_Body m)) <= 2000)%Z /\
  is_space (decode_last_rune (bytes_of (msg_Body m))).1 = false.
Proof.
  intros Hs HR Hm. destruct (adm_lookup s r R (srun_adm _ _ _ _ Hs) HR) as [_ H].
  exact (proj1 (Forall_forall _ _) H m Hm).
Qed.

Definition run_result (acts : list sact) : chat :=
  match srun echo defaults acts with Ok s => s | Err _ => newChat defaults end.
Definition room_of (s : chat) (r : nat) : Room := default (newRoomObj "") (objs s !! r).

Lemma only_admissible_messages_witness :
  let m := stamped "id1" {| in_user := "bob"; in_body := "hi" |} 3 in
  w_sent (r_world (room_of (run_result demo) 0)) = [m] /\ msg_Body m <> ""%string.
Proof.
  intros m. assert (E : w_sent (r_world (room_of (run_result demo) 0)) = [m]) by (vm_compute; reflexivity).
  split; [exact E|].
  apply (only_admissible_messages echo defaults demo (run_result demo) 0 (room_of (run_result demo) 0) m).
  - vm_compute. reflexivity.
  - vm_compute. reflexivity.
  - rewrite E. left.
Defined.

(** On every run, whatever its interleaving, each channel name has at most
    one room, no two names share one, and a room's [stop] is closed at most
    once: a reaper or the shutdown never finds it closed, and a room still
    handed out is open. *)
Theorem stop_closed_at_most_once unmarshal opts acts s :
  srun unmarshal opts acts = Ok s ->
  (forall r, exists s', sstep unmarshal s (SClose r) = Ok s') /\
  (forall n1 n2 e1 e2, rooms (mgr s) !! n1 = Some e1 -> rooms (mgr s) !! n2 = Some e2 ->
     room e1 = room e2 -> n1 = n2) /\
  (forall n e, rooms (mgr s) !! n = Some e -> exists R, objs s !! room e = Some R /\
     r_name R = n /\ ch_closed (r_stop R) = false /\ running (w_hub (r_world R)) = true).
Proof.
  intros Hs. pose proof (srun_reg_ok _ _ _ _ Hs) as Hok. split_and!.
  - intros r. simpl. case_decide as Hr; [|by eexists].
    destruct (close_stop_ok r s Hok Hr) as (s' & -> & _). by exists s'.
  - intros n1 n2 e1 e2 H1 H2 He. destruct (rg_entry s Hok n1 e1 H1) as (R1 & HR1 & <- & _).
    destruct (rg_entry s Hok n2 e2 H2) as (R2 & HR2 & <- & _). rewrite He in HR1. by simplify_eq.
  - intros n e He. destruct (rg_entry s Hok n e He) as (R & HR & Hn & Hst & _). exists R.
    split_and!; [done..|]. destruct (running _) eqn:Hrun; [done|].
    rewrite (rg_running s Hok _ R HR Hrun) in Hst. done.
Qed.

(** The room empties, its timer fires, a new viewer gets a new room while the
    reaper is about to close the old one. *)
Definition demo_reap : list sact :=
  [SAccept "ann" "bob" 7 ""; SRegister 0; SRoom 0 FromJoin 1%Z; SRead 0 None 2%Z; SRoom 0 FromLeave 3%Z;
   SOnEmpty 0; SFire 0; SReap 0; SAccept "ann" "bob" 7 ""].

Lemma stop_closed_at_most_once_witness :
  closing (run_result demo_reap) = [0] /\
  (forall r, exists s', sstep echo (run_result demo_reap) (SClose r) = Ok s').
Proof.
  split; [vm_compute; reflexivity|].
  apply (stop_closed_at_most_once echo defaults demo_reap). vm_compute. reflexivity.
Defined.

(** As long as no reaper takes a channel's room and the server is not shut
    down, everyone who asks for that channel gets the same room, whatever all
    the goroutines do in between. *)
Theorem same_channel_same_room unmarshal opts acts s n s1 r more s2 :
  srun unmarshal opts acts = Ok s -> getOrCreate n s = (s1, Some r) ->
  mfoldl (sstep unmarshal) s1 more = Ok s2 -> untaken unmarshal n s1 more = true ->
  (getOrCreate n s2).2 = Some r.
Proof.
  intros Hs Hg Hm Hu. pose proof (srun_reg_ok _ _ _ _ Hs) as Hok.
  assert (Hok1 : reg_ok s1) by (pose proof (getOrCreate_ok n s Hok) as H; by rewrite Hg in H).
  pose proof (steps_reg_ok _ _ _ _ Hok1 Hm) as Hok2.
  assert (Hl : leads_to s1 n r).
  { unfold getOrCreate in Hg. destruct (stopped (mgr s)); [done|]. unfold leads_to, leads_in.
    destruct (rooms (mgr s) !! n) as [e|]; simplify_eq; simpl; rewrite lookup_insert_eq; eauto. }
  destruct (steps_lead unmarshal more s1 s2 n r Hm Hu Hl) as (e & He & Hr).
  unfold getOrCreate. destruct (stopped (mgr s2)) eqn:Hst.
  - by rewrite (rg_stopped s2 Hok2 Hst), lookup_empty in He.
  - rewrite He. simpl. by rewrite Hr.
Qed.

Lemma same_channel_same_room_witness :
  let s1 := (getOrCreate "ann" (run_result demo)).1 in
  let more := [SRead 0 None 6%Z; SRoom 0 FromLeave 7%Z; SAccept "eve" "" 0 ""; SRegister 3] in
  exists s2, mfoldl (sstep echo) s1 more = Ok s2 /\ (getOrCreate "ann" s2).2 = Some 0.
Proof.
  intros s1 more.
  exists (match mfoldl (sstep echo) s1 more with Ok s => s | Err _ => newChat defaults end). split.
  - vm_compute. reflexivity.
  - apply (same_channel_same_room echo defaults demo (run_result demo) "ann" s1 0 more); vm_compute; reflexivity.
Defined.

(** C35: shutting down is final. Whatever runs before and after, the registry
    stays empty, no channel gets a room any more, no viewer is counted, and
    every room ever made has had its [stop] closed or is on the shutdown's (or
    a reaper's) list to be closed. *)
Theorem shutdown_is_final unmarshal opts before after s :
  srun unmarshal opts (before ++ SShutdown :: after) = Ok s ->
  rooms (mgr s) = ∅ /\
  (forall n, getOrCreate n s = (s, None) /\ viewer_count n s = 0%Z) /\
  (forall r R, objs s !! r = Some R -> r ∈ closing s \/ ch_closed (r_stop R) = true).
Proof.
  intros Hs. pose proof (srun_reg_ok _ _ _ _ Hs) as Hok.
  unfold srun in Hs. rewrite mfoldl_app in Hs. apply res_bind_inv in Hs as (s1 & Hb & Hs).
  apply res_bind_inv in Hs as (s2 & H2 & Hs). simpl in H2. simplify_eq.
  assert (Hst : stopped (mgr s) = true).
  { refine (mfoldl_preserves (fun s => stopped (mgr s) = true) _ _ _ _ _ Hs _).
    - intros x a y. apply sstep_stopped.
    - unfold shutdownAll. by rewrite foldl_shutdown_stopped. }
  pose proof (rg_stopped s Hok Hst) as Hr. split_and!; [done | |].
  - intros n. unfold getOrCreate, viewer_count. by rewrite Hst, Hr, lookup_empty.
  - intros r R HR. destruct (rg_all s Hok r R HR) as [(e & He & _)|?]; [|done].
    by rewrite Hr, lookup_empty in He.
Qed.

Lemma shutdown_is_final_witness :
  let acts := demo ++ SShutdown :: [SAccept "ann" "bob" 7 ""; SClose 0] in
  closing (run_result acts) = [1] /\ rooms (mgr (run_result acts)) = ∅ /\
  getOrCreate "ann" (run_result acts) = (run_result acts, None).
Proof.
  intros acts. split; [vm_compute; reflexivity|].
  assert (E : srun echo defaults acts = Ok (run_result acts)) by (vm_compute; reflexivity).
  destruct (shutdown_is_final echo defaults demo [SAccept "ann" "bob" 7 ""; SClose 0] _ E) as (H1 & H2 & _).
  split; [exact H1 | apply H2].
Defined.

(** The reaper does not ask whether the room is still empty. In any state
    of a well-behaved run, if a reap timer is pending for a channel, then when
    it fires and its goroutine runs, every client registered in the room at
    that moment is disconnected: the room stops and closes their queues. *)
Theorem reap_disconnects_viewers unmarshal opts acts s n e t R now :
  polite_run unmarshal (newChat opts) acts -> srun unmarshal opts acts = Ok s ->
  rooms (mgr s) !! n = Some e -> timers s !! t = Some {| t_name := n; t_state := Pending |} ->
  objs s !! room e = Some R -> r_empty R = false ->
  exists s' R', mfoldl (sstep unmarshal) s [SFire t; SReap t; SClose (room e); SRoom (room e) FromStop now] = Ok s' /\
    objs s' !! room e = Some R' /\ running (w_hub (r_world R')) = false /\
    forall i, i ∈ clients (w_hub (r_world R)) -> exists c, heap (w_hub (r_world R')) !! i = Some c /\
      closed c = true /\ ch_closed (out c) = true.
Proof.
  intros Hp Hs He Ht HR Hre.
  destruct (polite_run_safe unmarshal acts (newChat opts)) as (s0 & Hs0 & Hreg & Hok);
    [apply newChat_reg_ok | apply newChat_sys_ok | done |].
  unfold srun in Hs. rewrite Hs in Hs0. injection Hs0 as <-.
  destruct (rg_entry s Hreg n e He) as (R0 & HR0 & _ & Hst & _).
  assert (R0 = R) as -> by congruence. clear HR0.
  assert (Hrun : running (w_hub (r_world R)) = true).
  { destruct (running _) eqn:E; [done|]. rewrite (rg_running s Hreg _ R HR E) in Hst. done. }
  pose proof (ro_world _ _ _ (so_rooms s Hok _ R HR)) as Hw.
  destruct (on_stop_spec _ (wo_hub _ Hw)) as (st' & Hstop & Hok' & Hr' & _ & _ & Hh).
  cbn [mfoldl sstep]. unfold fire. rewrite Ht. simpl. unfold timer_reap. simpl.
  rewrite list_lookup_insert_eq by (by eapply lookup_lt_Some). simpl. unfold reap. simpl. rewrite He. simpl.
  rewrite decide_True by set_solver. unfold close_stop. simpl. rewrite HR, close_open by done. simpl.
  unfold room_loop. simpl. rewrite list_lookup_insert_eq by (by eapply lookup_lt_Some). simpl.
  rewrite Hrun, Hre. simpl. unfold room_event, hub_step. simpl. rewrite Hrun. simpl. rewrite Hstop. simpl.
  eexists _, _. split; [reflexivity|]. simpl.
  rewrite list_lookup_insert_eq by (rewrite length_insert; by eapply lookup_lt_Some). split; [reflexivity|].
  simpl. rewrite record_event_hub. split; [done|]. intros i Hi. rewrite Hh, decide_True by done.
  destruct (ok_live _ (wo_hub _ Hw) i Hi) as (c & -> & _). by eexists.
Qed.

(** A user leaves; before the room has seen that, another one asks for the
    channel, and registers once the room has scheduled its own reaping. *)
Definition demo_race : list sact :=
  [SAccept "ann" "bob" 7 ""; SRegister 0; SRoom 0 FromJoin 1%Z; SRead 0 None 2%Z;
   SAccept "ann" "eve" 8 ""; SRoom 0 FromLeave 3%Z; SOnEmpty 0; SRegister 1; SRoom 0 FromJoin 4%Z].

Lemma reap_disconnects_viewers_witness :
  clients (w_hub (r_world (room_of (run_result demo_race) 0))) = {[1]} /\
  exists s' R', mfoldl (sstep echo) (run_result demo_race) [SFire 0; SReap 0; SClose 0; SRoom 0 FromStop 30%Z] = Ok s' /\
    objs s' !! 0 = Some R' /\ running (w_hub (r_world R')) = false /\
    forall i, i ∈ clients (w_hub (r_world (room_of (run_result demo_race) 0))) ->
      exists c, heap (w_hub (r_world R')) !! i = Some c /\ closed c = true /\ ch_closed (out c) = true.
Proof.
  split; [vm_compute; reflexivity|].
  apply (reap_disconnects_viewers echo defaults demo_race (run_result demo_race) "ann"
           {| room := 0; reapTimer := Some 0 |} 0 (room_of (run_result demo_race) 0) 30%Z).
  - apply polite_runb_ok. vm_compute. reflexivity.
  - vm_compute. reflexivity.
  - vm_compute. reflexivity.
  - vm_compute. reflexivity.
  - vm_compute. reflexivity.
  - vm_compute. reflexivity.
Defined.

(** A handler whose registration reaches a room that has stopped waits for
    ever: nothing any goroutine can do, the shutdown included, closes its
    queue or puts anything in it, so its writer loop never ends. *)
Theorem late_registration_hangs unmarshal s k r c R cl acts s' :
  conns s !! k = Some c -> c_room c = r -> c_phase c = Serving ->
  objs s !! r = Some R -> running (w_hub (r_world R)) = false ->
  heap (w_hub (r_world R)) !! k = Some cl -> ch_buf (out cl) = [] -> ch_closed (out cl) = false ->
  mfoldl (sstep unmarshal) s acts = Ok s' ->
  exists c', conns s' !! k = Some c' /\ c_phase c' = Serving /\
    forall ok, sstep unmarshal s' (SWrite k ok) = Ok s'.
Proof.
  intros Hc Hr Hp HR Hrun Hcl Hbuf Hopen Hrest.
  assert (Hh : hanging s k r cl).
  { split; [by exists c | by exists R |]. unfold recv. by rewrite Hbuf, Hopen. }
  assert (Hh' : hanging s' k r cl).
  { refine (mfoldl_preserves (fun s => hanging s k r cl) _ _ _ _ _ Hrest Hh).
    intros x a y. apply sstep_hanging. }
  destruct Hh' as [(c' & Hc' & Hr' & Hp') (R' & HR' & _ & Hcl') Hw]. exists c'. split_and!; [done..|].
  intros ok. simpl. unfold write. by rewrite Hc', Hp', Hr', HR', Hcl', Hw.
Qed.

(** The timer fires and the room stops between [getOrCreate] and the join. *)
Definition demo_hang : list sact :=
  [SAccept "ann" "bob" 7 ""; SRegister 0; SRoom 0 FromJoin 1%Z; SRead 0 None 2%Z; SRoom 0 FromLeave 3%Z;
   SOnEmpty 0; SFire 0; SAccept "ann" "eve" 8 ""; SReap 0; SClose 0; SRoom 0 FromStop 4%Z; SRegister 1].

Lemma late_registration_hangs_witness :
  exists c', conns (run_result (demo_hang ++ [SShutdown; SWrite 1 true])) !! 1 = Some c' /\ c_phase c' = Serving.
Proof.
  destruct (late_registration_hangs echo (run_result demo_hang) 1 0
    {| c_room := 0; c_phase := Serving; c_read := Reading; c_errs := [] |}
    (room_of (run_result demo_hang) 0) (new_client "eve" 8 "") [SShutdown; SWrite 1 true]
    (run_result (demo_hang ++ [SShutdown; SWrite 1 true]))) as (c' & H1 & H2 & _);
    [vm_compute; reflexivity..|]. exists c'. split; [exact H1 | exact H2].
Defined.
