(* ===== verification/WireSys.v ===== *)
(** * The chat on the wire: what every socket gets, on every run

    The system of [ChatSys] with the codec of [Wire] for its frames: whatever
    the clients send and however the goroutines interleave, every message the
    server writes to a socket can be written, as clean text. *)

From S2P Require Import Prelude Utf8 Runes Duration Calendar Json JsonThms Chan Tally Hub HubInv HubTrace Float64 RateLimit Ws Wire WireThms Manager ChatSys.
Local Open Scope Z_scope.
Local Open Scope list_scope.

Definition utf8 (s : string) : Prop := valid_utf8 (bytes_of s) = true.

Lemma utf8_app s t : utf8 s -> utf8 t -> utf8 (s +:+ t).
Proof. unfold utf8. rewrite bytes_of_app. apply valid_app. Qed.

(** A message that can be written as it is. *)
Definition good (m : Message) : Prop :=
  utf8 (msg_ID m) /\ utf8 (msg_Type m) /\ utf8 (msg_User m) /\ utf8 (msg_Body m) /\ year_ok (msg_At m) = true.

Lemma good_written m : good m -> exists s, Marshal m = Some s /\ clean (bytes_of s) /\
  (- 2 ^ 63 <= msg_Count m < 2 ^ 63 -> Unmarshal s = Some m).
Proof.
  intros (H1 & H2 & H3 & H4 & Hy). destruct (Marshal_total m Hy) as [s Hs]. exists s. split; [done|]. split; [by eapply Marshal_clean|].
  intros Hn. rewrite (Marshal_read m s Hs Hn). by rewrite on_wire_id.
Qed.

(** ** One room *)
Record good_hub (st : hub) : Prop := {
  gh_heap : forall i c, heap st !! i = Some c -> utf8 (username c) /\ Forall good (ch_buf (out c));
  gh_history : Forall good (history st)
}.

Lemma good_same st st' : heap st' = heap st -> history st' = history st -> good_hub st -> good_hub st'.
Proof. intros E1 E2 [H1 H2]. by split; rewrite ?E1, ?E2. Qed.
Lemma good_store i c st : utf8 (username c) -> Forall good (ch_buf (out c)) -> good_hub st -> good_hub (store i c st).
Proof.
  intros Hu Hb [H1 H2]. split; [|done]. intros j d. simpl. rewrite lookup_insert_Some. intros [[<- <-]|[_ Hd]]; [done | by apply (H1 j)].
Qed.
Lemma good_deref st i c : good_hub st -> deref st i = Ok c -> utf8 (username c) /\ Forall good (ch_buf (out c)).
Proof. intros Hg. unfold deref. destruct (heap st !! i) eqn:E; [|done]. intros [= <-]. by apply (gh_heap st Hg i). Qed.

Lemma try_send_good m o o' : Forall good (ch_buf o) -> good m -> try_send o m = Ok (Some o') -> Forall good (ch_buf o').
Proof.
  unfold try_send. intros Ho Hm. destruct (ch_closed o); [done|]. destruct (full o); [done|]. intros [= <-]. simpl.
  apply Forall_app. by split; [|constructor].
Qed.
Lemma close_buf {A} (o o' : chan A) : close o = Ok o' -> ch_buf o' = ch_buf o.
Proof. unfold close. destruct (ch_closed o); [done|]. by intros [= <-]. Qed.

Lemma removeClient_good st i r : good_hub st -> removeClient st i = Ok r -> good_hub r.1.1.
Proof.
  intros Hg. unfold removeClient. intros (c & Hc & H)%res_bind_inv. destruct (good_deref _ _ _ Hg Hc) as [Hu Hb].
  destruct (closed c); [by injection H as <-|]. apply res_bind_inv in H as (o & Ho & H).
  assert (Hst : good_hub (store i (with_out (with_closed c) o) st)) by (apply good_store; [done | simpl; by rewrite (close_buf _ _ Ho) | done]).
  destruct (if negb (String.eqb (viewerKey c) "") then _ else _) as [vc vch]. destruct (if negb (String.eqb (username c) "") then _ else _) as [up lst].
  injection H as <-. by eapply good_same; [..|exact Hst].
Qed.
Lemma dispatch_one_good m st i st' : good m -> good_hub st -> dispatch_one m st i = Ok st' -> good_hub st'.
Proof.
  intros Hm Hg. unfold dispatch_one. intros (c & Hc & (x & Hx & H)%res_bind_inv)%res_bind_inv. destruct (good_deref _ _ _ Hg Hc) as [Hu Hb].
  destruct x as [o|].
  - injection H as <-. apply good_store; [done | | done]. by eapply try_send_good.
  - apply res_bind_inv in H as (r & Hr & [= <-]). by eapply removeClient_good.
Qed.
Lemma dispatch_good m st st' : dispatch m st = Ok st' -> good m -> good_hub st -> good_hub st'.
Proof. intros H Hm Hg. eapply (mfoldl_preserves good_hub); [|exact H | done]. intros s i s' Hs Hi. by eapply dispatch_one_good. Qed.
Lemma deliver_good o ms r : Forall good (ch_buf o) -> Forall good ms -> deliver o ms = Ok r -> Forall good (ch_buf r.1).
Proof.
  revert o. induction ms as [|m ms IH]; intros o Ho Hms; cbn [deliver]; [by intros [= <-]|]. apply Forall_cons in Hms as [Hm Hms].
  intros (x & Hx & H)%res_bind_inv. destruct x as [o'|]; [|by injection H as <-]. eapply IH; [|done|exact H]. by eapply try_send_good.
Qed.

Lemma system_good body now : utf8 body -> year_ok now = true -> good (systemMessage body now).
Proof. intros Hb Hn. by repeat split. Qed.
Lemma viewers_good st : good (viewerMessage st).
Proof. by repeat split. Qed.

Definition event_good (e : event) : Prop :=
  match e with
  | EJoin _ now | ELeave _ now => year_ok now = true
  | ESend msg uuid now => utf8 (in_user msg) /\ utf8 (in_body msg) /\ year_ok now = true /\ (forall id, uuid = Some id -> utf8 id)
  | EStop => True
  end.

Lemma on_join_good st i now st' : year_ok now = true -> good_hub st -> on_join st i now = Ok st' -> good_hub st'.
Proof.
  intros Hn Hg. unfold on_join. intros (c & Hc & ([o ov] & Ho & H)%res_bind_inv)%res_bind_inv.
  destruct (good_deref _ _ _ Hg Hc) as [Hu Hb]. pose proof (deliver_good _ _ _ Hb (gh_history _ Hg) Ho) as Hbo. cbn [fst] in Hbo. destruct ov.
  { apply res_bind_inv in H as (o' & Ho' & [= <-]). apply good_store; [done | simpl; by rewrite (close_buf _ _ Ho') | done]. }
  assert (H0 : good_hub (store i (with_out c o) st)) by by apply good_store.
  destruct (if negb (String.eqb (viewerKey c) "") then _ else _) as [vc vch]. cbv zeta in H.
  set (st1 := set_counts _ vc _) in H. assert (H1 : good_hub st1) by (by eapply good_same; [..|exact H0]). clearbody st1. clear H0.
  apply res_bind_inv in H as (st2 & Hst2 & H). assert (H2 : good_hub st2).
  { destruct (negb (String.eqb (username c) "")); [|by injection Hst2 as <-]. case_decide; [|injection Hst2 as <-; by eapply good_same; [..|exact H1]].
    eapply (dispatch_good _ _ _ Hst2); [|by eapply good_same; [..|exact H1]]. apply system_good; [by apply utf8_app | done]. }
  clear Hst2 H1. destruct vch.
  { eapply (dispatch_good _ _ _ H); [apply viewers_good | by eapply good_same; [..|exact H2]]. }
  apply res_bind_inv in H as (c2 & Hc2 & (x & Hx & H)%res_bind_inv). destruct (good_deref _ _ _ H2 Hc2) as [Hu2 Hb2].
  destruct x as [o'|]; [|by injection H as <-]. injection H as <-. apply good_store; [done | | done]. eapply try_send_good; [exact Hb2 | apply viewers_good | exact Hx].
Qed.

Lemma on_leave_good st i now r : year_ok now = true -> good_hub st -> on_leave st i now = Ok r -> good_hub r.1.
Proof.
  intros Hn Hg. unfold on_leave. intros ([[st1 lst] vch] & Hrm & H)%res_bind_inv. apply removeClient_good in Hrm; [|done]. cbn [fst] in Hrm.
  apply res_bind_inv in H as (st2 & H2 & H). assert (Hg2 : good_hub st2).
  { destruct lst; [|by injection H2 as <-]. apply res_bind_inv in H2 as (c & Hc & H2). destruct (good_deref _ _ _ Hrm Hc) as [Hu _].
    eapply (dispatch_good _ _ _ H2); [|exact Hrm]. apply system_good; [by apply utf8_app | done]. }
  apply res_bind_inv in H as (st3 & H3 & [= <-]). cbn [fst]. destruct vch; [|by injection H3 as <-].
  eapply (dispatch_good _ _ _ H3); [apply viewers_good | by eapply good_same; [..|exact Hg2]].
Qed.

Lemma hub_step_good st e r : event_good e -> good_hub st -> hub_step st e = Ok r -> good_hub r.1.
Proof.
  intros He Hg. unfold hub_step. destruct (negb (running st)); [by intros [= <-]|]. destruct e as [i now|i now|msg uuid now|].
  - intros (st' & H & [= <-])%res_bind_inv. by eapply on_join_good.
  - intros H. by eapply on_leave_good.
  - intros (st' & H & [= <-])%res_bind_inv. destruct He as (Hu & Hb & Hn & Hid). unfold on_send in H.
    apply res_bind_inv in H as (m & Hm & H). unfold stamp in Hm. destruct uuid as [id|]; [|done]. injection Hm as <-.
    match type of H with dispatch ?m _ = _ => assert (Hgm : good m) by (repeat split; auto) end.
    eapply (dispatch_good _ _ _ H); [exact Hgm|]. destruct Hg as [G1 G2]. split; [done|]. unfold appendHistory. simpl.
    apply Forall_app. split; [|by constructor]. case_decide; [by apply Forall_drop | done].
  - intros (st' & H & [= <-])%res_bind_inv. unfold on_stop in H. apply res_bind_inv in H as (st1 & H & [= <-]).
    assert (H1 : good_hub st1); [|by eapply good_same; [..|exact H1]].
    eapply (mfoldl_preserves good_hub); [|exact H | done]. intros s j s' Hs Hi. apply res_bind_inv in Hs as (x & Hx & [= <-]).
    by eapply removeClient_good.
Qed.

Definition good_world (w : world) : Prop := good_hub (w_hub w) /\ forall i, Forall good (wire w i).

Lemma wstep_good w a w' : (forall e, a <> AEvent e) -> (forall i u id k, a = AConnect i u id k -> utf8 u) -> good_world w -> wstep w a = Ok w' -> good_world w'.
Proof.
  intros Hne Hu [Hg Hw] H. destruct a as [i u id k|e|i]; [| by destruct (Hne e)|]; simpl in H.
  - destruct (heap (w_hub w) !! i); injection H as <-; [done|]. split; [|done]. apply good_store; [by eapply Hu | constructor | done].
  - unfold writer_recv in H. destruct (heap (w_hub w) !! i) as [c|] eqn:Hc; [|by injection H as <-].
    destruct (gh_heap _ Hg i c Hc) as [Huc Hb]. unfold recv in H. destruct (ch_buf (out c)) as [|m buf] eqn:Eb.
    { destruct (ch_closed (out c)); by injection H as <-. }
    apply Forall_cons in Hb as [Hm Hbuf]. injection H as <-. split; [by apply good_store|]. intros j. cbn [w_wire]. unfold wire_of.
    destruct (decide (i = j)) as [<-|Hij]; [rewrite lookup_insert_eq | rewrite lookup_insert_ne by done; apply Hw].
    simpl. apply Forall_app. split; [apply (Hw i) | by constructor].
Qed.
Lemma event_world w e st' : good_world w -> good_hub st' -> good_world (record_event w e st').
Proof.
  intros [_ Hw] Hg. unfold record_event. destruct (negb _); [done|]. destruct e as [| |msg [id|] nw|]; done.
Qed.

(** ** The whole chat *)
Definition good_in (msg : inbound) : Prop := utf8 (in_user msg) /\ utf8 (in_body msg).
Record good_room (R : Room) : Prop := {
  gr_queue : Forall good_in (ch_buf (r_send R));
  gr_world : good_world (r_world R)
}.
Record good_conn (c : conn) : Prop := {
  gc_read : forall msg, c_read c = Sending msg -> good_in msg;
  gc_errs : Forall good (c_errs c)
}.
Record good_chat (s : chat) : Prop := {
  gs_rooms : Forall good_room (objs s);
  gs_conns : Forall good_conn (conns s)
}.

(** Names and ids are text and clocks are in their range. *)
Definition sane (a : sact) : Prop :=
  match a with
  | SAccept _ user _ _ => utf8 user
  | SRead _ _ now => year_ok now = true
  | SRoom _ src now => year_ok now = true /\ (forall id, src = FromSend (Some id) -> utf8 id)
  | _ => True
  end.

Lemma gs_same s s' : objs s' = objs s -> conns s' = conns s -> good_chat s -> good_chat s'.
Proof. intros Ho Hc [H1 H2]. split; by rewrite ?Ho, ?Hc. Qed.
Lemma gs_set_room s r R : good_chat s -> good_room R -> good_chat (set_room r R s).
Proof. intros [H1 H2] HR. split; simpl; [by apply Forall_insert | done]. Qed.
Lemma gs_set_conn s k c : good_chat s -> good_conn c -> good_chat (set_conn k c s).
Proof. intros [H1 H2] Hc. split; simpl; [done | by apply Forall_insert]. Qed.
Lemma gs_room s r R : good_chat s -> objs s !! r = Some R -> good_room R.
Proof. intros [H1 _] HR. by eapply Forall_lookup_1. Qed.
Lemma gs_conn s k c : good_chat s -> conns s !! k = Some c -> good_conn c.
Proof. intros [_ H2] Hc. by eapply Forall_lookup_1. Qed.
Lemma gr_same R R' : ch_buf (r_send R') = ch_buf (r_send R) -> r_world R' = r_world R -> good_room R -> good_room R'.
Proof. intros E1 E2 [H1 H2]. by split; rewrite ?E1, ?E2. Qed.
Lemma gc_quiet c c' : (forall msg, c_read c' = Sending msg -> c_read c = Sending msg) -> c_errs c' = c_errs c -> good_conn c -> good_conn c'.
Proof. intros Hr He [H1 H2]. split; [by intros msg Hm; apply H1, Hr | by rewrite He]. Qed.

Lemma try_leave_gs r k s s' : good_chat s -> try_leave r k s = Ok s' -> good_chat s'.
Proof.
  intros Hok. unfold try_leave. destruct (objs s !! r) as [R|] eqn:HR; [|done].
  intros (o & _ & H)%res_bind_inv. destruct o; simplify_eq; [|done].
  apply gs_set_room; [done|]. apply (gr_same R); [done..|by apply (gs_room s r)].
Qed.
Lemma newRoomObj_good n : good_room (newRoomObj n).
Proof.
  split; [by apply Forall_nil_2|]. split; [|by intros i]. split; [|by apply Forall_nil_2]. intros i c. simpl. by rewrite lookup_empty.
Qed.

Lemma accept_gs n u uid k s s' : utf8 u -> good_chat s -> accept n u uid k s = Ok s' -> good_chat s'.
Proof.
  intros Hu Hok. unfold accept. assert (Hg : good_chat (getOrCreate n s).1).
  { unfold getOrCreate. destruct (stopped (mgr s)); [done|]. destruct (rooms (mgr s) !! n); simpl; [by apply (gs_same s)|].
    destruct Hok as [H1 H2]. split; simpl; [|done]. apply Forall_app. split; [done|]. by apply Forall_singleton, newRoomObj_good. }
  destruct (getOrCreate n s) as [s1 [r|]]; [|by intros [= <-]]. simpl in Hg.
  destruct (objs s1 !! r) as [R|] eqn:HR; [|done]. intros (w & Hw & [= <-])%res_bind_inv.
  pose proof (gs_room s1 r R Hg HR) as [Hq Hwd].
  assert (HR' : good_room (with_world R w)).
  { split; [done|]. eapply wstep_good; [..|exact Hw]; [done | by intros i u' id k' [= <- <- <- <-] | done]. }
  destruct (gs_set_room s1 r _ Hg HR') as [H1 H2]. split; simpl; [done|]. apply Forall_app. split; [done|]. apply Forall_singleton. by split; [|apply Forall_nil_2].
Qed.

Lemma read_gs k fr now s s' : year_ok now = true -> good_chat s -> read Unmarshal k fr now s = Ok s' -> good_chat s'.
Proof.
  intros Hn Hok. unfold read. destruct (conns s !! k) as [c|] eqn:Hc; [|by intros [= <-]]. pose proof (gs_conn s k c Hok Hc) as Hgc.
  destruct (c_read c), (objs s !! c_room c) as [R|] eqn:HR; try by intros [= <-]. destruct fr as [data|].
  - destruct (heap _ !! k) as [cl|] eqn:Hcl; [|done]. destruct (handle_frame _ _ _ _ _) as [l v] eqn:Hv. intros [= <-].
    assert (Hok' : good_chat (set_limits l s)) by by apply (gs_same s). apply gs_set_conn; [exact Hok'|]. destruct v as [e|msg].
    + split; [done|]. simpl. apply Forall_app. split; [apply Hgc|]. repeat constructor; try done. by eapply (refusal_readable _ _ _ _ _ _ Hv).
    + split; [|apply Hgc]. simpl. intros msg' [= <-]. destruct (forwarded_body _ _ _ _ _ _ Hv) as (typed & Ht & Hb & Hu).
      destruct (Unmarshal_readable _ _ Ht) as (_ & _ & _ & Hvb & _). destruct (gs_room s _ R Hok HR) as [_ [Hh _]].
      destruct (gh_heap _ Hh k cl Hcl) as [Hucl _]. split; [by rewrite Hu | rewrite Hb; by apply valid_TrimSpace].
  - intros H. eapply try_leave_gs; [|exact H]. apply gs_set_conn; [done|]. by eapply gc_quiet; [..|exact Hgc].
Qed.

Lemma room_loop_gs r src now s s' : year_ok now = true -> (forall id, src = FromSend (Some id) -> utf8 id) -> good_chat s ->
  room_loop r src now s = Ok s' -> good_chat s'.
Proof.
  intros Hn Hid Hok. unfold room_loop. destruct (objs s !! r) as [R|] eqn:HR; [|by intros [= <-]].
  destruct (_ || _); [by intros [= <-]|]. destruct (select_one R src now) as [[e R1]|] eqn:Hsel; [|by intros [= <-]].
  intros ([R2 b] & Hev & [= <-])%res_bind_inv. apply gs_set_room; [done|].
  pose proof (gs_room s r R Hok HR) as [Hq Hw].
  assert (H1 : good_room R1 /\ event_good e).
  { destruct src as [| |uuid|]; simpl in Hsel.
    - destruct (recv (r_join R)); try done. injection Hsel as <- <-. split; [by split | done].
    - destruct (recv (r_leave R)); try done. injection Hsel as <- <-. split; [by split | done].
    - unfold recv in Hsel. destruct (ch_buf (r_send R)) as [|m q0] eqn:Eq; [by destruct (ch_closed _)|]. injection Hsel as <- <-.
      apply Forall_cons in Hq as [[Hmu Hmb] Hq]. split; [by split|]. split; [done|]. split; [done|]. split; [done|]. intros id ->. by apply Hid.
    - destruct (ch_closed _); [|done]. injection Hsel as <- <-. split; [by split | done]. }
  destruct H1 as [[Hq1 Hw1] Hge]. unfold room_event in Hev. apply res_bind_inv in Hev as (st & Hst & [= <- _]).
  split; [done|]. simpl. apply event_world; [done|]. eapply hub_step_good; [exact Hge | apply Hw1 | exact Hst].
Qed.

Lemma write_gs k okw s s' : good_chat s -> write k okw s = Ok s' -> good_chat s'.
Proof.
  intros Hok. unfold write. destruct (conns s !! k) as [c|] eqn:Hc; [|by intros [= <-]]. pose proof (gs_conn s k c Hok Hc) as Hgc.
  destruct (c_phase c), (objs s !! c_room c) as [R|] eqn:HR; try by intros [= <-]. destruct (heap _ !! k) as [cl|]; [|done].
  destruct (recv (out cl)); [|intros [= <-]; by apply gs_set_conn; [|apply (gc_quiet c)]|by intros [= <-]].
  intros (w & Hw & [= <-])%res_bind_inv. destruct (gs_room s _ R Hok HR) as [Hq Hwd].
  apply gs_set_conn; [|destruct okw; [done | by apply (gc_quiet c)]]. apply gs_set_room; [done|]. split; [done|].
  simpl. by eapply wstep_good; [..|exact Hw].
Qed.
Lemma shutdown_gs l s : good_chat s -> good_chat (foldl shutdown_one s l).
Proof.
  revert s. induction l as [|[n e] l IH]; intros s Hs; [done|]. simpl. apply IH. by apply (gs_same s).
Qed.

Lemma sstep_gs s a s' : sane a -> good_chat s -> sstep Unmarshal s a = Ok s' -> good_chat s'.
Proof.
  intros Ha Hok H. destruct a as [n u i k|k|k|k okw|k|k fr now|k|k|r src now|r|t|t|r|]; simpl in H.
  - by eapply accept_gs.
  - unfold register in H. destruct (conns s !! k) as [c|] eqn:Hc; [|by simplify_eq]. pose proof (gs_conn s k c Hok Hc) as Hgc.
    destruct (c_phase c), (objs s !! c_room c) as [R|] eqn:HR; simplify_eq; try done.
    apply res_bind_inv in H as (o & _ & H). destruct o; simplify_eq; [|done].
    apply gs_set_conn; [|by apply (gc_quiet c)]. apply gs_set_room; [done|]. apply (gr_same R); [done..|by apply (gs_room s (c_room c))].
  - simplify_eq. unfold cancel. destruct (conns s !! k) as [c|] eqn:Hc; [|done]. destruct (c_phase c); try done.
    apply gs_set_conn; [done|]. apply (gc_quiet c); [done..|by apply (gs_conn s k)].
  - by eapply write_gs.
  - unfold finish in H. destruct (conns s !! k) as [c|] eqn:Hc; [|by simplify_eq]. destruct (c_phase c); simplify_eq; try done.
    eapply try_leave_gs; [|exact H]. apply gs_set_conn; [done|]. apply (gc_quiet c); [done..|by apply (gs_conn s k)].
  - by eapply read_gs.
  - unfold forward in H. destruct (conns s !! k) as [c|] eqn:Hc; [|by simplify_eq]. pose proof (gs_conn s k c Hok Hc) as Hgc.
    destruct (c_read c) as [| |msg|] eqn:Hrd, (objs s !! c_room c) as [R|] eqn:HR; simplify_eq; try done.
    apply res_bind_inv in H as (o & Ho & H). destruct o as [q0|]; simplify_eq; [|done].
    apply gs_set_conn; [|by apply (gc_quiet c)]. apply gs_set_room; [done|]. destruct (gs_room s _ R Hok HR) as [Hq Hw]. split; [|done]. simpl.
    unfold try_send in Ho. destruct (ch_closed _); [done|]. destruct (full _); [done|]. injection Ho as <-. simpl.
    apply Forall_app. split; [done|]. apply Forall_singleton. by apply (gc_read c).
  - simplify_eq. unfold read_cancel. destruct (conns s !! k) as [c|] eqn:Hc; [|done]. destruct (c_read c) eqn:Hrd; try done.
    apply gs_set_conn; [done|]. apply (gc_quiet c); [done..|by apply (gs_conn s k)].
  - destruct Ha as [Hn Hid]. by eapply room_loop_gs.
  - simplify_eq. unfold on_empty. destruct (objs s !! r) as [R|] eqn:HR; [|done]. destruct (r_empty R); [|done].
    assert (Hs : good_chat (set_room r (with_empty R false) s)).
    { apply gs_set_room; [done|]. apply (gr_same R); [done..|by apply (gs_room s r)]. }
    unfold scheduleReap. destruct (rooms _ !! _); [|done]. by apply (gs_same (set_room r (with_empty R false) s)).
  - simplify_eq. unfold fire. destruct (timers s !! t) as [tm|]; [|done]. destruct (t_state tm); [by apply (gs_same s)|done..].
  - simplify_eq. unfold timer_reap. destruct (timers s !! t) as [tm|]; [|done].
    destruct (t_state tm); try done. unfold reap. destruct (rooms _ !! _); by apply (gs_same s).
  - case_decide; [|by simplify_eq]. unfold close_stop in H. destruct (objs s !! r) as [R|] eqn:HR; [|done].
    apply res_bind_inv in H as (st & _ & [= <-]).
    apply (gs_same (set_room r {| r_name := r_name R; r_join := r_join R; r_leave := r_leave R;
      r_send := r_send R; r_stop := st; r_world := r_world R; r_empty := r_empty R |} s)); [done..|].
    apply gs_set_room; [done|]. apply (gr_same R); [done..|by apply (gs_room s r)].
  - simplify_eq. apply shutdown_gs. by apply (gs_same s).
Qed.

Lemma srun_gs opts acts s : Forall sane acts -> srun Unmarshal opts acts = Ok s -> good_chat s.
Proof.
  unfold srun. intros Ha. assert (H0 : good_chat (newChat opts)) by (split; apply Forall_nil_2). revert H0. generalize (newChat opts).
  induction Ha as [|a acts Ha _ IH]; intros s0 Hs0; cbn [mfoldl]; [by intros [= <-]|]. intros (s1 & H1 & H2)%res_bind_inv.
  apply (IH s1); [|done]. by eapply sstep_gs.
Qed.

(** C9: everything the chat writes can be written and read. On every run,
    whatever bytes the clients send as frames and however rooms, readers,
    writers and timers interleave, each message that has gone out on a socket,
    each one waiting in a client's queue or kept in a room's history, and each
    error sent to a client, has a text: valid UTF-8 on one line, without control
    characters or markup, that reads back as that message. So no writer loop
    ever ends because a message could not be encoded, and no browser drops a
    connection over the encoding of a text frame. *)
Theorem chat_writes_clean_text opts acts s : Forall sane acts -> srun Unmarshal opts acts = Ok s ->
  forall m,
    (exists r R, objs s !! r = Some R /\
       (m ∈ history (w_hub (r_world R)) \/ (exists i, m ∈ wire (r_world R) i) \/
        (exists i c, heap (w_hub (r_world R)) !! i = Some c /\ m ∈ ch_buf (out c)))) \/
    (exists k c, conns s !! k = Some c /\ m ∈ c_errs c) ->
    exists text, Marshal m = Some text /\ clean (bytes_of text) /\ (- 2 ^ 63 <= msg_Count m < 2 ^ 63 -> Unmarshal text = Some m).
Proof.
  intros Ha Hrun m Hm. apply good_written. pose proof (srun_gs opts acts s Ha Hrun) as Hg.
  destruct Hm as [(r & R & HR & Hin)|(k & c & Hc & Hin)].
  - destruct (gs_room s r R Hg HR) as [_ [[Hh Hhist] Hw]]. destruct Hin as [Hin|[[i Hin]|(i & c & Hc & Hin)]].
    + by eapply (proj1 (Forall_forall _ _) Hhist).
    + by eapply (proj1 (Forall_forall _ _) (Hw i)).
    + by eapply (proj1 (Forall_forall _ _) (proj2 (Hh i c Hc))).
  - by eapply (proj1 (Forall_forall _ _) (gc_errs c (gs_conn s k c Hg Hc))).
Qed.

Definition two_viewers : list sact :=
  [SAccept "ann" "ann" 1 ""; SAccept "ann" "" 0 "k2"; SRegister 0; SRegister 1; SRoom 0 FromJoin 1; SRoom 0 FromJoin 2;
   SRead 0 (Some (q "{'body':' <b>caf\u00e9 '}")) 3; SRead 1 (Some "{}"%string) 4; SRead 0 (Some "{"%string) 5; SForward 0;
   SRoom 0 (FromSend (Some "id1"%string)) 6; SWrite 1 true; SWrite 1 true].
Definition plain_options : Options := {| RateBurst := 0; RatePerSecond := QArith_base.inject_Z 0 |}.
Definition after_two : chat := match srun Unmarshal plain_options two_viewers with Ok s => s | Err _ => newChat plain_options end.

Lemma two_viewers_sane : Forall sane two_viewers.
Proof. repeat constructor; try (by vm_compute); intros id [= <-]; by vm_compute. Qed.

Lemma chat_writes_clean_text_witness :
  let m := {| msg_ID := "id1"; msg_Type := KindMessage; msg_User := "ann"; msg_Body := string_of (unquote (bytes_of "<b>caf\u00e9")); msg_At := 6; msg_Count := 0 |} in
  history (w_hub (r_world (default (newRoomObj "") (objs after_two !! 0%nat)))) = [m] /\
  exists text, Marshal m = Some text /\ clean (bytes_of text) /\ (- 2 ^ 63 <= msg_Count m < 2 ^ 63 -> Unmarshal text = Some m).
Proof.
  intros m. assert (E : history (w_hub (r_world (default (newRoomObj "") (objs after_two !! 0%nat)))) = [m]) by (vm_compute; reflexivity).
  split; [exact E|]. apply (chat_writes_clean_text plain_options two_viewers after_two two_viewers_sane).
  - vm_compute. reflexivity.
  - left. exists 0%nat, (default (newRoomObj "") (objs after_two !! 0%nat)). split; [vm_compute; reflexivity|]. left. rewrite E. left.
Defined.
