(* ===== verification/Encoding.v ===== *)
(** * [base64.RawURLEncoding] and [sha256.Sum256]

    What the program uses of the standard library to make session tokens,
    stream keys and their hashes.  Bytes are integers 0 to 255. *)

From S2P Require Import Prelude Utf8.
Local Open Scope Z_scope.

(** ** Base64, URL alphabet, no padding *)
Definition alphabet : list Z :=
  bytes_of "ABCDEFGHIJKLMNOPQRSTUVWXYZabcdefghijklmnopqrstuvwxyz0123456789-_".
Definition sym (v : Z) : Z := nth (Z.to_nat v) alphabet 0.

Fixpoint encode64 (bs : list Z) : list Z :=
  match bs with
  | [] => []
  | [b0] => [sym (Z.shiftr b0 2); sym (Z.shiftl (Z.land b0 3) 4)]
  | [b0; b1] =>
      [sym (Z.shiftr b0 2); sym (Z.lor (Z.shiftl (Z.land b0 3) 4) (Z.shiftr b1 4));
       sym (Z.shiftl (Z.land b1 15) 2)]
  | b0 :: b1 :: b2 :: bs =>
      sym (Z.shiftr b0 2) :: sym (Z.lor (Z.shiftl (Z.land b0 3) 4) (Z.shiftr b1 4)) ::
      sym (Z.lor (Z.shiftl (Z.land b1 15) 2) (Z.shiftr b2 6)) :: sym (Z.land b2 63) :: encode64 bs
  end.

Definition EncodeToString (bs : list Z) : string := string_of (encode64 bs).

(** ** SHA-256 *)
Definition w32 (z : Z) : Z := z mod 2 ^ 32.
Definition add32 (a b : Z) : Z := w32 (a + b).
Definition rotr (n x : Z) : Z := Z.lor (Z.shiftr x n) (w32 (Z.shiftl x (32 - n))).
Definition xor3 (a b c : Z) : Z := Z.lxor (Z.lxor a b) c.
Definition Ch (x y z : Z) : Z := Z.lxor (Z.land x y) (Z.land (Z.lxor x 4294967295) z).
Definition Maj (x y z : Z) : Z := xor3 (Z.land x y) (Z.land x z) (Z.land y z).
Definition bigsigma0 (x : Z) : Z := xor3 (rotr 2 x) (rotr 13 x) (rotr 22 x).
Definition bigsigma1 (x : Z) : Z := xor3 (rotr 6 x) (rotr 11 x) (rotr 25 x).
Definition sigma0 (x : Z) : Z := xor3 (rotr 7 x) (rotr 18 x) (Z.shiftr x 3).
Definition sigma1 (x : Z) : Z := xor3 (rotr 17 x) (rotr 19 x) (Z.shiftr x 10).

(** The constants: the first 32 bits after the point of the cube roots of the
    first 64 primes, and of the square roots of the first 8. *)
Definition prime (n : Z) : bool := forallb (fun d => negb (n mod Z.of_nat d =? 0)) (seq 2 (Z.to_nat n - 2)).
Definition primes : list Z := List.filter prime (map Z.of_nat (seq 2 310)).
Definition cbrt (x : Z) : Z :=
  foldl (fun r k => let r' := r + 2 ^ Z.of_nat k in if r' ^ 3 <=? x then r' else r) 0 (reverse (seq 0 40)).
Definition K256 : list Z := Eval vm_compute in map (fun p => w32 (cbrt (p * 2 ^ 96))) primes.
Definition H256 : list Z := Eval vm_compute in map (fun p => w32 (Z.sqrt (p * 2 ^ 64))) (take 8 primes).

Definition be_word (bs : list Z) : Z := foldl (fun acc b => acc * 256 + b) 0 bs.
Definition be_bytes (n : nat) (z : Z) : list Z :=
  map (fun i => (z / 256 ^ Z.of_nat (n - 1 - i)) mod 256) (seq 0 n).

Fixpoint chunks (fuel n : nat) (bs : list Z) : list (list Z) :=
  match fuel, bs with
  | S fuel, _ :: _ => take n bs :: chunks fuel n (drop n bs)
  | _, _ => []
  end.

Definition pad (bs : list Z) : list Z :=
  let zeros := Z.to_nat ((55 - len bs) mod 64) in
  bs ++ [128] ++ replicate zeros 0 ++ be_bytes 8 (8 * len bs).

(** The message schedule, newest word first. *)
Fixpoint schedule (n : nat) (ws : list Z) : list Z :=
  match n with
  | O => ws
  | S n => let w := add32 (add32 (sigma1 (nth 1 ws 0)) (nth 6 ws 0))
                          (add32 (sigma0 (nth 14 ws 0)) (nth 15 ws 0)) in
           schedule n (w :: ws)
  end.

Definition round (st : list Z) (kw : Z * Z) : list Z :=
  match st with
  | [a; b; c; d; e; f; g; h] =>
      let t1 := add32 (add32 (add32 h (bigsigma1 e)) (Ch e f g)) (add32 kw.1 kw.2) in
      let t2 := add32 (bigsigma0 a) (Maj a b c) in
      [add32 t1 t2; a; b; c; add32 d t1; e; f; g]
  | _ => st
  end.

Definition block (st : list Z) (bs : list Z) : list Z :=
  let ws := reverse (schedule 48 (reverse (map be_word (chunks 16 4 bs)))) in
  zip_with add32 st (foldl round st (zip K256 ws)).

Definition Sum256 (bs : list Z) : list Z :=
  let p := pad bs in
  flat_map (be_bytes 4) (foldl block H256 (chunks (length p) 64 p)).

Example sha256_abc :
  Sum256 (bytes_of "abc") = be_bytes 32 0xba7816bf8f01cfea414140de5dae2223b00361a396177a9cb410ff61f20015ad.
Proof. vm_compute. reflexivity. Qed.

Example base64_vector : EncodeToString (bytes_of "chtiwt?>") = "Y2h0aXd0Pz4"%string.
Proof. vm_compute. reflexivity. Qed.

(** ** The encoding is injective and plain ASCII *)
Definition sextet (v : Z) : Prop := 0 <= v < 64.

Lemma upto (n : nat) (P : Z -> bool) :
  forallb P (map Z.of_nat (seq 0 n)) = true -> forall v, 0 <= v < Z.of_nat n -> P v = true.
Proof.
  intros H v Hv. rewrite forallb_forall in H. apply H.
  rewrite <- (Z2Nat.id v) by lia. apply in_map, in_seq. lia.
Qed.

Lemma sym_inj v w : sextet v -> sextet w -> sym v = sym w -> v = w.
Proof.
  intros Hv Hw. assert (H : (if sym v =? sym w then v =? w else true) = true).
  { revert w Hw. apply (upto 64 (fun w => if sym v =? sym w then v =? w else true)).
    revert v Hv. apply (upto 64 (fun v => forallb (fun w => if sym v =? sym w then v =? w else true)
      (map Z.of_nat (seq 0 64)))). vm_compute. reflexivity. }
  intros E. rewrite E, Z.eqb_refl in H. by apply Z.eqb_eq.
Qed.

Lemma sym_ascii v : sextet v -> 45 <= sym v <= 122.
Proof.
  intros Hv. assert (H : between 45 122 (sym v) = true).
  { revert v Hv. apply (upto 64 (fun v => between 45 122 (sym v))). vm_compute. reflexivity. }
  unfold between in H. lia.
Qed.

(** The sextets of one, two and three bytes, and what they determine. *)
Lemma byte_split b : is_byte b ->
  sextet (Z.shiftr b 2) /\ sextet (Z.shiftl (Z.land b 3) 4) /\ sextet (Z.shiftl (Z.land b 15) 2) /\
  sextet (Z.land b 63) /\ 0 <= Z.shiftr b 4 < 16 /\ 0 <= Z.shiftr b 6 < 4.
Proof.
  intros Hb. unfold is_byte in Hb. unfold sextet.
  assert (H : (between 0 63 (Z.shiftr b 2) && between 0 63 (Z.shiftl (Z.land b 3) 4) &&
     between 0 63 (Z.shiftl (Z.land b 15) 2) && between 0 63 (Z.land b 63) &&
     between 0 15 (Z.shiftr b 4) && between 0 3 (Z.shiftr b 6)) = true).
  { assert (Hb' : 0 <= b < Z.of_nat 256) by lia. revert b Hb' Hb. intros b Hb' _. revert b Hb'.
    apply (upto 256 (fun b => between 0 63 (Z.shiftr b 2) && between 0 63 (Z.shiftl (Z.land b 3) 4) &&
     between 0 63 (Z.shiftl (Z.land b 15) 2) && between 0 63 (Z.land b 63) &&
     between 0 15 (Z.shiftr b 4) && between 0 3 (Z.shiftr b 6))). vm_compute. reflexivity. }
  unfold between in H. lia.
Qed.

Lemma sextet_lor a b : sextet a -> sextet b -> sextet (Z.lor a b).
Proof.
  intros Ha Hb. assert (H : forallb (fun v => between 0 63 (Z.lor v b)) (map Z.of_nat (seq 0 64)) = true).
  { revert b Hb. apply (upto 64 (fun b => forallb (fun v => between 0 63 (Z.lor v b)) (map Z.of_nat (seq 0 64)))).
    vm_compute. reflexivity. }
  pose proof (upto 64 (fun v => between 0 63 (Z.lor v b)) H a Ha) as H'. simpl in H'.
  unfold between in H'. unfold sextet. lia.
Qed.

Lemma bits_arith b : is_byte b ->
  Z.shiftr b 2 = b / 4 /\ Z.shiftl (Z.land b 3) 4 = (b mod 4) * 16 /\
  Z.shiftl (Z.land b 15) 2 = (b mod 16) * 4 /\ Z.land b 63 = b mod 64 /\
  Z.shiftr b 4 = b / 16 /\ Z.shiftr b 6 = b / 64.
Proof.
  intros _. rewrite !Z.shiftr_div_pow2, !Z.shiftl_mul_pow2 by lia.
  change 3 with (Z.ones 2). change 15 with (Z.ones 4). change 63 with (Z.ones 6).
  rewrite !Z.land_ones by lia. done.
Qed.

Lemma lor_high a b : 0 <= a < 4 -> 0 <= b < 16 -> Z.lor (a * 16) b = a * 16 + b.
Proof.
  intros Ha Hb. apply Z.eqb_eq. revert b Hb. apply (upto 16 (fun b => Z.lor (a * 16) b =? a * 16 + b)).
  revert a Ha. apply (upto 4 (fun a => forallb (fun b => Z.lor (a * 16) b =? a * 16 + b) (map Z.of_nat (seq 0 16)))).
  vm_compute. reflexivity.
Qed.

Lemma lor_low a b : 0 <= a < 16 -> 0 <= b < 4 -> Z.lor (a * 4) b = a * 4 + b.
Proof.
  intros Ha Hb. apply Z.eqb_eq. revert b Hb. apply (upto 4 (fun b => Z.lor (a * 4) b =? a * 4 + b)).
  revert a Ha. apply (upto 16 (fun a => forallb (fun b => Z.lor (a * 4) b =? a * 4 + b) (map Z.of_nat (seq 0 4)))).
  vm_compute. reflexivity.
Qed.

(** The encoder in arithmetic. *)
Fixpoint sextets (bs : list Z) : list Z :=
  match bs with
  | [] => []
  | [b0] => [b0 / 4; (b0 mod 4) * 16]
  | [b0; b1] => [b0 / 4; (b0 mod 4) * 16 + b1 / 16; (b1 mod 16) * 4]
  | b0 :: b1 :: b2 :: bs =>
      b0 / 4 :: (b0 mod 4) * 16 + b1 / 16 :: (b1 mod 16) * 4 + b2 / 64 :: b2 mod 64 :: sextets bs
  end.

Lemma byte_div b : is_byte b -> 0 <= b / 4 < 64 /\ 0 <= b mod 4 < 4 /\ 0 <= b mod 16 < 16 /\
  0 <= b mod 64 < 64 /\ 0 <= b / 16 < 16 /\ 0 <= b / 64 < 4.
Proof. unfold is_byte. intros. Z.div_mod_to_equations. lia. Qed.

(** Induction three bytes at a time. *)
Lemma triples_ind (P : list Z -> Prop) :
  P [] -> (forall a, P [a]) -> (forall a b, P [a; b]) ->
  (forall a b c bs, P bs -> P (a :: b :: c :: bs)) -> forall bs, P bs.
Proof.
  intros H0 H1 H2 H3 bs. induction bs as [bs IH] using (induction_ltof1 _ (@length Z)); unfold ltof in IH.
  destruct bs as [|a [|b [|c bs]]]; auto. apply H3, IH. simpl. lia.
Qed.

Lemma encode64_sextets bs : Forall is_byte bs -> encode64 bs = map sym (sextets bs).
Proof.
  induction bs as [|a|a b|a b c bs IH] using triples_ind; intros H; [done|..];
    repeat match goal with H : Forall _ (_ :: _) |- _ => apply Forall_cons in H as [? H] end.
  - destruct (bits_arith a) as (E1 & E2 & _); [done|]. simpl. by rewrite E1, E2.
  - destruct (bits_arith a) as (E1 & E2 & _); [done|]. destruct (bits_arith b) as (_ & _ & F3 & _ & F5 & _); [done|].
    destruct (byte_div a) as (_ & ? & _); [done|]. destruct (byte_div b) as (_ & _ & ? & _ & ? & _); [done|].
    simpl. by rewrite E1, E2, F3, F5, lor_high.
  - destruct (bits_arith a) as (E1 & E2 & _); [done|]. destruct (bits_arith b) as (_ & _ & F3 & _ & F5 & _); [done|].
    destruct (bits_arith c) as (_ & _ & _ & G4 & _ & G6); [done|].
    destruct (byte_div a) as (_ & ? & _); [done|]. destruct (byte_div b) as (_ & _ & ? & _ & ? & _); [done|].
    destruct (byte_div c) as (_ & _ & _ & _ & _ & ?); [done|].
    cbn [encode64 sextets map]. by rewrite E1, E2, F3, F5, G4, G6, lor_high, lor_low, IH.
Qed.

Lemma sextets_ok bs : Forall is_byte bs -> Forall sextet (sextets bs).
Proof.
  unfold sextet.
  induction bs as [|a|a b|a b c bs IH] using triples_ind; intros H; [constructor|..];
    repeat match goal with H : Forall _ (_ :: _) |- _ => apply Forall_cons in H as [? H] end;
    repeat match goal with H : is_byte ?x |- _ => apply byte_div in H end;
    cbn [sextets]; repeat (constructor; [lia|]); [constructor..|by apply IH].
Qed.

Lemma length_sextets bs : length (sextets bs) = ((4 * length bs + 2) / 3)%nat.
Proof.
  induction bs as [|a|a b|a b c bs IH] using triples_ind; [done..|].
  cbn [sextets length]. rewrite IH.
  replace (4 * S (S (S (length bs))) + 2)%nat with (4 * length bs + 2 + 4 * 3)%nat by lia.
  rewrite Nat.div_add by done. lia.
Qed.

Lemma sextets_inj bs cs : Forall is_byte bs -> Forall is_byte cs -> sextets bs = sextets cs -> bs = cs.
Proof.
  revert cs. induction bs as [|a|a b|a b c bs IH] using triples_ind; intros cs H H' E;
    destruct cs as [|a' [|b' [|c' cs]]]; try done; simpl in E;
    repeat match goal with H : Forall _ (_ :: _) |- _ => apply Forall_cons in H as [? H] end.
  all: try discriminate.
  - injection E as E1 E2. f_equal. Z.div_mod_to_equations. lia.
  - injection E as E1 E2 E3. unfold is_byte in *.
    assert (a = a') by (Z.div_mod_to_equations; lia). subst. f_equal. f_equal. Z.div_mod_to_equations. lia.
  - injection E as E1 E2 E3 E4 E5. unfold is_byte in *.
    assert (a = a') by (Z.div_mod_to_equations; lia). subst.
    assert (b = b') by (Z.div_mod_to_equations; lia). subst.
    assert (c = c') by (Z.div_mod_to_equations; lia). subst. f_equal. f_equal. f_equal. by apply IH.
Qed.

Lemma map_sym_inj l k : Forall sextet l -> Forall sextet k -> map sym l = map sym k -> l = k.
Proof.
  revert k. induction l as [|v l IH]; intros [|w k] Hl Hk E; try done.
  apply Forall_cons in Hl as [? ?]. apply Forall_cons in Hk as [? ?]. simpl in E. injection E as E1 E2.
  f_equal; [by apply sym_inj | by apply IH].
Qed.

Lemma encode64_bytes bs : Forall is_byte bs -> Forall (fun b => 45 <= b <= 122) (encode64 bs).
Proof.
  intros H. rewrite encode64_sextets by done. pose proof (sextets_ok bs H) as Hs.
  induction Hs; constructor; [by apply sym_ascii | done].
Qed.

Lemma bytes_of_encoded bs : Forall is_byte bs -> bytes_of (EncodeToString bs) = encode64 bs.
Proof.
  intros H. unfold EncodeToString. apply bytes_of_string_of.
  eapply Forall_impl; [by apply encode64_bytes|]. unfold is_byte. simpl. lia.
Qed.

Lemma EncodeToString_inj bs cs : Forall is_byte bs -> Forall is_byte cs ->
  EncodeToString bs = EncodeToString cs -> bs = cs.
Proof.
  intros Hb Hc E. apply (f_equal bytes_of) in E. rewrite !bytes_of_encoded, !encode64_sextets in E by done.
  apply sextets_inj; [done..|]. apply map_sym_inj; [by apply sextets_ok..|done].
Qed.

Lemma EncodeToString_length bs : Forall is_byte bs ->
  String.length (EncodeToString bs) = ((4 * length bs + 2) / 3)%nat.
Proof.
  intros H. rewrite <- length_bytes_of, bytes_of_encoded, encode64_sextets, length_map by done.
  apply length_sextets.
Qed.

(** *** Digests are 32 bytes *)
Lemma be_bytes_ok n z : Forall is_byte (be_bytes n z) /\ length (be_bytes n z) = n.
Proof.
  unfold be_bytes. split; [|by rewrite length_map, length_seq].
  apply Forall_map, Forall_true. intros i. unfold is_byte. simpl.
  pose proof (Z.mod_pos_bound (z / 256 ^ Z.of_nat (n - 1 - i)) 256). lia.
Qed.

Lemma round_length st kw : length st = 8%nat -> length (round st kw) = 8%nat.
Proof. destruct st as [|? [|? [|? [|? [|? [|? [|? [|? [|]]]]]]]]]; simpl; lia. Qed.

Lemma block_length st bs : length st = 8%nat -> length (block st bs) = 8%nat.
Proof.
  intros H. unfold block. cbv zeta. rewrite length_zip_with, H.
  assert (Hf : forall l st, length st = 8%nat -> length (foldl round st l) = 8%nat).
  { induction l as [|kw l IH]; intros s Hs; [done|]. simpl. by apply IH, round_length. }
  rewrite Hf by done. done.
Qed.

Lemma Sum256_ok bs : Forall is_byte (Sum256 bs) /\ length (Sum256 bs) = 32%nat.
Proof.
  unfold Sum256. cbv zeta. set (st := foldl block H256 _).
  assert (Hst : length st = 8%nat).
  { unfold st. generalize (chunks (length (pad bs)) 64 (pad bs)) as l.
    assert (Hf : forall l st, length st = 8%nat -> length (foldl block st l) = 8%nat).
    { induction l as [|b l IH]; intros s Hs; [done|]. simpl. by apply IH, block_length. }
    intros l. by apply Hf. }
  clearbody st. assert (Forall is_byte (flat_map (be_bytes 4) st) /\
    length (flat_map (be_bytes 4) st) = (4 * length st)%nat) as [H1 H2].
  { clear Hst. induction st as [|w st [IH1 IH2]]; [split; constructor|]. cbn [flat_map].
    destruct (be_bytes_ok 4 w) as [Hw Hl]. split; [by apply Forall_app|].
    rewrite length_app, Hl, IH2. simpl. lia. }
  split; [done|]. rewrite H2, Hst. done.
Qed.
