(* ===== verification/Errors.v ===== *)
(** * Go errors: sentinels, wrapping with [%w], [errors.Is]

    A sentinel ([errors.New] in a package variable) is known by its message;
    the database driver's errors are [ENoRows] ([pgx.ErrNoRows]), [EPg] (a
    [*pgconn.PgError]) and [EConn] (a connection that failed). *)

From S2P Require Import Prelude.

Inductive err : Type :=
| ESentinel (msg : string)
| ENoRows
| EPg (code constraint_name : string)
| EConn
| EIO (what : string)   (* the operating system, the random source, ... *)
| EWrap (prefix : string) (e : err).

#[export] Instance err_eq_dec : EqDecision err.
Proof. solve_decision. Defined.

(** [errors.Is(e, target)] for a target that wraps nothing. *)
Fixpoint errors_is (e target : err) : bool :=
  bool_decide (e = target) ||
  match e with EWrap _ e => errors_is e target | _ => false end.

(** [errors.As(e, *pgconn.PgError)] *)
Fixpoint as_pg (e : err) : option (string * string) :=
  match e with
  | EPg code c => Some (code, c)
  | EWrap _ e => as_pg e
  | _ => None
  end.

(** [e.Error()]; the driver's own texts are left abstract. *)
Fixpoint error_text (driver : err -> string) (e : err) : string :=
  match e with
  | ESentinel msg => msg
  | EWrap prefix e => prefix +:+ ": " +:+ error_text driver e
  | e => driver e
  end.

Definition wrap {A} (prefix : string) (r : res err A) : res err A :=
  match r with Ok a => Ok a | Err e => Err (EWrap prefix e) end.
