(* ===== verification/StreamKey.v ===== *)
(** * Stream keys: [src/internal/stream/streamkey.go]

    [buf] is what [rand.Read] filled the buffer with, [None] when it failed. *)

From S2P Require Import Prelude Utf8 Encoding Errors.
Local Open Scope Z_scope.

Definition streamKeyPrefix : string := "live_".

Definition HashKey (plain : string) : string := EncodeToString (Sum256 (bytes_of plain)).

Definition GenerateKey (buf : option (list Z)) : res err (string * string) :=
  match buf with
  | None => Err (EWrap "rand" (EIO "rand"))
  | Some buf =>
      let plain := streamKeyPrefix +:+ EncodeToString buf in
      Ok (plain, HashKey plain)
  end.

(** [subtle.ConstantTimeCompare]: 0 at once when the lengths differ, else
    whether the accumulated difference is 0. *)
Definition ConstantTimeCompare (x y : list Z) : Z :=
  if decide (length x = length y)
  then if foldl (fun v p => Z.lor v (Z.lxor p.1 p.2)) 0 (zip x y) =? 0 then 1 else 0
  else 0.

Definition VerifyKey (plain hash : string) : bool :=
  ConstantTimeCompare (bytes_of (HashKey plain)) (bytes_of hash) =? 1.

(** What [rand.Read] fills: 32 bytes. *)
Definition entropy (buf : list Z) : Prop := Forall is_byte buf /\ length buf = 32%nat.

(** Text that PostgreSQL accepts: valid UTF-8 without the zero byte. *)
Definition pg_text (s : string) : bool :=
  valid_utf8 (bytes_of s) && bool_decide (0 ∉ bytes_of s).

Lemma ascii_pg_text s : Forall (fun b => 1 <= b <= 127) (bytes_of s) -> pg_text s = true.
Proof.
  intros H. unfold pg_text. rewrite andb_true_iff, bool_decide_eq_true. split.
  - apply valid_ascii. eapply Forall_impl; [done|]. simpl. lia.
  - intros H0. rewrite Forall_forall in H. specialize (H 0 H0). lia.
Qed.

Lemma encoded_pg_text bs : Forall is_byte bs -> pg_text (EncodeToString bs) = true.
Proof.
  intros H. apply ascii_pg_text. rewrite bytes_of_encoded by done.
  eapply Forall_impl; [by apply encode64_bytes|]. simpl. lia.
Qed.

Lemma HashKey_pg_text plain : pg_text (HashKey plain) = true.
Proof. apply encoded_pg_text, Sum256_ok. Qed.

Lemma bytes_of_inj s t : bytes_of s = bytes_of t -> s = t.
Proof. intros H. rewrite <- (string_of_bytes_of s), <- (string_of_bytes_of t). by rewrite H. Qed.

Lemma foldl_lor_0 l v : Forall (fun p => 0 <= p) l -> 0 <= v ->
  foldl (fun v p => Z.lor v p) v l = 0 <-> v = 0 /\ Forall (.= 0) l.
Proof.
  intros Hl. revert v. induction Hl as [|p l Hp Hl IH]; intros v Hv; simpl.
  - split; [intros; split; [done | constructor] | by intros [? _]].
  - rewrite IH by (apply Z.lor_nonneg; lia). rewrite Z.lor_eq_0_iff, Forall_cons. tauto.
Qed.

Lemma foldl_map_pair {A} (f : A -> Z) l v :
  foldl (fun v p => Z.lor v (f p)) v l = foldl Z.lor v (map f l).
Proof. revert v. induction l as [|a l IH]; intros v; [done|]. simpl. apply IH. Qed.

Lemma ConstantTimeCompare_spec x y : Forall is_byte x -> Forall is_byte y ->
  ConstantTimeCompare x y = if decide (x = y) then 1 else 0.
Proof.
  intros Hx Hy. unfold ConstantTimeCompare. case_decide as Hlen.
  2: { rewrite decide_False; [done | congruence]. }
  rewrite (foldl_map_pair (fun p => Z.lxor p.1 p.2)).
  assert (Hpos : Forall (fun p => 0 <= p) (map (fun p : Z * Z => Z.lxor p.1 p.2) (zip x y))).
  { apply Forall_map. revert y Hy Hlen. induction Hx as [|a x Ha Hx IH]; intros [|b y] Hy Hlen; try constructor.
    - simpl. apply Z.lxor_nonneg. apply Forall_cons in Hy as [Hb _]. unfold is_byte in *. lia.
    - apply IH; [by apply Forall_cons in Hy as [_ ?] | simpl in Hlen; lia]. }
  assert (Heq : Forall (.= 0) (map (fun p : Z * Z => Z.lxor p.1 p.2) (zip x y)) <-> x = y).
  { clear Hpos Hx Hy. revert y Hlen. induction x as [|a x IH]; intros [|b y] Hlen; try done.
    simpl. rewrite Forall_cons, Z.lxor_eq_0_iff, IH by (simpl in Hlen; lia). split; [intros [-> ->] | intros [= -> ->]]; done. }
  pose proof (foldl_lor_0 _ 0 Hpos ltac:(lia)) as H. destruct (Z.eqb_spec (foldl Z.lor 0 (map (fun p : Z * Z => Z.lxor p.1 p.2) (zip x y))) 0) as [E|E].
  - rewrite decide_True; [done|]. by apply Heq, H.
  - rewrite decide_False; [done|]. intros Hxy. apply E, H. split; [done|]. by apply Heq.
Qed.

Lemma VerifyKey_spec plain hash : VerifyKey plain hash = bool_decide (HashKey plain = hash).
Proof.
  unfold VerifyKey. rewrite ConstantTimeCompare_spec by apply bytes_of_bytes.
  case_decide as H; case_bool_decide as H'; try done.
  - by apply bytes_of_inj in H.
  - by rewrite H' in H.
Qed.

(** A generated key. From 32 random bytes comes a 48-character ASCII key
    and the 43-character hash of that key; distinct random bytes give distinct
    keys; and [VerifyKey] accepts a plain key for the stored hash exactly when
    its own hash is that one (so always the key just generated). *)
Theorem generated_key buf plain hash :
  entropy buf -> GenerateKey (Some buf) = Ok (plain, hash) ->
  String.length plain = 48%nat /\ String.length hash = 43%nat /\
  pg_text plain = true /\ pg_text hash = true /\ VerifyKey plain hash = true /\
  (forall p, VerifyKey p hash = true <-> HashKey p = hash) /\
  (forall buf' hash', entropy buf' -> GenerateKey (Some buf') = Ok (plain, hash') -> buf' = buf).
Proof.
  intros [Hb Hl] [= <- <-].
  assert (Hpre : forall s, String.length ("live_" +:+ s) = (5 + String.length s)%nat) by done.
  assert (Happ : forall s t, "live_" +:+ s = "live_" +:+ t -> s = t).
  { intros s t E. by injection E. }
  split_and!.
  - unfold streamKeyPrefix. rewrite Hpre, EncodeToString_length, Hl by done. done.
  - unfold HashKey. destruct (Sum256_ok (bytes_of (streamKeyPrefix +:+ EncodeToString buf))) as [Hs Hsl].
    rewrite EncodeToString_length, Hsl by done. done.
  - apply ascii_pg_text. rewrite bytes_of_app, bytes_of_encoded by done. apply Forall_app. split.
    + vm_compute. repeat constructor; discriminate.
    + eapply Forall_impl; [by apply encode64_bytes|]. simpl. lia.
  - apply HashKey_pg_text.
  - rewrite VerifyKey_spec. by apply bool_decide_eq_true.
  - intros p. rewrite VerifyKey_spec. apply bool_decide_eq_true.
  - intros buf' hash' [Hb' _] [= E _]. apply EncodeToString_inj; done.
Qed.

Lemma generated_key_witness :
  let buf := replicate 32 7 in
  GenerateKey (Some buf) = Ok ("live_BwcHBwcHBwcHBwcHBwcHBwcHBwcHBwcHBwcHBwcHBwc"%string,
                               HashKey "live_BwcHBwcHBwcHBwcHBwcHBwcHBwcHBwcHBwcHBwcHBwc") /\
  VerifyKey "live_BwcHBwcHBwcHBwcHBwcHBwcHBwcHBwcHBwcHBwcHBwc"
            (HashKey "live_BwcHBwcHBwcHBwcHBwcHBwcHBwcHBwcHBwcHBwcHBwc") = true.
Proof.
  intros buf. assert (E : GenerateKey (Some buf) = Ok ("live_BwcHBwcHBwcHBwcHBwcHBwcHBwcHBwcHBwcHBwcHBwc"%string,
                               HashKey "live_BwcHBwcHBwcHBwcHBwcHBwcHBwcHBwcHBwcHBwcHBwc")) by (vm_compute; reflexivity).
  split; [exact E|]. apply (generated_key buf); [|exact E].
  split; [repeat constructor; discriminate | reflexivity].
Defined.
