(* ===== verification/Store.v ===== *)
(** * The database: [src/internal/store/queries] and the schema of
    [src/internal/store/migrations/0001_init.up.sql]

    Tables are finite maps from primary keys to rows.  A query is a program
    over the database that may fail; its SQL text is in the generated Go file
    that runs it.  [faults] is the environment: what happens to the statements
    in turn ([Lost]: the connection fails before the statement takes effect,
    [ReplyLost]: after).  Serial numbers are not given back when a statement or
    its transaction fails.  Text arguments that are not valid UTF-8 or contain
    a zero byte are refused (SQLSTATE 22021).  [clock] is in nanoseconds, a
    [timestamptz] in microseconds. *)

From S2P Require Import Prelude Utf8 Encoding Errors StreamKey.
Local Open Scope Z_scope.

Record User := { u_ID : Z; u_Username : string; u_Email : string; u_PasswordHash : string; u_CreatedAt : Z }.
Record Channel := { c_ID : Z; c_UserID : Z; c_Name : string; c_Title : string; c_StreamKeyHash : string; c_CreatedAt : Z }.
Record Session := { s_ID : string; s_UserID : Z; s_ExpiresAt : Z; s_CreatedAt : Z }.
Record StreamSession := { ss_ID : Z; ss_ChannelID : Z; ss_StartedAt : Z; ss_EndedAt : option Z; ss_EndReason : option string }.

Record tables := {
  users : gmap Z User;
  channels : gmap Z Channel;
  sessions : gmap string Session;
  stream_sessions : gmap Z StreamSession;
  next_user : Z;
  next_channel : Z;
  next_stream_session : Z
}.

Definition no_tables : tables :=
  {| users := ∅; channels := ∅; sessions := ∅; stream_sessions := ∅;
     next_user := 1; next_channel := 1; next_stream_session := 1 |}.

Inductive fault := Fine | Lost | ReplyLost.

Record store := { db : tables; clock : Z; faults : list fault }.

Abbreviation query := (prog store err).

Definition set_db (d : tables) (s : store) : store := {| db := d; clock := clock s; faults := faults s |}.
Definition set_faults (f : list fault) (s : store) : store := {| db := db s; clock := clock s; faults := f |}.

Definition set_users (us : gmap Z User) (n : Z) (d : tables) : tables :=
  {| users := us; channels := channels d; sessions := sessions d; stream_sessions := stream_sessions d;
     next_user := n; next_channel := next_channel d; next_stream_session := next_stream_session d |}.
Definition set_channels (cs : gmap Z Channel) (n : Z) (d : tables) : tables :=
  {| users := users d; channels := cs; sessions := sessions d; stream_sessions := stream_sessions d;
     next_user := next_user d; next_channel := n; next_stream_session := next_stream_session d |}.
Definition set_sessions (ss : gmap string Session) (d : tables) : tables :=
  {| users := users d; channels := channels d; sessions := ss; stream_sessions := stream_sessions d;
     next_user := next_user d; next_channel := next_channel d; next_stream_session := next_stream_session d |}.
Definition set_stream_sessions (ss : gmap Z StreamSession) (n : Z) (d : tables) : tables :=
  {| users := users d; channels := channels d; sessions := sessions d; stream_sessions := ss;
     next_user := next_user d; next_channel := next_channel d; next_stream_session := n |}.

(** The database's [now()]. *)
Definition pg_now (s : store) : Z := clock s / 1000.
(** A [pgtype.Timestamptz] holding a Go time. *)
Definition timestamptz (t : Z) : Z := t / 1000.

(** One round trip: the statement [body] changes the tables or fails. *)
Definition statement {A} (body : tables -> tables * res err A) : query A := fun s =>
  let '(f, fs) := match faults s with [] => (Fine, []) | f :: fs => (f, fs) end in
  let s := set_faults fs s in
  match f with
  | Lost => (s, Err EConn)
  | Fine => let '(d, r) := body (db s) in (set_db d s, r)
  | ReplyLost => let '(d, r) := body (db s) in (set_db d s, Err EConn)
  end.

Definition encoding_error : err := EPg "22021" "".
Definition texts_ok (args : list string) : bool := forallb pg_text args.
Definition with_texts {A} (args : list string) (body : tables -> tables * res err A) : tables -> tables * res err A :=
  fun d => if texts_ok args then body d else (d, Err encoding_error).

(** A row of a table, the first one in enumeration order. *)
Definition select {K V} `{Countable K} (p : V -> bool) (m : gmap K V) : option V :=
  snd <$> head (filter (fun kv : K * V => p kv.2 = true) (map_to_list m)).

Definition one {A} (d : tables) (r : option A) : tables * res err A :=
  (d, match r with Some a => Ok a | None => Err ENoRows end).

(** ** users *)
Definition user_row (d : tables) (username email hash : string) (now : Z) : User :=
  {| u_ID := next_user d; u_Username := username; u_Email := email; u_PasswordHash := hash; u_CreatedAt := now |}.

Definition CreateUser (username email hash : string) : query User := fun s =>
  statement (with_texts [username; email; hash] (fun d =>
    let u := user_row d username email hash (pg_now s) in
    let taken := set_users (users d) (next_user d + 1) d in
    if is_some (select (fun v => String.eqb (u_Username v) username) (users d))
    then (taken, Err (EPg "23505" "users_username_key"))
    else if is_some (select (fun v => String.eqb (u_Email v) email) (users d))
    then (taken, Err (EPg "23505" "users_email_key"))
    else (set_users (<[u_ID u := u]> (users d)) (next_user d + 1) d, Ok u))) s.

Definition GetUserByID (id : Z) : query User := statement (fun d => one d (users d !! id)).

Definition GetUserByUsername (username : string) : query User :=
  statement (with_texts [username] (fun d =>
    one d (select (fun v => String.eqb (u_Username v) username) (users d)))).

(** ** channels *)
Definition channel_row (d : tables) (userID : Z) (name hash : string) (now : Z) : Channel :=
  {| c_ID := next_channel d; c_UserID := userID; c_Name := name; c_Title := ""; c_StreamKeyHash := hash; c_CreatedAt := now |}.

Definition CreateChannel (userID : Z) (name hash : string) : query Channel := fun s =>
  statement (with_texts [name; hash] (fun d =>
    let c := channel_row d userID name hash (pg_now s) in
    let taken := set_channels (channels d) (next_channel d + 1) d in
    if is_some (select (fun v => c_UserID v =? userID) (channels d))
    then (taken, Err (EPg "23505" "channels_user_id_key"))
    else if is_some (select (fun v => String.eqb (c_Name v) name) (channels d))
    then (taken, Err (EPg "23505" "channels_name_key"))
    else if is_some (users d !! userID)
    then (set_channels (<[c_ID c := c]> (channels d)) (next_channel d + 1) d, Ok c)
    else (taken, Err (EPg "23503" "channels_user_id_fkey")))) s.

Definition GetChannelByName (name : string) : query Channel :=
  statement (with_texts [name] (fun d =>
    one d (select (fun v => String.eqb (c_Name v) name) (channels d)))).

Definition GetChannelByStreamKeyHash (hash : string) : query Channel :=
  statement (with_texts [hash] (fun d =>
    one d (select (fun v => String.eqb (c_StreamKeyHash v) hash) (channels d)))).

Definition GetChannelByUserID (userID : Z) : query Channel :=
  statement (fun d => one d (select (fun v => c_UserID v =? userID) (channels d))).

Definition with_key (hash : string) (c : Channel) : Channel :=
  {| c_ID := c_ID c; c_UserID := c_UserID c; c_Name := c_Name c; c_Title := c_Title c;
     c_StreamKeyHash := hash; c_CreatedAt := c_CreatedAt c |}.
Definition with_title (title : string) (c : Channel) : Channel :=
  {| c_ID := c_ID c; c_UserID := c_UserID c; c_Name := c_Name c; c_Title := title;
     c_StreamKeyHash := c_StreamKeyHash c; c_CreatedAt := c_CreatedAt c |}.

Definition UpdateChannelStreamKey (id : Z) (hash : string) : query unit :=
  statement (with_texts [hash] (fun d =>
    (set_channels (alter (with_key hash) id (channels d)) (next_channel d) d, Ok tt))).

Definition UpdateChannelTitle (id : Z) (title : string) : query unit :=
  statement (with_texts [title] (fun d =>
    (set_channels (alter (with_title title) id (channels d)) (next_channel d) d, Ok tt))).

(** ** sessions *)
Definition CreateSession (id : string) (userID expiresAt : Z) : query Session := fun s =>
  statement (with_texts [id] (fun d =>
    let x := {| s_ID := id; s_UserID := userID; s_ExpiresAt := expiresAt; s_CreatedAt := pg_now s |} in
    if is_some (sessions d !! id) then (d, Err (EPg "23505" "sessions_pkey"))
    else if is_some (users d !! userID) then (set_sessions (<[id := x]> (sessions d)) d, Ok x)
    else (d, Err (EPg "23503" "sessions_user_id_fkey")))) s.

Definition DeleteExpiredSessions : query unit := fun s =>
  statement (fun d =>
    (set_sessions (filter (fun kv : string * Session => pg_now s < s_ExpiresAt kv.2) (sessions d)) d, Ok tt)) s.

Definition DeleteSession (id : string) : query unit :=
  statement (with_texts [id] (fun d => (set_sessions (delete id (sessions d)) d, Ok tt))).

(** The join with [users]. *)
Definition GetSessionWithUser (id : string) : query (Session * User) := fun s =>
  statement (with_texts [id] (fun d =>
    one d (x ← sessions d !! id;
           if pg_now s <? s_ExpiresAt x then u ← users d !! s_UserID x; Some (x, u) else None))) s.

(** ** stream_sessions *)
Definition CreateStreamSession (channelID startedAt : Z) : query StreamSession :=
  statement (fun d =>
    let x := {| ss_ID := next_stream_session d; ss_ChannelID := channelID; ss_StartedAt := startedAt;
                ss_EndedAt := None; ss_EndReason := None |} in
    if is_some (channels d !! channelID)
    then (set_stream_sessions (<[ss_ID x := x]> (stream_sessions d)) (next_stream_session d + 1) d, Ok x)
    else (set_stream_sessions (stream_sessions d) (next_stream_session d + 1) d,
          Err (EPg "23503" "stream_sessions_channel_id_fkey"))).

Definition end_row (endedAt : Z) (reason : string) (x : StreamSession) : StreamSession :=
  match ss_EndedAt x with
  | Some _ => x
  | None => {| ss_ID := ss_ID x; ss_ChannelID := ss_ChannelID x; ss_StartedAt := ss_StartedAt x;
               ss_EndedAt := Some endedAt; ss_EndReason := Some reason |}
  end.

(** The [CHECK] on [end_reason] applies when a row is updated. *)
Definition end_reason_ok (reason : string) : bool :=
  String.eqb reason "normal" || String.eqb reason "crashed" || String.eqb reason "orphan_swept".
Definition open_row (x : StreamSession) : bool := match ss_EndedAt x with None => true | Some _ => false end.

Definition EndStreamSession (id endedAt : Z) (reason : string) : query unit :=
  statement (with_texts [reason] (fun d =>
    match stream_sessions d !! id with
    | Some x =>
        if open_row x && negb (end_reason_ok reason)
        then (d, Err (EPg "23514" "stream_sessions_end_reason_check"))
        else (set_stream_sessions (<[id := end_row endedAt reason x]> (stream_sessions d)) (next_stream_session d) d, Ok tt)
    | None => (d, Ok tt)
    end)).

Definition MarkOpenStreamSessionsOrphaned : query unit := fun s =>
  statement (fun d =>
    (set_stream_sessions (end_row (pg_now s) "orphan_swept" <$> stream_sessions d) (next_stream_session d) d, Ok tt)) s.

(** ** Transactions *)
Definition rollback (d0 : tables) (s : store) : store :=
  let d := db s in
  set_db {| users := users d0; channels := channels d0; sessions := sessions d0; stream_sessions := stream_sessions d0;
            next_user := next_user d; next_channel := next_channel d; next_stream_session := next_stream_session d |} s.

Definition Begin : query tables := statement (fun d => (d, Ok d)).

(** [Commit]: when its reply is lost the transaction may have been committed or
    not; [ReplyLost] is the first, [Lost] the second. *)
Definition Commit : query unit := statement (fun d => (d, Ok tt)).

(** ** Selecting *)
Lemma select_Some {K V} `{Countable K} (p : V -> bool) (m : gmap K V) v :
  select p m = Some v -> exists k, m !! k = Some v /\ p v = true.
Proof.
  unfold select. intros H1. apply fmap_Some in H1 as ([k w] & Hh & ->). simpl.
  assert (Hin : (k, w) ∈ filter (fun kv : K * V => p kv.2 = true) (map_to_list m)).
  { destruct (filter _ (map_to_list m)) as [|x l] eqn:E; [done|]. simpl in Hh. simplify_eq. by left. }
  apply list_elem_of_filter in Hin as [Hp Hin]. exists k. split; [by apply elem_of_map_to_list | done].
Qed.

Lemma select_None {K V} `{Countable K} (p : V -> bool) (m : gmap K V) :
  select p m = None <-> forall k v, m !! k = Some v -> p v = false.
Proof.
  unfold select. split.
  - intros Hn k v Hv. destruct (p v) eqn:Hp; [exfalso|done].
    assert (Hin : (k, v) ∈ filter (fun kv : K * V => p kv.2 = true) (map_to_list m)).
    { apply list_elem_of_filter. split; [done | by apply elem_of_map_to_list]. }
    destruct (filter _ (map_to_list m)) as [|x l]; [by apply not_elem_of_nil in Hin | done].
  - intros Hall. destruct (filter _ (map_to_list m)) as [|[k v] l] eqn:E; [done|].
    assert (Hin : (k, v) ∈ filter (fun kv : K * V => p kv.2 = true) (map_to_list m)) by (rewrite E; left).
    apply list_elem_of_filter in Hin as [Hp Hin%elem_of_map_to_list]. simpl in Hp. rewrite (Hall k v Hin) in Hp. done.
Qed.

(** Selecting on a unique column. *)
Lemma select_unique {K V} `{Countable K} (p : V -> bool) (m : gmap K V) k v :
  m !! k = Some v -> p v = true -> (forall k' v', m !! k' = Some v' -> p v' = true -> v' = v) ->
  select p m = Some v.
Proof.
  intros Hv Hp Hu. destruct (select p m) as [w|] eqn:E.
  - destruct (select_Some _ _ _ E) as (k' & Hk' & Hw). by rewrite (Hu k' w Hk' Hw).
  - rewrite select_None in E. rewrite (E k v Hv) in Hp. done.
Qed.

(** ** The schema's invariant *)
Record db_ok (d : tables) : Prop := {
  k_users : forall id u, users d !! id = Some u -> u_ID u = id /\ id < next_user d;
  k_channels : forall id c, channels d !! id = Some c -> c_ID c = id /\ id < next_channel d;
  k_sessions : forall t x, sessions d !! t = Some x -> s_ID x = t /\ is_Some (users d !! s_UserID x);
  k_streams : forall id x, stream_sessions d !! id = Some x ->
    ss_ID x = id /\ id < next_stream_session d /\ is_Some (channels d !! ss_ChannelID x);
  k_username : forall i j u v, users d !! i = Some u -> users d !! j = Some v -> u_Username u = u_Username v -> i = j;
  k_email : forall i j u v, users d !! i = Some u -> users d !! j = Some v -> u_Email u = u_Email v -> i = j;
  k_owner : forall i j c e, channels d !! i = Some c -> channels d !! j = Some e -> c_UserID c = c_UserID e -> i = j;
  k_name : forall i j c e, channels d !! i = Some c -> channels d !! j = Some e -> c_Name c = c_Name e -> i = j;
  k_fk : forall i c, channels d !! i = Some c -> is_Some (users d !! c_UserID c)
}.

(** The application's own invariant: a channel is called like its owner. *)
Definition named_like_owner (d : tables) : Prop :=
  forall i c u, channels d !! i = Some c -> users d !! c_UserID c = Some u -> c_Name c = u_Username u.

Lemma select_user d id u name : db_ok d -> users d !! id = Some u -> u_Username u = name ->
  select (fun v => String.eqb (u_Username v) name) (users d) = Some u.
Proof.
  intros Hd Hu Hn. apply (select_unique _ _ id); [done | by apply String.eqb_eq|].
  intros j v Hv Hp%String.eqb_eq. assert (j = id) as -> by (eapply (k_username d Hd); [done..|congruence]).
  congruence.
Qed.

Lemma select_channel d id c name : db_ok d -> channels d !! id = Some c -> c_Name c = name ->
  select (fun v => String.eqb (c_Name v) name) (channels d) = Some c.
Proof.
  intros Hd Hu Hn. apply (select_unique _ _ id); [done | by apply String.eqb_eq|].
  intros j v Hv Hp%String.eqb_eq. assert (j = id) as -> by (eapply (k_name d Hd); [done..|congruence]).
  congruence.
Qed.

Lemma select_owner d id c uid : db_ok d -> channels d !! id = Some c -> c_UserID c = uid ->
  select (fun v => c_UserID v =? uid) (channels d) = Some c.
Proof.
  intros Hd Hu Hn. apply (select_unique _ _ id); [done | by apply Z.eqb_eq|].
  intros j v Hv Hp%Z.eqb_eq. assert (j = id) as -> by (eapply (k_owner d Hd); [done..|congruence]).
  congruence.
Qed.

(** A statement without trouble on the wire. *)
Lemma statement_fine {A} (body : tables -> tables * res err A) s : faults s = [] ->
  statement body s = (set_db (body (db s)).1 s, (body (db s)).2).
Proof.
  intros H. unfold statement. rewrite H. simpl. destruct s as [d c f]; simpl in *. subst.
  unfold set_db, set_faults. simpl. by destruct (body d).
Qed.
