(* ===== verification/Auth.v ===== *)
(** * Accounts and sessions: [src/internal/auth], validation, password, tokens,
    service

    Each service method is a program over the [store].  What the random source
    yields is an argument ([None]: it failed); [bcrypt_generate] and
    [bcrypt_compare] stand for [golang.org/x/crypto/bcrypt], [parse_address]
    for whether [mail.ParseAddress] accepts. *)

From S2P Require Import Prelude Utf8 Encoding Errors StreamKey Store.
Local Open Scope Z_scope.

Definition ErrUsernameTaken : err := ESentinel "username is taken".
Definition ErrEmailTaken : err := ESentinel "email is taken".
Definition ErrInvalidUsername : err := ESentinel "username must be 3-32 chars, letters/digits/underscore only".
Definition ErrReservedUsername : err := ESentinel "username is reserved".
Definition ErrInvalidEmail : err := ESentinel "email is not valid".
Definition ErrInvalidPassword : err := ESentinel "password must be 8-72 chars".
Definition ErrBadCredentials : err := ESentinel "invalid username or password".
Definition ErrNoSession : err := ESentinel "no session".
Definition ErrNoChannel : err := ESentinel "no channel for user".

(** ** validate.go *)

(** [[a-zA-Z0-9_]] *)
Definition name_byte (b : Z) : bool :=
  between 97 122 b || between 65 90 b || between 48 57 b || (b =? 95).

(** [^[a-zA-Z0-9_]{3,32}$] *)
Definition usernameRE (s : string) : bool :=
  let bs := bytes_of s in
  (3 <=? len bs) && (len bs <=? 32) && forallb name_byte bs.

Definition reservedNames : list string :=
  ["admin"; "root"; "api"; "static"; "ws"; "signup"; "login"; "logout"; "dashboard";
   "healthz"; "favicon"; "c"; "streams"; "chtiwt"; "system"].

Definition validateUsername (s : string) : res err unit :=
  if negb (usernameRE s) then Err ErrInvalidUsername
  else if existsb (String.eqb s) reservedNames then Err ErrReservedUsername
  else Ok tt.

(** [len] of a string counts bytes. *)
Definition validatePassword (s : string) : res err unit :=
  if (Z.of_nat (String.length s) <? 8) || (72 <? Z.of_nat (String.length s)) then Err ErrInvalidPassword else Ok tt.

(** ** session.go *)
Definition SessionCookieName : string := "chtiwt_session".

Definition newSessionToken (buf : option (list Z)) : res err string :=
  match buf with
  | None => Err (EWrap "rand" (EIO "rand"))
  | Some buf => Ok (EncodeToString buf)
  end.

(** [title[:n]] *)
Definition cut (n : nat) (s : string) : string := string_of (take n (bytes_of s)).

Definition mapUniqueViolation (e : err) : err :=
  match as_pg e with
  | Some (code, c) =>
      if String.eqb code "23505" then
        if String.eqb c "users_username_key" then ErrUsernameTaken
        else if String.eqb c "users_email_key" then ErrEmailTaken
        else EWrap "create user" e
      else EWrap "create user" e
  | None => EWrap "create user" e
  end.

(** [if err != nil { if errors.Is(err, pgx.ErrNoRows) { return missing }; return wrap }] *)
Definition no_rows_to {A} (missing : err) (prefix : string) (m : query A) : query A :=
  catch m (fun e => throw (if errors_is e ENoRows then missing else EWrap prefix e)).

Definition wrapping {A} (prefix : string) (m : query A) : query A :=
  catch m (fun e => throw (EWrap prefix e)).

(** A step of a transaction whose failure makes the deferred [Rollback] run. *)
Definition in_tx {A} (snapshot : tables) (body : query A) : query A := fun s =>
  match body s with
  | (s, Ok a) => (s, Ok a)
  | (s, Err e) => (rollback snapshot s, Err e)
  end.

(** [tx.Commit], after which the [Rollback] undoes what was not committed. *)
Definition commit_tx (snapshot : tables) : query unit := fun s =>
  match faults s with
  | Lost :: _ => let '(s, r) := Commit s in (rollback snapshot s, r)
  | _ => Commit s
  end.

Section Service.
Context (parse_address : string -> bool).
Context (bcrypt_generate : list Z -> string -> option string).
Context (bcrypt_compare : string -> string -> bool).
Context (sessionTTL : Z).

Definition validateEmail (s : string) : res err unit :=
  if parse_address s then Ok tt else Err ErrInvalidEmail.

Definition hashPassword (salt : list Z) (plain : string) : res err string :=
  match bcrypt_generate salt plain with
  | Some h => Ok h
  | None => Err (EWrap "bcrypt" (EIO "bcrypt"))
  end.

Definition verifyPassword (hash plain : string) : bool := bcrypt_compare hash plain.

Definition Signup (username email password : string) (salt : list Z) (buf : option (list Z))
  : query (User * string) :=
  _ ← lift_res (validateUsername username);
  _ ← lift_res (validateEmail email);
  _ ← lift_res (validatePassword password);
  passwordHash ← lift_res (wrap "hash password" (hashPassword salt password));
  key ← lift_res (wrap "generate stream key" (GenerateKey buf));
  tx ← wrapping "begin tx" Begin;
  user ← in_tx tx (catch (CreateUser username email passwordHash) (fun e => throw (mapUniqueViolation e)));
  _ ← in_tx tx (wrapping "create channel" (CreateChannel (u_ID user) username key.2));
  _ ← wrapping "commit" (commit_tx tx);
  mret (user, key.1).

Definition Login (username password : string) : query User :=
  user ← no_rows_to ErrBadCredentials "lookup user" (GetUserByUsername username);
  if verifyPassword (u_PasswordHash user) password then mret user else throw ErrBadCredentials.

Definition CreateSession (userID : Z) (buf : option (list Z)) : query string :=
  token ← lift_res (newSessionToken buf);
  now ← gets clock;
  _ ← wrapping "create session" (Store.CreateSession token userID (timestamptz (now + sessionTTL)));
  mret token.

Definition Logout (token : string) : query unit :=
  if String.eqb token "" then mret tt else DeleteSession token.

Definition SessionUser (token : string) : query User :=
  row ← no_rows_to ErrNoSession "lookup session" (GetSessionWithUser token);
  let u : User := row.2 in
  mret {| u_ID := u_ID u; u_Username := u_Username u; u_Email := u_Email u;
          u_PasswordHash := u_PasswordHash u; u_CreatedAt := u_CreatedAt u |}.

Definition ChannelForUser (userID : Z) : query Channel :=
  no_rows_to ErrNoChannel "lookup channel" (GetChannelByUserID userID).

Definition ChannelByName (name : string) : query Channel :=
  no_rows_to ErrNoChannel "lookup channel" (GetChannelByName name).

Definition RegenerateStreamKey (channelID : Z) (buf : option (list Z)) : query string :=
  key ← lift_res (wrap "generate key" (GenerateKey buf));
  _ ← wrapping "update key" (UpdateChannelStreamKey channelID key.2);
  mret key.1.

Definition UpdateChannelTitle (channelID : Z) (title : string) : query unit :=
  let title := if 200 <? Z.of_nat (String.length title) then cut 200 title else title in
  Store.UpdateChannelTitle channelID title.

Definition SweepExpiredSessions : query unit := DeleteExpiredSessions.
End Service.
