(* ===== verification/StoreInv.v ===== *)
(** * What every statement keeps: the schema's invariant, serial numbers *)

From S2P Require Import Prelude Utf8 Encoding Errors StreamKey Store.
Local Open Scope Z_scope.

(** Serial numbers only grow. *)
Definition later (d d' : tables) : Prop :=
  next_user d <= next_user d' /\ next_channel d <= next_channel d' /\
  next_stream_session d <= next_stream_session d'.

(** The same rows, possibly with serial numbers used up. *)
Definition same_rows (d d' : tables) : Prop :=
  users d' = users d /\ channels d' = channels d /\ sessions d' = sessions d /\
  stream_sessions d' = stream_sessions d /\ later d d'.

#[export] Instance later_preorder : PreOrder later.
Proof. split; [intros d; unfold later; lia | intros d1 d2 d3; unfold later; lia]. Qed.

#[export] Instance same_rows_preorder : PreOrder same_rows.
Proof.
  split; [intros d; by split_and!|].
  intros d1 d2 d3 (? & ? & ? & ? & ?) (? & ? & ? & ? & ?). split_and!; [congruence..|by etransitivity].
Qed.

Record ok (d : tables) : Prop := { ok_schema : db_ok d; ok_names : named_like_owner d }.

Lemma same_rows_ok d d' : same_rows d d' -> ok d -> ok d'.
Proof.
  intros (E1 & E2 & E3 & E4 & (L1 & L2 & L3)) [Hd Hn]. destruct Hd as [K_users K_channels K_sessions K_streams K_username K_email K_owner K_name K_fk].
  split; [split | unfold named_like_owner]; rewrite ?E1, ?E2, ?E3, ?E4; try done.
  - intros id u Hu. specialize (K_users id u Hu). lia.
  - intros id u Hu. specialize (K_channels id u Hu). lia.
  - intros id u Hu. specialize (K_streams id u Hu). intuition lia.
Qed.

(** ** One statement *)
Lemma statement_cases {A} (body : tables -> tables * res err A) s s' r :
  statement body s = (s', r) -> clock s' = clock s /\
  ((db s' = db s /\ r = Err EConn) \/ (db s' = (body (db s)).1 /\ (r = (body (db s)).2 \/ r = Err EConn))).
Proof.
  unfold statement. destruct (match faults s with [] => _ | _ => _ end) as [f fs].
  destruct f; simpl; [destruct (body (db s)) as [d x]|..|destruct (body (db s)) as [d x]];
    intros [= <- <-]; simpl; auto.
Qed.

Lemma statement_keeps {A} (P : tables -> Prop) (body : tables -> tables * res err A) s s' r :
  statement body s = (s', r) -> (P (db s) -> P (body (db s)).1) -> P (db s) -> P (db s').
Proof. intros H Hb HP. apply statement_cases in H as (_ & [[-> _]|[-> _]]); auto. Qed.

(** A statement that only reads. *)
Lemma statement_reads {A} (body : tables -> tables * res err A) s s' r :
  statement body s = (s', r) -> (body (db s)).1 = db s -> db s' = db s.
Proof. intros H Hb. apply statement_cases in H as (_ & [[-> _]|[-> _]]); auto. Qed.

Lemma with_texts_keeps {A} (P : tables -> Prop) args (body : tables -> tables * res err A) d :
  P d -> P (body d).1 -> P (with_texts args body d).1.
Proof. intros H1 H2. unfold with_texts. by destruct (texts_ok args). Qed.

(** ** Rows written *)
Definition new_user_ok (d : tables) (u : User) : Prop :=
  u_ID u = next_user d /\ (forall i v, users d !! i = Some v -> u_Username v <> u_Username u) /\
  (forall i v, users d !! i = Some v -> u_Email v <> u_Email u).

Definition add_user (u : User) (d : tables) : tables :=
  set_users (<[u_ID u := u]> (users d)) (next_user d + 1) d.

Lemma fresh_user d u : db_ok d -> u_ID u = next_user d -> users d !! u_ID u = None.
Proof.
  intros Hd Hu. destruct (users d !! u_ID u) as [v|] eqn:E; [|done].
  apply (k_users d Hd) in E. lia.
Qed.

Lemma add_user_ok d u : ok d -> new_user_ok d u -> ok (add_user u d).
Proof.
  intros [Hd Hn] (Hid & Hun & Hem). pose proof (fresh_user d u Hd Hid) as Hfresh. destruct Hd as [K_users K_channels K_sessions K_streams K_username K_email K_owner K_name K_fk].
  split; [split|unfold named_like_owner]; simpl; try done.
  - intros id v. rewrite lookup_insert_Some. intros [[<- <-]|[_ Hv]]; [lia|].
    specialize (K_users id v Hv). lia.
  - intros t x Hx. destruct (K_sessions t x Hx) as [? ?]. split; [done|].
    rewrite lookup_insert_is_Some. destruct (decide (u_ID u = s_UserID x)); auto.
  - intros i j a b. rewrite !lookup_insert_Some. intros [[<- <-]|[? Ha]] [[<- <-]|[? Hb]] E; try done.
    + by destruct (Hun j b Hb). + by destruct (Hun i a Ha). + by eapply K_username.
  - intros i j a b. rewrite !lookup_insert_Some. intros [[<- <-]|[? Ha]] [[<- <-]|[? Hb]] E; try done.
    + by destruct (Hem j b Hb). + by destruct (Hem i a Ha). + by eapply K_email.
  - intros i c Hc. rewrite lookup_insert_is_Some. destruct (decide (u_ID u = c_UserID c)); [auto|].
    right. split; [done | by eapply K_fk].
  - intros i c v Hc. rewrite lookup_insert_Some. intros [[E <-]|[_ Hv]]; [|by eapply Hn].
    destruct (K_fk i c Hc) as [w Hw]. rewrite <- E, Hfresh in Hw. done.
Qed.

Definition new_channel_ok (d : tables) (c : Channel) : Prop :=
  c_ID c = next_channel d /\ is_Some (users d !! c_UserID c) /\
  (forall u, users d !! c_UserID c = Some u -> c_Name c = u_Username u) /\
  (forall i e, channels d !! i = Some e -> c_UserID e <> c_UserID c /\ c_Name e <> c_Name c).

Definition add_channel (c : Channel) (d : tables) : tables :=
  set_channels (<[c_ID c := c]> (channels d)) (next_channel d + 1) d.

Lemma fresh_channel d c : db_ok d -> c_ID c = next_channel d -> channels d !! c_ID c = None.
Proof.
  intros Hd Hc. destruct (channels d !! c_ID c) as [v|] eqn:E; [|done].
  apply (k_channels d Hd) in E. lia.
Qed.

Lemma add_channel_ok d c : ok d -> new_channel_ok d c -> ok (add_channel c d).
Proof.
  intros [Hd Hn] (Hid & Hu & Hname & Hnew). pose proof (fresh_channel d c Hd Hid) as Hfresh. destruct Hd as [K_users K_channels K_sessions K_streams K_username K_email K_owner K_name K_fk].
  split; [split|unfold named_like_owner]; simpl; try done.
  - intros id v. rewrite lookup_insert_Some. intros [[<- <-]|[_ Hv]]; [lia|].
    specialize (K_channels id v Hv). lia.
  - intros id x Hx. destruct (K_streams id x Hx) as (? & ? & ?). split_and!; [done..|].
    rewrite lookup_insert_is_Some. destruct (decide (c_ID c = ss_ChannelID x)); auto.
  - intros i j a b. rewrite !lookup_insert_Some. intros [[<- <-]|[? Ha]] [[<- <-]|[? Hb]] E; try done.
    + by destruct (Hnew j b Hb). + by destruct (Hnew i a Ha). + by eapply K_owner.
  - intros i j a b. rewrite !lookup_insert_Some. intros [[<- <-]|[? Ha]] [[<- <-]|[? Hb]] E; try done.
    + by destruct (Hnew j b Hb). + by destruct (Hnew i a Ha). + by eapply K_name.
  - intros i a. rewrite lookup_insert_Some. intros [[<- <-]|[_ Ha]]; [done | by eapply K_fk].
  - intros i a v. rewrite lookup_insert_Some. intros [[<- <-]|[_ Ha]]; [apply Hname | by apply (Hn i)].
Qed.

Lemma alter_channel_ok d f id n : ok d -> next_channel d <= n ->
  (forall c, c_ID (f c) = c_ID c /\ c_UserID (f c) = c_UserID c /\ c_Name (f c) = c_Name c) ->
  ok (set_channels (alter f id (channels d)) n d).
Proof.
  intros [Hd Hn] Hnext Hf. destruct Hd as [K_users K_channels K_sessions K_streams K_username K_email K_owner K_name K_fk].
  assert (Hl : forall i c, alter f id (channels d) !! i = Some c -> exists c0, channels d !! i = Some c0 /\
    c_ID c = c_ID c0 /\ c_UserID c = c_UserID c0 /\ c_Name c = c_Name c0).
  { intros i c. rewrite lookup_alter. case_decide as E; [|intros Hc; by exists c].
    intros Hc. apply fmap_Some in Hc as (c0 & Hc0 & ->). exists c0. subst. by destruct (Hf c0) as (? & ? & ?). }
  split; [split|unfold named_like_owner]; simpl; try done.
  - intros i c Hc. destruct (Hl i c Hc) as (c0 & Hc0 & -> & _). specialize (K_channels i c0 Hc0). lia.
  - intros i x Hx. destruct (K_streams i x Hx) as (? & ? & ?). split_and!; [done..|].
    rewrite lookup_alter. case_decide; [subst; by rewrite fmap_is_Some | done].
  - intros i j a b Ha Hb E. destruct (Hl i a Ha) as (a0 & Ha0 & _ & Ea & _). destruct (Hl j b Hb) as (b0 & Hb0 & _ & Eb & _).
    eapply K_owner; [done..|congruence].
  - intros i j a b Ha Hb E. destruct (Hl i a Ha) as (a0 & Ha0 & _ & _ & Ea). destruct (Hl j b Hb) as (b0 & Hb0 & _ & _ & Eb).
    eapply K_name; [done..|congruence].
  - intros i c Hc. destruct (Hl i c Hc) as (c0 & Hc0 & _ & -> & _). by eapply K_fk.
  - intros i c u Hc. destruct (Hl i c Hc) as (c0 & Hc0 & _ & -> & ->). by apply (Hn i).
Qed.

Lemma set_sessions_ok d ss : ok d ->
  (forall t x, ss !! t = Some x -> s_ID x = t /\ is_Some (users d !! s_UserID x)) -> ok (set_sessions ss d).
Proof. intros [Hd Hn] Hs. destruct Hd as [K_users K_channels K_sessions K_streams K_username K_email K_owner K_name K_fk]. split; [split|]; simpl; done. Qed.

Lemma set_streams_ok d ss n : ok d -> next_stream_session d <= n ->
  (forall i x, ss !! i = Some x -> ss_ID x = i /\ i < n /\ is_Some (channels d !! ss_ChannelID x)) ->
  ok (set_stream_sessions ss n d).
Proof. intros [Hd Hn] Hnext Hs. destruct Hd as [K_users K_channels K_sessions K_streams K_username K_email K_owner K_name K_fk]. split; [split|]; simpl; done. Qed.

Lemma use_user_serial d : same_rows d (set_users (users d) (next_user d + 1) d).
Proof. split_and!; try done. unfold later. simpl. lia. Qed.
Lemma use_channel_serial d : same_rows d (set_channels (channels d) (next_channel d + 1) d).
Proof. split_and!; try done. unfold later. simpl. lia. Qed.
Lemma use_stream_serial d : same_rows d (set_stream_sessions (stream_sessions d) (next_stream_session d + 1) d).
Proof. split_and!; try done. unfold later. simpl. lia. Qed.

(** ** The statements *)

(** What [CreateUser] does to the tables. *)
Lemma CreateUser_body username email hash now d (body := with_texts [username; email; hash] (fun d =>
    let u := user_row d username email hash now in
    let taken := set_users (users d) (next_user d + 1) d in
    if is_some (select (fun v => String.eqb (u_Username v) username) (users d))
    then (taken, Err (EPg "23505" "users_username_key"))
    else if is_some (select (fun v => String.eqb (u_Email v) email) (users d))
    then (taken, Err (EPg "23505" "users_email_key"))
    else (set_users (<[u_ID u := u]> (users d)) (next_user d + 1) d, Ok u))) :
  (exists u, u = user_row d username email hash now /\ new_user_ok d u /\ body d = (add_user u d, Ok u)) \/
  (same_rows d (body d).1 /\ exists e, (body d).2 = Err e).
Proof.
  unfold body, with_texts. destruct (texts_ok _); [|right; split; [done | by eexists]].
  destruct (select (fun v => String.eqb (u_Username v) username) (users d)) eqn:E1; simpl;
    [right; split; [apply use_user_serial | by eexists]|].
  destruct (select (fun v => String.eqb (u_Email v) email) (users d)) eqn:E2; simpl;
    [right; split; [apply use_user_serial | by eexists]|].
  left. eexists. split; [done|]. split; [|done]. rewrite select_None in E1, E2.
  split_and!; simpl; [done|..]; intros i v Hv.
  - specialize (E1 i v Hv). by apply String.eqb_neq in E1.
  - specialize (E2 i v Hv). by apply String.eqb_neq in E2.
Qed.

Lemma CreateUser_cases username email hash s s' r : CreateUser username email hash s = (s', r) ->
  clock s' = clock s /\
  ((exists u, u = user_row (db s) username email hash (pg_now s) /\ new_user_ok (db s) u /\
      db s' = add_user u (db s) /\ (r = Ok u \/ r = Err EConn)) \/
   (same_rows (db s) (db s') /\ exists e, r = Err e)).
Proof.
  intros H. unfold CreateUser in H. apply statement_cases in H as (Hc & H). split; [done|].
  pose proof (CreateUser_body username email hash (pg_now s) (db s)) as Hb. cbv zeta in Hb.
  destruct H as [[-> ->]|[Hdb Hr]]; [right; split; [done | by eexists]|].
  destruct Hb as [(u & Hu & Hn & Hb)|[Hs [e He]]].
  - left. exists u. rewrite Hb in Hdb, Hr. split_and!; done.
  - right. rewrite Hdb. split; [exact Hs|]. destruct Hr as [-> | ->]; [by rewrite He; eexists | by eexists].
Qed.

Lemma CreateChannel_cases uid name hash s s' r : CreateChannel uid name hash s = (s', r) ->
  clock s' = clock s /\
  ((exists c, c = channel_row (db s) uid name hash (pg_now s) /\ is_Some (users (db s) !! uid) /\
      (forall i e, channels (db s) !! i = Some e -> c_UserID e <> uid /\ c_Name e <> name) /\
      db s' = add_channel c (db s) /\ (r = Ok c \/ r = Err EConn)) \/
   (same_rows (db s) (db s') /\ exists e, r = Err e)).
Proof.
  intros H. unfold CreateChannel in H. apply statement_cases in H as (Hc & H). split; [done|].
  destruct H as [[-> ->]|[Hdb Hr]]; [right; split; [done | by eexists]|].
  unfold with_texts in Hdb, Hr. destruct (texts_ok _).
  2: { right. rewrite Hdb. split; [done|]. destruct Hr as [-> | ->]; by eexists. }
  destruct (select (fun v => c_UserID v =? uid) (channels (db s))) eqn:E1; simpl in Hdb, Hr.
  { right. rewrite Hdb. split; [apply use_channel_serial|]. destruct Hr as [-> | ->]; by eexists. }
  destruct (select (fun v => String.eqb (c_Name v) name) (channels (db s))) eqn:E2; simpl in Hdb, Hr.
  { right. rewrite Hdb. split; [apply use_channel_serial|]. destruct Hr as [-> | ->]; by eexists. }
  destruct (users (db s) !! uid) as [u|] eqn:Eu; simpl in Hdb, Hr.
  2: { right. rewrite Hdb. split; [apply use_channel_serial|]. destruct Hr as [-> | ->]; by eexists. }
  left. eexists. split; [done|]. rewrite select_None in E1, E2. split_and!; [by eexists | | done | done].
  intros i e He. split.
  - specialize (E1 i e He). by apply Z.eqb_neq in E1.
  - specialize (E2 i e He). by apply String.eqb_neq in E2.
Qed.

Lemma keeps_of {A} (body : tables -> tables * res err A) s s' r : statement body s = (s', r) ->
  (ok (db s) -> ok (body (db s)).1) -> ok (db s) -> ok (db s').
Proof. intros H Hb. by apply (statement_keeps ok _ _ _ _ H). Qed.

Lemma UpdateChannelStreamKey_ok id h s s' r : UpdateChannelStreamKey id h s = (s', r) -> ok (db s) -> ok (db s').
Proof.
  intros H. apply (keeps_of _ _ _ _ H). intros Hok. apply with_texts_keeps; [done|].
  by apply alter_channel_ok.
Qed.

Lemma UpdateChannelTitle_ok id t s s' r : UpdateChannelTitle id t s = (s', r) -> ok (db s) -> ok (db s').
Proof.
  intros H. apply (keeps_of _ _ _ _ H). intros Hok. apply with_texts_keeps; [done|].
  by apply alter_channel_ok.
Qed.

Lemma CreateSession_ok id uid exp s s' r : CreateSession id uid exp s = (s', r) -> ok (db s) -> ok (db s').
Proof.
  intros H. apply (keeps_of _ _ _ _ H). intros Hok. apply with_texts_keeps; [done|].
  destruct (sessions (db s) !! id); [done|]. simpl. destruct (users (db s) !! uid) eqn:Hu; [|done]. simpl.
  apply set_sessions_ok; [done|]. intros t x. rewrite lookup_insert_Some.
  intros [[<- <-]|[_ Hx]]; [simpl; by rewrite Hu | by apply (k_sessions _ (ok_schema _ Hok))].
Qed.

Lemma DeleteExpiredSessions_ok s s' r : DeleteExpiredSessions s = (s', r) -> ok (db s) -> ok (db s').
Proof.
  intros H. apply (keeps_of _ _ _ _ H). intros Hok. apply set_sessions_ok; [done|].
  intros t x [Hx _]%map_lookup_filter_Some. by apply (k_sessions _ (ok_schema _ Hok)).
Qed.

Lemma DeleteSession_ok id s s' r : DeleteSession id s = (s', r) -> ok (db s) -> ok (db s').
Proof.
  intros H. apply (keeps_of _ _ _ _ H). intros Hok. apply with_texts_keeps; [done|].
  apply set_sessions_ok; [done|]. intros t x [_ Hx]%lookup_delete_Some. by apply (k_sessions _ (ok_schema _ Hok)).
Qed.

Lemma CreateStreamSession_ok cid t s s' r : CreateStreamSession cid t s = (s', r) -> ok (db s) -> ok (db s').
Proof.
  intros H. apply (keeps_of _ _ _ _ H). intros Hok. simpl.
  destruct (channels (db s) !! cid) eqn:Hc; simpl; [|eapply same_rows_ok; [apply use_stream_serial | done]].
  apply set_streams_ok; [done | lia|]. intros i x. rewrite lookup_insert_Some.
  intros [[<- <-]|[_ Hx]]; simpl; [rewrite Hc; split_and!; [done | lia | done]|].
  destruct (k_streams _ (ok_schema _ Hok) i x Hx) as (? & ? & ?). split_and!; [done | lia | done].
Qed.

Lemma end_row_id t reason x : ss_ID (end_row t reason x) = ss_ID x /\ ss_ChannelID (end_row t reason x) = ss_ChannelID x.
Proof. unfold end_row. by destruct (ss_EndedAt x). Qed.

Lemma EndStreamSession_ok id t reason s s' r : EndStreamSession id t reason s = (s', r) -> ok (db s) -> ok (db s').
Proof.
  intros H. apply (keeps_of _ _ _ _ H). intros Hok. apply with_texts_keeps; [done|].
  destruct (stream_sessions (db s) !! id) as [x|] eqn:Hx; [|done]. destruct (_ && _); [done|]. simpl.
  apply set_streams_ok; [done..|]. intros i y. rewrite lookup_insert_Some.
  intros [[<- <-]|[_ Hy]]; [|by apply (k_streams _ (ok_schema _ Hok))].
  destruct (end_row_id t reason x) as [-> ->]. by apply (k_streams _ (ok_schema _ Hok)).
Qed.

Lemma MarkOpenStreamSessionsOrphaned_ok s s' r :
  MarkOpenStreamSessionsOrphaned s = (s', r) -> ok (db s) -> ok (db s').
Proof.
  intros H. apply (keeps_of _ _ _ _ H). intros Hok. simpl. apply set_streams_ok; [done..|].
  intros i y. rewrite lookup_fmap. intros (x & Hx & ->)%fmap_Some.
  destruct (end_row_id (pg_now s) "orphan_swept" x) as [-> ->]. by apply (k_streams _ (ok_schema _ Hok)).
Qed.

Lemma rollback_same d0 s : later d0 (db s) -> same_rows d0 (db (rollback d0 s)).
Proof. intros H. by split_and!. Qed.

Lemma no_tables_ok : ok no_tables.
Proof.
  split; [split|unfold named_like_owner]; simpl; intros *; rewrite ?lookup_empty; intros; try done;
    by rewrite lookup_empty in *.
Qed.
