(* ===== verification/AuthThms.v ===== *)
(** * What the account service guarantees *)

From S2P Require Import Prelude Utf8 Encoding Errors StreamKey Store StoreInv Auth.
Local Open Scope Z_scope.

(** Splitting a program that returned into its steps. *)
Lemma bind_returns {S A B} (m : prog S err A) (f : A -> prog S err B) s s' r :
  (m ≫= f) s = (s', r) ->
  (exists s1 a, m s = (s1, Ok a) /\ f a s1 = (s', r)) \/ (exists e, m s = (s', Err e) /\ r = Err e).
Proof.
  rewrite prog_bind_eq. destruct (m s) as [s1 [a|e]]; [intros H; left; by exists s1, a|].
  intros [= <- <-]. right. by exists e.
Qed.

Lemma bind_lift {S A B} (a : A) (f : A -> prog S err B) s : (lift_res (Ok a) ≫= f) s = f a s.
Proof. reflexivity. Qed.

Lemma catch_returns {S A} (m : prog S err A) (h : err -> prog S err A) s s' r :
  catch m h s = (s', r) ->
  (exists a, m s = (s', Ok a) /\ r = Ok a) \/ (exists s1 e, m s = (s1, Err e) /\ h e s1 = (s', r)).
Proof.
  unfold catch. destruct (m s) as [s1 [a|e]]; [intros [= <- <-]; left; by exists a|].
  intros H. right. by exists s1, e.
Qed.

Lemma wrapping_returns {A} prefix (m : query A) s s' r : wrapping prefix m s = (s', r) ->
  exists r', m s = (s', r') /\ r = wrap prefix r'.
Proof.
  intros [(a & H & ->)|(s1 & e & H & [= <- <-])]%catch_returns; [by exists (Ok a) | by exists (Err e)].
Qed.

Lemma no_rows_to_returns {A} missing prefix (m : query A) s s' r : no_rows_to missing prefix m s = (s', r) ->
  exists r', m s = (s', r') /\
    r = match r' with Ok a => Ok a | Err e => Err (if errors_is e ENoRows then missing else EWrap prefix e) end.
Proof.
  intros [(a & H & ->)|(s1 & e & H & [= <- <-])]%catch_returns; [by exists (Ok a) | by exists (Err e)].
Qed.

Lemma usernameRE_spec s : usernameRE s = true ->
  (3 <= String.length s <= 32)%nat /\ Forall (fun b => 48 <= b <= 122) (bytes_of s).
Proof.
  unfold usernameRE, len. rewrite !andb_true_iff, !Z.leb_le, length_bytes_of, forallb_forall.
  intros [[H1 H2] H]. split; [lia|]. rewrite Forall_forall. intros b Hb.
  assert (Hin : In b (bytes_of s)) by (by apply list_elem_of_In).
  specialize (H b Hin). unfold name_byte, between in H. lia.
Qed.

Lemma username_text s : usernameRE s = true -> pg_text s = true.
Proof.
  intros [_ H]%usernameRE_spec. apply ascii_pg_text. eapply Forall_impl; [done|]. simpl. lia.
Qed.

(** ** Transactions *)
Lemma in_tx_returns {A} d0 (m : query A) s s' r : in_tx d0 m s = (s', r) ->
  (exists a, m s = (s', Ok a) /\ r = Ok a) \/
  (exists s1 e, m s = (s1, Err e) /\ r = Err e /\ s' = rollback d0 s1).
Proof.
  unfold in_tx. destruct (m s) as [s1 [a|e]]; intros [= <- <-]; [left; by exists a | right; by exists s1, e].
Qed.

Lemma Begin_returns s s' r : Begin s = (s', r) ->
  db s' = db s /\ clock s' = clock s /\ (r = Ok (db s) \/ r = Err EConn).
Proof.
  intros H. pose proof (statement_reads _ _ _ _ H eq_refl).
  apply statement_cases in H as [Hc [[_ ?]|[_ [?|?]]]]; auto.
Qed.

Lemma Commit_returns s s' r : Commit s = (s', r) ->
  db s' = db s /\ clock s' = clock s /\ (r = Ok tt \/ r = Err EConn).
Proof.
  intros H. pose proof (statement_reads _ _ _ _ H eq_refl).
  apply statement_cases in H as [Hc [[_ ?]|[_ [?|?]]]]; auto.
Qed.

Lemma commit_tx_returns d0 s s' r : commit_tx d0 s = (s', r) ->
  clock s' = clock s /\
  ((db s' = db s /\ (r = Ok tt \/ r = Err EConn)) \/
   (r = Err EConn /\ exists s1, db s1 = db s /\ s' = rollback d0 s1)).
Proof.
  unfold commit_tx. destruct (faults s) as [|[| |] fs] eqn:Hf; intros H.
  3: { assert (Hr : (Commit s).2 = Err EConn) by (unfold Commit, statement; by rewrite Hf).
       destruct (Commit s) as [s1 r1] eqn:E. apply Commit_returns in E as (Hd & Hc & _). simpl in Hr. simplify_eq.
       split; [done|]. right. split; [done | by exists s1]. }
  all: apply Commit_returns in H as (Hd & Hc & Hr); auto.
Qed.

Section Signup.
Context (parse_address : string -> bool).
Context (bcrypt_generate : list Z -> string -> option string).
Context (bcrypt_compare : string -> string -> bool).
Abbreviation Signup := (Signup parse_address bcrypt_generate).
Abbreviation Login := (Login bcrypt_compare).

(** The rows a signup adds. *)
Record signed_up (username email plain : string) (d d' : tables) (u : User) : Prop := {
  su_user : new_user_ok d u;
  su_name : u_Username u = username;
  su_email : u_Email u = email;
  su_users : users d' = <[u_ID u := u]> (users d);
  su_channel : exists c, channels d' = <[c_ID c := c]> (channels d) /\ c_ID c = next_channel d /\
    c_UserID c = u_ID u /\ c_Name c = username /\ c_Title c = "" /\ c_StreamKeyHash c = HashKey plain;
  su_rest : sessions d' = sessions d /\ stream_sessions d' = stream_sessions d
}.

(** How the transaction of a signup can end: nothing inserted, or both rows;
    when the reply to the commit is lost, both rows and an error. *)
Definition tx_outcome (username email h hash : string) (s s' : store) (r : res err User) : Prop :=
  ok (db s') /\ clock s' = clock s /\
  ((same_rows (db s) (db s') /\ exists e, r = Err e) \/
   exists u c, u = user_row (db s) username email h (pg_now s) /\ new_user_ok (db s) u /\
     c = channel_row (add_user u (db s)) (u_ID u) username hash (pg_now s) /\
     db s' = add_channel c (add_user u (db s)) /\ (r = Ok u \/ r = Err (EWrap "commit" EConn))).

Lemma rolled_back username email h hash s s2 e : ok (db s) -> later (db s) (db s2) -> clock s2 = clock s ->
  tx_outcome username email h hash s (rollback (db s) s2) (Err e).
Proof.
  intros Hok Hl Hc. pose proof (rollback_same (db s) s2 Hl) as Hs.
  split_and!; [by eapply same_rows_ok | done|]. left. split; [done | by eexists].
Qed.

Lemma signup_commit username email h hash s s3 s' r
    (u := user_row (db s) username email h (pg_now s))
    (c := channel_row (add_user u (db s)) (u_ID u) username hash (pg_now s)) :
  ok (db s) -> new_user_ok (db s) u ->
  (forall i e, channels (add_user u (db s)) !! i = Some e -> c_UserID e <> u_ID u /\ c_Name e <> username) ->
  db s3 = add_channel c (add_user u (db s)) -> clock s3 = clock s ->
  (_ ← wrapping "commit" (commit_tx (db s)); mret u) s3 = (s', r) ->
  tx_outcome username email h hash s s' r.
Proof.
  intros Hok Hnu Hnc Hd3 Hc3 H.
  assert (Hok3 : ok (add_channel c (add_user u (db s)))).
  { apply add_channel_ok; [by apply add_user_ok|].
    assert (Hu : users (add_user u (db s)) !! c_UserID c = Some u) by (simpl; by rewrite lookup_insert_eq).
    split_and!; [done | by rewrite Hu | by rewrite Hu; intros ? [= <-] | done]. }
  assert (Hdone : forall s4 r4, db s4 = db s3 -> clock s4 = clock s3 ->
    r4 = Ok u \/ r4 = Err (EWrap "commit" EConn) -> tx_outcome username email h hash s s4 r4).
  { intros s4 r4 Hd4 Hc4 Hr4. unfold tx_outcome. rewrite Hd4, Hd3. split_and!; [done | congruence|].
    right. by exists u, c. }
  apply bind_returns in H as [(s4 & [] & Hcm & H)|(e & Hcm & ->)];
    apply wrapping_returns in Hcm as (r' & (Hc4 & Hcm)%commit_tx_returns & Hr').
  - injection H as <- <-. destruct Hcm as [[Hd4 _]|[-> _]]; [|done]. apply Hdone; auto.
  - destruct Hcm as [[Hd4 [-> | ->]]|[-> (s5 & Hd5 & ->)]]; simplify_eq/=; [by apply Hdone; auto|].
    apply rolled_back; [done | | by simpl in Hc4; congruence].
    rewrite Hd5, Hd3. unfold later. simpl. lia.
Qed.

(** The database steps of a signup. *)
Lemma signup_tx username email h hash s s' r : ok (db s) ->
  (tx ← wrapping "begin tx" Begin;
   user ← in_tx tx (catch (CreateUser username email h) (fun e => throw (mapUniqueViolation e)));
   _ ← in_tx tx (wrapping "create channel" (CreateChannel (u_ID user) username hash));
   _ ← wrapping "commit" (commit_tx tx);
   mret user) s = (s', r) ->
  tx_outcome username email h hash s s' r.
Proof.
  intros Hok H.
  apply bind_returns in H as [(s1 & tx & Hb & H)|(e & Hb & ->)];
    apply wrapping_returns in Hb as (r' & (Hd1 & Hc1 & Hr1)%Begin_returns & Hr').
  2: { unfold tx_outcome. rewrite Hd1. split_and!; [done..|]. left. split; [done | by eexists]. }
  assert (tx = db s) as -> by (destruct Hr1; by simplify_eq/=). clear Hr1 Hr' r'.
  assert (Hnow : pg_now s1 = pg_now s) by (unfold pg_now; by rewrite Hc1).
  apply bind_returns in H as [(s2 & u & Hu & H)|(e & Hu & ->)];
    apply in_tx_returns in Hu as [(a & Hu & Ha)|(s3 & e3 & Hu & He & Hs')]; try done; simplify_eq.
  2: { apply catch_returns in Hu as [(a & _ & ?)|(s4 & e4 & Hu & [= <- _])]; [done|].
       apply CreateUser_cases in Hu as (Hc2 & [(u & _ & _ & Hd2 & _)|[(_ & _ & _ & _ & Hl) _]]);
         (apply rolled_back; [done| |congruence]); [rewrite Hd2, Hd1; unfold later; simpl; lia | by rewrite Hd1 in Hl]. }
  apply catch_returns in Hu as [(a' & Hu & [= <-])|(s3 & e3 & _ & ?)]; [|done].
  apply CreateUser_cases in Hu as (Hc2 & [(u' & Hu' & Hnu & Hd2 & [[= <-]|?])|[_ [? ?]]]); [|done..].
  rewrite Hd1, Hnow in Hu'. rewrite Hd1 in Hnu, Hd2.
  assert (Hl2 : later (db s) (db s2)) by (rewrite Hd2; unfold later; simpl; lia).
  assert (Hnow2 : pg_now s2 = pg_now s) by (unfold pg_now; by rewrite Hc2, Hc1).
  apply bind_returns in H as [(s3 & c & Hch & H)|(e & Hch & ->)];
    apply in_tx_returns in Hch as [(c' & Hch & Hc)|(s4 & e4 & Hch & He & Hs')]; try done; simplify_eq;
    apply wrapping_returns in Hch as (r' & Hch & Hr'); apply CreateChannel_cases in Hch as (Hc3 & Hch).
  2: { apply rolled_back; [done | etransitivity; [exact Hl2|] | congruence].
       destruct Hch as [(c & _ & _ & _ & Hd3 & _)|[(_ & _ & _ & _ & Hl) _]]; [|done].
       rewrite Hd3. unfold later. simpl. lia. }
  destruct Hch as [(c & Hc & Hfk & Hnc & Hd3 & [-> | ->])|[_ [? ->]]]; simplify_eq/=.
  rewrite Hnow2, Hd2 in Hd3. rewrite Hd2 in Hnc.
  eapply (signup_commit username email h hash s s3); [done | exact Hnu | exact Hnc | exact Hd3 | congruence | exact H].
Qed.

(** A signup whose arguments are accepted is its transaction. *)
Lemma signup_validated username email password salt buf h key s :
  validateUsername username = Ok tt -> parse_address email = true -> validatePassword password = Ok tt ->
  bcrypt_generate salt password = Some h -> GenerateKey buf = Ok key ->
  Signup username email password salt buf s =
  let '(s', r) := (tx ← wrapping "begin tx" Begin;
     user ← in_tx tx (catch (CreateUser username email h) (fun e => throw (mapUniqueViolation e)));
     _ ← in_tx tx (wrapping "create channel" (CreateChannel (u_ID user) username key.2));
     _ ← wrapping "commit" (commit_tx tx);
     mret user) s in
  (s', match r with Ok u => Ok (u, key.1) | Err e => Err e end).
Proof.
  intros H1 H2 H3 H4 H5. unfold Auth.Signup, validateEmail, hashPassword. rewrite H1, H2, H3, H4, H5.
  cbn [wrap]. rewrite !bind_lift. rewrite !prog_bind_eq.
  destruct (wrapping "begin tx" Begin s) as [s1 [tx|e]]; [|done]. rewrite !prog_bind_eq.
  destruct (in_tx tx _ s1) as [s2 [u|e]]; [|done]. rewrite !prog_bind_eq.
  destruct (in_tx tx _ s2) as [s3 [c|e]]; [|done]. rewrite !prog_bind_eq.
  by destruct (wrapping "commit" _ s3) as [s4 [[]|e]].
Qed.

(** Any other signup fails before it reaches the database. *)
Lemma signup_refused username email password salt buf s s' r :
  Signup username email password salt buf s = (s', r) ->
  (exists e, r = Err e /\ s' = s) \/
  (exists h key, validateUsername username = Ok tt /\ parse_address email = true /\
     validatePassword password = Ok tt /\ bcrypt_generate salt password = Some h /\ GenerateKey buf = Ok key).
Proof.
  unfold Auth.Signup. intros H. rewrite prog_bind_eq in H. unfold lift_res at 1 in H.
  destruct (validateUsername username) as [[]|e]; [|simplify_eq; left; by eexists].
  rewrite prog_bind_eq in H. unfold lift_res at 1, validateEmail in H.
  destruct (parse_address email); [|simplify_eq; left; by eexists].
  rewrite prog_bind_eq in H. unfold lift_res at 1 in H.
  destruct (validatePassword password) as [[]|e]; [|simplify_eq; left; by eexists].
  rewrite prog_bind_eq in H. unfold lift_res at 1, hashPassword in H.
  destruct (bcrypt_generate salt password) as [h|]; [|simplify_eq/=; left; by eexists].
  cbn [wrap] in H. rewrite prog_bind_eq in H. unfold lift_res at 1 in H.
  destruct (GenerateKey buf) as [key|e]; [|simplify_eq/=; left; by eexists].
  right. by exists h, key.
Qed.

(** C10: a signup is all or nothing. Whatever fails on the way (validation, the
    random source, a constraint, the connection at any statement), the result
    is one new user with one channel of that name, holding the hash of the key
    handed out, or no new row at all; the one exception is a lost reply to the
    commit, where both rows are there and the caller sees an error. The
    schema's constraints and "a channel is called like its owner" are kept. *)
Theorem signup_all_or_nothing username email password salt buf s s' r :
  ok (db s) -> Signup username email password salt buf s = (s', r) ->
  ok (db s') /\
  match r with
  | Ok (u, plain) => signed_up username email plain (db s) (db s') u
  | Err e => same_rows (db s) (db s') \/
             (e = EWrap "commit" EConn /\ exists u plain, signed_up username email plain (db s) (db s') u)
  end.
Proof.
  intros Hok H. destruct (signup_refused _ _ _ _ _ _ _ _ H) as [(e & -> & ->)|(h & key & V1 & V2 & V3 & V4 & V5)].
  { split; [done | by left]. }
  rewrite (signup_validated _ _ _ _ _ h key) in H by done.
  destruct ((wrapping "begin tx" Begin ≫= _) s) as [s1 r1] eqn:Htx. injection H as <- <-.
  apply signup_tx in Htx as (Hok' & _ & Hout); [|done]. split; [done|].
  assert (Hkey : key.2 = HashKey key.1) by (destruct buf; by simplify_eq/=).
  destruct Hout as [[Hs [e ->]]|(u & c & Hu & Hnu & Hc & Hd & Hr)]; [by left|].
  assert (Hsu : signed_up username email key.1 (db s) (db s1) u).
  { split; [done | by rewrite Hu | by rewrite Hu | by rewrite Hd | | by rewrite Hd].
    exists c. rewrite Hd, Hc, <- Hkey. done. }
  destruct Hr as [-> | ->]; [done|]. right. split; [done | by exists u, key.1].
Qed.
End Signup.

(** What a signup that succeeded has done. *)
Lemma Signup_done parse generate username email password salt buf s s1 u plain (d := db s) (d1 := db s1) : ok d ->
  Signup parse generate username email password salt buf s = (s1, Ok (u, plain)) ->
  ok d1 /\ clock s1 = clock s /\ users d1 !! u_ID u = Some u /\ u_Username u = username /\ Store.sessions d1 = Store.sessions d /\
  exists c, channels d1 = <[c_ID c := c]> (channels d) /\ c_UserID c = u_ID u /\ c_Name c = username /\
    c_StreamKeyHash c = HashKey plain.
Proof.
  intros Hok H. destruct (signup_refused _ _ _ _ _ _ _ _ _ _ H) as [(e & ? & _)|(h & key & V1 & V2 & V3 & V4 & V5)]; [done|].
  rewrite (signup_validated _ _ _ _ _ _ _ h key) in H by done.
  destruct ((wrapping "begin tx" Begin ≫= _) s) as [s2 r] eqn:Htx. injection H as -> Hr.
  apply signup_tx in Htx as (Hok' & Hclk & [[_ [e ->]]|(u' & c & Hu' & Hnu & Hc & Hd & [-> | ->])]); [done| |done|done].
  injection Hr as <- <-. unfold d1. rewrite Hd. split_and!.
  - by rewrite <- Hd.
  - done.
  - simpl. by apply lookup_insert_eq.
  - by rewrite Hu'.
  - done.
  - exists c. rewrite Hc. split_and!; try done. simpl. by destruct buf; simplify_eq/=.
Qed.

(** ** Concrete instances for the witnesses *)
Definition toy_address (s : string) : bool := existsb (Z.eqb 64) (bytes_of s).
Definition toy_generate (salt : list Z) (plain : string) : option string :=
  if (72 <? Z.of_nat (String.length plain))%Z then None else Some (EncodeToString salt +:+ plain).
Definition toy_compare (hash plain : string) : bool := String.eqb hash (EncodeToString [1; 2; 3] +:+ plain).
Definition toy_salt : list Z := [1; 2; 3].
Definition toy_buf : option (list Z) := Some (replicate 32 9).
Definition empty_store (fs : list fault) : store := {| db := no_tables; clock := 5000000; faults := fs |}.

Lemma signup_all_or_nothing_witness :
  let s := empty_store [Fine; Fine; Lost] in
  let '(s', r) := Signup toy_address toy_generate "alice" "a@b" "password" toy_salt toy_buf s in
  r = Err (EWrap "create channel" EConn) /\ next_user (db s') = 2 /\ same_rows (db s) (db s').
Proof.
  assert (E : Signup toy_address toy_generate "alice" "a@b" "password" toy_salt toy_buf (empty_store [Fine; Fine; Lost])
    = (rollback no_tables (set_db (set_users ∅ 2 no_tables) (empty_store [])), Err (EWrap "create channel" EConn)))
    by (vm_compute; reflexivity).
  intros s. unfold s. rewrite E. split; [reflexivity|]. split; [reflexivity|].
  destruct (signup_all_or_nothing toy_address toy_generate "alice" "a@b" "password" toy_salt toy_buf
              (empty_store [Fine; Fine; Lost]) _ _ no_tables_ok E) as [_ [H|[H _]]]; [exact H | discriminate].
Defined.

(** ** A signup without trouble *)
Lemma CreateUser_fine username email hash s : faults s = [] -> texts_ok [username; email; hash] = true ->
  let d := db s in let u := user_row d username email hash (pg_now s) in
  CreateUser username email hash s =
  if is_some (select (fun v => String.eqb (u_Username v) username) (users d))
  then (set_db (set_users (users d) (next_user d + 1) d) s, Err (EPg "23505" "users_username_key"))
  else if is_some (select (fun v => String.eqb (u_Email v) email) (users d))
  then (set_db (set_users (users d) (next_user d + 1) d) s, Err (EPg "23505" "users_email_key"))
  else (set_db (add_user u d) s, Ok u).
Proof.
  intros Hf Ht d u. unfold CreateUser. rewrite statement_fine by done. unfold with_texts. rewrite Ht.
  fold d. destruct (is_some (select (fun v => String.eqb (u_Username v) username) (users d))); [done|].
  by destruct (is_some (select (fun v => String.eqb (u_Email v) email) (users d))).
Qed.

Lemma CreateChannel_fine uid name hash s : faults s = [] -> texts_ok [name; hash] = true ->
  is_Some (users (db s) !! uid) ->
  (forall i e, channels (db s) !! i = Some e -> c_UserID e <> uid /\ c_Name e <> name) ->
  CreateChannel uid name hash s =
  (set_db (add_channel (channel_row (db s) uid name hash (pg_now s)) (db s)) s,
   Ok (channel_row (db s) uid name hash (pg_now s))).
Proof.
  intros Hf Ht [u Hu] Hnew. unfold CreateChannel. rewrite statement_fine by done. unfold with_texts. rewrite Ht.
  assert (E1 : select (fun v => c_UserID v =? uid) (channels (db s)) = None).
  { apply select_None. intros k v Hv. apply Z.eqb_neq. by apply (Hnew k). }
  assert (E2 : select (fun v => String.eqb (c_Name v) name) (channels (db s)) = None).
  { apply select_None. intros k v Hv. apply String.eqb_neq. by apply (Hnew k). }
  rewrite E1, E2, Hu. done.
Qed.

Definition unused_username (d : tables) (username : string) : Prop :=
  forall i v, users d !! i = Some v -> u_Username v <> username.
Definition unused_email (d : tables) (email : string) : Prop :=
  forall i v, users d !! i = Some v -> u_Email v <> email.

(** The transaction's result when the database answers. *)
Lemma signup_fine username email h hash s (d := db s) :
  ok d -> faults s = [] -> texts_ok [username; email; h] = true -> texts_ok [username; hash] = true ->
  ((tx ← wrapping "begin tx" Begin;
    user ← in_tx tx (catch (CreateUser username email h) (fun e => throw (mapUniqueViolation e)));
    _ ← in_tx tx (wrapping "create channel" (CreateChannel (u_ID user) username hash));
    _ ← wrapping "commit" (commit_tx tx);
    mret user) s).2 =
  if is_some (select (fun v => String.eqb (u_Username v) username) (users d)) then Err ErrUsernameTaken
  else if is_some (select (fun v => String.eqb (u_Email v) email) (users d)) then Err ErrEmailTaken
  else Ok (user_row d username email h (pg_now s)).
Proof.
  intros Hok Hf Ht Ht2. rewrite prog_bind_eq.
  unfold wrapping at 1, catch at 1, Begin. rewrite statement_fine by done. cbn [fst snd].
  assert (Es : set_db (db s) s = s) by (by destruct s). rewrite Es.
  rewrite prog_bind_eq. unfold in_tx at 1, catch at 1. rewrite (CreateUser_fine _ _ _ _ Hf Ht). fold d.
  destruct (select (fun v => String.eqb (u_Username v) username) (users d)) as [x|] eqn:E1; cbn [is_some]; [done|].
  destruct (select (fun v => String.eqb (u_Email v) email) (users d)) as [x|] eqn:E2; cbn [is_some]; [done|].
  set (u := user_row d username email h (pg_now s)).
  rewrite prog_bind_eq. unfold in_tx at 1, wrapping at 1, catch at 1.
  rewrite (CreateChannel_fine (u_ID u) username hash (set_db (add_user u d) s)); [|done|done| |].
  - rewrite prog_bind_eq. unfold wrapping, catch, commit_tx. cbn [set_db faults]. rewrite Hf.
    unfold Commit. by rewrite statement_fine.
  - simpl. by rewrite lookup_insert_eq.
  - simpl. intros i e He. destruct Hok as [Hd Hn]. destruct (k_fk d Hd i e He) as [v Hv]. split.
    + intros E. apply (k_users d Hd) in Hv. simpl in E. unfold d in *. lia.
    + intros E. apply select_None with (k := c_UserID e) (v := v) in E1; [|done].
      apply String.eqb_neq in E1. apply E1. by rewrite <- (Hn i e v He Hv).
Qed.

Section SignupFine.
Context (parse_address : string -> bool).
Context (bcrypt_generate : list Z -> string -> option string).
Context (bcrypt_compare : string -> string -> bool).

(** What decides a signup whose fields are valid, when the database
    answers. A taken user name is reported as such; else a taken e-mail
    address; else the account is always created: the channel insert that
    follows cannot collide, because every channel is called like its owner. *)
Theorem signup_decided username email password salt buf h s (d := db s) :
  ok d -> faults s = [] ->
  validateUsername username = Ok tt -> parse_address email = true -> validatePassword password = Ok tt ->
  bcrypt_generate salt password = Some h -> pg_text email = true -> pg_text h = true ->
  let r := (Signup parse_address bcrypt_generate username email password salt (Some buf) s).2 in
  (~ unused_username d username -> r = Err ErrUsernameTaken) /\
  (unused_username d username -> ~ unused_email d email -> r = Err ErrEmailTaken) /\
  (unused_username d username -> unused_email d email ->
     exists plain, GenerateKey (Some buf) = Ok (plain, HashKey plain) /\
       r = Ok (user_row d username email h (pg_now s), plain)).
Proof.
  intros Hok Hf V1 V2 V3 V4 Te Th r.
  set (key := (streamKeyPrefix +:+ EncodeToString buf, HashKey (streamKeyPrefix +:+ EncodeToString buf))).
  assert (V5 : GenerateKey (Some buf) = Ok key) by done.
  assert (Tu : pg_text username = true).
  { apply username_text. unfold validateUsername in V1. by destruct (usernameRE username). }
  assert (Ht : texts_ok [username; email; h] = true) by (simpl; by rewrite Tu, Te, Th).
  assert (Ht2 : texts_ok [username; key.2] = true) by (simpl; by rewrite Tu, HashKey_pg_text).
  assert (S1 : unused_username d username <-> select (fun v => String.eqb (u_Username v) username) (users d) = None).
  { rewrite select_None. unfold unused_username. by setoid_rewrite String.eqb_neq. }
  assert (S2 : unused_email d email <-> select (fun v => String.eqb (u_Email v) email) (users d) = None).
  { rewrite select_None. unfold unused_email. by setoid_rewrite String.eqb_neq. }
  pose proof (signup_fine username email h key.2 s Hok Hf Ht Ht2) as Hr. fold d in Hr.
  assert (Er : r = match (if is_some (select (fun v => String.eqb (u_Username v) username) (users d))
      then Err ErrUsernameTaken
      else if is_some (select (fun v => String.eqb (u_Email v) email) (users d)) then Err ErrEmailTaken
      else Ok (user_row d username email h (pg_now s))) with Ok u => Ok (u, key.1) | Err e => Err e end).
  { unfold r. rewrite (signup_validated _ _ _ _ _ _ _ h key) by done. rewrite <- Hr. by destruct ((wrapping "begin tx" Begin ≫= _) s). }
  rewrite S1, S2, Er. clear Er Hr.
  destruct (select (fun v => String.eqb (u_Username v) username) (users d)) as [x|]; cbn [is_some].
  { split; [by intros _ | split; done]. }
  destruct (select (fun v => String.eqb (u_Email v) email) (users d)) as [x|]; cbn [is_some].
  { split; [by intros [] | split; [by intros _ _ | done]]. }
  split; [by intros []|]. split; [by intros _ []|]. intros _ _. by exists key.1.
Qed.
End SignupFine.

Lemma signup_decided_witness :
  exists plain, GenerateKey toy_buf = Ok (plain, HashKey plain) /\
    (Signup toy_address toy_generate "alice" "a@b" "password" toy_salt toy_buf (empty_store [])).2
    = Ok (user_row no_tables "alice" "a@b" (EncodeToString toy_salt +:+ "password") 5000, plain).
Proof.
  apply (signup_decided toy_address toy_generate "alice" "a@b" "password" toy_salt (replicate 32 9)
           (EncodeToString toy_salt +:+ "password") (empty_store [])).
  - exact no_tables_ok.
  - reflexivity.
  - vm_compute. reflexivity.
  - vm_compute. reflexivity.
  - vm_compute. reflexivity.
  - vm_compute. reflexivity.
  - vm_compute. reflexivity.
  - vm_compute. reflexivity.
  - intros i v Hv. simpl in Hv. by rewrite lookup_empty in Hv.
  - intros i v Hv. simpl in Hv. by rewrite lookup_empty in Hv.
Defined.

(** ** Logging in *)

(** What bcrypt sees of a password: the first 72 bytes of the password with a
    zero byte after it, over and over. *)
Definition bcrypt_key (p : string) : list Z :=
  take 72 (concat (replicate 73 (bytes_of p ++ [0]))).

(** A password [GenerateFromPassword] takes, without zero bytes. *)
Definition proper (p : string) : bool := (String.length p <=? 72)%nat && forallb (fun b => negb (b =? 0)) (bytes_of p).

Fixpoint before_zero (l : list Z) : list Z :=
  match l with [] => [] | b :: l => if b =? 0 then [] else b :: before_zero l end.

Lemma before_zero_app l m : forallb (fun b => negb (b =? 0)) l = true -> before_zero (l ++ 0 :: m) = l.
Proof.
  induction l as [|b l IH]; [done|]. simpl. destruct (b =? 0); [done|]. by intros ->%IH.
Qed.

Lemma before_zero_take l m n : forallb (fun b => negb (b =? 0)) l = true -> (length l <= n)%nat ->
  before_zero (take n (l ++ 0 :: m)) = l.
Proof.
  intros Hl Hn. rewrite take_app, take_ge by done. destruct (n - length l)%nat as [|k]; simpl; [|by apply before_zero_app].
  rewrite app_nil_r. clear Hn. induction l as [|b l IH]; [done|]. simpl in *. destruct (b =? 0); [done|]. by rewrite IH.
Qed.

Lemma proper_key p : proper p = true -> before_zero (bcrypt_key p) = bytes_of p.
Proof.
  unfold proper. rewrite andb_true_iff, Nat.leb_le. intros [Hl Hz]. unfold bcrypt_key.
  change (replicate 73 (bytes_of p ++ [0])) with ((bytes_of p ++ [0]) :: replicate 72 (bytes_of p ++ [0])).
  cbn [concat]. rewrite <- app_assoc. apply before_zero_take; [done|].
  pose proof (length_bytes_of p) as E. unfold len in E. lia.
Qed.

(** Among proper passwords bcrypt sees every difference. *)
Lemma proper_key_inj p q : proper p = true -> proper q = true -> bcrypt_key p = bcrypt_key q -> p = q.
Proof.
  intros Hp Hq E. apply bytes_of_inj. by rewrite <- (proper_key p), E, proper_key.
Qed.

(** What is added to 72 bytes does not count. *)
Lemma key_of_longer p x : String.length p = 72%nat -> bcrypt_key (p +:+ x) = bcrypt_key p.
Proof.
  intros Hp. assert (Hl : length (bytes_of p) = 72%nat) by (pose proof (length_bytes_of p) as E; unfold len in E; lia).
  assert (Hkey : forall l, take 72 (concat (replicate 73 ((bytes_of p ++ l) ++ [0]))) = bytes_of p).
  { intros l. change (replicate 73 ?a) with (a :: replicate 72 a). cbn [concat]. rewrite <- !app_assoc.
    by rewrite take_app_le, take_ge by lia. }
  unfold bcrypt_key. rewrite bytes_of_app, Hkey. specialize (Hkey []). by rewrite app_nil_r in Hkey.
Qed.

Section Login.
Context (parse_address : string -> bool).
Context (bcrypt_generate : list Z -> string -> option string).
Context (bcrypt_compare : string -> string -> bool).
(** [bcrypt]: a hash accepts exactly the passwords with the key it was made from. *)
Hypothesis compare_exact : forall salt p h p', bcrypt_generate salt p = Some h ->
  bcrypt_compare h p' = bool_decide (bcrypt_key p' = bcrypt_key p).

Lemma GetUserByUsername_fine username s : faults s = [] -> pg_text username = true ->
  GetUserByUsername username s =
  (s, match select (fun v => String.eqb (u_Username v) username) (users (db s)) with
      | Some u => Ok u | None => Err ENoRows end).
Proof.
  intros Hf Ht. unfold GetUserByUsername. rewrite statement_fine by done. unfold with_texts, texts_ok.
  cbn [forallb]. rewrite Ht. simpl. by destruct s.
Qed.

(** Sign up, then log in. After a signup has succeeded, in any later state
    that still has the new user's row, a login with that user name returns that
    user exactly when bcrypt cannot tell the password given from the one
    chosen, and fails with "invalid username or password" otherwise, which is
    also what an unknown user name gets. Bcrypt tells any two passwords apart
    that have at most 72 bytes and no zero byte; a longer one, which [Login]
    does not refuse, passes when it only adds to a password of 72 bytes. *)
Theorem signup_then_login username email password salt buf s s1 u plain s2 :
  ok (db s) -> Signup parse_address bcrypt_generate username email password salt buf s = (s1, Ok (u, plain)) ->
  ok (db s2) -> faults s2 = [] -> users (db s2) !! u_ID u = users (db s1) !! u_ID u ->
  (forall attempt, Login bcrypt_compare username attempt s2 =
     (s2, if bool_decide (bcrypt_key attempt = bcrypt_key password) then Ok u else Err ErrBadCredentials)) /\
  (forall attempt, proper attempt = true -> proper password = true ->
     Login bcrypt_compare username attempt s2 = (s2, if String.eqb attempt password then Ok u else Err ErrBadCredentials)) /\
  (forall other p, pg_text other = true -> unused_username (db s2) other ->
     Login bcrypt_compare other p s2 = (s2, Err ErrBadCredentials)).
Proof.
  intros Hok Hs Hok2 Hf Hu2.
  destruct (signup_refused _ _ _ _ _ _ _ _ _ _ Hs) as [(e & ? & _)|(h & key & V1 & V2 & V3 & V4 & V5)]; [done|].
  rewrite (signup_validated _ _ _ _ _ _ _ h key) in Hs by done.
  destruct ((wrapping "begin tx" Begin ≫= _) s) as [s1' r1] eqn:Htx. injection Hs as -> Hr.
  apply signup_tx in Htx as (_ & _ & [[_ [e ->]]|(u' & c & Hu' & Hnu & _ & Hd & [-> | ->])]); [done| |done|done].
  injection Hr as <- _. rewrite Hd in Hu2. simpl in Hu2. rewrite lookup_insert_eq in Hu2.
  assert (Hname : u_Username u' = username) by (by rewrite Hu').
  assert (Hh : u_PasswordHash u' = h) by (by rewrite Hu').
  assert (Ht : pg_text username = true).
  { apply username_text. unfold validateUsername in V1. by destruct (usernameRE username). }
  assert (Hlogin : forall attempt, Login bcrypt_compare username attempt s2 =
     (s2, if bool_decide (bcrypt_key attempt = bcrypt_key password) then Ok u' else Err ErrBadCredentials)).
  { intros attempt. unfold Auth.Login, verifyPassword, no_rows_to. rewrite prog_bind_eq. unfold catch.
    rewrite GetUserByUsername_fine by done. rewrite (select_user (db s2) (u_ID u') u' username) by (done || apply Hok2).
    rewrite Hh, (compare_exact salt password h attempt V4). by destruct (bool_decide _). }
  split; [exact Hlogin|]. split.
  - intros attempt Ha Hp. rewrite Hlogin. destruct (String.eqb_spec attempt password) as [->|Hne].
    + by rewrite bool_decide_eq_true_2.
    + rewrite bool_decide_eq_false_2; [done|]. intros E. by apply Hne, proper_key_inj.
  - intros other p Hto Hun. unfold Auth.Login, verifyPassword, no_rows_to. rewrite prog_bind_eq. unfold catch. rewrite GetUserByUsername_fine by done.
    assert (E : select (fun v => String.eqb (u_Username v) other) (users (db s2)) = None).
    { apply select_None. intros i v Hv. apply String.eqb_neq. by apply (Hun i). }
    by rewrite E.
Qed.
End Login.

(** A bcrypt that shows its key. *)
Definition toy_generate1 (salt : list Z) (p : string) : option string :=
  if (72 <? Z.of_nat (String.length p))%Z then None else Some (EncodeToString (bcrypt_key p)).
Definition toy_compare1 (hash p : string) : bool := String.eqb hash (EncodeToString (bcrypt_key p)).

Lemma bytes_of_is_byte s : Forall is_byte (bytes_of s).
Proof.
  unfold bytes_of. apply Forall_map, Forall_true. intros c. unfold is_byte. pose proof (Ascii.N_ascii_bounded c). lia.
Qed.

Lemma bcrypt_key_bytes p : Forall is_byte (bcrypt_key p).
Proof.
  apply Forall_take, Forall_concat, Forall_replicate, Forall_app. split; [apply bytes_of_is_byte | by repeat constructor].
Qed.

Lemma toy_exact salt p h p' : toy_generate1 salt p = Some h -> toy_compare1 h p' = bool_decide (bcrypt_key p' = bcrypt_key p).
Proof.
  unfold toy_generate1, toy_compare1. destruct (_ <? _)%Z; [done|]. intros [= <-].
  destruct (String.eqb_spec (EncodeToString (bcrypt_key p)) (EncodeToString (bcrypt_key p'))) as [E|E].
  - rewrite bool_decide_eq_true_2; [done|]. symmetry. by apply EncodeToString_inj; [apply bcrypt_key_bytes..|].
  - rewrite bool_decide_eq_false_2; [done|]. intros E'. by rewrite E' in E.
Qed.

Lemma signup_then_login_witness :
  let '(s1, r) := Signup toy_address toy_generate1 "alice" "a@b" "password" toy_salt toy_buf (empty_store []) in
  match r with
  | Ok (u, _) => Login toy_compare1 "alice" "password" s1 = (s1, Ok u) /\
                 Login toy_compare1 "alice" "passw0rd" s1 = (s1, Err ErrBadCredentials)
  | Err _ => False
  end.
Proof.
  destruct (Signup toy_address toy_generate1 "alice" "a@b" "password" toy_salt toy_buf (empty_store [])) as [s1 r] eqn:E.
  pose proof E as E'. vm_compute in E'. destruct r as [[u plain]|]; [|discriminate E'].
  destruct (Signup_done toy_address toy_generate1 "alice" "a@b" "password" toy_salt toy_buf (empty_store []) s1 u plain no_tables_ok E) as [Hok _].
  destruct (signup_then_login toy_address toy_generate1 toy_compare1 toy_exact) with
    (username := "alice"%string) (email := "a@b"%string) (password := "password"%string) (salt := toy_salt)
    (buf := toy_buf) (s := empty_store []) (s1 := s1) (u := u) (plain := plain) (s2 := s1) as (_ & H & _).
  - exact no_tables_ok.
  - exact E.
  - exact Hok.
  - injection E' as <- _ _. reflexivity.
  - reflexivity.
  - split; [apply (H "password"%string); reflexivity | apply (H "passw0rd"%string); reflexivity].
Defined.

(** ** Sessions *)
Definition at_time (t : Z) (d : tables) : store := {| db := d; clock := t; faults := [] |}.

Lemma SessionUser_fine token t d : pg_text token = true ->
  SessionUser token (at_time t d) =
  (at_time t d,
   match (x ← sessions d !! token;
          if t / 1000 <? s_ExpiresAt x then u ← users d !! s_UserID x; Some (x, u) else None) with
   | Some (x, u) => Ok u | None => Err ErrNoSession end).
Proof.
  intros Ht. unfold SessionUser. rewrite prog_bind_eq. unfold no_rows_to, catch, GetSessionWithUser.
  rewrite statement_fine by done. unfold with_texts, texts_ok. cbn [forallb]. rewrite Ht. unfold one, pg_now.
  cbn [andb fst snd db at_time clock set_db]. destruct (x ← sessions d !! token; _) as [[x u]|]; [|done].
  simpl. by destruct u.
Qed.

(** C19: the life of a session. The token a successful [CreateSession] hands
    out identifies its user at every later time strictly before the expiry
    time stored (to the microsecond), and nobody from that time on, nor ever
    again after a logout; and it is another token than any other random bytes
    give. *)
Theorem session_lifecycle ttl uid u buf s s1 token :
  ok (db s) -> faults s = [] -> entropy buf -> users (db s) !! uid = Some u ->
  CreateSession ttl uid (Some buf) s = (s1, Ok token) ->
  (forall t, (SessionUser token (at_time t (db s1))).2
     = if t / 1000 <? (clock s + ttl) / 1000 then Ok u else Err ErrNoSession) /\
  (forall t t', let s2 := (Logout token (at_time t (db s1))).1 in
     (SessionUser token (at_time t' (db s2))).2 = Err ErrNoSession) /\
  (forall buf', entropy buf' -> newSessionToken (Some buf') = Ok token -> buf' = buf).
Proof.
  intros Hok Hf [Hb Hl] Hu H. unfold CreateSession in H. cbn [newSessionToken] in H.
  rewrite bind_lift, prog_bind_eq in H. cbn [gets] in H. rewrite prog_bind_eq in H.
  set (tok := EncodeToString buf) in *. assert (Ht : pg_text tok = true) by (by apply encoded_pg_text).
  unfold wrapping, catch, Store.CreateSession in H. rewrite statement_fine in H by done.
  unfold with_texts, texts_ok in H. cbn [forallb] in H. rewrite Ht in H. simpl in H.
  destruct (sessions (db s) !! tok) eqn:Etok; simpl in H; [done|]. rewrite Hu in H. simpl in H. injection H as <- <-.
  split_and!.
  - intros t. rewrite SessionUser_fine by done. simpl. rewrite lookup_insert_eq. simpl. unfold timestamptz.
    destruct (_ <? _); [|done]. by rewrite Hu.
  - intros t t'. unfold Logout.
    destruct (String.eqb_spec tok "") as [E|_].
    { apply (f_equal String.length) in E. unfold tok in E. rewrite EncodeToString_length, Hl in E by done. done. }
    unfold DeleteSession. rewrite statement_fine by done. unfold with_texts, texts_ok. cbn [forallb]. rewrite Ht.
    cbn [andb fst]. rewrite SessionUser_fine by done. simpl. by rewrite lookup_delete_eq.
  - intros buf' [Hb' _] [= E]. by apply EncodeToString_inj.
Qed.

Definition one_user : tables :=
  (Signup toy_address toy_generate "alice" "a@b" "password" toy_salt toy_buf (empty_store [])).1.(db).

Lemma session_lifecycle_witness :
  let s1 := (CreateSession 60000000000 1 toy_buf (at_time 5000000 one_user)).1 in
  let token := EncodeToString (replicate 32 9) in
  (SessionUser token (at_time 60004000000 (db s1))).2 <> Err ErrNoSession /\
  (SessionUser token (at_time 60005000000 (db s1))).2 = Err ErrNoSession.
Proof.
  intros s1 token.
  assert (Hok : ok one_user).
  { eapply (Signup_done toy_address toy_generate "alice" "a@b" "password" toy_salt toy_buf (empty_store [])
      (Signup toy_address toy_generate "alice" "a@b" "password" toy_salt toy_buf (empty_store [])).1); [exact no_tables_ok|].
    vm_compute. reflexivity. }
  destruct (session_lifecycle 60000000000 1 (user_row no_tables "alice" "a@b" (EncodeToString toy_salt +:+ "password") 5000)
    (replicate 32 9) (at_time 5000000 one_user) s1 token) as (H & _).
  - exact Hok.
  - reflexivity.
  - split; [repeat constructor; discriminate | reflexivity].
  - vm_compute. reflexivity.
  - vm_compute. reflexivity.
  - rewrite !H. split; [vm_compute; discriminate | vm_compute; reflexivity].
Defined.

(** Sweeping expired sessions is unobservable: at any time from the sweep
    on, every token means the same with and without it. *)
Theorem sweep_unobservable d t0 t token :
  t0 <= t ->
  (SessionUser token (at_time t (db (SweepExpiredSessions (at_time t0 d)).1))).2
  = (SessionUser token (at_time t d)).2.
Proof.
  intros Ht. unfold SweepExpiredSessions, DeleteExpiredSessions. rewrite statement_fine by done.
  cbn [fst db set_db at_time]. unfold pg_now. cbn [clock].
  destruct (pg_text token) eqn:Htok.
  2: { unfold SessionUser, no_rows_to, catch, GetSessionWithUser. rewrite !prog_bind_eq, !statement_fine by done.
       unfold with_texts, texts_ok. cbn [forallb]. by rewrite Htok. }
  rewrite !SessionUser_fine by done. cbn [snd sessions users set_sessions].
  assert (Hdiv : t0 / 1000 <= t / 1000) by (apply Z.div_le_mono; lia).
  destruct (sessions d !! token) as [x|] eqn:Ex.
  - destruct (decide (t0 / 1000 < s_ExpiresAt x)) as [Hlt|Hge].
    + by rewrite (map_lookup_filter_Some_2 _ _ _ x).
    + rewrite map_lookup_filter_None_2; [|right; intros y Hy; by simplify_eq].
      simpl. by rewrite (proj2 (Z.ltb_ge _ _)) by lia.
  - by rewrite map_lookup_filter_None_2 by (by left).
Qed.

Lemma sweep_unobservable_witness :
  let d := db (CreateSession 1000 1 toy_buf (at_time 5000000 one_user)).1 in
  let swept := db (SweepExpiredSessions (at_time 5002000 d)).1 in
  size (sessions d) = 1%nat /\ size (sessions swept) = 0%nat /\
  (SessionUser (EncodeToString (replicate 32 9)) (at_time 5002000 swept)).2
  = (SessionUser (EncodeToString (replicate 32 9)) (at_time 5002000 d)).2.
Proof.
  intros d swept. split; [vm_compute; reflexivity|]. split; [vm_compute; reflexivity|].
  apply sweep_unobservable. reflexivity.
Defined.

(** ** Titles *)
Lemma cut_length n t : (n <= String.length t)%nat -> String.length (cut n t) = n.
Proof.
  intros H. rewrite <- length_bytes_of. unfold cut. rewrite bytes_of_string_of.
  - rewrite length_take, length_bytes_of. lia.
  - apply Forall_take, bytes_of_bytes.
Qed.

(** Setting a title. What is stored has at most 200 bytes: the title, or
    its first 200 bytes. It is stored exactly when those bytes are text the
    database accepts; a title whose 200th byte falls inside a character is
    refused although the title itself is valid, and nothing changes. *)
Theorem update_title id c title s (kept := if (200 <? Z.of_nat (String.length title)) then cut 200 title else title) :
  faults s = [] -> channels (db s) !! id = Some c ->
  (String.length kept <= 200)%nat /\
  (pg_text kept = true ->
     exists s', Auth.UpdateChannelTitle id title s = (s', Ok tt) /\
       channels (db s') = <[id := with_title kept c]> (channels (db s)) /\ users (db s') = users (db s)) /\
  (pg_text kept = false -> Auth.UpdateChannelTitle id title s = (s, Err encoding_error)).
Proof.
  intros Hf Hc. split_and!.
  - unfold kept. destruct (Z.ltb_spec 200 (Z.of_nat (String.length title))); [rewrite cut_length; lia | lia].
  - intros Ht. unfold Auth.UpdateChannelTitle. fold kept. unfold Store.UpdateChannelTitle.
    rewrite statement_fine by done. unfold with_texts, texts_ok. cbn [forallb]. rewrite Ht.
    eexists. split; [done|]. split; [|done]. simpl. apply map_eq. intros i.
    destruct (decide (i = id)) as [->|Hne]; [by rewrite lookup_alter_eq, lookup_insert_eq, Hc | by rewrite lookup_alter_ne, lookup_insert_ne].
  - intros Ht. unfold Auth.UpdateChannelTitle. fold kept. unfold Store.UpdateChannelTitle.
    rewrite statement_fine by done. unfold with_texts, texts_ok. cbn [forallb]. rewrite Ht. simpl. by destruct s.
Qed.

(** 199 letters and an e with an acute accent: 200 characters, 201 bytes. *)
Definition long_title : string := string_of (replicate 199 97 ++ [195; 169]).

Lemma update_title_witness :
  pg_text long_title = true /\
  Auth.UpdateChannelTitle 1 long_title (at_time 0 one_user) = (at_time 0 one_user, Err encoding_error).
Proof.
  split; [vm_compute; reflexivity|].
  apply (update_title 1 (channel_row (add_user (user_row no_tables "alice" "a@b" "" 0) no_tables) 1 "alice"
    (HashKey ("live_" +:+ EncodeToString (replicate 32 9))) 5000) long_title (at_time 0 one_user)); vm_compute; reflexivity.
Defined.

(** ** Any use of the service *)
Inductive account_op :=
| OSignup (username email password : string) (salt : list Z) (buf : option (list Z))
| OLogin (username password : string)
| OCreateSession (userID : Z) (buf : option (list Z))
| OLogout (token : string)
| OSessionUser (token : string)
| OChannelForUser (userID : Z)
| OChannelByName (name : string)
| ORegenerateStreamKey (channelID : Z) (buf : option (list Z))
| OUpdateChannelTitle (channelID : Z) (title : string)
| OSweepExpiredSessions.

Section Accounts.
Context (parse_address : string -> bool).
Context (bcrypt_generate : list Z -> string -> option string).
Context (bcrypt_compare : string -> string -> bool).
Context (sessionTTL : Z).

Definition account_step (op : account_op) (s : store) : store :=
  match op with
  | OSignup n e p salt buf => (Signup parse_address bcrypt_generate n e p salt buf s).1
  | OLogin n p => (Login bcrypt_compare n p s).1
  | OCreateSession id buf => (CreateSession sessionTTL id buf s).1
  | OLogout token => (Logout token s).1
  | OSessionUser token => (SessionUser token s).1
  | OChannelForUser id => (ChannelForUser id s).1
  | OChannelByName n => (ChannelByName n s).1
  | ORegenerateStreamKey id buf => (RegenerateStreamKey id buf s).1
  | OUpdateChannelTitle id title => (Auth.UpdateChannelTitle id title s).1
  | OSweepExpiredSessions => (SweepExpiredSessions s).1
  end.

(** Each call at its own time, with its own faults. *)
Definition account_run (calls : list (account_op * Z * list fault)) : tables :=
  foldl (fun d call => db (account_step call.1.1 {| db := d; clock := call.1.2; faults := call.2 |})) no_tables calls.

Definition everyone_has_channel (d : tables) : Prop :=
  forall id u, users d !! id = Some u -> exists i c, channels d !! i = Some c /\ c_UserID c = id.

Definition accounts_ok (d : tables) : Prop := ok d /\ everyone_has_channel d.

(** The accounts are as before: same users, same channels by owner and name, and
    no serial number used. *)
Definition owner_name (c : Channel) : Z * string := (c_UserID c, c_Name c).
Definition same_accounts (d d' : tables) : Prop :=
  users d' = users d /\ (forall i, owner_name <$> channels d' !! i = owner_name <$> channels d !! i) /\
  next_user d' = next_user d /\ next_channel d' = next_channel d.

Lemma same_accounts_refl d : same_accounts d d.
Proof. done. Qed.

Lemma same_accounts_ok d d' : same_accounts d d' -> ok d' -> accounts_ok d -> accounts_ok d'.
Proof.
  intros (Hu & Hc & _) Hok' [_ He]. split; [done|]. intros id u. rewrite Hu. intros H.
  destruct (He id u H) as (i & c & Hi & Ho). specialize (Hc i). rewrite Hi in Hc. apply fmap_Some in Hc as (c' & Hc' & Ho').
  exists i, c'. injection Ho' as Ho' _. split; congruence.
Qed.

Lemma same_channels d d' : users d' = users d -> channels d' = channels d ->
  next_user d' = next_user d -> next_channel d' = next_channel d -> same_accounts d d'.
Proof. intros Hu Hc Hn Hn'. split_and!; [done | by rewrite Hc | done | done]. Qed.

Lemma altered_channel d f id : (forall c, owner_name (f c) = owner_name c) ->
  same_accounts d (set_channels (alter f id (channels d)) (next_channel d) d).
Proof.
  intros Hf. split_and!; [done | | done..]. intros i. simpl. rewrite lookup_alter. case_decide as E; [|done].
  subst. destruct (channels d !! _); [|done]. simpl. by rewrite Hf.
Qed.

(** A statement that keeps the accounts, when it succeeds. *)
Lemma statement_accounts {A} (body : tables -> tables * res err A) s s' r :
  statement body s = (s', r) -> same_accounts (db s) (body (db s)).1 -> same_accounts (db s) (db s').
Proof.
  intros H Hb. apply (statement_keeps (same_accounts (db s)) _ _ _ _ H); [done | apply same_accounts_refl].
Qed.

Lemma with_texts_accounts {A} args (body : tables -> tables * res err A) d :
  same_accounts d (body d).1 -> same_accounts d (with_texts args body d).1.
Proof. intros. unfold with_texts. destruct (texts_ok args); [done | apply same_accounts_refl]. Qed.

Lemma signup_accounts n e p salt buf s : accounts_ok (db s) ->
  accounts_ok (db (Signup parse_address bcrypt_generate n e p salt buf s).1).
Proof.
  intros [Hok He]. destruct (Signup _ _ _ _ _ _ _ s) as [s' r] eqn:H. cbn [fst].
  destruct (signup_refused _ _ _ _ _ _ _ _ _ _ H) as [(x & _ & ->)|(h & key & V1 & V2 & V3 & V4 & V5)]; [done|].
  rewrite (signup_validated _ _ _ _ _ _ _ h key) in H by done.
  destruct ((wrapping "begin tx" Begin ≫= _) s) as [s1 r1] eqn:Htx. injection H as -> _.
  apply signup_tx in Htx as (Hok' & _ & Hout); [|done]. split; [done|].
  destruct Hout as [[(Hu & Hc & _) _]|(u & c & Hu & (Hid & _) & Hc & Hd & _)].
  - intros id v. rewrite Hu, Hc. apply He.
  - rewrite Hd. intros id v. simpl. rewrite lookup_insert_Some. intros [[<- <-]|[Hne Hv]].
    + exists (c_ID c), c. rewrite lookup_insert_eq. split; [done | by rewrite Hc].
    + destruct (He id v Hv) as (i & x & Hx & Ho). exists i, x. split; [|done].
      rewrite lookup_insert_ne; [done|]. intros <-.
      destruct Hok as [Hdb _]. apply (k_channels _ Hdb) in Hx. rewrite Hc in Hx. simpl in Hx. lia.
Qed.

Lemma catch_db {A} (m : query A) (h : err -> query A) s : (forall e s1 s2 r, h e s1 = (s2, r) -> db s2 = db s1) ->
  db (catch m h s).1 = db (m s).1.
Proof.
  intros Hh. unfold catch. destruct (m s) as [s1 [a|e]]; [done|]. destruct (h e s1) as [s2 r] eqn:E.
  by apply Hh in E.
Qed.

Lemma wrapping_db {A} prefix (m : query A) s : db (wrapping prefix m s).1 = db (m s).1.
Proof. apply catch_db. by intros e s1 s2 r [= <- _]. Qed.

Lemma no_rows_to_db {A} missing prefix (m : query A) s : db (no_rows_to missing prefix m s).1 = db (m s).1.
Proof. apply catch_db. by intros e s1 s2 r [= <- _]. Qed.

Lemma bind_db {A B} (m : query A) (f : A -> query B) s :
  (forall a s1, db (f a s1).1 = db s1) -> db ((m ≫= f) s).1 = db (m s).1.
Proof. intros Hf. rewrite prog_bind_eq. destruct (m s) as [s1 [a|e]]; [apply Hf | done]. Qed.

Definition accounts_kept (d d' : tables) : Prop := same_accounts d d' /\ ok d'.

(** Only a signup changes the users or who owns a channel. *)
Lemma account_step_same op s : (forall n e p salt buf, op <> OSignup n e p salt buf) -> ok (db s) ->
  accounts_kept (db s) (db (account_step op s)).
Proof.
  assert (Hquiet : forall d, d = db s -> ok (db s) -> accounts_kept (db s) d)
    by (intros d -> H; split; [apply same_accounts_refl | done]).
  intros Hop Hok. destruct op as [n e p salt buf|n p|id buf|token|token|id|n|id buf|id title|]; simpl.
  - by destruct (Hop n e p salt buf).
  - unfold Auth.Login. rewrite bind_db by (intros a s1; by destruct (verifyPassword _ _ _)).
    rewrite no_rows_to_db. destruct (GetUserByUsername n s) as [s' r] eqn:H.
    pose proof (statement_reads _ _ _ _ H) as E. simpl. apply Hquiet; [|done]. apply E. unfold with_texts. by destruct (texts_ok _).
  - unfold Auth.CreateSession. rewrite prog_bind_eq. unfold lift_res at 1. destruct (newSessionToken buf) as [token|]; [|by apply Hquiet].
    rewrite prog_bind_eq. cbn [gets]. rewrite bind_db by done. rewrite wrapping_db.
    destruct (Store.CreateSession _ _ _ s) as [s' r] eqn:H. simpl.
    split; [|by eapply CreateSession_ok].
    apply (statement_accounts _ _ _ _ H), with_texts_accounts.
    destruct (sessions (db s) !! token); [apply same_accounts_refl|]. simpl.
    destruct (users (db s) !! id); apply same_channels; done.
  - unfold Logout. destruct (String.eqb token ""); [by apply Hquiet|]. destruct (DeleteSession token s) as [s' r] eqn:H. simpl.
    split; [|by eapply DeleteSession_ok].
    apply (statement_accounts _ _ _ _ H), with_texts_accounts. by apply same_channels.
  - unfold SessionUser. rewrite bind_db by done. rewrite no_rows_to_db.
    destruct (GetSessionWithUser token s) as [s' r] eqn:H.
    pose proof (statement_reads _ _ _ _ H) as E. simpl. apply Hquiet; [|done]. apply E. unfold with_texts. by destruct (texts_ok _).
  - unfold ChannelForUser. rewrite no_rows_to_db. destruct (GetChannelByUserID id s) as [s' r] eqn:H.
    pose proof (statement_reads _ _ _ _ H eq_refl) as E. simpl. by apply Hquiet.
  - unfold ChannelByName. rewrite no_rows_to_db. destruct (GetChannelByName n s) as [s' r] eqn:H.
    pose proof (statement_reads _ _ _ _ H) as E. simpl. apply Hquiet; [|done]. apply E. unfold with_texts. by destruct (texts_ok _).
  - unfold RegenerateStreamKey. rewrite prog_bind_eq. unfold lift_res at 1. destruct (wrap _ (GenerateKey buf)) as [key|]; [|by apply Hquiet].
    rewrite bind_db by done. rewrite wrapping_db. destruct (UpdateChannelStreamKey id key.2 s) as [s' r] eqn:H. simpl.
    split; [|by eapply UpdateChannelStreamKey_ok].
    apply (statement_accounts _ _ _ _ H), with_texts_accounts. by apply altered_channel.
  - unfold Auth.UpdateChannelTitle. destruct (Store.UpdateChannelTitle _ _ s) as [s' r] eqn:H. simpl.
    split; [|by eapply UpdateChannelTitle_ok].
    apply (statement_accounts _ _ _ _ H), with_texts_accounts. by apply altered_channel.
  - unfold SweepExpiredSessions. destruct (DeleteExpiredSessions s) as [s' r] eqn:H. simpl.
    split; [|by eapply DeleteExpiredSessions_ok].
    apply (statement_accounts _ _ _ _ H). by apply same_channels.
Qed.

Lemma account_op_cases op : (exists n e p salt buf, op = OSignup n e p salt buf) \/ forall n e p salt buf, op <> OSignup n e p salt buf.
Proof. destruct op; try (right; congruence). left. eauto 10. Qed.

Lemma account_step_ok op s : accounts_ok (db s) -> accounts_ok (db (account_step op s)).
Proof.
  intros Hok. destruct (account_op_cases op) as [(n & e & p & salt & buf & ->)|Hop]; [by apply signup_accounts|].
  destruct (account_step_same op s Hop (proj1 Hok)) as [Hs Hok']. by apply (same_accounts_ok (db s)).
Qed.

Lemma account_run_ok calls : accounts_ok (account_run calls).
Proof.
  unfold account_run. assert (H0 : accounts_ok no_tables).
  { split; [apply no_tables_ok|]. intros j v Hv. simpl in Hv. by rewrite lookup_empty in Hv. }
  generalize dependent no_tables. induction calls as [|[[op t1] fs] calls IH]; intros d Hd; [done|]. simpl.
  apply IH. exact (account_step_ok op {| db := d; clock := t1; faults := fs |} Hd).
Qed.

(** The names of accounts are well formed. *)
Definition names_ok (d : tables) : Prop := forall i u, users d !! i = Some u -> usernameRE (u_Username u) = true.

Lemma signup_names n e p salt buf s : ok (db s) -> names_ok (db s) ->
  let d := db (Signup parse_address bcrypt_generate n e p salt buf s).1 in ok d /\ names_ok d.
Proof.
  intros Hok Hn d. subst d. destruct (Signup _ _ _ _ _ _ _ s) as [s' r] eqn:H. cbn [fst].
  destruct (signup_refused _ _ _ _ _ _ _ _ _ _ H) as [(x & _ & ->)|(h & key & V1 & V2 & V3 & V4 & V5)]; [done|].
  rewrite (signup_validated _ _ _ _ _ _ _ h key) in H by done.
  destruct ((wrapping "begin tx" Begin ≫= _) s) as [s1 r1] eqn:Htx. injection H as -> _.
  apply signup_tx in Htx as (Hok' & _ & Hout); [|done]. split; [done|].
  destruct Hout as [[(Hu & _) _]|(u & c & Hu & _ & _ & Hd & _)]; intros i v.
  - rewrite Hu. apply Hn.
  - rewrite Hd. simpl. rewrite lookup_insert_Some. intros [[_ <-]|[_ Hv]]; [|by eapply Hn].
    rewrite Hu. simpl. unfold validateUsername in V1. by destruct (usernameRE n).
Qed.

Lemma account_run_names calls : names_ok (account_run calls).
Proof.
  unfold account_run. assert (H0 : names_ok no_tables) by (intros j v Hv; simpl in Hv; by rewrite lookup_empty in Hv).
  assert (H1 : ok no_tables) by apply no_tables_ok. generalize dependent no_tables.
  induction calls as [|[[op t1] fs] calls IH]; intros d Hn Hd; [done|]. simpl. set (s := {| db := d; clock := t1; faults := fs |}).
  destruct (account_op_cases op) as [(n & e & p & salt & buf & ->)|Hop].
  - destruct (signup_names n e p salt buf s Hd Hn) as [Hok' Hn']. by apply IH.
  - destruct (account_step_same op s Hop Hd) as [[Hu _] Hok']. apply IH; [|done]. intros i u. rewrite Hu. apply Hn.
Qed.

(** Whatever the service is asked, in whatever order, at whatever times,
    and whatever connection failures happen: user names and e-mail addresses
    stay unique, sessions belong to existing users, and every account has
    exactly one channel, called like the account, which the dashboard's lookup
    ([ChannelForUser]) and the watch page's ([ChannelByName]) both find. *)
Theorem every_account_has_its_channel calls id u t :
  let d := account_run calls in
  users d !! id = Some u ->
  (forall j v, users d !! j = Some v -> u_Username v = u_Username u \/ u_Email v = u_Email u -> j = id) /\
  exists c, (ChannelForUser id (at_time t d)).2 = Ok c /\ c_UserID c = id /\ c_Name c = u_Username u /\
    (pg_text (u_Username u) = true -> (ChannelByName (u_Username u) (at_time t d)).2 = Ok c) /\
    forall i e, channels d !! i = Some e -> c_UserID e = id -> e = c.
Proof.
  intros d Hu. assert (Hok : accounts_ok d) by apply account_run_ok.
  destruct Hok as [[Hdb Hn] He]. split.
  - intros j v Hv [E|E]; [by eapply (k_username d Hdb) | by eapply (k_email d Hdb)].
  - destruct (He id u Hu) as (i & c & Hc & Ho).
    assert (Hname : c_Name c = u_Username u) by (apply (Hn i); [done | by rewrite Ho]).
    exists c. split_and!; [|done|done| |].
    + unfold ChannelForUser, no_rows_to, catch, GetChannelByUserID. rewrite statement_fine by done.
      unfold one. cbn [fst snd at_time db]. by rewrite (select_owner d i c id).
    + intros Ht. unfold ChannelByName, no_rows_to, catch, GetChannelByName. rewrite statement_fine by done.
      unfold with_texts, texts_ok. cbn [forallb]. rewrite Ht. cbn [andb].
      unfold one. cbn [fst snd at_time db]. by rewrite (select_channel d i c (u_Username u)).
    + intros j e Hj Hoj. assert (j = i) as -> by (eapply (k_owner d Hdb); [done..|congruence]). congruence.
Qed.
End Accounts.

Definition toy_calls : list (account_op * Z * list fault) :=
  [(OSignup "alice" "a@b" "password" toy_salt toy_buf, 1000, []);
   (OSignup "alice" "x@y" "password" toy_salt toy_buf, 2000, []);
   (OSignup "carol" "c@d" "password" toy_salt toy_buf, 3000, [Fine; Fine; ReplyLost]);
   (OCreateSession 1 toy_buf, 4000, []); (OUpdateChannelTitle 1 "hello", 5000, [])].

Lemma every_account_has_its_channel_witness :
  let d := account_run toy_address toy_generate toy_compare 1000 toy_calls in
  size (users d) = 1%nat /\ next_user d = 4 /\
  exists c, (ChannelForUser 1 (at_time 0 d)).2 = Ok c /\ c_Name c = "alice"%string.
Proof.
  intros d. split; [vm_compute; reflexivity|]. split; [vm_compute; reflexivity|].
  destruct (every_account_has_its_channel toy_address toy_generate toy_compare 1000 toy_calls 1
    (user_row no_tables "alice" "a@b" (EncodeToString toy_salt +:+ "password") 1) 0) as (_ & c & H1 & _ & H2 & _).
  - vm_compute. reflexivity.
  - exists c. split; [exact H1 | exact H2].
Defined.
