(* ===== verification/Stream.v ===== *)
(** * The stream pipeline: [src/internal/stream], registry, session, ingest,
    service

    A [session] is a live pipeline, a [proc] an ffmpeg process, a [handler] one
    RTMP connection.  [OnPublish] is cut at its accesses to shared state (the
    database, the file system, the processes, the registry), and so is
    [tearDown]; the steps of all handlers, watchdogs and tear downs interleave.
    [dirs] are the output directories that exist under the state directory.  The
    bytes a publisher sends run beside this machine, in [Pipe] and [Media]. *)

From S2P Require Import Prelude Utf8 Encoding Errors StreamKey Store Auth.
Local Open Scope Z_scope.

Definition ErrUnknownStreamKey : err := ESentinel "unknown stream key".
Definition ErrAlreadyLive : err := ESentinel "channel already live".
Definition ErrEmptyStreamKey : err := EIO "publish: empty stream key".

Record proc := {
  p_channel : string;
  p_stdin : bool;          (* the pipe to its input has not been closed *)
  p_killed : bool;
  p_exited : option bool   (* [done] is closed; whether [waitErr != nil] *)
}.

(** How far the body of [once.Do] has come; [TIdle]: not called yet. *)
Inductive tear :=
| TIdle
| TWaiting (reason : string)   (* the pipe is closed, waiting for ffmpeg *)
| TRemoved (reason : string)   (* out of the registry *)
| TEnded (reason : string)     (* the row is closed *)
| TDone (reason : string).     (* the directory is removed, [doneCh] is closed *)

Record session := {
  channelID : Z;
  channelName : string;
  title : string;
  startedAt : Z;
  ffmpeg : nat;
  dbRowID : Z;
  torn : tear
}.

Record LiveChannel := { ChannelName : string; Title : string; StartedAt : Z }.

Definition toDTO (s : session) : LiveChannel :=
  {| ChannelName := channelName s; Title := title s; StartedAt := startedAt s |}.

(** The locals of [OnPublish] once the row is there. *)
Record publication := { pb_channel : Channel; pb_startedAt : Z; pb_row : StreamSession }.

Inductive pstate :=
| PStart
| PFound (ch : Channel)
| PRow (pb : publication)
| PDir (pb : publication)
| PProc (pb : publication) (p : nat)
| PEnc (pb : publication) (p : nat)
| PLost (pb : publication)
| PLive (sid : nat)
| PFailed (e : err).

Record handler := { h_key : string; h_state : pstate }.

(** A fresh handler per connection, for the publish with this key to come. *)
Definition onRTMPConnect (key : string) : handler := {| h_key := key; h_state := PStart |}.

Record live := {
  st : store;
  byName : gmap string nat;      (* the registry *)
  sessions : list session;
  procs : list proc;
  dirs : gset string;
  handlers : list handler
}.

Definition set_st (x : store) (w : live) : live :=
  {| st := x; byName := byName w; sessions := sessions w; procs := procs w; dirs := dirs w; handlers := handlers w |}.
Definition set_byName (x : gmap string nat) (w : live) : live :=
  {| st := st w; byName := x; sessions := sessions w; procs := procs w; dirs := dirs w; handlers := handlers w |}.
Definition set_sessions (x : list session) (w : live) : live :=
  {| st := st w; byName := byName w; sessions := x; procs := procs w; dirs := dirs w; handlers := handlers w |}.
Definition set_procs (x : list proc) (w : live) : live :=
  {| st := st w; byName := byName w; sessions := sessions w; procs := x; dirs := dirs w; handlers := handlers w |}.
Definition set_dirs (x : gset string) (w : live) : live :=
  {| st := st w; byName := byName w; sessions := sessions w; procs := procs w; dirs := x; handlers := handlers w |}.
Definition set_handlers (x : list handler) (w : live) : live :=
  {| st := st w; byName := byName w; sessions := sessions w; procs := procs w; dirs := dirs w; handlers := x |}.

(** ** The registry *)
Definition add (name : string) (sid : nat) (w : live) : live * bool :=
  match byName w !! name with
  | Some _ => (w, false)
  | None => (set_byName (<[name := sid]> (byName w)) w, true)
  end.
Definition remove (name : string) (w : live) : live := set_byName (delete name (byName w)) w.
Definition get (name : string) (w : live) : option session :=
  sid ← byName w !! name; sessions w !! sid.
Definition snapshot (w : live) : list nat := map snd (map_to_list (byName w)).

Definition ListLive (w : live) : list LiveChannel :=
  omap (fun sid => toDTO <$> sessions w !! sid) (snapshot w).
Definition GetByName (name : string) (w : live) : option LiveChannel := toDTO <$> get name w.

Definition lookupChannelByStreamKey (plainKey : string) : query Channel :=
  no_rows_to ErrUnknownStreamKey "lookup channel" (GetChannelByStreamKeyHash (HashKey plainKey)).

(** ** Processes *)
Definition new_proc (name : string) : proc :=
  {| p_channel := name; p_stdin := true; p_killed := false; p_exited := None |}.
Definition close_stdin (p : proc) : proc :=
  {| p_channel := p_channel p; p_stdin := false; p_killed := p_killed p; p_exited := p_exited p |}.
Definition kill (p : proc) : proc :=
  {| p_channel := p_channel p; p_stdin := p_stdin p; p_killed := true; p_exited := p_exited p |}.
Definition exit_proc (failed : bool) (p : proc) : proc :=
  match p_exited p with
  | Some _ => p
  | None => {| p_channel := p_channel p; p_stdin := p_stdin p; p_killed := p_killed p; p_exited := Some failed |}
  end.

(** ** [OnPublish]

    [ok] is what the environment answers at this step (the directory is made,
    ffmpeg starts, the FLV header is written). *)
Definition set_handler (h : nat) (p : pstate) (w : live) : live :=
  set_handlers (alter (fun x => {| h_key := h_key x; h_state := p |}) h (handlers w)) w.

Definition publish_step (h : nat) (ok : bool) (w : live) : live :=
  match handlers w !! h with
  | None => w
  | Some hd =>
      match h_state hd with
      | PStart =>
          if String.eqb (h_key hd) "" then set_handler h (PFailed ErrEmptyStreamKey) w else
          let '(s, r) := lookupChannelByStreamKey (h_key hd) (st w) in
          set_handler h (match r with Ok ch => PFound ch | Err e => PFailed e end) (set_st s w)
      | PFound ch =>
          let now := clock (st w) in
          let '(s, r) := wrapping "create stream_session row" (CreateStreamSession (c_ID ch) (timestamptz now)) (st w) in
          set_handler h (match r with
                         | Ok row => PRow {| pb_channel := ch; pb_startedAt := now; pb_row := row |}
                         | Err e => PFailed e
                         end) (set_st s w)
      | PRow pb =>
          if ok then set_handler h (PDir pb) (set_dirs ({[c_Name (pb_channel pb)]} ∪ dirs w) w)
          else set_handler h (PFailed (EWrap "mkdir hls out" (EIO "mkdir"))) w
      | PDir pb =>
          if ok then set_handler h (PProc pb (length (procs w)))
                       (set_procs (procs w ++ [new_proc (c_Name (pb_channel pb))]) w)
          else set_handler h (PFailed (EWrap "start ffmpeg" (EIO "ffmpeg"))) w
      | PProc pb p =>
          if ok then set_handler h (PEnc pb p) w
          else set_handler h (PFailed (EWrap "flv encoder" (EIO "flv")))
                 (set_procs (alter (fun x => kill (close_stdin x)) p (procs w)) w)
      | PEnc pb p =>
          let sess := {| channelID := c_ID (pb_channel pb); channelName := c_Name (pb_channel pb);
                         title := c_Title (pb_channel pb); startedAt := pb_startedAt pb;
                         ffmpeg := p; dbRowID := ss_ID (pb_row pb); torn := TIdle |} in
          let sid := length (sessions w) in
          match add (channelName sess) sid w with
          | (w, true) => set_handler h (PLive sid) (set_sessions (sessions w ++ [sess]) w)
          | (w, false) => set_handler h (PLost pb)
                            (set_procs (alter (fun x => kill (close_stdin x)) p (procs w)) w)
          end
      | PLost pb =>
          let '(s, _) := EndStreamSession (ss_ID (pb_row pb)) (timestamptz (clock (st w))) "orphan_swept" (st w) in
          set_handler h (PFailed ErrAlreadyLive) (set_st s w)
      | PLive _ | PFailed _ => w
      end
  end.

(** ** [tearDown] *)
Definition with_torn (t : tear) (s : session) : session :=
  {| channelID := channelID s; channelName := channelName s; title := title s; startedAt := startedAt s;
     ffmpeg := ffmpeg s; dbRowID := dbRowID s; torn := t |}.
Definition set_torn (sid : nat) (t : tear) (w : live) : live :=
  set_sessions (alter (with_torn t) sid (sessions w)) w.

(** The call: only the first one does anything. *)
Definition tearDown (sid : nat) (reason : string) (w : live) : live :=
  match sessions w !! sid with
  | Some s =>
      match torn s with
      | TIdle => set_torn sid (TWaiting reason) (set_procs (alter close_stdin (ffmpeg s) (procs w)) w)
      | _ => w
      end
  | None => w
  end.

(** The grace period expires before ffmpeg has exited. *)
Definition grace_expired (sid : nat) (w : live) : live :=
  match sessions w !! sid with
  | Some s => match torn s with
              | TWaiting _ => set_procs (alter kill (ffmpeg s) (procs w)) w
              | _ => w
              end
  | None => w
  end.

Definition exited (p : nat) (w : live) : option bool := x ← procs w !! p; p_exited x.

Section StateDir.
Context (stateDir : string).

(** The next step of the body. *)
Definition tear_step (sid : nat) (w : live) : live :=
  match sessions w !! sid with
  | None => w
  | Some s =>
      match torn s with
      | TIdle | TDone _ => w
      | TWaiting reason =>
          match exited (ffmpeg s) w with
          | Some _ => set_torn sid (TRemoved reason) (remove (channelName s) w)
          | None => w
          end
      | TRemoved reason =>
          if dbRowID s =? 0 then set_torn sid (TEnded reason) w else
          let '(x, _) := EndStreamSession (dbRowID s) (timestamptz (clock (st w))) reason (st w) in
          set_torn sid (TEnded reason) (set_st x w)
      | TEnded reason =>
          set_torn sid (TDone reason)
            (if String.eqb stateDir "" then w else set_dirs (dirs w ∖ {[channelName s]}) w)
      end
  end.

(** The watchdog, once ffmpeg has exited on its own. *)
Definition watchdog (sid : nat) (w : live) : live :=
  match sessions w !! sid with
  | Some s => match exited (ffmpeg s) w with
              | Some failed => tearDown sid (if (failed : bool) then "crashed" else "normal") w
              | None => w
              end
  | None => w
  end.

Definition OnClose (h : nat) (w : live) : live :=
  match handlers w !! h with
  | Some hd => match h_state hd with PLive sid => tearDown sid "normal" w | _ => w end
  | None => w
  end.

(** A whole [tearDown], when nothing else runs: ffmpeg exits, [failed] or not,
    within the grace period or killed after it. *)
Definition tearDown_all (failed : bool) (reason : string) (w : live) (sid : nat) : live :=
  let w := tearDown sid reason w in
  let w := match sessions w !! sid with
           | Some s => set_procs (alter (exit_proc failed) (ffmpeg s) (procs w)) w
           | None => w
           end in
  tear_step sid (tear_step sid (tear_step sid w)).

Definition ShutdownLive (failed : bool) (w : live) : live :=
  foldl (tearDown_all failed "orphan_swept") w (snapshot w).

(** The file operations of [RecoverOnBoot] that fail for an entry are only
    logged; [readdir] and [mkdir] say whether [os.ReadDir] and [os.MkdirAll]
    succeed, [stuck] which entries cannot be removed. *)
Definition RecoverOnBoot (readdir mkdir : bool) (stuck : gset string) (w : live) : live * res err unit :=
  let '(s, r) := wrapping "mark orphan sessions" MarkOpenStreamSessionsOrphaned (st w) in
  let w := set_st s w in
  match r with
  | Err e => (w, Err e)
  | Ok _ =>
      if String.eqb stateDir "" then (w, Ok tt)
      else if negb readdir then (w, Err (EWrap "read state dir" (EIO "readdir")))
      else let w := set_dirs (dirs w ∩ stuck) w in
           if mkdir then (w, Ok tt) else (w, Err (EWrap "mkdir state" (EIO "mkdir")))
  end.

(** What the rest of the world does to the database. *)
Definition environment (t : Z) (fs : list fault) (cs : gmap Z Channel) (s : store) : store :=
  {| db := set_channels cs (next_channel (db s)) (db s); clock := t; faults := fs |}.

Inductive lact :=
| LConnect (key : string)
| LPublish (h : nat) (ok : bool)
| LClose (h : nat)
| LExit (p : nat) (failed : bool)
| LWatchdog (sid : nat)
| LShutdown (sid : nat)           (* [ShutdownLive] calls [tearDown] *)
| LGrace (sid : nat)
| LTear (sid : nat)
| LEnv (t : Z) (fs : list fault) (cs : gmap Z Channel).  (* time passes, channels change, faults to come *)

Definition lstep (w : live) (a : lact) : live :=
  match a with
  | LConnect key => set_handlers (handlers w ++ [onRTMPConnect key]) w
  | LPublish h ok => publish_step h ok w
  | LClose h => OnClose h w
  | LExit p failed => set_procs (alter (exit_proc failed) p (procs w)) w
  | LWatchdog sid => watchdog sid w
  | LShutdown sid => tearDown sid "orphan_swept" w
  | LGrace sid => grace_expired sid w
  | LTear sid => tear_step sid w
  | LEnv t fs cs => set_st (environment t fs cs (st w)) w
  end.

Definition lrun (w : live) (acts : list lact) : live := foldl lstep w acts.
End StateDir.

Definition new_live (s : store) (ds : gset string) : live :=
  {| st := s; byName := ∅; sessions := []; procs := []; dirs := ds; handlers := [] |}.

(** ** Media messages: forwarded to the encoder once the handler is live *)
Inductive tagType := TagTypeScriptData | TagTypeAudio | TagTypeVideo.
Record FlvTag (D : Type) := { TagType : tagType; Timestamp : Z; Data : D }.
Arguments Build_FlvTag {D} TagType Timestamp Data.

Definition has_encoder (hd : handler) : bool := match h_state hd with PLive _ => true | _ => false end.

(** The tag handed to [flvEnc.Encode], if any; [decoded] is what [flvtag]
    makes of the payload. *)
Definition OnSetDataFrame {D} (hd : handler) (timestamp : Z) (decoded : res err D) : res err (option (FlvTag D)) :=
  if negb (has_encoder hd) then Ok None else
  match decoded with
  | Err _ => Ok None
  | Ok d => Ok (Some (Build_FlvTag TagTypeScriptData timestamp d))
  end.
Definition OnAudio {D} (hd : handler) (timestamp : Z) (decoded : res err D) : res err (option (FlvTag D)) :=
  if negb (has_encoder hd) then Ok None else
  match decoded with
  | Err e => Err e
  | Ok d => Ok (Some (Build_FlvTag TagTypeAudio timestamp d))
  end.
Definition OnVideo {D} (hd : handler) (timestamp : Z) (decoded : res err D) : res err (option (FlvTag D)) :=
  if negb (has_encoder hd) then Ok None else
  match decoded with
  | Err e => Err e
  | Ok d => Ok (Some (Build_FlvTag TagTypeVideo timestamp d))
  end.
