(* ===== verification/StreamThms.v ===== *)
(** * What the stream service guarantees *)

From S2P Require Import Prelude Utf8 Encoding Errors StreamKey Store StoreInv Auth Stream.
Local Open Scope Z_scope.

(** ** The registry *)
Definition in_registry (t : tear) : bool := match t with TIdle | TWaiting _ => true | _ => false end.
Definition row_closed (t : tear) : bool := match t with TEnded _ | TDone _ => true | _ => false end.

Definition registered (w : live) (name : string) (sid : nat) : Prop :=
  exists s, sessions w !! sid = Some s /\ channelName s = name /\ in_registry (torn s) = true.

Definition registry_ok (w : live) : Prop :=
  forall name sid, byName w !! name = Some sid <-> registered w name sid.

(** Changes that keep every session's name and whether it is registered. *)
Lemma registry_same w w' : byName w' = byName w -> sessions w' = sessions w -> registry_ok w -> registry_ok w'.
Proof. intros Hb Hs H. unfold registry_ok, registered. by rewrite Hb, Hs. Qed.

Lemma set_torn_lookup sid t w i s' : sessions (set_torn sid t w) !! i = Some s' <->
  exists s, sessions w !! i = Some s /\ s' = if decide (i = sid) then with_torn t s else s.
Proof.
  simpl. destruct (decide (i = sid)) as [->|Hne].
  - rewrite list_lookup_alter_eq. split; [intros (s & Hs & ->)%fmap_Some; eauto | intros (s & -> & ->); done].
  - rewrite list_lookup_alter_ne by done. split; [eauto | by intros (s & Hs & ->)].
Qed.

Lemma set_torn_registry sid t w s : registry_ok w -> sessions w !! sid = Some s ->
  in_registry t = in_registry (torn s) -> registry_ok (set_torn sid t w).
Proof.
  intros H Hs Ht name i. change (byName (set_torn sid t w)) with (byName w). rewrite (H name i). unfold registered.
  setoid_rewrite set_torn_lookup. split.
  - intros (x & Hx & Hn & Hr). eexists. split; [by exists x|]. case_decide; [subst; simplify_eq; simpl; by rewrite Ht | done].
  - intros (x & (y & Hy & ->) & Hn & Hr). exists y. case_decide; [subst; simplify_eq; simpl in *; by rewrite <- Ht | done].
Qed.

Lemma remove_registry sid t w s : registry_ok w -> sessions w !! sid = Some s ->
  in_registry (torn s) = true -> in_registry t = false ->
  registry_ok (set_torn sid t (remove (channelName s) w)).
Proof.
  intros H Hs Hin Ht name i. simpl. rewrite lookup_delete_Some, (H name i). unfold registered.
  setoid_rewrite set_torn_lookup. simpl. assert (Hown : byName w !! channelName s = Some sid) by (apply H; by exists s).
  split.
  - intros (Hne & x & Hx & Hn & Hr). exists x. split; [|done]. exists x. split; [done|].
    rewrite decide_False; [done|]. intros ->. simplify_eq.
  - intros (x & (y & Hy & ->) & Hn & Hr). destruct (decide (i = sid)) as [->|Hne]; [simpl in Hr; congruence|].
    split; [|by exists y]. intros Heq.
    assert (Hi : byName w !! channelName s = Some i) by (apply H; exists y; split; [done | by rewrite Heq]). congruence.
Qed.

Lemma tearDown_registry sid reason w : registry_ok w -> registry_ok (tearDown sid reason w).
Proof.
  intros H. unfold tearDown. destruct (sessions w !! sid) as [s|] eqn:Hs; [|done]. destruct (torn s) eqn:Ht; try done.
  apply set_torn_registry with s; [by apply (registry_same w) | done | by rewrite Ht].
Qed.

Lemma add_registry w s : registry_ok w -> torn s = TIdle -> byName w !! channelName s = None ->
  registry_ok (set_sessions (sessions w ++ [s]) (set_byName (<[channelName s := length (sessions w)]> (byName w)) w)).
Proof.
  intros H Ht Hnone name i. unfold registered. simpl. rewrite lookup_insert_Some, (H name i). unfold registered.
  split.
  - intros [[<- <-]|[Hne (x & Hx & Hn & Hr)]].
    + exists s. rewrite lookup_app_r, Nat.sub_diag by done. by rewrite Ht.
    + exists x. split; [by apply lookup_app_l_Some | done].
  - intros (x & Hx & Hn & Hr). apply lookup_app_Some in Hx as [Hx|[Hle Hx]].
    + right. split; [|by exists x]. intros E. assert (Hi : byName w !! name = Some i) by (apply H; by exists x). congruence.
    + left. destruct (i - length (sessions w))%nat as [|j] eqn:E; [|done]. simpl in Hx. simplify_eq. split; [done | lia].
Qed.

Section Runs.
Context (stateDir : string).
Abbreviation lstep := (lstep stateDir).

Lemma set_handler_registry h p w : registry_ok w -> registry_ok (set_handler h p w).
Proof. by apply registry_same. Qed.

Lemma publish_step_registry h b w : registry_ok w -> registry_ok (publish_step h b w).
Proof.
  intros H. unfold publish_step. destruct (handlers w !! h) as [hd|]; [|done].
  destruct (h_state hd) as [|ch|pb|pb|pb p|pb p|pb| |]; try done.
  - destruct (String.eqb _ _); [by apply set_handler_registry|].
    destruct (lookupChannelByStreamKey _ _) as [s r]. by apply set_handler_registry, (registry_same w).
  - destruct (wrapping _ _ _) as [s r]. by apply set_handler_registry, (registry_same w).
  - destruct b; apply set_handler_registry; [by apply (registry_same w) | done].
  - destruct b; apply set_handler_registry; [by apply (registry_same w) | done].
  - destruct b; apply set_handler_registry; [done | by apply (registry_same w)].
  - unfold add. cbn [channelName]. destruct (byName w !! _) eqn:E; apply set_handler_registry; [by apply (registry_same w)|].
    by apply (add_registry w {| channelID := _; channelName := _; title := _; startedAt := _; ffmpeg := p; dbRowID := _; torn := TIdle |}).
  - destruct (EndStreamSession _ _ _ _) as [s r]. by apply set_handler_registry, (registry_same w).
Qed.

Lemma tear_step_registry sid w : registry_ok w -> registry_ok (tear_step stateDir sid w).
Proof.
  intros H. unfold tear_step. destruct (sessions w !! sid) as [s|] eqn:Hs; [|done].
  destruct (torn s) as [|reason|reason|reason|reason] eqn:Ht; try done.
  - destruct (exited _ _); [|done]. apply remove_registry; [done | done | by rewrite Ht | done].
  - destruct (dbRowID s =? 0).
    + apply set_torn_registry with s; [done..|by rewrite Ht].
    + destruct (EndStreamSession _ _ _ _) as [x r].
      apply set_torn_registry with s; [by apply (registry_same w) | done | by rewrite Ht].
  - apply set_torn_registry with s; [by destruct (String.eqb _ _); [|apply (registry_same w)] | | by rewrite Ht].
    by destruct (String.eqb _ _).
Qed.

Lemma lstep_registry w a : registry_ok w -> registry_ok (lstep w a).
Proof.
  intros H. destruct a as [key|h b|h|p f|sid|sid|sid|sid|t fs cs]; simpl.
  - by apply (registry_same w).
  - by apply publish_step_registry.
  - unfold OnClose. destruct (handlers w !! h) as [hd|]; [|done]. destruct (h_state hd); try done. by apply tearDown_registry.
  - by apply (registry_same w).
  - unfold watchdog. destruct (sessions w !! sid) as [s|]; [|done]. destruct (exited _ _); [|done]. by apply tearDown_registry.
  - by apply tearDown_registry.
  - unfold grace_expired. destruct (sessions w !! sid) as [s|]; [|done]. destruct (torn s); done.
  - by apply tear_step_registry.
  - by apply (registry_same w).
Qed.

Lemma lrun_registry acts w : registry_ok w -> registry_ok (lrun stateDir w acts).
Proof. revert w. induction acts as [|a acts IH]; intros w H; [done|]. simpl. by apply IH, lstep_registry. Qed.

Lemma new_live_registry s ds : registry_ok (new_live s ds).
Proof. intros name sid. simpl. rewrite lookup_empty. split; [done|]. by intros (x & Hx & _). Qed.

(** C13: the live directory is exact. On every run, in any interleaving of
    publishers, watchdogs, disconnects and shutdown, a channel name is in the
    registry if and only if there is a pipeline of that channel whose tear down
    has not yet reached its removal step, the entry is that pipeline, and
    there is at most one such pipeline per channel; so a tear down removes its
    own entry only, and [ListLive] and [GetByName] show exactly these
    pipelines. *)
Theorem live_directory_exact s ds acts :
  let w := lrun stateDir (new_live s ds) acts in
  (forall name sid, byName w !! name = Some sid <-> registered w name sid) /\
  (forall name i j, registered w name i -> registered w name j -> i = j) /\
  (forall name l, GetByName name w = Some l <->
     exists sid x, registered w name sid /\ sessions w !! sid = Some x /\ l = toDTO x) /\
  (forall l, l ∈ ListLive w <-> exists name, GetByName name w = Some l).
Proof.
  intros w. pose proof (lrun_registry acts _ (new_live_registry s ds)) as H. fold w in H.
  assert (Hget : forall name l, GetByName name w = Some l <->
     exists sid x, registered w name sid /\ sessions w !! sid = Some x /\ l = toDTO x).
  { intros name l. unfold GetByName, get. split.
    - intros (x & (sid & Hsid & Hx)%bind_Some & ->)%fmap_Some. exists sid, x. split; [by apply H | done].
    - intros (sid & x & Hr%H & Hx & ->). by rewrite Hr; simpl; rewrite Hx. }
  split_and!; [done | | done |].
  - intros name i j Hi%H Hj%H. congruence.
  - intros l. unfold ListLive, snapshot. rewrite list_elem_of_omap. split.
    + intros (sid & (kv & -> & Hkv)%list_elem_of_fmap & Hl). destruct kv as [name sid].
      apply elem_of_map_to_list in Hkv. apply fmap_Some in Hl as (x & Hx & ->). exists name. apply Hget.
      exists sid, x. split; [by apply H | done].
    + intros (name & (sid & x & Hr & Hx & ->)%Hget). exists sid. split; [|simpl; by rewrite Hx].
      apply list_elem_of_fmap. exists (name, sid). split; [done|]. by apply elem_of_map_to_list, H.
Qed.
End Runs.
