(* ===== verification/StreamRows.v ===== *)
(** * The rows of [stream_sessions]

    Every open row has an owner: the [OnPublish] call that inserted it, until
    the pipeline it starts takes it over; or it was leaked by an [OnPublish]
    that failed after the insert. *)

From S2P Require Import Prelude Utf8 Encoding Errors StreamKey Store StoreInv Auth Stream StreamThms.
Local Open Scope Z_scope.

Inductive owner := OHandler (h : nat) | OSession (sid : nat).
#[export] Instance owner_eq_dec : EqDecision owner.
Proof. solve_decision. Defined.

(** What an owner says of its row. *)
Definition row_matches (x : StreamSession) (t : option tear) : Prop :=
  match t with
  | None => open_row x = true
  | Some t => open_row x = negb (row_closed t) /\
              match t with TEnded r | TDone r => ss_EndReason x = Some r | _ => True end
  end.

Definition reason_of (t : tear) : option string :=
  match t with TIdle => None | TWaiting r | TRemoved r | TEnded r | TDone r => Some r end.
Definition reason_ok (t : option tear) : Prop :=
  forall x r, t = Some x -> reason_of x = Some r -> end_reason_ok r = true.

Definition owning : Type := owner -> option (Z * option tear).

Record rows_inv (ss : gmap Z StreamSession) (next : Z) (own : owning) (leak : Prop) : Prop := {
  ri_next : 1 <= next;
  ri_ids : forall id x, ss !! id = Some x -> id < next;
  ri_uniq : forall o1 o2 id t1 t2, own o1 = Some (id, t1) -> own o2 = Some (id, t2) -> o1 = o2;
  ri_row : forall o id t, own o = Some (id, t) -> 1 <= id /\ reason_ok t /\ exists x, ss !! id = Some x /\ row_matches x t;
  ri_open : forall id x, ss !! id = Some x -> open_row x = true -> (exists o t, own o = Some (id, t)) \/ leak
}.

Lemma rows_same ss n own own' (leak leak' : Prop) : (forall o, own' o = own o) -> (leak -> leak') ->
  rows_inv ss n own leak -> rows_inv ss n own' leak'.
Proof.
  intros Ho Hl [H1 H2 H3 H4 H5]. split; try done.
  - intros o1 o2 id t1 t2. rewrite !Ho. apply H3.
  - intros o id t. rewrite Ho. apply H4.
  - intros id x Hx Hop. destruct (H5 id x Hx Hop) as [(o & t & Ht)|?]; [left; exists o, t; by rewrite Ho | right; auto].
Qed.

(** One owner's row, or its own state, changes. *)
Lemma rows_change ss n own own' (leak leak' : Prop) o id t new x' :
  rows_inv ss n own leak -> own o = Some (id, t) ->
  (forall o', own' o' = if decide (o' = o) then new else own o') -> (leak -> leak') ->
  match new with
  | None => open_row x' = false \/ leak'
  | Some (id', t') => id' = id /\ row_matches x' t' /\ reason_ok t'
  end ->
  rows_inv (<[id := x']> ss) n own' leak'.
Proof.
  intros [H1 H2 H3 H4 H5] Ho Hown Hl Hnew. destruct (H4 o id t Ho) as (Hid & _ & x & Hx & _).
  assert (Hcase : forall o' i t', own' o' = Some (i, t') -> (o' = o /\ new = Some (i, t') /\ i = id) \/ (o' <> o /\ own o' = Some (i, t') /\ i <> id)).
  { intros o' i t'. rewrite Hown. case_decide as E; intros Ht'; [left|right].
    - split_and!; [done..|]. rewrite Ht' in Hnew. by destruct Hnew.
    - split_and!; [done..|]. intros ->. apply E. by eapply H3. }
  split; [done| | | |].
  - intros i y. rewrite lookup_insert_Some. intros [[<- <-]|[_ Hy]]; [by apply (H2 id x) | by apply (H2 i y)].
  - intros o1 o2 i t1 t2 E1 E2. destruct (Hcase _ _ _ E1) as [(-> & _ & ->)|(N1 & F1 & G1)];
      destruct (Hcase _ _ _ E2) as [(-> & _ & ?)|(N2 & F2 & G2)]; try done. by eapply H3.
  - intros o' i t' E. destruct (Hcase _ _ _ E) as [(-> & En & ->)|(N & F & G)].
    + rewrite En in Hnew. destruct Hnew as (_ & Hm & Hr). split_and!; [done..|]. exists x'. by rewrite lookup_insert_eq.
    + rewrite lookup_insert_ne by done. by apply (H4 o').
  - intros i y. rewrite lookup_insert_Some. intros [[<- <-]|[Hne Hy]] Hop.
    + destruct new as [[i' t']|]; [|destruct Hnew as [?|?]; [congruence | by right]].
      destruct Hnew as (-> & _). left. exists o, t'. by rewrite Hown, decide_True.
    + destruct (H5 i y Hy Hop) as [(o' & t' & E)|?]; [|right; auto]. left. exists o', t'.
      rewrite Hown, decide_False; [done|]. intros ->. congruence.
Qed.

(** The row passes from one owner to a new one. *)
Lemma rows_handover ss n own own' (leak leak' : Prop) o o2 id t t' :
  rows_inv ss n own leak -> own o = Some (id, t) -> own o2 = None ->
  (forall o', own' o' = if decide (o' = o) then None else if decide (o' = o2) then Some (id, t') else own o') ->
  (leak -> leak') -> (forall x, row_matches x t -> row_matches x t') -> reason_ok t' ->
  rows_inv ss n own' leak'.
Proof.
  intros [H1 H2 H3 H4 H5] Ho Ho2 Hown Hl Hm Hr. destruct (H4 o id t Ho) as (Hid & _ & x & Hx & Hmx).
  assert (Hcase : forall o' i u, own' o' = Some (i, u) ->
    (o' = o2 /\ i = id /\ u = t') \/ (o' <> o /\ o' <> o2 /\ own o' = Some (i, u) /\ i <> id)).
  { intros o' i u. rewrite Hown. case_decide as E; [done|]. case_decide as E2; [intros [= <- <-]; by left|].
    intros Hu. right. split_and!; [done..|]. intros ->. apply E. by eapply H3. }
  split; [done | done | | |].
  - intros o1 o3 i t1 t2 E1 E2. destruct (Hcase _ _ _ E1) as [(-> & -> & _)|(N1 & M1 & F1 & G1)];
      destruct (Hcase _ _ _ E2) as [(-> & ? & _)|(N2 & M2 & F2 & G2)]; try done. by eapply H3.
  - intros o' i u E. destruct (Hcase _ _ _ E) as [(-> & -> & ->)|(N & M & F & G)]; [|by apply (H4 o')].
    split_and!; [done..|]. exists x. auto.
  - intros i y Hy Hop. destruct (H5 i y Hy Hop) as [(o' & u & E)|?]; [|right; auto]. left.
    destruct (decide (o' = o)) as [->|Hne].
    + rewrite Ho in E. injection E as <- <-. exists o2, t'. rewrite Hown, decide_False, decide_True; [done..|]. congruence.
    + exists o', u. rewrite Hown, decide_False by done. rewrite decide_False; [done|]. intros ->. congruence.
Qed.

(** A new open row for an owner that had none. *)
Lemma rows_create ss n own own' (leak leak' : Prop) o x :
  rows_inv ss n own leak -> own o = None ->
  (forall o', own' o' = if decide (o' = o) then Some (n, None) else own o') -> (leak -> leak') ->
  open_row x = true -> rows_inv (<[n := x]> ss) (n + 1) own' leak'.
Proof.
  intros [H1 H2 H3 H4 H5] Ho Hown Hl Hx.
  assert (Hcase : forall o' i u, own' o' = Some (i, u) ->
    (o' = o /\ i = n /\ u = None) \/ (o' <> o /\ own o' = Some (i, u) /\ i <> n)).
  { intros o' i u. rewrite Hown. case_decide as E; [intros [= <- <-]; by left|]. intros Hu. right.
    split_and!; [done..|]. intros ->. destruct (H4 _ _ _ Hu) as (_ & _ & y & Hy & _). apply H2 in Hy. lia. }
  split; [lia | | | |].
  - intros i y. rewrite lookup_insert_Some. intros [[<- <-]|[_ Hy]]; [lia | apply H2 in Hy; lia].
  - intros o1 o3 i t1 t2 E1 E2. destruct (Hcase _ _ _ E1) as [(-> & -> & _)|(N1 & F1 & G1)];
      destruct (Hcase _ _ _ E2) as [(-> & ? & _)|(N2 & F2 & G2)]; try done. by eapply H3.
  - intros o' i u E. destruct (Hcase _ _ _ E) as [(-> & -> & ->)|(N & F & G)].
    + split_and!; [done|by intros ? ? ?|]. exists x. by rewrite lookup_insert_eq.
    + rewrite lookup_insert_ne by done. by apply (H4 o').
  - intros i y. rewrite lookup_insert_Some. intros [[<- <-]|[Hne Hy]] Hop.
    + left. exists o, None. by rewrite Hown, decide_True.
    + destruct (H5 i y Hy Hop) as [(o' & u & E)|?]; [|right; auto]. left. exists o', u.
      rewrite Hown, decide_False; [done|]. intros ->. congruence.
Qed.

(** A row the statement does not find open is left as it is. *)
Lemma rows_grow ss n n' own leak : n <= n' -> rows_inv ss n own leak -> rows_inv ss n' own leak.
Proof. intros Hn [H1 H2 H3 H4 H5]. split; try done; [lia|]. intros id x Hx. apply H2 in Hx. lia. Qed.

(** ** The owners of a state *)
Definition pb_of (p : pstate) : option publication :=
  match p with
  | PRow pb | PDir pb | PLost pb => Some pb
  | PProc pb _ | PEnc pb _ => Some pb
  | _ => None
  end.

Definition own_of (w : live) : owning := fun o =>
  match o with
  | OHandler h => hd ← handlers w !! h; pb ← pb_of (h_state hd); Some (ss_ID (pb_row pb), None)
  | OSession sid => s ← sessions w !! sid; Some (dbRowID s, Some (torn s))
  end.

(** The three failures of [OnPublish] that leave their row open. *)
Definition leaky (e : err) : Prop :=
  e = EWrap "mkdir hls out" (EIO "mkdir") \/ e = EWrap "start ffmpeg" (EIO "ffmpeg") \/
  e = EWrap "flv encoder" (EIO "flv").
Definition leaked (w : live) : Prop :=
  exists h hd e, handlers w !! h = Some hd /\ h_state hd = PFailed e /\ leaky e.

Record rows_ok (w : live) : Prop := {
  ro_faults : faults (st w) = [];
  ro_inv : rows_inv (stream_sessions (db (st w))) (next_stream_session (db (st w))) (own_of w) (leaked w)
}.

Lemma own_set_handler w h p hd o : handlers w !! h = Some hd ->
  own_of (set_handler h p w) o =
  if decide (o = OHandler h) then pb ← pb_of p; Some (ss_ID (pb_row pb), None) else own_of w o.
Proof.
  intros Hh. destruct o as [i|sid]; cbn [own_of]; [|by rewrite decide_False by done].
  unfold set_handler. cbn [handlers set_handlers].
  destruct (decide (OHandler i = OHandler h)) as [[= ->]|Hne].
  - by rewrite list_lookup_alter_eq, Hh.
  - by rewrite list_lookup_alter_ne by congruence.
Qed.

Lemma own_set_torn w sid t s o : sessions w !! sid = Some s ->
  own_of (set_torn sid t w) o =
  if decide (o = OSession sid) then Some (dbRowID s, Some t) else own_of w o.
Proof.
  intros Hs. destruct o as [h|i]; cbn [own_of]; [by rewrite decide_False by done|].
  unfold set_torn. cbn [sessions set_sessions].
  destruct (decide (OSession i = OSession sid)) as [[= ->]|Hne].
  - by rewrite list_lookup_alter_eq, Hs.
  - by rewrite list_lookup_alter_ne by congruence.
Qed.

Lemma leaked_set_handler w h p hd : handlers w !! h = Some hd -> (forall e, h_state hd <> PFailed e) ->
  leaked w -> leaked (set_handler h p w).
Proof.
  intros Hh Hn (i & x & e & Hx & Hf & He). exists i, x, e. simpl. split; [|done].
  rewrite list_lookup_alter_ne; [done|]. intros ->. simplify_eq. by destruct (Hn e).
Qed.

Lemma leaks_set_handler w h e hd : handlers w !! h = Some hd -> leaky e -> leaked (set_handler h (PFailed e) w).
Proof. intros Hh He. exists h, {| h_key := h_key hd; h_state := PFailed e |}, e. simpl. by rewrite list_lookup_alter_eq, Hh. Qed.

(** ** Statements on a healthy connection *)
Lemma reason_text r : end_reason_ok r = true -> pg_text r = true.
Proof.
  unfold end_reason_ok. rewrite !orb_true_iff, !String.eqb_eq. by intros [[-> | ->]| ->].
Qed.

Lemma EndStreamSession_fine id t r s x : faults s = [] -> end_reason_ok r = true ->
  stream_sessions (db s) !! id = Some x ->
  EndStreamSession id t r s =
  (set_db (set_stream_sessions (<[id := end_row t r x]> (stream_sessions (db s))) (next_stream_session (db s)) (db s)) s, Ok tt).
Proof.
  intros Hf Hr Hx. unfold EndStreamSession. rewrite statement_fine by done. unfold with_texts, texts_ok.
  cbn [forallb]. rewrite (reason_text r Hr). cbn [andb]. rewrite Hx, Hr. by rewrite andb_false_r.
Qed.

Lemma end_row_open t r x : open_row x = true ->
  open_row (end_row t r x) = false /\ ss_EndReason (end_row t r x) = Some r.
Proof. unfold open_row, end_row. by destruct (ss_EndedAt x). Qed.

Lemma CreateStreamSession_fine cid t s : faults s = [] ->
  let x := {| ss_ID := next_stream_session (db s); ss_ChannelID := cid; ss_StartedAt := t;
              ss_EndedAt := None; ss_EndReason := None |} in
  (exists e, CreateStreamSession cid t s =
     (set_db (set_stream_sessions (stream_sessions (db s)) (next_stream_session (db s) + 1) (db s)) s, Err e)) \/
  CreateStreamSession cid t s =
     (set_db (set_stream_sessions (<[next_stream_session (db s) := x]> (stream_sessions (db s)))
                (next_stream_session (db s) + 1) (db s)) s, Ok x).
Proof.
  intros Hf x. unfold CreateStreamSession. rewrite statement_fine by done.
  destruct (channels (db s) !! cid); [by right | left; by eexists].
Qed.

Lemma lookup_fine key s : faults s = [] -> exists r, lookupChannelByStreamKey key s = (s, r).
Proof.
  intros Hf. unfold lookupChannelByStreamKey, no_rows_to, catch, GetChannelByStreamKeyHash.
  rewrite statement_fine by done. unfold with_texts.
  assert (Hs : forall d, d = db s -> set_db d s = s) by (intros d ->; by destruct s).
  destruct (texts_ok _); simpl; rewrite Hs by done; [|by eexists].
  destruct (select _ _); by eexists.
Qed.

(** The owner of a step of [OnPublish] and its row. *)
Lemma publishing_row w h hd pb : rows_ok w -> handlers w !! h = Some hd -> pb_of (h_state hd) = Some pb ->
  own_of w (OHandler h) = Some (ss_ID (pb_row pb), None) /\
  exists x, stream_sessions (db (st w)) !! ss_ID (pb_row pb) = Some x /\ open_row x = true.
Proof.
  intros Hok Hh Hpb. assert (Ho : own_of w (OHandler h) = Some (ss_ID (pb_row pb), None)) by (simpl; by rewrite Hh; simpl; rewrite Hpb).
  split; [done|]. destruct (ri_row _ _ _ _ (ro_inv w Hok) _ _ _ Ho) as (_ & _ & x & Hx & Hm). by exists x.
Qed.

(** The handler moves on with its row. *)
Lemma publish_moves w h hd p : rows_ok w -> handlers w !! h = Some hd -> pb_of p = pb_of (h_state hd) ->
  (forall e, h_state hd <> PFailed e) -> rows_ok (set_handler h p w).
Proof.
  intros [Hf Hinv] Hh Hp Hn. split; [done|]. apply (rows_same _ _ (own_of w) _ (leaked w)); [| |done].
  - intros o. rewrite (own_set_handler w h p hd o Hh). case_decide as E; [subst; simpl; by rewrite Hp, Hh | done].
  - by apply leaked_set_handler with hd.
Qed.

(** The handler gives up and leaves its row open. *)
Lemma publish_leaks w h hd pb e : rows_ok w -> handlers w !! h = Some hd -> pb_of (h_state hd) = Some pb ->
  leaky e -> rows_ok (set_handler h (PFailed e) w).
Proof.
  intros Hok Hh Hpb He. destruct (publishing_row w h hd pb Hok Hh Hpb) as (Ho & x & Hx & Hop).
  destruct Hok as [Hf Hinv]. split; [done|].
  change (stream_sessions (db (st (set_handler h (PFailed e) w)))) with (stream_sessions (db (st w))).
  rewrite <- (insert_id (stream_sessions (db (st w))) _ x Hx).
  apply (rows_change _ _ (own_of w) _ (leaked w) _ (OHandler h) (ss_ID (pb_row pb)) None None); [done..| | |].
  - intros o. by rewrite (own_set_handler w h _ hd o Hh).
  - intros _. by apply leaks_set_handler with hd.
  - right. by apply leaks_set_handler with hd.
Qed.

Lemma rows_ok_same w w' : st w' = st w -> sessions w' = sessions w -> handlers w' = handlers w -> rows_ok w -> rows_ok w'.
Proof.
  intros Hs Hse Hh [Hf Hinv]. split; rewrite Hs; [done|].
  apply (rows_same _ _ (own_of w) _ (leaked w)); [| |done].
  - intros [h|sid]; simpl; by rewrite ?Hh, ?Hse.
  - unfold leaked. by rewrite Hh.
Qed.

(** The row is inserted. *)
Lemma publish_creates_row w h hd ch ok : rows_ok w -> handlers w !! h = Some hd -> h_state hd = PFound ch ->
  rows_ok (publish_step h ok w).
Proof.
  intros [Hf Hinv] Hh Hp. unfold publish_step. rewrite Hh, Hp.
  assert (Hn : forall e, h_state hd <> PFailed e) by (by rewrite Hp).
  assert (Hnone : own_of w (OHandler h) = None) by (simpl; by rewrite Hh; simpl; rewrite Hp).
  unfold wrapping, catch.
  destruct (CreateStreamSession_fine (c_ID ch) (timestamptz (clock (st w))) (st w) Hf) as [(e & ->)| ->];
    unfold throw; cbn beta iota.
  + split; [done|]. apply (rows_grow _ (next_stream_session (db (st w)))); [simpl; lia|].
    apply (rows_same _ _ (own_of w) _ (leaked w)); [| |done].
    * intros o. rewrite (own_set_handler _ h _ hd o) by done. case_decide; [by subst; rewrite Hnone | by destruct o].
    * intros Hl. by apply leaked_set_handler with hd.
  + split; [done|]. apply (rows_create _ _ (own_of w) _ (leaked w) _ (OHandler h)); [done..| | |done].
    * intros o. rewrite (own_set_handler _ h _ hd o) by done. case_decide; [done | by destruct o].
    * intros Hl. by apply leaked_set_handler with hd.
Qed.

(** The registry takes the session, and with it the row; or refuses it. *)
Lemma publish_hands_row w h hd pb p ok : rows_ok w -> handlers w !! h = Some hd -> h_state hd = PEnc pb p ->
  rows_ok (publish_step h ok w).
Proof.
  intros Hok Hh Hp. unfold publish_step. rewrite Hh, Hp.
  unfold add. cbn [channelName]. destruct (byName w !! _) eqn:E.
  { apply publish_moves with hd; [by apply (rows_ok_same w) | done | by rewrite Hp | by rewrite Hp]. }
  destruct (publishing_row w h hd pb Hok Hh) as (Ho & _); [by rewrite Hp|].
  destruct Hok as [Hf Hinv]. split; [done|].
  apply (rows_handover _ _ (own_of w) _ (leaked w) _ (OHandler h) (OSession (length (sessions w)))
           (ss_ID (pb_row pb)) None (Some TIdle)); [done|done| | | | |].
  + simpl. by rewrite lookup_ge_None_2.
  + intros o. rewrite (own_set_handler _ h _ hd o) by done. case_decide; [done|].
    destruct o as [i|sid]; [by rewrite decide_False by done|]. cbn [own_of].
    unfold set_sessions, set_byName. cbn [sessions].
    destruct (decide (OSession sid = OSession (length (sessions w)))) as [[= ->]|Hne].
    * by rewrite lookup_app_r, Nat.sub_diag by done.
    * destruct (decide (sid < length (sessions w))%nat); [by rewrite lookup_app_l|].
      assert (sid <> length (sessions w)) by congruence.
      rewrite !lookup_ge_None_2; [done|lia|rewrite length_app; simpl; lia].
  + intros Hl. apply leaked_set_handler with hd; [done | by rewrite Hp | done].
  + intros x Hx. split; [by rewrite Hx | done].
  + by intros x r [= <-].
Qed.

Lemma publish_step_rows h b w : rows_ok w -> rows_ok (publish_step h b w).
Proof.
  intros Hok. unfold publish_step. destruct (handlers w !! h) as [hd|] eqn:Hh; [|done].
  destruct (h_state hd) as [|ch|pb|pb|pb p|pb p|pb| |] eqn:Hp; try done.
  - assert (Hn : forall e, h_state hd <> PFailed e) by (by rewrite Hp).
    destruct (String.eqb _ _); [by apply publish_moves with hd; [..|rewrite Hp|]|].
    destruct (lookup_fine (h_key hd) (st w) (ro_faults w Hok)) as (r & ->).
    apply publish_moves with hd; [by apply (rows_ok_same w) | done | rewrite Hp; by destruct r | done].
  - pose proof (publish_creates_row w h hd ch b Hok Hh Hp) as H. unfold publish_step in H. by rewrite Hh, Hp in H.
  - destruct b; [|apply publish_leaks with hd pb; [done..|by rewrite Hp|by left]].
    apply publish_moves with hd; [by apply (rows_ok_same w) | done | by rewrite Hp | by rewrite Hp].
  - destruct b; [|apply publish_leaks with hd pb; [done..|by rewrite Hp|by right; left]].
    apply publish_moves with hd; [by apply (rows_ok_same w) | done | by rewrite Hp | by rewrite Hp].
  - destruct b; [apply publish_moves with hd; [done..|by rewrite Hp|by rewrite Hp]|].
    apply publish_leaks with hd pb; [by apply (rows_ok_same w)|done|by rewrite Hp|by right; right].
  - pose proof (publish_hands_row w h hd pb p b Hok Hh Hp) as H. unfold publish_step in H. by rewrite Hh, Hp in H.
  - destruct (publishing_row w h hd pb Hok Hh) as (Ho & x & Hx & Hop); [by rewrite Hp|].
    destruct Hok as [Hf Hinv]. rewrite (EndStreamSession_fine _ _ _ _ x) by done. cbn beta iota.
    destruct (end_row_open (timestamptz (clock (st w))) "orphan_swept" x Hop) as [Hc _].
    split; [done|]. apply (rows_change _ _ (own_of w) _ (leaked w) _ (OHandler h) (ss_ID (pb_row pb)) None None); [done..| | |].
    + intros o. rewrite (own_set_handler _ h _ hd o) by done. case_decide; [done | by destruct o].
    + intros Hl. apply leaked_set_handler with hd; [done | by rewrite Hp | done].
    + by left.
Qed.

(** A tear down's progress that does not touch the row. *)
Lemma set_torn_rows sid t w s : rows_ok w -> sessions w !! sid = Some s ->
  row_closed t = row_closed (torn s) -> (row_closed t = true -> reason_of t = reason_of (torn s)) ->
  (forall r, reason_of t = Some r -> end_reason_ok r = true) -> rows_ok (set_torn sid t w).
Proof.
  intros [Hf Hinv] Hs Hc Hr Hreason.
  assert (Ho : own_of w (OSession sid) = Some (dbRowID s, Some (torn s))) by (simpl; by rewrite Hs).
  destruct (ri_row _ _ _ _ Hinv _ _ _ Ho) as (_ & _ & x & Hx & [Hm1 Hm2]).
  split; [done|]. change (stream_sessions (db (st (set_torn sid t w)))) with (stream_sessions (db (st w))).
  rewrite <- (insert_id (stream_sessions (db (st w))) _ x Hx).
  apply (rows_change _ _ (own_of w) _ (leaked w) _ (OSession sid) (dbRowID s) (Some (torn s)) (Some (dbRowID s, Some t)));
    [done..| |done|].
  - intros o. by rewrite (own_set_torn w sid t s o Hs).
  - split_and!; [done| |intros y r [= <-] Hy; by apply Hreason]. split; [by rewrite Hc|].
    destruct t as [|r|r|r|r]; try done; specialize (Hr eq_refl); destruct (torn s); simpl in *; try done; congruence.
Qed.

Lemma session_reason w sid s r : rows_ok w -> sessions w !! sid = Some s -> reason_of (torn s) = Some r -> end_reason_ok r = true.
Proof.
  intros [Hf Hinv] Hs Hr. assert (Ho : own_of w (OSession sid) = Some (dbRowID s, Some (torn s))) by (simpl; by rewrite Hs).
  destruct (ri_row _ _ _ _ Hinv _ _ _ Ho) as (_ & Hok & _). by apply (Hok (torn s)).
Qed.

Lemma tearDown_rows sid reason w : rows_ok w -> end_reason_ok reason = true -> rows_ok (tearDown sid reason w).
Proof.
  intros Hok Hr. unfold tearDown. destruct (sessions w !! sid) as [s|] eqn:Hs; [|done]. destruct (torn s) eqn:Ht; try done.
  apply set_torn_rows with s; [by apply (rows_ok_same w) | done | by rewrite Ht | done | by intros r [= <-]].
Qed.

Lemma tear_step_rows stateDir sid w : rows_ok w -> rows_ok (tear_step stateDir sid w).
Proof.
  intros Hok. unfold tear_step. destruct (sessions w !! sid) as [s|] eqn:Hs; [|done].
  assert (Hreason : forall r, reason_of (torn s) = Some r -> end_reason_ok r = true) by (intros r; by apply (session_reason w sid)).
  destruct (torn s) as [|reason|reason|reason|reason] eqn:Ht; try done.
  - destruct (exited _ _); [|done]. apply set_torn_rows with s; [by apply (rows_ok_same w) | done | by rewrite Ht | done | done].
  - assert (Ho : own_of w (OSession sid) = Some (dbRowID s, Some (TRemoved reason))) by (simpl; by rewrite Hs, <- Ht).
    destruct (ri_row _ _ _ _ (ro_inv w Hok) _ _ _ Ho) as (Hid & _ & x & Hx & [Hop _]).
    destruct (Z.eqb_spec (dbRowID s) 0); [lia|].
    destruct Hok as [Hf Hinv]. rewrite (EndStreamSession_fine _ _ _ _ x) by (done || by apply Hreason). cbn beta iota.
    destruct (end_row_open (timestamptz (clock (st w))) reason x Hop) as [Hc1 Hc2].
    split; [done|].
    apply (rows_change _ _ (own_of w) _ (leaked w) _ (OSession sid) (dbRowID s) (Some (TRemoved reason))
      (Some (dbRowID s, Some (TEnded reason)))); [done..| |done|].
    + intros o. rewrite (own_set_torn _ sid _ s o) by done. case_decide; [done | by destruct o].
    + split_and!; [done|split; [by rewrite Hc1 | done]|intros y r [= <-] Hy; by apply Hreason].
  - destruct (String.eqb stateDir ""); (apply set_torn_rows with s;
      [done || by apply (rows_ok_same w) | done | by rewrite Ht | by rewrite Ht | done]).
Qed.

Definition healthy (a : lact) : Prop := match a with LEnv _ fs _ => fs = [] | _ => True end.

Lemma lstep_rows stateDir w a : rows_ok w -> healthy a -> rows_ok (lstep stateDir w a).
Proof.
  intros H Ha. destruct a as [key|h b|h|p f|sid|sid|sid|sid|t fs cs]; simpl.
  - destruct H as [Hf Hinv]. split; [done|]. apply (rows_same _ _ (own_of w) _ (leaked w)); [| |done].
    + intros [h|sid]; [|done]. simpl. destruct (decide (h < length (handlers w))%nat) as [Hlt|Hge]; [by rewrite lookup_app_l|].
      rewrite lookup_app_r by lia. rewrite (lookup_ge_None_2 (handlers w)) by lia.
      by destruct (h - length (handlers w))%nat as [|[]].
    + intros (h & hd & e & Hh & ?). exists h, hd, e. split; [by apply lookup_app_l_Some | done].
  - by apply publish_step_rows.
  - unfold OnClose. destruct (handlers w !! h) as [hd|]; [|done]. destruct (h_state hd); try done. by apply tearDown_rows.
  - by apply (rows_ok_same w).
  - unfold watchdog. destruct (sessions w !! sid) as [s|]; [|done]. destruct (exited _ _) as [[|]|]; [..|done]; by apply tearDown_rows.
  - by apply tearDown_rows.
  - unfold grace_expired. destruct (sessions w !! sid) as [s|]; [|done]. destruct (torn s); try done. by apply (rows_ok_same w).
  - by apply tear_step_rows.
  - simpl in Ha. subst. destruct H as [Hf Hinv]. split; [done|].
    apply (rows_same _ _ (own_of w) _ (leaked w)); [by intros []|done|done].
Qed.

Lemma lrun_rows stateDir acts w : rows_ok w -> Forall healthy acts -> rows_ok (lrun stateDir w acts).
Proof.
  revert w. induction acts as [|a acts IH]; intros w H Ha; [done|].
  apply Forall_cons in Ha as [? ?]. simpl. apply IH; [by apply lstep_rows | done].
Qed.
