(* ===== verification/StreamProps.v ===== *)
(** * What the stream pipeline guarantees: rows, shutdown, boot *)

From S2P Require Import Prelude Utf8 Encoding Errors StreamKey Store StoreInv Auth Stream StreamThms StreamRows.
Local Open Scope Z_scope.

(** ** The rows of a run *)

(** The database of a server that has just booted: nothing is on the air. *)
Definition quiet (s : store) : Prop :=
  faults s = [] /\ 1 <= next_stream_session (db s) /\
  forall id x, stream_sessions (db s) !! id = Some x -> id < next_stream_session (db s) /\ open_row x = false.

Lemma new_live_rows s ds : quiet s -> rows_ok (new_live s ds).
Proof.
  intros (Hf & Hn & Hq). assert (Ho : forall o, own_of (new_live s ds) o = None) by (by intros [h|sid]).
  split; [done|]. split; simpl.
  - done.
  - intros id x Hx. by apply Hq in Hx as [? _].
  - intros o1 o2 id t1 t2. by rewrite Ho.
  - intros o id t. by rewrite Ho.
  - intros id x Hx Hop. apply Hq in Hx as [_ Hx]. congruence.
Qed.

(** A handler that has inserted its row and not yet passed it on. *)
Definition publishing (w : live) (id : Z) : Prop :=
  exists h hd pb, handlers w !! h = Some hd /\ pb_of (h_state hd) = Some pb /\ ss_ID (pb_row pb) = id.


(** Two publishers of one channel: the second one loses and its row is closed;
    the first one disconnects and is torn down. *)
Definition key_bytes : list Z := repeat 7 32.
Definition plain_key : string := streamKeyPrefix +:+ EncodeToString key_bytes.
Definition bob : Channel :=
  {| c_ID := 1; c_UserID := 1; c_Name := "bob"; c_Title := "live now"; c_StreamKeyHash := HashKey plain_key; c_CreatedAt := 0 |}.
Definition bob_user : User :=
  {| u_ID := 1; u_Username := "bob"; u_Email := "bob@example.com"; u_PasswordHash := "h"; u_CreatedAt := 0 |}.
Definition bobs_db : tables :=
  {| users := {[1 := bob_user]}; channels := {[1 := bob]}; Store.sessions := ∅; stream_sessions := ∅;
     next_user := 2; next_channel := 2; next_stream_session := 1 |}.
Definition bobs_store : store := {| db := bobs_db; clock := 5000000; faults := [] |}.
Definition publish_all (h : nat) : list lact := repeat (LPublish h true) 6.
Definition two_publishers : list lact :=
  [LConnect plain_key] ++ publish_all 0 ++ [LConnect plain_key] ++ publish_all 1 ++ [LPublish 1 true]
  ++ [LClose 0; LExit 0 false; LTear 0; LTear 0; LTear 0].


(** ** Rows without an owner *)

(** Owners of [w'] own what some owner of [w] did, or a new row; rows that
    nobody owns in [w] are as they were. *)
Definition rows_of (w : live) : gmap Z StreamSession := stream_sessions (db (st w)).
Definition owned (w : live) (id : Z) : Prop := exists o t, own_of w o = Some (id, t).
Record kept (w w' : live) : Prop := {
  kept_owners : forall id, owned w' id -> owned w id \/ id = next_stream_session (db (st w));
  kept_rows : forall id x, rows_of w !! id = Some x -> ~ owned w id -> rows_of w' !! id = Some x
}.

Lemma kept_same w w' : st w' = st w -> sessions w' = sessions w -> handlers w' = handlers w -> kept w w'.
Proof.
  intros Hs Hse Hh. split.
  - intros id (o & t & Ho). left. exists o, t. rewrite <- Ho. by destruct o as [h|i]; simpl; rewrite ?Hh, ?Hse.
  - intros id x. unfold rows_of. by rewrite Hs.
Qed.

(** A handler's progress, the database having changed to [s]. *)
Lemma kept_set_handler w w0 h p hd : handlers w !! h = Some hd -> handlers w0 = handlers w -> sessions w0 = sessions w ->
  (forall pb, pb_of p = Some pb -> owned w (ss_ID (pb_row pb)) \/ ss_ID (pb_row pb) = next_stream_session (db (st w))) ->
  (forall id x, rows_of w !! id = Some x -> ~ owned w id -> rows_of w0 !! id = Some x) ->
  kept w (set_handler h p w0).
Proof.
  intros Hh Hh0 Hs0 Hp Hr. split; [|exact Hr]. intros id (o & t & Ho).
  rewrite (own_set_handler w0 h p hd) in Ho by (by rewrite Hh0).
  case_decide; [|left; exists o, t; rewrite <- Ho; by destruct o; simpl; rewrite ?Hh0, ?Hs0].
  apply bind_Some in Ho as (pb & Hpb & [= <- <-]). auto.
Qed.

Lemma kept_set_torn w w0 sid t s : sessions w !! sid = Some s -> sessions w0 = sessions w -> handlers w0 = handlers w ->
  (forall id x, rows_of w !! id = Some x -> ~ owned w id -> rows_of w0 !! id = Some x) ->
  kept w (set_torn sid t w0).
Proof.
  intros Hs Hs0 Hh0 Hr. split; [|exact Hr]. intros id (o & t' & Ho). left.
  rewrite (own_set_torn w0 sid t s) in Ho by (by rewrite Hs0). case_decide.
  - injection Ho as <- _. exists (OSession sid), (Some (torn s)). simpl. by rewrite Hs.
  - exists o, t'. rewrite <- Ho. by destruct o; simpl; rewrite ?Hh0, ?Hs0.
Qed.

Lemma kept_EndStreamSession w id t r s' x' : EndStreamSession id t r (st w) = (s', x') -> owned w id ->
  forall i x, rows_of w !! i = Some x -> ~ owned w i -> rows_of (set_st s' w) !! i = Some x.
Proof.
  intros H Ho i x Hx Hn. assert (Hne : i <> id) by congruence. unfold rows_of in *. simpl.
  apply statement_cases in H as (_ & [[-> _]|[-> _]]); [done|]. unfold with_texts. destruct (texts_ok _); [|done].
  destruct (stream_sessions _ !! id); [|done]. destruct (_ && _); [done|]. simpl. by rewrite lookup_insert_ne.
Qed.

Lemma publishing_owned w h hd pb : handlers w !! h = Some hd -> pb_of (h_state hd) = Some pb -> owned w (ss_ID (pb_row pb)).
Proof. intros Hh Hp. exists (OHandler h), None. simpl. by rewrite Hh; simpl; rewrite Hp. Qed.

Lemma publish_step_kept h b w : rows_ok w -> kept w (publish_step h b w).
Proof.
  intros [Hf Hinv]. unfold publish_step. destruct (handlers w !! h) as [hd|] eqn:Hh; [|by apply kept_same].
  assert (Hown : forall pb, pb_of (h_state hd) = Some pb -> owned w (ss_ID (pb_row pb))) by (intros pb; by apply publishing_owned with h).
  assert (Hmove : forall p w0, handlers w0 = handlers w -> Stream.sessions w0 = Stream.sessions w -> st w0 = st w ->
    (forall pb, pb_of p = Some pb -> pb_of (h_state hd) = Some pb) -> kept w (set_handler h p w0)).
  { intros p w0 E1 E2 E3 Hp. apply kept_set_handler with hd; [done..| |]; [intros pb ?; left; auto | unfold rows_of; by rewrite E3]. }
  destruct (h_state hd) as [|ch|pb|pb|pb p|pb p|pb| |]; try by apply kept_same.
  - destruct (String.eqb _ _); [by apply Hmove|]. destruct (lookup_fine (h_key hd) (st w) Hf) as (r & ->). by destruct r; apply Hmove.
  - unfold wrapping, catch.
    destruct (CreateStreamSession_fine (c_ID ch) (timestamptz (clock (st w))) (st w) Hf) as [(e & ->)| ->]; unfold throw; cbn beta iota;
      (apply kept_set_handler with hd; [done..| |]).
    + done.
    + done.
    + intros pb [= <-]. by right.
    + intros id x Hx _. unfold rows_of in *. simpl. rewrite lookup_insert_ne; [done|].
      pose proof (ri_ids _ _ _ _ Hinv id x Hx). lia.
  - by destruct b; apply Hmove.
  - by destruct b; apply Hmove.
  - by destruct b; apply Hmove.
  - unfold add. cbn [channelName]. destruct (byName w !! _); [by apply Hmove|]. split; [|done].
    intros id (o & t & Ho). left. rewrite (own_set_handler _ h _ hd o) in Ho by done. case_decide; [done|].
    destruct o as [i|sid]; cbn [own_of set_sessions set_byName Stream.sessions handlers] in Ho; [by exists (OHandler i), t|].
    apply bind_Some in Ho as (s & [Hs|[_ Hs]]%lookup_app_Some & [= <- <-]).
    + exists (OSession sid), (Some (torn s)). simpl. by rewrite Hs.
    + destruct (_ - _)%nat as [|[]]; simpl in Hs; [|done..]. injection Hs as <-. by apply (Hown pb).
  - destruct (EndStreamSession _ _ _ _) as [s r] eqn:E. apply kept_set_handler with hd; [done..|].
    apply (kept_EndStreamSession _ _ _ _ _ _ E). by apply Hown.
Qed.

Lemma tearDown_kept sid r w : kept w (tearDown sid r w).
Proof.
  unfold tearDown. destruct (Stream.sessions w !! sid) as [s|] eqn:Hs; [|by apply kept_same].
  destruct (torn s); try by apply kept_same. by apply kept_set_torn with s.
Qed.

Lemma tear_step_kept stateDir sid w : kept w (tear_step stateDir sid w).
Proof.
  unfold tear_step. destruct (Stream.sessions w !! sid) as [s|] eqn:Hs; [|by apply kept_same].
  destruct (torn s) as [|reason|reason|reason|reason]; try by apply kept_same.
  - destruct (exited _ _); [by apply kept_set_torn with s | by apply kept_same].
  - destruct (dbRowID s =? 0); [by apply kept_set_torn with s|].
    destruct (EndStreamSession _ _ _ _) as [x r] eqn:E. apply kept_set_torn with s; [done..|].
    apply (kept_EndStreamSession _ _ _ _ _ _ E). exists (OSession sid), (Some (torn s)). simpl. by rewrite Hs.
  - destruct (String.eqb _ _); by apply kept_set_torn with s.
Qed.

Lemma lstep_kept stateDir w a : rows_ok w -> kept w (lstep stateDir w a).
Proof.
  intros Hok. destruct a as [key|h b|h|p f|sid|sid|sid|sid|t fs cs]; simpl.
  - split; [|done]. intros id (o & t & Ho). left. exists o, t. destruct o as [h|sid]; [|done]. simpl in *.
    apply bind_Some in Ho as (hd & [Hh|[_ Hh]]%lookup_app_Some & Hpb); [by rewrite Hh|].
    destruct (_ - _)%nat as [|[]]; simpl in Hh; [|done..]. by injection Hh as <-.
  - by apply publish_step_kept.
  - unfold OnClose. destruct (handlers w !! h) as [hd|]; [|by apply kept_same].
    destruct (h_state hd); try by apply kept_same. apply tearDown_kept.
  - by apply kept_same.
  - unfold watchdog. destruct (Stream.sessions w !! sid) as [s|]; [|by apply kept_same].
    destruct (exited _ _); [apply tearDown_kept | by apply kept_same].
  - apply tearDown_kept.
  - unfold grace_expired. destruct (Stream.sessions w !! sid) as [s|]; [|by apply kept_same]. destruct (torn s); by apply kept_same.
  - apply tear_step_kept.
  - split; [|done]. intros id (o & t' & Ho). left. by exists o, t'.
Qed.

(** A row nobody owns is never touched again. *)
Lemma unowned_row_kept stateDir acts w id x : rows_ok w -> Forall healthy acts ->
  rows_of w !! id = Some x -> ~ owned w id -> rows_of (lrun stateDir w acts) !! id = Some x.
Proof.
  revert w. induction acts as [|a acts IH]; intros w Hok Ha Hx Hn; [done|]. apply Forall_cons in Ha as [Ha Has]. simpl.
  destruct (lstep_kept stateDir w a Hok) as [K1 K2]. apply IH; [by apply lstep_rows | done | by apply K2|].
  intros [?|E]%K1; [done|]. pose proof (ri_ids _ _ _ _ (ro_inv w Hok) id x Hx). lia.
Qed.

(** An [OnPublish] that fails after inserting its row leaves the row open.
    When making the output directory, starting ffmpeg or writing the FLV
    header fails, the publisher is refused and its row stays open, with no
    end reason, through everything that happens afterwards (disconnects,
    watchdogs, a shutdown): no later step of this process ever closes it. *)
Theorem failed_publish_leaks_row stateDir s ds acts h hd pb more :
  quiet s -> Forall healthy acts -> Forall healthy more ->
  let w := lrun stateDir (new_live s ds) acts in
  handlers w !! h = Some hd ->
  h_state hd = PRow pb \/ h_state hd = PDir pb \/ (exists p, h_state hd = PProc pb p) ->
  let w1 := publish_step h false w in
  (exists hd' e, handlers w1 !! h = Some hd' /\ h_state hd' = PFailed e) /\
  exists x, rows_of (lrun stateDir w1 more) !! ss_ID (pb_row pb) = Some x /\ open_row x = true.
Proof.
  intros Hq Ha Hm w Hh Hst w1. assert (Hok : rows_ok w) by (by apply lrun_rows; [apply new_live_rows|]).
  assert (Hpb : pb_of (h_state hd) = Some pb) by (by destruct Hst as [-> |[-> |[p ->]]]).
  destruct (publishing_row w h hd pb Hok Hh Hpb) as (Ho & x & Hx & Hop).
  assert (Hw1 : exists e w0, w1 = set_handler h (PFailed e) w0 /\ handlers w0 = handlers w /\ st w0 = st w /\
    Stream.sessions w0 = Stream.sessions w).
  { unfold w1, publish_step. rewrite Hh. destruct Hst as [-> |[-> |[p ->]]]; by eexists _, _. }
  destruct Hw1 as (e & w0 & E & E1 & E2 & E3). rewrite E. split.
  - exists {| h_key := h_key hd; h_state := PFailed e |}, e. simpl. by rewrite E1, list_lookup_alter_eq, Hh.
  - exists x. split; [|done]. rewrite <- E. apply unowned_row_kept; [by apply publish_step_rows | done | |].
    + rewrite E. unfold rows_of. simpl. by rewrite E2.
    + rewrite E. intros (o & t & Hot). rewrite (own_set_handler w0 h _ hd) in Hot by (by rewrite E1).
      case_decide as Ho'; [done|]. apply Ho'. eapply (ri_uniq _ _ _ _ (ro_inv w Hok)); [|done].
      rewrite <- Hot. by destruct o; simpl; rewrite ?E1, ?E3.
Qed.

(** The directory cannot be made; then the connection goes and another
    publisher of the channel comes and goes. *)
Lemma failed_publish_leaks_row_witness :
  exists hd pb, let w := lrun "state" (new_live bobs_store ∅) ([LConnect plain_key] ++ repeat (LPublish 0 true) 2) in
  handlers w !! 0%nat = Some hd /\ h_state hd = PRow pb /\
  exists x, rows_of (lrun "state" (publish_step 0 false w) (LClose 0 :: [LConnect plain_key] ++ publish_all 1
    ++ [LShutdown 0; LExit 0 false; LTear 0; LTear 0; LTear 0])) !! ss_ID (pb_row pb) = Some x /\ open_row x = true.
Proof.
  eexists _, _. split; [vm_compute; reflexivity|]. split; [reflexivity|].
  eapply (failed_publish_leaks_row "state" bobs_store ∅ ([LConnect plain_key] ++ repeat (LPublish 0 true) 2) 0%nat).
  - split_and!; [done|done|]. intros id x. simpl. by rewrite lookup_empty.
  - repeat constructor.
  - repeat constructor.
  - vm_compute; reflexivity.
  - left. reflexivity.
Defined.

(** ** Tearing everything down *)

(** Every pipeline has its process. *)
Record procs_ok (w : live) : Prop := {
  po_sessions : forall sid s, Stream.sessions w !! sid = Some s -> is_Some (procs w !! ffmpeg s);
  po_handlers : forall h hd pb p, handlers w !! h = Some hd ->
    h_state hd = PProc pb p \/ h_state hd = PEnc pb p -> is_Some (procs w !! p)
}.

Lemma procs_same w w' : (forall p, is_Some (procs w !! p) -> is_Some (procs w' !! p)) ->
  Stream.sessions w' = Stream.sessions w -> handlers w' = handlers w -> procs_ok w -> procs_ok w'.
Proof.
  intros Hp Hs Hh [H1 H2]. split; rewrite ?Hs, ?Hh; [intros sid s Hs'; by apply Hp, (H1 sid) | intros h hd pb p Hh' Hst; by apply Hp, (H2 h hd pb)].
Qed.

Lemma alter_proc (f : proc -> proc) q (ps : list proc) p : is_Some (ps !! p) -> is_Some (alter f q ps !! p).
Proof. intros [x Hx]. destruct (decide (p = q)) as [->|]; [rewrite list_lookup_alter_eq, Hx | rewrite list_lookup_alter_ne by done]; eauto. Qed.

Lemma procs_set_torn sid t w : procs_ok w -> procs_ok (set_torn sid t w).
Proof.
  intros [H1 H2]. split; [|exact H2]. intros i s' (s & Hs & ->)%set_torn_lookup. specialize (H1 i s Hs). by case_decide.
Qed.

Lemma procs_set_handler h p w : procs_ok w ->
  (forall pb q, p = PProc pb q \/ p = PEnc pb q -> is_Some (procs w !! q)) -> procs_ok (set_handler h p w).
Proof.
  intros [H1 H2] Hp. split; [exact H1|]. intros i hd pb q Hi Hst. simpl in *.
  destruct (decide (i = h)) as [->|Hne]; [|rewrite list_lookup_alter_ne in Hi by done; by eapply H2].
  rewrite list_lookup_alter_eq in Hi. apply fmap_Some in Hi as (hd0 & _ & ->). by eapply Hp.
Qed.

Lemma publish_step_procs h b w : procs_ok w -> procs_ok (publish_step h b w).
Proof.
  intros Hok. unfold publish_step. destruct (handlers w !! h) as [hd|] eqn:Hh; [|done].
  assert (Hcur : forall pb q, h_state hd = PProc pb q \/ h_state hd = PEnc pb q -> is_Some (procs w !! q)) by (intros pb q; by apply (po_handlers w Hok h hd)).
  assert (Hsame : forall w', procs w' = procs w -> Stream.sessions w' = Stream.sessions w -> handlers w' = handlers w -> procs_ok w').
  { intros w' E1 E2 E3. apply (procs_same w); [by rewrite E1 | done..]. }
  assert (Hset : forall p w', procs w' = procs w -> Stream.sessions w' = Stream.sessions w -> handlers w' = handlers w ->
    (forall pb q, p = PProc pb q \/ p = PEnc pb q -> is_Some (procs w !! q)) -> procs_ok (set_handler h p w')).
  { intros p w' E1 E2 E3 Hp. apply procs_set_handler; [by apply Hsame | by rewrite E1]. }
  assert (Hkill : forall p q, procs_ok (set_handler h p (set_procs (alter (fun x => kill (close_stdin x)) q (procs w)) w)) \/
    exists pb q', p = PProc pb q' \/ p = PEnc pb q').
  { intros p q. destruct p; try (right; eauto; fail); left;
      (apply procs_set_handler; [apply (procs_same w); [intros ?; apply alter_proc|done..] | intros ?? [[=]|[=]]]). }
  destruct (h_state hd) as [|ch|pb|pb|pb p|pb p|pb| |]; try done.
  - destruct (String.eqb _ _); [apply Hset; [done..|by intros ?? [[=]|[=]]]|].
    destruct (lookupChannelByStreamKey _ _) as [s r]. apply Hset; [done..|]. by destruct r; intros ?? [[=]|[=]].
  - destruct (wrapping _ _ _) as [s r]. apply Hset; [done..|]. by destruct r; intros ?? [[=]|[=]].
  - destruct b; (apply Hset; [done..|by intros ?? [[=]|[=]]]).
  - destruct b; [|apply Hset; [done..|by intros ?? [[=]|[=]]]].
    apply procs_set_handler.
    + apply (procs_same w); [|done..]. intros q [x Hx]. simpl. by rewrite (lookup_app_l_Some _ _ _ _ Hx).
    + intros pb' q [[= <- <-]|[=]]. simpl. by rewrite lookup_app_r, Nat.sub_diag by done.
  - destruct b; [apply Hset; [done..|intros pb' q [[=]|[= <- <-]]; apply (Hcur pb); by left]|].
    by destruct (Hkill (PFailed (EWrap "flv encoder" (EIO "flv"))) p) as [?|(? & ? & [[=]|[=]])].
  - unfold add. cbn [channelName]. destruct (byName w !! _).
    + by destruct (Hkill (PLost pb) p) as [?|(? & ? & [[=]|[=]])].
    + apply procs_set_handler; [|by intros ?? [[=]|[=]]]. split; [|exact (po_handlers w Hok)].
      intros sid s [Hs|[_ Hs]]%lookup_app_Some; [by apply (po_sessions w Hok sid)|].
      destruct (_ - _)%nat as [|[]]; simpl in Hs; [|done..]. injection Hs as <-. apply (Hcur pb). by right.
  - destruct (EndStreamSession _ _ _ _) as [s r]. apply Hset; [done..|by intros ?? [[=]|[=]]].
Qed.

Lemma tearDown_procs sid r w : procs_ok w -> procs_ok (tearDown sid r w).
Proof.
  intros H. unfold tearDown. destruct (Stream.sessions w !! sid) as [s|]; [|done]. destruct (torn s); try done.
  apply procs_set_torn, (procs_same w); [intros p; apply alter_proc|done..].
Qed.

Lemma tear_step_procs stateDir sid w : procs_ok w -> procs_ok (tear_step stateDir sid w).
Proof.
  intros H. unfold tear_step. destruct (Stream.sessions w !! sid) as [s|]; [|done].
  destruct (torn s); try done.
  - destruct (exited _ _); [|done]. by apply procs_set_torn, (procs_same w).
  - destruct (_ =? _); [by apply procs_set_torn|]. destruct (EndStreamSession _ _ _ _). by apply procs_set_torn, (procs_same w).
  - apply procs_set_torn. destruct (String.eqb _ _); [done | by apply (procs_same w)].
Qed.

Lemma lstep_procs stateDir w a : procs_ok w -> procs_ok (lstep stateDir w a).
Proof.
  intros H. destruct a as [key|h b|h|p f|sid|sid|sid|sid|t fs cs]; simpl.
  - split; [exact (po_sessions w H)|]. intros i hd pb p [Hi|[_ Hi]]%lookup_app_Some; [by apply (po_handlers w H i hd pb)|].
    destruct (_ - _)%nat as [|[]]; simpl in Hi; [|done..]. injection Hi as <-. by intros [[=]|[=]].
  - by apply publish_step_procs.
  - unfold OnClose. destruct (handlers w !! h) as [hd|]; [|done]. destruct (h_state hd); try done. by apply tearDown_procs.
  - apply (procs_same w); [intros q; apply alter_proc|done..].
  - unfold watchdog. destruct (Stream.sessions w !! sid) as [s|]; [|done]. destruct (exited _ _); [by apply tearDown_procs | done].
  - by apply tearDown_procs.
  - unfold grace_expired. destruct (Stream.sessions w !! sid) as [s|]; [|done]. destruct (torn s); try done.
    apply (procs_same w); [intros q; apply alter_proc|done..].
  - by apply tear_step_procs.
  - by apply (procs_same w).
Qed.

Lemma lrun_procs stateDir acts w : procs_ok w -> procs_ok (lrun stateDir w acts).
Proof. revert w. induction acts as [|a acts IH]; intros w H; [done|]. simpl. by apply IH, lstep_procs. Qed.

Lemma new_live_procs s ds : procs_ok (new_live s ds).
Proof. by split. Qed.

(** *** A whole tear down *)
Definition gone (stateDir name : string) (ds : gset string) : gset string :=
  if String.eqb stateDir "" then ds else ds ∖ {[name]}.
Definition reason_after (reason : string) (t : tear) : string := default reason (reason_of t).

Lemma tearDown_all_lrun stateDir failed w sid s : Stream.sessions w !! sid = Some s ->
  tearDown_all stateDir failed "orphan_swept" w sid =
  lrun stateDir w [LShutdown sid; LExit (ffmpeg s) failed; LTear sid; LTear sid; LTear sid].
Proof.
  intros Hs. unfold tearDown_all, lrun. cbn [foldl lstep].
  assert (Hf : exists s', Stream.sessions (tearDown sid "orphan_swept" w) !! sid = Some s' /\ ffmpeg s' = ffmpeg s).
  { unfold tearDown. rewrite Hs. destruct (torn s); try (by exists s).
    exists (with_torn (TWaiting "orphan_swept") s). simpl. by rewrite list_lookup_alter_eq, Hs. }
  destruct Hf as (s' & -> & ->). done.
Qed.

Lemma set_torn_at sid t w s : Stream.sessions w !! sid = Some s -> Stream.sessions (set_torn sid t w) !! sid = Some (with_torn t s).
Proof. intros Hs. simpl. by rewrite list_lookup_alter_eq, Hs. Qed.
Lemma set_torn_other sid t w i : i <> sid -> Stream.sessions (set_torn sid t w) !! i = Stream.sessions w !! i.
Proof. intros Hne. simpl. by rewrite list_lookup_alter_ne. Qed.

(** Once waiting for a process that has exited, three steps finish it. *)
Lemma tear_steps stateDir w sid s r b : Stream.sessions w !! sid = Some s -> torn s = TWaiting r ->
  exited (ffmpeg s) w = Some b ->
  let w' := tear_step stateDir sid (tear_step stateDir sid (tear_step stateDir sid w)) in
  Stream.sessions w' !! sid = Some (with_torn (TDone r) s) /\
  (forall i, i <> sid -> Stream.sessions w' !! i = Stream.sessions w !! i) /\
  dirs w' = gone stateDir (channelName s) (dirs w) /\
  byName w' = delete (channelName s) (byName w) /\
  st w' = (if dbRowID s =? 0 then st w else (EndStreamSession (dbRowID s) (timestamptz (clock (st w))) r (st w)).1).
Proof.
  intros Hs Ht Hx. unfold tear_step at 3. rewrite Hs, Ht, Hx.
  set (w1 := set_torn sid (TRemoved r) (remove (channelName s) w)).
  assert (H1 : Stream.sessions w1 !! sid = Some (with_torn (TRemoved r) s)) by (by apply set_torn_at).
  set (d := if dbRowID s =? 0 then st w else (EndStreamSession (dbRowID s) (timestamptz (clock (st w))) r (st w)).1).
  assert (H0 : tear_step stateDir sid w1 = set_torn sid (TEnded r) (set_st d w1)).
  { unfold tear_step, d. rewrite H1. cbn [torn with_torn dbRowID]. destruct (_ =? _); [done|].
    change (st w1) with (st w). by destruct (EndStreamSession _ _ _ _) as [y x]. }
  rewrite H0. set (w2 := set_torn sid (TEnded r) (set_st d w1)).
  assert (H2 : Stream.sessions w2 !! sid = Some (with_torn (TEnded r) s)) by (by apply (set_torn_at _ _ _ (with_torn (TRemoved r) s))).
  unfold tear_step. rewrite H2. cbn [torn with_torn channelName].
  set (w3 := if String.eqb stateDir "" then w2 else _).
  assert (E3 : Stream.sessions w3 = Stream.sessions w2 /\ dirs w3 = gone stateDir (channelName s) (dirs w) /\
    byName w3 = delete (channelName s) (byName w) /\ st w3 = d) by (unfold w3, gone; by destruct (String.eqb stateDir "")).
  destruct E3 as (E3 & D3 & B3 & S3). split; [|split; [|by split_and!]].
  - by apply (set_torn_at _ _ _ (with_torn (TEnded r) s)); rewrite E3.
  - intros i Hne. rewrite set_torn_other, E3 by done. unfold w2. rewrite set_torn_other by done. by apply (set_torn_other sid (TRemoved r) (remove (channelName s) w)).
Qed.

Lemma tearDown_all_effect stateDir failed reason w sid s : Stream.sessions w !! sid = Some s ->
  in_registry (torn s) = true -> is_Some (procs w !! ffmpeg s) ->
  let w' := tearDown_all stateDir failed reason w sid in
  Stream.sessions w' !! sid = Some (with_torn (TDone (reason_after reason (torn s))) s) /\
  (forall i, i <> sid -> Stream.sessions w' !! i = Stream.sessions w !! i) /\
  dirs w' = gone stateDir (channelName s) (dirs w).
Proof.
  intros Hs Hin Hp. unfold tearDown_all.
  assert (H1 : exists w1 r, tearDown sid reason w = w1 /\ r = reason_after reason (torn s) /\
    Stream.sessions w1 !! sid = Some (with_torn (TWaiting r) s) /\
    (forall i, i <> sid -> Stream.sessions w1 !! i = Stream.sessions w !! i) /\ dirs w1 = dirs w /\ is_Some (procs w1 !! ffmpeg s)).
  { eexists _, _. split; [done|]. split; [done|]. unfold tearDown. rewrite Hs. destruct (torn s) as [|r|r|r|r] eqn:Ht; try done.
    - split_and!; [by apply set_torn_at | intros i Hne; by rewrite set_torn_other | done | by apply alter_proc].
    - split_and!; [rewrite Hs; f_equal; destruct s; simpl in *; by subst | done..]. }
  destruct H1 as (w1 & r & -> & <- & Hs1 & Ho1 & Hd1 & Hp1). rewrite Hs1. cbn [ffmpeg with_torn].
  set (w2 := set_procs _ w1).
  assert (Hx : exists b, exited (ffmpeg s) w2 = Some b).
  { unfold exited, w2. simpl. rewrite list_lookup_alter_eq. destruct Hp1 as [x ->]. simpl. unfold exit_proc.
    destruct (p_exited x) eqn:E; [by exists b | by exists failed]. }
  destruct Hx as [b Hx].
  destruct (tear_steps stateDir w2 sid (with_torn (TWaiting r) s) r b Hs1 eq_refl Hx) as (G1 & G2 & G3 & _).
  split_and!; [done | intros i Hne; rewrite G2 by done; by apply Ho1 | by rewrite G3; unfold w2; simpl; rewrite Hd1].
Qed.

Lemma shutdown_fold stateDir failed l : forall w, NoDup l -> procs_ok w ->
  (forall sid, sid ∈ l -> exists s, Stream.sessions w !! sid = Some s /\ in_registry (torn s) = true) ->
  let w' := foldl (tearDown_all stateDir failed "orphan_swept") w l in
  (exists acts, Forall healthy acts /\ w' = lrun stateDir w acts) /\
  (forall sid s, sid ∈ l -> Stream.sessions w !! sid = Some s ->
     Stream.sessions w' !! sid = Some (with_torn (TDone (reason_after "orphan_swept" (torn s))) s)) /\
  (forall sid, sid ∉ l -> Stream.sessions w' !! sid = Stream.sessions w !! sid) /\
  dirs w' ⊆ dirs w /\
  (forall sid s, sid ∈ l -> Stream.sessions w !! sid = Some s -> stateDir <> "" -> channelName s ∉ dirs w').
Proof.
  induction l as [|a l IH]; intros w Hnd Hp Hl.
  { simpl. split_and!; [exists []; split; [constructor | done]|intros ?? []%not_elem_of_nil|done|done|intros ?? []%not_elem_of_nil]. }
  apply NoDup_cons in Hnd as [Ha Hnd]. destruct (Hl a) as (s & Hs & Hin); [left|]. cbn [foldl].
  destruct (tearDown_all_effect stateDir failed "orphan_swept" w a s Hs Hin (po_sessions w Hp a s Hs)) as (E1 & E2 & E3).
  rewrite (tearDown_all_lrun stateDir failed w a s Hs) in *. set (w1 := lrun stateDir w _) in *.
  destruct (IH w1 Hnd) as ((acts & Hh & Hw') & G2 & G3 & G4 & G5).
  { by apply lrun_procs. }
  { intros i Hi. rewrite E2 by congruence. apply Hl. by right. }
  assert (Hsub : gone stateDir (channelName s) (dirs w) ⊆ dirs w) by (unfold gone; destruct (String.eqb _ _); set_solver).
  rewrite E3 in G4. set (w' := foldl _ w1 l) in *. split_and!.
  - eexists (_ ++ acts). split; [|unfold lrun; rewrite foldl_app; exact Hw']. apply Forall_app; split; [|done]. repeat constructor.
  - intros i x [->|Hi]%elem_of_cons Hx; [|by apply G2; [|rewrite E2 by congruence]].
    rewrite G3 by done. by simplify_eq.
  - intros i Hi. rewrite not_elem_of_cons in Hi. destruct Hi as [Hne Hi]. by rewrite G3, E2.
  - by transitivity (gone stateDir (channelName s) (dirs w)).
  - intros i x [->|Hi]%elem_of_cons Hx Hdir; [|by apply (G5 i); [|rewrite E2 by congruence|]]. simplify_eq.
    intros Hd%G4. unfold gone in Hd. apply String.eqb_neq in Hdir. rewrite Hdir in Hd. set_solver.
Qed.

Lemma snapshot_spec w : registry_ok w ->
  NoDup (snapshot w) /\ (forall sid, sid ∈ snapshot w <-> exists name, registered w name sid).
Proof.
  intros H. assert (Hin : forall sid, sid ∈ snapshot w <-> exists name, registered w name sid).
  { intros sid. unfold snapshot. rewrite list_elem_of_fmap. split.
    - intros ([name i] & -> & Hi%elem_of_map_to_list). exists name. by apply H.
    - intros (name & Hr%H). exists (name, sid). split; [done | by apply elem_of_map_to_list]. }
  split; [|done]. unfold snapshot. apply NoDup_fmap_2_strong; [|apply NoDup_map_to_list].
  intros [n1 i] [n2 j] H1%elem_of_map_to_list H2%elem_of_map_to_list. simpl. intros ->.
  apply H in H1 as (x & Hx & <- & _), H2 as (y & Hy & <- & _). by simplify_eq.
Qed.

Lemma ShutdownLive_effect stateDir failed s ds acts :
  quiet s -> Forall healthy acts ->
  let w := lrun stateDir (new_live s ds) acts in
  let w' := ShutdownLive stateDir failed w in
  (exists acts', Forall healthy acts' /\ w' = lrun stateDir w acts') /\ byName w' = ∅ /\ ListLive w' = [] /\
  forall name sid p, registered w name sid -> Stream.sessions w !! sid = Some p ->
    exists r x, r = reason_after "orphan_swept" (torn p) /\
      Stream.sessions w' !! sid = Some (with_torn (TDone r) p) /\
      rows_of w' !! dbRowID p = Some x /\ open_row x = false /\ ss_EndReason x = Some r /\
      (stateDir <> "" -> name ∉ dirs w').
Proof.
  intros Hq Ha w w'. assert (Hreg : registry_ok w) by (apply lrun_registry, new_live_registry).
  destruct (snapshot_spec w Hreg) as [Hnd Hsnap].
  destruct (shutdown_fold stateDir failed (snapshot w) w Hnd) as ((acts' & Hh & Hw') & G2 & G3 & _ & G5).
  { apply lrun_procs, new_live_procs. }
  { intros sid (name & x & Hx & _ & Hr)%Hsnap. by exists x. }
  change (foldl _ w (snapshot w)) with w' in *.
  assert (Hrows : rows_ok w') by (rewrite Hw'; apply lrun_rows; [apply lrun_rows; [by apply new_live_rows | done] | done]).
  assert (Hreg' : registry_ok w') by (rewrite Hw'; by apply lrun_registry).
  assert (Hempty : byName w' = ∅).
  { apply map_eq. intros name. rewrite lookup_empty. destruct (byName w' !! name) as [sid|] eqn:E; [exfalso|done].
    apply Hreg' in E as (x & Hx & Hn & Hr). destruct (decide (sid ∈ snapshot w)) as [Hin|Hout].
    - apply Hsnap in Hin as Hin'. destruct Hin' as (n & y & Hy & _ & _). rewrite (G2 sid y Hin Hy) in Hx. by injection Hx as <-.
    - apply Hout, Hsnap. exists name. rewrite G3 in Hx by done. by exists x. }
  split; [by exists acts'|]. split_and!; [done | unfold ListLive, snapshot; by rewrite Hempty, map_to_list_empty|].
  intros name sid p Hr Hp. assert (Hin : sid ∈ snapshot w) by (apply Hsnap; by exists name).
  pose proof (G2 sid p Hin Hp) as Hdone. set (r := reason_after _ _) in *.
  assert (Ho : own_of w' (OSession sid) = Some (dbRowID p, Some (TDone r))) by (simpl; by rewrite Hdone).
  destruct (ri_row _ _ _ _ (ro_inv w' Hrows) _ _ _ Ho) as (_ & _ & x & Hx & Hop & Hend).
  exists r, x. split_and!; [done..|]. destruct Hr as (y & Hy & <- & _). simplify_eq. by apply G5 with sid.
Qed.

(** A shutdown leaves nothing behind. From every state a healthy run
    reaches, and however its processes end, [ShutdownLive] returns with an
    empty registry (so nothing is listed as live), and every pipeline it found
    is torn down completely: its row is closed with the reason
    "orphan_swept", or with the reason of a tear down that was already under
    way, and its directory is gone. *)
Theorem shutdown_closes_everything stateDir failed s ds acts :
  quiet s -> Forall healthy acts ->
  let w := lrun stateDir (new_live s ds) acts in
  let w' := ShutdownLive stateDir failed w in
  byName w' = ∅ /\ ListLive w' = [] /\
  forall name sid p, registered w name sid -> Stream.sessions w !! sid = Some p ->
    exists r x, r = reason_after "orphan_swept" (torn p) /\
      Stream.sessions w' !! sid = Some (with_torn (TDone r) p) /\
      rows_of w' !! dbRowID p = Some x /\ open_row x = false /\ ss_EndReason x = Some r /\
      (stateDir <> "" -> name ∉ dirs w').
Proof. intros Hq Ha. apply ShutdownLive_effect; done. Qed.

Lemma shutdown_closes_everything_witness :
  let w := lrun "state" (new_live bobs_store ∅) ([LConnect plain_key] ++ publish_all 0) in
  byName w = {["bob" := 0%nat]} /\ byName (ShutdownLive "state" true w) = ∅ /\
  exists p, Stream.sessions w !! 0%nat = Some p /\ exists r x, r = reason_after "orphan_swept" (torn p) /\
      Stream.sessions (ShutdownLive "state" true w) !! 0%nat = Some (with_torn (TDone r) p) /\
      rows_of (ShutdownLive "state" true w) !! dbRowID p = Some x /\ open_row x = false /\ ss_EndReason x = Some r /\
      ("state" <> "" -> "bob" ∉ dirs (ShutdownLive "state" true w)).
Proof.
  assert (H := shutdown_closes_everything "state" true bobs_store ∅ ([LConnect plain_key] ++ publish_all 0)).
  destruct H as (H1 & _ & H3).
  { split_and!; [done|done|]. intros id x. simpl. by rewrite lookup_empty. }
  { repeat constructor. }
  intros w. split; [vm_compute; reflexivity|]. split; [exact H1|].
  eexists. split; [vm_compute; reflexivity|]. apply (H3 "bob"); [|vm_compute; reflexivity].
  eexists. split; [vm_compute; reflexivity | split; vm_compute; reflexivity].
Defined.
