(* ===== verification/StreamBoot.v ===== *)
(** * The stream service at boot, one publish, and how pipelines collide *)

From S2P Require Import Prelude Utf8 Encoding Errors StreamKey Store StoreInv Auth Stream StreamThms StreamRows StreamProps.
Local Open Scope Z_scope.

Lemma MarkOpenStreamSessionsOrphaned_fine s : faults s = [] ->
  MarkOpenStreamSessionsOrphaned s =
  (set_db (set_stream_sessions (end_row (pg_now s) "orphan_swept" <$> stream_sessions (db s))
             (next_stream_session (db s)) (db s)) s, Ok tt).
Proof. intros Hf. unfold MarkOpenStreamSessionsOrphaned. by rewrite statement_fine. Qed.

(** A boot puts the previous process's leftovers in order. When the
    database answers, every stream row is closed after [RecoverOnBoot]: the
    open ones now, as "orphan_swept", the others are as they were, and nothing
    else in the database changes (so the accounting of the rows starts from a
    quiet database); it succeeds exactly when the state directory can be read
    and made, and then no directory is left but the ones that could not be
    removed. When the database does not answer, the directories stay. *)
Theorem boot_recovery stateDir readdir mkdir stuck w w' r :
  RecoverOnBoot stateDir readdir mkdir stuck w = (w', r) ->
  (faults (st w) = [] ->
    (forall id, rows_of w' !! id = end_row (pg_now (st w)) "orphan_swept" <$> (rows_of w !! id)) /\
    (forall id x, rows_of w' !! id = Some x -> open_row x = false) /\
    users (db (st w')) = users (db (st w)) /\ channels (db (st w')) = channels (db (st w)) /\
    Store.sessions (db (st w')) = Store.sessions (db (st w)) /\
    (ok (db (st w)) -> 1 <= next_stream_session (db (st w)) -> quiet (st w')) /\
    (r = Ok tt <-> stateDir = "" \/ (readdir = true /\ mkdir = true)) /\
    (stateDir <> "" -> readdir = true -> dirs w' = dirs w ∩ stuck)) /\
  (r = Err (EWrap "mark orphan sessions" EConn) -> dirs w' = dirs w) /\
  byName w' = byName w /\ Stream.sessions w' = Stream.sessions w.
Proof.
  unfold RecoverOnBoot, wrapping, catch. intros H.
  assert (Hend : forall x, open_row (end_row (pg_now (st w)) "orphan_swept" x) = false).
  { intros x. unfold open_row, end_row. by destruct (ss_EndedAt x) eqn:E; simpl; rewrite ?E. }
  split; [intros Hf|].
  - rewrite (MarkOpenStreamSessionsOrphaned_fine _ Hf) in H. cbn beta iota in H.
    set (s1 := set_db _ (st w)) in H.
    assert (Hst : st w' = s1).
    { destruct (String.eqb stateDir ""), readdir, mkdir; simpl in H; by injection H as <- _. }
    unfold rows_of. rewrite Hst. unfold s1. cbn [db set_db set_stream_sessions stream_sessions users channels Store.sessions].
    split_and!; [by intros id; rewrite lookup_fmap| |done..| | |].
    + intros id x. rewrite lookup_fmap. intros (y & _ & ->)%fmap_Some. apply Hend.
    + intros Hok Hn. split_and!; [done|done|]. intros id x. simpl. rewrite lookup_fmap.
      intros (y & Hy & ->)%fmap_Some. split; [|apply Hend]. by apply (k_streams _ (ok_schema _ Hok)) in Hy as (_ & ? & _).
    + destruct (String.eqb_spec stateDir ""), readdir, mkdir; simpl in H; injection H as _ <-; split; auto; try done;
        by intros [|[]].
    + intros Hd ->. apply String.eqb_neq in Hd. rewrite Hd in H. destruct mkdir; by injection H as <- _.
  - destruct (MarkOpenStreamSessionsOrphaned (st w)) as [s1 [[]|e]]; cbn beta iota in H.
    + destruct (String.eqb stateDir ""), readdir, mkdir; simpl in H; by injection H as <- <-.
    + by injection H as <- <-.
Qed.

(** The previous process was killed with one stream on the air. *)
Lemma boot_recovery_witness :
  let w0 := lrun "state" (new_live bobs_store ∅) ([LConnect plain_key] ++ publish_all 0) in
  let w := new_live (st w0) (dirs w0) in
  let '(w', r) := RecoverOnBoot "state" true true ∅ w in
  map (fun x => open_row x.2) (map_to_list (rows_of w)) = [true] /\
  (forall id x, rows_of w' !! id = Some x -> open_row x = false) /\ dirs w' = dirs w ∩ ∅.
Proof.
  intros w0 w. destruct (RecoverOnBoot "state" true true ∅ w) as [w' r] eqn:E.
  destruct (boot_recovery "state" true true ∅ w w' r E) as (H & _).
  destruct H as (_ & H1 & _ & _ & _ & _ & _ & H2); [vm_compute; reflexivity|].
  split; [vm_compute; reflexivity|]. split; [exact H1 | apply H2; [discriminate | reflexivity]].
Defined.

(** ** One [OnPublish], nothing else running *)
Definition at_state (w : live) (h : nat) (p : pstate) : Prop := exists hd, handlers w !! h = Some hd /\ h_state hd = p.

Lemma at_set_handler h p w0 w q : at_state w h q -> handlers w0 = handlers w -> at_state (set_handler h p w0) h p.
Proof. intros (hd & Hh & _) E. eexists. simpl. by rewrite E, list_lookup_alter_eq, Hh. Qed.

Definition goes (h : nat) (w w' : live) : Prop := publish_step h true w = w'.

Lemma goes_found h hd ch w : handlers w !! h = Some hd -> h_state hd = PStart -> h_key hd <> "" ->
  lookupChannelByStreamKey (h_key hd) (st w) = (st w, Ok ch) -> goes h w (set_handler h (PFound ch) (set_st (st w) w)).
Proof.
  intros Hh Hp Hk Hl. unfold goes, publish_step. rewrite Hh, Hp. apply String.eqb_neq in Hk. by rewrite Hk, Hl.
Qed.

(** The row a publish inserts, and the database with it. *)
Definition fresh_row (w : live) (ch : Channel) : StreamSession :=
  {| ss_ID := next_stream_session (db (st w)); ss_ChannelID := c_ID ch; ss_StartedAt := timestamptz (clock (st w));
     ss_EndedAt := None; ss_EndReason := None |}.
Definition with_row (w : live) (x : StreamSession) : store :=
  set_db (set_stream_sessions (<[ss_ID x := x]> (rows_of w)) (ss_ID x + 1) (db (st w))) (st w).

Lemma goes_row h ch w : at_state w h (PFound ch) -> faults (st w) = [] -> is_Some (channels (db (st w)) !! c_ID ch) ->
  goes h w (set_handler h (PRow {| pb_channel := ch; pb_startedAt := clock (st w); pb_row := fresh_row w ch |})
              (set_st (with_row w (fresh_row w ch)) w)).
Proof.
  intros (hd & Hh & Hp) Hf [c Hc]. unfold goes, publish_step. rewrite Hh, Hp. unfold wrapping, catch, CreateStreamSession.
  rewrite statement_fine by done. rewrite Hc. done.
Qed.

Lemma goes_dir h pb w : at_state w h (PRow pb) ->
  goes h w (set_handler h (PDir pb) (set_dirs ({[c_Name (pb_channel pb)]} ∪ dirs w) w)).
Proof. intros (hd & Hh & Hp). unfold goes, publish_step. by rewrite Hh, Hp. Qed.

Lemma goes_proc h pb w : at_state w h (PDir pb) ->
  goes h w (set_handler h (PProc pb (length (procs w))) (set_procs (procs w ++ [new_proc (c_Name (pb_channel pb))]) w)).
Proof. intros (hd & Hh & Hp). unfold goes, publish_step. by rewrite Hh, Hp. Qed.

Lemma goes_enc h pb p w : at_state w h (PProc pb p) -> goes h w (set_handler h (PEnc pb p) w).
Proof. intros (hd & Hh & Hp). unfold goes, publish_step. by rewrite Hh, Hp. Qed.

Definition pipeline (pb : publication) (p : nat) : session :=
  {| channelID := c_ID (pb_channel pb); channelName := c_Name (pb_channel pb); title := c_Title (pb_channel pb);
     startedAt := pb_startedAt pb; ffmpeg := p; dbRowID := ss_ID (pb_row pb); torn := TIdle |}.

Lemma goes_live h pb p w : at_state w h (PEnc pb p) -> byName w !! c_Name (pb_channel pb) = None ->
  goes h w (set_handler h (PLive (length (Stream.sessions w))) (Stream.set_sessions (Stream.sessions w ++ [pipeline pb p])
              (set_byName (<[c_Name (pb_channel pb) := length (Stream.sessions w)]> (byName w)) w))).
Proof. intros (hd & Hh & Hp) Hn. unfold goes, publish_step. rewrite Hh, Hp. unfold add. cbn [channelName]. by rewrite Hn. Qed.

Lemma goes_lost h pb p sid w : at_state w h (PEnc pb p) -> byName w !! c_Name (pb_channel pb) = Some sid ->
  goes h w (set_handler h (PLost pb) (set_procs (alter (fun x => kill (close_stdin x)) p (procs w)) w)).
Proof. intros (hd & Hh & Hp) Hn. unfold goes, publish_step. rewrite Hh, Hp. unfold add. cbn [channelName]. by rewrite Hn. Qed.

Lemma goes_refused h pb x w : at_state w h (PLost pb) -> faults (st w) = [] -> rows_of w !! ss_ID (pb_row pb) = Some x ->
  goes h w (set_handler h (PFailed ErrAlreadyLive)
    (set_st (set_db (set_stream_sessions (<[ss_ID (pb_row pb) := end_row (timestamptz (clock (st w))) "orphan_swept" x]> (rows_of w))
       (next_stream_session (db (st w))) (db (st w))) (st w)) w)).
Proof. intros (hd & Hh & Hp) Hf Hx. unfold goes, publish_step. rewrite Hh, Hp. by rewrite (EndStreamSession_fine _ _ _ _ x). Qed.

Lemma lookup_finds key s ch : faults s = [] -> (lookupChannelByStreamKey key s).2 = Ok ch ->
  lookupChannelByStreamKey key s = (s, Ok ch) /\ exists id, channels (db s) !! id = Some ch /\ c_StreamKeyHash ch = HashKey key.
Proof.
  intros Hf. destruct (lookup_fine key s Hf) as (r & E). rewrite E. simpl. intros ->. split; [done|].
  revert E. unfold lookupChannelByStreamKey, no_rows_to, catch, GetChannelByStreamKeyHash. rewrite statement_fine by done.
  unfold with_texts. destruct (texts_ok _); [|done]. simpl.
  destruct (select _ _) as [c|] eqn:Es; simpl; [|done]. intros [= _ <-].
  apply select_Some in Es as (id & Hid & Hh). exists id. split; [done | by apply String.eqb_eq].
Qed.

Lemma goes_step stateDir h w w' n : goes h w w' ->
  lrun stateDir w (repeat (LPublish h true) (S n)) = lrun stateDir w' (repeat (LPublish h true) n).
Proof. unfold goes. by intros <-. Qed.

(** The pipeline of a publisher up to the encoder. *)
Definition up_to_encoder (h : nat) (ch : Channel) (w : live) : live :=
  let pb := {| pb_channel := ch; pb_startedAt := clock (st w); pb_row := fresh_row w ch |} in
  set_handler h (PEnc pb (length (procs w)))
    (set_handlers (handlers (set_handler h (PProc pb (length (procs w))) (set_handler h (PDir pb) (set_handler h (PRow pb) (set_handler h (PFound ch) w)))))
      (set_procs (procs w ++ [new_proc (c_Name ch)]) (set_dirs ({[c_Name ch]} ∪ dirs w) (set_st (with_row w (fresh_row w ch)) w)))).

Lemma publish_to_encoder stateDir h hd ch w n : handlers w !! h = Some hd -> h_state hd = PStart -> h_key hd <> "" ->
  faults (st w) = [] -> lookupChannelByStreamKey (h_key hd) (st w) = (st w, Ok ch) -> is_Some (channels (db (st w)) !! c_ID ch) ->
  lrun stateDir w (repeat (LPublish h true) (5 + n)) = lrun stateDir (up_to_encoder h ch w) (repeat (LPublish h true) n) /\
  lrun stateDir w (repeat (LPublish h true) 5) = up_to_encoder h ch w /\
  at_state (up_to_encoder h ch w) h (PEnc {| pb_channel := ch; pb_startedAt := clock (st w); pb_row := fresh_row w ch |} (length (procs w))).
Proof.
  intros Hh Hp Hk Hf Hl Hc. set (pb := {| pb_channel := ch; pb_startedAt := clock (st w); pb_row := fresh_row w ch |}).
  assert (A0 : at_state w h PStart) by (by exists hd).
  pose proof (goes_found h hd ch w Hh Hp Hk Hl) as G1. set (w1 := set_handler h (PFound ch) _) in G1.
  assert (A1 : at_state w1 h (PFound ch)) by (by apply (at_set_handler h _ _ w PStart)).
  pose proof (goes_row h ch w1 A1 Hf Hc) as G2. change (fresh_row w1 ch) with (fresh_row w ch) in G2. set (w2 := set_handler h _ _) in G2.
  assert (A2 : at_state w2 h (PRow pb)) by (by apply (at_set_handler h _ _ w1 (PFound ch))).
  pose proof (goes_dir h pb w2 A2) as G3. set (w3 := set_handler h _ _) in G3.
  assert (A3 : at_state w3 h (PDir pb)) by (by apply (at_set_handler h _ _ w2 (PRow pb))).
  pose proof (goes_proc h pb w3 A3) as G4. set (w4 := set_handler h _ _) in G4.
  assert (A4 : at_state w4 h (PProc pb (length (procs w)))) by (by apply (at_set_handler h _ _ w3 (PDir pb))).
  pose proof (goes_enc h pb _ w4 A4) as G5.
  assert (A5 : at_state (set_handler h (PEnc pb (length (procs w))) w4) h (PEnc pb (length (procs w)))) by (by apply (at_set_handler h _ _ w4 (PProc pb (length (procs w))))).
  change (set_handler h (PEnc pb (length (procs w))) w4) with (up_to_encoder h ch w) in *.
  split_and!; [|rewrite <- (Nat.add_0_r 5)|done]; cbn [Nat.add];
    by rewrite (goes_step _ h w w1), (goes_step _ h w1 w2), (goes_step _ h w2 w3), (goes_step _ h w3 w4), (goes_step _ h w4 _ _ G5).
Qed.

Lemma up_to_encoder_fields h ch w : let w5 := up_to_encoder h ch w in
  st w5 = with_row w (fresh_row w ch) /\ byName w5 = byName w /\ Stream.sessions w5 = Stream.sessions w /\
  procs w5 = procs w ++ [new_proc (c_Name ch)] /\ dirs w5 = {[c_Name ch]} ∪ dirs w.
Proof. done. Qed.

(** The registry decides. *)
Lemma encoder_wins stateDir h pb p w : at_state w h (PEnc pb p) -> byName w !! c_Name (pb_channel pb) = None ->
  let w' := lrun stateDir w (repeat (LPublish h true) 1) in
  at_state w' h (PLive (length (Stream.sessions w))) /\
  GetByName (c_Name (pb_channel pb)) w' = Some (toDTO (pipeline pb p)) /\
  st w' = st w /\ procs w' = procs w.
Proof.
  intros A Hn w'. unfold w'. rewrite (goes_step _ h w _ _ (goes_live h pb _ w A Hn)). cbn [repeat lrun foldl].
  split_and!; [by apply (at_set_handler h _ _ w _ A)| |done|done].
  unfold GetByName, get. simpl. rewrite lookup_insert_eq. simpl. by rewrite lookup_app_r, Nat.sub_diag by done.
Qed.

Lemma encoder_loses stateDir h pb p sid x w : at_state w h (PEnc pb p) -> byName w !! c_Name (pb_channel pb) = Some sid ->
  faults (st w) = [] -> rows_of w !! ss_ID (pb_row pb) = Some x ->
  let w' := lrun stateDir w (repeat (LPublish h true) 2) in
  at_state w' h (PFailed ErrAlreadyLive) /\ byName w' = byName w /\ Stream.sessions w' = Stream.sessions w /\
  procs w' = alter (fun x => kill (close_stdin x)) p (procs w) /\
  rows_of w' = <[ss_ID (pb_row pb) := end_row (timestamptz (clock (st w))) "orphan_swept" x]> (rows_of w).
Proof.
  intros A Hn Hf Hx w'. unfold w'. rewrite (goes_step _ h w _ _ (goes_lost h pb _ sid w A Hn)).
  set (w6 := set_handler h (PLost pb) _). assert (A6 : at_state w6 h (PLost pb)) by (by apply (at_set_handler h _ _ w _ A)).
  rewrite (goes_step _ h w6 _ _ (goes_refused h pb _ w6 A6 Hf Hx)). cbn [repeat lrun foldl].
  by split_and!; [apply (at_set_handler h _ _ w6 _ A6)|..].
Qed.

(** C40: what one publish does when nothing fails. With a key whose hash is a
    channel's, [OnPublish] makes the channel's directory and starts an ffmpeg
    in it, whatever the registry says. If the channel is not live, it then is:
    under its name, with its title and the time of the publish, and with an
    open row. If it is live already, the publisher is refused with "channel
    already live", the registry and every pipeline are as they were, the new
    ffmpeg is killed and the new row closed as "orphan_swept"; but the second
    ffmpeg has run in the directory of the first. *)
Theorem publish_alone stateDir h hd ch w (after := fun n => lrun stateDir w (repeat (LPublish h true) n)) :
  handlers w !! h = Some hd -> h_state hd = PStart -> h_key hd <> "" -> faults (st w) = [] -> ok (db (st w)) ->
  (lookupChannelByStreamKey (h_key hd) (st w)).2 = Ok ch ->
  (c_Name ch ∈ dirs (after 5%nat) /\ procs (after 5%nat) = procs w ++ [new_proc (c_Name ch)] /\ byName (after 5%nat) = byName w) /\
  (byName w !! c_Name ch = None ->
     at_state (after 6%nat) h (PLive (length (Stream.sessions w))) /\
     GetByName (c_Name ch) (after 6%nat) = Some {| ChannelName := c_Name ch; Title := c_Title ch; StartedAt := clock (st w) |} /\
     rows_of (after 6%nat) = <[ss_ID (fresh_row w ch) := fresh_row w ch]> (rows_of w) /\
     procs (after 6%nat) = procs w ++ [new_proc (c_Name ch)]) /\
  (is_Some (byName w !! c_Name ch) ->
     at_state (after 7%nat) h (PFailed ErrAlreadyLive) /\
     byName (after 7%nat) = byName w /\ Stream.sessions (after 7%nat) = Stream.sessions w /\
     procs (after 7%nat) = procs w ++ [kill (close_stdin (new_proc (c_Name ch)))] /\
     rows_of (after 7%nat) = <[ss_ID (fresh_row w ch) := end_row (timestamptz (clock (st w))) "orphan_swept" (fresh_row w ch)]> (rows_of w)).
Proof.
  intros Hh Hp Hk Hf Hok Hl. destruct (lookup_finds _ _ _ Hf Hl) as (Hl' & id & Hid & _).
  assert (Hc : is_Some (channels (db (st w)) !! c_ID ch)) by (by rewrite (proj1 (k_channels _ (ok_schema _ Hok) _ _ Hid)); eauto).
  pose proof (fun n => publish_to_encoder stateDir h hd ch w n Hh Hp Hk Hf Hl' Hc) as G. unfold after. clear after.
  destruct (G 0%nat) as (_ & G5 & A5). rewrite G5. pose proof (proj1 (G 1%nat)) as G6. pose proof (proj1 (G 2%nat)) as G7.
  cbn [Nat.add] in G6, G7. rewrite G6, G7. clear G G5 G6 G7.
  destruct (up_to_encoder_fields h ch w) as (F1 & F2 & F3 & F4 & F5).
  generalize dependent (up_to_encoder h ch w). intros w5 A5 F1 F2 F3 F4 F5. set (pb := Build_publication _ _ _) in *.
  assert (F6 : rows_of w5 = <[ss_ID (fresh_row w ch) := fresh_row w ch]> (rows_of w)) by (unfold rows_of; by rewrite F1).
  split_and!; [rewrite F5; set_solver|done|done| |].
  - intros Hn. rewrite <- F2 in Hn. destruct (encoder_wins stateDir h pb _ w5 A5 Hn) as (W1 & W2 & W3 & W4).
    rewrite F3 in W1. rewrite W4. split_and!; [done|exact W2| |done]. unfold rows_of at 1. by rewrite W3.
  - intros [sid Hn]. rewrite <- F2 in Hn. destruct (encoder_loses stateDir h pb _ sid (fresh_row w ch) w5 A5 Hn) as (L1 & L2 & L3 & L4 & L5).
    { by rewrite F1. } { rewrite F6. by apply lookup_insert_eq. }
    rewrite L2, L3, L4, L5, F2, F3, F4, F6, F1. split_and!; [done..| |].
    + rewrite alter_app_r_alt by done. by rewrite Nat.sub_diag.
    + by rewrite insert_insert_eq.
Qed.

Lemma bobs_db_ok : ok bobs_db.
Proof.
  split; [split|]; simpl.
  - intros id u. rewrite lookup_singleton_Some. intros [<- <-]. by split.
  - intros id c. rewrite lookup_singleton_Some. intros [<- <-]. by split.
  - intros t x. by rewrite lookup_empty.
  - intros id x. by rewrite lookup_empty.
  - intros i j u v. rewrite !lookup_singleton_Some. by intros [<- _] [<- _].
  - intros i j u v. rewrite !lookup_singleton_Some. by intros [<- _] [<- _].
  - intros i j u v. rewrite !lookup_singleton_Some. by intros [<- _] [<- _].
  - intros i j u v. rewrite !lookup_singleton_Some. by intros [<- _] [<- _].
  - intros i c. rewrite lookup_singleton_Some. intros [<- <-]. by eexists.
  - intros i c u. simpl. rewrite !lookup_singleton_Some. by intros [<- <-] [_ <-].
Qed.

(** The second of two publishers with bob's key. *)
Definition bob_live : live := lrun "state" (new_live bobs_store ∅) ([LConnect plain_key] ++ publish_all 0 ++ [LConnect plain_key]).

Lemma publish_alone_witness :
  let after n := lrun "state" bob_live (repeat (LPublish 1 true) n) in
  byName bob_live = {["bob" := 0%nat]} /\
  (at_state (after 7%nat) 1 (PFailed ErrAlreadyLive) /\
     byName (after 7%nat) = byName bob_live /\ Stream.sessions (after 7%nat) = Stream.sessions bob_live /\
     procs (after 7%nat) = procs bob_live ++ [kill (close_stdin (new_proc "bob"))] /\
     rows_of (after 7%nat) = <[ss_ID (fresh_row bob_live bob) :=
       end_row (timestamptz (clock (st bob_live))) "orphan_swept" (fresh_row bob_live bob)]> (rows_of bob_live)).
Proof.
  intros after. split; [vm_compute; reflexivity|].
  apply (publish_alone "state" 1 {| h_key := plain_key; h_state := PStart |} bob bob_live).
  - vm_compute; reflexivity.
  - reflexivity.
  - vm_compute; discriminate.
  - vm_compute; reflexivity.
  - assert (Hok : ok (db (st bob_live))); [|exact Hok].
    assert (E : db (st bob_live) = (CreateStreamSession 1 5000 bobs_store).1.(db)) by (vm_compute; reflexivity).
    rewrite E. eapply CreateStreamSession_ok; [apply surjective_pairing | apply bobs_db_ok].
  - vm_compute; reflexivity.
  - exists 0%nat. vm_compute; reflexivity.
Defined.

(** A tear down's last step can destroy the stream of the channel's next
    publisher. Between the removal from the registry and the removal of the
    directory the name is free; if the channel has been published again in the
    meantime, the last step of the old pipeline removes the directory the new
    one writes into, while the new one stays in the registry, untouched, with
    its process running; and no step but another publish makes it again. *)
Theorem old_pipeline_deletes_new_directory stateDir w i j p q r acts :
  stateDir <> "" -> registry_ok w -> Stream.sessions w !! i = Some p -> torn p = TEnded r ->
  registered w (channelName p) j -> Stream.sessions w !! j = Some q ->
  Forall (fun a => match a with LPublish _ _ => False | _ => True end) acts ->
  let w' := lstep stateDir w (LTear i) in
  byName w' !! channelName p = Some j /\ Stream.sessions w' !! j = Some q /\ procs w' = procs w /\
  channelName p ∉ dirs (lrun stateDir w' acts).
Proof.
  intros Hd Hreg Hi Ht Hj Hq Ha w'. apply String.eqb_neq in Hd.
  assert (E : w' = set_torn i (TDone r) (set_dirs (dirs w ∖ {[channelName p]}) w)).
  { unfold w'. cbn [lstep]. unfold tear_step. by rewrite Hi, Ht, Hd. }
  assert (Hne : j <> i).
  { intros ->. destruct Hj as (x & Hx & _ & Hr). simplify_eq. by rewrite Ht in Hr. }
  rewrite E. split_and!.
  - by apply Hreg.
  - rewrite set_torn_other by done. exact Hq.
  - done.
  - assert (Hsub : forall w0, dirs (lrun stateDir w0 acts) ⊆ dirs w0).
    { induction Ha as [|a acts Hna _ IH]; intros w0; [done|]. simpl. transitivity (dirs (lstep stateDir w0 a)); [apply IH|].
      assert (Htd : forall sid x w1, dirs (tearDown sid x w1) = dirs w1).
      { intros sid x w1. unfold tearDown. destruct (Stream.sessions w1 !! sid) as [s|]; [|done]. by destruct (torn s). }
      destruct a as [| |h| |sid|sid|sid|sid|]; try done; simpl.
      - unfold OnClose. destruct (handlers w0 !! h) as [hd|]; [|done]. destruct (h_state hd); try done. by rewrite Htd.
      - unfold watchdog. destruct (Stream.sessions w0 !! sid) as [s|]; [|done]. destruct (exited _ _); [by rewrite Htd | done].
      - by rewrite Htd.
      - unfold grace_expired. destruct (Stream.sessions w0 !! sid) as [s|]; [|done]. by destruct (torn s).
      - unfold tear_step. destruct (Stream.sessions w0 !! sid) as [s|]; [|done]. destruct (torn s); try done.
        + by destruct (exited _ _).
        + destruct (_ =? _); [done|]. by destruct (EndStreamSession _ _ _ _).
        + destruct (String.eqb stateDir ""); [done|]. simpl. set_solver. }
    intros Hin%Hsub. simpl in Hin. set_solver.
Qed.

(** Bob's encoder reconnects while his first pipeline is being torn down. *)
Definition reconnect : list lact :=
  [LConnect plain_key] ++ publish_all 0 ++ [LClose 0; LExit 0 false; LTear 0; LTear 0; LConnect plain_key] ++ publish_all 1.

Lemma old_pipeline_deletes_new_directory_witness :
  let w := lrun "state" (new_live bobs_store ∅) reconnect in
  bool_decide ("bob" ∈ dirs w) = true /\
  exists q, torn q = TIdle /\ let w' := lstep "state" w (LTear 0) in
  byName w' !! "bob" = Some 1%nat /\ Stream.sessions w' !! 1%nat = Some q /\ procs w' = procs w /\
  "bob" ∉ dirs (lrun "state" w' [LTear 0]).
Proof.
  intros w. split; [vm_compute; reflexivity|]. eexists {| channelName := "bob"; torn := TIdle |}. split; [reflexivity|].
  eapply (old_pipeline_deletes_new_directory "state" w 0 1 {| channelName := "bob"; torn := TEnded "normal" |} _ "normal" [LTear 0]).
  - discriminate.
  - apply lrun_registry, new_live_registry.
  - vm_compute; reflexivity.
  - reflexivity.
  - eexists. split; [vm_compute; reflexivity | split; vm_compute; reflexivity].
  - vm_compute; reflexivity.
  - repeat constructor.
Defined.
