(* ===== verification/Shutdown.v ===== *)
(** * The shutdown of the pipelines, while everything else goes on

    [Stream.ShutdownLive] is the loop of service.go run without interruption.
    Here the loop is a goroutine of its own: between its steps publishers
    connect and publish, connections close, processes exit, watchdogs and other
    tear downs run. *)

From S2P Require Import Prelude Utf8 Encoding Errors StreamKey Store StoreInv Auth Stream StreamThms StreamRows StreamProps.
Local Open Scope Z_scope.

(** ** The loop *)
Inductive shutdown :=
| Calling (rest : list nat)                 (* about to call [tearDown] on the first of [rest] *)
| Waiting (sid : nat) (rest : list nat).    (* inside [tearDown], until that body has run to its end *)

(** [sync.Once]: whoever runs the body, [Do] returns when it is over. *)
Definition over (w : live) (sid : nat) : bool :=
  match Stream.sessions w !! sid with
  | Some s => match torn s with TDone _ => true | _ => false end
  | None => false
  end.

Definition ShutdownLive_loop (w : live) : shutdown := Calling (snapshot w).
Definition ShutdownLive_step (w : live) (g : shutdown) : live * shutdown :=
  match g with
  | Calling [] => (w, g)
  | Calling (sid :: rest) => (tearDown sid "orphan_swept" w, Waiting sid rest)
  | Waiting sid rest => (w, if over w sid then Calling rest else g)
  end.
Definition returned (g : shutdown) : bool := match g with Calling [] => true | _ => false end.

Inductive sact := Loop | Other (a : lact).
Definition sstep (stateDir : string) (x : live * shutdown) (a : sact) : live * shutdown :=
  match a with
  | Loop => ShutdownLive_step x.1 x.2
  | Other a => (lstep stateDir x.1 a, x.2)
  end.
Definition srun (stateDir : string) (x : live * shutdown) (acts : list sact) : live * shutdown :=
  foldl (sstep stateDir) x acts.

(** ** Pipelines only advance *)
Definition tear_rank (t : tear) : nat :=
  match t with TIdle => 0 | TWaiting _ => 1 | TRemoved _ => 2 | TEnded _ => 3 | TDone _ => 4 end.
Definition advances (t t' : tear) : Prop :=
  (tear_rank t <= tear_rank t')%nat /\ forall r, reason_of t = Some r -> reason_of t' = Some r.
#[export] Instance advances_preorder : PreOrder advances.
Proof. split; [by intros t; split | intros t1 t2 t3 [A1 A2] [B1 B2]; split; [lia | auto]]. Qed.

Record grows (w w' : live) : Prop := {
  gr_sessions : forall sid s, Stream.sessions w !! sid = Some s ->
    exists t, Stream.sessions w' !! sid = Some (with_torn t s) /\ advances (torn s) t;
  gr_exited : forall p b, exited p w = Some b -> exited p w' = Some b
}.

Lemma with_torn_id s : with_torn (torn s) s = s.
Proof. by destruct s. Qed.

#[export] Instance grows_preorder : PreOrder grows.
Proof.
  split.
  - intros w. split; [|done]. intros sid s Hs. exists (torn s). by rewrite with_torn_id.
  - intros w1 w2 w3 [A1 A2] [B1 B2]. split; [|auto]. intros sid s Hs. destruct (A1 sid s Hs) as (t & Ht & Hadv).
    destruct (B1 sid _ Ht) as (t' & Ht' & Hadv'). exists t'. split; [exact Ht' | by transitivity t].
Qed.

Lemma grows_same w w' : Stream.sessions w' = Stream.sessions w -> (forall p b, exited p w = Some b -> exited p w' = Some b) -> grows w w'.
Proof. intros Hs Hp. split; [|done]. intros sid s H. exists (torn s). by rewrite Hs, with_torn_id. Qed.

Lemma grows_set_torn w w0 sid t s : Stream.sessions w !! sid = Some s -> Stream.sessions w0 = Stream.sessions w ->
  (forall p b, exited p w = Some b -> exited p w0 = Some b) -> advances (torn s) t -> grows w (set_torn sid t w0).
Proof.
  intros Hs E Hp Ht. split; [|done]. intros i x Hx. destruct (decide (i = sid)) as [->|Hne].
  - exists t. rewrite set_torn_at with (s := s) by (by rewrite E). by simplify_eq.
  - exists (torn x). by rewrite set_torn_other, E, with_torn_id by done.
Qed.

(** What is done to a process leaves an exit that has happened alone. *)
Lemma exited_alter f q w w' : procs w' = alter f q (procs w) -> (forall x b, p_exited x = Some b -> p_exited (f x) = Some b) ->
  forall p b, exited p w = Some b -> exited p w' = Some b.
Proof.
  intros E Hf p b. unfold exited. rewrite E. destruct (decide (p = q)) as [->|Hne].
  - rewrite list_lookup_alter_eq. destruct (procs w !! q) as [x|]; [|done]. simpl. apply Hf.
  - by rewrite list_lookup_alter_ne.
Qed.
Lemma exit_stays f x b : p_exited x = Some b -> p_exited (exit_proc f x) = Some b.
Proof. intros H. unfold exit_proc. by rewrite H. Qed.

Lemma tearDown_grows sid r w : grows w (tearDown sid r w).
Proof.
  unfold tearDown. destruct (Stream.sessions w !! sid) as [s|] eqn:Hs; [|done]. destruct (torn s) eqn:Ht; try done.
  eapply grows_set_torn; [exact Hs | done | by eapply exited_alter | by rewrite Ht; split; [simpl; lia|]].
Qed.

Lemma publish_step_grows h b w : grows w (publish_step h b w).
Proof.
  unfold publish_step. destruct (handlers w !! h) as [hd|]; [|done].
  assert (Hset : forall p w', procs w' = procs w -> Stream.sessions w' = Stream.sessions w -> grows w (set_handler h p w')).
  { intros p w' E1 E2. apply grows_same; [done|]. unfold exited. simpl. by rewrite E1. }
  assert (Hkill : forall p q, grows w (set_handler h p (set_procs (alter (fun x => kill (close_stdin x)) q (procs w)) w))).
  { intros p q. apply grows_same; [done | by eapply exited_alter]. }
  destruct (h_state hd) as [|ch|pb|pb|pb p|pb p|pb| |]; try done.
  - destruct (String.eqb _ _); [by apply Hset|]. destruct (lookupChannelByStreamKey _ _) as [s r]. by apply Hset.
  - destruct (wrapping _ _ _) as [s r]. by apply Hset.
  - by destruct b; apply Hset.
  - destruct b; [|by apply Hset]. apply grows_same; [done|]. intros p x. unfold exited. simpl.
    destruct (procs w !! p) as [y|] eqn:E; [|done]. by rewrite (lookup_app_l_Some _ _ _ _ E).
  - destruct b; [by apply Hset | apply Hkill].
  - unfold add. cbn [channelName]. destruct (byName w !! _); [apply Hkill|]. split; [|done].
    intros sid s Hs. exists (torn s). rewrite with_torn_id. split; [by apply lookup_app_l_Some | done].
  - destruct (EndStreamSession _ _ _ _) as [s r]. by apply Hset.
Qed.

Lemma tear_step_grows stateDir sid w : grows w (tear_step stateDir sid w).
Proof.
  unfold tear_step. destruct (Stream.sessions w !! sid) as [s|] eqn:Hs; [|done].
  destruct (torn s) as [|r|r|r|r] eqn:Ht; try done.
  - destruct (exited _ _); [|done]. apply (grows_set_torn w (remove (channelName s) w) sid _ s); [done..|]. rewrite Ht. by split; [simpl; lia|].
  - destruct (_ =? _); [|destruct (EndStreamSession _ _ _ _) as [d x]];
      (eapply grows_set_torn; [exact Hs | done | done | rewrite Ht; by split; [simpl; lia|]]).
  - eapply grows_set_torn; [exact Hs | by destruct (String.eqb _ _) | by destruct (String.eqb _ _) | rewrite Ht; by split; [simpl; lia|]].
Qed.

Lemma lstep_grows stateDir w a : grows w (lstep stateDir w a).
Proof.
  destruct a as [key|h b|h|p f|sid|sid|sid|sid|t fs cs]; simpl.
  - by apply grows_same.
  - apply publish_step_grows.
  - unfold OnClose. destruct (handlers w !! h) as [hd|]; [|done]. destruct (h_state hd); try done. apply tearDown_grows.
  - apply grows_same; [done|]. eapply exited_alter; [done | apply exit_stays].
  - unfold watchdog. destruct (Stream.sessions w !! sid) as [s|]; [|done]. destruct (exited _ _); [apply tearDown_grows | done].
  - apply tearDown_grows.
  - unfold grace_expired. destruct (Stream.sessions w !! sid) as [s|]; [|done]. destruct (torn s); try done.
    apply grows_same; [done | by eapply exited_alter].
  - apply tear_step_grows.
  - by apply grows_same.
Qed.

(** ** Everything else, and the loop *)
Definition as_lact (g : shutdown) (a : sact) : list lact :=
  match a, g with
  | Other a, _ => [a]
  | Loop, Calling (sid :: _) => [LShutdown sid]
  | Loop, _ => []
  end.
Lemma sstep_live stateDir x a : (sstep stateDir x a).1 = lrun stateDir x.1 (as_lact x.2 a).
Proof. by destruct a as [|a], x as [w [[|sid rest]|sid rest]]. Qed.

Definition healthy_too (a : sact) : Prop := match a with Loop => True | Other a => healthy a end.

(** With the loop running, the service still takes steps of its own only. *)
Lemma srun_live stateDir acts : forall x, Forall healthy_too acts ->
  exists acts', Forall healthy acts' /\ (srun stateDir x acts).1 = lrun stateDir x.1 acts'.
Proof.
  induction acts as [|a acts IH]; intros x Ha; [by exists []|]. apply Forall_cons in Ha as [Ha Hacts].
  destruct (IH (sstep stateDir x a) Hacts) as (acts' & Hh & E). exists (as_lact x.2 a ++ acts'). split.
  - apply Forall_app. split; [|done]. destruct a as [|a]; [|by repeat constructor].
    by destruct x as [w [[|sid rest]|sid rest]]; repeat constructor.
  - unfold srun. cbn [foldl]. fold (srun stateDir (sstep stateDir x a) acts). rewrite E, sstep_live. unfold lrun. by rewrite foldl_app.
Qed.

Lemma lrun_grows stateDir acts w : grows w (lrun stateDir w acts).
Proof. revert w. induction acts as [|a acts IH]; intros w; [done|]. etransitivity; [apply lstep_grows | apply IH]. Qed.
Lemma sstep_grows stateDir x a : grows x.1 (sstep stateDir x a).1.
Proof. rewrite sstep_live. apply lrun_grows. Qed.

Lemma over_stays w w' sid : grows w w' -> over w sid = true -> over w' sid = true.
Proof.
  intros Hg. unfold over. destruct (Stream.sessions w !! sid) as [s|] eqn:Hs; [|done].
  destruct (gr_sessions _ _ Hg sid s Hs) as (t & -> & Hr & _). destruct (torn s); try done. simpl in *. by destruct t; simpl in *; try lia.
Qed.

(** What the loop still has to see ended. *)
Definition rest_of (g : shutdown) : list nat := match g with Calling l => l | Waiting sid l => sid :: l end.

Lemma sstep_rest stateDir x a sid : (sid ∈ rest_of x.2 \/ over x.1 sid = true) ->
  (sid ∈ rest_of (sstep stateDir x a).2 \/ over (sstep stateDir x a).1 sid = true).
Proof.
  intros [Hin|Ho]; [|right; eapply over_stays; [apply sstep_grows | done]].
  destruct a as [|a], x as [w [[|i rest]|i rest]]; simpl in *; try by left.
  destruct (over w i) eqn:E; [|by left]. apply elem_of_cons in Hin as [->|?]; [by right | by left].
Qed.

Lemma srun_rest stateDir acts : forall x sid, (sid ∈ rest_of x.2 \/ over x.1 sid = true) ->
  (sid ∈ rest_of (srun stateDir x acts).2 \/ over (srun stateDir x acts).1 sid = true).
Proof. induction acts as [|a acts IH]; intros x sid H; [done|]. by apply (IH (sstep stateDir x a)), sstep_rest. Qed.

(** C22: a shutdown amid traffic. Start [ShutdownLive] in any state of a
    healthy run and let publishers, disconnects, exits, watchdogs and other
    tear downs go on in any interleaving with its loop. When it has returned,
    every pipeline that was registered when it took its snapshot is torn down
    completely: its row is closed, with the reason of the tear down that was
    under way if there was one, and with one the schema allows in any case; and
    whatever is registered by then was registered after the snapshot. *)
Theorem shutdown_amid_traffic stateDir s ds before during :
  quiet s -> Forall healthy before -> Forall healthy_too during ->
  let w := lrun stateDir (new_live s ds) before in
  let '(w', g) := srun stateDir (w, ShutdownLive_loop w) during in
  returned g = true ->
  (forall name sid p, registered w name sid -> Stream.sessions w !! sid = Some p ->
    exists r x, Stream.sessions w' !! sid = Some (with_torn (TDone r) p) /\
      rows_of w' !! dbRowID p = Some x /\ open_row x = false /\ ss_EndReason x = Some r /\ end_reason_ok r = true /\
      (forall r0, reason_of (torn p) = Some r0 -> r = r0)) /\
  (forall name sid, byName w' !! name = Some sid -> (length (Stream.sessions w) <= sid)%nat).
Proof.
  intros Hq Hb Hd w. destruct (srun_live stateDir during (w, ShutdownLive_loop w) Hd) as (acts & Ha & E).
  pose proof (srun_rest stateDir during (w, ShutdownLive_loop w)) as Hrest.
  destruct (srun stateDir (w, ShutdownLive_loop w) during) as [w' g]. cbn [fst snd] in *. intros Hg.
  assert (Hreg : registry_ok w) by (apply lrun_registry, new_live_registry).
  assert (Hgr : grows w w') by (rewrite E; apply lrun_grows).
  assert (Hdone : forall name sid p, registered w name sid -> Stream.sessions w !! sid = Some p ->
    exists r, Stream.sessions w' !! sid = Some (with_torn (TDone r) p) /\ forall r0, reason_of (torn p) = Some r0 -> r = r0).
  { intros name sid p Hr Hp. destruct (Hrest sid) as [Hin|Ho].
    { left. apply (snapshot_spec w Hreg). by exists name. }
    - by destruct g as [[|]|]; [apply not_elem_of_nil in Hin|..].
    - unfold over in Ho. destruct (gr_sessions _ _ Hgr sid p Hp) as (t & Et & _ & Hre). rewrite Et in Ho. simpl in Ho.
      destruct t as [|?|?|?|r]; try done. exists r. split; [exact Et|]. intros r0 H0. apply Hre in H0. simpl in H0. congruence. }
  assert (Hrows : rows_ok w') by (rewrite E; apply lrun_rows; [apply lrun_rows; [by apply new_live_rows | done] | done]).
  split.
  - intros name sid p Hr Hp. destruct (Hdone name sid p Hr Hp) as (r & Hs & Hre).
    assert (Ho : own_of w' (OSession sid) = Some (dbRowID p, Some (TDone r))) by (simpl; by rewrite Hs).
    destruct (ri_row _ _ _ _ (ro_inv w' Hrows) _ _ _ Ho) as (_ & Hok & x & Hx & Hop & Hend).
    exists r, x. split_and!; try done. by eapply Hok.
  - intros name sid Hn. assert (Hreg' : registry_ok w') by (rewrite E; by apply lrun_registry).
    apply Hreg' in Hn as (q & Hq' & _ & Hin). destruct (decide (length (Stream.sessions w) <= sid)%nat) as [?|Hlt]; [done|exfalso].
    destruct (lookup_lt_is_Some_2 (Stream.sessions w) sid) as [p Hp]; [lia|].
    destruct (in_registry (torn p)) eqn:Hip.
    + destruct (Hdone (channelName p) sid p) as (r & Hs & _); [by exists p | done|]. simplify_eq.
    + destruct (gr_sessions _ _ Hgr sid p Hp) as (t & Et & Hrk & _). simplify_eq. simpl in Hin.
      by destruct (torn p), t; simpl in *; try lia.
Qed.

(** ** The loop comes to its end *)

(** The steps a pipeline is away from the end of its tear down. *)
Definition work (w : live) (sid : nat) : nat :=
  match Stream.sessions w !! sid with
  | Some s => match torn s with
              | TIdle | TWaiting _ => match exited (ffmpeg s) w with Some _ => 3 | None => 4 end
              | TRemoved _ => 2
              | TEnded _ => 1
              | TDone _ => 0
              end
  | None => 0
  end.
(** And the whole loop from its return. *)
Definition work_left (x : live * shutdown) : nat :=
  match x.2 with
  | Calling l => sum_list_with (fun i => work x.1 i + 2) l
  | Waiting sid l => work x.1 sid + 1 + sum_list_with (fun i => work x.1 i + 2) l
  end%nat.

Record loop_ok (x : live * shutdown) : Prop := {
  lo_procs : procs_ok x.1;
  lo_known : forall sid, sid ∈ rest_of x.2 -> is_Some (Stream.sessions x.1 !! sid);
  lo_called : forall sid l s, x.2 = Waiting sid l -> Stream.sessions x.1 !! sid = Some s -> torn s <> TIdle
}.

Lemma work_grows w w' sid : grows w w' -> is_Some (Stream.sessions w !! sid) -> (work w' sid <= work w sid)%nat.
Proof.
  intros Hg [s Hs]. unfold work. rewrite Hs. destruct (gr_sessions _ _ Hg sid s Hs) as (t & -> & Hr & _). cbn [torn with_torn ffmpeg].
  assert (He : exited (ffmpeg s) w = None \/ is_Some (exited (ffmpeg s) w')).
  { destruct (exited (ffmpeg s) w) eqn:E; [right; rewrite (gr_exited _ _ Hg _ _ E); eauto | by left]. }
  destruct He as [-> | [b ->]]; [destruct (exited (ffmpeg s) w')|destruct (exited (ffmpeg s) w)];
    destruct (torn s), t; simpl in *; lia.
Qed.
Lemma works_grow w w' l : grows w w' -> (forall sid, sid ∈ l -> is_Some (Stream.sessions w !! sid)) ->
  (sum_list_with (fun i => work w' i + 2) l <= sum_list_with (fun i => work w i + 2) l)%nat.
Proof.
  intros Hg. induction l as [|i l IH]; intros Hl; simpl; [lia|]. pose proof (work_grows w w' i Hg (Hl i ltac:(left))).
  assert (forall sid, sid ∈ l -> is_Some (Stream.sessions w !! sid)) by (intros sid ?; apply Hl; by right). specialize (IH H0). lia.
Qed.

Lemma sstep_loop_ok stateDir x a : loop_ok x -> loop_ok (sstep stateDir x a).
Proof.
  intros Hok. pose proof (sstep_grows stateDir x a) as Hg.
  assert (Hknown : forall sid, is_Some (Stream.sessions x.1 !! sid) -> is_Some (Stream.sessions (sstep stateDir x a).1 !! sid)).
  { intros sid [s Hs]. destruct (gr_sessions _ _ Hg sid s Hs) as (t & Ht & _). eauto. }
  assert (Hsub : forall sid, sid ∈ rest_of (sstep stateDir x a).2 -> sid ∈ rest_of x.2).
  { intros sid. destruct a as [|a], x as [w [[|i l]|i l]]; simpl; try done. destruct (over w i); simpl; set_solver. }
  split.
  - rewrite sstep_live. apply lrun_procs, lo_procs, Hok.
  - intros sid Hin. apply Hknown, (lo_known x Hok), Hsub, Hin.
  - intros sid l s' Hw Hs'. assert (Hcase : (exists l0, x.2 = Calling (sid :: l0) /\ a = Loop) \/ x.2 = Waiting sid l).
    { destruct a as [|a], x as [w [[|i l0]|i l0]]; simpl in *; try done; [injection Hw as <- <-; left; eauto|destruct (over w i); [done | by right]|by right]. }
    destruct (lo_known x Hok sid) as [s Hs]; [by destruct Hcase as [(l0 & -> & _)| ->]; left|].
    destruct Hcase as [(l0 & Hc & ->)|Hc].
    + destruct x as [w g]. simpl in *. subst g. simpl in *. unfold tearDown in Hs'. rewrite Hs in Hs'.
      destruct (torn s) eqn:Ht; simplify_eq; try (by rewrite Ht).
      rewrite set_torn_at with (s := s) in Hs' by done. by injection Hs' as <-.
    + pose proof (lo_called x Hok sid l s Hc Hs) as Hn. destruct (gr_sessions _ _ Hg sid s Hs) as (t & Ht & Hr & _). simplify_eq. simpl.
      intros ->. simpl in Hr. by destruct (torn s); simpl in *; try lia.
Qed.

Lemma srun_loop_ok stateDir acts : forall x, loop_ok x -> loop_ok (srun stateDir x acts).
Proof. induction acts as [|a acts IH]; intros x H; [done|]. by apply (IH (sstep stateDir x a)), sstep_loop_ok. Qed.

(** No step sets the loop back. *)
Lemma sstep_work stateDir x a : loop_ok x -> (work_left (sstep stateDir x a) <= work_left x)%nat.
Proof.
  intros Hok. pose proof (sstep_grows stateDir x a) as Hg. pose proof (lo_known x Hok) as Hk. unfold work_left.
  destruct x as [w g]. simpl in Hk. assert (Hl : forall l w', grows w w' -> (forall i, i ∈ l -> i ∈ rest_of g) ->
    (sum_list_with (fun i => work w' i + 2) l <= sum_list_with (fun i => work w i + 2) l)%nat).
  { intros l w' Hg' Hl. apply works_grow; [done|]. intros i Hi. by apply Hk, Hl. }
  destruct a as [|a], g as [[|i l]|i l]; cbn [sstep ShutdownLive_step fst snd rest_of] in *.
  - done.
  - simpl. pose proof (work_grows _ _ i Hg (Hk i ltac:(left))). specialize (Hl l _ Hg ltac:(intros; by right)). lia.
  - destruct (over w i); simpl; lia.
  - done.
  - apply Hl; [exact Hg | done].
  - pose proof (work_grows _ _ i Hg (Hk i ltac:(left))). specialize (Hl l _ Hg ltac:(intros; by right)). lia.
Qed.

Lemma tear_step_moves stateDir w sid s : Stream.sessions w !! sid = Some s ->
  match torn s with TIdle | TDone _ => False | TWaiting _ => is_Some (exited (ffmpeg s) w) | _ => True end ->
  exists t, Stream.sessions (tear_step stateDir sid w) !! sid = Some (with_torn t s) /\ tear_rank t = S (tear_rank (torn s)).
Proof.
  intros Hs. unfold tear_step. rewrite Hs. destruct (torn s) as [|r|r|r|r]; try done.
  - intros [b ->]. exists (TRemoved r). split; [by apply set_torn_at | done].
  - intros _. exists (TEnded r). split; [|done]. destruct (_ =? _); [by apply set_torn_at|].
    destruct (EndStreamSession _ _ _ _) as [d x]. by apply (set_torn_at _ _ (set_st d w)).
  - intros _. exists (TDone r). split; [|done]. apply set_torn_at. by destruct (String.eqb _ _).
Qed.

(** The steps that are the loop's own: its next one, an exit of the process it
    waits for, the next step of the body. *)
Definition own_step (ends : nat -> bool) (a : sact) : Prop :=
  match a with Loop => True | Other (LExit p f) => f = ends p | Other (LTear _) => True | _ => False end.

(** A step for the pipeline the loop waits for. *)
Lemma head_moves stateDir w sid l a : loop_ok (w, Waiting sid l) ->
  (work (lstep stateDir w a) sid < work w sid)%nat ->
  (work_left (sstep stateDir (w, Waiting sid l) (Other a)) < work_left (w, Waiting sid l))%nat.
Proof.
  intros Hok Hlt. unfold work_left. cbn [sstep fst snd].
  pose proof (works_grow w _ l (lstep_grows stateDir w a) (fun i Hi => lo_known _ Hok i ltac:(by right))) as Hl. lia.
Qed.

Lemma loop_moves stateDir ends x : loop_ok x -> returned x.2 = false ->
  exists a, own_step ends a /\ (work_left (sstep stateDir x a) < work_left x)%nat.
Proof.
  intros Hok Hr. destruct x as [w [[|i l]|i l]]; [done| |].
  - exists Loop. split; [done|]. pose proof (lo_known _ Hok) as Hk. simpl in Hk.
    pose proof (work_grows _ _ i (tearDown_grows i "orphan_swept" w) (Hk i ltac:(left))).
    pose proof (works_grow w _ l (tearDown_grows i "orphan_swept" w) (fun j Hj => Hk j ltac:(by right))). unfold work_left. simpl. lia.
  - destruct (over w i) eqn:Eo; [exists Loop; split; [done|]; unfold work_left; simpl; rewrite Eo; lia|].
    destruct (lo_known _ Hok i ltac:(left)) as [s Hs]. simpl in Hs. pose proof (lo_called _ Hok i l s eq_refl Hs) as Hc.
    assert (Htear : match torn s with TIdle | TDone _ => False | TWaiting _ => is_Some (exited (ffmpeg s) w) | _ => True end ->
      exists a, own_step ends a /\ (work_left (sstep stateDir (w, Waiting i l) a) < work_left (w, Waiting i l))%nat).
    { intros Ht. exists (Other (LTear i)). split; [done|]. apply head_moves; [done|]. cbn [lstep].
      destruct (tear_step_moves stateDir w i s Hs Ht) as (t & E & Hrank). unfold work. rewrite E, Hs. cbn [torn with_torn].
      destruct (torn s) as [| | | |]; try done; [destruct Ht as [b ->]|..]; destruct t; simpl in Hrank |- *; lia. }
    unfold over in Eo. rewrite Hs in Eo. destruct (torn s) as [|r|r|r|r] eqn:Et; try done; try by apply Htear.
    destruct (exited (ffmpeg s) w) as [b|] eqn:Ex; [by apply Htear|]. clear Htear.
    exists (Other (LExit (ffmpeg s) (ends (ffmpeg s)))). split; [done|]. apply head_moves; [done|].
    destruct (po_sessions w (lo_procs _ Hok) i s Hs) as [pr Hpr].
    assert (E : exited (ffmpeg s) (lstep stateDir w (LExit (ffmpeg s) (ends (ffmpeg s)))) = Some (ends (ffmpeg s))).
    { unfold exited in Ex |- *. cbn [lstep procs set_procs]. rewrite list_lookup_alter_eq, Hpr. rewrite Hpr in Ex. simpl in *.
      unfold exit_proc. by rewrite Ex. }
    unfold work. change (Stream.sessions (lstep _ _ _)) with (Stream.sessions w). rewrite Hs, Et, E, Ex. lia.
Qed.

Lemma loop_ends stateDir ends n : forall x, loop_ok x -> (work_left x <= n)%nat ->
  exists acts, Forall (own_step ends) acts /\ (length acts <= n)%nat /\ returned (srun stateDir x acts).2 = true.
Proof.
  induction n as [|n IH]; intros x Hok Hn; (destruct (returned x.2) eqn:Er; [exists []; split; [done|]; split; [simpl; lia | done]|]);
    destruct (loop_moves stateDir ends x Hok Er) as (a & Ha & Hlt); [lia|].
  destruct (IH (sstep stateDir x a)) as (acts & H1 & H2 & H3); [by apply sstep_loop_ok | lia|].
  exists (a :: acts). split; [by constructor|]. split; [simpl; lia | done].
Qed.

Lemma loop_starts stateDir s ds before : let w := lrun stateDir (new_live s ds) before in
  loop_ok (w, ShutdownLive_loop w) /\ (work_left (w, ShutdownLive_loop w) <= 6 * length (snapshot w))%nat.
Proof.
  intros w. split; [split|].
  - apply lrun_procs, new_live_procs.
  - intros sid. simpl. assert (Hreg : registry_ok w) by (apply lrun_registry, new_live_registry).
    intros (name & p & Hp & _)%(snapshot_spec w Hreg). by exists p.
  - done.
  - unfold work_left, ShutdownLive_loop. cbn [fst snd]. induction (snapshot w) as [|i l IH]; [done|]. simpl.
    assert (work w i <= 4)%nat; [|lia]. unfold work. destruct (Stream.sessions w !! i) as [p|]; [|lia].
    destruct (torn p); try lia; destruct (exited _ _); lia.
Qed.

(** C23: the shutdown returns. However publishers, disconnects, exits and other
    tear downs interleave with the loop of [ShutdownLive], nothing they do sets
    it back, and at any moment it is at most six steps per pipeline of its
    snapshot away from returning: its own steps, the exits of the processes it
    waits for (failed or not) and the steps of the tear downs it waits for. *)
Theorem shutdown_returns stateDir s ds before during ends :
  let w := lrun stateDir (new_live s ds) before in
  let x := srun stateDir (w, ShutdownLive_loop w) during in
  (forall a, (work_left (sstep stateDir x a) <= work_left x)%nat) /\
  (work_left x = 0%nat -> returned x.2 = true) /\
  exists acts, Forall (own_step ends) acts /\ (length acts <= 6 * length (snapshot w))%nat /\
    returned (srun stateDir x acts).2 = true.
Proof.
  intros w x. destruct (loop_starts stateDir s ds before) as [Hok Hn]. fold w in Hok, Hn.
  assert (Hx : loop_ok x) by (by apply srun_loop_ok).
  assert (Hle : (work_left x <= work_left (w, ShutdownLive_loop w))%nat).
  { unfold x. clear x Hx Hn. revert Hok. generalize (w, ShutdownLive_loop w). induction during as [|a acts IH]; intros y Hy; [done|].
    etransitivity; [apply (IH (sstep stateDir y a)), sstep_loop_ok, Hy | by apply sstep_work]. }
  split; [intros a; by apply sstep_work|]. split.
  - destruct x as [w' [[|i l]|i l]]; unfold work_left; simpl; [done|lia|lia].
  - apply loop_ends; [done | lia].
Qed.

(** *** The loop without traffic is [Stream.ShutdownLive] *)
Lemma srun_app stateDir x a b : srun stateDir x (a ++ b) = srun stateDir (srun stateDir x a) b.
Proof. apply foldl_app. Qed.

Lemma loop_alone stateDir failed l : forall w, NoDup l -> procs_ok w ->
  (forall sid, sid ∈ l -> exists s, Stream.sessions w !! sid = Some s /\ in_registry (torn s) = true) ->
  exists acts, srun stateDir (w, Calling l) acts = (foldl (tearDown_all stateDir failed "orphan_swept") w l, Calling []).
Proof.
  induction l as [|i l IH]; intros w Hnd Hp Hl; [by exists []|].
  apply NoDup_cons in Hnd as [Hi Hnd]. destruct (Hl i ltac:(left)) as (s & Hs & Hin). cbn [foldl].
  destruct (tearDown_all_effect stateDir failed "orphan_swept" w i s Hs Hin (po_sessions w Hp i s Hs)) as (E1 & E2 & _).
  pose proof (tearDown_all_lrun stateDir failed w i s Hs) as E. set (w' := tearDown_all _ _ _ _ _) in *.
  destruct (IH w' Hnd) as [acts Ha].
  { rewrite E. by apply lrun_procs. }
  { intros j Hj. rewrite E2 by congruence. apply Hl. by right. }
  exists ([Loop; Other (LExit (ffmpeg s) failed); Other (LTear i); Other (LTear i); Other (LTear i); Loop] ++ acts).
  rewrite srun_app, <- Ha. f_equal.
  change (srun stateDir (w, Calling (i :: l)) _) with
    (ShutdownLive_step (lrun stateDir w [LShutdown i; LExit (ffmpeg s) failed; LTear i; LTear i; LTear i]) (Waiting i l)).
  rewrite <- E. unfold ShutdownLive_step, over. by rewrite E1.
Qed.

Lemma ShutdownLive_schedule stateDir failed s ds before : let w := lrun stateDir (new_live s ds) before in
  exists acts, srun stateDir (w, ShutdownLive_loop w) acts = (ShutdownLive stateDir failed w, Calling []).
Proof.
  intros w. assert (Hreg : registry_ok w) by (apply lrun_registry, new_live_registry).
  destruct (snapshot_spec w Hreg) as [Hnd Hsnap]. apply loop_alone; [done | apply lrun_procs, new_live_procs|].
  intros sid (name & p & Hp & _ & Hr)%Hsnap. by exists p.
Qed.

(** Bob's encoder publishes again while his first pipeline is being torn down
    by the shutdown: the name is free as soon as the first is removed. *)
Definition bob_comes_back : list sact :=
  [Loop; Other (LConnect plain_key)] ++ repeat (Other (LPublish 1 true)) 5 ++
  [Other (LExit 0 false); Other (LTear 0); Other (LPublish 1 true); Other (LTear 0); Other (LTear 0); Loop].

Lemma shutdown_amid_traffic_witness :
  let w := lrun "state" (new_live bobs_store ∅) ([LConnect plain_key] ++ publish_all 0) in
  let '(w', g) := srun "state" (w, ShutdownLive_loop w) bob_comes_back in
  byName w = {["bob" := 0%nat]} /\ byName w' = {["bob" := 1%nat]} /\
  exists p r x, Stream.sessions w !! 0%nat = Some p /\ Stream.sessions w' !! 0%nat = Some (with_torn (TDone r) p) /\
      rows_of w' !! dbRowID p = Some x /\ open_row x = false /\ ss_EndReason x = Some r.
Proof.
  intros w. destruct (srun "state" (w, ShutdownLive_loop w) bob_comes_back) as [w' g] eqn:E.
  assert (Ew : w' = (srun "state" (w, ShutdownLive_loop w) bob_comes_back).1) by (rewrite E; reflexivity).
  assert (Eg : returned g = true).
  { change (returned (w', g).2 = true). rewrite <- E. vm_compute. reflexivity. }
  assert (H := shutdown_amid_traffic "state" bobs_store ∅ ([LConnect plain_key] ++ publish_all 0) bob_comes_back).
  fold w in H. cbv zeta in H. rewrite E in H.
  assert (Hq : quiet bobs_store) by (split; [reflexivity|]; split; [simpl; lia|]; intros id x; simpl; by rewrite lookup_empty).
  assert (Hb : Forall healthy ([LConnect plain_key] ++ publish_all 0)) by repeat constructor.
  assert (Hd : Forall healthy_too bob_comes_back) by repeat constructor.
  specialize (H Hq Hb Hd Eg). destruct H as [H1 _].
  split; [vm_compute; reflexivity|]. split; [rewrite Ew; vm_compute; reflexivity|].
  eexists. destruct (H1 "bob" 0%nat {| channelID := 1; channelName := "bob"; title := "live now"; startedAt := 5000000; ffmpeg := 0; dbRowID := 1; torn := TIdle |})
    as (r & x & A1 & A2 & A3 & A4 & _).
  - eexists. split; [vm_compute; reflexivity | split; vm_compute; reflexivity].
  - vm_compute; reflexivity.
  - exists r, x. split; [vm_compute; reflexivity|]. split; [exact A1|]. split; [exact A2|]. split; [exact A3 | exact A4].
Defined.
