(* ===== verification/Pipe.v ===== *)
(** * From the encoder to ffmpeg: [io.Pipe] and the bridge of
    [src/internal/stream/ingest.go]

    One publisher's bytes: the FLV encoder writes to an [io.Pipe], a goroutine
    copies what it reads from the pipe to ffmpeg's standard input.  The pipe has
    no buffer: a [Write] looks whether an end is closed, then waits until
    readers have taken its bytes or an end is closed; a [Read] looks, then
    waits likewise; one [Read] takes at most the 32 KiB of [io.Copy]'s buffer.
    What the encoder writes for its header and for a tag is a parameter
    (go-flv): the sequence of its [Write] calls and its own error, if any. *)

From Stdlib Require Import Init.Byte.
From S2P Require Import Prelude Errors.

Definition ErrClosedPipe : err := ESentinel "io: read/write on closed pipe".

(** The buffer of [io.Copy]. *)
Definition copyBuffer : nat := Z.to_nat 32768.
#[global] Opaque copyBuffer.

(** The goroutine that runs [NewEncoder] or [Encode]; [own] is the error the
    encoder itself will return after its last [Write]. *)
Inductive writer :=
| WIdle
| WNext (todo : list (list byte)) (own : option err)                   (* between two [Write]s *)
| WSelect (b : list byte) (todo : list (list byte)) (own : option err). (* inside one, [b] not yet taken *)

(** The goroutine that runs [io.Copy(proc.stdin, pipeR)]. *)
Inductive copier :=
| CTop                   (* about to [Read] *)
| CSelect                (* inside [Read] *)
| CWrite (b : list byte) (* inside [proc.stdin.Write], [b] not yet written *)
| CEnded                 (* [io.Copy] has returned *)
| CDone.                 (* [proc.stdin.Close] was called *)

Section Bridge.
Context {T : Type} (header : list (list byte)) (encode : list T -> T -> list (list byte) * option err).

Record pipeline := {
  pl_wclosed : bool;                 (* [pipeW.Close] was called *)
  pl_rclosed : bool;                 (* [pipeR.Close] was called *)
  pl_writer : writer;
  pl_results : list (option err);    (* what [NewEncoder] and the [Encode]s returned *)
  pl_tags : list T;                  (* the tags the encoder was given: its state *)
  pl_copier : copier;
  pl_stdin : bool;                   (* our end of ffmpeg's input is open *)
  pl_exited : bool;
  (* what has happened so far *)
  pl_passed : list byte;             (* taken out of the pipe *)
  pl_fed : list byte;                (* accepted by ffmpeg's input *)
  pl_refused : bool;                 (* a [Write] found the pipe closed *)
  pl_broken : bool                   (* a write to ffmpeg's input failed *)
}.

Definition closed (pl : pipeline) : bool := pl_wclosed pl || pl_rclosed pl.

Definition set_writer (w : writer) (pl : pipeline) : pipeline :=
  {| pl_wclosed := pl_wclosed pl; pl_rclosed := pl_rclosed pl; pl_writer := w; pl_results := pl_results pl;
     pl_tags := pl_tags pl; pl_copier := pl_copier pl; pl_stdin := pl_stdin pl; pl_exited := pl_exited pl;
     pl_passed := pl_passed pl; pl_fed := pl_fed pl; pl_refused := pl_refused pl; pl_broken := pl_broken pl |}.
Definition set_copier (c : copier) (pl : pipeline) : pipeline :=
  {| pl_wclosed := pl_wclosed pl; pl_rclosed := pl_rclosed pl; pl_writer := pl_writer pl; pl_results := pl_results pl;
     pl_tags := pl_tags pl; pl_copier := c; pl_stdin := pl_stdin pl; pl_exited := pl_exited pl;
     pl_passed := pl_passed pl; pl_fed := pl_fed pl; pl_refused := pl_refused pl; pl_broken := pl_broken pl |}.
Definition return_ (e : option err) (refused : bool) (pl : pipeline) : pipeline :=
  {| pl_wclosed := pl_wclosed pl; pl_rclosed := pl_rclosed pl; pl_writer := WIdle; pl_results := pl_results pl ++ [e];
     pl_tags := pl_tags pl; pl_copier := pl_copier pl; pl_stdin := pl_stdin pl; pl_exited := pl_exited pl;
     pl_passed := pl_passed pl; pl_fed := pl_fed pl; pl_refused := refused; pl_broken := pl_broken pl |}.
Definition pass (b : list byte) (pl : pipeline) : pipeline :=
  {| pl_wclosed := pl_wclosed pl; pl_rclosed := pl_rclosed pl; pl_writer := pl_writer pl; pl_results := pl_results pl;
     pl_tags := pl_tags pl; pl_copier := CWrite b; pl_stdin := pl_stdin pl; pl_exited := pl_exited pl;
     pl_passed := pl_passed pl ++ b; pl_fed := pl_fed pl; pl_refused := pl_refused pl; pl_broken := pl_broken pl |}.
Definition feed (b rest : list byte) (pl : pipeline) : pipeline :=
  {| pl_wclosed := pl_wclosed pl; pl_rclosed := pl_rclosed pl; pl_writer := pl_writer pl; pl_results := pl_results pl;
     pl_tags := pl_tags pl; pl_copier := CWrite rest; pl_stdin := pl_stdin pl; pl_exited := pl_exited pl;
     pl_passed := pl_passed pl; pl_fed := pl_fed pl ++ b; pl_refused := pl_refused pl; pl_broken := pl_broken pl |}.

(** *** The encoder's side *)

(** [p.write], up to its [select] and from there when an end is closed. *)
Definition writer_step (pl : pipeline) : pipeline :=
  match pl_writer pl with
  | WIdle => pl
  | WNext [] own => return_ own (pl_refused pl) pl
  | WNext (b :: todo) own =>
      if closed pl then return_ (Some ErrClosedPipe) true pl else set_writer (WSelect b todo own) pl
  | WSelect _ _ _ => if closed pl then return_ (Some ErrClosedPipe) true pl else pl
  end.

(** A [Write] and a [Read] meet: the loop of [p.write] goes on until nothing of
    its slice is left. *)
Definition pass_step (pl : pipeline) : pipeline :=
  match pl_writer pl, pl_copier pl with
  | WSelect b todo own, CSelect =>
      set_writer (match drop copyBuffer b with [] => WNext todo own | rest => WSelect rest todo own end)
        (pass (take copyBuffer b) pl)
  | _, _ => pl
  end.

(** [h.flvEnc.Encode(tag)] is called. *)
Definition call_step (t : T) (pl : pipeline) : pipeline :=
  match pl_writer pl with
  | WIdle =>
      {| pl_wclosed := pl_wclosed pl; pl_rclosed := pl_rclosed pl;
         pl_writer := WNext (encode (pl_tags pl) t).1 (encode (pl_tags pl) t).2; pl_results := pl_results pl;
         pl_tags := pl_tags pl ++ [t]; pl_copier := pl_copier pl; pl_stdin := pl_stdin pl; pl_exited := pl_exited pl;
         pl_passed := pl_passed pl; pl_fed := pl_fed pl; pl_refused := pl_refused pl; pl_broken := pl_broken pl |}
  | _ => pl
  end.

(** *** The bridge *)
Definition copier_step (pl : pipeline) : pipeline :=
  match pl_copier pl with
  | CTop => set_copier (if closed pl then CEnded else CSelect) pl
  | CSelect => if closed pl then set_copier CEnded pl else pl
  | CWrite [] => set_copier CTop pl
  | CWrite _ => pl
  | CEnded =>
      {| pl_wclosed := pl_wclosed pl; pl_rclosed := pl_rclosed pl; pl_writer := pl_writer pl; pl_results := pl_results pl;
         pl_tags := pl_tags pl; pl_copier := CDone; pl_stdin := false; pl_exited := pl_exited pl;
         pl_passed := pl_passed pl; pl_fed := pl_fed pl; pl_refused := pl_refused pl; pl_broken := pl_broken pl |}
  | CDone => pl
  end.

(** ffmpeg's input takes up to [n] bytes. *)
Definition accept_step (n : nat) (pl : pipeline) : pipeline :=
  match pl_copier pl with
  | CWrite b => if pl_stdin pl && negb (pl_exited pl) then feed (take n b) (drop n b) pl else pl
  | _ => pl
  end.

(** The write to ffmpeg's input fails, and [io.Copy] with it. *)
Definition break_step (pl : pipeline) : pipeline :=
  match pl_copier pl with
  | CWrite (_ :: _) =>
      {| pl_wclosed := pl_wclosed pl; pl_rclosed := pl_rclosed pl; pl_writer := pl_writer pl; pl_results := pl_results pl;
         pl_tags := pl_tags pl; pl_copier := CEnded; pl_stdin := pl_stdin pl; pl_exited := pl_exited pl;
         pl_passed := pl_passed pl; pl_fed := pl_fed pl; pl_refused := pl_refused pl; pl_broken := true |}
  | _ => pl
  end.

(** ffmpeg exits; [cmd.Wait] closes our end of its input. *)
Definition exit_step (pl : pipeline) : pipeline :=
  {| pl_wclosed := pl_wclosed pl; pl_rclosed := pl_rclosed pl; pl_writer := pl_writer pl; pl_results := pl_results pl;
     pl_tags := pl_tags pl; pl_copier := pl_copier pl; pl_stdin := false; pl_exited := true;
     pl_passed := pl_passed pl; pl_fed := pl_fed pl; pl_refused := pl_refused pl; pl_broken := pl_broken pl |}.

(** [pipeW.Close()], and both [Close]s. *)
Definition set_closed (w r : bool) (pl : pipeline) : pipeline :=
  {| pl_wclosed := w; pl_rclosed := r; pl_writer := pl_writer pl; pl_results := pl_results pl;
     pl_tags := pl_tags pl; pl_copier := pl_copier pl; pl_stdin := pl_stdin pl; pl_exited := pl_exited pl;
     pl_passed := pl_passed pl; pl_fed := pl_fed pl; pl_refused := pl_refused pl; pl_broken := pl_broken pl |}.
Definition close_writer (pl : pipeline) : pipeline := set_closed true (pl_rclosed pl) pl.
Definition close_both (pl : pipeline) : pipeline := set_closed true true pl.

(** The pipe is made, ffmpeg runs, the bridge is started and [NewEncoder] called. *)
Definition new_pipeline : pipeline :=
  {| pl_wclosed := false; pl_rclosed := false; pl_writer := WNext header None; pl_results := []; pl_tags := [];
     pl_copier := CTop; pl_stdin := true; pl_exited := false; pl_passed := []; pl_fed := []; pl_refused := false;
     pl_broken := false |}.

Inductive pact := PCall (t : T) | PWriter | PPass | PCopier | PAccept (n : nat) | PBreak | PExit | PCloseWriter | PCloseBoth.
Definition pstep (pl : pipeline) (a : pact) : pipeline :=
  match a with
  | PCall t => call_step t pl
  | PWriter => writer_step pl
  | PPass => pass_step pl
  | PCopier => copier_step pl
  | PAccept n => accept_step n pl
  | PBreak => break_step pl
  | PExit => exit_step pl
  | PCloseWriter => close_writer pl
  | PCloseBoth => close_both pl
  end.
Definition prun (pl : pipeline) (acts : list pact) : pipeline := foldl pstep pl acts.

(** ** The stream of bytes the encoder writes for a sequence of tags *)
Fixpoint encode_from (before tags : list T) : list byte :=
  match tags with
  | [] => []
  | t :: tags => concat (encode before t).1 ++ encode_from (before ++ [t]) tags
  end.
Definition flv (tags : list T) : list byte := concat header ++ encode_from [] tags.

Lemma encode_from_snoc tags t : forall before,
  encode_from before (tags ++ [t]) = encode_from before tags ++ concat (encode (before ++ tags) t).1.
Proof.
  induction tags as [|u tags IH]; intros before; simpl; [by rewrite !app_nil_r|].
  by rewrite IH, <- !app_assoc.
Qed.
Lemma flv_snoc tags t : flv (tags ++ [t]) = flv tags ++ concat (encode tags t).1.
Proof. unfold flv. by rewrite encode_from_snoc, app_assoc. Qed.

(** ** Nothing is lost, repeated or reordered on the way *)
Definition pending (w : writer) : list byte :=
  match w with WIdle => [] | WNext todo _ => concat todo | WSelect b todo _ => b ++ concat todo end.
Definition in_flight (c : copier) : list byte := match c with CWrite b => b | _ => [] end.
Definition in_select (w : writer) : bool := match w with WSelect _ _ _ => true | _ => false end.
Definition ended (c : copier) : bool := match c with CEnded | CDone => true | _ => false end.
Definition finished (c : copier) : bool := match c with CDone => true | _ => false end.

Record pipe_ok (pl : pipeline) : Prop := {
  pk_open : pl_refused pl = false -> pl_passed pl ++ pending (pl_writer pl) = flv (pl_tags pl);
  pk_refused : pl_refused pl = true ->
    pl_passed pl `prefix_of` flv (pl_tags pl) /\ closed pl = true /\ in_select (pl_writer pl) = false;
  pk_fed : pl_broken pl = false -> pl_fed pl ++ in_flight (pl_copier pl) = pl_passed pl;
  pk_broken : pl_broken pl = true ->
    pl_fed pl `prefix_of` pl_passed pl /\ ended (pl_copier pl) = true /\ pl_passed pl <> [];
  pk_ended : ended (pl_copier pl) = true -> closed pl = true \/ pl_broken pl = true;
  pk_stdin : pl_stdin pl = negb (finished (pl_copier pl) || pl_exited pl)
}.

Lemma new_pipeline_ok : pipe_ok new_pipeline.
Proof. split; try done. intros _. simpl. unfold flv. simpl. by rewrite app_nil_r. Qed.

Lemma writer_step_ok pl : pipe_ok pl -> pipe_ok (writer_step pl).
Proof.
  intros H. pose proof H as [H1 H2 H3 H4 H5 H6]. unfold writer_step.
  destruct (pl_writer pl) as [|[|b todo] own|b todo own] eqn:Ew; [done| | |].
  - by split.
  - assert (Hp : pl_passed pl `prefix_of` flv (pl_tags pl)).
    { destruct (pl_refused pl) eqn:Er; [by apply H2 | rewrite <- H1 by done; by apply prefix_app_r]. }
    destruct (closed pl) eqn:Ec in |- *; split; simpl; try done. intros (_ & ? & _)%H2. congruence.
  - assert (Er : pl_refused pl = false) by (destruct (pl_refused pl) eqn:Er; [by destruct (H2 eq_refl) as (_ & _ & [=])|done]).
    destruct (closed pl) eqn:Ec in |- *; [|done]. split; try done. intros _. split_and!; [|done..].
    simpl. rewrite <- H1 by done. by apply prefix_app_r.
Qed.

Lemma pass_step_ok pl : pipe_ok pl -> pipe_ok (pass_step pl).
Proof.
  intros H. pose proof H as [H1 H2 H3 H4 H5 H6]. unfold pass_step.
  destruct (pl_writer pl) as [|[|b todo] own|b todo own] eqn:Ew; try done.
  destruct (pl_copier pl) as [| |c| |] eqn:Ec; try done. split; simpl; try done.
  - intros Er. rewrite <- H1 by done. simpl. rewrite <- app_assoc. f_equal.
    rewrite <- (take_drop copyBuffer b) at 3. rewrite <- app_assoc. f_equal. by destruct (drop copyBuffer b).
  - by intros (_ & _ & [=])%H2.
  - intros Eb. simpl in H3. by rewrite <- H3, app_nil_r by done.
  - by intros (_ & [=] & _)%H4.
Qed.

Lemma call_step_ok t pl : pipe_ok pl -> pipe_ok (call_step t pl).
Proof.
  intros H. pose proof H as [H1 H2 H3 H4 H5 H6]. unfold call_step.
  destruct (pl_writer pl) as [|[|b todo] own|b todo own] eqn:Ew; try done. split; simpl; try done.
  - intros Er. rewrite flv_snoc. simpl in H1. by rewrite <- H1, app_nil_r by done.
  - intros (A & B & _)%H2. split_and!; [|done..]. rewrite flv_snoc. by apply prefix_app_r.
Qed.

Lemma copier_step_ok pl : pipe_ok pl -> pipe_ok (copier_step pl).
Proof.
  intros H. pose proof H as [H1 H2 H3 H4 H5 H6]. unfold copier_step.
  destruct (pl_copier pl) as [| |[|x c]| |] eqn:Ec; try done.
  - destruct (closed pl) eqn:Ecl in |- *; split; simpl; try done; try (by intros (? & [=] & _)%H4). intros _; by left.
  - destruct (closed pl) eqn:Ecl in |- *; [|done]. split; simpl; try done; try (by intros (? & [=] & _)%H4); intros _; by left.
Qed.

Lemma accept_step_ok n pl : pipe_ok pl -> pipe_ok (accept_step n pl).
Proof.
  intros H. pose proof H as [H1 H2 H3 H4 H5 H6]. unfold accept_step.
  destruct (pl_copier pl) as [| |c| |] eqn:Ec; try done. destruct (_ && _); [|done]. split; simpl; try done.
  - intros Eb. rewrite <- app_assoc, take_drop. by apply H3.
  - by intros (? & [=] & _)%H4.
Qed.

Lemma break_step_ok pl : pipe_ok pl -> pipe_ok (break_step pl).
Proof.
  intros H. pose proof H as [H1 H2 H3 H4 H5 H6]. unfold break_step.
  destruct (pl_copier pl) as [| |[|x c]| |] eqn:Ec; try done. split; simpl; try done.
  - intros _. destruct (pl_broken pl) eqn:Eb; [by destruct (H4 eq_refl) as (_ & [=] & _)|].
    rewrite <- H3 by done. split_and!; [by apply prefix_app_r | done | by destruct (pl_fed pl)].
  - intros _. by right.
Qed.

Lemma exit_step_ok pl : pipe_ok pl -> pipe_ok (exit_step pl).
Proof. intros [H1 H2 H3 H4 H5 H6]. split; simpl; try done. by rewrite orb_true_r. Qed.

Lemma set_closed_ok w r pl : pipe_ok pl -> (closed pl = true -> w || r = true) -> pipe_ok (set_closed w r pl).
Proof.
  intros [H1 H2 H3 H4 H5 H6] Hc. split; simpl; try done.
  - intros (A & B & C)%H2. split_and!; [done | by apply Hc | done].
  - intros [A|A]%H5; [left; by apply Hc | by right].
Qed.

Lemma pstep_ok pl a : pipe_ok pl -> pipe_ok (pstep pl a).
Proof.
  intros H. destruct a; simpl.
  - by apply call_step_ok.
  - by apply writer_step_ok.
  - by apply pass_step_ok.
  - by apply copier_step_ok.
  - by apply accept_step_ok.
  - by apply break_step_ok.
  - by apply exit_step_ok.
  - by apply set_closed_ok.
  - by apply set_closed_ok.
Qed.

Lemma prun_ok acts pl : pipe_ok pl -> pipe_ok (prun pl acts).
Proof. revert pl. induction acts as [|a acts IH]; intros pl H; [done|]. by apply IH, pstep_ok. Qed.

(** What ffmpeg has been given is always the beginning of the stream, and the
    whole of it once everything went through. *)
Lemma fed_prefix pl : pipe_ok pl -> pl_fed pl `prefix_of` flv (pl_tags pl).
Proof.
  intros [H1 H2 H3 H4 H5 H6]. trans (pl_passed pl).
  - destruct (pl_broken pl); [by apply H4 | rewrite <- H3 by done; by apply prefix_app_r].
  - destruct (pl_refused pl); [by apply H2 | rewrite <- H1 by done; by apply prefix_app_r].
Qed.
Lemma fed_all pl : pipe_ok pl -> pl_refused pl = false -> pl_broken pl = false -> pl_writer pl = WIdle ->
  in_flight (pl_copier pl) = [] -> pl_fed pl = flv (pl_tags pl).
Proof.
  intros H Hr Hb Hw Hc. pose proof (pk_open pl H Hr) as E1. pose proof (pk_fed pl H Hb) as E2.
  rewrite Hw in E1. rewrite Hc in E2. simpl in *. by rewrite <- E1, <- E2, !app_nil_r.
Qed.

(** ** Progress *)
Definition select_work (b : list byte) : nat := 4 * length b + 4.
Definition todo_work (todo : list (list byte)) : nat := sum_list_with (fun b => S (select_work b)) todo.
Definition writer_work (w : writer) : nat :=
  match w with
  | WIdle => 0
  | WNext todo _ => S (todo_work todo)
  | WSelect b todo _ => S (select_work b + todo_work todo)
  end.
Definition copier_work (c : copier) : nat :=
  match c with CWrite b => length b + 4 | CTop => 3 | CSelect => 2 | CEnded => 1 | CDone => 0 end.
Definition pipe_work (pl : pipeline) : nat := writer_work (pl_writer pl) + copier_work (pl_copier pl).

Definition is_call (a : pact) : bool := match a with PCall _ => true | _ => false end.

Lemma copyBuffer_pos : 0 < copyBuffer.
Proof. apply Nat.ltb_lt. vm_compute. reflexivity. Qed.

Lemma pass_work pl b todo own : pl_writer pl = WSelect b todo own -> pl_copier pl = CSelect ->
  pipe_work (pass_step pl) < pipe_work pl.
Proof.
  intros Ew Ec. unfold pipe_work, pass_step. rewrite Ew, Ec. pose proof copyBuffer_pos.
  pose proof (take_drop copyBuffer b) as Hb%(f_equal length). rewrite length_app, length_take in Hb.
  destruct (drop copyBuffer b) as [|x r] eqn:Ed; cbn -[copyBuffer Nat.mul]; rewrite length_take; unfold select_work in *.
  - simpl in Hb. lia.
  - assert (length (x :: r) = length b - copyBuffer) by (by rewrite <- Ed, length_drop). simpl in *. lia.
Qed.

Lemma pipe_work_step pl a : is_call a = false -> pipe_work (pstep pl a) <= pipe_work pl.
Proof.
  destruct a as [t| | | |n| | | |]; try done; intros _; cbn [pstep].
  - unfold writer_step. destruct (pl_writer pl) as [|[|b todo] own|b todo own] eqn:Ew; [done| | |];
      try destruct (closed pl); unfold pipe_work; simpl; rewrite ?Ew; simpl; lia.
  - destruct (pl_writer pl) as [|?|b todo own] eqn:Ew; [by unfold pass_step; rewrite Ew..|].
    destruct (pl_copier pl) eqn:Ec; try (by unfold pass_step; rewrite Ew, Ec).
    apply Nat.lt_le_incl. by eapply pass_work.
  - unfold copier_step. destruct (pl_copier pl) as [| |[|x c]| |] eqn:Ec; try done;
      try destruct (closed pl); unfold pipe_work; simpl; rewrite ?Ec; simpl; lia.
  - unfold accept_step. destruct (pl_copier pl) as [| |c| |] eqn:Ec; try done.
    destruct (_ && _); [|done]. unfold pipe_work. simpl. rewrite Ec. simpl. rewrite length_drop. lia.
  - unfold break_step. destruct (pl_copier pl) as [| |[|x c]| |] eqn:Ec; try done.
    unfold pipe_work. simpl. rewrite Ec. simpl. lia.
Qed.

(** Once an end is closed the call in progress is one step from its return. *)
Lemma closed_returns pl : closed pl = true -> pl_writer (writer_step pl) = WIdle.
Proof.
  intros Hc. unfold writer_step. rewrite Hc.
  destruct (pl_writer pl) as [|[|b todo] own|b todo own] eqn:Ew; done.
Qed.

(** Steps that need nobody outside: the encoder's goroutine, the bridge, and a
    reader at the other end of ffmpeg's input. *)
Definition inner (a : pact) : Prop := match a with PWriter | PPass | PCopier | PAccept _ => True | _ => False end.

Lemma inner_step pl a : inner a -> closed (pstep pl a) = closed pl /\ pl_exited (pstep pl a) = pl_exited pl /\
  pl_broken (pstep pl a) = pl_broken pl /\ pl_tags (pstep pl a) = pl_tags pl /\
  (closed pl = false -> pl_refused (pstep pl a) = pl_refused pl).
Proof.
  destruct a as [t| | | |n| | | |]; try done; intros _; cbn [pstep].
  - unfold writer_step. destruct (pl_writer pl) as [|[|b todo] own|b todo own]; try done; by destruct (closed pl) eqn:E.
  - unfold pass_step. destruct (pl_writer pl); try done. by destruct (pl_copier pl).
  - unfold copier_step. destruct (pl_copier pl) as [| |[|x c]| |]; try done; by destruct (closed pl) eqn:E.
  - unfold accept_step. destruct (pl_copier pl); try done. by destruct (_ && _).
Qed.

(** A call in progress can always go on while ffmpeg takes its input. *)
Lemma busy_moves pl : pipe_ok pl -> closed pl = false -> pl_exited pl = false -> pl_broken pl = false ->
  pl_writer pl <> WIdle -> exists a, inner a /\ pipe_work (pstep pl a) < pipe_work pl.
Proof.
  intros H Hc Hx Hb Hw. destruct (pl_writer pl) as [|[|b todo] own|b todo own] eqn:Ew; [done| | |].
  - exists PWriter. split; [done|]. unfold pipe_work. simpl. unfold writer_step. rewrite Ew. simpl. lia.
  - exists PWriter. split; [done|]. unfold pipe_work. simpl. unfold writer_step. rewrite Ew, Hc. simpl. lia.
  - destruct (pl_copier pl) as [| |[|x c]| |] eqn:Ec.
    + exists PCopier. split; [done|]. unfold pipe_work. simpl. unfold copier_step. rewrite Ec, Hc. simpl. lia.
    + exists PPass. split; [done|]. by eapply pass_work.
    + exists PCopier. split; [done|]. unfold pipe_work. simpl. unfold copier_step. rewrite Ec. simpl. lia.
    + exists (PAccept 1). split; [done|]. unfold pipe_work. simpl. unfold accept_step. rewrite (pk_stdin pl H), Ec, Hx. simpl. rewrite drop_0. lia.
    + pose proof (pk_ended pl H) as E. rewrite Ec in E. destruct (E eq_refl); congruence.
    + pose proof (pk_ended pl H) as E. rewrite Ec in E. destruct (E eq_refl); congruence.
Qed.

(** The bridge goes on by itself once an end of the pipe is closed. *)
Lemma bridge_moves pl : pipe_ok pl -> closed pl = true -> pl_stdin pl = true ->
  exists a, inner a /\ pipe_work (pstep pl a) < pipe_work pl.
Proof.
  intros H Hc Hs. pose proof (pk_stdin pl H) as E. rewrite Hs in E.
  destruct (pl_copier pl) as [| |[|x c]| |] eqn:Ec; try (exists PCopier; split; [done|]; unfold pipe_work; simpl;
    unfold copier_step; rewrite Ec, ?Hc; simpl; lia); [|done].
  exists (PAccept 1). split; [done|]. destruct (pl_exited pl) eqn:Ex; [done|].
  unfold pipe_work. simpl. unfold accept_step. rewrite Hs, Ec, Ex. simpl. rewrite drop_0. lia.
Qed.

(** Runs of inner steps. *)
Lemma inner_run acts : forall pl, Forall inner acts -> closed (prun pl acts) = closed pl /\
  pl_exited (prun pl acts) = pl_exited pl /\ pl_broken (prun pl acts) = pl_broken pl /\ pl_tags (prun pl acts) = pl_tags pl.
Proof.
  induction acts as [|a acts IH]; intros pl H; [done|]. apply Forall_cons in H as [Ha H].
  destruct (inner_step pl a Ha) as (E1 & E2 & E3 & E4 & _). destruct (IH (pstep pl a) H) as (F1 & F2 & F3 & F4).
  change (prun pl (a :: acts)) with (prun (pstep pl a) acts). split_and!; congruence.
Qed.

(** Inner steps that each take some work off lead to any goal that is reached
    when none of them is possible. *)
Lemma inner_until (P Q : pipeline -> Prop) :
  (forall pl, P pl -> Q pl \/ exists a, inner a /\ P (pstep pl a) /\ pipe_work (pstep pl a) < pipe_work pl) ->
  forall pl, P pl -> exists acts, Forall inner acts /\ length acts <= pipe_work pl /\ P (prun pl acts) /\ Q (prun pl acts).
Proof.
  intros Hstep pl. remember (pipe_work pl) as n eqn:En. assert (Hn : pipe_work pl <= n) by lia. clear En. revert pl Hn.
  induction n as [|n IH]; intros pl Hn Hp; (destruct (Hstep pl Hp) as [Hq|(a & Ha & Hp' & Hlt)]; [exists []; split_and!; [constructor|simpl; lia|done|done]|]); [lia|].
  destruct (IH (pstep pl a)) as (acts & H1 & H2 & H3 & H4); [lia|done|].
  exists (a :: acts). split_and!; [by constructor | simpl; lia | done | done].
Qed.

Lemma open_not_refused pl : pipe_ok pl -> closed pl = false -> pl_refused pl = false.
Proof. intros H Hc. destruct (pl_refused pl) eqn:E; [|done]. destruct (pk_refused pl H E) as (_ & ? & _). congruence. Qed.

(** While ffmpeg takes its input, a call in progress completes. *)
Lemma call_completes pl : pipe_ok pl -> closed pl = false -> pl_exited pl = false -> pl_broken pl = false ->
  exists acts, Forall inner acts /\ length acts <= pipe_work pl /\ pl_writer (prun pl acts) = WIdle /\
    pl_refused (prun pl acts) = false.
Proof.
  intros H Hc Hx Hb.
  destruct (inner_until (fun pl => pipe_ok pl /\ closed pl = false /\ pl_exited pl = false /\ pl_broken pl = false)
              (fun pl => pl_writer pl = WIdle)) with (pl := pl) as (acts & H1 & H2 & (H3 & H4 & _) & H5); [|done|].
  - intros q (A & B & C & E). destruct (pl_writer q) as [|todo own|b todo own] eqn:Ew; [by left| |];
      (right; destruct (busy_moves q A B C E) as (a & Ha & Hlt); [congruence|];
       destruct (inner_step q a Ha) as (E1 & E2 & E3 & _); exists a; rewrite E1, E2, E3; split_and!; try done; by apply pstep_ok).
  - exists acts. split_and!; try done. by apply open_not_refused.
Qed.

(** Once an end is closed, the bridge closes ffmpeg's input. *)
Lemma input_ends pl : pipe_ok pl -> closed pl = true ->
  exists acts, Forall inner acts /\ length acts <= pipe_work pl /\ pl_stdin (prun pl acts) = false.
Proof.
  intros H Hc.
  destruct (inner_until (fun pl => pipe_ok pl /\ closed pl = true) (fun pl => pl_stdin pl = false)) with (pl := pl)
    as (acts & H1 & H2 & _ & H3); [|done|by exists acts].
  intros q (A & B). destruct (pl_stdin q) eqn:Es; [|by left]. right.
  destruct (bridge_moves q A B Es) as (a & Ha & Hlt). destruct (inner_step q a Ha) as (E1 & _).
  exists a. rewrite E1. split_and!; try done. by apply pstep_ok.
Qed.

(** With no call in progress and nothing lost so far, closing the write end
    leaves all of the stream in ffmpeg's input. *)
Lemma inner_idle pl a : inner a -> pl_writer pl = WIdle ->
  pl_writer (pstep pl a) = WIdle /\ pl_refused (pstep pl a) = pl_refused pl.
Proof.
  intros Ha Hw. destruct a as [t| | | |n| | | |]; try done; cbn [pstep].
  - unfold writer_step. by rewrite Hw.
  - unfold pass_step. by rewrite Hw.
  - unfold copier_step. destruct (pl_copier pl) as [| |[|x c]| |]; try done; by destruct (closed pl).
  - unfold accept_step. destruct (pl_copier pl); try done. by destruct (_ && _).
Qed.

Lemma all_delivered pl : pipe_ok pl -> closed pl = true -> pl_writer pl = WIdle -> pl_refused pl = false ->
  pl_broken pl = false -> pl_exited pl = false ->
  exists acts, Forall inner acts /\ length acts <= pipe_work pl /\ pl_stdin (prun pl acts) = false /\
    pl_fed (prun pl acts) = flv (pl_tags pl).
Proof.
  intros H Hc Hw Hr Hb Hx.
  destruct (inner_until (fun q => pipe_ok q /\ closed q = true /\ pl_writer q = WIdle /\ pl_refused q = false /\
                                  pl_broken q = false /\ pl_exited q = false)
              (fun q => pl_stdin q = false)) with (pl := pl) as (acts & H1 & H2 & (H3 & _ & H4 & H5 & H6 & H7) & H8).
  - intros q (A & B & C & E & F & G). destruct (pl_stdin q) eqn:Es; [|by left]. right.
    destruct (bridge_moves q A B Es) as (a & Ha & Hlt). destruct (inner_step q a Ha) as (E1 & E2 & E3 & _).
    destruct (inner_idle q a Ha C) as [E4 E5]. exists a. rewrite E1, E2, E3, E4, E5. split_and!; try done. by apply pstep_ok.
  - done.
  - exists acts. split_and!; try done. destruct (inner_run acts pl H1) as (_ & _ & _ & <-).
    apply fed_all; try done. pose proof (pk_stdin _ H3) as E. rewrite H8, H7 in E. by destruct (pl_copier (prun pl acts)).
Qed.
End Bridge.
