(* ===== verification/Media.v ===== *)
(** * The media path: every publisher's messages on their way to its ffmpeg

    The stream pipeline of [Stream] with the bytes that run through it
    (ingest.go, session.go in [src/internal/stream]): each process [OnPublish]
    starts has the pipe, the bridge and the encoder of [Pipe].  [OnPublish] goes
    on when [NewEncoder] has returned, with what it returned; the callbacks
    [OnSetDataFrame], [OnAudio] and [OnVideo] hand their tags to the encoder;
    [tearDown] closes the pipe's write end; an [OnPublish] that gives up closes
    both.  All of it interleaves with all of [Stream].  go-rtmp calls the
    handlers of one connection one after the other; the payload's decoding
    (flvtag) and the encoder (go-flv) are parameters. *)

From Stdlib Require Import Init.Byte.
From S2P Require Import Prelude Errors StreamKey Store Auth Stream Pipe.
Local Open Scope Z_scope.

Section Media.
Context {D : Type} (stateDir : string).
Context (header : list (list byte)) (encode : list (FlvTag D) -> FlvTag D -> list (list byte) * option err).

Abbreviation pipe := (pipeline (T := FlvTag D)).

Record broadcast := { on_air : live; pipes : list pipe }.   (* a pipe per process *)

Definition new_broadcast (s : store) (ds : gset string) : broadcast := {| on_air := new_live s ds; pipes := [] |}.

(** A media message and what flvtag makes of its payload. *)
Inductive message :=
| SetDataFrame (timestamp : Z) (decoded : res err D)
| Audio (timestamp : Z) (decoded : res err D)
| Video (timestamp : Z) (decoded : res err D).

Definition on_message (hd : handler) (m : message) : res err (option (FlvTag D)) :=
  match m with
  | SetDataFrame timestamp decoded => OnSetDataFrame hd timestamp decoded
  | Audio timestamp decoded => OnAudio hd timestamp decoded
  | Video timestamp decoded => OnVideo hd timestamp decoded
  end.

(** The process whose pipe [h.flvEnc] writes to, once it is set. *)
Definition flvEnc (w : live) (h : nat) : option nat :=
  hd ← handlers w !! h;
  match h_state hd with PLive sid => ffmpeg <$> sessions w !! sid | _ => None end.

(** [s.pipeWriter.Close()], if this call of [tearDown] is the first. *)
Definition close_torn (sid : nat) (w : live) (ps : list pipe) : list pipe :=
  match sessions w !! sid with
  | Some s => match torn s with TIdle => alter close_writer (ffmpeg s) ps | _ => ps end
  | None => ps
  end.

(** What a step of the pipeline does to the pipes. *)
Definition pipes_after (w : live) (a : lact) (ps : list pipe) : list pipe :=
  match a with
  | LPublish h ok =>
      match h_state <$> handlers w !! h with
      | Some (PDir _) => if ok then ps ++ [new_pipeline header] else ps
      | Some (PProc _ p) => if ok then ps else alter close_both p ps
      | Some (PEnc pb p) => if is_some (byName w !! c_Name (pb_channel pb)) then alter close_both p ps else ps
      | _ => ps
      end
  | LClose h => match h_state <$> handlers w !! h with Some (PLive sid) => close_torn sid w ps | _ => ps end
  | LWatchdog sid => if is_some (s ← sessions w !! sid; exited (ffmpeg s) w) then close_torn sid w ps else ps
  | LShutdown sid => close_torn sid w ps
  | LExit p _ => alter exit_step p ps
  | LConnect _ | LGrace _ | LTear _ | LEnv _ _ _ => ps
  end.

(** What [NewEncoder] returned, if it has. *)
Definition NewEncoder_result (pl : pipe) : option (option err) :=
  match pl_writer pl with WIdle => head (pl_results pl) | _ => None end.

Definition live_step (a : lact) (w : broadcast) : broadcast :=
  {| on_air := lstep stateDir (on_air w) a; pipes := pipes_after (on_air w) a (pipes w) |}.

Definition publish (h : nat) (ok : bool) (w : broadcast) : broadcast :=
  match h_state <$> handlers (on_air w) !! h with
  | Some (PProc _ p) =>
      match pl ← pipes w !! p; NewEncoder_result pl with
      | Some r => live_step (LPublish h (negb (is_some r))) w
      | None => w
      end
  | _ => live_step (LPublish h ok) w
  end.

Definition alter_pipe (f : pipe -> pipe) (p : nat) (w : broadcast) : broadcast :=
  {| on_air := on_air w; pipes := alter f p (pipes w) |}.

(** go-rtmp hands the connection's next message to its handler. *)
Definition callback (h : nat) (m : message) (w : broadcast) : broadcast :=
  match handlers (on_air w) !! h, flvEnc (on_air w) h with
  | Some hd, Some p =>
      match on_message hd m with
      | Ok (Some tag) => alter_pipe (call_step encode tag) p w
      | _ => w
      end
  | _, _ => w
  end.

Inductive pipe_action := Writer | Pass | Copier | Accept (n : nat) | Break.
Definition pipe_step (a : pipe_action) : pipe -> pipe :=
  match a with
  | Writer => writer_step
  | Pass => pass_step
  | Copier => copier_step
  | Accept n => accept_step n
  | Break => break_step
  end.

Inductive mact :=
| MLive (a : lact)                        (* the pipeline as in [Stream] *)
| MCall (h : nat) (m : message)
| MPipe (p : nat) (a : pipe_action).      (* the goroutines around one pipe *)

Definition mstep (w : broadcast) (a : mact) : broadcast :=
  match a with
  | MLive (LPublish h ok) => publish h ok w
  | MLive a => live_step a w
  | MCall h m => callback h m w
  | MPipe p a => alter_pipe (pipe_step a) p w
  end.
Definition mrun (w : broadcast) (acts : list mact) : broadcast := foldl mstep w acts.

(** ** What a handler's encoder was given, read off the run *)
Definition writer_of (w : broadcast) (h : nat) : option writer :=
  p ← flvEnc (on_air w) h; pl_writer <$> pipes w !! p.
Definition heard1 (h : nat) (w : broadcast) (a : mact) : list (FlvTag D) :=
  match a with
  | MCall i m =>
      match handlers (on_air w) !! h, writer_of w h with
      | Some hd, Some WIdle =>
          if decide (i = h) then match on_message hd m with Ok (Some tag) => [tag] | _ => [] end else []
      | _, _ => []
      end
  | _ => []
  end.
Fixpoint heard (h : nat) (w : broadcast) (acts : list mact) : list (FlvTag D) :=
  match acts with
  | [] => []
  | a :: acts => heard1 h w a ++ heard h (mstep w a) acts
  end.
End Media.
