(* ===== verification/MediaInv.v ===== *)
(** * The media path: who owns which pipe

    A process and its pipe belong to the [OnPublish] that started them, until
    the session takes them over.  [parts_ok] says what each owner's pipe looks
    like; the lemmas [parts_same], [parts_change], [parts_handover],
    [parts_create] and [parts_pipe] are the ways a step can change it. *)

From Stdlib Require Import Init.Byte.
From S2P Require Import Prelude Errors StreamKey Store Auth Stream StreamRows Pipe Media.
Local Open Scope Z_scope.

Section MediaInv.
Context {D : Type} (stateDir : string).
Context (header : list (list byte)) (encode : list (FlvTag D) -> FlvTag D -> list (list byte) * option err).
Abbreviation pipe := (pipeline (T := FlvTag D)).
Abbreviation pipe_ok := (pipe_ok header encode).

(** ** Owners *)
Inductive stage := Opening | Opened | Playing (t : tear).
Definition parts : Type := owner -> option (stage * string * nat).

Definition part_of (w : live) : parts := fun o =>
  match o with
  | OHandler h =>
      hd ← handlers w !! h;
      match h_state hd with
      | PProc pb p => Some (Opening, c_Name (pb_channel pb), p)
      | PEnc pb p => Some (Opened, c_Name (pb_channel pb), p)
      | _ => None
      end
  | OSession sid => s ← Stream.sessions w !! sid; Some (Playing (torn s), channelName s, ffmpeg s)
  end.

Definition idle_tear (t : tear) : bool := match t with TIdle => true | _ => false end.

(** [NewEncoder] is writing what is left of the header, or has returned without
    an error. *)
Definition greeting (pl : pipe) : Prop :=
  match pl_writer pl with
  | WIdle => pl_results pl = [None]
  | WNext todo own => own = None /\ pl_results pl = [] /\ todo `suffix_of` header
  | WSelect b todo own => own = None /\ pl_results pl = [] /\
      exists b0, (b0 :: todo) `suffix_of` header /\ (b = b0 \/ (copyBuffer < length b0)%nat)
  end.

Definition stage_ok (g : stage) (pl : pipe) : Prop :=
  match g with
  | Opening => closed pl = false /\ pl_tags pl = [] /\ greeting pl
  | Opened => closed pl = false /\ pl_tags pl = [] /\ pl_writer pl = WIdle /\ pl_results pl = [None]
  | Playing t => pl_rclosed pl = false /\ pl_wclosed pl = negb (idle_tear t)
  end.

Record parts_ok (ow : parts) (ps : list pipe) (qs : list proc) : Prop := {
  pa_len : length ps = length qs;
  pa_pipe : forall p pl x, ps !! p = Some pl -> qs !! p = Some x -> pipe_ok pl /\ pl_exited pl = is_some (p_exited x);
  pa_uniq : forall o1 o2 g1 g2 n1 n2 p, ow o1 = Some (g1, n1, p) -> ow o2 = Some (g2, n2, p) -> o1 = o2;
  pa_stage : forall o g n p, ow o = Some (g, n, p) ->
    exists pl x, ps !! p = Some pl /\ qs !! p = Some x /\ p_channel x = n /\ stage_ok g pl
}.

Lemma parts_same ow ow' ps qs : (forall o, ow' o = ow o) -> parts_ok ow ps qs -> parts_ok ow' ps qs.
Proof.
  intros E [H1 H2 H3 H4]. split; try done.
  - intros o1 o2 g1 g2 n1 n2 p. rewrite !E. apply H3.
  - intros o g n p. rewrite E. apply H4.
Qed.

(** Everybody's pipe [p] changes without its owner noticing. *)
Lemma parts_pipe ow ps qs p f k : parts_ok ow ps qs ->
  (forall pl x, ps !! p = Some pl -> qs !! p = Some x -> pipe_ok pl -> pl_exited pl = is_some (p_exited x) ->
     pipe_ok (f pl) /\ pl_exited (f pl) = is_some (p_exited (k x)) /\ p_channel (k x) = p_channel x /\
     forall o g n, ow o = Some (g, n, p) -> stage_ok g pl -> stage_ok g (f pl)) ->
  parts_ok ow (alter f p ps) (alter k p qs).
Proof.
  intros [H1 H2 H3 H4] Hf. split; [by rewrite !length_alter| |done|].
  - intros i pl x. destruct (decide (i = p)) as [->|Hne]; [|rewrite !list_lookup_alter_ne by done; apply H2].
    rewrite !list_lookup_alter_eq. intros (pl0 & Hpl & ->)%fmap_Some (x0 & Hx & ->)%fmap_Some.
    destruct (H2 p pl0 x0 Hpl Hx) as [A B]. by destruct (Hf pl0 x0 Hpl Hx A B) as (? & ? & _).
  - intros o g n i Ho. destruct (H4 o g n i Ho) as (pl & x & Hpl & Hx & Hn & Hg).
    destruct (decide (i = p)) as [->|Hne]; [|rewrite !list_lookup_alter_ne by done; by exists pl, x].
    destruct (H2 p pl x Hpl Hx) as [A B]. destruct (Hf pl x Hpl Hx A B) as (_ & _ & E & F).
    exists (f pl), (k x). rewrite !list_lookup_alter_eq, Hpl, Hx, E. split_and!; [done..|]. by apply (F o g n).
Qed.

(** One owner, and its own pipe with it. *)
Lemma parts_change ow ow' ps qs o g n p new f k : parts_ok ow ps qs -> ow o = Some (g, n, p) ->
  (forall o', ow' o' = if decide (o' = o) then new else ow o') ->
  (forall pl x, ps !! p = Some pl -> qs !! p = Some x -> pipe_ok pl -> pl_exited pl = is_some (p_exited x) -> stage_ok g pl ->
     pipe_ok (f pl) /\ pl_exited (f pl) = is_some (p_exited (k x)) /\ p_channel (k x) = p_channel x /\
     match new with None => True | Some (g', n', p') => n' = n /\ p' = p /\ stage_ok g' (f pl) end) ->
  parts_ok ow' (alter f p ps) (alter k p qs).
Proof.
  intros [H1 H2 H3 H4] Ho E Hf. destruct (H4 o g n p Ho) as (pl & x & Hpl & Hx & Hn & Hg).
  destruct (H2 p pl x Hpl Hx) as [A B]. destruct (Hf pl x Hpl Hx A B Hg) as (F1 & F2 & F3 & F4).
  assert (Hcase : forall o' g' n' i, ow' o' = Some (g', n', i) ->
    (o' = o /\ i = p /\ n' = n /\ stage_ok g' (f pl)) \/ (o' <> o /\ ow o' = Some (g', n', i) /\ i <> p)).
  { intros o' g' n' i. rewrite E. case_decide as Hd; intros Ho'.
    - left. rewrite Ho' in F4. by destruct F4 as (-> & -> & ?).
    - right. split_and!; [done..|]. intros ->. by destruct (Hd (H3 _ _ _ _ _ _ _ Ho' Ho)). }
  split; [by rewrite !length_alter| | |].
  - intros i pl' x'. destruct (decide (i = p)) as [->|Hne]; [|rewrite !list_lookup_alter_ne by done; apply H2].
    rewrite !list_lookup_alter_eq, Hpl, Hx. by intros [= <-] [= <-].
  - intros o1 o2 g1 g2 n1 n2 i E1 E2. destruct (Hcase _ _ _ _ E1) as [(-> & -> & _)|(N1 & G1 & D1)];
      destruct (Hcase _ _ _ _ E2) as [(-> & ? & _)|(N2 & G2 & D2)]; try done. by eapply H3.
  - intros o' g' n' i Ei. destruct (Hcase _ _ _ _ Ei) as [(-> & -> & -> & Hs)|(N1 & G1 & D1)].
    + exists (f pl), (k x). by rewrite !list_lookup_alter_eq, Hpl, Hx, F3.
    + rewrite !list_lookup_alter_ne by done. by apply (H4 o').
Qed.

(** The pipe passes to a new owner. *)
Lemma parts_handover ow ow' ps qs o o2 g n p g' : parts_ok ow ps qs -> ow o = Some (g, n, p) -> ow o2 = None ->
  (forall o', ow' o' = if decide (o' = o) then None else if decide (o' = o2) then Some (g', n, p) else ow o') ->
  (forall pl, stage_ok g pl -> stage_ok g' pl) -> parts_ok ow' ps qs.
Proof.
  intros [H1 H2 H3 H4] Ho Ho2 E Hg.
  assert (Hcase : forall o' g1 n1 i, ow' o' = Some (g1, n1, i) ->
    (o' = o2 /\ i = p /\ n1 = n /\ g1 = g') \/ (o' <> o /\ o' <> o2 /\ ow o' = Some (g1, n1, i) /\ i <> p)).
  { intros o' g1 n1 i. rewrite E. case_decide as D1; [done|]. case_decide as D2; [intros [= <- <- <-]; by left|].
    intros Ho'. right. split_and!; [done..|]. intros ->. by destruct (D1 (H3 _ _ _ _ _ _ _ Ho' Ho)). }
  split; [done|done| |].
  - intros o1 o3 g1 g2 n1 n2 i E1 E2. destruct (Hcase _ _ _ _ E1) as [(-> & -> & _)|(N1 & M1 & G1 & D1)];
      destruct (Hcase _ _ _ _ E2) as [(-> & ? & _)|(N2 & M2 & G2 & D2)]; try done. by eapply H3.
  - intros o' g1 n1 i Ei. destruct (Hcase _ _ _ _ Ei) as [(-> & -> & -> & ->)|(N1 & M1 & G1 & D1)]; [|by apply (H4 o')].
    destruct (H4 o g n p Ho) as (pl & x & Hpl & Hx & Hn & Hs). exists pl, x. split_and!; [done..|]. by apply Hg.
Qed.

(** A process starts. *)
Lemma parts_create ow ow' ps qs o name : parts_ok ow ps qs -> ow o = None ->
  (forall o', ow' o' = if decide (o' = o) then Some (Opening, name, length qs) else ow o') ->
  parts_ok ow' (ps ++ [new_pipeline header]) (qs ++ [new_proc name]).
Proof.
  intros [H1 H2 H3 H4] Ho E.
  assert (Hlt : forall o g n i, ow o = Some (g, n, i) -> (i < length qs)%nat).
  { intros o' g n i (pl & x & _ & Hx & _)%H4. by apply lookup_lt_is_Some_1. }
  split; [rewrite !length_app; simpl; lia| | |].
  - intros i pl x. rewrite !lookup_snoc_Some. intros [[Hl Hpl]|[Hl <-]] [[Hl' Hx]|[Hl' <-]]; try lia; [by apply (H2 i)|].
    split; [apply new_pipeline_ok | done].
  - intros o1 o2 g1 g2 n1 n2 i. rewrite !E. case_decide as D1; case_decide as D2; try by subst.
    + intros [= <- <- <-] Hb%Hlt. lia.
    + intros Hb%Hlt [= <- <- <-]. lia.
    + apply H3.
  - intros o' g n i. rewrite E. case_decide as D1.
    + intros [= <- <- <-]. exists (new_pipeline header), (new_proc name). rewrite <- H1 at 1.
      rewrite !lookup_app_r, !Nat.sub_diag by done. by split_and!.
    + intros (pl & x & Hpl & Hx & Hn & Hs)%H4. exists pl, x. split_and!; [by apply lookup_app_l_Some..|done|done].
Qed.
End MediaInv.
