(* ===== verification/MediaThms.v ===== *)
(** * The media path: what every interleaving keeps, and what it delivers *)

From Stdlib Require Import Init.Byte.
From S2P Require Import Prelude Utf8 Encoding Errors StreamKey Store StoreInv Auth Stream StreamThms StreamRows StreamProps Pipe Media MediaInv.
Local Open Scope Z_scope.

Section MediaThms.
Context {D : Type} (stateDir : string).
Context (header : list (list byte)) (encode : list (FlvTag D) -> FlvTag D -> list (list byte) * option err).
Abbreviation pipe := (pipeline (T := FlvTag D)).
Abbreviation pipe_ok := (pipe_ok header encode).
Abbreviation parts_ok := (parts_ok header encode).
Abbreviation greeting := (greeting header).
Abbreviation stage_ok := (stage_ok header).
Abbreviation mstep := (mstep stateDir header encode).
Abbreviation mrun := (mrun stateDir header encode).
Abbreviation live_step := (live_step stateDir header).
Abbreviation heard := (heard stateDir header encode).

(** ** One pipe *)
Lemma closed_set_closed w r (pl : pipe) : closed (set_closed w r pl) = w || r.
Proof. done. Qed.

Lemma pipe_step_keeps a (pl : pipe) : closed (pipe_step a pl) = closed pl /\ pl_wclosed (pipe_step a pl) = pl_wclosed pl /\
  pl_rclosed (pipe_step a pl) = pl_rclosed pl /\ pl_tags (pipe_step a pl) = pl_tags pl /\ pl_exited (pipe_step a pl) = pl_exited pl.
Proof.
  destruct a; simpl.
  - unfold writer_step. destruct (pl_writer pl) as [|[|b todo] own|b todo own]; try done; destruct (closed pl) eqn:E; try done; by split.
  - unfold pass_step. destruct (pl_writer pl); try done. by destruct (pl_copier pl).
  - unfold copier_step. destruct (pl_copier pl) as [| |[|x c]| |]; try done; destruct (closed pl) eqn:E; try done; by split.
  - unfold accept_step. destruct (pl_copier pl); try done. by destruct (_ && _).
  - unfold break_step. by destruct (pl_copier pl) as [| |[|x c]| |].
Qed.

Lemma suffix_tail {A} (x : A) l k : (x :: l) `suffix_of` k -> l `suffix_of` k.
Proof. intros [k' ->]. exists (k' ++ [x]). by rewrite <- app_assoc. Qed.

Lemma pipe_step_greeting a (pl : pipe) : closed pl = false -> greeting pl -> greeting (pipe_step a pl).
Proof.
  intros Hc. unfold MediaInv.greeting. destruct a; simpl.
  - unfold writer_step. destruct (pl_writer pl) as [|[|b todo] own|b todo own] eqn:Ew; rewrite ?Hc; simpl; rewrite ?Ew; try done.
    + by intros (-> & -> & _).
    + intros (? & ? & ?). split_and!; [done..|]. exists b. auto.
  - unfold pass_step. destruct (pl_writer pl) as [|[|b todo] own|b todo own] eqn:Ew; rewrite ?Ew; try done.
    destruct (pl_copier pl); rewrite ?Ew; try done. simpl. intros (? & ? & b0 & Hs & Hb).
    destruct (drop copyBuffer b) as [|x r] eqn:Ed; split_and!; try done; [by eapply suffix_tail|]. exists b0. split; [done|].
    right. destruct Hb as [-> |?]; [|done]. apply (f_equal length) in Ed. rewrite length_drop in Ed. simpl in Ed. lia.
  - unfold copier_step. destruct (pl_copier pl) as [| |[|x c]| |]; rewrite ?Hc; done.
  - unfold accept_step. destruct (pl_copier pl); try done. by destruct (_ && _).
  - unfold break_step. by destruct (pl_copier pl) as [| |[|x c]| |].
Qed.

Lemma pipe_step_idle a (pl : pipe) : pl_writer pl = WIdle ->
  pl_writer (pipe_step a pl) = WIdle /\ pl_results (pipe_step a pl) = pl_results pl.
Proof.
  intros Hw. destruct a; simpl.
  - unfold writer_step. by rewrite Hw.
  - unfold pass_step. by rewrite Hw.
  - unfold copier_step. destruct (pl_copier pl) as [| |[|x c]| |]; try done; by destruct (closed pl).
  - unfold accept_step. destruct (pl_copier pl); try done. by destruct (_ && _).
  - unfold break_step. by destruct (pl_copier pl) as [| |[|x c]| |].
Qed.

Lemma pipe_step_ok a pl : pipe_ok pl -> pipe_ok (pipe_step a pl).
Proof.
  intros H. destruct a; simpl; [by apply writer_step_ok | by apply pass_step_ok | by apply copier_step_ok
    | by apply accept_step_ok | by apply break_step_ok].
Qed.

Lemma pipe_step_stage a g (pl : pipe) : stage_ok g pl -> stage_ok g (pipe_step a pl).
Proof.
  destruct (pipe_step_keeps a pl) as (E1 & E2 & E3 & E4 & _). destruct g as [| |t]; simpl; rewrite ?E1, ?E2, ?E3, ?E4.
  - intros (Hc & ? & ?). split_and!; [done..|by apply pipe_step_greeting].
  - intros (Hc & ? & Hw & Hr). destruct (pipe_step_idle a pl Hw) as [-> ->]. done.
  - done.
Qed.

Lemma exit_stage g (pl : pipe) : stage_ok g pl -> stage_ok g (exit_step pl).
Proof. by destruct g. Qed.

(** ** Every step keeps the ownership *)
Record media_ok (w : broadcast (D := D)) : Prop := {
  mo_parts : parts_ok (part_of (on_air w)) (pipes w) (procs (on_air w));
  mo_live : forall h hd sid, handlers (on_air w) !! h = Some hd -> h_state hd = PLive sid ->
    is_Some (Stream.sessions (on_air w) !! sid);
  mo_one : forall h1 h2 hd1 hd2 sid, handlers (on_air w) !! h1 = Some hd1 -> h_state hd1 = PLive sid ->
    handlers (on_air w) !! h2 = Some hd2 -> h_state hd2 = PLive sid -> h1 = h2
}.

Definition live_sid (p : pstate) : option nat := match p with PLive sid => Some sid | _ => None end.

(** Changes of the pipeline that move no handler to another live session. *)
Lemma media_same (w w' : broadcast (D := D)) : media_ok w -> parts_ok (part_of (on_air w')) (pipes w') (procs (on_air w')) ->
  (forall h, (live_sid ∘ h_state) <$> handlers (on_air w') !! h = (live_sid ∘ h_state) <$> handlers (on_air w) !! h \/
             (live_sid ∘ h_state) <$> handlers (on_air w') !! h = Some None) ->
  length (Stream.sessions (on_air w')) = length (Stream.sessions (on_air w)) -> media_ok w'.
Proof.
  intros [H1 H2 H3] Hp Hh Hl.
  assert (Hback : forall h hd sid, handlers (on_air w') !! h = Some hd -> h_state hd = PLive sid ->
    exists hd0, handlers (on_air w) !! h = Some hd0 /\ h_state hd0 = PLive sid).
  { intros h hd sid Hx Hs. pose proof (Hh h) as E. rewrite Hx in E. simpl in E. rewrite Hs in E. destruct E as [E|[=]].
    symmetry in E. apply fmap_Some in E as (hd0 & Hhd0 & E). exists hd0. split; [done|]. simpl in E.
    destruct (h_state hd0); simpl in E; congruence. }
  split; [done| |].
  - intros h hd sid Hx Hs. destruct (Hback h hd sid Hx Hs) as (hd0 & A & B). apply lookup_lt_is_Some. rewrite Hl.
    apply lookup_lt_is_Some. by apply (H2 h hd0).
  - intros h1 h2 hd1 hd2 sid A1 B1 A2 B2. destruct (Hback _ _ _ A1 B1) as (x1 & C1 & D1).
    destruct (Hback _ _ _ A2 B2) as (x2 & C2 & D2). by apply (H3 h1 h2 x1 x2 sid).
Qed.

Definition part_of_state (p : pstate) : option (stage * string * nat) :=
  match p with
  | PProc pb p => Some (Opening, c_Name (pb_channel pb), p)
  | PEnc pb p => Some (Opened, c_Name (pb_channel pb), p)
  | _ => None
  end.
Lemma part_set_handler w0 w h p hd o : handlers w !! h = Some hd -> handlers w0 = handlers w -> Stream.sessions w0 = Stream.sessions w ->
  part_of (set_handler h p w0) o = if decide (o = OHandler h) then part_of_state p else part_of w o.
Proof.
  intros Hh E1 E2. destruct o as [i|sid]; cbn [part_of].
  - unfold set_handler. cbn [handlers set_handlers]. rewrite E1. destruct (decide (OHandler i = OHandler h)) as [[= ->]|Hne].
    + by rewrite list_lookup_alter_eq, Hh.
    + by rewrite list_lookup_alter_ne by congruence.
  - rewrite decide_False by done. unfold set_handler. cbn [Stream.sessions set_handlers]. by rewrite E2.
Qed.
Lemma part_handler w h hd : handlers w !! h = Some hd -> part_of w (OHandler h) = part_of_state (h_state hd).
Proof. intros Hh. cbn [part_of]. by rewrite Hh. Qed.

Lemma live_set_handler w0 w h p : live_sid p = None -> handlers w0 = handlers w -> forall i,
  (live_sid ∘ h_state) <$> handlers (set_handler h p w0) !! i = (live_sid ∘ h_state) <$> handlers w !! i \/
  (live_sid ∘ h_state) <$> handlers (set_handler h p w0) !! i = Some None.
Proof.
  intros Hp E i. unfold set_handler. cbn [handlers set_handlers]. rewrite E. destruct (decide (i = h)) as [->|Hne].
  - rewrite list_lookup_alter_eq. destruct (handlers w !! h); [right; simpl; by rewrite Hp | by left].
  - rewrite list_lookup_alter_ne by done. by left.
Qed.

(** *** Moves of one [OnPublish] *)
Lemma alter_id {A} (l : list A) i : alter (fun x => x) i l = l.
Proof. by apply list_alter_id. Qed.

Lemma publish_moves_on w h hd w0 p ps : media_ok {| on_air := w; pipes := ps |} -> handlers w !! h = Some hd ->
  handlers w0 = handlers w -> Stream.sessions w0 = Stream.sessions w -> procs w0 = procs w ->
  live_sid p = None -> part_of_state p = part_of_state (h_state hd) ->
  media_ok {| on_air := set_handler h p w0; pipes := ps |}.
Proof.
  intros Hok Hh E1 E2 E3 Hp Hs. apply (media_same {| on_air := w; pipes := ps |}); [done| | |].
  - cbn [on_air pipes]. change (procs (set_handler h p w0)) with (procs w0). rewrite E3.
    apply (parts_same _ _ (part_of w)); [|apply (mo_parts _ Hok)].
    intros o. rewrite (part_set_handler w0 w h p hd) by done. case_decide as Ho; [|done]. by rewrite Ho, (part_handler w h hd), Hs.
  - by apply live_set_handler.
  - simpl. by rewrite E2.
Qed.

(** The handler and its pipe. *)
Lemma publish_changes w h hd w0 p ps g n i f k : media_ok {| on_air := w; pipes := ps |} -> handlers w !! h = Some hd ->
  handlers w0 = handlers w -> Stream.sessions w0 = Stream.sessions w -> procs w0 = alter k i (procs w) ->
  live_sid p = None -> part_of_state (h_state hd) = Some (g, n, i) ->
  (forall pl x, ps !! i = Some pl -> procs w !! i = Some x -> pipe_ok pl -> pl_exited pl = is_some (p_exited x) -> stage_ok g pl ->
     pipe_ok (f pl) /\ pl_exited (f pl) = is_some (p_exited (k x)) /\ p_channel (k x) = p_channel x /\
     match part_of_state p with None => True | Some (g', n', p') => n' = n /\ p' = i /\ stage_ok g' (f pl) end) ->
  media_ok {| on_air := set_handler h p w0; pipes := alter f i ps |}.
Proof.
  intros Hok Hh E1 E2 E3 Hp Hs Hf. apply (media_same {| on_air := w; pipes := ps |}); [done| | |].
  - cbn [on_air pipes]. change (procs (set_handler h p w0)) with (procs w0). rewrite E3.
    apply (parts_change _ _ (part_of w) _ ps (procs w) (OHandler h) g n i (part_of_state p)); [apply (mo_parts _ Hok)| | |done].
    + by rewrite (part_handler w h hd).
    + intros o. by rewrite (part_set_handler w0 w h p hd).
  - by apply live_set_handler.
  - simpl. by rewrite E2.
Qed.

Lemma publish_creates w h hd pb ps : media_ok {| on_air := w; pipes := ps |} -> handlers w !! h = Some hd ->
  h_state hd = PDir pb ->
  media_ok {| on_air := set_handler h (PProc pb (length (procs w))) (set_procs (procs w ++ [new_proc (c_Name (pb_channel pb))]) w);
              pipes := ps ++ [new_pipeline header] |}.
Proof.
  intros Hok Hh Hs. apply (media_same {| on_air := w; pipes := ps |}); [done| | |done].
  - cbn [on_air pipes]. change (procs (set_handler _ _ _)) with (procs w ++ [new_proc (c_Name (pb_channel pb))]).
    apply (parts_create _ _ (part_of w) _ ps (procs w) (OHandler h)); [apply (mo_parts _ Hok) | by rewrite (part_handler w h hd), Hs|].
    intros o. by rewrite (part_set_handler _ w h _ hd).
  - by apply live_set_handler.
Qed.

(** *** A new session *)
Definition with_session (x : session) (name : string) (w : live) : live :=
  Stream.set_sessions (Stream.sessions w ++ [x]) (set_byName (<[name := length (Stream.sessions w)]> (byName w)) w).

Lemma publish_goes_live w h hd pb p x ps : media_ok {| on_air := w; pipes := ps |} -> handlers w !! h = Some hd ->
  h_state hd = PEnc pb p -> torn x = TIdle -> channelName x = c_Name (pb_channel pb) -> ffmpeg x = p ->
  media_ok {| on_air := set_handler h (PLive (length (Stream.sessions w))) (with_session x (channelName x) w); pipes := ps |}.
Proof.
  intros Hok Hh Hs Ht Hn Hp. pose proof Hok as [H1 H2 H3]. simpl in H1, H2, H3.
  assert (Hnew : forall i hd' sid, handlers (set_handler h (PLive (length (Stream.sessions w))) (with_session x (channelName x) w)) !! i = Some hd' ->
    h_state hd' = PLive sid -> (i = h /\ sid = length (Stream.sessions w)) \/
    (i <> h /\ handlers w !! i = Some hd' /\ sid < length (Stream.sessions w))%nat).
  { intros i hd' sid. simpl. destruct (decide (i = h)) as [->|Hne].
    - rewrite list_lookup_alter_eq, Hh. intros [= <-] [= <-]. by left.
    - rewrite list_lookup_alter_ne by done. intros Hi Hl. right. split_and!; [done..|].
      apply lookup_lt_is_Some. by apply (H2 i hd'). }
  split; cbn [on_air pipes].
  - apply (parts_handover _ _ (part_of w) _ ps (procs w) (OHandler h) (OSession (length (Stream.sessions w))) Opened
             (c_Name (pb_channel pb)) p (Playing TIdle)); [done| | | |].
    + by rewrite (part_handler w h hd), Hs.
    + simpl. by rewrite lookup_ge_None_2.
    + intros o. destruct o as [i|sid].
      * rewrite (decide_False (P := OHandler i = OSession _)) by done. cbn [part_of]. unfold set_handler. cbn [handlers set_handlers].
        destruct (decide (OHandler i = OHandler h)) as [[= ->]|Hne].
        { change (handlers (with_session _ _ w)) with (handlers w). by rewrite list_lookup_alter_eq, Hh. }
        { by rewrite list_lookup_alter_ne by congruence. }
      * rewrite decide_False by done. cbn [part_of]. simpl.
        destruct (decide (OSession sid = OSession (length (Stream.sessions w)))) as [[= ->]|Hne].
        { rewrite lookup_app_r, Nat.sub_diag by done. simpl. by rewrite Ht, Hn, Hp. }
        { destruct (decide (sid < length (Stream.sessions w))%nat); [by rewrite lookup_app_l|].
          assert (sid <> length (Stream.sessions w)) by congruence.
          rewrite !lookup_ge_None_2; [done|lia|rewrite length_app; simpl; lia]. }
    + intros pl (Hc & _ & Hw & Hr). unfold closed in Hc. apply orb_false_iff in Hc as [? ?]. by split.
  - intros i hd' sid Hi Hl. apply lookup_lt_is_Some. simpl. rewrite length_app. simpl.
    destruct (Hnew i hd' sid Hi Hl) as [[-> ->]|(_ & _ & ?)]; lia.
  - intros i1 i2 x1 x2 sid A1 B1 A2 B2.
    destruct (Hnew i1 x1 sid A1 B1) as [[-> ->]|(_ & C1 & ?)]; destruct (Hnew i2 x2 _ A2 B2) as [[-> E]|(_ & C2 & ?)]; try done; try lia.
    by apply (H3 i1 i2 x1 x2 sid).
Qed.

Lemma opened_ok (pl : pipe) : stage_ok Opening pl -> pl_writer pl = WIdle -> stage_ok Opened pl.
Proof. intros (H1 & H2 & H3) Hw. unfold greeting in H3. rewrite Hw in H3. by split_and!. Qed.

Lemma kill_pipe pl x : pipe_ok pl -> pl_exited pl = is_some (p_exited x) ->
  pipe_ok (close_both pl) /\ pl_exited (close_both pl) = is_some (p_exited (kill (close_stdin x))) /\
  p_channel (kill (close_stdin x)) = p_channel x.
Proof. intros H He. split_and!; [by apply set_closed_ok | done | done]. Qed.

Lemma publish_media h ok w : media_ok w -> media_ok (publish stateDir header h ok w).
Proof.
  destruct w as [w ps]. intros Hok. unfold publish, Media.live_step. cbn [on_air pipes lstep pipes_after].
  unfold publish_step. destruct (handlers w !! h) as [hd|] eqn:Hh; simpl; [|done].
  destruct (h_state hd) as [|ch|pb|pb|pb p|pb p|pb|sid|e] eqn:Hs; try done.
  - destruct (String.eqb _ _); [by apply publish_moves_on with w hd; [..|rewrite Hs]|].
    destruct (lookupChannelByStreamKey _ _) as [s r]. apply publish_moves_on with w hd; try done; [by destruct r|rewrite Hs; by destruct r].
  - destruct (wrapping _ _ _) as [s r]. apply publish_moves_on with w hd; try done; [by destruct r|rewrite Hs; by destruct r].
  - destruct ok; apply publish_moves_on with w hd; try done; by rewrite Hs.
  - destruct ok; [by apply publish_creates with hd|]. apply publish_moves_on with w hd; try done; by rewrite Hs.
  - destruct (pa_stage _ _ _ _ _ (mo_parts _ Hok) (OHandler h) Opening (c_Name (pb_channel pb)) p) as (pl & x & Hpl & Hx & Hn & Hg).
    { cbn [on_air]. by rewrite (part_handler w h hd), Hs. }
    cbn [pipes] in Hpl. rewrite Hpl. simpl. unfold NewEncoder_result. destruct (pl_writer pl) eqn:Ew; try done.
    destruct (opened_ok pl Hg Ew) as (_ & _ & _ & Hr). rewrite Hr. simpl.
    rewrite <- (alter_id ps p).
    apply (publish_changes w h hd w (PEnc pb p) ps Opening (c_Name (pb_channel pb)) p (fun x => x) (fun x => x)); try done.
    + by rewrite alter_id.
    + by rewrite Hs.
    + intros pl' x' Hpl' Hx' A B C. simpl. split_and!; try done; try (apply opened_ok; [done|by simplify_eq]).
  - unfold add. cbn [channelName]. destruct (byName w !! _) eqn:En; simpl.
    + apply (publish_changes w h hd _ _ ps Opened (c_Name (pb_channel pb)) p close_both (fun x => kill (close_stdin x))); try done.
      * by rewrite Hs.
      * intros pl x Hpl Hx A B _. by destruct (kill_pipe pl x A B) as (? & ? & ?).
    + by apply (publish_goes_live w h hd pb p
        {| channelID := _; channelName := _; title := _; startedAt := _; ffmpeg := p; dbRowID := _; torn := TIdle |}).
  - destruct (EndStreamSession _ _ _ _) as [s r]. apply publish_moves_on with w hd; try done; by rewrite Hs.
Qed.

(** *** Sessions *)
Lemma part_set_torn w0 w sid t s o : Stream.sessions w !! sid = Some s -> Stream.sessions w0 = Stream.sessions w -> handlers w0 = handlers w ->
  part_of (set_torn sid t w0) o = if decide (o = OSession sid) then Some (Playing t, channelName s, ffmpeg s) else part_of w o.
Proof.
  intros Hs E1 E2. destruct o as [h|i]; cbn [part_of]; [by rewrite decide_False; simpl; rewrite ?E2|].
  unfold set_torn. cbn [Stream.sessions Stream.set_sessions]. rewrite E1.
  destruct (decide (OSession i = OSession sid)) as [[= ->]|Hne].
  - by rewrite list_lookup_alter_eq, Hs.
  - by rewrite list_lookup_alter_ne by congruence.
Qed.

Lemma torn_changes w sid s w0 t ps f k : media_ok {| on_air := w; pipes := ps |} -> Stream.sessions w !! sid = Some s ->
  handlers w0 = handlers w -> Stream.sessions w0 = Stream.sessions w -> procs w0 = alter k (ffmpeg s) (procs w) ->
  (forall x, p_exited (k x) = p_exited x /\ p_channel (k x) = p_channel x) ->
  (forall pl, pipe_ok pl -> pl_rclosed pl = false /\ pl_wclosed pl = negb (idle_tear (torn s)) ->
     pipe_ok (f pl) /\ pl_exited (f pl) = pl_exited pl /\ pl_rclosed (f pl) = false /\ pl_wclosed (f pl) = negb (idle_tear t)) ->
  media_ok {| on_air := set_torn sid t w0; pipes := alter f (ffmpeg s) ps |}.
Proof.
  intros Hok Hs E1 E2 E3 Hk Hf. apply (media_same {| on_air := w; pipes := ps |}); [done| | |].
  - cbn [on_air pipes]. change (procs (set_torn sid t w0)) with (procs w0). rewrite E3.
    apply (parts_change _ _ (part_of w) _ ps (procs w) (OSession sid) (Playing (torn s)) (channelName s) (ffmpeg s)
             (Some (Playing t, channelName s, ffmpeg s))); [apply (mo_parts _ Hok)| | |].
    + cbn [part_of on_air]. by rewrite Hs.
    + intros o. by rewrite (part_set_torn w0 w sid t s).
    + intros pl x _ _ A B C. destruct (Hf pl A C) as (F1 & F2 & F3 & F4). destruct (Hk x) as [K1 K2].
      split_and!; try done. by rewrite F2, K1.
  - intros h. left. simpl. by rewrite E1.
  - simpl. by rewrite length_alter, E2.
Qed.

Lemma tearDown_media sid reason w ps : media_ok {| on_air := w; pipes := ps |} ->
  media_ok {| on_air := tearDown sid reason w; pipes := close_torn sid w ps |}.
Proof.
  intros Hok. unfold tearDown, close_torn. destruct (Stream.sessions w !! sid) as [s|] eqn:Hs; [|done].
  destruct (torn s) eqn:Ht; try done.
  apply (torn_changes w sid s _ _ ps _ close_stdin); try done.
  intros pl A [B _]. split_and!; [by apply set_closed_ok|done..].
Qed.

Lemma tear_step_media sid w ps : media_ok {| on_air := w; pipes := ps |} ->
  media_ok {| on_air := tear_step stateDir sid w; pipes := ps |}.
Proof.
  intros Hok. unfold tear_step. destruct (Stream.sessions w !! sid) as [s|] eqn:Hs; [|done].
  assert (Hmove : forall t w0, handlers w0 = handlers w -> Stream.sessions w0 = Stream.sessions w -> procs w0 = procs w ->
    idle_tear t = idle_tear (torn s) -> media_ok {| on_air := set_torn sid t w0; pipes := ps |}).
  { intros t w0 E1 E2 E3 Ht. rewrite <- (alter_id ps (ffmpeg s)).
    apply (torn_changes w sid s w0 t ps (fun x => x) (fun x => x)); try done.
    - by rewrite E3, alter_id.
    - intros pl A [B C]. by rewrite Ht. }
  destruct (torn s) as [|reason|reason|reason|reason] eqn:Ht; try done.
  - destruct (exited _ _); [by apply Hmove | done].
  - destruct (dbRowID s =? 0); [by apply Hmove|]. destruct (EndStreamSession _ _ _ _) as [x r]. by apply Hmove.
  - by destruct (String.eqb _ _); apply Hmove.
Qed.

Lemma procs_media w ps p f k : media_ok {| on_air := w; pipes := ps |} ->
  (forall pl x, pipe_ok pl -> pl_exited pl = is_some (p_exited x) ->
     pipe_ok (f pl) /\ pl_exited (f pl) = is_some (p_exited (k x)) /\ p_channel (k x) = p_channel x /\
     forall g, stage_ok g pl -> stage_ok g (f pl)) ->
  media_ok {| on_air := set_procs (alter k p (procs w)) w; pipes := alter f p ps |}.
Proof.
  intros Hok Hf. apply (media_same {| on_air := w; pipes := ps |}); [done| |by left|done].
  apply (parts_same _ _ (part_of w)); [done|]. apply (parts_pipe _ _ _ ps (procs w)); [apply (mo_parts _ Hok)|].
  intros pl x _ _ A B. destruct (Hf pl x A B) as (F1 & F2 & F3 & F4). split_and!; try done. intros o g n _. apply F4.
Qed.

Lemma live_step_media a w : (forall h ok, a <> LPublish h ok) -> media_ok w -> media_ok (live_step a w).
Proof.
  destruct w as [w ps]. intros Hp Hok. unfold Media.live_step. cbn [on_air pipes].
  destruct a as [key|h b|h|p f|sid|sid|sid|sid|t fs cs]; cbn [lstep pipes_after].
  - apply (media_same {| on_air := w; pipes := ps |}); [done| | |done].
    + apply (parts_same _ _ (part_of w)); [|apply (mo_parts _ Hok)]. intros [h|sid]; [|done]. cbn [part_of]. simpl.
      destruct (decide (h < length (handlers w))%nat) as [Hlt|Hge]; [by rewrite lookup_app_l|].
      rewrite lookup_app_r by lia. rewrite (lookup_ge_None_2 (handlers w)) by lia.
      by destruct (h - length (handlers w))%nat as [|[]].
    + intros h. simpl. destruct (decide (h < length (handlers w))%nat) as [Hlt|Hge]; [left; by rewrite lookup_app_l|].
      rewrite lookup_app_r by lia. rewrite (lookup_ge_None_2 (handlers w)) by lia.
      destruct (h - length (handlers w))%nat as [|[]]; [by right | by left..].
  - by destruct (Hp h b).
  - unfold OnClose. destruct (handlers w !! h) as [hd|]; simpl; [|done]. destruct (h_state hd); try done. by apply tearDown_media.
  - apply procs_media; [done|]. intros pl x A B. split_and!; [by apply exit_step_ok| | |by intros g; apply exit_stage].
    + unfold exit_proc. destruct (p_exited x) eqn:E; [simpl; by rewrite E | done].
    + unfold exit_proc. by destruct (p_exited x).
  - unfold watchdog. destruct (Stream.sessions w !! sid) as [s|]; simpl; [|done]. destruct (exited _ _); [by apply tearDown_media | done].
  - by apply tearDown_media.
  - unfold grace_expired. destruct (Stream.sessions w !! sid) as [s|]; [|done]. destruct (torn s); try done.
    rewrite <- (alter_id ps (ffmpeg s)). by apply procs_media.
  - by apply tear_step_media.
  - apply (media_same {| on_air := w; pipes := ps |}); [done| |by left|done].
    apply (parts_same _ _ (part_of w)); [by intros []|apply (mo_parts _ Hok)].
Qed.

(** *** The goroutines around a pipe, and the callbacks *)
Lemma pipe_media p f w : media_ok w ->
  (forall pl, pipe_ok pl -> pipe_ok (f pl) /\ pl_exited (f pl) = pl_exited pl /\
     forall o g n, part_of (on_air w) o = Some (g, n, p) -> stage_ok g pl -> stage_ok g (f pl)) ->
  media_ok (alter_pipe f p w).
Proof.
  destruct w as [w ps]. intros Hok Hf. apply (media_same {| on_air := w; pipes := ps |}); [done| |by left|done].
  cbn [on_air pipes alter_pipe]. rewrite <- (alter_id (procs w) p).
  apply parts_pipe; [apply (mo_parts _ Hok)|]. intros pl x _ _ A B. destruct (Hf pl A) as (F1 & F2 & F3). by rewrite F2.
Qed.

Lemma flvEnc_session w h p : flvEnc w h = Some p ->
  exists hd sid s, handlers w !! h = Some hd /\ h_state hd = PLive sid /\ Stream.sessions w !! sid = Some s /\ ffmpeg s = p.
Proof.
  unfold flvEnc. intros (hd & Hh & H)%bind_Some. destruct (h_state hd) as [| | | | | | |sid|] eqn:Hs; try done.
  apply fmap_Some in H as (s & Hx & ->). by exists hd, sid, s.
Qed.
Lemma session_part w sid s : Stream.sessions w !! sid = Some s -> part_of w (OSession sid) = Some (Playing (torn s), channelName s, ffmpeg s).
Proof. intros Hs. cbn [part_of]. by rewrite Hs. Qed.

Lemma call_keeps t (pl : pipe) : closed (call_step encode t pl) = closed pl /\ pl_wclosed (call_step encode t pl) = pl_wclosed pl /\
  pl_rclosed (call_step encode t pl) = pl_rclosed pl /\ pl_exited (call_step encode t pl) = pl_exited pl.
Proof. unfold call_step. by destruct (pl_writer pl). Qed.

Lemma callback_media h m w : media_ok w -> media_ok (callback encode h m w).
Proof.
  intros Hok. unfold callback. destruct (handlers (on_air w) !! h) as [hd|] eqn:Hh; [|done].
  destruct (flvEnc (on_air w) h) as [p|] eqn:He; [|done]. destruct (on_message hd m) as [[t|]|]; try done.
  apply flvEnc_session in He as (hd' & sid & s & _ & _ & Hs & <-).
  apply pipe_media; [done|]. intros pl A. destruct (call_keeps t pl) as (E1 & E2 & E3 & E4).
  split_and!; [by apply call_step_ok | done|]. intros o g n Ho.
  assert (o = OSession sid) as ->.
  { eapply (pa_uniq _ _ _ _ _ (mo_parts _ Hok)); [exact Ho | by apply session_part]. }
  rewrite (session_part _ _ _ Hs) in Ho. injection Ho as <- <-. simpl. by rewrite E2, E3.
Qed.

Lemma mstep_media w a : media_ok w -> media_ok (mstep w a).
Proof.
  intros Hok. destruct a as [a|h m|p a]; cbn [Media.mstep].
  - destruct a; try by apply live_step_media. by apply publish_media.
  - by apply callback_media.
  - apply pipe_media; [done|]. intros pl A. split_and!; [by apply pipe_step_ok | apply pipe_step_keeps|].
    intros o g n _. apply pipe_step_stage.
Qed.
Lemma mrun_media acts : forall w, media_ok w -> media_ok (mrun w acts).
Proof. induction acts as [|a acts IH]; intros w H; [done|]. by apply IH, mstep_media. Qed.
Lemma new_broadcast_media s ds : media_ok (new_broadcast s ds).
Proof. split; [split|..]; try done. by intros [] ?????. by intros []. Qed.
End MediaThms.
