(* ===== verification/MediaProps.v ===== *)
(** * The media path: its guarantees

    What ffmpeg is given is what its own publisher sent; callbacks, [OnPublish]
    and the input of a torn pipeline all come to an end. *)

From Stdlib Require Import Init.Byte.
From S2P Require Import Prelude Utf8 Encoding Errors StreamKey Store StoreInv Auth Stream StreamThms StreamRows StreamProps Shutdown Pipe Media MediaInv MediaThms.
Local Open Scope Z_scope.

(** ** Handlers through a step *)
Lemma tearDown_handlers sid r w : handlers (tearDown sid r w) = handlers w.
Proof. unfold tearDown. destruct (Stream.sessions w !! sid) as [s|]; [|done]. by destruct (torn s). Qed.
Lemma tear_step_handlers stateDir sid w : handlers (tear_step stateDir sid w) = handlers w.
Proof.
  unfold tear_step. destruct (Stream.sessions w !! sid) as [s|]; [|done]. destruct (torn s); try done.
  - by destruct (exited _ _).
  - destruct (_ =? _); [done|]. by destruct (EndStreamSession _ _ _ _).
  - by destruct (String.eqb _ _).
Qed.

(** Only its own [OnPublish] moves a handler. *)
Lemma lstep_handlers stateDir w a h : (forall ok, a <> LPublish h ok) ->
  handlers (lstep stateDir w a) !! h = handlers w !! h \/
  (handlers w !! h = None /\ exists hd, handlers (lstep stateDir w a) !! h = Some hd /\ h_state hd = PStart).
Proof.
  intros Ha. destruct a as [key|i b|i|p f|sid|sid|sid|sid|t fs cs]; cbn [lstep]; try by left.
  - simpl. destruct (decide (h < length (handlers w))%nat) as [Hlt|Hge]; [left; by rewrite lookup_app_l|].
    rewrite lookup_app_r by lia. rewrite (lookup_ge_None_2 (handlers w)) by lia.
    destruct (h - length (handlers w))%nat as [|[]]; [right; eauto | by left..].
  - left. assert (Hne : i <> h) by (intros ->; by destruct (Ha b)). unfold publish_step.
    destruct (handlers w !! i) as [hd|]; [|done].
    assert (Hset : forall p w', handlers w' = handlers w -> handlers (set_handler i p w') !! h = handlers w !! h).
    { intros p w' E. simpl. by rewrite E, list_lookup_alter_ne. }
    destruct (h_state hd) as [|ch|pb|pb|pb p|pb p|pb|sid|e]; try done.
    + destruct (String.eqb _ _); [by apply Hset|]. destruct (lookupChannelByStreamKey _ _) as [s r]. by apply Hset.
    + destruct (wrapping _ _ _) as [s r]. by apply Hset.
    + by destruct b; apply Hset.
    + by destruct b; apply Hset.
    + by destruct b; apply Hset.
    + unfold add. cbn [channelName]. by destruct (byName w !! _); apply Hset.
    + destruct (EndStreamSession _ _ _ _) as [s r]. by apply Hset.
  - left. unfold OnClose. destruct (handlers w !! i) as [hd|]; [|done]. destruct (h_state hd); try done. by rewrite tearDown_handlers.
  - left. unfold watchdog. destruct (Stream.sessions w !! sid) as [s|]; [|done]. destruct (exited _ _); [|done]. by rewrite tearDown_handlers.
  - left. by rewrite tearDown_handlers.
  - left. unfold grace_expired. destruct (Stream.sessions w !! sid) as [s|]; [|done]. by destruct (torn s).
  - left. by rewrite tear_step_handlers.
Qed.

Lemma publish_or_not h a : (exists ok, a = LPublish h ok) \/ (forall ok, a <> LPublish h ok).
Proof.
  destruct a as [|i ok| | | | | | |]; try (by right). destruct (decide (i = h)) as [->|]; [left; by exists ok | right; congruence].
Qed.

Section MediaProps.
Context {D : Type} (stateDir : string).
Context (header : list (list byte)) (encode : list (FlvTag D) -> FlvTag D -> list (list byte) * option err).
Abbreviation pipe := (pipeline (T := FlvTag D)).
Abbreviation pipe_ok := (pipe_ok header encode).
Abbreviation media_ok := (media_ok header encode).
Abbreviation mstep := (mstep stateDir header encode).
Abbreviation mrun := (mrun stateDir header encode).
Abbreviation live_step := (live_step stateDir header).
Abbreviation heard1 := (heard1 (D := D)).
Abbreviation heard := (heard stateDir header encode).

(** ** A handler on the air keeps its encoder *)
Lemma flvEnc_stays w a h p : flvEnc w h = Some p -> flvEnc (lstep stateDir w a) h = Some p.
Proof.
  intros (hd & sid & s & Hh & Hs & Hx & <-)%flvEnc_session. unfold flvEnc.
  assert (E : handlers (lstep stateDir w a) !! h = Some hd).
  { destruct (publish_or_not h a) as [(ok & ->)|Hn].
    - cbn [lstep]. unfold publish_step. by rewrite Hh, Hs.
    - by destruct (lstep_handlers stateDir w a h Hn) as [->|(? & _)]; [|congruence]. }
  rewrite E. simpl. rewrite Hs. destruct (gr_sessions _ _ (lstep_grows stateDir w a) sid s Hx) as (t & -> & _). done.
Qed.

(** It gets one at the end of [OnPublish], with the encoder made there. *)
Lemma flvEnc_new w ps a h p : media_ok {| on_air := w; pipes := ps |} -> flvEnc w h = None -> flvEnc (lstep stateDir w a) h = Some p ->
  exists hd pb, handlers w !! h = Some hd /\ h_state hd = PEnc pb p.
Proof.
  intros Hok Hn (hd' & sid & s & Hh' & Hs' & Hx' & Hp)%flvEnc_session.
  assert (Hold : forall hd i, handlers w !! h = Some hd -> h_state hd <> PLive i).
  { intros hd i Hh Hi. destruct (mo_live _ _ _ Hok h hd i Hh Hi) as [x Hx]. unfold flvEnc in Hn. rewrite Hh in Hn. simpl in Hn.
    rewrite Hi in Hn. simpl in Hx. by rewrite Hx in Hn. }
  destruct (publish_or_not h a) as [(ok & ->)|Hnp].
  2: { destruct (lstep_handlers stateDir w a h Hnp) as [E|(_ & x & E & Hst)]; rewrite Hh' in E; [|injection E as <-; congruence].
       symmetry in E. by destruct (Hold hd' sid E). }
  cbn [lstep] in Hh', Hx'. unfold publish_step in Hh', Hx'. destruct (handlers w !! h) as [hd|] eqn:Hh; [|congruence].
  assert (Hset : forall q w', handlers w' = handlers w -> handlers (set_handler h q w') !! h = Some hd' -> q = PLive sid).
  { intros q w' E. simpl. rewrite E, list_lookup_alter_eq, Hh. intros [= <-]. done. }
  destruct (h_state hd) as [|ch|pb|pb|pb q|pb q|pb|i|e] eqn:Hs; try (rewrite Hh in Hh'; injection Hh' as <-; congruence).
  - destruct (String.eqb _ _); [by apply Hset in Hh'|]. destruct (lookupChannelByStreamKey _ _) as [st' r]. apply Hset in Hh'; [by destruct r|done].
  - destruct (wrapping _ _ _) as [st' r]. apply Hset in Hh'; [by destruct r|done].
  - by destruct ok; apply Hset in Hh'.
  - by destruct ok; apply Hset in Hh'.
  - by destruct ok; apply Hset in Hh'.
  - unfold add in Hh', Hx'. cbn [channelName] in Hh', Hx'. destruct (byName w !! _) eqn:En; [by apply Hset in Hh'|].
    apply Hset in Hh'; [|done]. injection Hh' as <-. simpl in Hx'. rewrite lookup_app_r, Nat.sub_diag in Hx' by done.
    injection Hx' as <-. simpl in Hp. subst q. by exists hd, pb.
  - destruct (EndStreamSession _ _ _ _) as [st' r]. by apply Hset in Hh'.
  - by destruct (Hold hd i).
Qed.

(** ** Pipes through a step *)
Lemma close_torn_pipe sid w (ps : list pipe) p pl : ps !! p = Some pl ->
  exists pl', close_torn sid w ps !! p = Some pl' /\ (pl' = pl \/ pl' = close_writer pl).
Proof.
  intros Hp. unfold close_torn. destruct (Stream.sessions w !! sid) as [s|]; [|by exists pl; auto].
  destruct (torn s); try by exists pl; auto. destruct (decide (p = ffmpeg s)) as [->|Hne].
  - exists (close_writer pl). rewrite list_lookup_alter_eq, Hp. auto.
  - exists pl. rewrite list_lookup_alter_ne by done. auto.
Qed.

Lemma pipes_after_pipe w a (ps : list pipe) p pl : ps !! p = Some pl ->
  exists pl', pipes_after header w a ps !! p = Some pl' /\
    (pl' = pl \/ pl' = close_writer pl \/ pl' = close_both pl \/ pl' = exit_step pl).
Proof.
  intros Hp. assert (Hsame : exists pl', ps !! p = Some pl' /\
    (pl' = pl \/ pl' = close_writer pl \/ pl' = close_both pl \/ pl' = exit_step pl)) by (exists pl; auto).
  assert (Halter : forall f q, f pl = close_both pl \/ f pl = exit_step pl -> exists pl', alter f q ps !! p = Some pl' /\
    (pl' = pl \/ pl' = close_writer pl \/ pl' = close_both pl \/ pl' = exit_step pl)).
  { intros f q Hf. destruct (decide (p = q)) as [->|Hne]; [|by rewrite list_lookup_alter_ne].
    exists (f pl). rewrite list_lookup_alter_eq, Hp. auto. }
  assert (Htorn : forall sid, exists pl', close_torn sid w ps !! p = Some pl' /\
    (pl' = pl \/ pl' = close_writer pl \/ pl' = close_both pl \/ pl' = exit_step pl)).
  { intros sid. destruct (close_torn_pipe sid w ps p pl Hp) as (pl' & E & [?|?]); exists pl'; auto. }
  destruct a as [key|h ok|h|q f|sid|sid|sid|sid|t fs cs]; cbn [pipes_after]; try done.
  - destruct (h_state <$> handlers w !! h) as [[]|]; try done.
    + destruct ok; [|done]. exists pl. split; [by apply lookup_app_l_Some | auto].
    + destruct ok; [done|]. apply Halter. auto.
    + destruct (is_some _); [apply Halter; auto | done].
  - by destruct (h_state <$> handlers w !! h) as [[]|].
  - apply Halter. auto.
  - by destruct (is_some _).
Qed.

Lemma mstep_live w a : mstep w (MLive a) = w \/
  exists a', mstep w (MLive a) = live_step a' w /\
    forall h, (forall ok, a <> LPublish h ok) -> forall ok, a' <> LPublish h ok.
Proof.
  destruct a as [|i ok| | | | | | |]; cbn [Media.mstep]; try by right; eexists. unfold publish.
  assert (Hi : forall ok' h, (forall o, LPublish i ok <> LPublish h o) -> forall o, LPublish i ok' <> LPublish h o).
  { intros ok' h H o [= -> _]. by destruct (H ok). }
  destruct (h_state <$> handlers (on_air w) !! i) as [[]|]; try by right; eexists.
  destruct (pl ← pipes w !! p; NewEncoder_result pl); [right; eexists; split; [done | apply Hi] | by left].
Qed.

(** Without its bytes, every run is a run of [Stream]: its theorems hold here. *)
Lemma media_refines_stream acts : forall w, exists acts', on_air (mrun w acts) = lrun stateDir (on_air w) acts'.
Proof.
  induction acts as [|a acts IH]; intros w; [by exists []|].
  destruct (IH (mstep w a)) as [acts' H]. change (mrun w (a :: acts)) with (mrun (mstep w a) acts). rewrite H.
  destruct a as [a|h m|p b].
  - destruct (mstep_live w a) as [-> |(a' & -> & _)]; [by exists acts' | by exists (a' :: acts')].
  - exists acts'. f_equal. cbn [Media.mstep]. unfold callback. destruct (handlers (on_air w) !! h); [|done].
    destruct (flvEnc (on_air w) h); [|done]. by destruct (on_message _ m) as [[t|]|].
  - by exists acts'.
Qed.

(** ** The tags of a handler's encoder *)
Definition tags_of (h : nat) (w : broadcast (D := D)) : list (FlvTag D) :=
  match flvEnc (on_air w) h with Some p => default [] (pl_tags <$> pipes w !! p) | None => [] end.

Lemma encoder_pipe w h p : media_ok w -> flvEnc (on_air w) h = Some p ->
  exists pl x sid s, pipes w !! p = Some pl /\ procs (on_air w) !! p = Some x /\ pipe_ok pl /\
    pl_exited pl = is_some (p_exited x) /\ Stream.sessions (on_air w) !! sid = Some s /\ ffmpeg s = p /\
    p_channel x = channelName s /\ pl_rclosed pl = false /\ pl_wclosed pl = negb (idle_tear (torn s)) /\
    exists hd, handlers (on_air w) !! h = Some hd /\ h_state hd = PLive sid.
Proof.
  intros Hok (hd & sid & s & Hh & Hs & Hx & Hf)%flvEnc_session.
  destruct (pa_stage _ _ _ _ _ (mo_parts _ _ _ Hok) _ _ _ _ (session_part _ _ _ Hx)) as (pl & x & Hpl & Hpx & Hn & Hr & Hw).
  rewrite Hf in *. destruct (pa_pipe _ _ _ _ _ (mo_parts _ _ _ Hok) p pl x Hpl Hpx) as [A B].
  exists pl, x, sid, s. split_and!; try done. by exists hd.
Qed.

Lemma encoder_one w h1 h2 p : media_ok w -> flvEnc (on_air w) h1 = Some p -> flvEnc (on_air w) h2 = Some p -> h1 = h2.
Proof.
  intros Hok (hd1 & i & s1 & A1 & B1 & C1 & D1)%flvEnc_session (hd2 & j & s2 & A2 & B2 & C2 & D2)%flvEnc_session.
  assert (OSession i = OSession j) as [= ->].
  { eapply (pa_uniq _ _ _ _ _ (mo_parts _ _ _ Hok)); [by apply session_part | rewrite D1, <- D2; by apply session_part]. }
  by apply (mo_one _ _ _ Hok h1 h2 hd1 hd2 j).
Qed.

Lemma live_step_tags a h w : media_ok w -> tags_of h (live_step a w) = tags_of h w.
Proof.
  destruct w as [w ps]. intros Hok. unfold tags_of, Media.live_step. cbn [on_air pipes].
  destruct (flvEnc w h) as [p|] eqn:E.
  - rewrite (flvEnc_stays w a h p E). destruct (encoder_pipe _ _ _ Hok E) as (pl & _ & _ & _ & Hpl & _). cbn [pipes] in Hpl.
    destruct (pipes_after_pipe w a ps p pl Hpl) as (pl' & -> & Hc). rewrite Hpl. simpl. by destruct Hc as [-> |[-> |[-> | ->]]].
  - destruct (flvEnc (lstep stateDir w a) h) as [p|] eqn:E'; [|done].
    destruct (flvEnc_new w ps a h p Hok E E') as (hd & pb & Hh & Hs).
    destruct (pa_stage _ _ _ _ _ (mo_parts _ _ _ Hok) (OHandler h) Opened (c_Name (pb_channel pb)) p) as (pl & x & Hpl & _ & _ & _ & Ht & _).
    { cbn [on_air]. by rewrite (part_handler w h hd), Hs. }
    cbn [pipes] in Hpl. destruct (pipes_after_pipe w a ps p pl Hpl) as (pl' & -> & Hc). simpl.
    by destruct Hc as [-> |[-> |[-> | ->]]].
Qed.

Lemma tags_alter_pipe f q h w : tags_of h (alter_pipe f q w) =
  match flvEnc (on_air w) h with
  | Some p => default [] (pl_tags <$> (if decide (p = q) then f <$> pipes w !! p else pipes w !! p))
  | None => []
  end.
Proof.
  unfold tags_of, alter_pipe. cbn [on_air pipes]. destruct (flvEnc (on_air w) h) as [p|]; [|done].
  case_decide as E; [subst; by rewrite list_lookup_alter_eq | by rewrite list_lookup_alter_ne].
Qed.

Lemma heard_other i m h w : i <> h -> heard1 h w (MCall i m) = [].
Proof.
  intros Hne. unfold Media.heard1. destruct (handlers (on_air w) !! h); [|done].
  destruct (writer_of w h) as [[]|]; try done. by rewrite decide_False.
Qed.

Lemma heard_self m h w hd p pl t : handlers (on_air w) !! h = Some hd -> flvEnc (on_air w) h = Some p -> pipes w !! p = Some pl ->
  on_message hd m = Ok (Some t) -> heard1 h w (MCall h m) = match pl_writer pl with WIdle => [t] | _ => [] end.
Proof.
  intros Hh He Hp Hm. unfold Media.heard1, writer_of. rewrite Hh, He. simpl. rewrite Hp. simpl.
  destruct (pl_writer pl); try done. by rewrite decide_True, Hm.
Qed.

Lemma heard_nothing m h w : (forall hd t, handlers (on_air w) !! h = Some hd -> flvEnc (on_air w) h <> None -> on_message hd m <> Ok (Some t)) ->
  heard1 h w (MCall h m) = [].
Proof.
  intros H. unfold Media.heard1, writer_of. destruct (handlers (on_air w) !! h) as [hd|]; [|done].
  destruct (flvEnc (on_air w) h) as [p|]; [|done]. simpl. destruct (pl_writer <$> pipes w !! p) as [[]|]; try done.
  rewrite decide_True by done. destruct (on_message hd m) as [[t|]|] eqn:E; try done. by destruct (H hd t).
Qed.

Lemma heard_step a h w : media_ok w -> tags_of h (mstep w a) = tags_of h w ++ heard1 h w a.
Proof.
  intros Hok. destruct a as [a|i m|q a].
  - change (heard1 h w (MLive a)) with (@nil (FlvTag D)). rewrite app_nil_r.
    destruct (mstep_live w a) as [-> |(a' & -> & _)]; [done | by apply live_step_tags].
  - cbn [Media.mstep]. unfold callback. destruct (decide (i = h)) as [->|Hne].
    + destruct (handlers (on_air w) !! h) as [hd|] eqn:Hh; [|rewrite heard_nothing, app_nil_r; [done | congruence]].
      destruct (flvEnc (on_air w) h) as [p|] eqn:He; [|rewrite heard_nothing, app_nil_r; [done | congruence]].
      destruct (on_message hd m) as [[t|]|] eqn:Em; [|rewrite heard_nothing, app_nil_r; [done | congruence]..].
      destruct (encoder_pipe _ _ _ Hok He) as (pl & _ & _ & _ & Hpl & _).
      rewrite (heard_self m h w hd p pl t) by done. rewrite tags_alter_pipe, He, decide_True, Hpl by done.
      unfold tags_of. rewrite He, Hpl. simpl. unfold call_step. by destruct (pl_writer pl); rewrite ?app_nil_r.
    + rewrite heard_other, app_nil_r by done. destruct (handlers (on_air w) !! i) as [hd|]; [|done].
      destruct (flvEnc (on_air w) i) as [q|] eqn:Eq; [|done]. destruct (on_message hd m) as [[t|]|]; try done.
      rewrite tags_alter_pipe. unfold tags_of. destruct (flvEnc (on_air w) h) as [p|] eqn:Ep; [|done].
      rewrite decide_False; [done|]. intros ->. apply Hne. by eapply encoder_one.
  - simpl. rewrite app_nil_r, tags_alter_pipe. unfold tags_of. destruct (flvEnc (on_air w) h) as [p|]; [|done].
    case_decide; [|done]. destruct (pipes w !! p) as [pl|]; [|done]. simpl. by destruct (pipe_step_keeps a pl) as (_ & _ & _ & -> & _).
Qed.

Lemma heard_run acts h : forall w, media_ok w -> tags_of h (mrun w acts) = tags_of h w ++ heard h w acts.
Proof.
  induction acts as [|a acts IH]; intros w Hok; [by rewrite app_nil_r|].
  change (mrun w (a :: acts)) with (mrun (mstep w a) acts). rewrite IH by (by apply mstep_media).
  rewrite heard_step by done. by rewrite <- app_assoc.
Qed.

(** ** Runs of the goroutines around one pipe *)
Definition plain (a : pipe_action) : Prop := a <> Break.
Definition around (p : nat) (a : mact (D := D)) : Prop := exists b, a = MPipe p b /\ plain b.

Lemma inner_action (a : pact) : inner a -> exists b, plain b /\ forall pl : pipe, pstep encode pl a = pipe_step b pl.
Proof.
  destruct a as [t| | | |n| | | |]; try done; intros _; [by exists Writer | by exists Pass | by exists Copier | by exists (Accept n)].
Qed.

Lemma pipe_run (P : pact -> Prop) (Q : pipe_action -> Prop) p acts :
  (forall a, P a -> exists b, Q b /\ forall pl : pipe, pstep encode pl a = pipe_step b pl) -> Forall P acts ->
  exists macts, Forall (fun a => exists b, a = MPipe p b /\ Q b) macts /\ length macts = length acts /\
  forall w, mrun w macts = alter_pipe (fun pl => prun encode pl acts) p w.
Proof.
  intros HP. induction acts as [|a acts IH]; intros Hacts.
  - exists []. split_and!; [constructor | done|]. intros [w ps]. unfold alter_pipe. simpl. f_equal. symmetry. apply alter_id.
  - apply Forall_cons in Hacts as [(b & Hb & E)%HP Hacts]. destruct (IH Hacts) as (macts & H1 & H2 & H3).
    exists (MPipe p b :: macts). split_and!; [constructor; [by exists b | done] | simpl; by rewrite H2|].
    intros [w ps]. change (mrun _ (MPipe p b :: macts)) with (mrun (alter_pipe (pipe_step b) p {| on_air := w; pipes := ps |}) macts).
    rewrite H3. unfold alter_pipe. cbn [on_air pipes]. f_equal. apply list_eq. intros i. destruct (decide (i = p)) as [->|Hne].
    + rewrite !list_lookup_alter_eq. destruct (ps !! p) as [pl|]; [|done]. simpl. by rewrite E.
    + by rewrite !list_lookup_alter_ne.
Qed.

Lemma around_run p acts : Forall inner acts -> exists macts, Forall (around p) macts /\ length macts = length acts /\
  forall w, mrun w macts = alter_pipe (fun pl => prun encode pl acts) p w.
Proof. apply (pipe_run inner plain), inner_action. Qed.

Lemma alter_pipe_at (f : pipe -> pipe) p w pl : pipes w !! p = Some pl -> pipes (alter_pipe f p w) !! p = Some (f pl).
Proof. intros H. simpl. by rewrite list_lookup_alter_eq, H. Qed.

Lemma boot_media s ds acts : media_ok (mrun (new_broadcast s ds) acts).
Proof. by apply mrun_media, new_broadcast_media. Qed.

Lemma heard_boot s ds acts h p pl : let w := mrun (new_broadcast s ds) acts in
  flvEnc (on_air w) h = Some p -> pipes w !! p = Some pl -> pl_tags pl = heard h (new_broadcast s ds) acts.
Proof.
  intros w He Hp. pose proof (heard_run acts h _ (new_broadcast_media header encode s ds)) as E. fold w in E.
  unfold tags_of in E at 1. rewrite He, Hp in E. exact E.
Qed.

(** ** What ffmpeg gets *)

(** C8: every ffmpeg is fed its own publisher's stream. On every run of
    publishers, callbacks, encoders, bridges, ffmpegs and tear downs: the
    process behind a handler on the air is the one of its channel and of no
    other handler, and what its input has accepted is the beginning of the FLV
    stream of exactly the messages this handler was called with, in order,
    however their bytes were cut and delayed on the way; nothing is refused
    while the stream is on the air; and once everything has gone through it is
    the whole stream. *)
Theorem ffmpeg_gets_its_publisher s ds acts h p :
  let w := mrun (new_broadcast s ds) acts in
  let tags := heard h (new_broadcast s ds) acts in
  flvEnc (on_air w) h = Some p ->
  exists pl x sid ss,
    pipes w !! p = Some pl /\ procs (on_air w) !! p = Some x /\
    Stream.sessions (on_air w) !! sid = Some ss /\ ffmpeg ss = p /\ p_channel x = channelName ss /\
    (forall i, flvEnc (on_air w) i = Some p -> i = h) /\
    pl_fed pl `prefix_of` flv header encode tags /\
    (torn ss = TIdle -> pl_refused pl = false) /\
    (pl_refused pl = false -> pl_broken pl = false -> pl_writer pl = WIdle -> in_flight (pl_copier pl) = [] ->
       pl_fed pl = flv header encode tags).
Proof.
  intros w tags He. pose proof (boot_media s ds acts) as Hok. fold w in Hok.
  destruct (encoder_pipe w h p Hok He) as (pl & x & sid & ss & Hpl & Hx & A & _ & Hs & Hf & Hn & Hr & Hw & _).
  assert (Ht : pl_tags pl = tags) by (by apply (heard_boot s ds acts h p)).
  exists pl, x, sid, ss. split_and!; try done.
  - intros i Hi. by eapply encoder_one.
  - rewrite <- Ht. by apply fed_prefix.
  - intros Hi. apply (open_not_refused header encode); [done|]. unfold closed. by rewrite Hr, Hw, Hi.
  - intros B1 B2 B3 B4. rewrite <- Ht. by apply fed_all.
Qed.

(** ** Callbacks return *)

(** What else may bring a call back: ffmpeg exits once its input has failed, and
    the watchdog of a session whose ffmpeg has exited. *)
Definition brings_back (p sid : nat) (pl : pipe) (a : mact (D := D)) : Prop :=
  around p a \/ a = MLive (LWatchdog sid) \/ (pl_broken pl = true /\ exists f, a = MLive (LExit p f)).

Lemma work_of_others w a h p pl : media_ok w -> flvEnc (on_air w) h = Some p -> pipes w !! p = Some pl ->
  (forall m, a <> MCall h m) -> exists pl', pipes (mstep w a) !! p = Some pl' /\ (pipe_work pl' <= pipe_work pl)%nat.
Proof.
  intros Hok He Hpl Ha. destruct a as [a|i m|q b].
  - destruct (mstep_live w a) as [-> |(a' & -> & _)]; [by exists pl|].
    destruct (pipes_after_pipe (on_air w) a' (pipes w) p pl Hpl) as (pl' & E & Hc). exists pl'. split; [exact E|].
    by destruct Hc as [-> |[-> |[-> | ->]]].
  - cbn [Media.mstep]. unfold callback. destruct (handlers (on_air w) !! i); [|by exists pl].
    destruct (flvEnc (on_air w) i) as [q|] eqn:Eq; [|by exists pl]. destruct (on_message _ m) as [[t|]|]; try by exists pl.
    exists pl. split; [|done]. simpl. rewrite list_lookup_alter_ne; [done|]. intros ->.
    apply (Ha m). f_equal. by eapply encoder_one.
  - simpl. destruct (decide (p = q)) as [->|Hne]; [|exists pl; by rewrite list_lookup_alter_ne].
    exists (pipe_step b pl). rewrite list_lookup_alter_eq, Hpl. split; [done|].
    destruct b; [apply (pipe_work_step encode pl PWriter) | apply (pipe_work_step encode pl PPass) | apply (pipe_work_step encode pl PCopier)
      | apply (pipe_work_step encode pl (PAccept n)) | apply (pipe_work_step encode pl PBreak)]; done.
Qed.

(** Once ffmpeg has exited, its watchdog closes the pipe. *)
Lemma watchdog_closes w sid ss p pl f : Stream.sessions (on_air w) !! sid = Some ss -> ffmpeg ss = p -> torn ss = TIdle ->
  exited p (on_air w) = Some f -> pipes w !! p = Some pl ->
  pipes (mstep w (MLive (LWatchdog sid))) !! p = Some (close_writer pl).
Proof.
  intros Hs Hf Ht Hx Hpl. cbn. rewrite Hs. simpl. rewrite Hf, Hx. simpl. unfold close_torn.
  by rewrite Hs, Ht, Hf, list_lookup_alter_eq, Hpl.
Qed.

Lemma writer_returns w p pl : pipes w !! p = Some pl -> closed pl = true ->
  exists pl', pipes (mstep w (MPipe p Writer)) !! p = Some pl' /\ pl_writer pl' = WIdle.
Proof.
  intros Hpl Hc. exists (writer_step pl). split; [by apply alter_pipe_at | by apply closed_returns].
Qed.

(** C16: no callback waits for ever. Whoever is inside a [Write] of an encoder on
    the air, nothing that others do sets it back; ffmpeg taking its input, or
    the pipe being closed, or, once ffmpeg's input has failed, ffmpeg's exit and
    the watchdog that sees it bring it to its return, within as many steps as
    the work in the pipe and three more; and while ffmpeg takes its input the
    call completes without the pipe refusing it. *)
Theorem callbacks_return s ds acts h p pl :
  let w := mrun (new_broadcast s ds) acts in
  flvEnc (on_air w) h = Some p -> pipes w !! p = Some pl ->
  (forall a, (forall m, a <> MCall h m) ->
     exists pl', pipes (mstep w a) !! p = Some pl' /\ (pipe_work pl' <= pipe_work pl)%nat) /\
  (exists sid more pl', Forall (brings_back p sid pl) more /\ (length more <= pipe_work pl + 3)%nat /\
     pipes (mrun w more) !! p = Some pl' /\ pl_writer pl' = WIdle) /\
  (closed pl = false -> pl_exited pl = false -> pl_broken pl = false ->
     exists more pl', Forall (around p) more /\ (length more <= pipe_work pl)%nat /\
       pipes (mrun w more) !! p = Some pl' /\ pl_writer pl' = WIdle /\ pl_refused pl' = false).
Proof.
  intros w He Hpl. pose proof (boot_media s ds acts) as Hok. fold w in Hok.
  destruct (encoder_pipe w h p Hok He) as (pl0 & x & sid & ss & E & Hx & A & Hex & Hs & Hf & _ & Hr & Hw & _).
  rewrite Hpl in E. injection E as <-.
  assert (Hreads : closed pl = false -> pl_exited pl = false -> pl_broken pl = false ->
     exists more pl', Forall (around p) more /\ (length more <= pipe_work pl)%nat /\
       pipes (mrun w more) !! p = Some pl' /\ pl_writer pl' = WIdle /\ pl_refused pl' = false).
  { intros B1 B2 B3. destruct (call_completes header encode pl A B1 B2 B3) as (inn & H1 & H2 & H3 & H4).
    destruct (around_run p inn H1) as (more & G1 & G2 & G3). exists more, (prun encode pl inn).
    split_and!; [done | lia | rewrite G3; by apply (alter_pipe_at (fun pl => prun encode pl inn)) | done | done]. }
  split_and!; [intros a Ha; by eapply work_of_others | | done]. exists sid.
  destruct (closed pl) eqn:Hc.
  { destruct (writer_returns w p pl Hpl Hc) as (pl' & H1 & H2). exists [MPipe p Writer], pl'.
    split_and!; [|simpl; lia|done|done]. constructor; [|done]. left. by exists Writer. }
  assert (Ht : torn ss = TIdle).
  { unfold closed in Hc. rewrite Hr, Hw in Hc. by destruct (torn ss). }
  assert (Hdead : forall w1 pl1 f, Stream.sessions (on_air w1) !! sid = Some ss -> exited p (on_air w1) = Some f -> pipes w1 !! p = Some pl1 ->
    exists pl', pipes (mrun w1 [MLive (LWatchdog sid); MPipe p Writer]) !! p = Some pl' /\ pl_writer pl' = WIdle).
  { intros w1 pl1 f G1 G2 G3. pose proof (watchdog_closes w1 sid ss p pl1 f G1 Hf Ht G2 G3) as G4.
    by apply (writer_returns _ p (close_writer pl1)). }
  assert (Hback : Forall (brings_back p sid pl) [MLive (LWatchdog sid); MPipe p Writer]).
  { constructor; [right; by left|]. constructor; [left; by exists Writer | done]. }
  destruct (pl_exited pl) eqn:Hxx.
  { symmetry in Hex. destruct (p_exited x) as [f|] eqn:Ef; [|done].
    destruct (Hdead w pl f Hs) as (pl' & H1 & H2); [unfold exited; rewrite Hx; exact Ef | done|].
    exists [MLive (LWatchdog sid); MPipe p Writer], pl'. split_and!; [done | simpl; lia | done | done]. }
  destruct (pl_broken pl) eqn:Hb.
  - destruct (Hdead (mstep w (MLive (LExit p true))) (exit_step pl) true) as (pl' & H1 & H2).
    + done.
    + unfold exited. simpl. rewrite list_lookup_alter_eq, Hx. simpl. unfold exit_proc. symmetry in Hex.
      by destruct (p_exited x).
    + simpl. by rewrite list_lookup_alter_eq, Hpl.
    + exists [MLive (LExit p true); MLive (LWatchdog sid); MPipe p Writer], pl'. split_and!; [|simpl; lia|exact H1|done].
      constructor; [|done]. right. right. split; [done | by exists true].
  - destruct (Hreads eq_refl eq_refl eq_refl) as (more & pl' & H1 & H2 & H3 & H4 & _). exists more, pl'.
    split_and!; [|lia|done|done]. eapply Forall_impl; [exact H1|]. intros a Ha. by left.
Qed.

(** ** The end of a stream *)


(** ** [OnPublish] returns *)

(** The goroutines of [OnPublish] and its bridge, up to the write to ffmpeg. *)
Definition unaided (a : pact (T := FlvTag D)) : Prop := a = PWriter \/ a = PPass \/ a = PCopier.
Definition unaided_action (b : pipe_action) : Prop := b = Writer \/ b = Pass \/ b = Copier.
Ltac unaided_tac := repeat (apply Forall_cons; split; [unfold unaided; by auto|]); by constructor.

(** A header written in one piece never waits for ffmpeg. *)
Lemma header_written b (pl : pipe) : header = [b] -> (length b <= copyBuffer)%nat -> pipe_ok pl -> stage_ok header Opening pl ->
  exists acts, Forall unaided acts /\ (length acts <= 5)%nat /\ pl_writer (prun encode pl acts) = WIdle.
Proof.
  intros Hb Hlen H (Hc & Ht & Hg). pose proof (pk_open _ _ _ H (open_not_refused _ _ _ H Hc)) as Hp.
  rewrite Ht in Hp. unfold flv in Hp. rewrite Hb in Hp. simpl in Hp. rewrite !app_nil_r in Hp.
  assert (Hready : pl_passed pl = [] -> exists acts, Forall unaided acts /\ (length acts <= 2)%nat /\
    pl_copier (prun encode pl acts) = CSelect /\ closed (prun encode pl acts) = false /\
    pl_writer (prun encode pl acts) = pl_writer pl).
  { intros E. assert (Hbr : pl_broken pl = false).
    { destruct (pl_broken pl) eqn:B; [|done]. by destruct (pk_broken _ _ _ H B) as (_ & _ & ?). }
    pose proof (pk_fed _ _ _ H Hbr) as F. rewrite E in F. apply app_eq_nil in F as [_ F].
    destruct (pl_copier pl) as [| |c| |] eqn:Ec.
    - exists [PCopier]. split_and!; [unaided_tac|simpl; lia|..]; simpl; unfold copier_step; by rewrite Ec, Hc.
    - exists []. split_and!; [constructor|simpl; lia|done..].
    - simpl in F. subst c. exists [PCopier; PCopier]. split_and!; [unaided_tac|simpl; lia|..]; simpl; unfold copier_step; rewrite Ec; simpl;
        change (closed (set_copier CTop pl)) with (closed pl); first [exact Hc | done | by rewrite Hc].
    - destruct (pk_ended _ _ _ H) as [?|?]; [by rewrite Ec|congruence..].
    - destruct (pk_ended _ _ _ H) as [?|?]; [by rewrite Ec|congruence..]. }
  assert (Hsel : forall q : pipe, pl_writer q = WSelect b [] None -> pl_copier q = CSelect ->
    pl_writer (prun encode q [PPass; PWriter]) = WIdle).
  { intros q E1 E2. simpl. unfold pass_step. rewrite E1, E2. rewrite drop_ge by done. done. }
  unfold greeting in Hg. destruct (pl_writer pl) as [|todo own|c todo own] eqn:Ew.
  - exists []. split_and!; [constructor|simpl; lia|done].
  - destruct Hg as (-> & _ & Hs). destruct todo as [|b' todo].
    + exists [PWriter]. split_and!; [unaided_tac|simpl; lia|]. simpl. unfold writer_step. by rewrite Ew.
    + rewrite Hb in Hs. destruct Hs as [l E]. destruct l as [|? [|]]; [|done..]. injection E as <- <-.
      simpl in Hp. rewrite app_nil_r in Hp. assert (Hn : pl_passed pl = []) by (apply (app_inv_tail b); by rewrite Hp).
      destruct (Hready Hn) as (acts & A1 & A2 & A3 & A4 & A5). exists (acts ++ [PWriter; PPass; PWriter]).
      split_and!; [apply Forall_app; split; [done | unaided_tac] | rewrite length_app; simpl; lia|].
      unfold prun. rewrite foldl_app. fold (prun encode pl acts). apply (Hsel (writer_step (prun encode pl acts))).
      * unfold writer_step. by rewrite A5, A4.
      * unfold writer_step. by rewrite A5, A4.
  - destruct Hg as (-> & _ & b0 & Hs & Hb0). rewrite Hb in Hs. destruct Hs as [l E].
    destruct l as [|? [|]]; [|done..]. injection E as <- <-. destruct Hb0 as [-> |?]; [|lia].
    simpl in Hp. rewrite app_nil_r in Hp. assert (Hn : pl_passed pl = []) by (apply (app_inv_tail b); by rewrite Hp).
    destruct (Hready Hn) as (acts & A1 & A2 & A3 & A4 & A5). exists (acts ++ [PPass; PWriter]).
    split_and!; [apply Forall_app; split; [done | unaided_tac] | rewrite length_app; simpl; lia|].
    unfold prun. rewrite foldl_app. fold (prun encode pl acts). by apply Hsel.
Qed.

Definition publish_rank (p : pstate) : nat :=
  match p with
  | PStart => 7 | PFound _ => 6 | PRow _ => 5 | PDir _ => 4 | PProc _ _ => 3 | PEnc _ _ => 2 | PLost _ => 1
  | PLive _ | PFailed _ => 0
  end.
Definition of_publish (h : nat) (ok : bool) (a : mact (D := D)) : Prop :=
  a = MLive (LPublish h ok) \/ exists p b, a = MPipe p b /\ unaided_action b.

Lemma publish_step_rank h ok w hd : handlers w !! h = Some hd -> publish_rank (h_state hd) <> 0%nat ->
  exists hd', handlers (publish_step h ok w) !! h = Some hd' /\ (publish_rank (h_state hd') < publish_rank (h_state hd))%nat.
Proof.
  intros Hh Hr. unfold publish_step. rewrite Hh.
  assert (Hset : forall p w', handlers w' = handlers w -> (publish_rank p < publish_rank (h_state hd))%nat ->
    exists hd', handlers (set_handler h p w') !! h = Some hd' /\ (publish_rank (h_state hd') < publish_rank (h_state hd))%nat).
  { intros p w' E Hp. exists {| h_key := h_key hd; h_state := p |}. split; [|done]. simpl. by rewrite E, list_lookup_alter_eq, Hh. }
  destruct (h_state hd) as [|ch|pb|pb|pb p|pb p|pb|sid|e]; try done.
  - destruct (String.eqb _ _); [apply Hset; simpl; [done|lia]|]. destruct (lookupChannelByStreamKey _ _) as [s r].
    apply Hset; [done|]. destruct r; simpl; lia.
  - destruct (wrapping _ _ _) as [s r]. apply Hset; [done|]. destruct r; simpl; lia.
  - destruct ok; apply Hset; simpl; try done; lia.
  - destruct ok; apply Hset; simpl; try done; lia.
  - destruct ok; apply Hset; simpl; try done; lia.
  - unfold add. cbn [channelName]. destruct (byName w !! _); apply Hset; simpl; try done; lia.
  - destruct (EndStreamSession _ _ _ _) as [s r]. apply Hset; simpl; try done; lia.
Qed.

Lemma publish_moves_media h ok b w hd : header = [b] -> (length b <= copyBuffer)%nat -> media_ok w ->
  handlers (on_air w) !! h = Some hd -> publish_rank (h_state hd) <> 0%nat ->
  exists more hd', Forall (of_publish h ok) more /\
    handlers (on_air (mrun w more)) !! h = Some hd' /\ (publish_rank (h_state hd') < publish_rank (h_state hd))%nat /\
    (length more <= match h_state hd with PProc _ _ => 6 | _ => 1 end)%nat.
Proof.
  intros Hb Hlen Hok Hh Hr.
  destruct (match h_state hd with PProc _ _ => true | _ => false end) eqn:Ep.
  2: { destruct (publish_step_rank h ok (on_air w) hd Hh Hr) as (hd' & H1 & H2).
       exists [MLive (LPublish h ok)], hd'. split_and!; [constructor; [by left | done]| |done|by destruct (h_state hd)].
       cbn [Media.mrun foldl Media.mstep]. unfold publish. rewrite Hh. simpl. by destruct (h_state hd). }
  destruct (h_state hd) as [| | | |pb p| | | |] eqn:Hs; try done.
  assert (Ho : part_of (on_air w) (OHandler h) = Some (Opening, c_Name (pb_channel pb), p)) by (by rewrite (part_handler _ h hd), Hs).
  destruct (pa_stage _ _ _ _ _ (mo_parts _ _ _ Hok) _ _ _ _ Ho) as (pl & x & Hpl & Hx & _ & Hg).
  destruct (pa_pipe _ _ _ _ _ (mo_parts _ _ _ Hok) p pl x Hpl Hx) as [A _].
  destruct (header_written b pl Hb Hlen A Hg) as (acts & H1 & H2 & H3).
  destruct (pipe_run unaided unaided_action p acts) as (more & G1 & G2 & G3); [|exact H1|].
  { intros a [-> |[-> | ->]]; [exists Writer | exists Pass | exists Copier]; split; try done; unfold unaided_action; auto. }
  assert (Hok' : media_ok (mrun w more)) by (by apply mrun_media).
  assert (Hpl' : pipes (mrun w more) !! p = Some (prun encode pl acts)) by (rewrite G3; by apply (alter_pipe_at (fun pl => prun encode pl acts))).
  assert (Hair : on_air (mrun w more) = on_air w) by (by rewrite G3).
  rewrite <- Hair in Ho, Hh. destruct (pa_stage _ _ _ _ _ (mo_parts _ _ _ Hok') _ _ _ _ Ho) as (pl' & x' & Hp' & _ & _ & Hg').
  rewrite Hpl' in Hp'. injection Hp' as <-. destruct (opened_ok header _ Hg' H3) as (_ & _ & _ & Hres).
  destruct (publish_step_rank h true (on_air (mrun w more)) hd Hh) as (hd' & K1 & K2); [by rewrite Hs|].
  exists (more ++ [MLive (LPublish h ok)]), hd'. split_and!.
  - apply Forall_app. split; [|constructor; [by left | done]]. eapply Forall_impl; [exact G1|].
    intros a (c & -> & Hc). right. by exists p, c.
  - unfold Media.mrun. rewrite foldl_app. fold (mrun w more). cbn [foldl Media.mstep]. unfold publish. rewrite Hh. simpl. rewrite Hs, Hpl'. simpl.
    unfold NewEncoder_result. rewrite H3, Hres. simpl. exact K1.
  - by rewrite Hs in K2.
  - rewrite length_app, G2. simpl. lia.
Qed.


(** *** Nobody watches ffmpeg before the session is registered *)
Record stuck (h : nat) (pb : publication) (p : nat) (w : broadcast (D := D)) : Prop := {
  sk_ok : media_ok w;
  sk_handler : exists hd, handlers (on_air w) !! h = Some hd /\ h_state hd = PProc pb p;
  sk_pipe : exists pl, pipes w !! p = Some pl /\ in_select (pl_writer pl) = true /\ ended (pl_copier pl) = true
}.

Lemma stuck_pipe b (pl : pipe) : closed pl = false -> in_select (pl_writer pl) = true -> ended (pl_copier pl) = true ->
  in_select (pl_writer (pipe_step b pl)) = true /\ ended (pl_copier (pipe_step b pl)) = true.
Proof.
  intros Hc Hw He. destruct (pl_writer pl) as [| |c todo own] eqn:Ew; try done. destruct b; simpl.
  - unfold writer_step. by rewrite Ew, Hc, Ew.
  - unfold pass_step. rewrite Ew. by destruct (pl_copier pl) eqn:Ec; rewrite ?Ew, ?Ec.
  - unfold copier_step. by destruct (pl_copier pl) as [| |[|x c']| |] eqn:Ec; simpl; rewrite ?Ew, ?Ec.
  - unfold accept_step. by destruct (pl_copier pl) eqn:Ec; rewrite ?Ew, ?Ec.
  - unfold break_step. by destruct (pl_copier pl) as [| |[|x c']| |] eqn:Ec; rewrite ?Ew, ?Ec.
Qed.

Lemma stuck_step h pb p w a : stuck h pb p w -> stuck h pb p (mstep w a).
Proof.
  intros [Hok (hd & Hh & Hs) (pl & Hpl & Hw & He)]. pose proof (mstep_media stateDir header encode w a Hok) as Hok'.
  assert (Ho : part_of (on_air w) (OHandler h) = Some (Opening, c_Name (pb_channel pb), p)) by (by rewrite (part_handler _ h hd), Hs).
  destruct (pa_stage _ _ _ _ _ (mo_parts _ _ _ Hok) _ _ _ _ Ho) as (pl0 & x & E & _ & _ & Hc & _). rewrite Hpl in E. injection E as <-.
  destruct a as [a|i m|q b].
  - destruct (publish_or_not h a) as [(ok & ->)|Hn].
    + assert (E : mstep w (MLive (LPublish h ok)) = w); [|by rewrite E; split; eauto]. cbn [Media.mstep]. unfold publish. rewrite Hh. simpl. rewrite Hs, Hpl. simpl.
      unfold NewEncoder_result. by destruct (pl_writer pl).
    + split; [done| |].
      * exists hd. split; [|done]. destruct (mstep_live w a) as [-> |(a' & -> & Ha')]; [done|].
        by destruct (lstep_handlers stateDir (on_air w) a' h (Ha' h Hn)) as [E|(? & _)]; [rewrite <- Hh|congruence].
      * destruct (mstep_live w a) as [-> |(a' & -> & _)]; [by exists pl|].
        destruct (pipes_after_pipe (on_air w) a' (pipes w) p pl Hpl) as (pl' & E & Hcase). exists pl'. split; [exact E|].
        by destruct Hcase as [-> |[-> |[-> | ->]]].
  - split; [done | |].
    + exists hd. split; [|done]. cbn [Media.mstep]. unfold callback. destruct (handlers (on_air w) !! i); [|done].
      destruct (flvEnc (on_air w) i); [|done]. by destruct (on_message _ m) as [[t|]|].
    + exists pl. split; [|done]. cbn [Media.mstep]. unfold callback. destruct (handlers (on_air w) !! i); [|done].
      destruct (flvEnc (on_air w) i) as [q|] eqn:Eq; [|done]. destruct (on_message _ m) as [[t|]|]; try done.
      simpl. rewrite list_lookup_alter_ne; [done|]. intros ->.
      apply flvEnc_session in Eq as (_ & sid & ss & _ & _ & Hss & <-).
      by assert (OHandler h = OSession sid) by (eapply (pa_uniq _ _ _ _ _ (mo_parts _ _ _ Hok)); [exact Ho | by apply session_part]).
  - split; [done | by exists hd|]. simpl. destruct (decide (p = q)) as [->|Hne]; [|exists pl; by rewrite list_lookup_alter_ne].
    exists (pipe_step b pl). rewrite list_lookup_alter_eq, Hpl. split; [done|]. by apply stuck_pipe.
Qed.

(** If the header took a second [Write] and ffmpeg died after the first, the
    bridge would be gone, the watchdog not yet there, and [OnPublish] would hang,
    with its row open, whatever happens. *)
Lemma unwatched_encoder_hangs h pb p w more : stuck h pb p w ->
  exists hd, handlers (on_air (mrun w more)) !! h = Some hd /\ h_state hd = PProc pb p.
Proof.
  intros H. assert (Hr : stuck h pb p (mrun w more)); [|by destruct Hr].
  revert w H. induction more as [|a more IH]; intros w H; [done|]. by apply IH, stuck_step.
Qed.
End MediaProps.

(** ** Bob on the air *)

(** An encoder: before each tag a byte that counts the tags before. *)
Definition toy_header : list (list byte) := [[x46; x4c; x56]].
Definition toy_encode (before : list (FlvTag byte)) (tag : FlvTag byte) : list (list byte) * option err :=
  ([[default x00 (Byte.of_N (N.of_nat (length before)))]; [Data _ tag]], None).
Abbreviation toy_run := (mrun "state" toy_header toy_encode).
Abbreviation bobs_air := (new_broadcast (D := byte) bobs_store ∅).

Definition bob_connects : list (mact (D := byte)) :=
  [MLive (LConnect plain_key)] ++ repeat (MLive (LPublish 0 true)) 4 ++
  [MPipe 0 Writer; MPipe 0 Copier; MPipe 0 Pass; MPipe 0 Writer] ++ repeat (MLive (LPublish 0 true)) 2.
(** Two messages; the second is not decodable, the third still on its way. *)
Definition bob_plays : list (mact (D := byte)) :=
  [MPipe 0 (Accept 2); MCall 0 (Audio 0 (Ok x61)); MPipe 0 (Accept 5); MPipe 0 Writer; MPipe 0 Copier; MPipe 0 Copier; MPipe 0 Pass;
   MPipe 0 Writer; MPipe 0 (Accept 9); MPipe 0 Copier; MPipe 0 Copier; MPipe 0 Pass; MPipe 0 Writer;
   MCall 0 (Video 20 (Err (EIO "avc")))].
Definition bob_is_slow : list (mact (D := byte)) := [MCall 0 (Video 40 (Ok x76)); MPipe 0 Writer].

Lemma bob_heard : heard "state" toy_header toy_encode 0 bobs_air (bob_connects ++ bob_plays ++ bob_is_slow) =
  [Build_FlvTag TagTypeAudio 0 x61; Build_FlvTag TagTypeVideo 40 x76].
Proof. vm_compute. reflexivity. Qed.

Lemma ffmpeg_gets_its_publisher_witness :
  exists pl, pipes (toy_run bobs_air (bob_connects ++ bob_plays ++ bob_is_slow)) !! 0%nat = Some pl /\
  pl_fed pl = [x46; x4c; x56; x00] /\ pl_fed pl `prefix_of` [x46; x4c; x56; x00; x61; x01; x76].
Proof.
  destruct (ffmpeg_gets_its_publisher "state" toy_header toy_encode bobs_store ∅ (bob_connects ++ bob_plays ++ bob_is_slow) 0%nat 0%nat)
    as (pl & x & sid & ss & H1 & _ & _ & _ & _ & _ & H2 & _); [vm_compute; reflexivity|].
  exists pl. split; [exact H1|]. split; [|rewrite bob_heard in H2; exact H2].
  assert (E : pl_fed <$> pipes (toy_run bobs_air (bob_connects ++ bob_plays ++ bob_is_slow)) !! 0%nat = Some [x46; x4c; x56; x00])
    by (vm_compute; reflexivity).
  rewrite H1 in E. injection E as E. exact E.
Defined.

(** Bob's third message is waiting for the bridge. *)
Lemma callbacks_return_witness :
  let w := toy_run bobs_air (bob_connects ++ bob_plays ++ bob_is_slow) in
  exists pl, pipes w !! 0%nat = Some pl /\ pl_writer pl <> WIdle /\
  exists more pl', Forall (around 0) more /\ (length more <= pipe_work pl)%nat /\
    pipes (toy_run w more) !! 0%nat = Some pl' /\ pl_writer pl' = WIdle /\ pl_refused pl' = false.
Proof.
  intros w. destruct (pipes w !! 0%nat) as [pl|] eqn:E; [|exfalso; revert E; vm_compute; discriminate].
  exists pl. split; [reflexivity|].
  assert (Ew : (fun pl => (pl_writer pl, closed pl, pl_exited pl, pl_broken pl)) <$> pipes w !! 0%nat =
    Some (WSelect [x01] [[x76]] None, false, false, false)) by (vm_compute; reflexivity).
  rewrite E in Ew. injection Ew as E1 E2 E3 E4. split; [rewrite E1; discriminate|].
  destruct (callbacks_return "state" toy_header toy_encode bobs_store ∅ (bob_connects ++ bob_plays ++ bob_is_slow) 0%nat 0%nat pl)
    as (_ & _ & H); [vm_compute; reflexivity | exact E |]. exact (H E2 E3 E4).
Defined.



(** A header in two writes, and ffmpeg gone after the first. *)
Definition two_writes : list (list byte) := [[x46; x4c; x56]; [x00; x00; x00; x00]].
Definition ffmpeg_dies_early : list (mact (D := byte)) :=
  [MLive (LConnect plain_key)] ++ repeat (MLive (LPublish 0 true)) 4 ++
  [MPipe 0 Writer; MPipe 0 Copier; MPipe 0 Pass; MPipe 0 Writer; MLive (LExit 0 true); MPipe 0 Break].

Lemma two_writes_hang more :
  exists hd pb, handlers (on_air (mrun "state" two_writes toy_encode (mrun "state" two_writes toy_encode bobs_air ffmpeg_dies_early) more)) !! 0%nat
    = Some hd /\ h_state hd = PProc pb 0.
Proof.
  assert (Hok := mrun_media "state" two_writes toy_encode ffmpeg_dies_early _ (new_broadcast_media two_writes toy_encode bobs_store ∅)).
  assert (Eh : match handlers (on_air (mrun "state" two_writes toy_encode bobs_air ffmpeg_dies_early)) !! 0%nat with
    | Some {| h_state := PProc _ 0 |} => true | _ => false end = true) by (vm_compute; reflexivity).
  assert (Ep : (fun pl => (in_select (pl_writer pl), ended (pl_copier pl))) <$>
    pipes (mrun "state" two_writes toy_encode bobs_air ffmpeg_dies_early) !! 0%nat = Some (true, true)) by (vm_compute; reflexivity).
  revert Hok Eh Ep. generalize (mrun "state" two_writes toy_encode bobs_air ffmpeg_dies_early). intros w Hok Eh Ep.
  destruct (handlers (on_air w) !! 0%nat) as [hd|] eqn:Ew; [|discriminate Eh].
  destruct (h_state hd) as [| | | |pb p| | | |] eqn:Es; try (destruct hd; simpl in Es; subst; discriminate Eh).
  assert (p = 0%nat) as -> by (destruct hd; simpl in Es; subst; by destruct p).
  assert (Hst : stuck two_writes toy_encode 0 pb 0 w).
  { split; [exact Hok | by exists hd|]. destruct (pipes w !! 0%nat) as [pl|]; [|discriminate Ep]. injection Ep as E1 E2. by exists pl. }
  destruct (unwatched_encoder_hangs "state" two_writes toy_encode 0 pb 0 w more Hst) as (hd' & H1 & H2). by exists hd', pb.
Qed.
