(* ===== verification/Rotation.v ===== *)
(** * Stream keys across the account service and the ingest service *)

From S2P Require Import Prelude Utf8 Encoding Errors StreamKey Store StoreInv Auth Stream StreamThms StreamRows StreamProps StreamBoot.
Local Open Scope Z_scope.

(** No two channels hold the same key hash. *)
Definition keys_distinct (d : tables) : Prop :=
  forall i j c e, channels d !! i = Some c -> channels d !! j = Some e -> c_StreamKeyHash c = c_StreamKeyHash e -> i = j.

Lemma lookup_value key s : faults s = [] ->
  (lookupChannelByStreamKey key s).2 =
  match select (fun v => String.eqb (c_StreamKeyHash v) (HashKey key)) (channels (db s)) with
  | Some c => Ok c
  | None => Err ErrUnknownStreamKey
  end.
Proof.
  intros Hf. unfold lookupChannelByStreamKey, no_rows_to, catch, GetChannelByStreamKeyHash.
  rewrite statement_fine by done. unfold with_texts, texts_ok. cbn [forallb]. rewrite HashKey_pg_text. simpl.
  by destruct (select _ _).
Qed.

Lemma lookup_channel key s i c : faults s = [] -> keys_distinct (db s) -> channels (db s) !! i = Some c ->
  c_StreamKeyHash c = HashKey key -> (lookupChannelByStreamKey key s).2 = Ok c.
Proof.
  intros Hf Hd Hc Hk. rewrite lookup_value by done.
  rewrite (select_unique _ _ i c); [done..|by apply String.eqb_eq|].
  intros j e He E%String.eqb_eq. assert (j = i) as -> by (eapply Hd; [done..|congruence]). congruence.
Qed.

Lemma lookup_unknown key s : faults s = [] ->
  (forall i c, channels (db s) !! i = Some c -> c_StreamKeyHash c <> HashKey key) ->
  (lookupChannelByStreamKey key s).2 = Err ErrUnknownStreamKey.
Proof.
  intros Hf Hn. rewrite lookup_value by done.
  rewrite (proj2 (select_None _ _)); [done|]. intros i c Hc. apply String.eqb_neq. by apply (Hn i).
Qed.

(** The state after the key of channel [id] was replaced by one with [hash]. *)
Definition rekeyed (id : Z) (hash : string) (s : store) : store :=
  set_db (set_channels (alter (with_key hash) id (channels (db s))) (next_channel (db s)) (db s)) s.

Lemma RegenerateStreamKey_fine id buf s : faults s = [] ->
  let plain := streamKeyPrefix +:+ EncodeToString buf in
  RegenerateStreamKey id (Some buf) s = (rekeyed id (HashKey plain) s, Ok plain).
Proof.
  intros Hf plain. unfold RegenerateStreamKey. cbn [GenerateKey wrap]. unfold lift_res.
  unfold wrapping, catch, UpdateChannelStreamKey, mbind, prog_bind. rewrite statement_fine by done.
  unfold with_texts, texts_ok. cbn [forallb snd]. by rewrite HashKey_pg_text.
Qed.

(** C39: regenerating a stream key. The key returned lets its channel publish
    at once; a key that worked before is refused as unknown from then on; every
    other channel's key works as before; and the channel's title, name and
    owner are kept. (Assuming that the hashes involved do not collide.) *)
Theorem key_rotation id c buf s :
  faults s = [] -> keys_distinct (db s) -> channels (db s) !! id = Some c ->
  let plain := streamKeyPrefix +:+ EncodeToString buf in
  (forall i e, channels (db s) !! i = Some e -> c_StreamKeyHash e <> HashKey plain) ->
  let '(s', r) := RegenerateStreamKey id (Some buf) s in
  r = Ok plain /\
  (lookupChannelByStreamKey plain s').2 = Ok (with_key (HashKey plain) c) /\
  (forall old, (lookupChannelByStreamKey old s).2 = Ok c -> (lookupChannelByStreamKey old s').2 = Err ErrUnknownStreamKey) /\
  (forall other e, c_ID e <> c_ID c -> (lookupChannelByStreamKey other s).2 = Ok e ->
     (lookupChannelByStreamKey other s').2 = Ok e) /\
  (forall unknown, HashKey unknown <> HashKey plain -> (lookupChannelByStreamKey unknown s).2 = Err ErrUnknownStreamKey ->
     (lookupChannelByStreamKey unknown s').2 = Err ErrUnknownStreamKey).
Proof.
  intros Hf Hd Hc plain Hnew. rewrite (RegenerateStreamKey_fine id buf s Hf). fold plain.
  set (s' := rekeyed id (HashKey plain) s).
  assert (Hch : forall i e, channels (db s') !! i = Some e <->
    (i = id /\ e = with_key (HashKey plain) c) \/ (i <> id /\ channels (db s) !! i = Some e)).
  { intros i e. simpl. destruct (decide (i = id)) as [->|Hne].
    - rewrite lookup_alter_eq, Hc. simpl. split; [intros [= <-]; by left | by intros [[_ ->]|[? _]]].
    - rewrite lookup_alter_ne by done. split; [by right | by intros [[? _]|[_ ?]]]. }
  assert (Hd' : keys_distinct (db s')).
  { intros i j x y [[-> ->]|[Hi Hx]]%Hch [[-> ->]|[Hj Hy]]%Hch E; [done| | |by eapply Hd].
    - by destruct (Hnew j y Hy). - by destruct (Hnew i x Hx). }
  assert (Hf' : faults s' = []) by done.
  split_and!; [done| | | |].
  - apply lookup_channel with id; [done..| |done]. apply Hch. by left.
  - intros old Hold. destruct (lookup_finds _ _ _ Hf Hold) as (_ & i & Hi & Hh).
    assert (i = id) as -> by (by eapply Hd). apply lookup_unknown; [done|].
    intros j e [[-> ->]|[Hj He]]%Hch; simpl; [rewrite <- Hh; by apply not_eq_sym, (Hnew id)|].
    rewrite <- Hh. intros E. by destruct (Hd _ _ _ _ He Hc E).
  - intros other e Hid Hother. destruct (lookup_finds _ _ _ Hf Hother) as (_ & i & Hi & Hh).
    apply lookup_channel with i; [done..| |done]. apply Hch. right. split; [|done]. intros ->. congruence.
  - intros unknown Hne Hun. apply lookup_unknown; [done|]. intros i e [[-> ->]|[Hi He]]%Hch; [by apply not_eq_sym|].
    intros E. rewrite (lookup_channel unknown s i e) in Hun; done.
Qed.

Definition next_bytes : list Z := repeat 8 32.

Lemma key_rotation_witness :
  let '(s', r) := RegenerateStreamKey 1 (Some next_bytes) bobs_store in
  (lookupChannelByStreamKey plain_key bobs_store).2 = Ok bob /\
  (lookupChannelByStreamKey plain_key s').2 = Err ErrUnknownStreamKey.
Proof.
  assert (H := key_rotation 1 bob next_bytes bobs_store). destruct (RegenerateStreamKey 1 (Some next_bytes) bobs_store) as [s' r].
  destruct H as (_ & _ & H & _).
  - reflexivity.
  - intros i j c e. simpl. rewrite !lookup_singleton_Some. by intros [<- _] [<- _].
  - reflexivity.
  - intros i e. simpl. rewrite lookup_singleton_Some. intros [<- <-]. vm_compute. discriminate.
  - split; [vm_compute; reflexivity | apply H; vm_compute; reflexivity].
Defined.
