(* ===== verification/AccountSpec.v ===== *)
(** * Accounts, abstractly: a map from names to e-mail and password

    [spec_signup] and [spec_login] say what [Signup] and [Login] promise,
    without tables, serial numbers, hashes, transactions or channels.  The
    refinement theorem runs any sequence of service calls, among them sessions,
    keys and titles, against the database and against the map: the answers are
    the same. *)

From S2P Require Import Prelude Utf8 Encoding Errors StreamKey Store StoreInv Auth AuthThms.
Local Open Scope Z_scope.

Abbreviation accounts := (gmap string (string * string)).  (* e-mail, password *)

Definition email_used (e : string) (A : accounts) : bool := existsb (fun x : string * (string * string) => String.eqb x.2.1 e) (map_to_list A).

Section Spec.
Context (parse_address : string -> bool).

Definition spec_signup (n e p : string) (A : accounts) : accounts * res err string :=
  match validateUsername n, parse_address e, validatePassword p with
  | Err x, _, _ => (A, Err x)
  | Ok _, false, _ => (A, Err ErrInvalidEmail)
  | Ok _, true, Err x => (A, Err x)
  | Ok _, true, Ok _ =>
      if negb (pg_text e) then (A, Err (EWrap "create user" encoding_error))   (* the database refuses the text *)
      else match A !! n with
           | Some _ => (A, Err ErrUsernameTaken)
           | None => if email_used e A then (A, Err ErrEmailTaken) else (<[n := (e, p)]> A, Ok n)
           end
  end.

Definition spec_login (n p : string) (A : accounts) : res err string :=
  if negb (pg_text n) then Err (EWrap "lookup user" encoding_error)
  else match A !! n with
       | Some (_, q) => if bool_decide (bcrypt_key p = bcrypt_key q) then Ok n else Err ErrBadCredentials
       | None => Err ErrBadCredentials
       end.

(** The answers of a sequence of calls; only these two calls are observed. *)
Definition spec_step (op : account_op) (A : accounts) : accounts * option (res err string) :=
  match op with
  | OSignup n e p _ _ => let '(A, r) := spec_signup n e p A in (A, Some r)
  | OLogin n p => (A, Some (spec_login n p A))
  | _ => (A, None)
  end.
Fixpoint spec_run (ops : list account_op) (A : accounts) : list (option (res err string)) :=
  match ops with
  | [] => []
  | op :: ops => let '(A, r) := spec_step op A in r :: spec_run ops A
  end.

Context (bcrypt_generate : list Z -> string -> option string).
Context (bcrypt_compare : string -> string -> bool).
Context (sessionTTL : Z).

Definition answer_of {A} (f : A -> User) (r : res err A) : res err string :=
  match r with Ok a => Ok (u_Username (f a)) | Err e => Err e end.

Definition observe (op : account_op) (s : store) : option (res err string) :=
  match op with
  | OSignup n e p salt buf => Some (answer_of fst (Signup parse_address bcrypt_generate n e p salt buf s).2)
  | OLogin n p => Some (answer_of (fun u => u) (Login bcrypt_compare n p s).2)
  | _ => None
  end.
Fixpoint service_run (ops : list account_op) (times : list Z) (d : tables) : list (option (res err string)) :=
  match ops with
  | [] => []
  | op :: ops =>
      let s := at_time (default 0 (head times)) d in
      observe op s :: service_run ops (tail times)
        (db (account_step parse_address bcrypt_generate bcrypt_compare sessionTTL op s))
  end.

(** ** The refinement *)
Hypothesis compare_exact : forall salt p h p', bcrypt_generate salt p = Some h ->
  bcrypt_compare h p' = bool_decide (bcrypt_key p' = bcrypt_key p).
Hypothesis generate_ok : forall salt p, (String.length p <= 72)%nat ->
  exists h, bcrypt_generate salt p = Some h /\ pg_text h = true.

Definition stands_for (u : User) (e p : string) : Prop :=
  u_Email u = e /\ forall q, bcrypt_compare (u_PasswordHash u) q = bool_decide (bcrypt_key q = bcrypt_key p).

(** The users of the database are the accounts of the map. *)
Record represents (d : tables) (A : accounts) : Prop := {
  rp_ok : ok d;
  rp_some : forall n e p, A !! n = Some (e, p) -> exists i u, users d !! i = Some u /\ u_Username u = n /\ stands_for u e p;
  rp_all : forall i u, users d !! i = Some u -> is_Some (A !! u_Username u)
}.

Lemma represents_none d A n : represents d A -> A !! n = None <-> unused_username d n.
Proof.
  intros [_ Hs Ha]. split.
  - intros Hn i u Hu <-. destruct (Ha i u Hu) as [x Hx]. congruence.
  - intros Hun. destruct (A !! n) as [[e p]|] eqn:E; [|done]. destruct (Hs n e p E) as (i & u & Hu & Hn & _). by destruct (Hun i u Hu).
Qed.

Lemma represents_email d A e : represents d A -> email_used e A = false <-> unused_email d e.
Proof.
  intros [[Hd _] Hs Ha]. unfold email_used. rewrite <- not_true_iff_false, existsb_exists. split.
  - intros Hno i u Hu He. destruct (Ha i u Hu) as [[e' p] Hx]. destruct (Hs _ _ _ Hx) as (j & v & Hv & Hn & Hev & _).
    assert (j = i) as -> by (by eapply (k_username d Hd)). simplify_eq. apply Hno. exists (u_Username u, (u_Email u, p)).
    split; [by apply list_elem_of_In, elem_of_map_to_list | apply String.eqb_refl].
  - intros Hun ([n [e' p]] & Hin & He%String.eqb_eq). simpl in He. subst e'. apply list_elem_of_In, elem_of_map_to_list in Hin.
    destruct (Hs _ _ _ Hin) as (j & v & Hv & _ & Hev & _). by apply (Hun j v Hv).
Qed.

Lemma represents_same d d' A : users d' = users d -> ok d' -> represents d A -> represents d' A.
Proof. intros Hu Hok [_ Hs Ha]. by split; [|rewrite Hu..]. Qed.

Lemma represents_new d d' A n e p u : represents d A -> ok d' -> A !! n = None ->
  users d' = <[u_ID u := u]> (users d) -> users d !! u_ID u = None -> u_Username u = n -> stands_for u e p ->
  represents d' (<[n := (e, p)]> A).
Proof.
  intros [Hok Hs Ha] Hok' Hnone Hu Hnew Hn Hst. split; [done|..]; rewrite Hu.
  - intros m e' p'. rewrite lookup_insert_Some. intros [[<- [= <- <-]]|[Hne Hm]].
    + exists (u_ID u), u. by rewrite lookup_insert_eq.
    + destruct (Hs m e' p' Hm) as (i & v & Hv & Hvn & Hvs). exists i, v. split_and!; [|done|done].
      rewrite lookup_insert_ne; [done|]. intros <-. congruence.
  - intros i v. rewrite lookup_insert_Some. intros [[<- <-]|[Hne Hv]].
    + rewrite Hn, lookup_insert_eq. by eexists.
    + apply lookup_insert_is_Some'. right. by eapply Ha.
Qed.

(** The database refuses the text of the address. *)
Lemma signup_bad_email n e h hash s : faults s = [] -> pg_text e = false ->
  ((tx ← wrapping "begin tx" Begin;
    user ← in_tx tx (catch (CreateUser n e h) (fun e => throw (mapUniqueViolation e)));
    _ ← in_tx tx (wrapping "create channel" (CreateChannel (u_ID user) n hash));
    _ ← wrapping "commit" (commit_tx tx);
    mret user) s).2 = Err (EWrap "create user" encoding_error).
Proof.
  intros Hf Ht. rewrite prog_bind_eq. unfold wrapping at 1, catch at 1, Begin. rewrite statement_fine by done. cbn [fst snd].
  rewrite prog_bind_eq. unfold in_tx at 1, catch at 1, CreateUser. rewrite statement_fine by done.
  unfold with_texts, texts_ok. cbn [forallb]. rewrite Ht. by rewrite andb_false_r.
Qed.

Lemma signup_result n e p salt b t d A h : represents d A ->
  validateUsername n = Ok tt -> parse_address e = true -> validatePassword p = Ok tt ->
  bcrypt_generate salt p = Some h -> pg_text h = true ->
  answer_of fst (Signup parse_address bcrypt_generate n e p salt (Some b) (at_time t d)).2 = (spec_signup n e p A).2.
Proof.
  intros Hr V1 V2 V3 V4 Th. unfold spec_signup. rewrite V1, V2, V3. destruct (pg_text e) eqn:Te; cbn [negb].
  - destruct (signup_decided parse_address bcrypt_generate n e p salt b h (at_time t d) (rp_ok _ _ Hr) eq_refl V1 V2 V3 V4 Te Th) as (H1 & H2 & H3).
    cbn [db at_time] in *. destruct (A !! n) as [x|] eqn:En.
    + rewrite H1; [done|]. intros Hun. apply (represents_none d A n Hr) in Hun. congruence.
    + apply (represents_none d A n Hr) in En. destruct (email_used e A) eqn:Ee.
      * rewrite H2; [done | done |]. intros Hun. apply (represents_email d A e Hr) in Hun. congruence.
      * apply (represents_email d A e Hr) in Ee. by destruct (H3 En Ee) as (plain & _ & ->).
  - rewrite (signup_validated _ _ _ _ _ _ _ h (streamKeyPrefix +:+ EncodeToString b, HashKey (streamKeyPrefix +:+ EncodeToString b))) by done.
    pose proof (signup_bad_email n e h (HashKey (streamKeyPrefix +:+ EncodeToString b)) (at_time t d) eq_refl Te) as Hres.
    cbn [snd] in *. destruct ((wrapping "begin tx" Begin ≫= _) (at_time t d)) as [s' r]. cbn [snd] in *. by rewrite Hres.
Qed.

Lemma signup_represents n e p salt b t d A : represents d A ->
  let '(s', r) := Signup parse_address bcrypt_generate n e p salt (Some b) (at_time t d) in
  represents (db s') (spec_signup n e p A).1 /\ answer_of fst r = (spec_signup n e p A).2.
Proof.
  intros Hr. destruct (Signup _ _ n e p salt (Some b) (at_time t d)) as [s' r] eqn:H.
  destruct (validateUsername n) as [[]|x] eqn:V1.
  2:{ unfold spec_signup. rewrite V1. unfold Auth.Signup in H. rewrite V1 in H. injection H as <- <-. done. }
  destruct (parse_address e) eqn:V2.
  2:{ unfold spec_signup. rewrite V1, V2. unfold Auth.Signup, validateEmail in H. rewrite V1, V2 in H. by injection H as <- <-. }
  destruct (validatePassword p) as [[]|x] eqn:V3.
  2:{ unfold spec_signup. rewrite V1, V2, V3. unfold Auth.Signup, validateEmail in H. rewrite V1, V2, V3 in H. by injection H as <- <-. }
  destruct (generate_ok salt p) as (h & V4 & Th).
  { unfold validatePassword in V3. destruct (_ || _) eqn:E; [done|]. apply orb_false_iff in E as [_ E%Z.ltb_ge]. lia. }
  pose proof (signup_result n e p salt b t d A h Hr V1 V2 V3 V4 Th) as Hres. rewrite H in Hres. split; [|exact Hres].
  rewrite (signup_validated _ _ _ _ _ _ _ h (streamKeyPrefix +:+ EncodeToString b, HashKey (streamKeyPrefix +:+ EncodeToString b))) in H by done.
  destruct ((wrapping "begin tx" Begin ≫= _) (at_time t d)) as [s1 r1] eqn:Htx. injection H as -> <-.
  apply signup_tx in Htx as (Hok' & _ & Hout); [|apply Hr]. cbn [snd] in Hres.
  unfold spec_signup in *. rewrite V1, V2, V3 in *. destruct (pg_text e); cbn [negb] in *.
  2:{ destruct Hout as [[(Hu & _) _]|(u & c & _ & _ & _ & _ & [-> | ->])]; [|done|done]. by apply (represents_same d). }
  destruct (A !! n) as [x|] eqn:En; [|destruct (email_used e A)]; cbn [fst snd] in *;
    (destruct Hout as [[(Hu & _) [y ->]]|(u & c & Hu & Hnu & Hc & Hd & [-> | ->])]; try done; try by apply (represents_same d)).
  apply (represents_new d _ A n e p u); try done; try (by rewrite Hu); try (by rewrite Hd).
  - apply fresh_user; [apply (rp_ok _ _ Hr) | by apply Hnu].
  - split; [by rewrite Hu|]. intros q. rewrite Hu. cbn [u_PasswordHash user_row]. by apply compare_exact with salt.
Qed.

Lemma login_result n p t d A : represents d A ->
  answer_of (fun u => u) (Login bcrypt_compare n p (at_time t d)).2 = spec_login n p A.
Proof.
  intros Hr. unfold Auth.Login, spec_login, no_rows_to, verifyPassword. rewrite prog_bind_eq. unfold catch.
  destruct (pg_text n) eqn:Tn; cbn [negb].
  - rewrite GetUserByUsername_fine by done. cbn [db at_time]. destruct (A !! n) as [[e q]|] eqn:En.
    + destruct (rp_some _ _ Hr n e q En) as (i & u & Hu & Hn & _ & Hc).
      rewrite (select_user d i u n) by (done || apply Hr). rewrite Hc. case_bool_decide; [|done]. simpl. by rewrite Hn.
    + apply (represents_none d A n Hr) in En. rewrite (proj2 (select_None _ _)); [done|].
      intros i v Hv. apply String.eqb_neq. by apply (En i).
  - unfold GetUserByUsername. rewrite statement_fine by done. unfold with_texts, texts_ok. cbn [forallb]. by rewrite Tn.
Qed.

(** A call that draws its randomness: the source works. *)
Definition supplied (op : account_op) : Prop := match op with OSignup _ _ _ _ buf => is_Some buf | _ => True end.

Lemma step_represents op t d A : supplied op -> represents d A ->
  represents (db (account_step parse_address bcrypt_generate bcrypt_compare sessionTTL op (at_time t d))) (spec_step op A).1 /\
  observe op (at_time t d) = (spec_step op A).2.
Proof.
  intros Hsup Hr. destruct (account_op_cases op) as [(n & e & p & salt & buf & ->)|Hop].
  - destruct Hsup as [b ->]. pose proof (signup_represents n e p salt b t d A Hr) as H.
    cbn [account_step spec_step observe]. destruct (Signup _ _ _ _ _ _ _ _) as [s' r]. destruct (spec_signup n e p A) as [A' r'].
    destruct H as [H1 H2]. split; [exact H1 | cbn [snd] in *; by rewrite H2].
  - destruct (account_step_same parse_address bcrypt_generate bcrypt_compare sessionTTL op (at_time t d) Hop (rp_ok _ _ Hr)) as [(Hu & _) Hok'].
    assert (HA : (spec_step op A).1 = A) by (destruct op; try done; by destruct (Hop username email password salt buf)).
    rewrite HA. split; [by apply (represents_same d)|].
    destruct op; try done; [by destruct (Hop username email password salt buf)|]. cbn [observe spec_step snd]. f_equal. by apply login_result.
Qed.

(** C4: The account service refines a map. However many calls are made, in
    whatever order and at whatever times, signups, logins, and in between
    sessions, keys, titles and sweeps: every signup and every login is answered
    exactly as the abstract map of names to e-mail and password answers it,
    errors included. *)
Theorem account_service_refines_map ops times :
  Forall supplied ops ->
  service_run ops times no_tables = spec_run ops ∅.
Proof.
  intros Hops. assert (Hr : represents no_tables ∅).
  { split; [apply no_tables_ok | |]; intros ?; simpl; intros *; by rewrite lookup_empty. }
  revert times Hr. generalize no_tables (∅ : accounts). induction Hops as [|op ops Hop _ IH]; intros d A times Hr; [done|].
  cbn [service_run spec_run]. destruct (step_represents op (default 0 (head times)) d A Hop Hr) as [Hr' ->].
  destruct (spec_step op A) as [A' r]. cbn [fst snd] in *. by rewrite (IH _ A').
Qed.
End Spec.

Lemma toy_generate1_ok salt p : (String.length p <= 72)%nat -> exists h, toy_generate1 salt p = Some h /\ pg_text h = true.
Proof.
  intros Hp. unfold toy_generate1. destruct (Z.ltb_spec 72 (Z.of_nat (String.length p))); [lia|].
  eexists. split; [done|]. apply encoded_pg_text, bcrypt_key_bytes.
Qed.

Lemma account_service_refines_map_witness :
  let ops := [OSignup "alice" "a@b" "password" toy_salt toy_buf; OLogin "alice" "password"; OLogin "alice" "passw0rd";
              OSignup "alice" "c@d" "password" toy_salt toy_buf; OCreateSession 1 toy_buf; OSignup "bob" "a@b" "password" toy_salt toy_buf;
              OSignup "bob" "b@b" "short" toy_salt toy_buf; OLogin "bob" "short"] in
  service_run toy_address toy_generate1 toy_compare1 1000 ops [] no_tables =
  [Some (Ok "alice"%string); Some (Ok "alice"%string); Some (Err ErrBadCredentials); Some (Err ErrUsernameTaken); None;
   Some (Err ErrEmailTaken); Some (Err ErrInvalidPassword); Some (Err ErrBadCredentials)].
Proof.
  intros ops. rewrite (account_service_refines_map toy_address toy_generate1 toy_compare1 1000 toy_exact toy_generate1_ok ops []).
  - vm_compute. reflexivity.
  - repeat constructor; by eexists.
Defined.
