(* ===== verification/Transactions.v ===== *)
(** * Signups at the same time: the transaction of [Signup] in
    [src/internal/auth/service.go], interleaved

    [Auth.Signup] runs its transaction in one go.  Here any number of signups
    are in flight together, each a [phase] between two round trips or two index
    insertions, in the isolation PostgreSQL gives by default (READ COMMITTED).
    A transaction's rows are its own until it commits.  A unique index entry of
    a transaction in flight makes another insertion of the same key wait until
    the first one ends; a committed one makes it fail.  The indexes of [users]
    are entered in the order of their declaration in 0001_init.up.sql.  Serial
    numbers are drawn at once and never given back.  [now()] is the time the
    transaction began.  Every other call of the service runs in between, on
    what is committed.  A connection may fail at every step. *)

From S2P Require Import Prelude Utf8 Encoding Errors StreamKey Store StoreInv Auth AuthThms AccountSpec.
Local Open Scope Z_scope.

(** The arguments of a call of [Signup], with its random bytes. *)
Record candidate := { cd_name : string; cd_email : string; cd_password : string; cd_salt : list Z; cd_buf : option (list Z) }.

Inductive phase :=
| Called
| Prepared (hash : string) (key : string * string)           (* arguments accepted *)
| Begun (hash : string) (key : string * string) (now : Z)    (* transaction open *)
| UserRow (u : User) (key : string * string)                 (* serial drawn, no entry yet *)
| NameEntered (u : User) (key : string * string)             (* entry in users_username_key *)
| UserCreated (u : User) (key : string * string)             (* entry in users_email_key *)
| ChannelRow (u : User) (key : string * string) (c : Channel)
| ChannelCreated (u : User) (key : string * string) (c : Channel)
| Returned (r : res err (User * string)).

Record flight := { candidate_of : candidate; phase_of : phase }.
Record sys := { base : tables; flights : gmap nat flight }.

(** What an open transaction has to itself: serial numbers, and index entries. *)
Inductive claim := UserSerial (i : Z) | ChannelSerial (i : Z) | Username (n : string) | Email (e : string) | Owner (i : Z) | ChannelName (n : string).
#[export] Instance claim_eq_dec : EqDecision claim.
Proof. solve_decision. Defined.

Definition claims (p : phase) : list claim :=
  match p with
  | Called | Prepared _ _ | Begun _ _ _ | Returned _ => []
  | UserRow u _ => [UserSerial (u_ID u)]
  | NameEntered u _ => [UserSerial (u_ID u); Username (u_Username u)]
  | UserCreated u _ => [UserSerial (u_ID u); Username (u_Username u); Email (u_Email u)]
  | ChannelRow u _ c => [UserSerial (u_ID u); Username (u_Username u); Email (u_Email u); ChannelSerial (c_ID c)]
  | ChannelCreated u _ c => [UserSerial (u_ID u); Username (u_Username u); Email (u_Email u); ChannelSerial (c_ID c);
                             Owner (c_UserID c); ChannelName (c_Name c)]
  end.
Definition held (x : claim) (k : nat) (s : sys) : bool :=
  existsb (fun kv : nat * flight => negb (Nat.eqb kv.1 k) && bool_decide (x ∈ claims (phase_of kv.2))) (map_to_list (flights s)).

Section Signups.
Context (parse_address : string -> bool).
Context (bcrypt_generate : list Z -> string -> option string).
Context (bcrypt_compare : string -> string -> bool).
Context (sessionTTL : Z).

(** What comes before the transaction: no shared state. *)
Definition prepare (cd : candidate) : res err (string * (string * string)) :=
  _ ← validateUsername (cd_name cd);
  _ ← validateEmail parse_address (cd_email cd);
  _ ← validatePassword (cd_password cd);
  hash ← wrap "hash password" (hashPassword bcrypt_generate (cd_salt cd) (cd_password cd));
  key ← wrap "generate stream key" (GenerateKey (cd_buf cd));
  Ok (hash, key).

(** The rows of a transaction become everybody's. *)
Definition commit (u : User) (c : Channel) (d : tables) : tables :=
  set_channels (<[c_ID c := c]> (channels d)) (next_channel d) (set_users (<[u_ID u := u]> (users d)) (next_user d) d).

(** The next step of a signup: the tables and the phase after it; [None] when
    it has returned or has to wait. *)
Definition advance (s : sys) (k : nat) (cd : candidate) (p : phase) (f : fault) (t : Z) : option (tables * phase) :=
  let d := base s in
  let failed e := Some (d, Returned (Err e)) in
  let served (prefix : err -> err) next := match f with Fine => next | _ => failed (prefix EConn) end in
  match p with
  | Called => match prepare cd with Ok (hash, key) => Some (d, Prepared hash key) | Err e => failed e end
  | Prepared hash key => served (EWrap "begin tx") (Some (d, Begun hash key (t / 1000)))
  | Begun hash key now => served mapUniqueViolation
      (if texts_ok [cd_name cd; cd_email cd; hash]
       then Some (set_users (users d) (next_user d + 1) d, UserRow (user_row d (cd_name cd) (cd_email cd) hash now) key)
       else failed (mapUniqueViolation encoding_error))
  | UserRow u key => served mapUniqueViolation
      (if is_some (select (fun v => String.eqb (u_Username v) (u_Username u)) (users d))
       then failed (mapUniqueViolation (EPg "23505" "users_username_key"))
       else if held (Username (u_Username u)) k s then None
       else Some (d, NameEntered u key))
  | NameEntered u key => served mapUniqueViolation
      (if is_some (select (fun v => String.eqb (u_Email v) (u_Email u)) (users d))
       then failed (mapUniqueViolation (EPg "23505" "users_email_key"))
       else if held (Email (u_Email u)) k s then None
       else Some (d, UserCreated u key))
  | UserCreated u key => served (EWrap "create channel")
      (if texts_ok [cd_name cd; key.2]
       then Some (set_channels (channels d) (next_channel d + 1) d,
                  ChannelRow u key (channel_row d (u_ID u) (cd_name cd) key.2 (u_CreatedAt u)))
       else failed (EWrap "create channel" encoding_error))
  | ChannelRow u key c => served (EWrap "create channel")
      (if is_some (select (fun v => c_UserID v =? c_UserID c) (channels d))
       then failed (EWrap "create channel" (EPg "23505" "channels_user_id_key"))
       else if held (Owner (c_UserID c)) k s then None
       else if is_some (select (fun v => String.eqb (c_Name v) (c_Name c)) (channels d))
       then failed (EWrap "create channel" (EPg "23505" "channels_name_key"))
       else if held (ChannelName (c_Name c)) k s then None
       else if is_some (users d !! c_UserID c) || (c_UserID c =? u_ID u)   (* its own row counts *)
       then Some (d, ChannelCreated u key c)
       else failed (EWrap "create channel" (EPg "23503" "channels_user_id_fkey")))
  | ChannelCreated u key c =>
      match f with
      | Fine => Some (commit u c d, Returned (Ok (u, key.1)))
      | Lost => failed (EWrap "commit" EConn)
      | ReplyLost => Some (commit u c d, Returned (Err (EWrap "commit" EConn)))
      end
  | Returned _ => None
  end.

(** A call arrives, one goes on, or another call of the service is made. *)
Inductive act :=
| Arrive (k : nat) (cd : candidate)
| Go (k : nat) (f : fault) (t : Z)
| Other (op : account_op) (fs : list fault) (t : Z).

Definition reply : Type := account_op * option (res err string).
Definition as_op (cd : candidate) : account_op := OSignup (cd_name cd) (cd_email cd) (cd_password cd) (cd_salt cd) (cd_buf cd).
Definition answered (cd : candidate) (p : phase) : list reply :=
  match p with Returned r => [(as_op cd, Some (answer_of fst r))] | _ => [] end.

Definition step (s : sys) (a : act) : sys * list reply :=
  match a with
  | Arrive k cd =>
      match flights s !! k with
      | Some _ => (s, [])
      | None => ({| base := base s; flights := <[k := {| candidate_of := cd; phase_of := Called |}]> (flights s) |}, [])
      end
  | Go k f t =>
      match flights s !! k with
      | Some fl =>
          match advance s k (candidate_of fl) (phase_of fl) f t with
          | Some (d, p) => ({| base := d; flights := <[k := {| candidate_of := candidate_of fl; phase_of := p |}]> (flights s) |},
                            answered (candidate_of fl) p)
          | None => (s, [])
          end
      | None => (s, [])
      end
  | Other op fs t =>
      match op with
      | OSignup _ _ _ _ _ => (s, [])
      | _ => let st := {| db := base s; clock := t; faults := fs |} in
             ({| base := db (account_step parse_address bcrypt_generate bcrypt_compare sessionTTL op st); flights := flights s |},
              [(op, observe parse_address bcrypt_generate bcrypt_compare op st)])
      end
  end.

Fixpoint run (s : sys) (acts : list act) : sys * list reply :=
  match acts with
  | [] => (s, [])
  | a :: acts => let '(s, es) := step s a in let '(s, es') := run s acts in (s, es ++ es')
  end.
Definition idle (d : tables) : sys := {| base := d; flights := ∅ |}.
End Signups.
