(* ===== verification/TransactionThms.v ===== *)
(** * Signups at the same time: what holds of every interleaving *)

From S2P Require Import Prelude Utf8 Encoding Errors StreamKey Store StoreInv Auth AuthThms AccountSpec Transactions.
Local Open Scope Z_scope.

(** ** The invariant *)

(** Nothing committed uses it. *)
Definition free (d : tables) (x : claim) : Prop :=
  match x with
  | UserSerial i => i < next_user d /\ users d !! i = None
  | ChannelSerial i => i < next_channel d /\ channels d !! i = None
  | Username n => unused_username d n
  | Email e => unused_email d e
  | Owner i => forall j c, channels d !! j = Some c -> c_UserID c <> i
  | ChannelName n => forall j c, channels d !! j = Some c -> c_Name c <> n
  end.

Definition unheld (x : claim) (k : nat) (s : sys) : Prop :=
  forall k' fl, flights s !! k' = Some fl -> k' <> k -> x ∉ claims (phase_of fl).

Lemma held_false x k s : held x k s = false <-> unheld x k s.
Proof.
  unfold held, unheld. rewrite <- not_true_iff_false, existsb_exists. split.
  - intros H k' fl Hfl Hne Hin. apply H. exists (k', fl). split; [by apply list_elem_of_In, elem_of_map_to_list|].
    simpl. rewrite (proj2 (Nat.eqb_neq k' k)) by done. by apply bool_decide_eq_true.
  - intros H ([k' fl] & Hin%list_elem_of_In%elem_of_map_to_list & [Hne%negb_true_iff%Nat.eqb_neq Hx%bool_decide_eq_true]%andb_true_iff).
    by apply (H k' fl).
Qed.

Section Invariant.
Context (parse_address : string -> bool).
Context (bcrypt_generate : list Z -> string -> option string).
Context (bcrypt_compare : string -> string -> bool).
Context (sessionTTL : Z).
Abbreviation prepare := (prepare parse_address bcrypt_generate).
Abbreviation step := (step parse_address bcrypt_generate bcrypt_compare sessionTTL).
Abbreviation run := (run parse_address bcrypt_generate bcrypt_compare sessionTTL).
Abbreviation advance := (advance parse_address bcrypt_generate).

(** Every way a signup can fail. *)
Definition explained (cd : candidate) (e : err) : Prop :=
  prepare cd = Err e \/
  (exists x, prepare cd = Ok x) /\
  (e = ErrUsernameTaken \/ e = ErrEmailTaken \/ e = EWrap "create user" encoding_error \/
   exists what, what ∈ ["begin tx"; "create user"; "create channel"; "commit"]%string /\ e = EWrap what EConn).

Definition row_ok (cd : candidate) (u : User) (key : string * string) : Prop :=
  prepare cd = Ok (u_PasswordHash u, key) /\ u_Username u = cd_name cd /\ u_Email u = cd_email cd /\ pg_text (cd_email cd) = true.
Definition channel_ok (u : User) (key : string * string) (c : Channel) : Prop :=
  c_UserID c = u_ID u /\ c_Name c = u_Username u /\ c_StreamKeyHash c = key.2.
Definition phase_ok (cd : candidate) (p : phase) : Prop :=
  match p with
  | Called => True
  | Prepared hash key | Begun hash key _ => prepare cd = Ok (hash, key)
  | UserRow u key | NameEntered u key | UserCreated u key => row_ok cd u key
  | ChannelRow u key c | ChannelCreated u key c => row_ok cd u key /\ channel_ok u key c
  | Returned (Ok (u, plain)) => exists key, row_ok cd u key /\ plain = key.1
  | Returned (Err e) => explained cd e
  end.

(** What a result says is so. *)
Definition outcome (d : tables) (cd : candidate) (p : phase) : Prop :=
  match p with
  | Returned (Ok (u, _)) => users d !! u_ID u = Some u
  | Returned (Err e) => (e = ErrUsernameTaken -> ~ unused_username d (cd_name cd)) /\ (e = ErrEmailTaken -> ~ unused_email d (cd_email cd))
  | _ => True
  end.

Record inv (s : sys) : Prop := {
  iv_base : accounts_ok (base s);
  iv_phase : forall k fl, flights s !! k = Some fl -> phase_ok (candidate_of fl) (phase_of fl);
  iv_free : forall k fl x, flights s !! k = Some fl -> x ∈ claims (phase_of fl) -> free (base s) x;
  iv_apart : forall k k' fl fl' x, flights s !! k = Some fl -> flights s !! k' = Some fl' ->
    x ∈ claims (phase_of fl) -> x ∈ claims (phase_of fl') -> k = k';
  iv_outcome : forall k fl, flights s !! k = Some fl -> outcome (base s) (candidate_of fl) (phase_of fl)
}.

Lemma outcome_grows d d' cd p : (forall i u, users d !! i = Some u -> users d' !! i = Some u) -> outcome d cd p -> outcome d' cd p.
Proof.
  intros Hg. destruct p as [| | | | | | | |[[u k]|e]]; try done; simpl; [apply Hg|]. intros [H1 H2].
  split; intros He Hun; [apply (H1 He) | apply (H2 He)]; intros i v Hv; by apply (Hun i), Hg.
Qed.

(** One signup's step, seen from the others. *)
Lemma inv_advance s k cd p d' p' : inv s -> flights s !! k = Some {| candidate_of := cd; phase_of := p |} ->
  accounts_ok d' -> (forall i u, users (base s) !! i = Some u -> users d' !! i = Some u) ->
  (forall x, x ∈ claims p' -> free d' x /\ (x ∈ claims p \/ unheld x k s)) ->
  (forall x, free (base s) x -> x ∉ claims p -> free d' x) ->
  phase_ok cd p' -> outcome d' cd p' ->
  inv {| base := d'; flights := <[k := {| candidate_of := cd; phase_of := p' |}]> (flights s) |}.
Proof.
  intros [I1 I2 I3 I4 I5] Hk Hok Hg Hmine Hothers Hph Hout.
  assert (Hno : forall k' fl' x, flights s !! k' = Some fl' -> k' <> k -> x ∈ claims p' -> x ∉ claims (phase_of fl')).
  { intros k' fl' x Hfl Hne Hx Hx'. destruct (Hmine x Hx) as [_ [Hp|Hun]]; [|by apply (Hun k' fl')].
    apply Hne. by apply (I4 k' k fl' {| candidate_of := cd; phase_of := p |} x). }
  split; cbn [base flights]; [done|..].
  - intros j fl. rewrite lookup_insert_Some. intros [[<- <-]|[_ Hj]]; [done | by apply (I2 j)].
  - intros j fl x. rewrite lookup_insert_Some. intros [[<- <-]|[Hne Hj]] Hx; [by apply Hmine|].
    apply Hothers; [by apply (I3 j fl)|]. intros Hp. apply Hne. by apply (I4 k j {| candidate_of := cd; phase_of := p |} fl x).
  - intros j j' fl fl' x. rewrite !lookup_insert_Some. intros [[<- <-]|[Hne Hj]] [[<- <-]|[Hne' Hj']] Hx Hx'; [done|..].
    + by destruct (Hno j' fl' x Hj').
    + by destruct (Hno j fl x Hj).
    + by apply (I4 j j' fl fl' x).
  - intros j fl. rewrite lookup_insert_Some. intros [[<- <-]|[_ Hj]]; [done|]. eapply outcome_grows; [exact Hg | by apply (I5 j)].
Qed.

(** Steps that leave the tables as they are. *)
Lemma inv_quiet s k cd p p' : inv s -> flights s !! k = Some {| candidate_of := cd; phase_of := p |} ->
  (forall x, x ∈ claims p' -> x ∈ claims p \/ (free (base s) x /\ unheld x k s)) ->
  phase_ok cd p' -> outcome (base s) cd p' ->
  inv {| base := base s; flights := <[k := {| candidate_of := cd; phase_of := p' |}]> (flights s) |}.
Proof.
  intros Hi Hk Hcl Hph Hout. apply (inv_advance s k cd p); try done; [by apply Hi|].
  intros x Hx. destruct (Hcl x Hx) as [H|[H1 H2]]; [|by auto]. split; [|by left].
  by apply (iv_free s Hi k {| candidate_of := cd; phase_of := p |}).
Qed.

Lemma inv_no_claims s k cd p p' : inv s -> flights s !! k = Some {| candidate_of := cd; phase_of := p |} ->
  claims p' = [] -> phase_ok cd p' -> outcome (base s) cd p' ->
  inv {| base := base s; flights := <[k := {| candidate_of := cd; phase_of := p' |}]> (flights s) |}.
Proof. intros Hi Hk Hc. apply (inv_quiet s k cd p); try done. rewrite Hc. intros x Hx. by apply not_elem_of_nil in Hx. Qed.

(** A failure. *)
Lemma inv_failed s k cd p e : inv s -> flights s !! k = Some {| candidate_of := cd; phase_of := p |} ->
  explained cd e -> outcome (base s) cd (Returned (Err e)) ->
  inv {| base := base s; flights := <[k := {| candidate_of := cd; phase_of := Returned (Err e) |}]> (flights s) |}.
Proof. intros Hi Hk He Ho. by apply (inv_no_claims s k cd p). Qed.

Definition conn_prefix (what : string) : Prop := what ∈ ["begin tx"; "create user"; "create channel"; "commit"]%string.
Lemma inv_lost s k cd p what x : inv s -> flights s !! k = Some {| candidate_of := cd; phase_of := p |} ->
  prepare cd = Ok x -> conn_prefix what ->
  inv {| base := base s; flights := <[k := {| candidate_of := cd; phase_of := Returned (Err (EWrap what EConn)) |}]> (flights s) |}.
Proof.
  intros Hi Hk Hx Hw. apply (inv_failed s k cd p); [done | done | | by split].
  right. split; [by exists x|]. do 3 right. by exists what.
Qed.

(** A serial number is drawn. *)
Lemma inv_user_serial s k cd p u key : inv s -> flights s !! k = Some {| candidate_of := cd; phase_of := p |} -> claims p = [] ->
  row_ok cd u key -> u_ID u = next_user (base s) ->
  inv {| base := set_users (users (base s)) (next_user (base s) + 1) (base s);
         flights := <[k := {| candidate_of := cd; phase_of := UserRow u key |}]> (flights s) |}.
Proof.
  intros Hi Hk Hp Hrow Hid. pose proof (iv_base s Hi) as [Hok Hall].
  apply (inv_advance s k cd p); try done.
  - split; [|done]. eapply same_rows_ok; [apply use_user_serial | done].
  - intros x Hx%list_elem_of_singleton. subst x. split.
    + pose proof (fresh_user (base s) u (ok_schema _ Hok) Hid) as Hfr. simpl. split; [lia | done].
    + right. intros k' fl Hfl Hne Hin. apply (iv_free s Hi k' fl _ Hfl) in Hin as [Hlt _]. lia.
  - intros x Hf _. destruct x; try done. simpl in *. split; [lia | apply Hf].
Qed.
Lemma inv_channel_serial s k cd u key c : inv s -> flights s !! k = Some {| candidate_of := cd; phase_of := UserCreated u key |} ->
  row_ok cd u key -> channel_ok u key c -> c_ID c = next_channel (base s) ->
  inv {| base := set_channels (channels (base s)) (next_channel (base s) + 1) (base s);
         flights := <[k := {| candidate_of := cd; phase_of := ChannelRow u key c |}]> (flights s) |}.
Proof.
  intros Hi Hk Hrow Hch Hid. pose proof (iv_base s Hi) as [Hok Hall].
  assert (Hmono : forall x, free (base s) x -> free (set_channels (channels (base s)) (next_channel (base s) + 1) (base s)) x).
  { intros x Hf. destruct x; try done. simpl in *. split; [lia | apply Hf]. }
  apply (inv_advance s k cd (UserCreated u key)); try done.
  - split; [|done]. eapply same_rows_ok; [apply use_channel_serial | done].
  - intros x Hx. change (claims (ChannelRow u key c)) with (claims (UserCreated u key) ++ [ChannelSerial (c_ID c)]) in Hx.
    apply elem_of_app in Hx as [Hx|Hx%list_elem_of_singleton].
    + split; [|by left]. apply Hmono. by apply (iv_free s Hi k _ x Hk).
    + subst x. split.
      * pose proof (fresh_channel (base s) c (ok_schema _ Hok) Hid) as Hfr. simpl. split; [lia | done].
      * right. intros k' fl Hfl Hne Hin. apply (iv_free s Hi k' fl _ Hfl) in Hin as [Hlt _]. lia.
  - intros x Hf _. by apply Hmono.
Qed.

(** The commit. *)
Definition signed (u : User) (c : Channel) (s : sys) : Prop :=
  free (base s) (UserSerial (u_ID u)) /\ free (base s) (Username (u_Username u)) /\ free (base s) (Email (u_Email u)) /\
  free (base s) (ChannelSerial (c_ID c)) /\ free (base s) (Owner (c_UserID c)) /\ free (base s) (ChannelName (c_Name c)).

Lemma commit_ok u c s : accounts_ok (base s) -> signed u c s -> c_UserID c = u_ID u -> c_Name c = u_Username u ->
  accounts_ok (commit u c (base s)).
Proof.
  intros [[Hd Hn] He] ([U1 U2] & U3 & U4 & [C1 C2] & C3 & C4) Ho Hname. cbn [free] in *. unfold unused_username, unused_email in *.
  destruct Hd as [K_users K_channels K_sessions K_streams K_username K_email K_owner K_name K_fk].
  split; [split; [split|]|]; unfold named_like_owner, everyone_has_channel; simpl.
  - intros id v. rewrite lookup_insert_Some. intros [[<- <-]|[_ Hv]]; [done | by apply K_users].
  - intros id v. rewrite lookup_insert_Some. intros [[<- <-]|[_ Hv]]; [done | by apply K_channels].
  - intros t x Hx. destruct (K_sessions t x Hx) as [? ?]. split; [done|]. rewrite lookup_insert_is_Some.
    destruct (decide (u_ID u = s_UserID x)); auto.
  - intros id x Hx. destruct (K_streams id x Hx) as (? & ? & ?). split_and!; [done..|]. rewrite lookup_insert_is_Some.
    destruct (decide (c_ID c = ss_ChannelID x)); auto.
  - intros i j a b. rewrite !lookup_insert_Some. intros [[<- <-]|[? Ha]] [[<- <-]|[? Hb]] E; try done.
    + by destruct (U3 j b Hb). + by destruct (U3 i a Ha). + by eapply K_username.
  - intros i j a b. rewrite !lookup_insert_Some. intros [[<- <-]|[? Ha]] [[<- <-]|[? Hb]] E; try done.
    + by destruct (U4 j b Hb). + by destruct (U4 i a Ha). + by eapply K_email.
  - intros i j a b. rewrite !lookup_insert_Some. intros [[<- <-]|[? Ha]] [[<- <-]|[? Hb]] E; try done.
    + by destruct (C3 j b Hb). + by destruct (C3 i a Ha). + by eapply K_owner.
  - intros i j a b. rewrite !lookup_insert_Some. intros [[<- <-]|[? Ha]] [[<- <-]|[? Hb]] E; try done.
    + by destruct (C4 j b Hb). + by destruct (C4 i a Ha). + by eapply K_name.
  - intros i a. rewrite lookup_insert_Some, lookup_insert_is_Some. intros [[<- <-]|[_ Ha]]; [by left|].
    destruct (decide (u_ID u = c_UserID a)); [by left|]. right. split; [done | by eapply K_fk].
  - intros i a v. rewrite !lookup_insert_Some. intros [[<- <-]|[_ Ha]] [[E <-]|[Hne Hv]]; [done | congruence | |by apply (Hn i)].
    destruct (K_fk i a Ha) as [w Hw]. congruence.
  - intros id v. rewrite lookup_insert_Some. intros [[<- <-]|[_ Hv]]; [exists (c_ID c), c; by rewrite lookup_insert_eq|].
    destruct (He id v Hv) as (i & x & Hx & Hxo). exists i, x. rewrite lookup_insert_ne; [done|]. intros <-. congruence.
Qed.

Lemma inv_commit s k cd u key c r : inv s -> flights s !! k = Some {| candidate_of := cd; phase_of := ChannelCreated u key c |} ->
  phase_ok cd (Returned r) -> (forall e, r = Err e -> e <> ErrUsernameTaken /\ e <> ErrEmailTaken) ->
  (forall v plain, r = Ok (v, plain) -> v = u) ->
  inv {| base := commit u c (base s); flights := <[k := {| candidate_of := cd; phase_of := Returned r |}]> (flights s) |}.
Proof.
  intros Hi Hk Hr Herr Hu. pose proof (iv_phase s Hi k _ Hk) as [(_ & Hn & He & _) (Ho & Hcn & _)]. simpl in Hn, He.
  assert (Hs : signed u c s).
  { split_and!; (eapply (iv_free s Hi k); [exact Hk|]); simpl; set_solver. }
  pose proof Hs as ([U1 U2] & U3 & U4 & [C1 C2] & C3 & C4).
  assert (Hg : forall i v, users (base s) !! i = Some v -> users (commit u c (base s)) !! i = Some v).
  { intros i v Hv. simpl. rewrite lookup_insert_ne; [done|]. intros <-. congruence. }
  apply (inv_advance s k cd (ChannelCreated u key c)); try done.
  - apply commit_ok; [apply Hi | done..].
  - intros x Hx. by apply not_elem_of_nil in Hx.
  - intros x Hf Hx. cbn [claims] in Hx. destruct x; simpl in *.
    + split; [apply Hf|]. rewrite lookup_insert_ne; [apply Hf|]. set_solver.
    + split; [apply Hf|]. rewrite lookup_insert_ne; [apply Hf|]. set_solver.
    + intros i v. simpl. rewrite lookup_insert_Some. intros [[<- <-]|[_ Hv]]; [set_solver | by apply (Hf i)].
    + intros i v. simpl. rewrite lookup_insert_Some. intros [[<- <-]|[_ Hv]]; [set_solver | by apply (Hf i)].
    + intros j v. rewrite lookup_insert_Some. intros [[<- <-]|[_ Hv]]; [set_solver | by apply (Hf j)].
    + intros j v. rewrite lookup_insert_Some. intros [[<- <-]|[_ Hv]]; [set_solver | by apply (Hf j)].
  - destruct r as [[v plain]|e]; simpl; [by rewrite (Hu v plain eq_refl), lookup_insert_eq|].
    destruct (Herr e eq_refl). by split.
Qed.

Lemma is_some_select {K V} `{Countable K} (p : V -> bool) (m : gmap K V) :
  is_some (select p m) = false <-> forall k v, m !! k = Some v -> p v = false.
Proof. rewrite <- select_None. by destruct (select p m). Qed.
Lemma username_select d n : is_some (select (fun v => String.eqb (u_Username v) n) (users d)) = false <-> unused_username d n.
Proof. rewrite is_some_select. unfold unused_username. by setoid_rewrite String.eqb_neq. Qed.
Lemma email_select d e : is_some (select (fun v => String.eqb (u_Email v) e) (users d)) = false <-> unused_email d e.
Proof. rewrite is_some_select. unfold unused_email. by setoid_rewrite String.eqb_neq. Qed.

Lemma prepare_name cd x : prepare cd = Ok x -> pg_text (cd_name cd) = true /\ pg_text x.2.2 = true.
Proof.
  unfold Transactions.prepare. intros H. apply res_bind_inv in H as ([] & H1 & H). apply res_bind_inv in H as (_ & _ & H).
  apply res_bind_inv in H as (_ & _ & H). apply res_bind_inv in H as (h & _ & H). apply res_bind_inv in H as (key & Hk & [= <-]). split.
  - unfold validateUsername in H1. destruct (usernameRE (cd_name cd)) eqn:E; [by apply username_text | done].
  - unfold GenerateKey, wrap in Hk. destruct (cd_buf cd) as [buf|]; [|done]. injection Hk as <-. apply HashKey_pg_text.
Qed.

(** The channel of a signup in flight meets no obstacle: nobody else's channel
    has its owner or its name, committed or not. *)
Lemma channel_clear s k cd u key c : inv s -> flights s !! k = Some {| candidate_of := cd; phase_of := ChannelRow u key c |} ->
  free (base s) (Owner (c_UserID c)) /\ free (base s) (ChannelName (c_Name c)) /\
  unheld (Owner (c_UserID c)) k s /\ unheld (ChannelName (c_Name c)) k s.
Proof.
  intros Hi Hk. pose proof (iv_base s Hi) as [[Hd Hn] _]. pose proof (iv_phase s Hi k _ Hk) as [Hrow (Ho & Hcn & _)].
  assert (HU : free (base s) (UserSerial (u_ID u))) by (eapply (iv_free s Hi k); [exact Hk | simpl; set_solver]).
  assert (HN : free (base s) (Username (u_Username u))) by (eapply (iv_free s Hi k); [exact Hk | simpl; set_solver]).
  assert (Hother : forall k' cd' u' key' c', flights s !! k' = Some {| candidate_of := cd'; phase_of := ChannelCreated u' key' c' |} ->
    k' <> k -> c_UserID c' <> c_UserID c /\ c_Name c' <> c_Name c).
  { intros k' cd' u' key' c' Hk' Hne. pose proof (iv_phase s Hi k' _ Hk') as [_ (Ho' & Hcn' & _)].
    split; intros E; apply Hne.
    - apply (iv_apart s Hi k' k _ _ (UserSerial (u_ID u)) Hk' Hk); simpl; [|set_solver]. replace (u_ID u) with (u_ID u') by congruence. set_solver.
    - apply (iv_apart s Hi k' k _ _ (Username (u_Username u)) Hk' Hk); simpl; [|set_solver].
      replace (u_Username u) with (u_Username u') by congruence. set_solver. }
  split; [|split; [|split]].
  - intros j v Hv E. destruct (k_fk _ Hd j v Hv) as [w Hw]. destruct HU as [_ HU]. rewrite E, Ho in Hw. congruence.
  - intros j v Hv E. destruct (k_fk _ Hd j v Hv) as [w Hw]. apply (HN _ w Hw). rewrite <- (Hn j v w Hv Hw). congruence.
  - intros k' [cd' p'] Hk' Hne Hin. destruct p' as [| | | | | |u' key' c'|u' key' c'|]; simpl in Hin; set_solver.
  - intros k' [cd' p'] Hk' Hne Hin. destruct p' as [| | | | | |u' key' c'|u' key' c'|]; simpl in Hin; set_solver.
Qed.

(** So what is left of its step is the entry of its two indexes. *)
Lemma channel_step s k cd u key c f t : inv s -> flights s !! k = Some {| candidate_of := cd; phase_of := ChannelRow u key c |} ->
  advance s k cd (ChannelRow u key c) f t =
  Some (base s, match f with Fine => ChannelCreated u key c | _ => Returned (Err (EWrap "create channel" EConn)) end).
Proof.
  intros Hi Hk. destruct (channel_clear s k cd u key c Hi Hk) as (H1 & H2 & H3%held_false & H4%held_false).
  pose proof (iv_phase s Hi k _ Hk) as [_ (Ho & _)]. unfold Transactions.advance. destruct f; try done.
  assert (E1 : is_some (select (fun v => c_UserID v =? c_UserID c) (channels (base s))) = false).
  { apply is_some_select. intros j v Hv. apply Z.eqb_neq. by apply (H1 j). }
  assert (E2 : is_some (select (fun v => String.eqb (c_Name v) (c_Name c)) (channels (base s))) = false).
  { apply is_some_select. intros j v Hv. apply String.eqb_neq. by apply (H2 j). }
  rewrite E1, E2, H3, H4, (proj2 (Z.eqb_eq (c_UserID c) (u_ID u)) Ho). by rewrite orb_true_r.
Qed.

(** Preparing a signup answers no error of the unique indexes. *)
Lemma prepare_error cd e : prepare cd = Err e -> e <> ErrUsernameTaken /\ e <> ErrEmailTaken.
Proof.
  intros E. split; intros ->; revert E; unfold Transactions.prepare, validateEmail, hashPassword, GenerateKey; clear.
  all: unfold validateUsername, validatePassword; destruct (negb _); [done|]; destruct (existsb _ _); [done|];
       cbn [mbind res_bind]; destruct (parse_address _); [|done]; destruct (_ || _); [done|]; destruct (bcrypt_generate _ _); [|done]; by destruct (cd_buf cd).
Qed.

Ltac lost H := injection H as <- <-; eapply inv_lost; [done..|unfold conn_prefix; set_solver].

Lemma step_inv_advance s k cd p f t d' p' : inv s -> flights s !! k = Some {| candidate_of := cd; phase_of := p |} ->
  advance s k cd p f t = Some (d', p') ->
  inv {| base := d'; flights := <[k := {| candidate_of := cd; phase_of := p' |}]> (flights s) |}.
Proof.
  intros Hi Hk H. pose proof (iv_phase s Hi k _ Hk) as Hph.
  destruct p as [|h key|h key now|u key|u key|u key|u key c|u key c|r]; cbn [candidate_of phase_of] in Hph; cbn [phase_ok] in Hph.
  - simpl in H. destruct (prepare cd) as [[h key]|e] eqn:E; injection H as <- <-.
    + by apply (inv_no_claims s k cd Called).
    + apply (inv_failed s k cd Called); [done | done | by left|]. simpl.
      destruct (prepare_error _ _ E). by split.
  - simpl in H. destruct f; [injection H as <- <-|lost H..]. by apply (inv_no_claims s k cd (Prepared h key)).
  - destruct (prepare_name cd _ Hph) as [Hname Hkey]. simpl in H. unfold texts_ok in H. cbn [forallb] in H. rewrite Hname in H. cbn [andb] in H.
    destruct f; [|lost H..].
    destruct (pg_text (cd_email cd)) eqn:Te; [destruct (pg_text h) eqn:Th|]; cbn [andb] in H; injection H as <- <-.
    + by apply (inv_user_serial s k cd (Begun h key now)).
    + apply (inv_failed s k cd (Begun h key now)); [done | done | | by split]. right. split; [by eexists|]. by do 2 right; left.
    + apply (inv_failed s k cd (Begun h key now)); [done | done | | by split]. right. split; [by eexists|]. by do 2 right; left.
  - destruct Hph as (Hp & Hn & He & Te). simpl in H.
    destruct f; [|lost H..].
    destruct (is_some _) eqn:Es; [injection H as <- <-|destruct (held _ _ _) eqn:Eh; [done|injection H as <- <-]].
    + apply (inv_failed s k cd (UserRow u key)); [done | done | right; split; [by eexists | by left]|]. simpl. split; [|done].
      intros _ Hun. rewrite <- Hn in Hun. apply username_select in Hun. congruence.
    + apply (inv_quiet s k cd (UserRow u key)); [done | done | | done | done]. intros x [->|Hx]%elem_of_cons; [left; simpl; set_solver|].
      apply list_elem_of_singleton in Hx as ->. right. split; [by apply username_select | by apply held_false].
  - destruct Hph as (Hp & Hn & He & Te). simpl in H.
    destruct f; [|lost H..].
    destruct (is_some _) eqn:Es; [injection H as <- <-|destruct (held _ _ _) eqn:Eh; [done|injection H as <- <-]].
    + apply (inv_failed s k cd (NameEntered u key)); [done | done | right; split; [by eexists | by right; left]|]. simpl. split; [done|].
      intros _ Hun. rewrite <- He in Hun. apply email_select in Hun. congruence.
    + apply (inv_quiet s k cd (NameEntered u key)); [done | done | | done | done]. cbn [claims]. intros x Hx.
      rewrite !elem_of_cons in Hx. destruct Hx as [->|[->|[->|Hx]]]; [left; simpl; set_solver..| |by apply not_elem_of_nil in Hx].
      right. split; [by apply email_select | by apply held_false].
  - pose proof Hph as (Hp & Hn & He & Te). destruct (prepare_name cd _ Hp) as [Hname Hkey]. simpl in H, Hkey. unfold texts_ok in H. cbn [forallb] in H. rewrite Hname, Hkey in H.
    cbn [andb] in H. destruct f; [injection H as <- <-|lost H..].
    by apply inv_channel_serial.
  - rewrite (channel_step s k cd u key c f t Hi Hk) in H. destruct Hph as [(Hp & Hrow) Hch].
    destruct f; [injection H as <- <-|lost H..].
    apply (inv_quiet s k cd (ChannelRow u key c)); [done | done | | done | done]. cbn [claims]. intros x Hx.
    destruct (channel_clear s k cd u key c Hi Hk) as (H1 & H2 & H3 & H4).
    rewrite !elem_of_cons in Hx. destruct Hx as [->|[->|[->|[->|[->|[->|Hx]]]]]]; [left; simpl; set_solver..|by right|by right|by apply not_elem_of_nil in Hx].
  - pose proof Hph as [(Hp & Hrow) Hch]. simpl in H. destruct f; [injection H as <- <-|lost H|injection H as <- <-].
    + apply (inv_commit s k cd u key c); [done | done | by exists key | done | by intros v plain [= <- _]].
    + apply (inv_commit s k cd u key c); [done | done | | by intros e [= <-] | done]. right. split; [by eexists|]. do 3 right.
      exists "commit"%string. split; [set_solver | done].
  - done.
Qed.

Lemma same_accounts_free d d' x : same_accounts d d' -> free d x -> free d' x.
Proof.
  intros (Hu & Hc & Hn & Hn') Hf. destruct x; simpl in *; unfold unused_username, unused_email in *; rewrite ?Hu, ?Hn, ?Hn'; try done.
  - split; [apply Hf|]. destruct Hf as [_ Hf]. specialize (Hc i). rewrite Hf in Hc. by apply fmap_None in Hc.
  - intros j c Hj. specialize (Hc j). rewrite Hj in Hc. symmetry in Hc. apply fmap_Some in Hc as (c0 & H0 & [= E _]). rewrite E. by apply (Hf j).
  - intros j c Hj. specialize (Hc j). rewrite Hj in Hc. symmetry in Hc. apply fmap_Some in Hc as (c0 & H0 & [= _ E]). rewrite E. by apply (Hf j).
Qed.

Lemma step_keeps s a : inv s -> inv (step s a).1.
Proof.
  intros Hi. destruct a as [k cd|k f t|op fs t].
  - cbn [Transactions.step]. destruct (flights s !! k) as [fl|] eqn:Hk; [done|]. destruct Hi as [I1 I2 I3 I4 I5].
    split; cbn [fst base flights]; [done|..].
    + intros j fl. rewrite lookup_insert_Some. intros [[<- <-]|[_ Hj]]; [done | by apply (I2 j)].
    + intros j fl x. rewrite lookup_insert_Some. intros [[<- <-]|[_ Hj]] Hx; [by apply not_elem_of_nil in Hx | by apply (I3 j fl)].
    + intros j j' fl fl' x. rewrite !lookup_insert_Some. intros [[<- <-]|[_ Hj]] [[<- <-]|[_ Hj']] Hx Hx'; try by apply not_elem_of_nil in Hx.
      * by apply not_elem_of_nil in Hx'.
      * by apply (I4 j j' fl fl' x).
    + intros j fl. rewrite lookup_insert_Some. intros [[<- <-]|[_ Hj]]; [done | by apply (I5 j)].
  - cbn [Transactions.step]. destruct (flights s !! k) as [[cd p]|] eqn:Hk; [|done]. cbn [candidate_of phase_of].
    destruct (advance s k cd p f t) as [[d' p']|] eqn:E; [|done]. by eapply step_inv_advance.
  - assert (Hop : (forall n e p salt buf, op <> OSignup n e p salt buf) -> inv {| base := db (account_step parse_address bcrypt_generate bcrypt_compare sessionTTL op
      {| db := base s; clock := t; faults := fs |}); flights := flights s |}).
    { intros Hne. destruct Hi as [I1 I2 I3 I4 I5].
      destruct (account_step_same parse_address bcrypt_generate bcrypt_compare sessionTTL op {| db := base s; clock := t; faults := fs |} Hne (proj1 I1)) as [Hsame Hok].
      cbn [db] in Hsame. split; cbn [base flights]; [|done| |done|].
      - by apply (same_accounts_ok (base s)).
      - intros j fl x Hj Hx. by eapply same_accounts_free, I3.
      - intros j fl Hj. eapply outcome_grows; [|by apply (I5 j)]. intros i u Hu. by rewrite (proj1 Hsame). }
    destruct op; try (apply Hop; congruence). done.
Qed.

Lemma run_keeps acts s : inv s -> inv (run s acts).1.
Proof.
  revert s. induction acts as [|a acts IH]; intros s Hi; [done|]. cbn [Transactions.run].
  pose proof (step_keeps s a Hi) as Hs. destruct (step s a) as [s1 es]. specialize (IH s1 Hs). by destruct (run s1 acts) as [s2 es'].
Qed.
Lemma idle_inv d : accounts_ok d -> inv (idle d).
Proof. intros H. split; cbn [base flights idle]; try done; intros *; by rewrite lookup_empty. Qed.
Lemma no_accounts : accounts_ok no_tables.
Proof. split; [apply no_tables_ok|]. intros j v Hv. simpl in Hv. by rewrite lookup_empty in Hv. Qed.

(** ** Everyone gets an answer *)
Definition pending (p : phase) : bool := match p with Returned _ => false | _ => true end.
Definition rank (p : phase) : nat :=
  match p with
  | Called => 8 | Prepared _ _ => 7 | Begun _ _ _ => 6 | UserRow _ _ => 5 | NameEntered _ _ => 4 | UserCreated _ _ => 3
  | ChannelRow _ _ _ => 2 | ChannelCreated _ _ _ => 1 | Returned _ => 0
  end.
Definition remaining (m : gmap nat flight) : nat := map_fold (fun _ fl n => (rank (phase_of fl) + n)%nat) 0%nat m.

Lemma remaining_at m k fl : m !! k = Some fl -> remaining m = (rank (phase_of fl) + remaining (delete k m))%nat.
Proof.
  intros H. unfold remaining. rewrite (map_fold_delete_L _ _ k fl m); [done | intros; lia | done].
Qed.
Lemma remaining_insert m k fl fl' : m !! k = Some fl -> (rank (phase_of fl') < rank (phase_of fl))%nat -> (remaining (<[k := fl']> m) < remaining m)%nat.
Proof.
  intros H Hr. rewrite (remaining_at m k fl H), (remaining_at (<[k := fl']> m) k fl') by apply lookup_insert_eq. rewrite delete_insert_eq. lia.
Qed.

Lemma advance_rank s k cd p f t d' p' : advance s k cd p f t = Some (d', p') -> (rank p' < rank p)%nat.
Proof.
  unfold Transactions.advance. intros H. destruct p; try done; try (destruct f); repeat case_match; simplify_eq; simpl; lia.
Qed.

(** Who holds the e-mail does not wait, so who waits for it need not for long,
    nor who waits for a name. *)
Lemma held_by x k s : held x k s = true -> exists j fl, flights s !! j = Some fl /\ x ∈ claims (phase_of fl).
Proof.
  unfold held. intros ([j fl] & Hin & [_ Hx]%andb_true_iff)%existsb_exists. exists j, fl.
  split; [by apply elem_of_map_to_list, list_elem_of_In | by apply bool_decide_eq_true in Hx].
Qed.
Definition goes (s : sys) (k : nat) : Prop :=
  exists fl, flights s !! k = Some fl /\ is_Some (advance s k (candidate_of fl) (phase_of fl) Fine 0).

Lemma email_holder_goes s j cd p e : inv s -> flights s !! j = Some {| candidate_of := cd; phase_of := p |} -> Email e ∈ claims p -> goes s j.
Proof.
  intros Hi Hj Hin. exists {| candidate_of := cd; phase_of := p |}. split; [done|]. cbn [candidate_of phase_of].
  destruct p; simpl in Hin; try by set_solver.
  - unfold Transactions.advance. destruct (texts_ok _); by eexists.
  - rewrite (channel_step s j cd u key c Fine 0 Hi Hj). by eexists.
Qed.
Lemma name_holder_goes s j cd p n : inv s -> flights s !! j = Some {| candidate_of := cd; phase_of := p |} -> Username n ∈ claims p ->
  exists j', goes s j'.
Proof.
  intros Hi Hj Hin. destruct p; simpl in Hin; try by set_solver.
  - destruct (advance s j cd (NameEntered u key) Fine 0) as [x|] eqn:E; [exists j; by eexists; split; [exact Hj | by eexists]|].
    simpl in E. destruct (is_some _); [done|]. destruct (held _ _ _) eqn:Eh; [|done].
    apply held_by in Eh as (j' & [cd' p'] & Hj' & Hx). exists j'. by eapply email_holder_goes.
  - exists j. eapply (email_holder_goes s j cd _ (u_Email u)); [done | exact Hj | simpl; set_solver].
  - exists j. eapply (email_holder_goes s j cd _ (u_Email u)); [done | exact Hj | simpl; set_solver].
  - exists j. eapply (email_holder_goes s j cd _ (u_Email u)); [done | exact Hj | simpl; set_solver].
Qed.
Lemma someone_goes s k cd p : inv s -> flights s !! k = Some {| candidate_of := cd; phase_of := p |} -> pending p = true -> exists j, goes s j.
Proof.
  intros Hi Hk Hp. destruct (advance s k cd p Fine 0) as [x|] eqn:E; [exists k; by eexists; split; [exact Hk | by eexists]|].
  destruct p as [|h key|h key now|u key|u key|u key|u key c|u key c|r]; try done.
  - simpl in E. destruct (prepare cd) as [[]|]; done.
  - unfold Transactions.advance in E. by destruct (texts_ok _).
  - simpl in E. destruct (is_some _); [done|]. destruct (held _ _ _) eqn:Eh; [|done].
    apply held_by in Eh as (j & [cd' p'] & Hj & Hx). by eapply name_holder_goes.
  - simpl in E. destruct (is_some _); [done|]. destruct (held _ _ _) eqn:Eh; [|done].
    apply held_by in Eh as (j & [cd' p'] & Hj & Hx). exists j. by eapply email_holder_goes.
  - unfold Transactions.advance in E. by destruct (texts_ok _).
  - by rewrite (channel_step s k cd u key c Fine 0 Hi Hk) in E.
Qed.

Lemma signups_run_app a b s : run s (a ++ b) = let '(s1, e1) := run s a in let '(s2, e2) := run s1 b in (s2, e1 ++ e2).
Proof.
  revert s. induction a as [|x a IH]; intros s; cbn [app Transactions.run]; [by destruct (run s b)|].
  destruct (step s x) as [s1 e1]. rewrite IH. destruct (run s1 a) as [s2 e2]. destruct (run s2 b) as [s3 e3]. by rewrite app_assoc.
Qed.

Definition all_returned (s : sys) : Prop := forall k fl, flights s !! k = Some fl -> pending (phase_of fl) = false.
Definition going (a : act) : Prop := exists k, a = Go k Fine 0.

Lemma all_return_from s : inv s -> exists more, Forall going more /\ (length more <= remaining (flights s))%nat /\ all_returned (run s more).1.
Proof.
  remember (remaining (flights s)) as n eqn:En. revert s En. induction (lt_wf n) as [n _ IH]. intros s En Hi.
  destruct (decide (map_Forall (fun _ fl => pending (phase_of fl) = false) (flights s))) as [Hall|Hno].
  { exists []. split; [done|]. split; [simpl; lia | done]. }
  apply map_not_Forall in Hno as (k & [cd p] & Hk & Hp); [|apply _]. simpl in Hp. apply not_false_is_true in Hp.
  destruct (someone_goes s k cd p Hi Hk Hp) as (j & [cd' p'] & Hj & [[d2 p2] Ha]). cbn [candidate_of phase_of] in Ha.
  pose proof (advance_rank _ _ _ _ _ _ _ _ Ha) as Hr.
  assert (Hs : step s (Go j Fine 0) = ({| base := d2; flights := <[j := {| candidate_of := cd'; phase_of := p2 |}]> (flights s) |}, answered cd' p2)).
  { cbn [Transactions.step]. rewrite Hj. cbn [candidate_of phase_of]. by rewrite Ha. }
  pose proof (step_keeps s (Go j Fine 0) Hi) as Hi'. rewrite Hs in Hi'. cbn [fst] in Hi'.
  pose proof (remaining_insert (flights s) j _ {| candidate_of := cd'; phase_of := p2 |} Hj Hr) as Hlt.
  rewrite <- En in Hlt. destruct (IH _ Hlt {| base := d2; flights := <[j := {| candidate_of := cd'; phase_of := p2 |}]> (flights s) |} eq_refl Hi') as (more & Hg & Hlen & Hret).
  exists (Go j Fine 0 :: more). split; [constructor; [by eexists | done]|]. split; [simpl; lia|].
  cbn [Transactions.run]. rewrite Hs. by destruct (run _ more) as [s3 es].
Qed.

(** ** One after the other *)
Abbreviation spec_signup := (spec_signup parse_address).
Abbreviation spec_step := (spec_step parse_address).
Abbreviation spec_run := (spec_run parse_address).
Abbreviation represents := (represents bcrypt_compare).

Definition spec_after (ops : list account_op) (A : accounts) : accounts := foldl (fun A op => (spec_step op A).1) A ops.
Lemma spec_run_app a b A : spec_run (a ++ b) A = spec_run a A ++ spec_run b (spec_after a A).
Proof.
  revert A. induction a as [|op a IH]; intros A; [done|]. cbn [app AccountSpec.spec_run]. rewrite surjective_pairing at 1.
  destruct (spec_step op A) as [A1 r] eqn:E. rewrite IH. unfold spec_after. cbn [foldl]. by rewrite E.
Qed.
Lemma spec_after_app a b A : spec_after (a ++ b) A = spec_after b (spec_after a A).
Proof. apply foldl_app. Qed.

Hypothesis compare_exact : forall salt p h p', bcrypt_generate salt p = Some h ->
  bcrypt_compare h p' = bool_decide (bcrypt_key p' = bcrypt_key p).
Hypothesis generate_ok : forall salt p, (String.length p <= 72)%nat ->
  exists h, bcrypt_generate salt p = Some h /\ pg_text h = true.

(** The randomness is there and the connection holds. *)
Definition calm (a : act) : Prop :=
  match a with Arrive _ cd => is_Some (cd_buf cd) | Go _ f _ => f = Fine | Other op fs _ => supplied op /\ fs = [] end.
Definition drawn (s : sys) : Prop := forall k fl, flights s !! k = Some fl -> is_Some (cd_buf (candidate_of fl)).

Lemma short_password p : validatePassword p = Ok tt -> (String.length p <= 72)%nat.
Proof. unfold validatePassword. destruct (_ || _) eqn:E; [done|]. apply orb_false_iff in E as [_ E%Z.ltb_ge]. lia. Qed.

Lemma prepare_cases cd : is_Some (cd_buf cd) ->
  match prepare cd with
  | Err e => forall A, spec_signup (cd_name cd) (cd_email cd) (cd_password cd) A = (A, Err e)
  | Ok (h, key) => validateUsername (cd_name cd) = Ok tt /\ parse_address (cd_email cd) = true /\ validatePassword (cd_password cd) = Ok tt /\
      bcrypt_generate (cd_salt cd) (cd_password cd) = Some h /\ pg_text h = true
  end.
Proof.
  intros [buf Hb]. unfold Transactions.prepare, AccountSpec.spec_signup, validateEmail, hashPassword.
  destruct (validateUsername (cd_name cd)) as [[]|e]; [|done]. destruct (parse_address (cd_email cd)); [|done].
  destruct (validatePassword (cd_password cd)) as [[]|e] eqn:V; [|done]. destruct (generate_ok (cd_salt cd) _ (short_password _ V)) as (h & Hh & Ht).
  rewrite Hh, Hb. simpl. done.
Qed.

(** The answer of the map to a candidate whose fields are valid. *)
Lemma spec_accepted cd h key A : is_Some (cd_buf cd) -> prepare cd = Ok (h, key) ->
  spec_signup (cd_name cd) (cd_email cd) (cd_password cd) A =
  if negb (pg_text (cd_email cd)) then (A, Err (EWrap "create user" encoding_error)) else
  match A !! cd_name cd with
  | Some _ => (A, Err ErrUsernameTaken)
  | None => if email_used (cd_email cd) A then (A, Err ErrEmailTaken)
            else (<[cd_name cd := (cd_email cd, cd_password cd)]> A, Ok (cd_name cd))
  end.
Proof.
  intros Hb Hp. pose proof (prepare_cases cd Hb) as H. rewrite Hp in H. destruct H as (V1 & V2 & V3 & _).
  unfold AccountSpec.spec_signup. by rewrite V1, V2, V3.
Qed.

(** What a step answers is what the map answers then. *)
Definition agrees (cd : candidate) (p : phase) (d : tables) (A : accounts) : Prop :=
  match p with
  | Returned r => represents d (spec_signup (cd_name cd) (cd_email cd) (cd_password cd) A).1 /\
                  answer_of fst r = (spec_signup (cd_name cd) (cd_email cd) (cd_password cd) A).2
  | _ => represents d A
  end.

Lemma represents_free_name d A n : represents d A -> free d (Username n) <-> A !! n = None.
Proof. intros Hr. by rewrite (represents_none _ d A n Hr). Qed.

Lemma advance_agrees s k cd p t d' p' A : inv s -> flights s !! k = Some {| candidate_of := cd; phase_of := p |} ->
  is_Some (cd_buf cd) -> represents (base s) A -> accounts_ok d' -> advance s k cd p Fine t = Some (d', p') -> agrees cd p' d' A.
Proof.
  intros Hi Hk Hb Hr Hok H. pose proof (iv_phase s Hi k _ Hk) as Hph. cbn [candidate_of phase_of] in Hph.
  destruct p as [|h key|h key now|u key|u key|u key|u key c|u key c|r]; cbn [phase_ok] in Hph; unfold Transactions.advance in H.
  - pose proof (prepare_cases cd Hb) as Hp. destruct (prepare cd) as [[h key]|e]; injection H as <- <-; [done|]. cbn [agrees]. by rewrite Hp.
  - by injection H as <- <-.
  - destruct (prepare_name cd _ Hph) as [Hname _]. pose proof (prepare_cases cd Hb) as Hp. rewrite Hph in Hp. destruct Hp as (_ & _ & _ & _ & Th).
    unfold texts_ok in H. cbn [forallb] in H. rewrite Hname, Th, andb_true_r in H. cbn [andb] in H.
    destruct (pg_text (cd_email cd)) eqn:Te; injection H as <- <-; cbn [agrees].
    + apply (represents_same _ (base s)); [done | apply Hok | done].
    + rewrite (spec_accepted cd h key A Hb Hph), Te. done.
  - destruct Hph as (Hp & Hn & He & Te). destruct (is_some _) eqn:Es; [|by destruct (held _ _ _); [|injection H as <- <-]].
    injection H as <- <-. cbn [agrees]. rewrite (spec_accepted cd _ key A Hb Hp), Te. cbn [negb].
    destruct (A !! cd_name cd) eqn:EA; [done|]. apply (represents_free_name (base s) A _ Hr) in EA. rewrite <- Hn in EA.
    apply username_select in EA. congruence.
  - destruct Hph as (Hp & Hn & He & Te). destruct (is_some _) eqn:Es; [|by destruct (held _ _ _); [|injection H as <- <-]].
    injection H as <- <-. cbn [agrees]. rewrite (spec_accepted cd _ key A Hb Hp), Te. cbn [negb].
    assert (EA : A !! cd_name cd = None).
    { apply (represents_free_name (base s) A _ Hr). rewrite <- Hn. eapply (iv_free s Hi k); [exact Hk | simpl; set_solver]. }
    rewrite EA. destruct (email_used (cd_email cd) A) eqn:Eu; [done|]. apply (represents_email _ (base s) A _ Hr) in Eu. rewrite <- He in Eu.
    apply email_select in Eu. congruence.
  - destruct Hph as (Hp & _). destruct (prepare_name cd _ Hp) as [Hname Hkey]. simpl in Hkey. unfold texts_ok in H. cbn [forallb] in H.
    rewrite Hname, Hkey in H. cbn [andb] in H. injection H as <- <-. apply (represents_same _ (base s)); [done | apply Hok | done].
  - pose proof (channel_step s k cd u key c Fine t Hi Hk) as E. unfold Transactions.advance in E. rewrite E in H. injection H as <- <-. done.
  - injection H as <- <-. destruct Hph as [(Hp & Hn & He & Te) (Ho & Hcn & _)]. cbn [agrees]. rewrite (spec_accepted cd _ key A Hb Hp), Te. cbn [negb].
    assert (Hfree : forall x, x ∈ claims (ChannelCreated u key c) -> free (base s) x) by (intros x; by apply (iv_free s Hi k _ x Hk)).
    assert (EA : A !! cd_name cd = None).
    { apply (represents_free_name (base s) A _ Hr). rewrite <- Hn. apply Hfree. simpl. set_solver. }
    assert (EE : email_used (cd_email cd) A = false).
    { apply (represents_email _ (base s) A _ Hr). rewrite <- He. apply (Hfree (Email (u_Email u))). simpl. set_solver. }
    rewrite EA, EE. cbn [fst snd answer_of]. split; [|by rewrite Hn].
    apply (represents_new _ (base s) _ A _ _ _ u); try done; [apply Hok | apply (Hfree (UserSerial (u_ID u))); simpl; set_solver|].
    split; [done|]. intros q. pose proof (prepare_cases cd Hb) as Hpc. rewrite Hp in Hpc. destruct Hpc as (_ & _ & _ & Hg & _). by eapply compare_exact.
  - done.
Qed.

(** What is seen of a step is what the map answers. *)
Lemma step_linear s a A : inv s -> drawn s -> represents (base s) A -> calm a ->
  let '(s', es) := step s a in
  represents (base s') (spec_after es.*1 A) /\ es.*2 = spec_run es.*1 A /\ drawn s'.
Proof.
  intros Hi Hdr Hr Hc. pose proof (step_keeps s a Hi) as Hi'. destruct a as [k cd|k f t|op fs t]; cbn [Transactions.step] in *.
  - destruct (flights s !! k); [done|]. split; [done|]. split; [done|]. intros j fl. simpl. rewrite lookup_insert_Some.
    intros [[<- <-]|[_ Hj]]; [done | by apply (Hdr j)].
  - simpl in Hc. subst f. destruct (flights s !! k) as [[cd p]|] eqn:Hk; [|done]. cbn [candidate_of phase_of] in *.
    destruct (advance s k cd p Fine t) as [[d' p']|] eqn:E; [|done]. cbn [fst base flights] in *.
    assert (Hb : is_Some (cd_buf cd)) by exact (Hdr k _ Hk).
    pose proof (advance_agrees s k cd p t d' p' A Hi Hk Hb Hr (iv_base _ Hi') E) as Hag.
    split; [|split].
    + destruct p' as [| | | | | | | |r]; try exact Hag. destruct Hag as [Hag _]. cbn. by destruct (spec_signup _ _ _ A).
    + destruct p' as [| | | | | | | |r]; try done. destruct Hag as [_ Hag]. cbn. rewrite Hag. by destruct (spec_signup _ _ _ A).
    + intros j fl. cbn [flights]. rewrite lookup_insert_Some. intros [[<- <-]|[_ Hj]]; [done | by apply (Hdr j)].
  - destruct Hc as [Hsup ->]. assert (Hop : forall op', op' = op -> 
      let es := [(op', observe parse_address bcrypt_generate bcrypt_compare op' (at_time t (base s)))] in
      represents (db (account_step parse_address bcrypt_generate bcrypt_compare sessionTTL op' (at_time t (base s)))) (spec_after es.*1 A) /\ es.*2 = spec_run es.*1 A).
    { intros op' ->. destruct (step_represents parse_address bcrypt_generate bcrypt_compare sessionTTL compare_exact generate_ok op t (base s) A Hsup Hr) as [H1 H2].
      cbn. split; [exact H1|]. rewrite H2. by destruct (spec_step op A). }
    destruct op; try (destruct (Hop _ eq_refl) as [H1 H2]; split; [exact H1 | split; [exact H2 | done]]). done.
Qed.

Lemma run_linear acts s A : inv s -> drawn s -> represents (base s) A -> Forall calm acts ->
  (run s acts).2.*2 = spec_run (run s acts).2.*1 A.
Proof.
  revert s A. induction acts as [|a acts IH]; intros s A Hi Hdr Hr Hc; [done|]. apply Forall_cons in Hc as [Ha Hc].
  cbn [Transactions.run]. pose proof (step_linear s a A Hi Hdr Hr Ha) as H. pose proof (step_keeps s a Hi) as Hi'.
  destruct (step s a) as [s1 es]. destruct H as (H1 & H2 & H3). specialize (IH s1 _ Hi' H3 H1 Hc). destruct (run s1 acts) as [s2 es']. cbn [snd] in *.
  by rewrite !fmap_app, spec_run_app, H2, IH.
Qed.
Lemma nobody_represents : represents no_tables ∅.
Proof. split; [apply no_tables_ok | |]; intros ?; simpl; intros *; by rewrite lookup_empty. Qed.

(** C5: signups at the same time are as if one after the other. Any number of
    signups in flight together, their round trips and index insertions
    interleaved in any way, with logins, sessions, keys, titles and sweeps in
    between: taken in the order in which the answers are given, every signup and
    every login is answered as the abstract map of names to e-mail and password
    answers that sequence of calls. Nobody is told a name is free and then
    refused it, or the reverse, except as some sequential run would. *)
Theorem signups_linearize acts : Forall calm acts ->
  let answers := (run (idle no_tables) acts).2 in answers.*2 = spec_run answers.*1 ∅.
Proof.
  intros Hc. apply run_linear; [by apply idle_inv, no_accounts | intros k fl; simpl; by rewrite lookup_empty | apply nobody_represents | done].
Qed.
End Invariant.

Section Consistency.
Context (parse_address : string -> bool).
Context (bcrypt_generate : list Z -> string -> option string).
Context (bcrypt_compare : string -> string -> bool).
Context (sessionTTL : Z).

(** C6: what concurrent signups leave behind. However signups are interleaved
    and wherever the connection breaks, the committed tables satisfy every
    constraint of the schema, each user has a channel of its own name, and what
    an open transaction has written is not there: its serial numbers are
    nobody's, the keys it has entered are unused. A signup that succeeded has
    its user and channel in the tables. One that failed says why: a check on
    its arguments, a name or address that somebody has, text the database
    refuses, or the connection; never a collision on the channel. *)
Theorem signups_keep_accounts acts
  (s := (run parse_address bcrypt_generate bcrypt_compare sessionTTL (idle no_tables) acts).1) :
  accounts_ok (base s) /\
  forall k cd p, flights s !! k = Some {| candidate_of := cd; phase_of := p |} ->
  match p with
  | Returned (Ok (u, _)) => users (base s) !! u_ID u = Some u /\ u_Username u = cd_name cd /\ u_Email u = cd_email cd /\
      exists i c, channels (base s) !! i = Some c /\ c_UserID c = u_ID u /\ c_Name c = cd_name cd
  | Returned (Err e) => explained parse_address bcrypt_generate cd e /\
      (e = ErrUsernameTaken -> exists i u, users (base s) !! i = Some u /\ u_Username u = cd_name cd) /\
      (e = ErrEmailTaken -> exists i u, users (base s) !! i = Some u /\ u_Email u = cd_email cd)
  | _ => forall x, x ∈ claims p -> free (base s) x
  end.
Proof.
  assert (Hi : inv parse_address bcrypt_generate s) by (apply run_keeps, idle_inv, no_accounts).
  pose proof (iv_base _ _ s Hi) as [Hok Hall]. split; [done|]. intros k cd p Hk.
  pose proof (iv_phase _ _ s Hi k _ Hk) as Hph. pose proof (iv_outcome _ _ s Hi k _ Hk) as Hout. cbn [candidate_of phase_of] in Hph, Hout.
  destruct p as [| | | | | | | |[[u plain]|e]]; try (intros x Hx; by apply (iv_free _ _ s Hi k _ x Hk)).
  - destruct Hph as (key & (_ & Hn & He & _) & _). simpl in Hout. split; [done|]. split; [done|]. split; [done|].
    destruct (Hall _ _ Hout) as (i & c & Hc & Ho). exists i, c. split; [done|]. split; [done|]. rewrite <- Ho in Hout.
    by rewrite (ok_names _ Hok i c u Hc Hout).
  - split; [exact Hph|]. destruct Hout as [H1 H2]. split; intros E.
    + destruct (is_some (select (fun v => String.eqb (u_Username v) (cd_name cd)) (users (base s)))) eqn:Es; [|by apply username_select, H1 in Es].
      destruct (select _ _) as [u|] eqn:Eu; [|done]. apply select_Some in Eu as (i & Hu & Hn%String.eqb_eq). by exists i, u.
    + destruct (is_some (select (fun v => String.eqb (u_Email v) (cd_email cd)) (users (base s)))) eqn:Es; [|by apply email_select, H2 in Es].
      destruct (select _ _) as [u|] eqn:Eu; [|done]. apply select_Some in Eu as (i & Hu & Hn%String.eqb_eq). by exists i, u.
Qed.

(** C17: signups do not deadlock. Whatever has happened, and however many
    signups wait for each other's names and addresses, going on with those that
    can (at most eight steps each, no new call, no failure) brings every one of
    them to its answer: the waits cannot form a cycle, since a signup enters
    the index of names before that of addresses and its channel never waits. *)
Theorem signups_all_return acts
  (s := (run parse_address bcrypt_generate bcrypt_compare sessionTTL (idle no_tables) acts).1) :
  exists more, Forall going more /\ (length more <= remaining (flights s))%nat /\
    all_returned (run parse_address bcrypt_generate bcrypt_compare sessionTTL s more).1.
Proof. apply all_return_from, run_keeps, idle_inv, no_accounts. Qed.
End Consistency.

(** Two signups race for a name, a third for the address of one of them. *)
Definition cand (n e : string) : candidate := {| cd_name := n; cd_email := e; cd_password := "password"; cd_salt := toy_salt; cd_buf := toy_buf |}.
Definition race : list act :=
  [Arrive 1 (cand "alice" "a@b"); Arrive 2 (cand "alice" "c@d"); Arrive 3 (cand "bob" "a@b")] ++
  concat (replicate 5 [Go 2 Fine 0; Go 1 Fine 0; Go 3 Fine 0]) ++ [Other (OLogin "alice" "password") [] 0] ++
  concat (replicate 6 [Go 3 Fine 0; Go 2 Fine 0; Go 1 Fine 0]) ++ [Other (OLogin "alice" "password") [] 0].

Lemma signups_linearize_witness :
  let answers := (run toy_address toy_generate1 toy_compare1 1000 (idle no_tables) race).2 in
  answers.*2 = AccountSpec.spec_run toy_address answers.*1 ∅ /\
  answers.*2 = [Some (Err ErrBadCredentials); Some (Ok "bob"%string); Some (Ok "alice"%string); Some (Err ErrUsernameTaken); Some (Ok "alice"%string)].
Proof.
  split.
  - apply (signups_linearize toy_address toy_generate1 toy_compare1 1000 toy_exact toy_generate1_ok race).
    repeat constructor; by eexists.
  - vm_compute. reflexivity.
Defined.

(** ** Alone, a signup is [Auth.Signup] *)
Section Alone.
Context (parse_address : string -> bool).
Context (bcrypt_generate : list Z -> string -> option string).
Context (bcrypt_compare : string -> string -> bool).
Context (sessionTTL : Z).
Context (cd : candidate) (t : Z).
Abbreviation prepare := (prepare parse_address bcrypt_generate).
Abbreviation advance := (advance parse_address bcrypt_generate).

Definition alone (d : tables) (p : phase) : sys := {| base := d; flights := {[0%nat := {| candidate_of := cd; phase_of := p |}]} |}.
Fixpoint solo (n : nat) (d : tables) (p : phase) : tables * phase :=
  match n with
  | O => (d, p)
  | S n => match advance (alone d p) 0 cd p Fine t with Some (d, p) => solo n d p | None => (d, p) end
  end.

Lemma run_solo n d p : (run parse_address bcrypt_generate bcrypt_compare sessionTTL (alone d p) (replicate n (Go 0 Fine t))).1 =
  alone (solo n d p).1 (solo n d p).2.
Proof.
  revert d p. induction n as [|n IH]; intros d p; [done|]. cbn [replicate run step alone flights solo].
  rewrite lookup_singleton_eq. cbn [candidate_of phase_of]. fold (alone d p). destruct (advance (alone d p) 0 cd p Fine t) as [[d' p']|] eqn:E.
  - rewrite insert_singleton_eq. fold (alone d' p'). specialize (IH d' p'). by destruct (run _ _ _ _ (alone d' p') _).
  - assert (Hn : solo n d p = (d, p)) by (destruct n; [done|]; cbn [solo]; by rewrite E). specialize (IH d p). rewrite Hn in IH.
    by destruct (run _ _ _ _ (alone d p) _).
Qed.
Lemma solo_returned n d r : solo n d (Returned r) = (d, Returned r).
Proof. by destruct n. Qed.
Lemma solo_step n d p d' p' : advance (alone d p) 0 cd p Fine t = Some (d', p') -> solo (S n) d p = solo n d' p'.
Proof. intros E. cbn [solo]. by rewrite E. Qed.
Lemma held_alone x d p : held x 0 (alone d p) = false.
Proof. apply held_false. intros k' fl. unfold alone. cbn [flights]. rewrite lookup_singleton_Some. by intros [<- _] []. Qed.

Lemma Signup_unprepared s e : prepare cd = Err e ->
  Signup parse_address bcrypt_generate (cd_name cd) (cd_email cd) (cd_password cd) (cd_salt cd) (cd_buf cd) s = (s, Err e).
Proof.
  unfold Transactions.prepare, Auth.Signup. rewrite prog_bind_eq. unfold lift_res at 1. intros H.
  destruct (validateUsername (cd_name cd)) as [[]|x]; [|by injection H as <-]. rewrite prog_bind_eq. unfold lift_res at 1. simpl in H.
  destruct (validateEmail parse_address (cd_email cd)) as [[]|x]; [|by injection H as <-]. rewrite prog_bind_eq. unfold lift_res at 1. simpl in H.
  destruct (validatePassword (cd_password cd)) as [[]|x]; [|by injection H as <-]. rewrite prog_bind_eq. unfold lift_res at 1. simpl in H.
  destruct (hashPassword bcrypt_generate (cd_salt cd) (cd_password cd)) as [h|x]; [|by injection H as <-]. simpl in H |- *. rewrite prog_bind_eq. unfold lift_res at 1.
  destruct (GenerateKey (cd_buf cd)) as [key|x]; [done | by injection H as <-].
Qed.
Lemma prepare_inv h key : prepare cd = Ok (h, key) ->
  validateUsername (cd_name cd) = Ok tt /\ parse_address (cd_email cd) = true /\ validatePassword (cd_password cd) = Ok tt /\
  bcrypt_generate (cd_salt cd) (cd_password cd) = Some h /\ GenerateKey (cd_buf cd) = Ok key.
Proof.
  unfold Transactions.prepare, validateEmail, hashPassword. intros H.
  destruct (validateUsername (cd_name cd)) as [[]|x]; [|done]. destruct (parse_address (cd_email cd)); [|done].
  destruct (validatePassword (cd_password cd)) as [[]|x]; [|done]. destruct (bcrypt_generate _ _) as [h'|]; [|done].
  destruct (GenerateKey (cd_buf cd)) as [key'|x]; [|done]. by injection H as <- <-.
Qed.

(** The transaction of the sequential model, when the database answers. *)
Lemma tx_fine n e h hash d : accounts_ok d -> texts_ok [n; hash] = true ->
  (tx ← wrapping "begin tx" Begin;
   user ← in_tx tx (catch (CreateUser n e h) (fun e => throw (mapUniqueViolation e)));
   _ ← in_tx tx (wrapping "create channel" (CreateChannel (u_ID user) n hash));
   _ ← wrapping "commit" (commit_tx tx);
   mret user) (at_time t d) =
  let u := user_row d n e h (t / 1000) in let d1 := set_users (users d) (next_user d + 1) d in
  if negb (texts_ok [n; e; h]) then (at_time t d, Err (mapUniqueViolation encoding_error))
  else if is_some (select (fun v => String.eqb (u_Username v) n) (users d)) then (at_time t d1, Err ErrUsernameTaken)
  else if is_some (select (fun v => String.eqb (u_Email v) e) (users d)) then (at_time t d1, Err ErrEmailTaken)
  else (at_time t (add_channel (channel_row d (u_ID u) n hash (t / 1000)) (add_user u d)), Ok u).
Proof.
  intros [Hok _] Ht2. cbv zeta. rewrite prog_bind_eq. unfold wrapping at 1, catch at 1, Begin. rewrite statement_fine by done.
  cbn [fst snd]. change (set_db (db (at_time t d)) (at_time t d)) with (at_time t d). change (db (at_time t d)) with d.
  rewrite prog_bind_eq. unfold in_tx at 1, catch at 1. destruct (texts_ok [n; e; h]) eqn:Ht; cbn [negb].
  2:{ unfold CreateUser. rewrite statement_fine by done. unfold with_texts. rewrite Ht. cbn [fst snd]. by destruct d. }
  rewrite (CreateUser_fine _ _ _ (at_time t d) eq_refl Ht). change (db (at_time t d)) with d.
  destruct (select (fun v => String.eqb (u_Username v) n) (users d)) as [x|] eqn:E1; cbn [is_some]; [done|].
  destruct (select (fun v => String.eqb (u_Email v) e) (users d)) as [x|] eqn:E2; cbn [is_some]; [done|].
  set (u := user_row d n e h (pg_now (at_time t d))). rewrite prog_bind_eq. unfold in_tx at 1, wrapping at 1, catch at 1.
  rewrite (CreateChannel_fine (u_ID u) n hash (set_db (add_user u d) (at_time t d))); [|done|done| |].
  - rewrite prog_bind_eq. unfold wrapping, catch, commit_tx. cbn [set_db at_time faults]. unfold Commit. by rewrite statement_fine.
  - simpl. by rewrite lookup_insert_eq.
  - simpl. intros i c He. destruct Hok as [Hd Hn]. destruct (k_fk d Hd i c He) as [v Hv]. split.
    + intros E. apply (k_users d Hd) in Hv. simpl in E. lia.
    + intros E. apply select_None with (k := c_UserID c) (v := v) in E1; [|done]. apply String.eqb_neq in E1. apply E1. by rewrite <- (Hn i c v He Hv).
Qed.

Lemma no_violation d uid n : ok d -> users d !! uid = None -> unused_username d n ->
  is_some (select (fun v => c_UserID v =? uid) (channels d)) = false /\ is_some (select (fun v => String.eqb (c_Name v) n) (channels d)) = false.
Proof.
  intros [Hd Hn] Hu Hun. split; apply is_some_select; intros j c Hc; destruct (k_fk d Hd j c Hc) as [v Hv].
  - apply Z.eqb_neq. congruence.
  - apply String.eqb_neq. intros E. apply (Hun _ v Hv). by rewrite <- (Hn j c v Hc Hv).
Qed.

(** The same, step by step. *)
Lemma solo_tx h key d : accounts_ok d -> prepare cd = Ok (h, key) -> texts_ok [cd_name cd; key.2] = true ->
  let u := user_row d (cd_name cd) (cd_email cd) h (t / 1000) in let d1 := set_users (users d) (next_user d + 1) d in
  solo 6 d (Begun h key (t / 1000)) =
  if negb (texts_ok [cd_name cd; cd_email cd; h]) then (d, Returned (Err (mapUniqueViolation encoding_error)))
  else if is_some (select (fun v => String.eqb (u_Username v) (cd_name cd)) (users d)) then (d1, Returned (Err ErrUsernameTaken))
  else if is_some (select (fun v => String.eqb (u_Email v) (cd_email cd)) (users d)) then (d1, Returned (Err ErrEmailTaken))
  else (add_channel (channel_row d (u_ID u) (cd_name cd) key.2 (t / 1000)) (add_user u d), Returned (Ok (u, key.1))).
Proof.
  intros [Hok _] Hp Ht2 u d1. destruct (texts_ok [cd_name cd; cd_email cd; h]) eqn:Ht; cbn [negb].
  2:{ rewrite (solo_step 5 d (Begun h key (t / 1000)) d (Returned (Err (mapUniqueViolation encoding_error)))); [apply solo_returned|].
      unfold Transactions.advance. by rewrite Ht. }
  rewrite (solo_step 5 d (Begun h key (t / 1000)) d1 (UserRow u key)) by (unfold Transactions.advance; by rewrite Ht).
  destruct (is_some (select (fun v => String.eqb (u_Username v) (cd_name cd)) (users d))) eqn:E1.
  { rewrite (solo_step 4 d1 (UserRow u key) d1 (Returned (Err ErrUsernameTaken))); [apply solo_returned|].
    unfold Transactions.advance. cbn [base alone]. change (users d1) with (users d). cbn [u user_row u_Username]. by rewrite E1. }
  rewrite (solo_step 4 d1 (UserRow u key) d1 (NameEntered u key)).
  2:{ unfold Transactions.advance. cbn [base alone]. change (users d1) with (users d). cbn [u user_row u_Username]. rewrite E1. by rewrite held_alone. }
  destruct (is_some (select (fun v => String.eqb (u_Email v) (cd_email cd)) (users d))) eqn:E2.
  { rewrite (solo_step 3 d1 (NameEntered u key) d1 (Returned (Err ErrEmailTaken))); [apply solo_returned|].
    unfold Transactions.advance. cbn [base alone]. change (users d1) with (users d). cbn [u user_row u_Email]. by rewrite E2. }
  rewrite (solo_step 3 d1 (NameEntered u key) d1 (UserCreated u key)).
  2:{ unfold Transactions.advance. cbn [base alone]. change (users d1) with (users d). cbn [u user_row u_Email]. rewrite E2. by rewrite held_alone. }
  set (c := channel_row d (u_ID u) (cd_name cd) key.2 (t / 1000)). set (d2 := set_channels (channels d1) (next_channel d1 + 1) d1).
  rewrite (solo_step 2 d1 (UserCreated u key) d2 (ChannelRow u key c)) by (unfold Transactions.advance; by rewrite Ht2).
  apply username_select in E1. pose proof (fresh_user d u (ok_schema _ Hok) eq_refl) as Hfr.
  destruct (no_violation d (u_ID u) (cd_name cd) Hok Hfr E1) as [N1 N2].
  rewrite (solo_step 1 d2 (ChannelRow u key c) d2 (ChannelCreated u key c)).
  2:{ unfold Transactions.advance. cbn [base alone]. change (channels d2) with (channels d). change (c_UserID c) with (u_ID u). change (c_Name c) with (cd_name cd).
      rewrite N1, N2, !held_alone, Z.eqb_refl, orb_true_r. done. }
  done.
Qed.

End Alone.

