(* ===== verification/RowTypes.v ===== *)
(** * What the rows look like

    The well-formedness of every row the account service writes, kept by each
    of its programs.  [keeps_typed] is closed under the ways the programs are
    built (sequencing, error handling, statements, the transaction), so that
    the proof for a service method follows its text. *)

From S2P Require Import Prelude Utf8 Encoding Errors StreamKey Store StoreInv Auth AuthThms.
Local Open Scope Z_scope.

Definition user_typed (u : User) : Prop :=
  usernameRE (u_Username u) = true /\ ~ (u_Username u ∈ reservedNames) /\
  pg_text (u_Email u) = true /\ pg_text (u_PasswordHash u) = true.
(** The key itself is never stored. *)
Definition channel_typed (c : Channel) : Prop :=
  usernameRE (c_Name c) = true /\ pg_text (c_Title c) = true /\ (String.length (c_Title c) <= 200)%nat /\
  exists plain, c_StreamKeyHash c = HashKey plain.
Definition session_typed (x : Session) : Prop := pg_text (s_ID x) = true.

Record typed (d : tables) : Prop := {
  ty_users : map_Forall (fun _ => user_typed) (users d);
  ty_channels : map_Forall (fun _ => channel_typed) (channels d);
  ty_sessions : map_Forall (fun _ => session_typed) (sessions d)
}.

Definition keeps_typed {A} (m : query A) : Prop := forall s, typed (db s) -> typed (db (m s).1).

Lemma typed_rows d d' : users d' = users d -> channels d' = channels d -> sessions d' = sessions d -> typed d -> typed d'.
Proof. intros E1 E2 E3 [H1 H2 H3]. split; by rewrite ?E1, ?E2, ?E3. Qed.

Lemma kt_bind {A B} (m : query A) (f : A -> query B) : keeps_typed m -> (forall a, keeps_typed (f a)) -> keeps_typed (m ≫= f).
Proof.
  intros Hm Hf s Hs. rewrite prog_bind_eq. specialize (Hm s Hs). destruct (m s) as [s1 [a|e]]; [by apply Hf | done].
Qed.

(** When the rest depends on what was read. *)
Lemma kt_bind_ok {A B} (Q : A -> Prop) (m : query A) (f : A -> query B) : keeps_typed m ->
  (forall s a, typed (db s) -> (m s).2 = Ok a -> Q a) -> (forall a, Q a -> keeps_typed (f a)) -> keeps_typed (m ≫= f).
Proof.
  intros Hm HQ Hf s Hs. rewrite prog_bind_eq. specialize (Hm s Hs). specialize (HQ s).
  destruct (m s) as [s1 [a|e]]; [apply Hf; auto | done].
Qed.

Lemma kt_catch {A} (m : query A) (h : err -> query A) : keeps_typed m -> (forall e, keeps_typed (h e)) -> keeps_typed (catch m h).
Proof.
  intros Hm Hh s Hs. unfold catch. specialize (Hm s Hs). destruct (m s) as [s1 [a|e]]; [done | by apply Hh].
Qed.

Lemma kt_lift {A} (r : res err A) : keeps_typed (lift_res r).
Proof. by intros s Hs. Qed.
Lemma kt_ret {A} (a : A) : keeps_typed (mret a).
Proof. by intros s Hs. Qed.
Lemma kt_throw {A} (e : err) : keeps_typed (throw e : query A).
Proof. by intros s Hs. Qed.
Lemma kt_gets {A} (f : store -> A) : keeps_typed (gets f).
Proof. by intros s Hs. Qed.

Lemma kt_wrapping {A} prefix (m : query A) : keeps_typed m -> keeps_typed (wrapping prefix m).
Proof. intros. apply kt_catch; [done|]. intros e. apply kt_throw. Qed.
Lemma kt_no_rows {A} missing prefix (m : query A) : keeps_typed m -> keeps_typed (no_rows_to missing prefix m).
Proof. intros. apply kt_catch; [done|]. intros e. apply kt_throw. Qed.

(** A statement may look at the clock. *)
Lemma kt_statement_at {A} (body : store -> tables -> tables * res err A) :
  (forall s d, typed d -> typed (body s d).1) -> keeps_typed (fun s => statement (body s) s).
Proof.
  intros Hb s Hs. destruct (statement (body s) s) as [s' r] eqn:H. by apply (statement_keeps typed _ _ _ _ H (Hb s (db s))).
Qed.
Lemma kt_statement {A} (body : tables -> tables * res err A) :
  (forall d, typed d -> typed (body d).1) -> keeps_typed (statement body).
Proof. intros Hb. by apply (kt_statement_at (fun _ => body)). Qed.

Lemma typed_texts {A} args (body : tables -> tables * res err A) d : typed d ->
  (Forall (fun t => pg_text t = true) args -> typed (body d).1) -> typed (with_texts args body d).1.
Proof.
  intros Hd Hb. unfold with_texts, texts_ok. destruct (forallb pg_text args) eqn:E; [|done].
  apply Hb. apply Forall_forall. rewrite forallb_forall in E. intros t Ht. apply E. by apply list_elem_of_In.
Qed.

Lemma kt_rollback d0 s : typed d0 -> typed (db (rollback d0 s)).
Proof. by apply typed_rows. Qed.

Lemma kt_in_tx {A} d0 (body : query A) : typed d0 -> keeps_typed body -> keeps_typed (in_tx d0 body).
Proof.
  intros H0 Hb s Hs. unfold in_tx. specialize (Hb s Hs). destruct (body s) as [s1 [a|e]]; [done | by apply kt_rollback].
Qed.

Lemma kt_commit d0 : typed d0 -> keeps_typed (commit_tx d0).
Proof.
  intros H0 s Hs. assert (Hc : keeps_typed Commit) by (by apply kt_statement). specialize (Hc s Hs).
  unfold commit_tx. destruct (faults s) as [|[| |] fs]; try done. destruct (Commit s). by apply kt_rollback.
Qed.

Create HintDb typed discriminated.
#[export] Hint Resolve kt_lift kt_ret kt_throw kt_gets : typed.

(** ** The statements that write *)
Lemma kt_CreateUser n e h : usernameRE n = true -> ~ (n ∈ reservedNames) -> keeps_typed (CreateUser n e h).
Proof.
  intros Hn Hr. apply (kt_statement_at (fun s => _)). intros s d Hd. apply typed_texts; [done|].
  rewrite !Forall_cons. intros (_ & Te & Th & _). destruct (is_some _); [by apply (typed_rows d)|].
  destruct (is_some _); [by apply (typed_rows d)|]. destruct Hd as [H1 H2 H3].
  split; [apply map_Forall_insert_2; done | done | done].
Qed.

Lemma kt_CreateChannel uid n plain : usernameRE n = true -> keeps_typed (CreateChannel uid n (HashKey plain)).
Proof.
  intros Hn. apply (kt_statement_at (fun s => _)). intros s d Hd. apply typed_texts; [done|]. intros _.
  destruct (is_some _); [by apply (typed_rows d)|]. destruct (is_some _); [by apply (typed_rows d)|].
  destruct (is_some _); [|by apply (typed_rows d)]. destruct Hd as [H1 H2 H3].
  split; [done | apply map_Forall_insert_2; [|done] | done].
  split; [done|]. split; [done|]. split; [simpl; lia | by exists plain].
Qed.

Lemma typed_alter f id n d : (forall c, channel_typed c -> channel_typed (f c)) -> typed d ->
  typed (set_channels (alter f id (channels d)) n d).
Proof.
  intros Hf [H1 H2 H3]. split; [done | | done]. intros i c. simpl. rewrite lookup_alter_Some.
  intros [(-> & x & Hx & ->)|[_ Hc]]; [apply Hf; by eapply H2 | by eapply H2].
Qed.

Lemma kt_UpdateKey id plain : keeps_typed (UpdateChannelStreamKey id (HashKey plain)).
Proof.
  apply kt_statement. intros d Hd. apply typed_texts; [done|]. intros _. apply typed_alter; [|done].
  intros c (H1 & H2 & H3 & _). split; [done|]. split; [done|]. split; [done | by exists plain].
Qed.

Lemma kt_UpdateTitle id t : (String.length t <= 200)%nat -> keeps_typed (Store.UpdateChannelTitle id t).
Proof.
  intros Hl. apply kt_statement. intros d Hd. apply typed_texts; [done|]. rewrite Forall_singleton. intros Ht.
  apply typed_alter; [|done]. by intros c (H1 & _ & _ & H4).
Qed.

Lemma typed_sessions d m : typed d -> map_Forall (fun _ => session_typed) m -> typed (set_sessions m d).
Proof. intros [H1 H2 _] Hm. by split. Qed.

Lemma kt_CreateSession id uid t : keeps_typed (Store.CreateSession id uid t).
Proof.
  apply (kt_statement_at (fun s => _)). intros s d Hd. apply typed_texts; [done|]. rewrite Forall_singleton. intros Ht.
  destruct (is_some _); [done|]. destruct (is_some _); [|done].
  apply typed_sessions; [done|]. apply map_Forall_insert_2; [done | apply Hd].
Qed.

Lemma kt_DeleteSession id : keeps_typed (DeleteSession id).
Proof.
  apply kt_statement. intros d Hd. apply typed_texts; [done|]. intros _.
  apply typed_sessions; [done|]. apply map_Forall_delete, Hd.
Qed.

Lemma kt_DeleteExpired : keeps_typed DeleteExpiredSessions.
Proof.
  apply (kt_statement_at (fun s => _)). intros s d Hd. apply typed_sessions; [done|].
  intros t x [Hx _]%map_lookup_filter_Some. by eapply ty_sessions.
Qed.

(** A statement that only reads. *)
Lemma kt_reads {A} (body : tables -> tables * res err A) : (forall d, (body d).1 = d) -> keeps_typed (statement body).
Proof. intros Hb. apply kt_statement. intros d Hd. by rewrite Hb. Qed.

Lemma kt_text_reads {A} args (body : tables -> tables * res err A) : (forall d, (body d).1 = d) ->
  keeps_typed (statement (with_texts args body)).
Proof. intros Hb. apply kt_statement. intros d Hd. apply typed_texts; [done|]. intros _. by rewrite Hb. Qed.

(** ** The service methods *)
Section Service.
Context (parse_address : string -> bool).
Context (bcrypt_generate : list Z -> string -> option string).
Context (bcrypt_compare : string -> string -> bool).
Context (sessionTTL : Z).

Lemma username_typed n : validateUsername n = Ok tt -> usernameRE n = true /\ ~ (n ∈ reservedNames).
Proof.
  unfold validateUsername. destruct (usernameRE n); [|done]. cbn [negb].
  destruct (existsb (String.eqb n) reservedNames) eqn:E; [done|]. intros _. split; [done|]. intros Hin.
  apply not_true_iff_false in E. apply E, existsb_exists. exists n. split; [by apply list_elem_of_In | apply String.eqb_refl].
Qed.

Lemma kt_Signup n e p salt buf : keeps_typed (Signup parse_address bcrypt_generate n e p salt buf).
Proof.
  unfold Signup. apply (kt_bind_ok (fun _ => usernameRE n = true /\ ~ (n ∈ reservedNames))); [auto with typed| |].
  { intros s [] _ H. by apply username_typed. }
  intros _ [Hn Hr]. do 3 (apply kt_bind; [auto with typed | intros ?]).
  apply (kt_bind_ok (fun key => key.2 = HashKey key.1)); [auto with typed| |].
  { intros s key _ H. destruct buf; by simplify_eq/=. }
  intros [plain hash] Hk. simpl in Hk. subst hash. apply (kt_bind_ok typed).
  { apply kt_wrapping, kt_statement. done. }
  { intros s d Hs H. unfold wrapping, catch in H. destruct (Begin s) as [s1 r1] eqn:Hb.
    apply Begin_returns in Hb as (_ & _ & [-> | ->]); [|done]. simpl in H. by injection H as <-. }
  intros d Hd. apply kt_bind; [|intros u; apply kt_bind; [|intros c; apply kt_bind; [|auto with typed]]].
  - apply kt_in_tx; [done|]. apply kt_catch; [by apply kt_CreateUser | auto with typed].
  - apply kt_in_tx; [done|]. by apply kt_wrapping, kt_CreateChannel.
  - by apply kt_wrapping, kt_commit.
Qed.

Lemma kt_step op : keeps_typed (fun s => (account_step parse_address bcrypt_generate bcrypt_compare sessionTTL op s, Ok tt : res err unit)).
Proof.
  intros s Hs. destruct op as [n e p salt buf|n p|id buf|token|token|id|n|id buf|id title|]; cbn [account_step fst].
  - by apply kt_Signup.
  - revert s Hs. apply kt_bind; [apply kt_no_rows, kt_text_reads; done|]. intros u. destruct (verifyPassword _ _ _); auto with typed.
  - revert s Hs. apply kt_bind; [auto with typed|]. intros token. apply kt_bind; [auto with typed|]. intros now.
    apply kt_bind; [apply kt_wrapping, kt_CreateSession | auto with typed].
  - unfold Logout. destruct (String.eqb token ""); [done | by apply kt_DeleteSession].
  - revert s Hs. apply kt_bind; [apply kt_no_rows | auto with typed]. apply (kt_statement_at (fun s => _)).
    intros s d Hd. by apply typed_texts.
  - revert s Hs. apply kt_no_rows, kt_reads. done.
  - revert s Hs. apply kt_no_rows, kt_text_reads. done.
  - revert s Hs. apply (kt_bind_ok (fun key => key.2 = HashKey key.1)); [auto with typed| |].
    { intros s key _ H. destruct buf; by simplify_eq/=. }
    intros [plain hash] Hk. simpl in Hk. subst hash. apply kt_bind; [apply kt_wrapping, kt_UpdateKey | auto with typed].
  - revert s Hs. unfold Auth.UpdateChannelTitle. apply kt_UpdateTitle.
    destruct (Z.ltb_spec 200 (Z.of_nat (String.length title))); [rewrite cut_length; lia | lia].
  - by apply kt_DeleteExpired.
Qed.

(** C30: Every stored row is well formed. Whatever the service is asked, in
    whatever order and with whatever connection failures: a stored user name
    matches the pattern and is not reserved; e-mail addresses, password hashes,
    titles and session tokens are texts PostgreSQL can hold; a title has at most
    200 bytes; and what is stored of a stream key is its hash, for every channel. *)
Theorem rows_well_formed calls :
  let d := account_run parse_address bcrypt_generate bcrypt_compare sessionTTL calls in
  (forall id u, users d !! id = Some u -> user_typed u) /\
  (forall id c, channels d !! id = Some c -> channel_typed c) /\
  (forall t x, sessions d !! t = Some x -> session_typed x).
Proof.
  intros d. assert (Hd : typed d); [|destruct Hd as [H1 H2 H3]; split_and!; [exact H1 | exact H2 | exact H3]].
  unfold d, account_run. clear d. assert (H0 : typed no_tables) by (split; by apply map_Forall_empty).
  generalize dependent no_tables. induction calls as [|[[op t] fs] calls IH]; intros d Hd; [done|].
  simpl. apply IH. exact (kt_step op {| db := d; clock := t; faults := fs |} Hd).
Qed.
End Service.
