(* ===== verification/Http.v ===== *)
(** * [net/http] as far as the handlers use it

    A request's path is the list of its decoded segments ("/" is [[""]],
    "/c/bob" is [["c"; "bob"]], "/hls/" is [["hls"; ""]]); [ServeMux] redirects
    paths that are not clean before any handler runs, so they do not occur
    here.  Headers changed after [WriteHeader] are not sent. *)

From S2P Require Import Prelude.
Local Open Scope Z_scope.

Record Cookie := {
  ck_Name : string;
  ck_Value : string;
  ck_Path : string;
  ck_MaxAge : Z;          (* negative: delete now; 0: until the browser closes *)
  ck_HttpOnly : bool;
  ck_SameSiteLax : bool;
  ck_Secure : bool
}.

Record headers := {
  ContentType : option string;
  Location : option string;
  CacheControl : option string;
  SetCookies : list Cookie
}.
Definition no_headers : headers := {| ContentType := None; Location := None; CacheControl := None; SetCookies := [] |}.

(** [r_form] is the body as [ParseForm] reads it, [None] when it fails. *)
Record request := {
  r_method : string;
  r_path : list string;
  r_cookies : list (string * string);
  r_form : option (list (string * string))
}.

(** [r.Cookie], [r.PostForm.Get], [r.URL.Path == "/"] *)
Fixpoint assoc (k : string) (l : list (string * string)) : option string :=
  match l with
  | [] => None
  | (k', v) :: l => if String.eqb k' k then Some v else assoc k l
  end.
Definition r_Cookie (name : string) (r : request) : option string := assoc name (r_cookies r).
Definition PostForm_Get (k : string) (form : list (string * string)) : string := default "" (assoc k form).
Definition is_root (r : request) : bool := bool_decide (r_path r = [""]).

Section Writer.
Context {B : Type}.

Record writer := {
  w_headers : headers;
  w_sent : option (Z * headers);   (* what [WriteHeader] sent *)
  w_body : list B
}.
Definition new_writer : writer := {| w_headers := no_headers; w_sent := None; w_body := [] |}.

Definition on_headers (f : headers -> headers) (w : writer) : writer :=
  {| w_headers := f (w_headers w); w_sent := w_sent w; w_body := w_body w |}.
Definition SetCookie (c : Cookie) : writer -> writer :=
  on_headers (fun h => {| ContentType := ContentType h; Location := Location h; CacheControl := CacheControl h;
                          SetCookies := SetCookies h ++ [c] |}).
Definition set_ContentType (s : string) : writer -> writer :=
  on_headers (fun h => {| ContentType := Some s; Location := Location h; CacheControl := CacheControl h; SetCookies := SetCookies h |}).
Definition set_Location (s : string) : writer -> writer :=
  on_headers (fun h => {| ContentType := ContentType h; Location := Some s; CacheControl := CacheControl h; SetCookies := SetCookies h |}).
Definition set_CacheControl (s : string) : writer -> writer :=
  on_headers (fun h => {| ContentType := ContentType h; Location := Location h; CacheControl := Some s; SetCookies := SetCookies h |}).

(** Only the first call counts. *)
Definition WriteHeader (code : Z) (w : writer) : writer :=
  match w_sent w with
  | Some _ => w
  | None => {| w_headers := w_headers w; w_sent := Some (code, w_headers w); w_body := w_body w |}
  end.
Definition write (b : B) (w : writer) : writer :=
  let w := WriteHeader 200 w in
  {| w_headers := w_headers w; w_sent := w_sent w; w_body := w_body w ++ [b] |}.

(** What the client gets when the handler returns. *)
Definition response (w : writer) : Z * headers * list B :=
  let w := WriteHeader 200 w in (default (200, no_headers) (w_sent w), w_body w).

Context (text : string -> B).

Definition http_Error (msg : string) (code : Z) (w : writer) : writer :=
  write (text (msg +:+ String (Ascii.ascii_of_nat 10) "")) (WriteHeader code (set_ContentType "text/plain; charset=utf-8" w)).
Definition NotFound : writer -> writer := http_Error "404 page not found" 404.
Definition Redirect (r : request) (url : string) (code : Z) (w : writer) : writer :=
  let html := match ContentType (w_headers w) with Some _ => false | None => String.eqb (r_method r) "GET" || String.eqb (r_method r) "HEAD" end in
  let w := set_Location url w in
  let w := WriteHeader code (if html then set_ContentType "text/html; charset=utf-8" w else w) in
  if html && String.eqb (r_method r) "GET" then write (text ("<a href=" +:+ url +:+ ">")) w else w.
End Writer.
Arguments writer : clear implicits.
Arguments new_writer {B}.

(** ** [ServeMux] *)
Inductive seg := Lit (s : string) | Wild | Rest.   (* Rest: a trailing slash *)

(** The values of the wildcards, when the pattern matches. *)
Fixpoint matches (p : list seg) (path : list string) : option (list string) :=
  match p, path with
  | [], [] => Some []
  | [Rest], _ :: _ => Some []
  | Lit s :: p, x :: path => if String.eqb s x then matches p path else None
  | Wild :: p, x :: path => if String.eqb x "" then None else (x ::.) <$> matches p path
  | _, _ => None
  end.

(** Literals are tried before wildcards, wildcards before trailing slashes. *)
Definition rank (s : seg) : Z := match s with Lit _ => 0 | Wild => 1 | Rest => 2 end.
Fixpoint before (p q : list seg) : bool :=
  match p, q with
  | s :: p, t :: q => (rank s <? rank t) || ((rank s =? rank t) && before p q)
  | _, _ => false
  end.

Section Mux.
Context {H : Type}.
Record route := { rt_method : string; rt_pattern : list seg; rt_handler : H }.

Definition candidate (method : string) (path : list string) (best : option (route * list string)) (rt : route)
  : option (route * list string) :=
  match matches (rt_pattern rt) path with
  | Some vs =>
      if String.eqb (rt_method rt) method
      then match best with
           | Some (b, _) => if before (rt_pattern rt) (rt_pattern b) then Some (rt, vs) else best
           | None => Some (rt, vs)
           end
      else best
  | None => best
  end.
Definition find_method (routes : list route) (method : string) (path : list string) : option (route * list string) :=
  foldl (candidate method path) None routes.
(** A GET route also answers HEAD. *)
Definition find_route (routes : list route) (method : string) (path : list string) : option (route * list string) :=
  match find_method routes method path with
  | Some m => Some m
  | None => if String.eqb method "HEAD" then find_method routes "GET" path else None
  end.

Definition ends_in_rest (p : list seg) : bool := match last p with Some Rest => true | _ => false end.
Definition exactMatch (m : option (route * list string)) (path : list string) : bool :=
  match m with
  | None => false
  | Some (rt, _) =>
      if negb (ends_in_rest (rt_pattern rt)) then true
      else match last path with
           | Some "" => bool_decide (length (rt_pattern rt) = length path)
           | _ => false
           end
  end.

Inductive routed := Routed (h : H) (values : list string) | AddSlash | MethodNotAllowed | NoRoute.
Definition mux (routes : list route) (r : request) : routed :=
  let m := find_route routes (r_method r) (r_path r) in
  if negb (exactMatch m (r_path r)) && negb (bool_decide (last (r_path r) = Some "")) &&
     exactMatch (find_route routes (r_method r) (r_path r ++ [""])) (r_path r ++ [""])
  then AddSlash
  else match m with
       | Some (rt, vs) => Routed (rt_handler rt) vs
       | None => if existsb (fun rt => is_some (matches (rt_pattern rt) (r_path r))) routes then MethodNotAllowed else NoRoute
       end.
End Mux.
Arguments route : clear implicits.
Arguments routed : clear implicits.

(** ** The file server: [path.Clean("/" + p)] *)
Fixpoint clean_rooted (acc : list string) (path : list string) : list string :=
  match path with
  | [] => reverse acc
  | x :: path =>
      if String.eqb x "" || String.eqb x "." then clean_rooted acc path
      else if String.eqb x ".." then clean_rooted (tail acc) path
      else clean_rooted (x :: acc) path
  end.

(** ** A browser's cookies *)
Definition store_cookie (jar : gmap string string) (c : Cookie) : gmap string string :=
  if ck_MaxAge c <? 0 then delete (ck_Name c) jar else <[ck_Name c := ck_Value c]> jar.
