(* ===== verification/Web.v ===== *)
(** * The web site: [src/internal/auth] handlers and middleware, [src/internal/web]

    A handler is a program over the database, the chat service and the
    response writer, which may panic; [ctx] is the user the middleware put into
    the request's context.  [env] holds what a request draws from the outside:
    the random source, bcrypt's salt, whether the WebSocket upgrade works. *)

From S2P Require Import Prelude Utf8 Encoding Errors StreamKey Store Auth Stream Http.
Local Open Scope Z_scope.

(** What [web] needs of the stream and chat packages. *)
Class liveDirectory (L : Type) := {
  dir_ListLive : L -> list LiveChannel;
  dir_GetByName : string -> L -> option LiveChannel
}.
Class chatGateway (C : Type) := {
  gw_ServeWS : string -> string -> Z -> string -> C -> res panic C;
  gw_ViewerCount : string -> C -> Z
}.

#[export] Instance stream_directory : liveDirectory live := {| dir_ListLive := ListLive; dir_GetByName := GetByName |}.

Record liveCard := { lc_ChannelName : string; lc_Title : string; lc_Viewers : Z }.

(** The data of a page. *)
Inductive page :=
| PSignup (username email error : string)
| PLogin (username error : string)
| PKeyShown (heading lead plain cta ctahref : string)
| PHome (live : list liveCard)
| PWatch (channelName title : string) (live : bool)
| PDashboard (channel : Channel).

Definition page_name (p : page) : string :=
  match p with
  | PSignup _ _ _ => "signup"
  | PLogin _ _ => "login"
  | PKeyShown _ _ _ _ _ => "key_shown"
  | PHome _ => "home"
  | PWatch _ _ _ => "watch"
  | PDashboard _ => "dashboard"
  end.

Inductive body :=
| BText (s : string)
| BPage (user : option User) (p : page)
| BFile (path : list string)      (* what the file server has there *)
| BUpgraded.                      (* the WebSocket took over *)

Definition pageNames : list string := ["home"; "signup"; "login"; "dashboard"; "key_shown"; "watch"].

(** [LoadTemplates]: the base layout parsed with each page in turn. *)
Definition load_page {T} (parse : string -> res err T) (pages : gmap string T) (name : string) : res err (gmap string T) :=
  t ← wrap ("parse " +:+ name) (parse name);
  Ok (<[name := t]> pages).
Definition LoadTemplates {T} (parse : string -> res err T) : res err (gmap string T) :=
  mfoldl (load_page parse) ∅ pageNames.

Lemma load_pages {T} (parse : string -> res err T) l pages :
  match mfoldl (load_page parse) pages l with
  | Ok pages' => forall name, is_some (pages' !! name) = existsb (String.eqb name) l || is_some (pages !! name)
  | Err e => exists name x, name ∈ l /\ parse name = Err x /\ e = EWrap ("parse " +:+ name) x
  end.
Proof.
  revert pages; induction l as [|n l IH]; intros pages; [done|]. cbn [mfoldl].
  assert (Hn : load_page parse pages n =
    match parse n with Ok t => Ok (<[n := t]> pages) | Err x => Err (EWrap ("parse " +:+ n) x) end)
    by (unfold load_page; by destruct (parse n)).
  rewrite Hn. destruct (parse n) as [t|x] eqn:E; cbn [mbind res_bind]; [|by exists n, x; split; [left|]].
  specialize (IH (<[n := t]> pages)). destruct (mfoldl _ _ l) as [pages'|e].
  - intros name. rewrite IH. cbn [existsb]. destruct (String.eqb_spec name n) as [->|Hne].
    + rewrite lookup_insert_eq. simpl. by rewrite orb_true_r.
    + by rewrite lookup_insert_ne.
  - destruct IH as (name & y & Hin & Hp & ->). exists name, y. split; [by right | done].
Qed.

(** It succeeds when every page parses, and then [Render] knows the pages that
    [pageNames] lists. *)
Lemma LoadTemplates_spec {T} (parse : string -> res err T) :
  match LoadTemplates parse with
  | Ok pages => forall name, is_some (pages !! name) = existsb (String.eqb name) pageNames
  | Err e => exists name x, name ∈ pageNames /\ parse name = Err x /\ e = EWrap ("parse " +:+ name) x
  end.
Proof.
  pose proof (load_pages parse pageNames ∅) as H. unfold LoadTemplates. destruct (mfoldl _ _ _) as [pages|e]; [|done].
  intros name. rewrite H, lookup_empty. apply orb_false_r.
Qed.

Lemma load_pages_ok {T} (parse : string -> res err T) l pages :
  is_ok (mfoldl (load_page parse) pages l) = forallb (fun n => is_ok (parse n)) l.
Proof.
  revert pages; induction l as [|n l IH]; intros pages; [done|]. cbn [mfoldl forallb].
  assert (Hn : is_ok (load_page parse pages n) = is_ok (parse n)) by (unfold load_page; by destruct (parse n)).
  rewrite <- Hn. destruct (load_page parse pages n); [apply IH | done].
Qed.

Record env := {
  e_salt : list Z;
  e_key : option (list Z);
  e_token : option (list Z);
  e_anon : option (list Z);
  e_upgrade : bool
}.

Section Site.
Context {C : Type} `{chatGateway C} {L : Type} `{liveDirectory L}.
Context (parse_address : string -> bool).
Context (bcrypt_generate : list Z -> string -> option string).
Context (bcrypt_compare : string -> string -> bool).
Context (driver_text : err -> string).
Context (sessionTTL : Z) (secureCookies : bool).
Context (lv : L).   (* the live directory as the request finds it *)

Record site := { s_db : store; s_chat : C; s_w : writer body }.
Abbreviation http := (prog site panic).

Definition on_writer (f : writer body -> writer body) : http unit :=
  modify (fun s => {| s_db := s_db s; s_chat := s_chat s; s_w := f (s_w s) |}).
(** A call of the account service. *)
Definition svc {A} (q : query A) : http (res err A) := fun s =>
  let '(d, r) := q (s_db s) in ({| s_db := d; s_chat := s_chat s; s_w := s_w s |}, Ok r).

Abbreviation Error msg code := (on_writer (http_Error BText msg code)).
Abbreviation redirect r url := (on_writer (Redirect BText r url 303)).

(** [templates.Render]: an unknown name writes nothing. *)
Definition Render (ctx : option User) (p : page) : http unit :=
  if existsb (String.eqb (page_name p)) pageNames
  then on_writer (fun w => write (BPage ctx p) (set_ContentType "text/html; charset=utf-8" w))
  else mret tt.

(** ** Cookies *)
Definition cookie (name value : string) (maxAge : Z) (secure : bool) : Cookie :=
  {| ck_Name := name; ck_Value := value; ck_Path := "/"; ck_MaxAge := maxAge;
     ck_HttpOnly := true; ck_SameSiteLax := true; ck_Secure := secure |}.
Definition setSessionCookie (token : string) (secure : bool) (maxAgeSeconds : Z) : http unit :=
  on_writer (SetCookie (cookie SessionCookieName token maxAgeSeconds secure)).
Definition clearSessionCookie (secure : bool) : http unit :=
  on_writer (SetCookie (cookie SessionCookieName "" (-1) secure)).
(** [int(sessionTTL.Seconds())] *)
Definition cookie_age : Z := Z.quot sessionTTL 1000000000.

Definition anonCookieName : string := "chtiwt_anon".
Definition ensureAnonCookie (e : env) (r : request) : http string :=
  match r_Cookie anonCookieName r with
  | Some (String _ _ as v) => mret v
  | _ => match e_anon e with
         | None => mret ""
         | Some buf =>
             let id := EncodeToString buf in
             _ ← on_writer (SetCookie (cookie anonCookieName id (365 * 24 * 3600) false));
             mret id
         end
  end.

(** ** Middleware *)
Definition handler_t : Type := request -> option User -> http unit.

Definition Middleware (next : handler_t) (r : request) : http unit :=
  match r_Cookie SessionCookieName r with
  | None | Some "" => next r None
  | Some token =>
      user ← svc (SessionUser token);
      match user with
      | Ok u => next r (Some u)
      | Err _ => _ ← clearSessionCookie false; next r None
      end
  end.

Definition RequireAuth (next : handler_t) : handler_t := fun r ctx =>
  match ctx with None => redirect r "/login" | Some _ => next r ctx end.
Definition RequireGuest (next : handler_t) : handler_t := fun r ctx =>
  match ctx with Some _ => redirect r "/dashboard" | None => next r ctx end.

(** ** Account pages *)
Definition signupForm : handler_t := fun r ctx => Render ctx (PSignup "" "" "").

Definition signup (e : env) : handler_t := fun r ctx =>
  match r_form r with
  | None => Error "bad form" 400
  | Some form =>
      let username := PostForm_Get "username" form in
      let email := PostForm_Get "email" form in
      let password := PostForm_Get "password" form in
      res ← svc (Signup parse_address bcrypt_generate username email password (e_salt e) (e_key e));
      match res with
      | Err x =>
          _ ← on_writer (WriteHeader 400);
          Render ctx (PSignup username email (error_text driver_text x))
      | Ok (user, plainKey) =>
          token ← svc (Auth.CreateSession sessionTTL (u_ID user) (e_token e));
          match token with
          | Err _ => Error "internal error" 500
          | Ok token =>
              _ ← setSessionCookie token secureCookies cookie_age;
              Render ctx (PKeyShown "Welcome to chtiwt"
                "This is your stream key. Copy it now — for security it won't be shown again." plainKey
                "Continue to dashboard" "/dashboard")
          end
      end
  end.

Definition loginForm : handler_t := fun r ctx => Render ctx (PLogin "" "").

Definition login (e : env) : handler_t := fun r ctx =>
  match r_form r with
  | None => Error "bad form" 400
  | Some form =>
      let username := PostForm_Get "username" form in
      let password := PostForm_Get "password" form in
      res ← svc (Login bcrypt_compare username password);
      match res with
      | Err x =>
          let msg := if errors_is x ErrBadCredentials then error_text driver_text x else "login failed"%string in
          _ ← on_writer (WriteHeader 401);
          Render ctx (PLogin username msg)
      | Ok user =>
          token ← svc (Auth.CreateSession sessionTTL (u_ID user) (e_token e));
          match token with
          | Err _ => Error "internal error" 500
          | Ok token =>
              _ ← setSessionCookie token secureCookies cookie_age;
              redirect r "/dashboard"
          end
      end
  end.

Definition logout : handler_t := fun r ctx =>
  _ ← match r_Cookie SessionCookieName r with
      | Some token => _ ← svc (Logout token); mret tt
      | None => mret tt
      end;
  _ ← clearSessionCookie secureCookies;
  redirect r "/".

(** ** Public pages *)
Definition home : handler_t := fun r ctx =>
  if negb (is_root r) then on_writer (NotFound BText) else
  ch ← gets s_chat;
  Render ctx (PHome (map (fun c => {| lc_ChannelName := ChannelName c; lc_Title := Title c;
                                      lc_Viewers := gw_ViewerCount (ChannelName c) ch |}) (dir_ListLive lv))).

Definition watch (e : env) (name : string) : handler_t := fun r ctx =>
  if String.eqb name "" then on_writer (NotFound BText) else
  ch ← svc (ChannelByName name);
  match ch with
  | Err x => if errors_is x ErrNoChannel then on_writer (NotFound BText) else Error "internal error" 500
  | Ok ch =>
      _ ← ensureAnonCookie e r;
      Render ctx (match dir_GetByName (c_Name ch) lv with
                  | Some l => PWatch (c_Name ch) (Title l) true
                  | None => PWatch (c_Name ch) (c_Title ch) false
                  end)
  end.

Definition ServeWS (channelName username : string) (userID : Z) (anonKey : string) : http unit := fun s =>
  match gw_ServeWS channelName username userID anonKey (s_chat s) with
  | Ok c => ({| s_db := s_db s; s_chat := c; s_w := write BUpgraded (WriteHeader 101 (s_w s)) |}, Ok tt)
  | Err p => (s, Err p)
  end.

Definition chatWS (e : env) (channel : string) : handler_t := fun r ctx =>
  if String.eqb channel "" then on_writer (NotFound BText) else
  ch ← svc (ChannelByName channel);
  match ch with
  | Err _ => on_writer (NotFound BText)
  | Ok ch =>
      who ← match ctx with
            | Some u => mret (u_Username u, u_ID u, "")%string
            | None => anonKey ← ensureAnonCookie e r; mret (""%string, 0, anonKey)
            end;
      if e_upgrade e then ServeWS (c_Name ch) who.1.1 who.1.2 who.2
      else on_writer (http_Error BText "upgrade failed" 426)   (* the library has answered *)
  end.

Definition hlsFileServer (path : list string) : handler_t := fun r ctx =>
  on_writer (fun w => write (BFile (clean_rooted [] path)) (set_CacheControl "no-store" w)).

(** ** The dashboard; [user] is dereferenced without a check *)
Definition deref_user (ctx : option User) : http User :=
  match ctx with Some u => mret u | None => throw NilDereference end.

Definition dashboard : handler_t := fun r ctx =>
  user ← deref_user ctx;
  channel ← svc (ChannelForUser (u_ID user));
  match channel with
  | Err _ => Error "could not load channel" 500
  | Ok ch => Render ctx (PDashboard ch)
  end.

Definition updateTitle : handler_t := fun r ctx =>
  match r_form r with
  | None => Error "bad form" 400
  | Some form =>
      user ← deref_user ctx;
      channel ← svc (ChannelForUser (u_ID user));
      match channel with
      | Err _ => Error "no channel" 500
      | Ok ch =>
          res ← svc (Auth.UpdateChannelTitle (c_ID ch) (PostForm_Get "title" form));
          match res with
          | Err _ => Error "could not update title" 500
          | Ok _ => redirect r "/dashboard"
          end
      end
  end.

Definition regenerateKey (e : env) : handler_t := fun r ctx =>
  user ← deref_user ctx;
  channel ← svc (ChannelForUser (u_ID user));
  match channel with
  | Err _ => Error "no channel" 500
  | Ok ch =>
      res ← svc (RegenerateStreamKey (c_ID ch) (e_key e));
      match res with
      | Err _ => Error "could not regenerate" 500
      | Ok plain =>
          Render ctx (PKeyShown "New stream key"
            "Your old key is now invalid. Copy the new one — it won't be shown again." plain
            "Back to dashboard" "/dashboard")
      end
  end.

Definition healthz : handler_t := fun r ctx =>
  pong ← svc (statement (fun d => (d, Ok tt)));
  match pong with
  | Err x => Error ("db unhealthy: " +:+ error_text driver_text x)%string 503
  | Ok _ => on_writer (fun w => write (BText "ok") (WriteHeader 200 w))
  end.

(** ** Routes: the handlers take the request's environment and path values *)
Definition routes : list (route (env -> list string -> handler_t)) :=
  let value (vs : list string) : string := default "" (head vs) in
  let at_ m p h := {| rt_method := m; rt_pattern := p; rt_handler := h |} in
  [ at_ "GET" [Lit "healthz"] (fun e vs => healthz);
    (* auth.Handlers.Mount *)
    at_ "GET" [Lit "signup"] (fun e vs => RequireGuest signupForm);
    at_ "POST" [Lit "signup"] (fun e vs => RequireGuest (signup e));
    at_ "GET" [Lit "login"] (fun e vs => RequireGuest loginForm);
    at_ "POST" [Lit "login"] (fun e vs => RequireGuest (login e));
    at_ "POST" [Lit "logout"] (fun e vs => RequireAuth logout);
    (* web.Server.Mount *)
    at_ "GET" [Rest] (fun e vs => home);
    at_ "GET" [Lit "c"; Wild] (fun e vs => watch e (value vs));
    at_ "GET" [Lit "ws"; Lit "chat"; Wild] (fun e vs => chatWS e (value vs));
    at_ "GET" [Lit "hls"; Rest] (fun e vs r => hlsFileServer (tail (r_path r)) r);
    at_ "GET" [Lit "dashboard"] (fun e vs => RequireAuth dashboard);
    at_ "POST" [Lit "dashboard"; Lit "title"] (fun e vs => RequireAuth updateTitle);
    at_ "POST" [Lit "dashboard"; Lit "regenerate"] (fun e vs => RequireAuth (regenerateKey e)) ].

Definition dispatch (e : env) : handler_t := fun r ctx =>
  match mux routes r with
  | Routed h vs => h e vs r ctx
  | AddSlash => on_writer (Redirect BText r (foldr (fun x s => "/" +:+ x +:+ s)%string "/"%string (r_path r)) 301)
  | MethodNotAllowed => Error "Method Not Allowed" 405
  | NoRoute => on_writer (NotFound BText)
  end.

(** One request, from the outermost handler. *)
Definition serve (e : env) (r : request) : http unit := Middleware (dispatch e) r.
End Site.
