(* ===== verification/WebLib.v ===== *)
(** * Effects of the handlers on the database *)

From S2P Require Import Prelude Utf8 Encoding Errors StreamKey Store StoreInv Auth AuthThms Stream Http Web.
Local Open Scope Z_scope.

(** Accounts, channels and stream rows that exist are left as they are. *)
Definition keeps (d d' : tables) : Prop :=
  (forall id u, users d !! id = Some u -> users d' !! id = Some u) /\
  (forall id c, channels d !! id = Some c -> channels d' !! id = Some c) /\
  stream_sessions d' = stream_sessions d.

#[export] Instance keeps_preorder : PreOrder keeps.
Proof.
  split; [by intros d; split_and!|]. intros d1 d2 d3 (A1 & A2 & A3) (B1 & B2 & B3).
  split_and!; [auto..|congruence].
Qed.

Lemma keeps_refl_eq d d' : d' = d -> keeps d d'.
Proof. by intros ->. Qed.

(** ** Service calls *)
Lemma SessionUser_cases token s s' r : SessionUser token s = (s', r) ->
  db s' = db s /\ clock s' = clock s /\
  forall u, r = Ok u -> exists x, Store.sessions (db s) !! token = Some x /\ pg_now s < s_ExpiresAt x /\ users (db s) !! s_UserID x = Some u.
Proof.
  unfold SessionUser. intros H. apply bind_returns in H as [(s1 & row & H & [= <- <-])|(e & H & ->)];
    apply no_rows_to_returns in H as (r0 & H & Hr0); unfold GetSessionWithUser in H;
    pose proof (statement_reads _ _ _ _ H) as Hd; apply statement_cases in H as (Hc & H).
  - split; [apply Hd; unfold with_texts; by destruct (texts_ok _)|]. split; [done|]. intros u [= <-].
    unfold with_texts in H. destruct r0 as [row'|]; [|done]. injection Hr0 as ->.
    destruct H as [[_ ?]|[_ [H|?]]]; [done| |done]. destruct (texts_ok _); [|done]. simpl in H.
    destruct (Store.sessions (db s) !! token) as [x|]; simpl in H; [|done].
    destruct (Z.ltb_spec (pg_now s) (s_ExpiresAt x)); [|done]. destruct (users (db s) !! s_UserID x) as [u|] eqn:Eu; simpl in H; [|done].
    injection H as ->. exists x. split_and!; [done..|]. rewrite Eu. by destruct u.
  - split; [apply Hd; unfold with_texts; by destruct (texts_ok _)|]. done.
Qed.

Lemma ChannelForUser_cases uid s s' r : ok (db s) -> ChannelForUser uid s = (s', r) ->
  db s' = db s /\ clock s' = clock s /\ forall c, r = Ok c -> channels (db s) !! c_ID c = Some c /\ c_UserID c = uid.
Proof.
  intros Hok H. apply no_rows_to_returns in H as (r0 & H & Hr0). unfold GetChannelByUserID in H.
  pose proof (statement_reads _ _ _ _ H eq_refl) as Hd. apply statement_cases in H as (Hc & H).
  split_and!; [done..|]. intros c ->. destruct r0 as [c'|]; [|done]. injection Hr0 as ->.
  destruct H as [[_ ?]|[_ [H|?]]]; [done| |done]. simpl in H. destruct (select _ _) as [x|] eqn:E; [|done]. injection H as ->.
  apply select_Some in E as (k & Hk & Hu%Z.eqb_eq). by rewrite (proj1 (k_channels _ (ok_schema _ Hok) _ _ Hk)).
Qed.

Lemma ChannelByName_cases name s s' r : ChannelByName name s = (s', r) -> db s' = db s /\ clock s' = clock s.
Proof.
  intros H. apply no_rows_to_returns in H as (r0 & H & _). unfold GetChannelByName in H.
  pose proof (statement_reads _ _ _ _ H) as Hd. apply statement_cases in H as (Hc & _). split; [|done].
  apply Hd. unfold with_texts. by destruct (texts_ok _).
Qed.

Lemma Login_cases compare username password s s' r : Login compare username password s = (s', r) -> db s' = db s.
Proof.
  unfold Login. intros H. assert (Hk : forall s1 r1, no_rows_to ErrBadCredentials "lookup user" (GetUserByUsername username) s = (s1, r1) -> db s1 = db s).
  { intros s1 r1 H1. apply no_rows_to_returns in H1 as (r0 & H1 & _). unfold GetUserByUsername in H1.
    apply (statement_reads _ _ _ _ H1). unfold with_texts. by destruct (texts_ok _). }
  apply bind_returns in H as [(s1 & u & H1 & H)|(e & H1 & ->)]; [|by eapply Hk].
  apply Hk in H1. destruct (verifyPassword _ _ _); by injection H as <- _.
Qed.

Lemma CreateSession_keeps ttl uid buf s s' r : Auth.CreateSession ttl uid buf s = (s', r) -> ok (db s) ->
  ok (db s') /\ keeps (db s) (db s').
Proof.
  unfold Auth.CreateSession. intros H Hok. apply bind_returns in H as [(s1 & tok & [= <- Ht] & H)|(e & [= <- _] & ->)]; [|done].
  apply bind_returns in H as [(s2 & now & [= <- <-] & H)|(e & ? & ->)]; [|done].
  assert (Hk : forall s1 r1, wrapping "create session" (Store.CreateSession tok uid (timestamptz (clock s + ttl))) s = (s1, r1) ->
    ok (db s1) /\ keeps (db s) (db s1)).
  { intros s1 r1 H1. apply wrapping_returns in H1 as (r0 & H1 & _). split; [by eapply CreateSession_ok|].
    unfold Store.CreateSession in H1. apply (statement_keeps (keeps (db s)) _ _ _ _ H1); [|done]. intros _.
    apply with_texts_keeps; [done|]. destruct (is_some _); [done|]. by destruct (is_some _). }
  apply bind_returns in H as [(s2 & u & H1 & [= <- _])|(e & H1 & ->)]; by eapply Hk.
Qed.

Lemma Logout_keeps token s s' r : Logout token s = (s', r) -> ok (db s) -> ok (db s') /\ keeps (db s) (db s').
Proof.
  unfold Logout. intros H Hok. destruct (String.eqb token ""); [by injection H as <- _|]. split; [by eapply DeleteSession_ok|].
  unfold DeleteSession in H. apply (statement_keeps (keeps (db s)) _ _ _ _ H); [|done]. intros _.
  by apply with_texts_keeps.
Qed.

Lemma Signup_keeps parse generate n e p salt buf s s' r : Signup parse generate n e p salt buf s = (s', r) -> ok (db s) ->
  ok (db s') /\ keeps (db s) (db s').
Proof.
  intros H Hok. destruct (signup_refused _ _ _ _ _ _ _ _ _ _ H) as [(x & _ & ->)|(h & key & V1 & V2 & V3 & V4 & V5)]; [done|].
  rewrite (signup_validated _ _ _ _ _ _ _ h key) in H by done.
  destruct ((wrapping "begin tx" Begin ≫= _) s) as [s1 r1] eqn:Htx. injection H as -> _.
  apply signup_tx in Htx as (Hok' & _ & Hout); [|done]. split; [done|].
  destruct Hout as [[(Hu & Hc & _ & Hss & _) _]|(u & c & Hu & Hnu & Hc & Hd & _)].
  - split_and!; [intros id v; by rewrite Hu | intros id v; by rewrite Hc | done].
  - rewrite Hd. split_and!; simpl; [| |done].
    + intros id v Hv. rewrite lookup_insert_ne; [done|]. intros <-.
      rewrite (fresh_user _ _ (ok_schema _ Hok) (proj1 Hnu)) in Hv. done.
    + intros id v Hv. rewrite lookup_insert_ne; [done|]. intros <-.
      apply (k_channels _ (ok_schema _ Hok)) in Hv. rewrite Hc in Hv. simpl in Hv. lia.
Qed.

(** A change of one channel. *)
Definition rewrites (f : Channel -> Channel) (id : Z) (d d' : tables) : Prop :=
  d' = d \/ d' = set_channels (alter f id (channels d)) (next_channel d) d.

Lemma RegenerateStreamKey_cases id buf s s' r : RegenerateStreamKey id buf s = (s', r) ->
  exists hash, rewrites (with_key hash) id (db s) (db s').
Proof.
  unfold RegenerateStreamKey. intros H. apply bind_returns in H as [(s1 & key & [= <- Hk] & H)|(e & [= <- _] & ->)]; [|by exists ""%string; left].
  exists key.2. assert (Hu : forall s1 r1, wrapping "update key" (UpdateChannelStreamKey id key.2) s = (s1, r1) -> rewrites (with_key key.2) id (db s) (db s1)).
  { intros s1 r1 H1. apply wrapping_returns in H1 as (r0 & H1 & _). unfold UpdateChannelStreamKey in H1.
    apply statement_cases in H1 as (_ & [[-> _]|[-> _]]); [by left|]. unfold with_texts. destruct (texts_ok _); [by right | by left]. }
  apply bind_returns in H as [(s2 & u & H1 & [= <- _])|(e & H1 & ->)]; by eapply Hu.
Qed.

Lemma UpdateChannelTitle_cases id title s s' r : Auth.UpdateChannelTitle id title s = (s', r) ->
  exists t, rewrites (with_title t) id (db s) (db s').
Proof.
  unfold Auth.UpdateChannelTitle, Store.UpdateChannelTitle. intros H. eexists.
  apply statement_cases in H as (_ & [[-> _]|[-> _]]); [by left|]. unfold with_texts. destruct (texts_ok _); [by right | by left].
Qed.

(** ** Handlers *)
Create HintDb web discriminated.

Section Effects.
Context {C : Type} `{chatGateway C}.
Abbreviation http := (prog (site (C := C)) panic).

(** [effect m]: the schema's invariant survives, existing rows are kept. *)
Definition effect {A} (m : http A) : Prop := forall s, ok (db (s_db s)) ->
  ok (db (s_db (m s).1)) /\ keeps (db (s_db s)) (db (s_db (m s).1)).

(** [calm m]: no panic, and the chat service is left alone; [safe m]: no panic
    as long as the chat service accepts connections without one. *)
Definition calm {A} (m : http A) : Prop := forall s, s_chat (m s).1 = s_chat s /\ exists a, (m s).2 = Ok a.
Definition accepting (c : C) : Prop := forall n u i a, exists c', gw_ServeWS n u i a c = Ok c'.
Definition safe {A} (m : http A) : Prop := forall s, accepting (s_chat s) -> exists a, (m s).2 = Ok a.

Lemma calm_safe {A} (m : http A) : calm m -> safe m.
Proof. intros Hm s _. apply Hm. Qed.

Lemma effect_bind {A B} (m : http A) (f : A -> http B) : effect m -> (forall a, effect (f a)) -> effect (m ≫= f).
Proof.
  intros Hm Hf s Hs. rewrite prog_bind_eq. destruct (Hm s Hs) as [H1 H2]. destruct (m s) as [s1 [a|e]]; simpl in *; [|done].
  destruct (Hf a s1 H1) as [H3 H4]. split; [done | by etransitivity].
Qed.
Lemma calm_bind {A B} (m : http A) (f : A -> http B) : calm m -> (forall a, calm (f a)) -> calm (m ≫= f).
Proof.
  intros Hm Hf s. rewrite prog_bind_eq. destruct (Hm s) as (H1 & a & Ha). destruct (m s) as [s1 r]. simpl in *. subst r.
  destruct (Hf a s1) as [H2 H3]. split; [congruence | done].
Qed.
Lemma safe_bind {A B} (m : http A) (f : A -> http B) : calm m -> (forall a, safe (f a)) -> safe (m ≫= f).
Proof.
  intros Hm Hf s Hs. rewrite prog_bind_eq. destruct (Hm s) as (H1 & a & Ha). destruct (m s) as [s1 r]. simpl in *. subst r.
  apply Hf. by rewrite H1.
Qed.

Lemma effect_ret {A} (a : A) : effect (mret a).
Proof. by intros s Hs. Qed.
Lemma effect_throw {A} p : effect (@throw site panic A p).
Proof. by intros s Hs. Qed.
Lemma effect_gets {A} (f : site -> A) : effect (gets f).
Proof. by intros s Hs. Qed.
Lemma effect_writer f : effect (on_writer f).
Proof. by intros s Hs. Qed.
Lemma effect_svc {A} (q : query A) : (forall s s' r, q s = (s', r) -> ok (db s) -> ok (db s') /\ keeps (db s) (db s')) -> effect (svc q).
Proof. intros Hq s Hs. unfold svc. destruct (q (s_db s)) as [d r] eqn:E. by apply Hq in E. Qed.
Lemma effect_reads {A} (q : query A) : (forall s s' r, q s = (s', r) -> ok (db s) -> db s' = db s) -> effect (svc q).
Proof. intros Hq. apply effect_svc. intros s s' r E Hok. rewrite (Hq _ _ _ E Hok). done. Qed.

Lemma calm_ret {A} (a : A) : calm (mret a).
Proof. intros s. split; [done | by exists a]. Qed.
Lemma calm_gets {A} (f : site -> A) : calm (gets f).
Proof. intros s. split; [done | by exists (f s)]. Qed.
Lemma calm_writer f : calm (on_writer f).
Proof. intros s. split; [done | by exists tt]. Qed.
Lemma calm_svc {A} (q : query A) : calm (svc q).
Proof. intros s. unfold svc. destruct (q (s_db s)) as [d r]. split; [done | by exists r]. Qed.

Lemma safe_ServeWS n u i a : safe (ServeWS n u i a).
Proof. intros s Hs. unfold ServeWS. destruct (Hs n u i a) as [c ->]. by exists tt. Qed.
Lemma effect_ServeWS n u i a : effect (ServeWS n u i a).
Proof. intros s Hs. unfold ServeWS. by destruct (gw_ServeWS _ _ _ _ _). Qed.
End Effects.

#[export] Hint Resolve effect_ret effect_throw effect_gets effect_writer calm_ret calm_gets calm_writer calm_svc
  safe_ServeWS effect_ServeWS : web.

(** Follows a handler's text. *)
Ltac web_step :=
  first
    [ solve [auto with web]
    | match goal with
      | |- effect (_ ≫= _) => apply effect_bind; [|intros ?]
      | |- calm (_ ≫= _) => apply calm_bind; [|intros ?]
      | |- safe (_ ≫= _) => apply safe_bind; [|intros ?]
      | |- effect (match ?x with _ => _ end) => destruct x
      | |- calm (match ?x with _ => _ end) => destruct x
      | |- safe (match ?x with _ => _ end) => destruct x
      | |- effect (svc _) => first [apply effect_svc; intros ???? | apply effect_reads; intros ????]
      end
    | apply calm_safe; solve [auto with web] ].
Ltac web := repeat web_step.

Section Handlers.
Context {C : Type} `{chatGateway C} {L : Type} `{liveDirectory L}.
Context (parse_address : string -> bool).
Context (bcrypt_generate : list Z -> string -> option string).
Context (bcrypt_compare : string -> string -> bool).
Context (driver_text : err -> string).
Context (sessionTTL : Z) (secureCookies : bool).
Context (lv : L).

Lemma svc_SessionUser token : effect (svc (C := C) (SessionUser token)).
Proof. apply effect_reads. by intros s s' r (? & _)%SessionUser_cases _. Qed.
Lemma svc_ChannelForUser uid : effect (svc (C := C) (ChannelForUser uid)).
Proof. apply effect_reads. intros s s' r E Hok. by apply ChannelForUser_cases in E as (? & _). Qed.
Lemma svc_ChannelByName name : effect (svc (C := C) (ChannelByName name)).
Proof. apply effect_reads. by intros s s' r (? & _)%ChannelByName_cases _. Qed.
Lemma svc_Login n p : effect (svc (C := C) (Login bcrypt_compare n p)).
Proof. apply effect_reads. by intros s s' r E%Login_cases _. Qed.
Lemma svc_CreateSession ttl uid buf : effect (svc (C := C) (Auth.CreateSession ttl uid buf)).
Proof. apply effect_svc. apply CreateSession_keeps. Qed.
Lemma svc_Logout token : effect (svc (C := C) (Logout token)).
Proof. apply effect_svc. apply Logout_keeps. Qed.
Lemma svc_Signup n e p salt buf : effect (svc (C := C) (Signup parse_address bcrypt_generate n e p salt buf)).
Proof. apply effect_svc. apply Signup_keeps. Qed.
Lemma svc_ping : effect (svc (C := C) (statement (fun d => (d, @Ok err unit tt)))).
Proof. apply effect_reads. intros s s' r E _. by apply (statement_reads _ _ _ _ E). Qed.
#[local] Hint Resolve svc_SessionUser svc_ChannelForUser svc_ChannelByName svc_Login svc_CreateSession svc_Logout svc_Signup svc_ping : web.

(** Every page has a template. *)
Lemma Render_eq ctx p : Render (C := C) ctx p = on_writer (fun w => write (BPage ctx p) (set_ContentType "text/html; charset=utf-8" w)).
Proof. by destruct p. Qed.

Lemma effect_Render ctx p : effect (C := C) (Render ctx p).
Proof. unfold Render. web. Qed.
Lemma calm_Render ctx p : calm (C := C) (Render ctx p).
Proof. unfold Render. web. Qed.
Lemma effect_anon e r : effect (C := C) (ensureAnonCookie e r).
Proof. unfold ensureAnonCookie. web. Qed.
Lemma calm_anon e r : calm (C := C) (ensureAnonCookie e r).
Proof. unfold ensureAnonCookie. web. Qed.
Lemma effect_set_cookie t b a : effect (C := C) (setSessionCookie t b a).
Proof. apply effect_writer. Qed.
Lemma effect_clear_cookie b : effect (C := C) (clearSessionCookie b).
Proof. apply effect_writer. Qed.
Lemma calm_set_cookie t b a : calm (C := C) (setSessionCookie t b a).
Proof. apply calm_writer. Qed.
Lemma calm_clear_cookie b : calm (C := C) (clearSessionCookie b).
Proof. apply calm_writer. Qed.
#[local] Hint Resolve effect_Render calm_Render effect_anon calm_anon effect_set_cookie effect_clear_cookie
  calm_set_cookie calm_clear_cookie : web.

Lemma signup_effect e r ctx : effect (C := C) (signup parse_address bcrypt_generate driver_text sessionTTL secureCookies e r ctx).
Proof. unfold signup. web. Qed.
Lemma login_effect e r ctx : effect (C := C) (login bcrypt_compare driver_text sessionTTL secureCookies e r ctx).
Proof. unfold login. web. Qed.
Lemma logout_effect r ctx : effect (C := C) (logout secureCookies r ctx).
Proof. unfold logout. web. Qed.
Lemma home_effect r ctx : effect (C := C) (home lv r ctx).
Proof. unfold home. web. Qed.
Lemma watch_effect e name r ctx : effect (C := C) (watch lv e name r ctx).
Proof. unfold watch. web. Qed.
Lemma chatWS_effect e name r ctx : effect (C := C) (chatWS e name r ctx).
Proof. unfold chatWS. web. Qed.
Lemma dashboard_effect r ctx : effect (C := C) (dashboard r ctx).
Proof. unfold dashboard, deref_user. web. Qed.
Lemma healthz_effect r ctx : effect (C := C) (healthz driver_text r ctx).
Proof. unfold healthz. web. Qed.

Lemma signup_calm e r ctx : calm (C := C) (signup parse_address bcrypt_generate driver_text sessionTTL secureCookies e r ctx).
Proof. unfold signup. web. Qed.
Lemma login_calm e r ctx : calm (C := C) (login bcrypt_compare driver_text sessionTTL secureCookies e r ctx).
Proof. unfold login. web. Qed.
Lemma logout_calm r ctx : calm (C := C) (logout secureCookies r ctx).
Proof. unfold logout. web. Qed.
Lemma home_calm r ctx : calm (C := C) (home lv r ctx).
Proof. unfold home. web. Qed.
Lemma watch_calm e name r ctx : calm (C := C) (watch lv e name r ctx).
Proof. unfold watch. web. Qed.
Lemma healthz_calm r ctx : calm (C := C) (healthz driver_text r ctx).
Proof. unfold healthz. web. Qed.
Lemma chatWS_safe e name r ctx : safe (C := C) (chatWS e name r ctx).
Proof. unfold chatWS. web. Qed.
Lemma dashboard_calm r u : calm (C := C) (dashboard r (Some u)).
Proof. unfold dashboard, deref_user. web. Qed.
Lemma updateTitle_calm r u : calm (C := C) (updateTitle r (Some u)).
Proof. unfold updateTitle, deref_user. web. Qed.
Lemma regenerateKey_calm e r u : calm (C := C) (regenerateKey e r (Some u)).
Proof. unfold regenerateKey, deref_user. web. Qed.
End Handlers.
