(* ===== verification/Site.v ===== *)
(** * The chat service behind the web's [chatGateway] interface *)

From Stdlib Require Import QArith.
From S2P Require Import Prelude Encoding Errors StreamKey Manager ChatSys ChatInv ChatSafe Store StoreInv Auth AuthThms Stream StreamThms StreamRows StreamProps StreamBoot Http Web WebLib.

#[export] Instance chat_gateway : chatGateway chat :=
  {| gw_ServeWS := accept; gw_ViewerCount := ViewerCount |}.

(** Every state that a polite run of the chat system reaches accepts
    connections. *)
Lemma chat_accepts s : reg_ok s -> sys_ok s -> accepting s.
Proof.
  intros Hreg Hok n u i a. destruct (sstep_safe (fun _ => None) s (SAccept n u i a) Hreg Hok I) as (s' & Hs & _).
  by exists s'.
Qed.

Lemma newChat_accepts opts : accepting (newChat opts).
Proof. apply chat_accepts; [apply newChat_reg_ok | apply newChat_sys_ok]. Qed.

(** ** A small site for the witnesses: bob, his channel and his session *)
Definition bob_token : string := EncodeToString (replicate 32 5%Z).
Definition bobs_site_db : tables :=
  Store.set_sessions {[bob_token := {| s_ID := bob_token; s_UserID := 1%Z; s_ExpiresAt := 9000000000%Z; s_CreatedAt := 0%Z |}]} bobs_db.
Definition quiet_chat : chat := newChat {| RateBurst := 5%Z; RatePerSecond := 1%Q |}.
Definition toy_env : env :=
  {| e_salt := toy_salt; e_key := Some (replicate 32 7%Z); e_token := Some (replicate 32 9%Z); e_anon := Some (replicate 16 1%Z); e_upgrade := true |}.
Definition bob_asks (method : string) (path : list string) (form : list (string * string)) : request :=
  {| r_method := method; r_path := path; r_cookies := [(SessionCookieName, bob_token)]; r_form := Some form |}.
Definition no_text (e : err) : string := "".
Definition fresh_site (s : store) : site := {| s_db := s; s_chat := quiet_chat; s_w := new_writer |}.

Lemma bobs_site_db_ok : ok bobs_site_db.
Proof.
  apply set_sessions_ok; [apply bobs_db_ok|]. intros t x. rewrite lookup_singleton_Some. intros [<- <-].
  split; [done|]. simpl. by eexists.
Qed.
