(* ===== verification/WebThms.v ===== *)
(** * What the web site guarantees *)

From S2P Require Import Prelude Utf8 Encoding Errors StreamKey Store StoreInv Auth AuthThms Manager Stream Http Web WebLib Site.
Local Open Scope Z_scope.

(** ** Which handler answers *)
Section MuxLemmas.
Context {H : Type}.
Implicit Types (rts : list (route H)) (rt : route H).

Lemma find_method_spec rts m path rt vs : find_method rts m path = Some (rt, vs) -> rt ∈ rts /\ rt_method rt = m.
Proof.
  unfold find_method. assert (Hg : forall best, (forall b ws, best = Some (b, ws) -> rt_method b = m) ->
    foldl (candidate m path) best rts = Some (rt, vs) -> (rt ∈ rts \/ best = Some (rt, vs)) /\ rt_method rt = m).
  { induction rts as [|x rts IH]; intros best Hb E; simpl in E; [split; [by right | by apply (Hb rt vs)]|].
    apply IH in E as [[E|E] Em].
    - split; [left; by right | done].
    - split; [|done]. unfold candidate in E. destruct (matches (rt_pattern x) path) as [ws|]; [|by right].
      destruct (String.eqb _ _); [|by right]. destruct best as [[b ws']|]; [|injection E as -> ->; left; left].
      destruct (before _ _); [injection E as -> ->; left; left | by right].
    - unfold candidate. intros b ws. destruct (matches (rt_pattern x) path) as [ws0|]; [|by apply Hb].
      destruct (String.eqb_spec (rt_method x) m); [|by apply Hb].
      destruct best as [[b' ws']|]; [destruct (before _ _)|]; [|by apply Hb|]; by intros [= <- _]. }
  intros E. by apply Hg in E as [[?|?] ?].
Qed.

Lemma mux_spec rts r h vs : mux rts r = Routed h vs ->
  exists rt, rt ∈ rts /\ rt_handler rt = h /\ (rt_method rt = r_method r \/ rt_method rt = "GET"%string).
Proof.
  unfold mux. destruct (_ && _); [done|]. destruct (find_route rts (r_method r) (r_path r)) as [[rt ws]|] eqn:E.
  - intros [= <- <-]. exists rt. unfold find_route in E. destruct (find_method rts (r_method r) _) as [[rt' ws']|] eqn:E1.
    + injection E as -> ->. apply find_method_spec in E1 as [? ?]. auto.
    + destruct (String.eqb _ _); [|done]. apply find_method_spec in E as [? ?]. auto.
  - by destruct (existsb _ _).
Qed.
End MuxLemmas.

Section Site.
Context {C : Type} `{chatGateway C} {L : Type} `{liveDirectory L}.
Context (parse_address : string -> bool).
Context (bcrypt_generate : list Z -> string -> option string).
Context (bcrypt_compare : string -> string -> bool).
Context (driver_text : err -> string).
Context (sessionTTL : Z) (secureCookies : bool).
Context (lv : L).

Abbreviation serve := (serve (C := C) parse_address bcrypt_generate bcrypt_compare driver_text sessionTTL secureCookies lv).
Abbreviation dispatch := (dispatch (C := C) parse_address bcrypt_generate bcrypt_compare driver_text sessionTTL secureCookies lv).
Abbreviation routes := (routes (C := C) parse_address bcrypt_generate bcrypt_compare driver_text sessionTTL secureCookies lv).

Lemma dispatch_safe e r ctx : safe (dispatch e r ctx).
Proof.
  unfold Web.dispatch. destruct (mux routes r) as [h vs| | |] eqn:E; [|apply calm_safe, calm_writer..].
  apply mux_spec in E as (rt & Hin & <- & _). unfold Web.routes in Hin.
  repeat (apply elem_of_cons in Hin as [->|Hin]; [cbn [rt_handler]|]); [..|by apply not_elem_of_nil in Hin];
    unfold RequireGuest, RequireAuth; try (destruct ctx; [|apply calm_safe, calm_writer]);
    try (apply calm_safe; first [apply healthz_calm | apply home_calm | apply watch_calm | apply calm_writer | apply calm_Render
      | apply signup_calm | apply login_calm | apply logout_calm | apply dashboard_calm | apply updateTitle_calm | apply regenerateKey_calm]; fail).
  all: try (destruct ctx; apply calm_safe; first [apply calm_writer | apply calm_Render | apply signup_calm | apply login_calm]).
  all: apply chatWS_safe.
Qed.

(** C36: no request panics. Whatever the request, the cookies, the form, the
    random source and the database do, the handlers run without a panic, as
    long as the chat service accepts connections without one; in particular
    the dashboard handlers' unchecked dereference of the user is safe behind
    [RequireAuth]. *)
Theorem no_request_panics e r s : accepting (s_chat s) -> (serve e r s).2 = Ok tt.
Proof.
  intros Ha. assert (Hs : safe (serve e r)).
  { unfold Web.serve, Middleware. destruct (r_Cookie _ _) as [[|c tok]|]; [apply dispatch_safe| |apply dispatch_safe].
    apply safe_bind; [apply calm_svc|]. intros [u|x]; [apply dispatch_safe|].
    apply safe_bind; [apply calm_clear_cookie|]. intros _. apply dispatch_safe. }
  destruct (Hs s Ha) as [[] Hr]. exact Hr.
Qed.

(** ** Who may change a channel *)
Definition rewritten (c c' : Channel) : Prop := (exists t, c' = with_title t c) \/ (exists h, c' = with_key h c).

(** The session token of a request names user [u] at this time. *)
Definition signed_in (r : request) (s : store) (u : User) : Prop :=
  exists token x, r_Cookie SessionCookieName r = Some token /\ Store.sessions (db s) !! token = Some x /\
    pg_now s < s_ExpiresAt x /\ users (db s) !! s_UserID x = Some u.

Definition owner_effect {A} (m : prog (site (C := C)) panic A) (r : request) (ctx : option User) : Prop :=
  forall s, ok (db (s_db s)) -> let d := db (s_db s) in let d' := db (s_db (m s).1) in
  (forall id u, users d !! id = Some u -> users d' !! id = Some u) /\
  stream_sessions d' = stream_sessions d /\
  forall id c, channels d !! id = Some c -> exists c', channels d' !! id = Some c' /\
    (c' = c \/ (rewritten c c' /\ r_method r = "POST"%string /\ exists u, ctx = Some u /\ c_UserID c = u_ID u)).

Lemma effect_owner {A} (m : prog (site (C := C)) panic A) r ctx : effect m -> owner_effect m r ctx.
Proof.
  intros Hm s Hs. destruct (Hm s Hs) as (_ & H1 & H2 & H3). split_and!; [done..|]. intros id c Hc. exists c. auto.
Qed.

(** A change of the channel that the dashboard found for the user. *)
Lemma rewrite_owner f id u r d d' : ok d -> rewrites f id d d' -> r_method r = "POST"%string ->
  (forall c, rewritten c (f c)) -> (forall c, channels d !! id = Some c -> c_UserID c = u_ID u) ->
  (forall i v, users d !! i = Some v -> users d' !! i = Some v) /\
  stream_sessions d' = stream_sessions d /\
  forall i c, channels d !! i = Some c -> exists c', channels d' !! i = Some c' /\
    (c' = c \/ (rewritten c c' /\ r_method r = "POST"%string /\ exists u', Some u = Some u' /\ c_UserID c = u_ID u')).
Proof.
  intros Hok [-> | ->] Hm Hf Hu; [split_and!; [done..|]; intros i c Hc; exists c; auto|].
  split_and!; [done..|]. simpl. intros i c Hc. destruct (decide (i = id)) as [->|Hne].
  - rewrite lookup_alter_eq, Hc. exists (f c). split; [done|]. right. split_and!; [done..|]. exists u. auto.
  - rewrite lookup_alter_ne by done. exists c. auto.
Qed.

(** A handler that goes on with the answer of a service call. *)
Definition with_db (d : store) (s : site (C := C)) : site := {| s_db := d; s_chat := s_chat s; s_w := s_w s |}.
Lemma svc_bind {A B} (q : query A) (f : res err A -> prog (site (C := C)) panic B) s d x : q (s_db s) = (d, x) ->
  (svc q ≫= f) s = f x (with_db d s).
Proof. intros E. rewrite prog_bind_eq. unfold svc. by rewrite E. Qed.

(** The dashboard's lookup, then a change of that channel and an answer that
    leaves the database alone. *)
Lemma owner_change {A} (u : User) (q : Z -> query A) (answer : res err A -> prog (site (C := C)) panic unit) refused r :
  r_method r = "POST"%string ->
  (forall x s, s_db (answer x s).1 = s_db s) -> (forall s, s_db (refused s).1 = s_db s) ->
  (forall id s s' x, q id s = (s', x) -> exists f, rewrites f id (db s) (db s') /\ forall c, rewritten c (f c)) ->
  owner_effect (channel ← svc (ChannelForUser (u_ID u));
                match channel with Err _ => refused | Ok ch => x ← svc (q (c_ID ch)); answer x end) r (Some u).
Proof.
  intros Hm Hans Href Hq s Hs. destruct (ChannelForUser (u_ID u) (s_db s)) as [d1 x1] eqn:E1.
  rewrite (svc_bind _ _ s d1 x1 E1). apply ChannelForUser_cases in E1 as (Hd1 & _ & Hch); [|done].
  destruct x1 as [ch|x].
  - destruct (q (c_ID ch) d1) as [d2 x] eqn:E2. rewrite (svc_bind _ _ (with_db d1 s) d2 x E2).
    rewrite Hans. cbn [with_db s_db]. apply Hq in E2 as (f & Hrw & Hf). rewrite Hd1 in Hrw.
    apply (rewrite_owner f (c_ID ch)); [done..|]. intros c Hc. destruct (Hch ch eq_refl). by simplify_eq.
  - rewrite Href. cbn [with_db s_db]. rewrite Hd1. split_and!; [done..|]. intros id c Hc. exists c. auto.
Qed.

Lemma updateTitle_owner r ctx : r_method r = "POST"%string -> owner_effect (updateTitle r ctx) r ctx.
Proof.
  intros Hm. unfold updateTitle. destruct (r_form r) as [form|]; [|apply effect_owner, effect_writer].
  destruct ctx as [u|]; [|apply (effect_owner (throw NilDereference)), effect_throw].
  apply (owner_change u (fun id => Auth.UpdateChannelTitle id (PostForm_Get "title" form))); [done| |done|].
  - by intros [].
  - intros id s s' x (t & Hrw)%UpdateChannelTitle_cases. exists (with_title t). split; [done|]. intros c. left. by eexists.
Qed.

Lemma regenerateKey_owner e r ctx : r_method r = "POST"%string -> owner_effect (regenerateKey e r ctx) r ctx.
Proof.
  intros Hm. unfold regenerateKey. destruct ctx as [u|]; [|apply (effect_owner (throw NilDereference)), effect_throw].
  apply (owner_change u (fun id => RegenerateStreamKey id (e_key e))); [done| |done|].
  - by intros [].
  - intros id s s' x (h & Hrw)%RegenerateStreamKey_cases. exists (with_key h). split; [done|]. intros c. right. by eexists.
Qed.

Lemma dispatch_owner e r ctx : owner_effect (dispatch e r ctx) r ctx.
Proof.
  unfold Web.dispatch. destruct (mux routes r) as [h vs| | |] eqn:E; [|apply effect_owner, effect_writer..].
  apply mux_spec in E as (rt & Hin & <- & Hm). unfold Web.routes in Hin.
  repeat (apply elem_of_cons in Hin as [->|Hin]; [cbn [rt_handler rt_method] in *|]); [..|by apply not_elem_of_nil in Hin];
    unfold RequireGuest, RequireAuth; try (apply effect_owner; first [apply healthz_effect | apply home_effect | apply watch_effect
      | apply chatWS_effect | apply effect_writer]; fail);
    (destruct ctx as [u|]; first
      [ apply effect_owner; first [apply effect_writer | apply effect_Render | apply signup_effect | apply login_effect | apply logout_effect
          | apply dashboard_effect]; fail
      | destruct Hm as [Hm|[=]]; first [by apply updateTitle_owner | by apply regenerateKey_owner] ]).
Qed.

Lemma owner_lift {A} (m : prog (site (C := C)) panic A) r ctx s0 s1 : owner_effect m r ctx -> ok (db (s_db s1)) ->
  (forall u, ctx = Some u -> signed_in r s0 u) ->
  let d := db (s_db s1) in let d' := db (s_db (m s1).1) in
  (forall id u, users d !! id = Some u -> users d' !! id = Some u) /\
  stream_sessions d' = stream_sessions d /\
  forall id c, channels d !! id = Some c -> exists c', channels d' !! id = Some c' /\
    (c' = c \/ (rewritten c c' /\ r_method r = "POST"%string /\ exists u, signed_in r s0 u /\ c_UserID c = u_ID u)).
Proof.
  intros Hm Hok Hctx d d'. destruct (Hm s1 Hok) as (H1 & H2 & H3). split_and!; [done..|].
  intros id c Hc. destruct (H3 id c Hc) as (c' & Hc' & [->|(Hr & Hp & u & Hu & Ho)]); [eauto|].
  exists c'. split; [done|]. right. split_and!; [done..|]. exists u. auto.
Qed.

End Site.

(** Bob's title request, while the database fails at every statement. *)
Lemma no_request_panics_witness :
  (serve (C := chat) (L := live) toy_address toy_generate toy_compare no_text 3600000000000 false (new_live (empty_store []) ∅) toy_env
     (bob_asks "POST" ["dashboard"; "title"]%string [("title", "hi")]%string)
     (fresh_site {| db := bobs_site_db; clock := 5000000; faults := [Fine; Lost; Lost] |})).2 = Ok tt.
Proof. apply no_request_panics. exact (newChat_accepts _). Defined.

