(* ===== verification/WebJourney.v ===== *)
(** * Journeys of a browser through the site: sign up, log in, dashboard, log out *)

From S2P Require Import Prelude Utf8 Encoding Errors StreamKey Store StoreInv Auth AuthThms Stream StreamThms StreamRows StreamProps StreamBoot Rotation Manager Http Web WebLib Site.
Local Open Scope Z_scope.

(** ** The service when the database answers *)
Lemma at_time_eta s : faults s = [] -> s = at_time (clock s) (db s).
Proof. destruct s as [d t f]. simpl. by intros ->. Qed.

Lemma set_db_at_time d t d' : set_db d' (at_time t d) = at_time t d'.
Proof. done. Qed.

Lemma CreateSession_fine ttl uid u buf t d : Forall is_byte buf -> users d !! uid = Some u ->
  let token := EncodeToString buf in
  Store.sessions d !! token = None ->
  Auth.CreateSession ttl uid (Some buf) (at_time t d) =
  (at_time t (Store.set_sessions (<[token := {| s_ID := token; s_UserID := uid; s_ExpiresAt := timestamptz (t + ttl); s_CreatedAt := t / 1000 |}]>
     (Store.sessions d)) d), Ok token).
Proof.
  intros Hb Hu token Hn. unfold Auth.CreateSession. cbn [newSessionToken]. fold token. rewrite bind_lift, prog_bind_eq. cbn [gets].
  rewrite prog_bind_eq. unfold wrapping, catch, Store.CreateSession. rewrite statement_fine by done.
  unfold with_texts, texts_ok. cbn [forallb]. rewrite (encoded_pg_text buf Hb : pg_text token = true). cbn [andb db at_time].
  rewrite Hn, Hu. done.
Qed.

Lemma Login_user compare username password s s' u : ok (db s) -> Login compare username password s = (s', Ok u) ->
  users (db s) !! u_ID u = Some u.
Proof.
  intros Hok H. unfold Login in H. apply bind_returns in H as [(s1 & v & H1 & H)|(e & _ & ?)]; [|done].
  destruct (verifyPassword _ _ _); [|done]. injection H as _ ->.
  apply no_rows_to_returns in H1 as (r0 & H1 & Hr0). destruct r0 as [v|e]; [|done]. injection Hr0 as ->.
  unfold GetUserByUsername in H1. apply statement_cases in H1 as (_ & [[_ ?]|[_ [H1|?]]]); [done| |done].
  unfold with_texts in H1. destruct (texts_ok _); [|done]. simpl in H1. destruct (select _ _) as [x|] eqn:E; [|done]. injection H1 as ->.
  apply select_Some in E as (k & Hk & _). by rewrite (proj1 (k_users _ (ok_schema _ Hok) _ _ Hk)).
Qed.

Lemma Login_at_time compare username password t d s' r : Login compare username password (at_time t d) = (s', r) -> s' = at_time t d.
Proof.
  unfold Login, no_rows_to, catch, GetUserByUsername. rewrite prog_bind_eq, statement_fine by done.
  assert (E : (with_texts [username] (fun d0 => one d0 (select (fun v => (u_Username v =? username)%string) (users d0))) (db (at_time t d))).1 = d)
    by (unfold with_texts; by destruct (texts_ok _)).
  rewrite E, set_db_at_time. destruct (with_texts _ _ _).2 as [v|x]; [|by intros [= <- _]].
  destruct (verifyPassword _ _ _); by intros [= <- _].
Qed.

Lemma ChannelForUser_fine i c t d : ok d -> channels d !! i = Some c ->
  ChannelForUser (c_UserID c) (at_time t d) = (at_time t d, Ok c).
Proof.
  intros Hok Hc. unfold ChannelForUser, no_rows_to, catch, GetChannelByUserID. rewrite statement_fine by done. simpl.
  rewrite (select_unique _ _ i c); [done|done|by apply Z.eqb_refl|].
  intros j e He E%Z.eqb_eq. assert (j = i) as -> by (by eapply (k_owner _ (ok_schema _ Hok))). congruence.
Qed.

Lemma Logout_fine token t d : pg_text token = true -> token <> ""%string ->
  Logout token (at_time t d) = (at_time t (Store.set_sessions (delete token (Store.sessions d)) d), Ok tt).
Proof.
  intros Ht Hn. unfold Logout. apply String.eqb_neq in Hn. rewrite Hn. unfold DeleteSession. rewrite statement_fine by done.
  unfold with_texts, texts_ok. cbn [forallb]. by rewrite Ht.
Qed.

(** No fault is made up. *)
Definition faultless {A} (m : query A) : Prop := forall s, faults s = [] -> faults (m s).1 = [].
Lemma faultless_statement {A} (body : tables -> tables * res err A) : faultless (statement body).
Proof. intros s Hf. by rewrite statement_fine. Qed.
Lemma faultless_bind {A B} (m : query A) (f : A -> query B) : faultless m -> (forall a, faultless (f a)) -> faultless (m ≫= f).
Proof. intros Hm Hf s Hs. rewrite prog_bind_eq. specialize (Hm s Hs). destruct (m s) as [s1 [a|e]]; [by apply Hf | done]. Qed.
Lemma faultless_catch {A} (m : query A) (h : err -> query A) : faultless m -> (forall e, faultless (h e)) -> faultless (catch m h).
Proof. intros Hm Hh s Hs. unfold catch. specialize (Hm s Hs). destruct (m s) as [s1 [a|e]]; [done | by apply Hh]. Qed.
Lemma faultless_in_tx {A} d (m : query A) : faultless m -> faultless (in_tx d m).
Proof. intros Hm s Hs. unfold in_tx. specialize (Hm s Hs). by destruct (m s) as [s1 [a|e]]. Qed.
Lemma faultless_commit d : faultless (commit_tx d).
Proof. intros s Hs. unfold commit_tx. rewrite Hs. by apply faultless_statement. Qed.

Lemma faultless_pure {A} (r : res err A) : faultless (fun s => (s, r)).
Proof. by intros s Hs. Qed.

Lemma Signup_faultless parse generate username email password salt buf :
  faultless (Signup parse generate username email password salt buf).
Proof.
  unfold Signup. repeat (apply faultless_bind; [|intros ?]); try apply faultless_pure.
  - apply faultless_catch; [apply faultless_statement | intros ?; apply faultless_pure].
  - apply faultless_in_tx, faultless_catch; [intros s; by apply faultless_statement | intros ?; apply faultless_pure].
  - apply faultless_in_tx, faultless_catch; [intros s; by apply faultless_statement | intros ?; apply faultless_pure].
  - apply faultless_catch; [apply faultless_commit | intros ?; apply faultless_pure].
Qed.

(** ** Cookies *)
Lemma assoc_jar jar name : assoc name (map_to_list jar) = jar !! name.
Proof.
  assert (H : forall l, NoDup l.*1 -> forall v, assoc name l = Some v <-> (name, v) ∈ l).
  { induction l as [|[k x] l IH]; intros Hnd v; [split; [done | by intros ?%not_elem_of_nil]|].
    apply NoDup_cons in Hnd as [Hk Hnd]. simpl. destruct (String.eqb_spec k name) as [->|Hne].
    - split; [intros [= ->]; left|]. intros [[= ->]|Hin]%elem_of_cons; [done|]. destruct Hk. apply list_elem_of_fmap. by exists (name, v).
    - rewrite IH by done. split; [by right|]. intros [[= -> _]|?]%elem_of_cons; done. }
  pose proof (H _ (NoDup_fst_map_to_list jar)) as Hj. destruct (jar !! name) as [v|] eqn:E.
  - by apply Hj, elem_of_map_to_list.
  - destruct (assoc name _) as [v|] eqn:E2; [|done]. pose proof (proj1 (Hj v) eq_refl) as Hin%elem_of_map_to_list. congruence.
Qed.

Section Journey.
Context {C : Type} `{chatGateway C} {L : Type} `{liveDirectory L}.
Context (parse_address : string -> bool).
Context (bcrypt_generate : list Z -> string -> option string).
Context (bcrypt_compare : string -> string -> bool).
Context (driver_text : err -> string).
Context (sessionTTL : Z) (secureCookies : bool).
Context (lv : L) (chat : C).

Abbreviation serve := (serve (C := C) parse_address bcrypt_generate bcrypt_compare driver_text sessionTTL secureCookies lv).

(** One request from the outside: the database after it, and the answer. *)
Definition respond (e : env) (r : request) (s : store) : store * (Z * headers * list body) :=
  let '(s', _) := serve e r {| s_db := s; s_chat := chat; s_w := new_writer |} in (s_db s', response (s_w s')).

(** A browser with its cookies. *)
Definition get_page (path : list string) (jar : gmap string string) : request :=
  {| r_method := "GET"; r_path := path; r_cookies := map_to_list jar; r_form := Some [] |}.
Definition post_form (path : list string) (form : list (string * string)) (jar : gmap string string) : request :=
  {| r_method := "POST"; r_path := path; r_cookies := map_to_list jar; r_form := Some form |}.
Definition cookies_after (jar : gmap string string) (h : headers) : gmap string string := foldl store_cookie jar (SetCookies h).

(** Who the jar's session cookie names. *)
Definition anonymous (jar : gmap string string) (t : Z) (d : tables) : Prop :=
  forall token x, jar !! SessionCookieName = Some token -> Store.sessions d !! token = Some x -> t / 1000 < s_ExpiresAt x -> users d !! s_UserID x = None.

(** ** The middleware *)
Definition first_writer (stale : bool) : writer body :=
  if stale then SetCookie (cookie SessionCookieName "" (-1) false) new_writer else new_writer.
Definition anon_site (s : store) (stale : bool) : site (C := C) :=
  {| s_db := s; s_chat := chat; s_w := first_writer stale |}.

Abbreviation dispatch := (dispatch (C := C) parse_address bcrypt_generate bcrypt_compare driver_text sessionTTL secureCookies lv).

(** An anonymous browser reaches the handlers without a user; a stale cookie is
    being cleared. *)
Lemma serve_anonymous e r jar t d : r_cookies r = map_to_list jar -> anonymous jar t d ->
  exists stale, serve e r (anon_site (at_time t d) false) = dispatch e r None (anon_site (at_time t d) stale).
Proof.
  intros Hr Ha. unfold Web.serve, Middleware, r_Cookie. rewrite Hr, assoc_jar.
  destruct (jar !! SessionCookieName) as [[|ch tok]|] eqn:Ej; [by exists false| |by exists false].
  set (token := String ch tok) in *. rewrite prog_bind_eq. unfold svc at 1. cbn [s_db anon_site].
  destruct (SessionUser token (at_time t d)) as [s1 x] eqn:E.
  assert (Hs1 : s1 = at_time t d).
  { unfold SessionUser, no_rows_to, catch, GetSessionWithUser in E. rewrite prog_bind_eq, statement_fine in E by done.
    unfold with_texts in E. destruct (texts_ok _); [|by injection E as <- _]. simpl in E. rewrite set_db_at_time in E.
    destruct (x0 ← Store.sessions d !! token; _) as [[y v]|]; by injection E as <- _. }
  subst s1. apply SessionUser_cases in E as (_ & _ & Hu). destruct x as [u|x].
  - destruct (Hu u eq_refl) as (y & Hy & Hlt & Huy). pose proof (Ha token y Ej Hy Hlt) as Hnone. simpl in Huy. congruence.
  - exists true. cbn beta iota. by rewrite prog_bind_eq.
Qed.

(** A browser with a live session reaches the handlers as that user. *)
Lemma serve_signed_in e r token x u t d : r_Cookie SessionCookieName r = Some token -> token <> ""%string -> pg_text token = true ->
  Store.sessions d !! token = Some x -> t / 1000 < s_ExpiresAt x -> users d !! s_UserID x = Some u ->
  serve e r (anon_site (at_time t d) false) = dispatch e r (Some u) (anon_site (at_time t d) false).
Proof.
  intros Hr Hn Ht Hx Hlt Hu. unfold Web.serve, Middleware. rewrite Hr. destruct token as [|ch tok]; [done|].
  rewrite prog_bind_eq. unfold svc at 1. cbn [s_db anon_site]. rewrite (SessionUser_fine _ t d Ht), Hx. cbn [mbind option_bind].
  rewrite (proj2 (Z.ltb_lt _ _) Hlt), Hu. done.
Qed.

(** The dashboard of a signed-in user. *)
Lemma dashboard_page e token x u i c t d jar : ok d -> jar !! SessionCookieName = Some token -> token <> ""%string -> pg_text token = true ->
  Store.sessions d !! token = Some x -> t / 1000 < s_ExpiresAt x -> users d !! s_UserID x = Some u ->
  channels d !! i = Some c -> c_UserID c = u_ID u ->
  respond e (get_page ["dashboard"] jar) (at_time t d) =
  (at_time t d, (200, {| ContentType := Some "text/html; charset=utf-8"; Location := None; CacheControl := None; SetCookies := [] |},
                 [BPage (Some u) (PDashboard c)]))%string.
Proof.
  intros Hok Hj Hn Ht Hx Hlt Hu Hc Ho. unfold respond.
  change {| s_db := at_time t d; s_chat := chat; s_w := new_writer |} with (anon_site (at_time t d) false).
  rewrite (serve_signed_in e (get_page _ _) token x u) by (done || unfold r_Cookie; simpl; by rewrite assoc_jar).
  unfold Web.dispatch. cbn [mux]. change (mux _ (get_page ["dashboard"%string] jar)) with
    (Routed (fun (e : env) (vs : list string) => RequireAuth (dashboard (C := C))) (@nil string)). cbn beta iota.
  unfold RequireAuth, dashboard, deref_user. rewrite (prog_bind_eq (mret u)). cbn [mret prog_ret]. rewrite prog_bind_eq.
  unfold svc at 1. cbn [s_db anon_site]. rewrite <- Ho, (ChannelForUser_fine i) by done. done.
Qed.

(** *** Starting a session *)
Definition session_row (token : string) (uid t : Z) : Session :=
  {| s_ID := token; s_UserID := uid; s_ExpiresAt := timestamptz (t + sessionTTL); s_CreatedAt := t / 1000 |}.
Definition with_session (token : string) (uid t : Z) (d : tables) : tables :=
  Store.set_sessions (<[token := session_row token uid t]> (Store.sessions d)) d.

Lemma with_session_ok token uid u t d : ok d -> users d !! uid = Some u -> ok (with_session token uid t d).
Proof.
  intros Hok Hu. apply set_sessions_ok; [done|]. intros k x. rewrite lookup_insert_Some.
  intros [[<- <-]|[_ Hx]]; [simpl; by rewrite Hu | by apply (k_sessions _ (ok_schema _ Hok))].
Qed.

(** The cookies of an answer that starts a session, a stale cookie being
    cleared first. *)
Lemma jar_with_session jar token stale (w : writer body) (age := cookie_age sessionTTL) :
  0 <= sessionTTL -> SetCookies (w_headers w) = (if (stale : bool) then [cookie SessionCookieName "" (-1) false] else []) ->
  foldl store_cookie jar (SetCookies (w_headers w) ++ [cookie SessionCookieName token age secureCookies]) !! SessionCookieName = Some token.
Proof.
  intros Ht ->. rewrite foldl_snoc. unfold store_cookie at 1. cbn [ck_MaxAge ck_Name ck_Value cookie].
  rewrite (proj2 (Z.ltb_ge age 0)); [by apply lookup_insert_eq|]. unfold age, cookie_age. apply Z.quot_pos; lia.
Qed.

Lemma token_ok buf : entropy buf -> pg_text (EncodeToString buf) = true /\ EncodeToString buf <> ""%string.
Proof.
  intros [Hb Hl]. split; [by apply encoded_pg_text|]. intros E. pose proof (EncodeToString_length buf Hb) as H'.
  rewrite E, Hl in H'. done.
Qed.


(** C26: signing up. When a browser that is not signed in posts a form that the
    account service accepts, the answer is the page with the new stream key,
    and with the cookies it then holds the browser is shown the dashboard of a
    channel called like the new user, until the session expires; the key on the
    page is the one that channel's publisher is recognised by (when no other
    channel has the same hash). *)
Theorem signup_lands_on_dashboard e e2 form jar t t' d s1 u plain buf :
  ok d -> anonymous jar t d -> 0 <= sessionTTL ->
  Signup parse_address bcrypt_generate (PostForm_Get "username" form) (PostForm_Get "email" form)
    (PostForm_Get "password" form) (e_salt e) (e_key e) (at_time t d) = (s1, Ok (u, plain)) ->
  e_token e = Some buf -> entropy buf -> Store.sessions d !! EncodeToString buf = None ->
  (forall i c, channels d !! i = Some c -> c_StreamKeyHash c <> HashKey plain) ->
  t' / 1000 < (t + sessionTTL) / 1000 ->
  let '(s2, (code, h, page)) := respond e (post_form ["signup"%string] form jar) (at_time t d) in
  code = 200 /\ page = [BPage None (PKeyShown "Welcome to chtiwt"
    "This is your stream key. Copy it now — for security it won't be shown again." plain "Continue to dashboard" "/dashboard")] /\
  exists c, c_Name c = PostForm_Get "username" form /\
  let jar' := cookies_after jar h in
  (respond e2 (get_page ["dashboard"%string] jar') (at_time t' (db s2))).2
  = (200, {| ContentType := Some "text/html; charset=utf-8"%string; Location := None; CacheControl := None; SetCookies := [] |},
     [BPage (Some u) (PDashboard c)]) /\
  (lookupChannelByStreamKey plain (at_time t' (db s2))).2 = Ok c.
Proof.
  intros Hok Ha Httl Hs He Hbuf Hnew Hkeys Ht'. destruct (token_ok buf Hbuf) as [Htok Hne].
  destruct (Signup_done _ _ _ _ _ _ _ (at_time t d) s1 u plain Hok Hs) as (Hok1 & Hclk & Hu & Hname & Hss & c & Hch & Hcu & Hcn & Hck).
  pose proof (Signup_faultless parse_address bcrypt_generate (PostForm_Get "username" form) (PostForm_Get "email" form)
    (PostForm_Get "password" form) (e_salt e) (e_key e) (at_time t d) eq_refl) as Hf. rewrite Hs in Hf. cbn [fst] in Hf.
  pose proof (at_time_eta s1 Hf) as Es1. rewrite Hclk in Es1. cbn [clock at_time] in Es1. set (d1 := db s1) in *. clearbody d1.
  cbn [db at_time] in Hss, Hch. subst s1.
  rewrite <- Hss in Hnew. assert (Hc : channels d1 !! c_ID c = Some c) by (rewrite Hch; by apply lookup_insert_eq).
  unfold respond at 1. change {| s_db := at_time t d; s_chat := chat; s_w := new_writer |} with (anon_site (at_time t d) false).
  destruct (serve_anonymous e (post_form ["signup"%string] form jar) jar t d eq_refl Ha) as [stale ->].
  unfold Web.dispatch. change (mux _ (post_form ["signup"%string] form jar)) with
    (Routed (fun (e : env) (vs : list string) => RequireGuest (signup (C := C) parse_address bcrypt_generate driver_text sessionTTL secureCookies e)) (@nil string)).
  cbn beta iota. unfold RequireGuest, signup. cbn [r_form post_form]. rewrite prog_bind_eq. unfold svc at 1. cbn [s_db anon_site].
  rewrite Hs. cbn beta iota. rewrite prog_bind_eq. unfold svc at 1. cbn [s_db]. rewrite He.
  rewrite (CreateSession_fine sessionTTL (u_ID u) u buf t d1 (proj1 Hbuf) Hu Hnew). fold (session_row (EncodeToString buf) (u_ID u) t).
  fold (with_session (EncodeToString buf) (u_ID u) t d1). cbn beta iota. rewrite prog_bind_eq.
  rewrite Render_eq. unfold setSessionCookie, on_writer, modify. cbn [s_db s_chat s_w anon_site].
  set (w0 := first_writer stale).
  set (page := [BPage None (PKeyShown _ _ plain _ _)]).
  assert (Hw : response (write (BPage None (PKeyShown "Welcome to chtiwt"
      "This is your stream key. Copy it now — for security it won't be shown again." plain "Continue to dashboard" "/dashboard"))
      (set_ContentType "text/html; charset=utf-8"
        (SetCookie (cookie SessionCookieName (EncodeToString buf) (cookie_age sessionTTL) secureCookies) w0))) =
    (200, {| ContentType := Some "text/html; charset=utf-8"%string; Location := None; CacheControl := None;
             SetCookies := SetCookies (w_headers w0) ++ [cookie SessionCookieName (EncodeToString buf) (cookie_age sessionTTL) secureCookies] |}, page)).
  { unfold w0. by destruct stale. }
  rewrite Hw. split; [done|]. split; [done|]. exists c. split; [done|]. cbn [db at_time]. split.
  - unfold cookies_after. cbn [SetCookies].
    rewrite (dashboard_page e2 (EncodeToString buf) (session_row (EncodeToString buf) (u_ID u) t) u (c_ID c) c); [done|..]; try done.
    + by apply with_session_ok with u.
    + apply (jar_with_session jar _ stale w0); [done|]. unfold w0. by destruct stale.
    + simpl. by rewrite lookup_insert_eq.
  - rewrite lookup_value by done. cbn [db at_time].
    rewrite (select_unique _ _ (c_ID c) c); [done|done|by apply String.eqb_eq|].
    intros k x. simpl. rewrite Hch, lookup_insert_Some. intros [[_ <-]|[_ Hx]]; [done|]. intros E%String.eqb_eq. by destruct (Hkeys k x Hx).
Qed.

(** The dashboard of somebody who is not signed in. *)
Lemma dashboard_anonymous e jar t d : anonymous jar t d ->
  exists stale, respond e (get_page ["dashboard"%string] jar) (at_time t d) =
  (at_time t d, (303, {| ContentType := Some "text/html; charset=utf-8"%string; Location := Some "/login"%string; CacheControl := None;
                         SetCookies := SetCookies (w_headers (first_writer stale)) |},
                 [BText "<a href=/login>"])).
Proof.
  intros Ha. unfold respond. change {| s_db := at_time t d; s_chat := chat; s_w := new_writer |} with (anon_site (at_time t d) false).
  destruct (serve_anonymous e (get_page ["dashboard"%string] jar) jar t d eq_refl Ha) as [stale ->].
  exists stale. by destruct stale.
Qed.

(** Logging out. A signed-in browser that posts to /logout is redirected to
    the front page and no longer holds the session cookie; and the session is
    gone from the database, so a request that replays the old cookie, at any
    later or earlier time, is sent to the login page. *)
Theorem logout_ends_session e e2 token x u jar t t' d :
  jar !! SessionCookieName = Some token -> token <> ""%string -> pg_text token = true ->
  Store.sessions d !! token = Some x -> t / 1000 < s_ExpiresAt x -> users d !! s_UserID x = Some u ->
  let '(s1, (code, h, _)) := respond e (post_form ["logout"%string] [] jar) (at_time t d) in
  code = 303 /\ Location h = Some "/"%string /\ cookies_after jar h !! SessionCookieName = None /\
  exists h', (respond e2 (get_page ["dashboard"%string] jar) (at_time t' (db s1))).2 = (303, h', [BText "<a href=/login>"%string]) /\
    Location h' = Some "/login"%string.
Proof.
  intros Hj Hn Ht Hx Hlt Hu.
  assert (E : respond e (post_form ["logout"%string] [] jar) (at_time t d) =
    (at_time t (Store.set_sessions (delete token (Store.sessions d)) d),
     (303, {| ContentType := None; Location := Some "/"%string; CacheControl := None;
              SetCookies := [cookie SessionCookieName "" (-1) secureCookies] |}, []))).
  { unfold respond. change {| s_db := at_time t d; s_chat := chat; s_w := new_writer |} with (anon_site (at_time t d) false).
    assert (Hr : r_Cookie SessionCookieName (post_form ["logout"%string] [] jar) = Some token) by (unfold r_Cookie; simpl; by rewrite assoc_jar).
    rewrite (serve_signed_in e _ token x u) by done. unfold Web.dispatch.
    change (mux _ (post_form ["logout"%string] [] jar)) with
      (Routed (fun (e : env) (vs : list string) => RequireAuth (logout (C := C) secureCookies)) (@nil string)). cbn beta iota.
    unfold RequireAuth, logout. rewrite Hr. rewrite !prog_bind_eq. unfold svc at 1. cbn [s_db anon_site].
    by rewrite (Logout_fine token t d Ht Hn). }
  rewrite E. split_and!; [done..| |].
  - unfold cookies_after. cbn [SetCookies foldl]. unfold store_cookie. simpl. by rewrite lookup_delete_eq.
  - destruct (dashboard_anonymous e2 jar t' (db (at_time t (Store.set_sessions (delete token (Store.sessions d)) d)))) as [stale ->].
    + intros tok y Htok Hy. rewrite Hj in Htok. injection Htok as <-. simpl in Hy. by rewrite lookup_delete_eq in Hy.
    + by eexists.
Qed.

(** One failed lookup signs a browser out. When the connection to the
    database fails while the middleware looks up a valid session, the request
    goes on as anonymous and the answer deletes the browser's session cookie,
    although the session is still in the database: with the cookie it had, the
    browser would be shown its dashboard by the next request. *)
Theorem failed_lookup_signs_out e e2 f token x u i c jar t d :
  f = Lost \/ f = ReplyLost -> ok d ->
  jar !! SessionCookieName = Some token -> token <> ""%string -> pg_text token = true ->
  Store.sessions d !! token = Some x -> t / 1000 < s_ExpiresAt x -> users d !! s_UserID x = Some u ->
  channels d !! i = Some c -> c_UserID c = u_ID u ->
  let '(s1, (code, h, _)) := respond e (get_page ["dashboard"%string] jar) {| db := d; clock := t; faults := [f] |} in
  s1 = at_time t d /\ code = 303 /\ Location h = Some "/login"%string /\
  cookies_after jar h !! SessionCookieName = None /\
  (respond e2 (get_page ["dashboard"%string] jar) s1).2.2 = [BPage (Some u) (PDashboard c)].
Proof.
  intros Hf Hok Hj Hn Ht Hx Hlt Hu Hc Ho.
  assert (E : respond e (get_page ["dashboard"%string] jar) {| db := d; clock := t; faults := [f] |} =
    (at_time t d, (303, {| ContentType := Some "text/html; charset=utf-8"%string; Location := Some "/login"%string; CacheControl := None;
                           SetCookies := [cookie SessionCookieName "" (-1) false] |}, [BText "<a href=/login>"%string]))).
  { unfold respond, Web.serve, Middleware, r_Cookie. cbn [r_cookies get_page]. rewrite assoc_jar, Hj. destruct token as [|ch tok]; [done|].
    rewrite prog_bind_eq. unfold svc at 1. cbn [s_db].
    assert (Hs : exists x, SessionUser (String ch tok) {| db := d; clock := t; faults := [f] |} = (at_time t d, Err x)).
    { unfold SessionUser, no_rows_to, catch, GetSessionWithUser. rewrite prog_bind_eq. unfold statement.
      destruct Hf as [-> | ->]; cbn [faults]; [by eexists|]. unfold with_texts. destruct (texts_ok _); by eexists. }
    destruct Hs as [y ->]. done. }
  rewrite E. split_and!; [done..| |].
  - unfold cookies_after. cbn [SetCookies foldl]. unfold store_cookie. simpl. by rewrite lookup_delete_eq.
  - by rewrite (dashboard_page e2 token x u i c).
Qed.

(** A signup whose session cannot be stored loses the stream key. When the
    account has been created but the session has not, the answer is an internal
    error without a cookie that shows the key nowhere; the key was generated
    once, only its hash is in the database, and the same form is refused from
    then on, because the user name is taken. *)
Theorem signup_can_lose_the_key e e2 form jar jar2 s s1 s2 u plain x t key h :
  ok (db s) -> jar !! SessionCookieName = None -> jar2 !! SessionCookieName = None ->
  let username := PostForm_Get "username" form in let email := PostForm_Get "email" form in
  Signup parse_address bcrypt_generate username email (PostForm_Get "password" form) (e_salt e) (e_key e) s = (s1, Ok (u, plain)) ->
  Auth.CreateSession sessionTTL (u_ID u) (e_token e) s1 = (s2, Err x) ->
  bcrypt_generate (e_salt e2) (PostForm_Get "password" form) = Some h -> pg_text h = true -> pg_text email = true ->
  e_key e2 = Some key ->
  respond e (post_form ["signup"%string] form jar) s =
    (s2, (500, {| ContentType := Some "text/plain; charset=utf-8"%string; Location := None; CacheControl := None; SetCookies := [] |},
          [BText ("internal error" +:+ String (Ascii.ascii_of_nat 10) "")])) /\
  (exists i c, channels (db s2) !! i = Some c /\ c_Name c = username /\ c_StreamKeyHash c = HashKey plain) /\
  (respond e2 (post_form ["signup"%string] form jar2) (at_time t (db s2))).2.2 = [BPage None (PSignup username email "username is taken")].
Proof.
  intros Hok Hj Hj2 username email Hs Hcs Hh Hth Hte Hk.
  destruct (Signup_done _ _ _ _ _ _ _ s s1 u plain Hok Hs) as (Hok1 & _ & Hu & Hname & _ & c & Hch & _ & Hcn & Hck).
  destruct (CreateSession_keeps _ _ _ _ _ _ Hcs Hok1) as [Hok2 (K1 & K2 & _)].
  assert (Hroute : forall e j s, j !! SessionCookieName = None ->
    serve e (post_form ["signup"%string] form j) s = signup parse_address bcrypt_generate driver_text sessionTTL secureCookies e (post_form ["signup"%string] form j) None s).
  { intros e' j s' Hjn. unfold Web.serve, Middleware, r_Cookie. cbn [r_cookies post_form]. rewrite assoc_jar, Hjn. done. }
  split_and!.
  - unfold respond. rewrite Hroute by done. unfold signup. cbn [r_form post_form]. rewrite prog_bind_eq. unfold svc at 1. cbn [s_db].
    fold username email. rewrite Hs. cbn beta iota. rewrite prog_bind_eq. unfold svc at 1. cbn [s_db]. rewrite Hcs. done.
  - exists (c_ID c), c. split; [|done]. apply K2. rewrite Hch. by apply lookup_insert_eq.
  - unfold respond. rewrite Hroute by done. unfold signup. cbn [r_form post_form]. rewrite prog_bind_eq. unfold svc at 1. cbn [s_db].
    fold username email.
    assert (Htaken : exists s3, Signup parse_address bcrypt_generate username email (PostForm_Get "password" form) (e_salt e2) (e_key e2) (at_time t (db s2))
      = (s3, Err ErrUsernameTaken)).
    { destruct (signup_refused _ _ _ _ _ _ _ _ _ _ Hs) as [(y & ? & _)|(h1 & key1 & V1 & V2 & V3 & V4 & V5)]; [done|].
      rewrite Hk, (signup_validated _ _ _ _ _ _ _ h (streamKeyPrefix +:+ EncodeToString key, HashKey (streamKeyPrefix +:+ EncodeToString key))) by done.
      assert (Tu : pg_text username = true) by (apply username_text; unfold validateUsername in V1; by destruct (usernameRE username)).
      pose proof (signup_fine username email h (HashKey (streamKeyPrefix +:+ EncodeToString key)) (at_time t (db s2)) Hok2 eq_refl) as Hfine.
      cbn [texts_ok forallb] in Hfine. unfold texts_ok in Hfine. cbn [forallb] in Hfine. rewrite Tu, Hte, Hth, HashKey_pg_text in Hfine.
      specialize (Hfine eq_refl eq_refl). cbn [db at_time] in Hfine.
      destruct (select (fun v => String.eqb (u_Username v) username) (users (db s2))) as [v|] eqn:Es; cbn [is_some] in Hfine.
      2: { rewrite select_None in Es. pose proof (Es _ _ (K1 _ _ Hu)) as Hne. by apply String.eqb_neq in Hne. }
      destruct ((wrapping "begin tx" Begin ≫= _) _) as [s3 r3]. cbn [snd] in Hfine. subst r3. by exists s3. }
    destruct Htaken as [s3 ->]. cbn beta iota. rewrite prog_bind_eq, Render_eq. done.
Qed.
End Journey.

(** ** Bob and alice on a small site *)
Definition toy_respond (ttl : Z) : env -> request -> store -> store * (Z * headers * list body) :=
  respond (C := Manager.chat) (L := live) toy_address toy_generate (fun _ p => String.eqb p "secret") no_text ttl true
    (new_live (empty_store []) ∅) quiet_chat.
Definition hour : Z := 3600000000000.
Definition bobs_jar : gmap string string := {[SessionCookieName := bob_token]}.

Lemma bob_anonymous t d : anonymous ∅ t d.
Proof. intros token x. by rewrite lookup_empty. Qed.

Lemma toy_token_entropy : entropy (replicate 32 9).
Proof. split; [repeat constructor; discriminate | reflexivity]. Qed.

(** A premise on closed terms. *)
Ltac toy_premise :=
  first [ exact toy_token_entropy | by intros ? ?; rewrite lookup_empty | vm_compute; reflexivity | vm_compute; discriminate ].


Lemma logout_ends_session_witness :
  let '(s1, (code, h, _)) := toy_respond hour toy_env (post_form ["logout"%string] [] bobs_jar) (at_time 5000000 bobs_site_db) in
  cookies_after bobs_jar h !! SessionCookieName = None /\
  exists h', (toy_respond hour toy_env (get_page ["dashboard"%string] bobs_jar) (at_time 6000000 (db s1))).2 = (303, h', [BText "<a href=/login>"%string]).
Proof.
  pose proof (logout_ends_session (C := Manager.chat) (L := live) toy_address toy_generate (fun _ p => String.eqb p "secret") no_text hour true
    (new_live (empty_store []) ∅) quiet_chat toy_env toy_env bob_token
    {| s_ID := bob_token; s_UserID := 1; s_ExpiresAt := 9000000000; s_CreatedAt := 0 |} bob_user bobs_jar 5000000 6000000 bobs_site_db) as Hth.
  unfold toy_respond. destruct (respond _ _ _ _ _ _ _ _ _ _ _) as [s1 [[code h] b]].
  destruct Hth as (_ & _ & H3 & h' & H4 & _); [toy_premise..|].
  split; [exact H3 | by exists h'].
Defined.

Lemma failed_lookup_signs_out_witness :
  let '(s1, (code, h, _)) := toy_respond hour toy_env (get_page ["dashboard"%string] bobs_jar) {| db := bobs_site_db; clock := 5000000; faults := [Lost] |} in
  cookies_after bobs_jar h !! SessionCookieName = None /\
  (toy_respond hour toy_env (get_page ["dashboard"%string] bobs_jar) s1).2.2 = [BPage (Some bob_user) (PDashboard bob)].
Proof.
  pose proof (failed_lookup_signs_out (C := Manager.chat) (L := live) toy_address toy_generate (fun _ p => String.eqb p "secret") no_text hour true
    (new_live (empty_store []) ∅) quiet_chat toy_env toy_env Lost bob_token
    {| s_ID := bob_token; s_UserID := 1; s_ExpiresAt := 9000000000; s_CreatedAt := 0 |} bob_user 1 bob bobs_jar 5000000 bobs_site_db
    (or_introl eq_refl) bobs_site_db_ok) as Hth.
  unfold toy_respond. destruct (respond _ _ _ _ _ _ _ _ _ _ _) as [s1 [[code h] b]].
  destruct Hth as (_ & _ & _ & H4 & H5); [toy_premise..|].
  split; [exact H4 | exact H5].
Defined.

Definition alice_form : list (string * string) := [("username", "alice"); ("email", "a@b"); ("password", "password")]%string.
Definition alice_hash : string := EncodeToString toy_salt +:+ "password".

Lemma signup_lands_on_dashboard_witness :
  let '(s2, (code, h, b)) := toy_respond hour toy_env (post_form ["signup"%string] alice_form ∅) (empty_store []) in
  code = 200 /\ exists u c, c_Name c = "alice"%string /\
  (toy_respond hour toy_env (get_page ["dashboard"%string] (cookies_after ∅ h)) (at_time 6000000 (db s2))).2.2 = [BPage (Some u) (PDashboard c)].
Proof.
  pose proof (signup_lands_on_dashboard (C := Manager.chat) (L := live) toy_address toy_generate (fun _ p => String.eqb p "secret") no_text hour true
    (new_live (empty_store []) ∅) quiet_chat toy_env toy_env alice_form ∅ 5000000 6000000 no_tables
    (Signup toy_address toy_generate "alice" "a@b" "password" toy_salt (Some (replicate 32 7)) (empty_store [])).1
    (user_row no_tables "alice" "a@b" alice_hash 5000) plain_key (replicate 32 9) no_tables_ok (bob_anonymous _ _)) as Hth.
  change (at_time 5000000 no_tables) with (empty_store []) in Hth.
  unfold toy_respond. destruct (respond _ _ _ _ _ _ _ _ _ _ _) as [s2 [[code h] b]].
  destruct Hth as (H1 & _ & c & H3 & H4 & _); [toy_premise..|].
  split; [exact H1|]. exists (user_row no_tables "alice" "a@b" alice_hash 5000), c. split; [exact H3|]. by rewrite H4.
Defined.

(** The connection breaks after alice's account has been committed. *)
Lemma signup_can_lose_the_key_witness :
  let s := empty_store [Fine; Fine; Fine; Fine; Lost] in
  let '(s2, (code, h, b)) := toy_respond hour toy_env (post_form ["signup"%string] alice_form ∅) s in
  code = 500 /\
  (toy_respond hour toy_env (post_form ["signup"%string] alice_form ∅) (at_time 6000000 (db s2))).2.2
  = [BPage None (PSignup "alice" "a@b" "username is taken")].
Proof.
  intros s. unfold toy_respond. set (s1 := (Signup toy_address toy_generate "alice" "a@b" "password" toy_salt (Some (replicate 32 7)) s).1).
  set (s2 := (Auth.CreateSession hour 1 (Some (replicate 32 9)) s1).1).
  destruct (signup_can_lose_the_key (C := Manager.chat) (L := live) toy_address toy_generate (fun _ p => String.eqb p "secret") no_text hour true
    (new_live (empty_store []) ∅) quiet_chat toy_env toy_env alice_form ∅ ∅ s s1 s2 (user_row no_tables "alice" "a@b" alice_hash 5000) plain_key
    (EWrap "create session" EConn) 6000000 (replicate 32 7) alice_hash no_tables_ok) as (H1 & _ & H2); [toy_premise..|].
  rewrite H1. split; [reflexivity | exact H2].
Defined.
