(* ===== verification/WebPages.v ===== *)
(** * The public pages: front page, watch page, chat entry, HLS files *)

From S2P Require Import Prelude Utf8 Encoding Errors StreamKey Store StoreInv Auth AuthThms Manager ChatSys Stream StreamThms StreamRows StreamProps StreamBoot Http Web WebLib Site WebJourney.
Local Open Scope Z_scope.

(** What the pages rely on: the list and the lookup tell the same story. *)
Class directoryLaws (L : Type) `{liveDirectory L} (wf : L -> Prop) := {
  list_lookup : forall x l, wf x -> l ∈ dir_ListLive x <-> dir_GetByName (ChannelName l) x = Some l;
  lookup_name : forall x n l, wf x -> dir_GetByName n x = Some l -> ChannelName l = n
}.

(** The stream service keeps them in every state it reaches. *)
#[export] Instance stream_directory_laws : directoryLaws live registry_ok.
Proof.
  assert (Hname : forall x n l, registry_ok x -> GetByName n x = Some l -> ChannelName l = n).
  { intros x n l Hx. unfold GetByName, get. intros (s & (sid & Hsid & Hs)%bind_Some & ->)%fmap_Some.
    apply Hx in Hsid as (s' & Hs' & Hn & _). simpl. congruence. }
  split; [|exact Hname]. intros x l Hx. simpl. unfold ListLive, snapshot. rewrite list_elem_of_omap. split.
  - intros (sid & ([n i] & -> & Hin%elem_of_map_to_list)%list_elem_of_fmap & (s & Hs & ->)%fmap_Some).
    pose proof (proj1 (Hx n i) Hin) as (s' & Hs' & Hn & _). simpl in Hs.
    assert (s' = s) as -> by congruence. simpl. unfold GetByName, get. rewrite Hn, Hin. simpl. by rewrite Hs.
  - unfold GetByName, get. intros (s & (sid & Hsid & Hs)%bind_Some & ->)%fmap_Some. exists sid. split; [|by rewrite Hs].
    apply list_elem_of_fmap. exists (channelName s, sid). split; [done | by apply elem_of_map_to_list].
Qed.

(** ** The file server's paths *)
Definition plain_seg (x : string) : Prop := x <> ""%string /\ x <> "."%string /\ x <> ".."%string.

Lemma clean_rooted_plain acc path : Forall plain_seg acc -> Forall plain_seg (clean_rooted acc path).
Proof.
  revert acc. induction path as [|x path IH]; intros acc Ha; simpl; [by apply Forall_reverse|].
  destruct (String.eqb_spec x ""), (String.eqb_spec x "."); simpl; try by apply IH.
  destruct (String.eqb_spec x ".."); apply IH; [|by constructor]. destruct acc; [done | by apply Forall_cons in Ha as [_ ?]].
Qed.

Lemma clean_rooted_id acc path : Forall plain_seg path -> clean_rooted acc path = reverse acc ++ path.
Proof.
  intros Hp. revert acc. induction Hp as [|x path (H1 & H2 & H3) _ IH]; intros acc; simpl; [by rewrite app_nil_r|].
  apply String.eqb_neq in H1, H2, H3. rewrite H1, H2, H3. simpl. rewrite IH, reverse_cons, <- app_assoc. done.
Qed.

Section Pages.
Context {C : Type} `{chatGateway C} {L : Type} `{liveDirectory L}.
Context (parse_address : string -> bool).
Context (bcrypt_generate : list Z -> string -> option string).
Context (bcrypt_compare : string -> string -> bool).
Context (driver_text : err -> string).
Context (sessionTTL : Z) (secureCookies : bool).
Context (lv : L) (chat : C).

Abbreviation dispatch := (dispatch (C := C) parse_address bcrypt_generate bcrypt_compare driver_text sessionTTL secureCookies lv).
Abbreviation routes := (routes (C := C) parse_address bcrypt_generate bcrypt_compare driver_text sessionTTL secureCookies lv).

(** A handler's run on a fresh response: the site after it and the body. *)
Definition start (s : store) : site (C := C) := {| s_db := s; s_chat := chat; s_w := new_writer |}.
Definition get_path (path : list string) (cookies : list (string * string)) : request :=
  {| r_method := "GET"; r_path := path; r_cookies := cookies; r_form := Some [] |}.
Definition answer (s : site (C := C)) : Z * list body := let '((code, _), b) := response (s_w s) in (code, b).

Lemma route_watch name cookies : name <> ""%string ->
  mux routes (get_path ["c"; name]%string cookies) = Routed (fun e vs => watch (C := C) lv e (default ""%string (head vs))) [name].
Proof. by destruct name. Qed.
Lemma route_chat name cookies : name <> ""%string ->
  mux routes (get_path ["ws"; "chat"; name]%string cookies) = Routed (fun e vs => chatWS (C := C) e (default ""%string (head vs))) [name].
Proof. by destruct name. Qed.
Lemma route_home cookies : mux routes (get_path [""%string] cookies) = Routed (fun e vs => home (C := C) lv) [].
Proof. done. Qed.
Lemma deeper_not_exact {T} (rt : route T) vs a b path : ends_in_rest (rt_pattern rt) = true -> length (rt_pattern rt) = 2%nat ->
  exactMatch (Some (rt, vs)) (a :: b :: (path ++ [""%string])) = false.
Proof.
  intros He Hl. unfold exactMatch. rewrite He, Hl. cbn [negb]. rewrite !app_comm_cons, last_snoc.
  apply bool_decide_eq_false. simpl. rewrite length_app. simpl. lia.
Qed.
Lemma route_hls x path cookies :
  mux routes (get_path ("hls"%string :: x :: path) cookies) = Routed (fun e vs r => hlsFileServer (C := C) (tail (r_path r)) r) [].
Proof.
  unfold mux. set (r := get_path _ _).
  assert (E : forall p, find_route routes (r_method r) ("hls"%string :: x :: p) =
    Some ({| rt_method := "GET"; rt_pattern := [Lit "hls"; Rest]; rt_handler := fun e vs r => hlsFileServer (C := C) (tail (r_path r)) r |}, [])) by done.
  change (r_path r) with ("hls"%string :: x :: path). rewrite <- !app_comm_cons, !E.
  rewrite (deeper_not_exact _ _ "hls" x path) by done. by rewrite andb_false_r.
Qed.

(** What the file server answers. *)
Lemma hls_file e ctx x path cookies s :
  let '(s', r) := dispatch e (get_path ("hls"%string :: x :: path) cookies) ctx (start s) in
  r = Ok tt /\ answer s' = (200, [BFile (clean_rooted [] (x :: path))]) /\
  CacheControl (response (s_w s')).1.2 = Some "no-store"%string.
Proof. unfold Web.dispatch. by rewrite route_hls. Qed.

(** HLS files stay inside the state directory. Whatever path follows
    /hls/ (empty segments, dots, any number of parent steps), what is served is
    the file at a path made of ordinary names only, counted from the state
    directory; an ordinary path is served as it is; and the answer is never
    cached. *)
Theorem hls_stays_inside e ctx x path cookies s :
  let '(s', r) := dispatch e (get_path ("hls"%string :: x :: path) cookies) ctx (start s) in
  r = Ok tt /\ exists file, answer s' = (200, [BFile file]) /\ Forall plain_seg file /\
    (Forall plain_seg (x :: path) -> file = x :: path) /\
    CacheControl (response (s_w s')).1.2 = Some "no-store"%string.
Proof.
  pose proof (hls_file e ctx x path cookies s) as Hf. destruct (dispatch _ _ _ _) as [s' r].
  destruct Hf as (-> & Hans & Hc). split; [done|].
  exists (clean_rooted [] (x :: path)). split; [done|]. split; [by apply clean_rooted_plain|]. split; [|done].
  intros Hp. by rewrite clean_rooted_id.
Qed.

Lemma ChannelByName_fine i c t d : ok d -> channels d !! i = Some c -> pg_text (c_Name c) = true ->
  ChannelByName (c_Name c) (at_time t d) = (at_time t d, Ok c).
Proof.
  intros Hok Hc Ht. unfold ChannelByName, no_rows_to, catch, GetChannelByName. rewrite statement_fine by done.
  unfold with_texts, texts_ok. cbn [forallb]. rewrite Ht. simpl.
  rewrite (select_unique _ _ i c); [done|done|by apply String.eqb_refl|].
  intros j x Hx E%String.eqb_eq. assert (j = i) as -> by (by eapply (k_name _ (ok_schema _ Hok))). congruence.
Qed.

Lemma ChannelByName_missing name t d : pg_text name = true -> (forall i c, channels d !! i = Some c -> c_Name c <> name) ->
  ChannelByName name (at_time t d) = (at_time t d, Err ErrNoChannel).
Proof.
  intros Ht Hn. unfold ChannelByName, no_rows_to, catch, GetChannelByName. rewrite statement_fine by done.
  unfold with_texts, texts_ok. cbn [forallb]. rewrite Ht. simpl.
  rewrite (proj2 (select_None _ _)); [done|]. intros i c Hc. apply String.eqb_neq. by apply (Hn i).
Qed.

(** The anonymous visitor's key, and the cookie planted with it. *)
Definition anon_key (e : env) (cookies : list (string * string)) : string :=
  match assoc anonCookieName cookies with
  | Some (String _ _ as v) => v
  | _ => match e_anon e with None => "" | Some buf => EncodeToString buf end
  end.
Lemma ensureAnonCookie_value e r (s : site (C := C)) : exists w, ensureAnonCookie e r s =
  ({| s_db := s_db s; s_chat := s_chat s; s_w := w |}, Ok (anon_key e (r_cookies r))) /\
  w_sent w = w_sent (s_w s) /\ w_body w = w_body (s_w s).
Proof.
  unfold ensureAnonCookie, anon_key, r_Cookie.
  assert (Hfresh : exists w, (match e_anon e with
      | None => mret ""%string
      | Some buf => _ ← on_writer (SetCookie (cookie anonCookieName (EncodeToString buf) (365 * 24 * 3600) false)); mret (EncodeToString buf)
      end) s = ({| s_db := s_db s; s_chat := s_chat s; s_w := w |}, Ok (match e_anon e with None => ""%string | Some buf => EncodeToString buf end)) /\
    w_sent w = w_sent (s_w s) /\ w_body w = w_body (s_w s)).
  { destruct (e_anon e) as [buf|]; [by eexists | exists (s_w s); by destruct s]. }
  destruct (assoc anonCookieName (r_cookies r)) as [[|ch v]|]; [exact Hfresh | exists (s_w s); by destruct s | exact Hfresh].
Qed.

(** C37: the front page and the watch pages agree. The front page lists exactly
    the channels whose watch page shows a live stream, under the same title and
    with the viewer count of that channel's chat room; the watch page of a
    channel that is not live shows the stored title; and a name no channel has
    is not found. *)
Theorem front_page_agrees_with_watch_pages {wf : L -> Prop} `{!directoryLaws L wf} e ctx cookies t d name :
  wf lv -> ok d -> name <> ""%string -> pg_text name = true ->
  exists cards,
    answer (dispatch e (get_path [""%string] cookies) ctx (start (at_time t d))).1 = (200, [BPage ctx (PHome cards)]) /\
    ((forall i c, channels d !! i = Some c -> c_Name c <> name) ->
       answer (dispatch e (get_path ["c"; name]%string cookies) ctx (start (at_time t d))).1
       = (404, [BText ("404 page not found" +:+ String (Ascii.ascii_of_nat 10) "")])) /\
    (forall i c, channels d !! i = Some c -> c_Name c = name ->
       exists title live,
       answer (dispatch e (get_path ["c"; name]%string cookies) ctx (start (at_time t d))).1 = (200, [BPage ctx (PWatch name title live)]) /\
       (live = false -> title = c_Title c) /\
       forall card, lc_ChannelName card = name ->
         (card ∈ cards <-> live = true /\ lc_Title card = title /\ lc_Viewers card = gw_ViewerCount name chat)).
Proof.
  intros Hwf Hok Hne Ht. eexists. split_and!.
  - unfold Web.dispatch. rewrite route_home. cbn beta iota. unfold home. change (is_root _) with true. cbn [negb]. rewrite prog_bind_eq. cbn [gets].
    rewrite Render_eq. done.
  - intros Hn. unfold Web.dispatch. rewrite route_watch by done. cbn beta iota. unfold watch. change (default ""%string (head [name])) with name.
    rewrite (proj2 (String.eqb_neq _ _) Hne), prog_bind_eq. unfold svc at 1. cbn [s_db start].
    by rewrite (ChannelByName_missing name t d Ht Hn).
  - intros i c Hc Hname. unfold Web.dispatch. rewrite route_watch by done. cbn beta iota. unfold watch. change (default ""%string (head [name])) with name.
    rewrite (proj2 (String.eqb_neq _ _) Hne), prog_bind_eq. unfold svc at 1. cbn [s_db start]. subst name.
    rewrite (ChannelByName_fine i c t d Hok Hc Ht). cbn beta iota. rewrite prog_bind_eq. cbn [s_chat s_w start].
    destruct (ensureAnonCookie_value e (get_path ["c"%string; c_Name c] cookies) {| s_db := at_time t d; s_chat := chat; s_w := new_writer |})
      as (w & Ew & Hsent & Hbody). cbn [s_chat s_w] in *. rewrite Ew. cbn beta iota. rewrite Render_eq.
    assert (Hans : forall p, answer (on_writer (C := C) (fun w => write (BPage ctx p) (set_ContentType "text/html; charset=utf-8" w))
      {| s_db := at_time t d; s_chat := chat; s_w := w |}).1 = (200, [BPage ctx p])).
    { intros p. unfold answer, on_writer, modify. cbn [fst s_w s_db s_chat]. unfold response, write, WriteHeader, set_ContentType, on_headers.
      cbn [w_sent w_headers w_body]. rewrite Hsent, Hbody. done. }
    rewrite Hans. destruct (dir_GetByName (c_Name c) lv) as [l|] eqn:El.
    + exists (Title l), true. split; [done|]. split; [done|]. intros card Hcard. rewrite list_elem_of_fmap. split.
      * intros (l' & -> & Hl'). simpl in *. apply (list_lookup lv l' Hwf) in Hl'. rewrite Hcard, El in Hl'. simplify_eq. by rewrite Hcard.
      * intros (_ & Htitle & Hv). exists l. pose proof (lookup_name lv _ l Hwf El) as Hln. split.
        -- rewrite Hln, <- Hcard in *. rewrite <- Htitle, <- Hv. by destruct card.
        -- apply (list_lookup lv l Hwf). by rewrite Hln.
    + exists (c_Title c), false. split; [done|]. split; [done|]. intros card Hcard. rewrite list_elem_of_fmap. split; [|by intros [? _]].
      intros (l' & -> & Hl'). simpl in *. apply (list_lookup lv l' Hwf) in Hl'. congruence.
Qed.

Abbreviation serve := (serve (C := C) parse_address bcrypt_generate bcrypt_compare driver_text sessionTTL secureCookies lv).

(** The chat handler on an existing channel, for whoever the context names. *)
Lemma chatWS_known e cookies ctx c i t d w chat' who : ok d -> channels d !! i = Some c ->
  c_Name c <> ""%string -> pg_text (c_Name c) = true -> e_upgrade e = true -> w_sent w = None -> w_body w = [] ->
  who = match ctx with Some u => (u_Username u, u_ID u, ""%string) | None => (""%string, 0, anon_key e cookies) end ->
  gw_ServeWS (c_Name c) who.1.1 who.1.2 who.2 chat = Ok chat' ->
  let '(s', r) := dispatch e (get_path ["ws"; "chat"; c_Name c]%string cookies) ctx {| s_db := at_time t d; s_chat := chat; s_w := w |} in
  r = Ok tt /\ s_chat s' = chat' /\ s_db s' = at_time t d /\ answer s' = (101, [BUpgraded]).
Proof.
  intros Hok Hc Hne Ht Hup Hw1 Hw2 Hwho Hgw. unfold Web.dispatch. rewrite route_chat by done. cbn beta iota. unfold chatWS.
  change (default ""%string (head [c_Name c])) with (c_Name c). rewrite (proj2 (String.eqb_neq _ _) Hne), prog_bind_eq. unfold svc at 1. cbn [s_db].
  rewrite (ChannelByName_fine i c t d Hok Hc Ht). cbn beta iota. rewrite prog_bind_eq, Hup.
  assert (Hgo : forall w, w_sent w = None -> w_body w = [] ->
    let '(s', r) := ServeWS (c_Name c) who.1.1 who.1.2 who.2 {| s_db := at_time t d; s_chat := chat; s_w := w |} in
    r = Ok tt /\ s_chat s' = chat' /\ s_db s' = at_time t d /\ answer s' = (101, [BUpgraded])).
  { intros w' E1 E2. unfold ServeWS. cbn [s_chat]. rewrite Hgw. split_and!; [done..|].
    unfold answer, response, write, WriteHeader. cbn [s_w]. rewrite E1. cbn [w_sent w_headers w_body]. by rewrite E2. }
  destruct ctx as [u|]; cbn [mret prog_ret s_chat s_w]; [by subst who; apply Hgo|].
  rewrite prog_bind_eq. cbn [s_chat s_w].
  destruct (ensureAnonCookie_value e (get_path ["ws"%string; "chat"%string; c_Name c] cookies) {| s_db := at_time t d; s_chat := chat; s_w := w |})
    as (w' & Ew & Hsent & Hbody). cbn [s_chat s_w s_db r_cookies get_path] in *. rewrite Ew. cbn [mret prog_ret].
  subst who. apply Hgo; congruence.
Qed.

(** C38: who enters which chat room. A WebSocket request to an existing channel
    enters that channel's room: a signed-in browser as the user of its session,
    by the name and number in the database, whatever the request contains; any
    other browser as a guest without name or number, under its anonymous
    cookie or, without one, a fresh key. When the channel does not exist, the
    lookup fails or the upgrade fails, no room is touched. *)
Theorem chat_entry e jar c i t d :
  ok d -> channels d !! i = Some c -> c_Name c <> ""%string -> pg_text (c_Name c) = true -> e_upgrade e = true ->
  (forall n u k a, exists c', gw_ServeWS n u k a chat = Ok c') ->
  (forall token x u, jar !! SessionCookieName = Some token -> token <> ""%string -> pg_text token = true ->
     Store.sessions d !! token = Some x -> t / 1000 < s_ExpiresAt x -> users d !! s_UserID x = Some u ->
     Ok (s_chat (serve e (get_path ["ws"; "chat"; c_Name c]%string (map_to_list jar)) (start (at_time t d))).1)
     = gw_ServeWS (c_Name c) (u_Username u) (u_ID u) "" chat) /\
  (anonymous jar t d ->
     Ok (s_chat (serve e (get_path ["ws"; "chat"; c_Name c]%string (map_to_list jar)) (start (at_time t d))).1)
     = gw_ServeWS (c_Name c) "" 0 (anon_key e (map_to_list jar)) chat) /\
  (forall e' name r ctx s s1 x, ChannelByName name (s_db s) = (s1, Err x) \/ e_upgrade e' = false ->
     s_chat (chatWS (C := C) e' name r ctx s).1 = s_chat s).
Proof.
  intros Hok Hc Hne Ht Hup Hgw. split_and!.
  - intros token x u Hj Hn Htok Hx Hlt Hu. destruct (Hgw (c_Name c) (u_Username u) (u_ID u) ""%string) as [chat' Hchat'].
    change (start (at_time t d)) with (anon_site chat (at_time t d) false).
    rewrite (serve_signed_in parse_address bcrypt_generate bcrypt_compare driver_text sessionTTL secureCookies lv chat e _ token x u)
      by (done || unfold r_Cookie; simpl; by rewrite assoc_jar).
    pose proof (chatWS_known e (map_to_list jar) (Some u) c i t d (first_writer false) chat' _ Hok Hc Hne Ht Hup eq_refl eq_refl eq_refl Hchat') as Hk.
    unfold anon_site. destruct (dispatch _ _ _ _) as [s' r]. cbn [fst]. destruct Hk as (_ & -> & _). by rewrite Hchat'.
  - intros Ha. destruct (Hgw (c_Name c) ""%string 0 (anon_key e (map_to_list jar))) as [chat' Hchat'].
    change (start (at_time t d)) with (anon_site chat (at_time t d) false).
    destruct (serve_anonymous parse_address bcrypt_generate bcrypt_compare driver_text sessionTTL secureCookies lv chat e
      (get_path ["ws"; "chat"; c_Name c]%string (map_to_list jar)) jar t d eq_refl Ha) as [stale ->].
    assert (Hk : w_sent (first_writer stale) = None /\ w_body (first_writer stale) = []) by (by destruct stale).
    destruct Hk as [Hw1 Hw2].
    pose proof (chatWS_known e (map_to_list jar) None c i t d (first_writer stale) chat' _ Hok Hc Hne Ht Hup Hw1 Hw2 eq_refl Hchat') as Hk.
    unfold anon_site. destruct (dispatch _ _ _ _) as [s' r]. cbn [fst]. destruct Hk as (_ & -> & _). by rewrite Hchat'.
  - intros e' name r ctx s s1 x Hx. unfold chatWS. destruct (String.eqb name ""); [done|]. rewrite prog_bind_eq. unfold svc at 1.
    destruct (ChannelByName name (s_db s)) as [s2 [ch|y]] eqn:E; [|done]. destruct Hx as [Hx|Hx]; [done|]. rewrite Hx. cbn beta iota.
    rewrite prog_bind_eq. destruct ctx as [u|]; [done|]. rewrite prog_bind_eq. cbn [s_chat s_w].
    destruct (ensureAnonCookie_value e' r {| s_db := s2; s_chat := s_chat s; s_w := s_w s |}) as (w & -> & _). done.
Qed.
End Pages.

(** ** Bob is live *)
Definition on_air : live := lrun "state" (new_live bobs_store ∅) ([LConnect plain_key] ++ publish_all 0).

Lemma front_page_agrees_with_watch_pages_witness :
  exists cards,
    answer (dispatch toy_address toy_generate toy_compare no_text hour true on_air toy_env (get_path [""%string] []) None
      (start quiet_chat (at_time 5000000 bobs_db))).1 = (200, [BPage None (PHome cards)]) /\
    {| lc_ChannelName := "bob"; lc_Title := "live now"; lc_Viewers := 0 |} ∈ cards.
Proof.
  destruct (front_page_agrees_with_watch_pages (C := Manager.chat) (L := live) toy_address toy_generate toy_compare no_text hour true
    on_air quiet_chat toy_env None [] 5000000 bobs_db "bob") as (cards & H1 & _ & H3).
  - apply lrun_registry, new_live_registry.
  - exact bobs_db_ok.
  - discriminate.
  - vm_compute; reflexivity.
  - exists cards. split; [exact H1|]. destruct (H3 1 bob) as (title & lv & H4 & _ & H5); [vm_compute; reflexivity | reflexivity|].
    vm_compute in H4. injection H4 as <- <-. apply (H5 {| lc_ChannelName := "bob"; lc_Title := "live now"; lc_Viewers := 0 |}); [reflexivity|].
    repeat split.
Defined.

Lemma chat_entry_witness :
  Ok (s_chat (serve toy_address toy_generate toy_compare no_text hour true on_air toy_env
        (get_path ["ws"; "chat"; "bob"]%string (map_to_list bobs_jar)) (start quiet_chat (at_time 5000000 bobs_site_db))).1)
  = accept "bob" "bob" 1 "" quiet_chat.
Proof.
  destruct (chat_entry (C := Manager.chat) (L := live) toy_address toy_generate toy_compare no_text hour true on_air quiet_chat
    toy_env bobs_jar bob 1 5000000 bobs_site_db) as (H1 & _).
  - exact bobs_site_db_ok.
  - vm_compute; reflexivity.
  - discriminate.
  - vm_compute; reflexivity.
  - reflexivity.
  - exact (newChat_accepts _).
  - apply (H1 bob_token {| s_ID := bob_token; s_UserID := 1; s_ExpiresAt := 9000000000; s_CreatedAt := 0 |} bob_user); toy_premise.
Defined.
