(* ===== verification/Broadcast.v ===== *)
(** * From the signup form to a broadcast: the whole way through the program *)

From S2P Require Import Prelude Utf8 Encoding Errors StreamKey Store StoreInv Auth AuthThms Manager Stream StreamThms StreamRows StreamProps StreamBoot Rotation Http Web WebLib Site WebJourney WebPages.
Local Open Scope Z_scope.

(** ** The account service leaves the clock and the script of faults alone *)
Lemma SessionUser_at_time token t d s x : SessionUser token (at_time t d) = (s, x) -> s = at_time t d.
Proof.
  destruct (pg_text token) eqn:Ht; [rewrite SessionUser_fine by done; by intros [= <- _]|].
  unfold SessionUser, no_rows_to, catch, GetSessionWithUser. rewrite prog_bind_eq, statement_fine by done.
  unfold with_texts, texts_ok. cbn [forallb]. rewrite Ht. by intros [= <- _].
Qed.

(** Channels and stream rows are the same. *)
Definition same_streams (d d' : tables) : Prop :=
  stream_sessions d' = stream_sessions d /\ next_stream_session d' = next_stream_session d.

Lemma CreateSession_only ttl uid buf s s' r : Auth.CreateSession ttl uid buf s = (s', r) ->
  channels (db s') = channels (db s) /\ same_streams (db s) (db s').
Proof.
  unfold Auth.CreateSession. intros H. apply bind_returns in H as [(s1 & tok & [= <- Ht] & H)|(e & [= <- _] & ->)]; [|done].
  apply bind_returns in H as [(s2 & now & [= <- <-] & H)|(e & ? & ->)]; [|done].
  assert (Hk : forall s1 r1, wrapping "create session" (Store.CreateSession tok uid (timestamptz (clock s + ttl))) s = (s1, r1) ->
    channels (db s1) = channels (db s) /\ same_streams (db s) (db s1)).
  { intros s1 r1 H1. apply wrapping_returns in H1 as (r0 & H1 & _). unfold Store.CreateSession in H1.
    apply (statement_keeps (fun d => channels d = channels (db s) /\ same_streams (db s) d) _ _ _ _ H1); [|done]. intros _.
    apply with_texts_keeps; [done|]. destruct (is_some _); [done|]. by destruct (is_some _). }
  apply bind_returns in H as [(s2 & u & H1 & [= <- _])|(e & H1 & ->)]; by eapply Hk.
Qed.

Lemma Signup_streams parse generate n em p salt buf s s1 u key : ok (db s) ->
  Signup parse generate n em p salt buf s = (s1, Ok (u, key)) -> same_streams (db s) (db s1).
Proof.
  intros Hok H. destruct (signup_refused _ _ _ _ _ _ _ _ _ _ H) as [(e & ? & _)|(h & k & V1 & V2 & V3 & V4 & V5)]; [done|].
  rewrite (signup_validated _ _ _ _ _ _ _ h k) in H by done.
  destruct ((wrapping "begin tx" Begin ≫= _) s) as [s2 r] eqn:Htx. injection H as -> Hr.
  apply signup_tx in Htx as (_ & _ & [[_ [e ->]]|(u' & c & _ & _ & _ & Hd & _)]); [done| |done]. by rewrite Hd.
Qed.

Lemma GenerateKey_nonempty buf key : GenerateKey buf = Ok key -> key.1 <> ""%string.
Proof. destruct buf; [|done]. by intros [= <-]. Qed.

(** ** Pages, for any visitor *)
Section Visits.
Context {C : Type} `{chatGateway C} {L : Type} `{liveDirectory L}.
Context (parse_address : string -> bool).
Context (bcrypt_generate : list Z -> string -> option string).
Context (bcrypt_compare : string -> string -> bool).
Context (driver_text : err -> string).
Context (sessionTTL : Z) (secureCookies : bool).
Context (lv : L) (chat : C).

Abbreviation serve := (serve (C := C) parse_address bcrypt_generate bcrypt_compare driver_text sessionTTL secureCookies lv).
Abbreviation dispatch := (dispatch (C := C) parse_address bcrypt_generate bcrypt_compare driver_text sessionTTL secureCookies lv).
Abbreviation respond := (respond (C := C) parse_address bcrypt_generate bcrypt_compare driver_text sessionTTL secureCookies lv chat).

(** The middleware always hands the request on, with a fresh response. *)
Lemma serve_any e r t d : exists ctx w, w_sent w = None /\ w_body w = [] /\
  serve e r {| s_db := at_time t d; s_chat := chat; s_w := new_writer |} =
  dispatch e r ctx {| s_db := at_time t d; s_chat := chat; s_w := w |}.
Proof.
  assert (Hd : forall m, m = dispatch e r None {| s_db := at_time t d; s_chat := chat; s_w := new_writer |} ->
    exists ctx w, w_sent w = None /\ w_body w = [] /\ m = dispatch e r ctx {| s_db := at_time t d; s_chat := chat; s_w := w |})
    by (intros m ->; by exists None, new_writer).
  unfold Web.serve, Middleware. destruct (r_Cookie SessionCookieName r) as [[|ch tok]|]; [by apply Hd| |by apply Hd].
  rewrite prog_bind_eq. unfold svc at 1. cbn [s_db]. destruct (SessionUser _ (at_time t d)) as [s1 x] eqn:E.
  apply SessionUser_at_time in E as ->. destruct x as [u|x]; [by exists (Some u), new_writer|].
  exists None, (first_writer true). split; [done|]. split; [done|]. cbn beta iota. by rewrite prog_bind_eq.
Qed.

Lemma rendered ctx p s t d w : w_sent w = None -> w_body w = [] ->
  s = {| s_db := at_time t d; s_chat := chat; s_w := w |} ->
  let s' := (Render (C := C) ctx p s).1 in (s_db s', (response (s_w s')).2) = (at_time t d, [BPage ctx p]).
Proof.
  intros Hs Hb ->. rewrite Render_eq. unfold on_writer, modify. cbn [fst s_w s_db s_chat].
  unfold response, write, WriteHeader, set_ContentType, on_headers. cbn [w_sent w_headers w_body]. rewrite Hs, Hb. done.
Qed.

Definition front_page : page :=
  PHome (map (fun l => {| lc_ChannelName := ChannelName l; lc_Title := Title l; lc_Viewers := gw_ViewerCount (ChannelName l) chat |})
             (dir_ListLive lv)).
Definition watch_page (c : Channel) : page :=
  match dir_GetByName (c_Name c) lv with
  | Some l => PWatch (c_Name c) (Title l) true
  | None => PWatch (c_Name c) (c_Title c) false
  end.

Lemma visit_home e jar t d : exists ctx, (respond e (get_page [""%string] jar) (at_time t d)).2.2 = [BPage ctx front_page].
Proof.
  unfold WebJourney.respond. destruct (serve_any e (get_page [""%string] jar) t d) as (ctx & w & Hs & Hb & ->). exists ctx.
  unfold Web.dispatch. change (mux _ (get_page [""%string] jar)) with (Routed (fun (e : env) (vs : list string) => home (C := C) lv) (@nil string)).
  cbn beta iota. unfold home. change (is_root _) with true. cbn [negb]. rewrite prog_bind_eq. cbn [gets s_chat].
  pose proof (f_equal snd (rendered ctx front_page _ t d w Hs Hb eq_refl)) as Hr. unfold front_page in Hr.
  destruct (Render _ _ _) as [s' r]. exact Hr.
Qed.

Lemma visit_watch e jar c i t d : ok d -> channels d !! i = Some c -> c_Name c <> ""%string -> pg_text (c_Name c) = true ->
  exists ctx, (respond e (get_page ["c"; c_Name c]%string jar) (at_time t d)).2.2 = [BPage ctx (watch_page c)].
Proof.
  intros Hok Hc Hne Ht. unfold WebJourney.respond.
  destruct (serve_any e (get_page ["c"; c_Name c]%string jar) t d) as (ctx & w & Hs & Hb & ->). exists ctx.
  unfold Web.dispatch. change (get_page ["c"; c_Name c]%string jar) with (get_path ["c"; c_Name c]%string (map_to_list jar)).
  rewrite route_watch by done. cbn beta iota. unfold watch. change (default ""%string (head [c_Name c])) with (c_Name c).
  rewrite (proj2 (String.eqb_neq _ _) Hne), prog_bind_eq. unfold svc at 1. cbn [s_db].
  rewrite (ChannelByName_fine i c t d Hok Hc Ht). cbn beta iota. rewrite prog_bind_eq. cbn [s_chat s_w].
  destruct (ensureAnonCookie_value e (get_path ["c"%string; c_Name c] (map_to_list jar)) {| s_db := at_time t d; s_chat := chat; s_w := w |})
    as (w' & Ew & Hsent & Hbody). cbn [s_chat s_w s_db] in *. rewrite Ew. cbn beta iota. fold (watch_page c).
  pose proof (f_equal snd (rendered ctx (watch_page c) _ t d w' (eq_trans Hsent Hs) (eq_trans Hbody Hb) eq_refl)) as Hr.
  destruct (Render _ _ _) as [s' r]. exact Hr.
Qed.

(** A page with a stream key, in answer to a signup form, means that the
    account was created and a session with it. *)
Lemma key_shown e form jar t d s2 code h ctx heading msg key link url :
  respond e (post_form ["signup"%string] form jar) (at_time t d) = (s2, (code, h, [BPage ctx (PKeyShown heading msg key link url)])) ->
  exists s1 u tok, Signup parse_address bcrypt_generate (PostForm_Get "username" form) (PostForm_Get "email" form)
      (PostForm_Get "password" form) (e_salt e) (e_key e) (at_time t d) = (s1, Ok (u, key)) /\
    Auth.CreateSession sessionTTL (u_ID u) (e_token e) s1 = (s2, Ok tok).
Proof.
  unfold WebJourney.respond. destruct (serve_any e (post_form ["signup"%string] form jar) t d) as (ctx0 & [hd sent body] & Hs & Hb & ->).
  simpl in Hs, Hb. subst sent body.
  unfold Web.dispatch. change (mux _ (post_form ["signup"%string] form jar)) with
    (Routed (fun (e : env) (vs : list string) => RequireGuest (signup (C := C) parse_address bcrypt_generate driver_text sessionTTL secureCookies e)) (@nil string)).
  cbn beta iota. unfold RequireGuest. destruct ctx0 as [u0|]; [destruct hd as [[ct|] ? ? ?]; simpl; by intros [= _ _ _ Hx]|].
  unfold signup. cbn [r_form post_form]. rewrite prog_bind_eq. unfold svc at 1. cbn [s_db].
  destruct (Signup _ _ _ _ _ _ _ _) as [s1 [[u plain]|x]]; cbn beta iota; rewrite prog_bind_eq; [|rewrite Render_eq; simpl; by intros [= _ _ _ Hx]].
  unfold svc at 1. cbn [s_db]. destruct (Auth.CreateSession _ _ _ _) as [s3 [tok|x]] eqn:E; cbn beta iota; [|simpl; by intros [= _ _ _ Hx]].
  rewrite prog_bind_eq, Render_eq. simpl. intros [= -> _ _ _ _ _ <- _ _]. by exists s1, u, tok.
Qed.
End Visits.

(** ** The account made by a signup can publish *)
Lemma signup_publishable parse generate n em p salt buf ttl tbuf t d s1 u key s2 tok : ok d ->
  Signup parse generate n em p salt buf (at_time t d) = (s1, Ok (u, key)) ->
  Auth.CreateSession ttl (u_ID u) tbuf s1 = (s2, Ok tok) ->
  (forall i c, channels d !! i = Some c -> c_StreamKeyHash c <> HashKey key) ->
  ok (db s2) /\ same_streams d (db s2) /\ key <> ""%string /\ n <> ""%string /\ pg_text n = true /\
  exists c, channels (db s2) !! c_ID c = Some c /\ c_Name c = n /\
    forall t1, lookupChannelByStreamKey key (at_time t1 (db s2)) = (at_time t1 (db s2), Ok c).
Proof.
  intros Hok Hs Hcs Hnew.
  destruct (Signup_done _ _ _ _ _ _ _ (at_time t d) s1 u key Hok Hs) as (Hok1 & _ & _ & _ & _ & c & Hch & _ & Hcn & Hck).
  destruct (CreateSession_keeps _ _ _ _ _ _ Hcs Hok1) as [Hok2 _]. destruct (CreateSession_only _ _ _ _ _ _ Hcs) as [Hsame [R1 R2]].
  destruct (Signup_streams _ _ _ _ _ _ _ (at_time t d) s1 u key Hok Hs) as [Q1 Q2].
  assert (Hv : key <> ""%string /\ usernameRE n = true).
  { destruct (signup_refused _ _ _ _ _ _ _ _ _ _ Hs) as [(y & ? & _)|(h1 & key1 & V1 & V2 & V3 & V4 & V5)]; [done|].
    rewrite (signup_validated _ _ _ _ _ _ _ h1 key1) in Hs by done. destruct ((wrapping "begin tx" Begin ≫= _) _) as [s3 [v|y]]; [|done].
    injection Hs as _ _ <-. split; [by eapply GenerateKey_nonempty|]. unfold validateUsername in V1. by destruct (usernameRE n). }
  destruct Hv as [Hk Hn]. split; [done|]. split; [by split; [rewrite R1|rewrite R2]|]. split; [done|]. split.
  { intros ->. by apply usernameRE_spec in Hn as [[? _] _]. }
  split; [by apply username_text|]. exists c. rewrite Hsame, Hch. split; [by apply lookup_insert_eq|]. split; [done|].
  intros t1. apply lookup_finds; [done|]. rewrite lookup_value by done. cbn [db at_time]. rewrite Hsame, Hch.
  rewrite (select_unique _ _ (c_ID c) c); [done|by apply lookup_insert_eq|by apply String.eqb_eq|].
  intros k x. simpl. rewrite lookup_insert_Some. intros [[_ <-]|[_ Hx]]; [done|]. intros E%String.eqb_eq. by destruct (Hnew k x Hx).
Qed.

(** ** One stream from its publish to its end *)
Definition stream_row (c : Channel) (t : Z) (d : tables) : StreamSession :=
  {| ss_ID := next_stream_session d; ss_ChannelID := c_ID c; ss_StartedAt := timestamptz t; ss_EndedAt := None; ss_EndReason := None |}.
Definition with_stream (x : StreamSession) (d : tables) : tables :=
  set_stream_sessions (<[ss_ID x := x]> (stream_sessions d)) (ss_ID x + 1) d.

Lemma with_stream_ok c t d : ok d -> channels d !! c_ID c = Some c -> ok (with_stream (stream_row c t d) d).
Proof.
  intros Hok Hc. destruct (CreateStreamSession_fine (c_ID c) (timestamptz t) (at_time t d) eq_refl) as [(x & E)|E].
  - unfold CreateStreamSession in E. rewrite statement_fine in E by done. cbn [db at_time] in E. rewrite Hc in E. done.
  - apply CreateStreamSession_ok in E; [exact E | exact Hok].
Qed.

Lemma ended_ok d id t x : ok d -> stream_sessions d !! id = Some x ->
  ok (set_stream_sessions (<[id := end_row t "normal" x]> (stream_sessions d)) (next_stream_session d) d).
Proof.
  intros Hok Hx. pose proof (EndStreamSession_fine id t "normal" (at_time 0 d) x eq_refl eq_refl Hx) as E.
  by apply EndStreamSession_ok in E.
Qed.

(** The publisher connects and publishes with [key]; nothing disturbs it. *)
Definition going_live (key : string) (w : live) : list lact :=
  LConnect key :: repeat (LPublish (length (handlers w)) true) 6.

Lemma lrun_cons stateDir w a acts : lrun stateDir w (a :: acts) = lrun stateDir (lstep stateDir w a) acts.
Proof. reflexivity. Qed.

Lemma goes_on_air stateDir w key c t d : channels d !! c_ID c = Some c -> key <> ""%string ->
  lookupChannelByStreamKey key (at_time t d) = (at_time t d, Ok c) -> byName w !! c_Name c = None ->
  let s := pipeline {| pb_channel := c; pb_startedAt := t; pb_row := stream_row c t d |} (length (procs w)) in
  let on := lrun stateDir (set_st (at_time t d) w) (going_live key w) in
  at_state on (length (handlers w)) (PLive (length (Stream.sessions w))) /\
  Stream.sessions on = Stream.sessions w ++ [s] /\ byName on = <[c_Name c := length (Stream.sessions w)]> (byName w) /\
  procs on = procs w ++ [new_proc (c_Name c)] /\ dirs on = {[c_Name c]} ∪ dirs w /\
  st on = at_time t (with_stream (stream_row c t d) d).
Proof.
  intros Hc Hk Hl Hn s on. set (h := length (handlers w)). set (hd := {| h_key := key; h_state := PStart |}).
  set (w0 := lstep stateDir (set_st (at_time t d) w) (LConnect key)).
  assert (E0 : on = lrun stateDir w0 (repeat (LPublish h true) 6)) by apply lrun_cons.
  assert (Hh : handlers w0 !! h = Some hd) by (unfold w0, h; simpl; by rewrite lookup_app_r, Nat.sub_diag by done).
  assert (F : st w0 = at_time t d /\ byName w0 = byName w /\ Stream.sessions w0 = Stream.sessions w /\ procs w0 = procs w /\ dirs w0 = dirs w) by done.
  clearbody w0 h on. subst on. destruct F as (F1 & F2 & F3 & F4 & F5).
  destruct (publish_to_encoder stateDir h hd c w0 1 Hh eq_refl Hk) as (E & _ & A); [by rewrite F1|by rewrite F1|by rewrite F1; eexists|].
  cbn [Nat.add] in E. rewrite E. clear E. destruct (up_to_encoder_fields h c w0) as (G1 & G2 & G3 & G4 & G5).
  generalize dependent (up_to_encoder h c w0). intros w5 A G1 G2 G3 G4 G5.
  assert (Er : fresh_row w0 c = stream_row c t d) by (unfold fresh_row; by rewrite F1).
  assert (Es : with_row w0 (stream_row c t d) = at_time t (with_stream (stream_row c t d) d)) by (unfold with_row, rows_of, with_stream; rewrite F1, set_db_at_time; reflexivity).
  rewrite Er in *. rewrite Es in G1. rewrite F1 in A. cbn [clock at_time] in A. rewrite F2 in G2. rewrite F3 in G3. rewrite F4 in G4, A. rewrite F5 in G5.
  set (pb := Build_publication _ _ _) in *. rewrite <- G2 in Hn.
  rewrite (goes_step _ _ _ _ _ (goes_live _ pb _ w5 A Hn)). cbn [repeat lrun foldl]. rewrite G3.
  split; [by eapply (at_set_handler _ _ _ w5)|]. cbn. rewrite G2, G4, G5, G1. by split_and!.
Qed.

(** The connection closes at [t], ffmpeg ends, the tear down runs. *)
Definition going_off (h sid p : nat) (failed : bool) (t : Z) (on : live) : list lact :=
  [LEnv t [] (channels (db (st on))); LClose h; LExit p failed; LTear sid; LTear sid; LTear sid].

Lemma goes_off_air stateDir on h sid s p pr x failed t : ffmpeg s = p -> at_state on h (PLive sid) ->
  Stream.sessions on !! sid = Some s -> torn s = TIdle -> procs on !! ffmpeg s = Some pr ->
  dbRowID s <> 0 -> rows_of on !! dbRowID s = Some x ->
  let off := lrun stateDir on (going_off h sid p failed t on) in
  byName off = delete (channelName s) (byName on) /\ dirs off = gone stateDir (channelName s) (dirs on) /\
  st off = at_time t (set_stream_sessions (<[dbRowID s := end_row (timestamptz t) "normal" x]> (rows_of on))
                        (next_stream_session (db (st on))) (db (st on))).
Proof.
  intros <- (hd & Hh & Hp) Hs Ht Hpr Hid Hx. unfold going_off. rewrite !lrun_cons. set (w0 := lstep stateDir on (LEnv _ _ _)).
  assert (Hst : st w0 = at_time t (db (st on))) by (unfold w0; simpl; unfold environment; by destruct (db (st on))).
  set (w1 := lstep stateDir w0 (LClose h)).
  assert (E1 : w1 = set_torn sid (TWaiting "normal") (set_procs (alter close_stdin (ffmpeg s) (procs w0)) w0)).
  { unfold w1. cbn [lstep]. unfold OnClose. change (handlers w0) with (handlers on). rewrite Hh, Hp. unfold tearDown.
    change (Stream.sessions w0) with (Stream.sessions on). by rewrite Hs, Ht. }
  set (w2 := lstep stateDir w1 (LExit (ffmpeg s) failed)).
  assert (H2 : Stream.sessions w2 !! sid = Some (with_torn (TWaiting "normal") s)).
  { unfold w2. rewrite E1. by apply set_torn_at. }
  assert (Hex : exists b, exited (ffmpeg s) w2 = Some b).
  { unfold exited, w2. rewrite E1. simpl. rewrite list_lookup_alter_eq, list_lookup_alter_eq, Hpr. simpl. unfold exit_proc.
    destruct (p_exited (close_stdin pr)) as [b|] eqn:Eb; [by exists b | by exists failed]. }
  destruct Hex as [b Hb].
  destruct (tear_steps stateDir w2 sid _ "normal" b H2 eq_refl Hb) as (_ & _ & D & B & S).
  change (lrun stateDir _ []) with (tear_step stateDir sid (tear_step stateDir sid (tear_step stateDir sid w2))).
  rewrite D, B, S. cbn [channelName dbRowID with_torn]. apply Z.eqb_neq in Hid. rewrite Hid.
  assert (E2 : byName w2 = byName on /\ dirs w2 = dirs on /\ st w2 = st w0) by (unfold w2; rewrite E1; done).
  destruct E2 as (-> & -> & ->). rewrite Hst. split; [done|]. split; [done|].
  by rewrite (EndStreamSession_fine _ _ "normal" (at_time t (db (st on))) x).
Qed.

(** Both together. *)
Lemma one_broadcast stateDir w key c t1 t2 failed d (x := stream_row c t1 d) : ok d -> 1 <= next_stream_session d ->
  channels d !! c_ID c = Some c -> key <> ""%string ->
  lookupChannelByStreamKey key (at_time t1 d) = (at_time t1 d, Ok c) -> registry_ok w -> byName w !! c_Name c = None ->
  let on := lrun stateDir (set_st (at_time t1 d) w) (going_live key w) in
  let off := lrun stateDir on (going_off (length (handlers w)) (length (Stream.sessions w)) (length (procs w)) failed t2 on) in
  (registry_ok on /\ GetByName (c_Name c) on = Some {| ChannelName := c_Name c; Title := c_Title c; StartedAt := t1 |} /\
   procs on = procs w ++ [new_proc (c_Name c)] /\ dirs on = {[c_Name c]} ∪ dirs w /\
   db (st on) = with_stream x d /\ ok (db (st on))) /\
  (registry_ok off /\ GetByName (c_Name c) off = None /\ dirs off = gone stateDir (c_Name c) (dirs on) /\
   db (st off) = set_stream_sessions (<[ss_ID x := end_row (timestamptz t2) "normal" x]> (stream_sessions d)) (ss_ID x + 1) d /\
   ok (db (st off))).
Proof.
  intros Hok Hnext Hc Hk Hl Hreg Hfree on off. destruct (goes_on_air stateDir w key c t1 d Hc Hk Hl Hfree) as (A & S & B & P & D & T).
  fold on in A, S, B, P, D, T. set (sess := pipeline _ _) in S. fold x in T.
  assert (Hsid : Stream.sessions on !! length (Stream.sessions w) = Some sess) by (rewrite S; by rewrite lookup_app_r, Nat.sub_diag by done).
  assert (Hpr : procs on !! ffmpeg sess = Some (new_proc (c_Name c))) by (rewrite P; simpl; by rewrite lookup_app_r, Nat.sub_diag by done).
  assert (Hx : rows_of on !! dbRowID sess = Some x) by (unfold rows_of; rewrite T; by apply lookup_insert_eq).
  assert (Hid : dbRowID sess <> 0) by (simpl; lia).
  assert (Hreg1 : registry_ok on) by (apply lrun_registry; by apply (registry_same w)).
  assert (Hreg2 : registry_ok off) by by apply lrun_registry.
  destruct (goes_off_air stateDir on (length (handlers w)) (length (Stream.sessions w)) sess (length (procs w)) _ x failed t2 eq_refl A Hsid eq_refl Hpr Hid Hx)
    as (B' & D' & T'). fold off in B', D', T'. clearbody off on.
  pose proof (with_stream_ok c t1 d Hok Hc) as Hok1. fold x in Hok1.
  assert (Hok2 : ok (db (st off))) by abstract (rewrite T'; apply ended_ok; [by rewrite T | exact Hx]).
  split; split_and!; try done.
  - unfold GetByName, get. rewrite B, lookup_insert_eq. simpl. by rewrite Hsid.
  - by rewrite T.
  - by rewrite T.
  - unfold GetByName, get. rewrite B'. change (channelName sess) with (c_Name c). by rewrite lookup_delete_eq.
  - rewrite T'. unfold rows_of. rewrite T. unfold with_stream. cbn. by rewrite insert_insert_eq.
Qed.

(** ** What the pages show of a directory *)
Section Shown.
Context {C : Type} `{chatGateway C} {L : Type} `{liveDirectory L} {wf : L -> Prop} `{!directoryLaws L wf} (chat : C).

Lemma shown_live lv c l : wf lv -> dir_GetByName (c_Name c) lv = Some l ->
  watch_page lv c = PWatch (c_Name c) (Title l) true /\
  exists cards, front_page lv chat = PHome cards /\
    ({| lc_ChannelName := c_Name c; lc_Title := Title l; lc_Viewers := gw_ViewerCount (c_Name c) chat |} ∈ cards).
Proof.
  intros Hwf Hl. unfold watch_page. rewrite Hl. split; [done|]. eexists. split; [done|].
  pose proof (lookup_name lv _ l Hwf Hl) as Hn. rewrite <- Hn in *. apply list_elem_of_fmap. exists l. split; [done|].
  by apply (list_lookup lv l Hwf).
Qed.

Lemma shown_off lv c : wf lv -> dir_GetByName (c_Name c) lv = None ->
  watch_page lv c = PWatch (c_Name c) (c_Title c) false /\
  exists cards, front_page lv chat = PHome cards /\ c_Name c ∉ map lc_ChannelName cards.
Proof.
  intros Hwf Hl. unfold watch_page. rewrite Hl. split; [done|]. eexists. split; [done|].
  intros (card & Hn & (l & -> & Hin)%list_elem_of_fmap)%list_elem_of_fmap. apply (list_lookup lv l Hwf) in Hin.
  simpl in Hn. congruence.
Qed.
End Shown.

Section Broadcast.
Context {C : Type} `{chatGateway C}.
Context (parse_address : string -> bool).
Context (bcrypt_generate : list Z -> string -> option string).
Context (bcrypt_compare : string -> string -> bool).
Context (driver_text : err -> string).
Context (sessionTTL : Z) (secureCookies : bool) (chat : C).

(** What the site answers while the stream service is in state [w]. *)
Abbreviation answers w := (respond (C := C) (L := live) parse_address bcrypt_generate bcrypt_compare driver_text sessionTTL secureCookies w chat).

(** What a visitor with any cookies sees at any time. *)
Definition sees (w : live) (path : list string) (p : page) : Prop :=
  forall e jar t, exists ctx, (answers w e (get_page path jar) (at_time t (db (st w)))).2.2 = [BPage ctx p].

Lemma sees_site w i c : ok (db (st w)) -> channels (db (st w)) !! i = Some c -> c_Name c <> ""%string -> pg_text (c_Name c) = true ->
  sees w ["c"; c_Name c]%string (watch_page w c) /\ sees w [""%string] (front_page w chat).
Proof. intros Hok Hc Hn Ht. split; intros e jar t; [by apply (visit_watch (C := C) (L := live)) with i | apply visit_home]. Qed.

(** C3: from the signup form to a broadcast and back. When the answer to a
    posted signup form shows a stream key, then a publisher that connects with
    this key, at any later time and whatever else is live, goes on the air: an
    ffmpeg is started in the channel's directory, every visitor's watch page
    shows the stream live and every front page lists it with its room's viewer
    count. When the connection closes and ffmpeg ends, well or not, the watch
    page shows the channel off the air and no front page lists it, the row of
    the stream tells when it began and ended, "normal", no other row was
    touched, and the directory is gone. (No other channel's key has the same
    hash, and the name is not on the air before its account exists.) *)
Theorem shown_key_goes_live stateDir e form jar t d s2 code h ctx heading msg key link url w t1 t2 failed
    (name := PostForm_Get "username" form) :
  ok d -> 1 <= next_stream_session d ->
  answers w e (post_form ["signup"%string] form jar) (at_time t d) = (s2, (code, h, [BPage ctx (PKeyShown heading msg key link url)])) ->
  (forall i c, channels d !! i = Some c -> c_StreamKeyHash c <> HashKey key) ->
  registry_ok w -> byName w !! name = None ->
  let on := lrun stateDir (set_st (at_time t1 (db s2)) w) (going_live key w) in
  let off := lrun stateDir on (going_off (length (handlers w)) (length (Stream.sessions w)) (length (procs w)) failed t2 on) in
  exists title cards cards',
  (procs on = procs w ++ [new_proc name] /\ name ∈ dirs on /\
   sees on ["c"; name]%string (PWatch name title true) /\ sees on [""%string] (PHome cards) /\
   ({| lc_ChannelName := name; lc_Title := title; lc_Viewers := gw_ViewerCount name chat |} ∈ cards)) /\
  (sees off ["c"; name]%string (PWatch name title false) /\ sees off [""%string] (PHome cards') /\
   (name ∉ map lc_ChannelName cards') /\
   (exists id, rows_of off = <[next_stream_session d := {| ss_ID := next_stream_session d; ss_ChannelID := id;
       ss_StartedAt := timestamptz t1; ss_EndedAt := Some (timestamptz t2); ss_EndReason := Some "normal"%string |}]> (stream_sessions d) /\
     (c_Name <$> (channels (db (st off)) !! id)) = Some name) /\
   (stateDir <> ""%string -> name ∉ dirs off)).
Proof.
  intros Hok Hnext Hpage Hnew Hreg Hfree on off.
  apply key_shown in Hpage as (s1 & u & tok & Hs & Hcs).
  destruct (signup_publishable _ _ _ _ _ _ _ _ _ _ _ _ _ _ _ _ Hok Hs Hcs Hnew) as (Hok2 & [R1 R2] & Hk & Hne & Ht & c & Hc & Hname & Hl).
  fold name in Hname, Hne, Ht. rewrite <- Hname in *. set (d2 := db s2) in *.
  rewrite <- R2 in Hnext. destruct (one_broadcast stateDir w key c t1 t2 failed d2 Hok2 Hnext Hc Hk (Hl t1) Hreg Hfree)
    as ((Hreg1 & Hon & P & D & T & Hok3) & (Hreg2 & Hoff & D' & T' & Hok4)).
  fold on in Hreg1, Hon, P, D, T, Hok3, Hreg2, Hoff, D', T', Hok4. fold off in Hreg2, Hoff, D', T', Hok4. clearbody off on.
  assert (Hc3 : channels (db (st on)) !! c_ID c = Some c) by by rewrite T.
  assert (Hc4 : channels (db (st off)) !! c_ID c = Some c) by by rewrite T'.
  destruct (sees_site on (c_ID c) c Hok3 Hc3 Hne Ht) as [V1 V2], (sees_site off (c_ID c) c Hok4 Hc4 Hne Ht) as [V3 V4].
  destruct (@shown_live C _ live stream_directory registry_ok _ chat on c _ Hreg1 Hon) as (W1 & cards & W2 & W3). rewrite W1 in V1. rewrite W2 in V2.
  destruct (@shown_off C _ live stream_directory registry_ok _ chat off c Hreg2 Hoff) as (W4 & cards' & W5 & W6). rewrite W4 in V3. rewrite W5 in V4.
  exists (c_Title c), cards, cards'. split; [split_and!; [done|set_solver|done..]|]. split; [done|]. split; [done|]. split; [done|]. split.
  - exists (c_ID c). rewrite Hc4. split; [|done]. unfold rows_of. rewrite T', <- R1, <- R2. done.
  - intros Hd. rewrite D'. apply String.eqb_neq in Hd. unfold gone. rewrite Hd. set_solver.
Qed.
End Broadcast.

(** Alice signs up while bob is on the air, and goes live herself. *)
Definition alice_env : env :=
  {| e_salt := toy_salt; e_key := Some (replicate 32 8); e_token := Some (replicate 32 9); e_anon := None; e_upgrade := false |}.
Definition alice_key : string := streamKeyPrefix +:+ EncodeToString (replicate 32 8).
Definition alice_signs_up : store * (Z * headers * list body) :=
  respond (C := Manager.chat) (L := live) toy_address toy_generate toy_compare no_text hour true on_air quiet_chat
    alice_env (post_form ["signup"%string] alice_form ∅) (at_time 5000000 (db (st on_air))).
Definition alice_on : live := lrun "state" (set_st (at_time 6000000 (db alice_signs_up.1)) on_air) (going_live alice_key on_air).

Lemma shown_key_goes_live_witness :
  exists title cards,
  sees (C := Manager.chat) toy_address toy_generate toy_compare no_text hour true quiet_chat alice_on ["c"; "alice"]%string (PWatch "alice" title true) /\
  sees (C := Manager.chat) toy_address toy_generate toy_compare no_text hour true quiet_chat alice_on [""%string] (PHome cards) /\
  {| lc_ChannelName := "alice"; lc_Title := title; lc_Viewers := 0 |} ∈ cards.
Proof.
  destruct alice_signs_up as [s2 [[code h] b]] eqn:E.
  destruct (shown_key_goes_live (C := Manager.chat) toy_address toy_generate toy_compare no_text hour true quiet_chat "state" alice_env alice_form ∅
    5000000 (db (st on_air)) s2 code h None "Welcome to chtiwt"
    "This is your stream key. Copy it now — for security it won't be shown again." alice_key "Continue to dashboard" "/dashboard"
    on_air 6000000 7000000 true) as (title & cards & cards' & (_ & _ & H1 & H2 & H3) & _).
  - assert (Edb : db (st on_air) = db (CreateStreamSession 1 5000 bobs_store).1) by (vm_compute; reflexivity).
    rewrite Edb. eapply CreateStreamSession_ok; [apply surjective_pairing | exact bobs_db_ok].
  - vm_compute. discriminate.
  - assert (Eb : alice_signs_up.2.2 = [BPage None (PKeyShown "Welcome to chtiwt"
      "This is your stream key. Copy it now — for security it won't be shown again." alice_key "Continue to dashboard" "/dashboard")])
      by (vm_compute; reflexivity).
    rewrite E in Eb. simpl in Eb. rewrite Eb in E. exact E.
  - assert (Ech : channels (db (st on_air)) = channels bobs_db) by (vm_compute; reflexivity).
    intros i c. rewrite Ech. unfold bobs_db. cbn [channels]. rewrite lookup_singleton_Some. intros [_ <-]. vm_compute. discriminate.
  - apply lrun_registry, new_live_registry.
  - vm_compute. reflexivity.
  - exists title, cards. unfold alice_on. rewrite E. split; [exact H1|]. split; [exact H2 | exact H3].
Defined.
