(* ===== verification/Config.v ===== *)
(** * The configuration: [src/internal/config/config.go]

    The environment is a map from names to values, an unset variable reading
    as the empty string.  [Load] runs on the fuel of [ParseDuration] and
    returns [None] when that runs out, which [load_terminates] excludes. *)

From S2P Require Import Prelude Utf8 Errors Duration.
Local Open Scope Z_scope.

Record Config := {
  DatabaseURL : string;
  HTTPAddr : string;
  RTMPAddr : string;
  StateDir : string;
  FFmpegPath : string;
  PublicRTMPURL : string;
  SecureCookies : bool;
  SessionTTL : Z
}.

Definition environ : Type := gmap string string.
Definition Getenv (key : string) (env : environ) : string := default ""%string (env !! key).

Definition envOr (env : environ) (key def : string) : string :=
  let v := Getenv key env in
  if negb (String.eqb v "") then v else def.

Definition envBool (env : environ) (key : string) (def : bool) : bool :=
  let v := Getenv key env in
  if String.eqb v "" then def else
  match ParseBool v with
  | None => def
  | Some b => b
  end.

Definition envDuration (fuel : nat) (env : environ) (key : string) (def : Z) : option Z :=
  let v := Getenv key env in
  if String.eqb v "" then Some def else
  match ParseDuration fuel v with
  | Malformed => Some def
  | Parsed d => Some d
  | OutOfFuel => None
  end.

Definition defaultTTL : Z := 30 * 24 * ns_hour.
Definition ErrNoDatabase : err := ESentinel "DATABASE_URL is required".

Definition Load (fuel : nat) (env : environ) : option (res err Config) :=
  ttl ← envDuration fuel env "SESSION_TTL" defaultTTL;
  let cfg := {|
    DatabaseURL := Getenv "DATABASE_URL" env;
    HTTPAddr := envOr env "HTTP_ADDR" ":8080";
    RTMPAddr := envOr env "RTMP_ADDR" ":1935";
    StateDir := envOr env "STATE_DIR" "./state";
    FFmpegPath := envOr env "FFMPEG_PATH" "ffmpeg";
    PublicRTMPURL := envOr env "PUBLIC_RTMP_URL" "rtmp://localhost:1935/live";
    SecureCookies := envBool env "SECURE_COOKIES" false;
    SessionTTL := ttl
  |} in
  Some (if String.eqb (DatabaseURL cfg) "" then Err ErrNoDatabase else Ok cfg).

(** The fuel [SESSION_TTL] needs. *)
Definition ttl_fuel (env : environ) : nat := String.length (Getenv "SESSION_TTL" env).
Definition load (env : environ) : option (res err Config) := Load (ttl_fuel env) env.

Lemma envDuration_fuel fuel env key def : (String.length (Getenv key env) <= fuel)%nat ->
  envDuration fuel env key def =
  Some (match pd (Getenv key env) with Parsed d => d | _ => def end).
Proof.
  intros Hf. destruct (ParseDuration_terminates _ _ Hf) as [Hend Heq]. unfold envDuration.
  destruct (String.eqb_spec (Getenv key env) "") as [->|_]; [done|].
  rewrite Heq in *. by destruct (pd (Getenv key env)).
Qed.

Lemma load_eq env : exists cfg, load env = Some (if String.eqb (Getenv "DATABASE_URL" env) "" then Err ErrNoDatabase else Ok cfg) /\
  DatabaseURL cfg = Getenv "DATABASE_URL" env /\
  StateDir cfg = envOr env "STATE_DIR" "./state" /\
  FFmpegPath cfg = envOr env "FFMPEG_PATH" "ffmpeg" /\
  SecureCookies cfg = envBool env "SECURE_COOKIES" false /\
  SessionTTL cfg = match pd (Getenv "SESSION_TTL" env) with Parsed d => d | _ => defaultTTL end.
Proof. unfold load, Load. rewrite envDuration_fuel by done. cbn [mbind option_bind]. by eexists. Qed.

Lemma envOr_nonempty env key def : def <> ""%string -> envOr env key def <> ""%string.
Proof. intros Hd. unfold envOr. by destruct (String.eqb_spec (Getenv key env) ""). Qed.

Lemma load_inv env cfg : load env = Some (Ok cfg) ->
  DatabaseURL cfg <> ""%string /\ StateDir cfg <> ""%string /\ - 2 ^ 63 <= SessionTTL cfg < 2 ^ 63 /\
  SessionTTL cfg = match pd (Getenv "SESSION_TTL" env) with Parsed d => d | _ => defaultTTL end.
Proof.
  destruct (load_eq env) as (cfg' & -> & Hd & Hs & _ & _ & Ht).
  destruct (String.eqb_spec (Getenv "DATABASE_URL" env) ""); [done|]. intros [= ->].
  split; [by rewrite Hd|]. split; [rewrite Hs; by apply envOr_nonempty|]. split; [|done].
  rewrite Ht. destruct (pd (Getenv "SESSION_TTL" env)) eqn:E; [by apply ParseDuration_range in E | done..].
Qed.

Definition truths : list string := ["1"; "t"; "T"; "true"; "TRUE"; "True"]%string.

Lemma existsb_eqb v (l : list string) : existsb (String.eqb v) l = true <-> v ∈ l.
Proof.
  rewrite existsb_exists. split.
  - intros (x & Hx & ->%String.eqb_eq). by apply list_elem_of_In.
  - intros Hv. exists v. split; [by apply list_elem_of_In | apply String.eqb_refl].
Qed.

Lemma secure_spellings env : envBool env "SECURE_COOKIES" false = true <-> Getenv "SECURE_COOKIES" env ∈ truths.
Proof.
  unfold envBool, ParseBool. set (v := Getenv "SECURE_COOKIES" env). rewrite <- existsb_eqb. fold truths.
  destruct (String.eqb_spec v "") as [->|_]; [done|]. destruct (existsb _ truths); [done|]. by destruct (existsb _ _).
Qed.

(** Loading the configuration terminates: for every environment, whatever
    text [SESSION_TTL] holds, [Load] returns; as many rounds of the duration
    parser as the text has bytes are enough, and any more give the same
    result. *)
Theorem load_terminates env :
  exists r, forall fuel, (ttl_fuel env <= fuel)%nat -> Load fuel env = Some r.
Proof.
  eexists. intros fuel Hf. unfold Load. rewrite envDuration_fuel by done. reflexivity.
Qed.

(** What [Load] makes of an environment.  It fails exactly when
    [DATABASE_URL] is missing or empty.  Otherwise cookies are secure exactly
    when [SECURE_COOKIES] is one of the six spellings of true; every other
    text, misspellings included, means insecure cookies, silently; a
    [SESSION_TTL] that does not parse, like 30d, silently means the documented
    720 hours; the state directory is never empty; and the session lifetime
    fits a [time.Duration]. *)
Theorem load_decided env :
  (load env = Some (Err ErrNoDatabase) <-> Getenv "DATABASE_URL" env = ""%string) /\
  (Getenv "DATABASE_URL" env <> ""%string -> exists cfg, load env = Some (Ok cfg) /\
    (SecureCookies cfg = true <-> Getenv "SECURE_COOKIES" env ∈ truths) /\
    (pd (Getenv "SESSION_TTL" env) = Malformed -> SessionTTL cfg = 720 * ns_hour) /\
    StateDir cfg <> ""%string /\ - 2 ^ 63 <= SessionTTL cfg < 2 ^ 63).
Proof.
  destruct (load_eq env) as (cfg & Hl & _ & _ & _ & Hb & Ht). split.
  - rewrite Hl. by destruct (String.eqb_spec (Getenv "DATABASE_URL" env) "").
  - intros Hne. rewrite (proj2 (String.eqb_neq _ _) Hne) in Hl. exists cfg.
    destruct (load_inv env cfg Hl) as (_ & Hs & Hr & _).
    split; [done|]. split; [|split; [by intros E; rewrite Ht, E | done]].
    rewrite Hb. apply secure_spellings.
Qed.

(** The session lifetime an operator writes is the one the program uses:
    a [SESSION_TTL] made of decimal numbers with units ([1h30m], [45s],
    [720h]), in any order and number, gives exactly their sum in nanoseconds,
    as long as it fits an int64. *)
Theorem session_ttl_roundtrip env l cfg :
  Forall quantity l -> l <> [] -> nanoseconds l < 2 ^ 63 ->
  bytes_of (Getenv "SESSION_TTL" env) = spell l ->
  load env = Some (Ok cfg) ->
  SessionTTL cfg = nanoseconds l.
Proof.
  intros Hl Hne Hlt Hv Hload. destruct (load_inv env cfg Hload) as (_ & _ & _ & ->).
  unfold pd. by rewrite (ParseDuration_spell l).
Qed.

Lemma session_ttl_roundtrip_witness :
  SessionTTL {| DatabaseURL := "postgres://db"; HTTPAddr := ":8080"; RTMPAddr := ":1935"; StateDir := "./state";
                FFmpegPath := "ffmpeg"; PublicRTMPURL := "rtmp://localhost:1935/live"; SecureCookies := true;
                SessionTTL := 5445000000000 |} = nanoseconds [(1, bytes_of "h"); (30, bytes_of "m"); (45, bytes_of "s")].
Proof.
  apply (session_ttl_roundtrip
    {["DATABASE_URL"%string := "postgres://db"%string; "SESSION_TTL"%string := "1h30m45s"%string; "SECURE_COOKIES"%string := "true"%string]}).
  - repeat constructor; try done; eexists; reflexivity.
  - discriminate.
  - vm_compute. reflexivity.
  - vm_compute. reflexivity.
  - vm_compute. reflexivity.
Defined.
