(* ===== verification/Paths.v ===== *)
(** * Slash-separated paths: [filepath.Clean], [filepath.Join], [http.Dir]

    The parts of Go's [path/filepath] (on Unix) and [net/http] that build the
    file names the program uses.  [Clean] keeps a stack of elements, as the
    library's buffer does.  The lemmas say when [Join] merely appends an
    element: whenever that element is [plain]. *)

From S2P Require Import Prelude Http.
Local Open Scope string_scope.

Definition slash : Ascii.ascii := Ascii.ascii_of_nat 47.

(** [strings.Split(s, "/")] *)
Fixpoint split_slash (s : string) : list string :=
  match s with
  | "" => [""]
  | String c s =>
      if Ascii.eqb c slash then "" :: split_slash s
      else match split_slash s with
           | x :: l => String c x :: l
           | [] => [String c ""]
           end
  end.

(** [strings.Join(l, "/")] *)
Fixpoint join_slash (l : list string) : string :=
  match l with
  | [] => ""
  | [x] => x
  | x :: l => x +:+ "/" +:+ join_slash l
  end.

(** One element: [.] and empty ones are skipped, [..] goes back if it can. *)
Definition push (rooted : bool) (acc : list string) (x : string) : list string :=
  if String.eqb x "" || String.eqb x "." then acc
  else if String.eqb x ".." then
    match acc with
    | y :: acc' => if String.eqb y ".." then x :: acc else acc'
    | [] => if rooted then [] else [x]
    end
  else x :: acc.

(** Whether the path is rooted, and its elements. *)
Record path := { rooted : bool; elements : list string }.

Definition is_rooted (s : string) : bool := match s with String c _ => Ascii.eqb c slash | "" => false end.
Definition parse (s : string) : path :=
  {| rooted := is_rooted s; elements := reverse (foldl (push (is_rooted s)) [] (split_slash s)) |}.
Definition render (p : path) : string :=
  if rooted p then "/" +:+ join_slash (elements p)
  else match elements p with [] => "." | l => join_slash l end.

Definition Clean (s : string) : string := render (parse s).

Fixpoint Join (elem : list string) : string :=
  match elem with
  | [] => ""
  | "" :: elem => Join elem
  | e :: elem => Clean (join_slash (e :: elem))
  end.

(** [http.Dir(dir).Open] of a cleaned path below the root *)
Definition dir_Open (dir : string) (p : list string) : string :=
  Join [if String.eqb dir "" then "." else dir; match p with [] => "." | _ => join_slash p end].

(** ** Splitting *)
Fixpoint no_slash (s : string) : bool :=
  match s with "" => true | String c s => negb (Ascii.eqb c slash) && no_slash s end.

Lemma split_no_slash s : no_slash s = true -> split_slash s = [s].
Proof.
  induction s as [|c s IH]; [done|]. cbn [no_slash split_slash]. destruct (Ascii.eqb c slash); [done|].
  intros H%IH. by rewrite H.
Qed.

Lemma split_nonempty s : split_slash s <> [].
Proof. destruct s as [|c s]; [done|]. cbn [split_slash]. destruct (Ascii.eqb c slash); [done|]. by case_match. Qed.

Lemma split_app s t : split_slash (s +:+ "/" +:+ t) = (split_slash s ++ split_slash t)%list.
Proof.
  induction s as [|c s IH]; [done|]. change (String c s +:+ "/" +:+ t) with (String c (s +:+ "/" +:+ t)).
  cbn [split_slash]. rewrite IH. destruct (Ascii.eqb c slash); [done|].
  pose proof (split_nonempty s). by destruct (split_slash s).
Qed.

Lemma split_join l : l <> [] -> Forall (fun x => no_slash x = true) l -> split_slash (join_slash l) = l.
Proof.
  intros Hne Hl. induction Hl as [|x l Hx Hl IH]; [done|]. destruct l as [|y l].
  - by apply split_no_slash.
  - change (join_slash (x :: y :: l)) with (x +:+ "/" +:+ join_slash (y :: l)).
    by rewrite split_app, split_no_slash, IH.
Qed.

Lemma is_rooted_app s t : s <> "" -> is_rooted (s +:+ t) = is_rooted s.
Proof. by destruct s. Qed.

(** ** Plain elements *)
Definition plain (x : string) : Prop := no_slash x = true /\ x <> "" /\ x <> "." /\ x <> "..".

Lemma push_plain b acc x : plain x -> push b acc x = x :: acc.
Proof.
  intros (_ & H1 & H2 & H3). unfold push.
  apply String.eqb_neq in H1, H2, H3. by rewrite H1, H2, H3.
Qed.

Definition snoc (p : path) (x : string) : path := {| rooted := rooted p; elements := elements p ++ [x] |}.

Lemma parse_snoc s x : s <> "" -> plain x -> parse (s +:+ "/" +:+ x) = snoc (parse s) x.
Proof.
  intros Hs Hx. unfold parse, snoc. rewrite is_rooted_app, split_app by done. cbn [rooted elements]. f_equal.
  rewrite (split_no_slash x) by apply Hx. rewrite foldl_app. cbn [foldl]. by rewrite push_plain, reverse_cons.
Qed.

(** ** Cleaned paths: [..] only at the front, and only of a relative path *)
Definition stack_ok (b : bool) (acc : list string) : Prop :=
  exists l k, acc = (l ++ replicate k "..")%list /\ Forall plain l /\ (b = true -> k = 0%nat).
Definition normal (p : path) : Prop := stack_ok (rooted p) (reverse (elements p)).

Lemma push_stack_ok b acc x : no_slash x = true -> stack_ok b acc -> stack_ok b (push b acc x).
Proof.
  intros Hx (l & k & -> & Hl & Hb). unfold push.
  destruct (String.eqb_spec x ""); [by exists l, k|]. destruct (String.eqb_spec x "."); [by exists l, k|].
  cbn [orb]. destruct (String.eqb_spec x "..") as [->|].
  - destruct Hl as [|y l Hy Hl]; cbn [app].
    + destruct k as [|k]; cbn [replicate].
      * destruct b; [by exists [], 0%nat | exists [], 1%nat; by split_and!].
      * exists [], (S (S k)). split_and!; [done..|]. intros H%Hb. done.
    + destruct (String.eqb_spec y "..") as [->|]; [by destruct Hy as (_ & _ & _ & ?)|]. by exists l, k.
  - exists (x :: l), k. split_and!; [done | by constructor | done].
Qed.

Lemma split_slash_parts s : Forall (fun x => no_slash x = true) (split_slash s).
Proof.
  induction s as [|c s IH]; cbn [split_slash]; [by repeat constructor|].
  destruct (Ascii.eqb c slash) eqn:E; [by constructor|].
  destruct IH as [|x l Hx IH]; constructor; cbn [no_slash]; try done; by rewrite E, ?Hx.
Qed.

Lemma parse_normal s : normal (parse s).
Proof.
  unfold normal, parse. cbn [rooted elements]. rewrite reverse_involutive.
  assert (H0 : stack_ok (is_rooted s) []) by (by exists [], 0%nat).
  revert H0. generalize (split_slash_parts s). generalize (@nil string).
  induction (split_slash s) as [|x l IH]; intros acc Hl H0; [done|]. cbn [foldl].
  inversion_clear Hl. apply IH; [done|]. by apply push_stack_ok.
Qed.

Lemma foldl_push_plain b l acc : Forall plain l -> foldl (push b) acc l = (reverse l ++ acc)%list.
Proof.
  intros Hl. revert acc. induction Hl as [|x l Hx Hl IH]; intros acc; [done|]. cbn [foldl].
  by rewrite push_plain, IH, reverse_cons, <- app_assoc.
Qed.

Lemma foldl_push_up k : foldl (push false) [] (replicate k "..") = replicate k "..".
Proof.
  induction k as [|k IH]; [done|]. rewrite replicate_S_end at 1. rewrite foldl_app, IH. cbn [foldl].
  by destruct k.
Qed.

Lemma elements_no_slash p : normal p -> Forall (fun x => no_slash x = true) (elements p).
Proof.
  intros (l & k & E & Hl & _). rewrite <- (reverse_involutive (elements p)), E. apply Forall_reverse.
  apply Forall_app. split; [|by apply Forall_replicate]. eapply Forall_impl; [done|]. by intros x [? _].
Qed.

Lemma elements_nonempty p : normal p -> Forall (fun x => x <> "") (elements p).
Proof.
  intros (l & k & E & Hl & _). rewrite <- (reverse_involutive (elements p)), E. apply Forall_reverse.
  apply Forall_app. split; [|by apply Forall_replicate]. eapply Forall_impl; [done|]. by intros x (_ & ? & _).
Qed.

Lemma stack_again p : normal p -> foldl (push (rooted p)) [] (elements p) = reverse (elements p).
Proof.
  intros (l & k & E & Hl & Hb). rewrite E. rewrite <- (reverse_involutive (elements p)), E, reverse_app.
  rewrite foldl_app. assert (Hr : Forall plain (reverse l)) by (by apply Forall_reverse).
  assert (Hu : foldl (push (rooted p)) [] (reverse (replicate k "..")) = replicate k "..").
  { rewrite reverse_replicate. destruct (rooted p); [by rewrite (Hb eq_refl) | apply foldl_push_up]. }
  by rewrite Hu, foldl_push_plain, reverse_involutive.
Qed.

Lemma join_slash_head x l : x <> "" -> no_slash x = true -> is_rooted (join_slash (x :: l)) = false.
Proof.
  intros Hx Hn. assert (Hr : is_rooted x = false).
  { destruct x as [|c x]; [done|]. cbn [no_slash is_rooted] in *. by destruct (Ascii.eqb c slash). }
  destruct l as [|y l]; [done|].
  change (join_slash (x :: y :: l)) with (x +:+ "/" +:+ join_slash (y :: l)). by rewrite is_rooted_app.
Qed.

(** Cleaning twice is cleaning once. *)
Lemma parse_render p : normal p -> parse (render p) = p.
Proof.
  intros Hp. pose proof (stack_again p Hp) as Hs. pose proof (elements_no_slash p Hp) as Hn.
  pose proof (elements_nonempty p Hp) as He. clear Hp. destruct p as [b l]. unfold render, parse. cbn [rooted elements] in *.
  destruct b.
  - change ("/" +:+ join_slash l) with (String slash (join_slash l)).
    cbn [is_rooted split_slash]. rewrite Ascii.eqb_refl. f_equal. destruct l as [|x l]; [done|].
    rewrite split_join by done. change (foldl (push true) [] ("" :: x :: l)) with (foldl (push true) [] (x :: l)).
    by rewrite Hs, reverse_involutive.
  - destruct l as [|x l]; [done|].
    rewrite join_slash_head by (by apply Forall_inv in He, Hn). f_equal.
    by rewrite split_join, Hs, reverse_involutive.
Qed.

Lemma Clean_Clean s : Clean (Clean s) = Clean s.
Proof. unfold Clean. by rewrite parse_render by apply parse_normal. Qed.

Lemma snoc_normal p x : normal p -> plain x -> normal (snoc p x).
Proof.
  intros (l & k & E & Hl & Hb) Hx. exists (x :: l), k. unfold snoc. cbn [rooted elements].
  rewrite reverse_snoc, E. split_and!; [done | by constructor | done].
Qed.

(** ** Joining *)
Lemma render_nonempty p : normal p -> render p <> "".
Proof.
  intros Hp. pose proof (elements_nonempty p Hp) as He. destruct p as [[] [|x l]]; try done. unfold render.
  cbn [rooted elements] in *. apply Forall_inv in He. destruct l as [|y l]; [done|].
  change (join_slash (x :: y :: l)) with (x +:+ "/" +:+ join_slash (y :: l)). by destruct x.
Qed.

Lemma Join_dir d x : d <> "" -> plain x -> Join [d; x] = render (snoc (parse d) x).
Proof.
  intros Hd Hx. assert (E : Join [d; x] = Clean (d +:+ "/" +:+ x)) by (by destruct d).
  rewrite E. unfold Clean. by rewrite parse_snoc.
Qed.

Lemma Join_path p x : normal p -> plain x -> Join [render p; x] = render (snoc p x).
Proof. intros Hp Hx. rewrite Join_dir by (try apply render_nonempty; done). by rewrite parse_render. Qed.

Lemma render_inj p q : normal p -> normal q -> render p = render q -> p = q.
Proof. intros Hp Hq E. by rewrite <- (parse_render p Hp), E, parse_render. Qed.

Lemma snoc_inj p q x y : snoc p x = snoc q y -> p = q /\ x = y.
Proof.
  destruct p as [b l], q as [c m]. unfold snoc. cbn [rooted elements]. intros [= -> E].
  apply app_inj_tail in E as [-> ->]. done.
Qed.

Lemma append_assoc (a b c : string) : (a +:+ b) +:+ c = a +:+ b +:+ c.
Proof. induction a as [|x a IH]; [done|]. change (String x ((a +:+ b) +:+ c) = String x (a +:+ b +:+ c)). by rewrite IH. Qed.

(** What the file server opens for plain elements. *)
Lemma dir_Open_two d x y : d <> "" -> plain x -> plain y ->
  dir_Open d [x; y] = Join [Join [d; x]; y].
Proof.
  intros Hd Hx Hy. rewrite (Join_dir d x) by done.
  rewrite Join_path by (try apply snoc_normal; try apply parse_normal; done).
  unfold dir_Open. rewrite (proj2 (String.eqb_neq _ _) Hd).
  assert (E : Join [d; join_slash [x; y]] = Clean ((d +:+ "/" +:+ x) +:+ "/" +:+ y)).
  { destruct d as [|c d]; [done|]. cbn [Join join_slash]. f_equal.
    by rewrite append_assoc. }
  rewrite E. unfold Clean. rewrite parse_snoc; [|by destruct d | done]. by rewrite parse_snoc.
Qed.
