(* ===== verification/Ffmpeg.v ===== *)
(** * Starting ffmpeg: [src/internal/stream/ffmpeg.go], [NewService] of
    [src/internal/stream/service.go]

    [startFFmpeg] as a program over the pipe ends it holds and the processes it
    has started; [spawn] says which of the [os/exec] calls succeed.  A failed
    [cmd.Start] closes the pipes it was given, as [os/exec] does.  What
    ffmpeg itself does is not modelled, except that it writes the files its
    command line names. *)

From S2P Require Import Prelude Utf8 Errors Duration Paths.
Local Open Scope string_scope.

Record ffmpegOpts := {
  fo_binPath : string;
  fo_channelName : string;
  fo_stateDir : string;
  fo_segDuration : Z;   (* seconds *)
  fo_listSize : Z       (* playlist window *)
}.

Definition outDir (stateDir channelName : string) : string := Join [stateDir; channelName].
Definition segPattern (opts : ffmpegOpts) : string := Join [outDir (fo_stateDir opts) (fo_channelName opts); "seg_%05d.ts"].
Definition playlist (opts : ffmpegOpts) : string := Join [outDir (fo_stateDir opts) (fo_channelName opts); "index.m3u8"].
Definition thumb (opts : ffmpegOpts) : string := Join [outDir (fo_stateDir opts) (fo_channelName opts); "thumb.jpg"].

(** [fmt.Sprint] of an int *)
Definition Sprint (n : Z) : string := string_of (Itoa n).

Definition ffmpeg_args (opts : ffmpegOpts) : list string :=
  [ "-hide_banner";
    "-loglevel"; "warning";
    "-f"; "flv"; "-i"; "pipe:0";
    (* HLS output (the live stream). *)
    "-map"; "0";
    "-c:v"; "copy"; "-c:a"; "copy";
    "-f"; "hls";
    "-hls_time"; Sprint (fo_segDuration opts);
    "-hls_list_size"; Sprint (fo_listSize opts);
    "-hls_flags"; "delete_segments+independent_segments";
    "-hls_segment_filename"; segPattern opts;
    playlist opts;
    (* Thumbnail output. *)
    "-map"; "0:v:0";
    "-vf"; "fps=1/10,scale=320:180:force_original_aspect_ratio=decrease,pad=320:180:(ow-iw)/2:(oh-ih)/2:black";
    "-update"; "1";
    "-y";
    "-f"; "image2";
    thumb opts ].

Record command := { cmd_path : string; cmd_args : list string }.

(** The parent's pipe ends, and the processes running. *)
Record exec_state := { stdin_open : bool; stderr_open : bool; started : list command }.
Definition idle : exec_state := {| stdin_open := false; stderr_open := false; started := [] |}.

Record spawn := { sp_stdin : bool; sp_stderr : bool; sp_start : bool }.

Abbreviation exec := (prog exec_state err).

Definition set_stdin (b : bool) : exec unit :=
  modify (fun s => {| stdin_open := b; stderr_open := stderr_open s; started := started s |}).
Definition StdinPipe (sp : spawn) : exec unit :=
  if sp_stdin sp then set_stdin true else throw (EIO "pipe").
Definition StderrPipe (sp : spawn) : exec unit :=
  if sp_stderr sp
  then modify (fun s => {| stdin_open := stdin_open s; stderr_open := true; started := started s |})
  else throw (EIO "pipe").
Definition Start (sp : spawn) (cmd : command) : exec unit :=
  if sp_start sp
  then modify (fun s => {| stdin_open := stdin_open s; stderr_open := stderr_open s; started := (started s ++ [cmd])%list |})
  else
    _ ← modify (fun s => {| stdin_open := false; stderr_open := false; started := started s |});
    throw (EIO "start").

Definition startFFmpeg (sp : spawn) (opts : ffmpegOpts) : exec command :=
  let cmd := {| cmd_path := fo_binPath opts; cmd_args := ffmpeg_args opts |} in
  _ ← catch (StdinPipe sp) (fun e => throw (EWrap "ffmpeg stdin pipe" e));
  _ ← catch (StderrPipe sp) (fun e => _ ← set_stdin false; throw (EWrap "ffmpeg stderr pipe" e));
  _ ← catch (Start sp cmd) (fun e => _ ← set_stdin false; throw (EWrap "ffmpeg start" e));
  mret cmd.

(** ** The service that holds the options *)
Record stream_service := {
  sv_stateDir : string;
  sv_ffmpegPath : string;
  sv_rtmpAddr : string;
  (* HLS tuning — fixed for MVP. *)
  sv_segDuration : Z;
  sv_listSize : Z
}.
Definition new_service (rtmpAddr stateDir ffmpegPath : string) : stream_service :=
  {| sv_stateDir := stateDir; sv_ffmpegPath := ffmpegPath; sv_rtmpAddr := rtmpAddr; sv_segDuration := 2; sv_listSize := 6 |}.

(** The options [OnPublish] passes. *)
Definition publish_opts (svc : stream_service) (channelName : string) : ffmpegOpts :=
  {| fo_binPath := sv_ffmpegPath svc; fo_channelName := channelName; fo_stateDir := sv_stateDir svc;
     fo_segDuration := sv_segDuration svc; fo_listSize := sv_listSize svc |}.

(** The files a command line makes ffmpeg write: the argument after the
    segment pattern is the playlist, the last one the thumbnail. *)
Fixpoint after (flag : string) (l : list string) : list string :=
  match l with
  | [] => []
  | x :: l => if String.eqb x flag then l else after flag l
  end.
Definition outputs (cmd : command) : option (string * string * string) :=
  match after "-hls_segment_filename" (cmd_args cmd) with
  | seg :: list :: _ => (fun t => (seg, list, t)) <$> last (cmd_args cmd)
  | _ => None
  end.

Lemma outputs_args bin opts : Forall (fun x => String.eqb x "-hls_segment_filename" = false) [Sprint (fo_segDuration opts); Sprint (fo_listSize opts)] ->
  outputs {| cmd_path := bin; cmd_args := ffmpeg_args opts |} = Some (segPattern opts, playlist opts, thumb opts).
Proof.
  intros [Ha [Hb _]%Forall_cons]%Forall_cons. unfold outputs, ffmpeg_args. cbn [cmd_args].
  set (a := Sprint (fo_segDuration opts)) in *. set (b := Sprint (fo_listSize opts)) in *.
  repeat (match goal with |- context [after ?f (?x :: ?l)] =>
    change (after f (x :: l)) with (if String.eqb x f then l else after f l);
    first [rewrite Ha | rewrite Hb | change (String.eqb x f) with false | change (String.eqb x f) with true]; cbv iota end).
  reflexivity.
Qed.

Lemma publish_outputs rtmp dir bin name bin' :
  let opts := publish_opts (new_service rtmp dir bin) name in
  outputs {| cmd_path := bin'; cmd_args := ffmpeg_args opts |} = Some (segPattern opts, playlist opts, thumb opts).
Proof. intros opts. apply outputs_args. by repeat constructor. Qed.

(** Starting ffmpeg is all or nothing. When every call succeeds, exactly
    one process has been started, with the command line of these options, and
    its input and error pipes are open; when one fails, nothing has been
    started, no pipe end is left open, and the error names the call. *)
Theorem start_ffmpeg_all_or_nothing sp opts :
  let '(s, r) := startFFmpeg sp opts idle in
  match r with
  | Ok cmd => sp_stdin sp && sp_stderr sp && sp_start sp = true /\ cmd_path cmd = fo_binPath opts /\
      cmd_args cmd = ffmpeg_args opts /\ s = {| stdin_open := true; stderr_open := true; started := [cmd] |}
  | Err e => sp_stdin sp && sp_stderr sp && sp_start sp = false /\ s = idle /\
      e = EWrap (if negb (sp_stdin sp) then "ffmpeg stdin pipe" else if negb (sp_stderr sp) then "ffmpeg stderr pipe" else "ffmpeg start")
                (EIO (if sp_stdin sp && sp_stderr sp then "start" else "pipe"))
  end.
Proof. by destruct sp as [[] [] []]. Qed.

(** ** Where the files are *)
Definition dir_of (stateDir name : string) : path := snoc (parse stateDir) name.

Lemma outDir_render dir name : dir <> "" -> plain name -> outDir dir name = render (dir_of dir name).
Proof. apply Join_dir. Qed.

Lemma dir_of_normal dir name : plain name -> normal (dir_of dir name).
Proof. intros. apply snoc_normal; [apply parse_normal | done]. Qed.

Lemma file_in_outDir dir name file : dir <> "" -> plain name -> plain file ->
  Join [outDir dir name; file] = render (snoc (dir_of dir name) file).
Proof. intros. rewrite outDir_render by done. apply Join_path; [by apply dir_of_normal | done]. Qed.

Lemma outDir_inj dir n m : dir <> "" -> plain n -> plain m -> outDir dir n = outDir dir m -> n = m.
Proof.
  intros Hd Hn Hm. rewrite !outDir_render by done. intros E%render_inj; [|by apply dir_of_normal..].
  by apply snoc_inj in E as [_ ->].
Qed.

Lemma outDir_below dir n : dir <> "" -> plain n -> outDir dir n <> Clean dir.
Proof.
  intros Hd Hn. rewrite outDir_render by done. unfold Clean. intros E%render_inj; [|by apply dir_of_normal | apply parse_normal].
  unfold dir_of, snoc in E. destruct (parse dir) as [b l]. cbn [rooted elements] in E. injection E as E.
  apply (f_equal length) in E. rewrite length_app in E. simpl in E. lia.
Qed.

Lemma file_plain f : f = "seg_%05d.ts" \/ f = "index.m3u8" \/ f = "thumb.jpg" -> plain f.
Proof. by intros [->|[-> | ->]]. Qed.
