(* ===== verification/Hls.v ===== *)
(** * What ffmpeg writes is what the pages ask for

    The directories of the channels below the state directory, and the URLs of
    [watch.html] (/hls/name/index.m3u8) and [home.html] (/hls/name/thumb.jpg):
    both sides of the HLS hand-over, the command line of [startFFmpeg] and the
    file server of [web], end at the same files. *)

From S2P Require Import Prelude Utf8 Encoding Errors StreamKey Store StoreInv Auth AuthThms Stream Duration Paths Config Ffmpeg Http Web WebPages Site.
Local Open Scope string_scope.

Lemma no_slash_bytes s : Forall (fun b => b <> 47%Z) (bytes_of s) -> no_slash s = true.
Proof.
  induction s as [|c s IH]; [done|]. change (bytes_of (String c s)) with (Z.of_N (Ascii.N_of_ascii c) :: bytes_of s).
  intros [Hc Hs]%Forall_cons. cbn [no_slash]. rewrite IH by done. rewrite andb_true_r. apply negb_true_iff.
  destruct (Ascii.eqb_spec c slash) as [->|]; [done|done].
Qed.

Lemma username_plain s : usernameRE s = true -> plain s.
Proof.
  intros H. apply usernameRE_spec in H as [Hl Hb]. split; [|split_and!; intros ->; simpl in Hl; lia].
  apply no_slash_bytes. eapply Forall_impl; [done|]. simpl. lia.
Qed.

Lemma plain_is_seg x : plain x -> plain_seg x.
Proof. by intros (_ & ? & ? & ?). Qed.

(** [os.RemoveAll a] removes [b]. *)
Definition removes (a b : string) : Prop :=
  rooted (parse a) = rooted (parse b) /\ elements (parse a) `prefix_of` elements (parse b).

Lemma removes_dir dir n p : plain n -> normal p ->
  removes (render (dir_of dir n)) (render p) <->
  rooted (parse dir) = rooted p /\ (elements (parse dir) ++ [n])%list `prefix_of` elements p.
Proof. intros Hn Hp. unfold removes. by rewrite !parse_render by (try apply dir_of_normal; done). Qed.

Lemma removes_file dir n m file : plain n -> plain m -> plain file ->
  removes (render (dir_of dir n)) (render (snoc (dir_of dir m) file)) <-> n = m.
Proof.
  intros Hn Hm Hf. rewrite removes_dir by (try apply snoc_normal; try apply dir_of_normal; done).
  unfold dir_of, snoc. cbn [rooted elements]. rewrite <- app_assoc. split; [|intros ->].
  - intros [_ Hp%prefix_app_inv]. by apply prefix_cons_inv_1 in Hp.
  - split; [done|]. apply prefix_app. by exists [file].
Qed.

Section Hls.
Context {C : Type} `{chatGateway C} {L : Type} `{liveDirectory L}.
Context (parse_address : string -> bool).
Context (bcrypt_generate : list Z -> string -> option string).
Context (bcrypt_compare : string -> string -> bool).
Context (driver_text : err -> string).
Context (lv : L) (chat : C).

Abbreviation account_run := (account_run parse_address bcrypt_generate bcrypt_compare).

Lemma channel_name_plain ttl calls i c : channels (account_run ttl calls) !! i = Some c -> plain (c_Name c).
Proof.
  intros Hc. destruct (account_run_ok parse_address bcrypt_generate bcrypt_compare ttl calls) as [[Hd Hn] _].
  destruct (k_fk _ Hd i c Hc) as [u Hu]. rewrite (Hn i c u Hc Hu). apply username_plain.
  by eapply account_run_names.
Qed.

Section Booted.
Context (vars : environ) (cfg : Config).

(** The command line [OnPublish] starts ffmpeg with. *)
Definition pipeline (c : Channel) : command :=
  {| cmd_path := FFmpegPath cfg;
     cmd_args := ffmpeg_args (publish_opts (new_service (RTMPAddr cfg) (StateDir cfg) (FFmpegPath cfg)) (c_Name c)) |}.


(** C29: Channels do not touch each other's files. The directory of a channel
    lies directly below the state directory; removing it, as a tear down does,
    removes the playlist, segments and thumbnail of that channel and of no
    other one, and never the state directory itself. *)
Theorem tear_down_removes_own_files calls i c j c' :
  load vars = Some (Ok cfg) ->
  channels (account_run (SessionTTL cfg) calls) !! i = Some c ->
  channels (account_run (SessionTTL cfg) calls) !! j = Some c' ->
  let own := outDir (StateDir cfg) (c_Name c) in
  own = render (snoc (parse (StateDir cfg)) (c_Name c)) /\ ~ removes own (StateDir cfg) /\
  exists seg list thumb, outputs (pipeline c') = Some (seg, list, thumb) /\
    Forall (fun f => removes own f <-> i = j) [seg; list; thumb].
Proof.
  intros Hload Hc Hc' own. apply channel_name_plain in Hc as Hn, Hc' as Hn'.
  destruct (load_inv vars cfg Hload) as (_ & Hdir & _). unfold own. rewrite outDir_render by done.
  split; [done|]. split.
  - intros [_ [k Hk]]. rewrite parse_render in Hk by (by apply dir_of_normal). unfold dir_of, snoc in Hk. cbn [elements] in Hk.
    apply (f_equal length) in Hk. rewrite !length_app in Hk. simpl in Hk. lia.
  - eexists _, _, _. split; [apply publish_outputs|].
    assert (Hij : c_Name c = c_Name c' <-> i = j).
    { split; [|intros ->; congruence].
      destruct (account_run_ok parse_address bcrypt_generate bcrypt_compare (SessionTTL cfg) calls) as [[Hd _] _].
      by apply (k_name _ Hd). }
    assert (Hfile : forall f, plain f ->
      removes (render (dir_of (StateDir cfg) (c_Name c))) (Join [outDir (StateDir cfg) (c_Name c'); f]) <-> i = j).
    { intros f Hf. by rewrite file_in_outDir, removes_file. }
    apply Forall_cons; split; [|apply Forall_cons; split; [|apply Forall_singleton]]; apply Hfile, file_plain; auto.
Qed.
End Booted.
End Hls.

(** ** A booted program with two accounts, for the witnesses *)
Definition toy_vars : environ := {["DATABASE_URL" := "postgres://db"; "STATE_DIR" := "/state//hls/../"]}.
Definition toy_cfg : Config :=
  {| DatabaseURL := "postgres://db"; HTTPAddr := ":8080"; RTMPAddr := ":1935"; StateDir := "/state//hls/../";
     FFmpegPath := "ffmpeg"; PublicRTMPURL := "rtmp://localhost:1935/live"; SecureCookies := false; SessionTTL := defaultTTL |}.
Definition two_accounts : list (account_op * Z * list fault) :=
  (toy_calls ++ [(OSignup "dave" "d@e" "password" toy_salt (Some (replicate 32 5%Z)), 6000%Z, [])])%list.
Definition named_channel (id uid : Z) (name title : string) (byte at_ : Z) : Channel :=
  {| c_ID := id; c_UserID := uid; c_Name := name; c_Title := title;
     c_StreamKeyHash := HashKey (streamKeyPrefix +:+ EncodeToString (replicate 32 byte)); c_CreatedAt := at_ |}.


Lemma tear_down_removes_own_files_witness :
  let own := outDir "/state//hls/../" "alice" in
  own = "/state/alice" /\ ~ removes own "/state//hls/../" /\
  exists seg list thumb, outputs (pipeline toy_cfg (named_channel 3 4 "dave" "" 5 6)) = Some (seg, list, thumb) /\
    Forall (fun f => ~ removes own f) [seg; list; thumb].
Proof.
  destruct (tear_down_removes_own_files toy_address toy_generate toy_compare
    toy_vars toy_cfg two_accounts 1 (named_channel 1 1 "alice" "hello" 9 1) 3 (named_channel 3 4 "dave" "" 5 6))
    as (_ & Hs & seg & list & thumb & Ho & Hf).
  - vm_compute. reflexivity.
  - vm_compute. reflexivity.
  - vm_compute. reflexivity.
  - split; [vm_compute; reflexivity|]. split; [exact Hs|]. exists seg, list, thumb. split; [exact Ho|].
    eapply Forall_impl; [exact Hf|]. intros f [Hx _] Hr. by apply Hx in Hr.
Defined.
