(* ===== verification/Main.v ===== *)
(** * The process: [src/cmd/chtiwt/main.go], [src/internal/store/migrate.go] and
    [store.go], the RTMP listener of [src/internal/stream/service.go]

    [boot] is [run] up to the point where the servers are started, a program
    over the process's state; [run] is the whole of it, with what happens while
    the process serves ([acts] of the stream pipeline, [talk] of the chat) as
    sequences of steps, the event that ends the [select], and what the
    libraries answer ([libs]): golang-migrate, pgxpool, html/template,
    [http.Server].  A panic in any goroutine ends the process. *)

From Stdlib Require Import QArith.
From S2P Require Import Prelude Errors Duration Config Store Auth Stream StreamProps Chan Hub Ws Manager ChatSys Web.
Local Open Scope string_scope.

(** ** [store.Migrate], [store.Open] *)
Definition ErrNoChange : err := ESentinel "no change".
Definition ErrServerClosed : err := ESentinel "http: Server closed".
Definition net_ErrClosed : err := ESentinel "use of closed network connection".

Definition has_prefix (p s : string) : bool := String.prefix p s.
(** [s[n:]] *)
Fixpoint from (n : nat) (s : string) : string :=
  match n, s with
  | S n, String _ s => from n s
  | _, s => s
  end.
Definition trimPrefix (dsn : string) : string :=
  match List.find (fun p => has_prefix p dsn) ["postgres://"; "postgresql://"] with
  | Some p => from (String.length p) dsn
  | None => dsn
  end.

Record libs := {
  lib_iofs : res err unit;                 (* [iofs.New] *)
  lib_migrate : string -> res err unit;    (* [migrate.NewWithSourceInstance], on its URL *)
  lib_up : res err unit;                   (* [m.Up] *)
  lib_pool : string -> res err unit;       (* [pgxpool.New] *)
  lib_readdir : bool;                      (* [os.ReadDir] of the state directory *)
  lib_mkdir : bool;
  lib_stuck : gset string;                 (* entries that cannot be removed *)
  lib_templates : string -> res err unit;  (* [template.ParseFS] of a page with the layout *)
  lib_shutdown : res err unit              (* [srv.Shutdown], within 10 s *)
}.

Definition Migrate (l : libs) (dsn : string) : res err unit :=
  _ ← wrap "migrate source" (lib_iofs l);
  _ ← wrap "migrate new" (lib_migrate l ("pgx5://" +:+ trimPrefix dsn));
  match lib_up l with
  | Err e => if negb (errors_is e ErrNoChange) then Err (EWrap "migrate up" e) else Ok tt
  | Ok _ => Ok tt
  end.

Record process := { ps_live : live; ps_chat : chat; ps_pool : bool (* the pool is open *) }.
Abbreviation startup := (prog process err).

Definition set_pool (b : bool) : startup unit :=
  modify (fun p => {| ps_live := ps_live p; ps_chat := ps_chat p; ps_pool := b |}).
Definition on_live {A} (m : prog live err A) : startup A := fun p =>
  let '(w, r) := m (ps_live p) in ({| ps_live := w; ps_chat := ps_chat p; ps_pool := ps_pool p |}, r).
Definition on_store {A} (q : query A) : startup A := on_live (fun w =>
  let '(s, r) := q (st w) in (set_st s w, r)).

(** One round trip. *)
Definition Ping : query unit := statement (fun d => (d, Ok tt)).
Definition Open (l : libs) (url : string) : startup unit :=
  _ ← lift_res (wrap "pgxpool.New" (lib_pool l url));
  _ ← set_pool true;
  catch (on_store Ping) (fun e => _ ← set_pool false; throw (EWrap "ping" e)).
Definition Close : startup unit := set_pool false.

(** ** [run] up to the servers *)
Definition boot (vars : environ) (l : libs) : startup Config :=
  cfg ← lift_res (match load vars with
                  | Some r => wrap "load config" r
                  | None => Err (EIO "no fuel")   (* never: [load_terminates] *)
                  end);
  _ ← lift_res (wrap "migrate" (Migrate l (DatabaseURL cfg)));
  _ ← catch (Open l (DatabaseURL cfg)) (fun e => throw (EWrap "open db" e));
  _ ← catch (on_store SweepExpiredSessions) (fun e => mret tt);   (* only a warning *)
  _ ← catch (on_live (RecoverOnBoot (StateDir cfg) (lib_readdir l) (lib_mkdir l) (lib_stuck l)))
        (fun e => throw (EWrap "stream recover" e));
  _ ← lift_res (wrap "load templates" (LoadTemplates (lib_templates l)));
  mret cfg.

(** ** The servers *)
Definition ListenAndServeRTMP (listen serve : res err unit) : res err unit :=
  _ ← wrap "rtmp listen" listen;
  match serve with
  | Err e => if negb (errors_is e net_ErrClosed) then Err (EWrap "rtmp serve" e) else Ok tt
  | Ok _ => Ok tt
  end.

(** What the [select] wakes up on. *)
Inductive stop_event :=
| Signalled
| HTTPReturned (r : res err unit)               (* [srv.ListenAndServe] *)
| RTMPReturned (listen serve : res err unit).

(** The error received from [httpErr] or [rtmpErr], if one was sent before the
    channel was closed. *)
Definition received (ev : stop_event) : option err :=
  match ev with
  | Signalled => None
  | HTTPReturned (Err e) => if negb (errors_is e ErrServerClosed) then Some (EWrap "http server" e) else None
  | HTTPReturned (Ok _) => None
  | RTMPReturned listen serve =>
      match ListenAndServeRTMP listen serve with Err e => Some (EWrap "rtmp server" e) | Ok _ => None end
  end.

(** From the [select] to the return. [failed]: how ffmpeg exits. *)
Definition finish_run (cfg : Config) (l : libs) (ev : stop_event) (failed : bool) : startup unit :=
  match received ev with
  | Some e => throw e
  | None =>
      _ ← lift_res (wrap "http shutdown" (lib_shutdown l));
      _ ← modify (fun p => {| ps_live := ShutdownLive (StateDir cfg) failed (ps_live p);
                              ps_chat := ps_chat p; ps_pool := ps_pool p |});
      modify (fun p => {| ps_live := ps_live p; ps_chat := Shutdown (ps_chat p); ps_pool := ps_pool p |})
  end.

Inductive outcome :=
| Exited (p : process) (r : res err unit)   (* [main] returned or called [os.Exit(1)] *)
| Panicked (p : process).

Section Run.
Context (unmarshal : string -> option Message).
Context (vars : environ) (l : libs).

(** [chat.NewService(chat.Options{})] *)
Definition no_options : Options := {| RateBurst := 0; RatePerSecond := 0 |}.
(** The process before [run]: what the previous ones left behind. *)
Definition fresh (s : Store.store) (ds : gset string) : process :=
  {| ps_live := new_live s ds; ps_chat := newChat no_options; ps_pool := false |}.

(** While the servers run. *)
Definition serving (cfg : Config) (acts : list lact) (talk : list sact) (p : process) : process * res panic unit :=
  let w := lrun (StateDir cfg) (ps_live p) acts in
  match mfoldl (sstep unmarshal) (ps_chat p) talk with
  | Ok c => ({| ps_live := w; ps_chat := c; ps_pool := ps_pool p |}, Ok tt)
  | Err x => ({| ps_live := w; ps_chat := ps_chat p; ps_pool := ps_pool p |}, Err x)
  end.

Definition run (s : Store.store) (ds : gset string) (acts : list lact) (talk : list sact) (ev : stop_event) (failed : bool) : outcome :=
  match boot vars l (fresh s ds) with
  | (p, Err e) => Exited (Close p).1 (Err e)
  | (p, Ok cfg) =>
      match serving cfg acts talk p with
      | (p, Err _) => Panicked p
      | (p, Ok _) =>
          let '(p, r) := finish_run cfg l ev failed p in
          Exited (Close p).1 r   (* the deferred [db.Close] *)
      end
  end.
End Run.

(** [main]: the exit status *)
Definition exit_status (o : outcome) : Z :=
  match o with
  | Exited _ (Ok _) => 0
  | Exited _ (Err _) => 1
  | Panicked _ => 2
  end.
