(* ===== verification/MainThms.v ===== *)
(** * The life of a process: boot, exit, restart *)

From Stdlib Require Import QArith.
From S2P Require Import Prelude Errors Duration Config Store StoreInv Auth Stream StreamThms StreamRows StreamProps StreamBoot Chan Hub Ws Manager ChatSys ChatInv Web Main.
Local Open Scope string_scope.

(** ** Booting *)

(** What is tried before the database is used, and fails the boot. *)
Definition preflight (vars : environ) (l : libs) : res err Config :=
  cfg ← (match load vars with Some r => wrap "load config" r | None => Err (EIO "no fuel") end);
  _ ← wrap "migrate" (Migrate l (DatabaseURL cfg));
  _ ← wrap "open db" (wrap "pgxpool.New" (lib_pool l (DatabaseURL cfg)));
  Ok cfg.

(** The database after the sweep of the sessions and the recovery. *)
Definition recovered (s : Store.store) : Store.store :=
  let d := Store.set_sessions (filter (fun kv : string * Session => (pg_now s < s_ExpiresAt kv.2)%Z) (Store.sessions (db s))) (db s) in
  set_db (set_stream_sessions (end_row (pg_now s) "orphan_swept" <$> stream_sessions d) (next_stream_session d) d) s.

Definition file_steps (l : libs) (cfg : Config) : res err Config :=
  if negb (lib_readdir l) then Err (EWrap "stream recover" (EWrap "read state dir" (EIO "readdir")))
  else if negb (lib_mkdir l) then Err (EWrap "stream recover" (EWrap "mkdir state" (EIO "mkdir")))
  else _ ← wrap "load templates" (LoadTemplates (lib_templates l)); Ok cfg.

Lemma ping_fine p : faults (st (ps_live p)) = [] -> on_store Ping p = (p, Ok tt).
Proof.
  intros Hf. unfold on_store, on_live, Ping. rewrite statement_fine by done. simpl.
  destruct p as [[[d c f]] ]. by simpl in Hf; subst f.
Qed.

Definition swept (s : Store.store) : Store.store :=
  set_db (Store.set_sessions (filter (fun kv : string * Session => (pg_now s < s_ExpiresAt kv.2)%Z) (Store.sessions (db s))) (db s)) s.

Lemma sweep_fine p : faults (st (ps_live p)) = [] ->
  on_store SweepExpiredSessions p =
  ({| ps_live := set_st (swept (st (ps_live p))) (ps_live p); ps_chat := ps_chat p; ps_pool := ps_pool p |}, Ok tt).
Proof.
  intros Hf. unfold on_store, on_live, SweepExpiredSessions, DeleteExpiredSessions. by rewrite statement_fine.
Qed.

Lemma recover_fine dir readdir mkdir stuck w : faults (st w) = [] -> dir <> "" ->
  RecoverOnBoot dir readdir mkdir stuck w =
  (let s := st w in
   let s := set_db (set_stream_sessions (end_row (pg_now s) "orphan_swept" <$> stream_sessions (db s)) (next_stream_session (db s)) (db s)) s in
   let w := set_st s w in
   if negb readdir then (w, Err (EWrap "read state dir" (EIO "readdir")))
   else (set_dirs (dirs w ∩ stuck) w, if mkdir then Ok tt else Err (EWrap "mkdir state" (EIO "mkdir")))).
Proof.
  intros Hf Hd. unfold RecoverOnBoot, wrapping, catch, MarkOpenStreamSessionsOrphaned. rewrite statement_fine by done.
  cbn beta iota. rewrite (proj2 (String.eqb_neq _ _) Hd). by destruct readdir, mkdir.
Qed.

Lemma boot_effect vars l s ds : faults s = [] ->
  boot vars l (fresh s ds) =
  match preflight vars l with
  | Err e => (fresh s ds, Err e)
  | Ok cfg => ({| ps_live := new_live (recovered s) (if lib_readdir l then ds ∩ lib_stuck l else ds);
                  ps_chat := newChat no_options; ps_pool := true |}, file_steps l cfg)
  end.
Proof.
  intros Hf. unfold boot, preflight. rewrite prog_bind_eq. unfold lift_res at 1.
  destruct (load vars) as [r|] eqn:El; [|done].
  destruct r as [cfg|e]; [|done]. cbn [wrap]. rewrite res_bind_ok, prog_bind_eq. unfold lift_res at 1.
  destruct (load_inv vars cfg El) as (_ & Hdir & _).
  destruct (wrap "migrate" (Migrate l (DatabaseURL cfg))) as [[]|e]; [|done]. rewrite res_bind_ok.
  rewrite prog_bind_eq. unfold Open. unfold catch at 1. rewrite prog_bind_eq. unfold lift_res at 1.
  destruct (lib_pool l (DatabaseURL cfg)) as [[]|e]; [|done]. cbn [wrap]. rewrite res_bind_ok.
  rewrite prog_bind_eq. cbn [set_pool modify]. unfold catch at 1. rewrite ping_fine by done.
  cbn beta iota. rewrite prog_bind_eq. unfold catch at 1. rewrite sweep_fine by done. cbn beta iota.
  rewrite prog_bind_eq. unfold catch at 1, on_live at 1. rewrite recover_fine by done. unfold file_steps.
  destruct (lib_readdir l); cbn [negb]; [|done]. destruct (lib_mkdir l); cbn [negb]; [|done].
  cbn beta iota zeta. rewrite prog_bind_eq. unfold lift_res. by destruct (LoadTemplates (lib_templates l)) as [pages|e].
Qed.

(** Serial numbers are ahead of the rows they number. *)
Definition numbered (s : Store.store) : Prop :=
  (1 <= next_stream_session (db s))%Z /\
  forall id x, stream_sessions (db s) !! id = Some x -> (id < next_stream_session (db s))%Z.

Lemma swept_row_closed t r x : open_row (end_row t r x) = false.
Proof. unfold open_row, end_row. by destruct (ss_EndedAt x) eqn:E; simpl; rewrite ?E. Qed.

Lemma recovered_row s id :
  stream_sessions (db (recovered s)) !! id = end_row (pg_now s) "orphan_swept" <$> stream_sessions (db s) !! id.
Proof. apply lookup_fmap. Qed.

Lemma recovered_closed s id x : stream_sessions (db (recovered s)) !! id = Some x -> open_row x = false.
Proof. rewrite recovered_row. intros (y & _ & ->)%fmap_Some. apply swept_row_closed. Qed.

Lemma recovered_quiet s : faults s = [] -> numbered s -> StreamProps.quiet (recovered s).
Proof.
  intros Hf [H1 Hn]. split_and!; [done | done |]. intros id x Hx. split; [|by eapply recovered_closed].
  rewrite recovered_row in Hx. apply fmap_Some in Hx as (y & Hy & _). by eapply Hn.
Qed.

Lemma rows_numbered w : rows_ok w -> numbered (st w).
Proof. intros [_ [H1 H2 _ _ _]]. by split. Qed.

Lemma recovered_session s t x :
  Store.sessions (db (recovered s)) !! t = Some x <-> Store.sessions (db s) !! t = Some x /\ (pg_now s < s_ExpiresAt x)%Z.
Proof. apply map_lookup_filter_Some. Qed.

Lemma templates_load l : is_ok (LoadTemplates (lib_templates l)) = true <-> forall name, name ∈ pageNames -> lib_templates l name = Ok tt.
Proof.
  unfold LoadTemplates. rewrite load_pages_ok, forallb_forall. setoid_rewrite <- list_elem_of_In.
  split; intros H name Hn; specialize (H name Hn); [by destruct (lib_templates l name) as [[]|] | by rewrite H].
Qed.

(** The order of a boot. What does not need the database comes first: an
    unusable configuration, a failed migration or an invalid DSN is reported
    with nothing changed. After that every boot, successful or not, has closed
    all open stream rows and removed exactly the expired sessions, users and
    channels being as they were; it succeeds exactly when the state directory
    can be read and made and the templates parse, and then nothing that could
    be removed is left under the state directory. *)
Theorem boot_order vars l s ds :
  faults s = [] ->
  let '(p, r) := boot vars l (fresh s ds) in
  match preflight vars l with
  | Err e => r = Err e /\ p = fresh s ds
  | Ok cfg =>
      let d := db (st (ps_live p)) in
      load vars = Some (Ok cfg) /\
      (r = Ok cfg <-> lib_readdir l = true /\ lib_mkdir l = true /\ forall name, name ∈ pageNames -> lib_templates l name = Ok tt) /\
      (forall id x, stream_sessions d !! id = Some x -> open_row x = false) /\
      (forall t x, Store.sessions d !! t = Some x <-> Store.sessions (db s) !! t = Some x /\ (pg_now s < s_ExpiresAt x)%Z) /\
      users d = users (db s) /\ channels d = channels (db s) /\
      (r = Ok cfg -> dirs (ps_live p) = ds ∩ lib_stuck l)
  end.
Proof.
  intros Hf. rewrite boot_effect by done. destruct (preflight vars l) as [cfg|e] eqn:E; [|done].
  split.
  { unfold preflight in E. destruct (load vars) as [[c|]|]; [|done..]. cbn [wrap] in E. rewrite res_bind_ok in E.
    destruct (wrap "migrate" _) as [[]|]; [|done]. rewrite res_bind_ok in E.
    destruct (wrap "open db" _) as [[]|]; [|done]. by injection E as ->. }
  split; [|split; [apply recovered_closed | split; [apply recovered_session | split; [done | split; [done|]]]]].
  - rewrite <- templates_load. unfold file_steps.
    destruct (lib_readdir l), (lib_mkdir l), (LoadTemplates (lib_templates l)); simpl; split; (done || by intros (? & ? & ?)).
  - unfold file_steps. by destruct (lib_readdir l).
Qed.

(** ** Leaving *)
Definition outcome_process (o : outcome) : process := match o with Exited p _ | Panicked p => p end.

Lemma run_boots unmarshal vars l s ds acts talk ev failed p cfg :
  boot vars l (fresh s ds) = (p, Ok cfg) ->
  run unmarshal vars l s ds acts talk ev failed =
  match serving unmarshal cfg acts talk p with
  | (p, Err _) => Panicked p
  | (p, Ok _) => let '(p, r) := finish_run cfg l ev failed p in Exited (Close p).1 r
  end.
Proof. unfold run. by intros ->. Qed.

Lemma boot_inv vars l s ds p cfg : faults s = [] -> boot vars l (fresh s ds) = (p, Ok cfg) ->
  StateDir cfg <> "" /\ exists ds', p = {| ps_live := new_live (recovered s) ds'; ps_chat := newChat no_options; ps_pool := true |}.
Proof.
  intros Hf Hb. pose proof (boot_effect vars l s ds Hf) as E. rewrite Hb in E.
  destruct (preflight vars l) as [c|e] eqn:Ep; [|done]. injection E as -> Ec. split; [|by eexists].
  unfold preflight in Ep. destruct (load vars) as [[c'|]|] eqn:El; [|done..]. cbn [wrap] in Ep. rewrite res_bind_ok in Ep.
  destruct (wrap "migrate" _) as [[]|]; [|done]. rewrite res_bind_ok in Ep.
  destruct (wrap "open db" _) as [[]|]; [|done]. injection Ep as ->.
  unfold file_steps in Ec. destruct (lib_readdir l), (lib_mkdir l), (LoadTemplates (lib_templates l)) as [pages|]; try done.
  injection Ec as ->. by destruct (load_inv vars c El) as (_ & ? & _).
Qed.

(** A pipeline in the registry has an open row. *)
Lemma registered_open w name sid x : rows_ok w -> registered w name sid -> Stream.sessions w !! sid = Some x ->
  exists row, rows_of w !! dbRowID x = Some row /\ open_row row = true.
Proof.
  intros Hr (y & Hy & _ & Hin) Hx. assert (y = x) as -> by congruence.
  assert (Ho : own_of w (OSession sid) = Some (dbRowID x, Some (torn x))) by (simpl; by rewrite Hx).
  destruct (ri_row _ _ _ _ (ro_inv w Hr) _ _ _ Ho) as (_ & _ & row & Hrow & Hm). exists row. split; [done|].
  destruct Hm as [-> _]. by destruct (torn x).
Qed.

Section Life.
Context (unmarshal : string -> option Message) (vars : environ) (l : libs) (s : Store.store) (ds : gset string).
Context (acts : list lact) (talk : list sact) (ev : stop_event) (failed : bool).
Context (Hfaults : faults s = []) (Hnum : numbered s) (Hhealthy : Forall healthy acts).

Abbreviation life := (run unmarshal vars l s ds acts talk ev failed).

(** The state of the pipeline when the [select] wakes up. *)
Definition at_stop (cfg : Config) (p0 : process) : live := lrun (StateDir cfg) (ps_live p0) acts.

Lemma at_stop_rows p0 cfg : boot vars l (fresh s ds) = (p0, Ok cfg) -> rows_ok (at_stop cfg p0).
Proof.
  intros Hb. destruct (boot_inv _ _ _ _ _ _ Hfaults Hb) as (_ & ds' & ->).
  apply lrun_rows; [apply new_live_rows, recovered_quiet; done | done].
Qed.

Lemma at_stop_shutdown p0 cfg : boot vars l (fresh s ds) = (p0, Ok cfg) ->
  rows_ok (ShutdownLive (StateDir cfg) failed (at_stop cfg p0)).
Proof.
  intros Hb. pose proof (at_stop_rows p0 cfg Hb) as Hr. revert Hr. unfold at_stop.
  destruct (boot_inv _ _ _ _ _ _ Hfaults Hb) as (_ & ds' & ->). intros Hr.
  destruct (ShutdownLive_effect (StateDir cfg) failed (recovered s) ds' acts) as ((acts' & Ha & E) & _);
    [by apply recovered_quiet | done |].
  cbn [ps_live] in *. rewrite E. by apply lrun_rows.
Qed.

(** However the process ends, the rows stay numbered. *)
Lemma life_numbered : numbered (st (ps_live (outcome_process life))).
Proof.
  destruct (boot vars l (fresh s ds)) as [p0 [cfg|e]] eqn:Hb.
  - rewrite (run_boots _ _ _ _ _ _ _ _ _ _ _ Hb). pose proof (at_stop_rows p0 cfg Hb) as Hw.
    pose proof (at_stop_shutdown p0 cfg Hb) as Hd. unfold at_stop in *. unfold serving.
    destruct (mfoldl _ _ talk) as [c|x]; cbn beta iota; [|by apply rows_numbered].
    unfold finish_run. destruct (received ev) as [e|]; [by apply rows_numbered|].
    rewrite prog_bind_eq. unfold lift_res. destruct (wrap _ (lib_shutdown l)) as [[]|e]; by apply rows_numbered.
  - unfold run. rewrite Hb. cbn [outcome_process Close set_pool modify fst ps_live].
    pose proof (boot_effect vars l s ds Hfaults) as E. rewrite Hb in E.
    destruct (preflight vars l) as [c|x]; [|by injection E as -> ->]. injection E as -> _.
    destruct (recovered_quiet s Hfaults Hnum) as (_ & H1 & H2). split; [done|]. intros id r Hr. by apply H2 in Hr as [? _].
Qed.

End Life.


(** ** Bob's server, for the witnesses *)
Definition main_vars : environ := {["DATABASE_URL" := "postgres://db"; "SESSION_TTL" := "12h"]}.
Definition main_cfg : Config :=
  {| DatabaseURL := "postgres://db"; HTTPAddr := ":8080"; RTMPAddr := ":1935"; StateDir := "./state";
     FFmpegPath := "ffmpeg"; PublicRTMPURL := "rtmp://localhost:1935/live"; SecureCookies := false; SessionTTL := 12 * ns_hour |}.
Definition main_libs : libs :=
  {| lib_iofs := Ok tt; lib_migrate := fun url => if String.eqb url "pgx5://db" then Ok tt else Err (EIO "url");
     lib_up := Err ErrNoChange; lib_pool := fun _ => Ok tt; lib_readdir := true; lib_mkdir := true; lib_stuck := ∅;
     lib_templates := fun _ => Ok tt; lib_shutdown := Ok tt |}.
Definition bob_publishes : list lact := (LConnect plain_key :: publish_all 0)%list.
Definition no_messages (s : string) : option Message := None.

Lemma boot_order_witness :
  (* the previous process was killed with bob on the air *)
  let w := lrun "./state" (new_live bobs_store ∅) bob_publishes in
  map (fun x => open_row x.2) (map_to_list (rows_of w)) = [true] /\
  let '(p, r) := boot main_vars main_libs (fresh (st w) (dirs w)) in
  r = Ok main_cfg /\ (forall id x, rows_of (ps_live p) !! id = Some x -> open_row x = false) /\
  users (db (st (ps_live p))) = users (db (st w)).
Proof.
  intros w. split; [vm_compute; reflexivity|].
  assert (Hf : faults (st w) = []) by (vm_compute; reflexivity).
  pose proof (boot_order main_vars main_libs (st w) (dirs w) Hf) as H.
  assert (Hpre : preflight main_vars main_libs = Ok main_cfg) by (vm_compute; reflexivity). rewrite Hpre in H.
  destruct (boot main_vars main_libs (fresh (st w) (dirs w))) as [p r].
  destruct H as (_ & Hr & Hrows & _ & Hu & _). split; [apply Hr; split; [reflexivity | split; reflexivity]|].
  split; [exact Hrows | exact Hu].
Defined.

Lemma bobs_store_numbered : numbered bobs_store.
Proof. split; [done|]. intros id x. simpl. by rewrite lookup_empty. Qed.

Lemma main_boots : boot main_vars main_libs (fresh bobs_store ∅) =
  ({| ps_live := new_live (recovered bobs_store) ∅; ps_chat := newChat no_options; ps_pool := true |}, Ok main_cfg).
Proof.
  rewrite boot_effect by done. assert (Hpre : preflight main_vars main_libs = Ok main_cfg) by (vm_compute; reflexivity).
  by rewrite Hpre.
Qed.

(** A clean exit, and one on which the HTTP server's shutdown timed out. *)
Definition main_exit (l : libs) (ev : stop_event) : outcome :=
  run no_messages main_vars l bobs_store ∅ bob_publishes [] ev false.
Definition slow_libs : libs :=
  {| lib_iofs := Ok tt; lib_migrate := lib_migrate main_libs; lib_up := Err ErrNoChange; lib_pool := fun _ => Ok tt;
     lib_readdir := true; lib_mkdir := true; lib_stuck := ∅; lib_templates := fun _ => Ok tt; lib_shutdown := Err (EIO "deadline") |}.



(** A publisher that registers after the shutdown has taken its snapshot is
    not torn down: its row is open when the process ends. *)
Lemma late_publisher_outlives_shutdown :
  let w := lrun "./state" (new_live bobs_store ∅) (LConnect plain_key :: repeat (LPublish 0 true) 5)%list in
  let w' := publish_step 0 true (ShutdownLive "./state" false w) in
  byName w = ∅ /\ byName w' = {["bob" := 0%nat]} /\ map (fun x => open_row x.2) (map_to_list (rows_of w')) = [true].
Proof. split_and!; vm_compute; reflexivity. Qed.
